(* ===== verification/_CoqProject ===== *)
-Q . S2P
Prelude.v
CStd.v
Floats.v
PolicyStore.v
PolicyStoreSpec.v
Relay.v
Wallet.v
PepPlugins.v
Base64.v
Config.v
DataDumper.v
PolicyUpdater.v
PolicyLoader.v
PolicyLoaderSpec.v
PolicyService.v
ReplyScanner.v
Network.v
TxStore.v
WalletPlugins.v
Payment.v
Serial.v
Modbus.v
Dataset.v
CanMsgs.v
CanMsgsAlt.v
CanText.v
CanReceiver.v
CanLinux.v
CanOpenSdo.v
CanOpen.v
VehiclePlugins.v
Minmea.v
Gps.v
SerialPlugins.v
Obdii.v
ObdiiQuery.v
ObdiiDaemon.v
InfoPlugins.v
Main.v
Server.v
RepoTests.v
