(* ===== verification/Prelude.v ===== *)
(** * Access server: verification library

    The access server runs on a small board in a vehicle.  It fetches signed
    access policies from a policy service and stores them; clients connect over
    TCP, authenticate and ask for an action, which is granted or denied on the
    policies and on attributes gathered from the vehicle and the wallet; a
    granted action is carried out on relays, CAN buses or by a payment.  The
    decision itself and the cryptography belong to an SDK that is not part of the
    repository.  This library models the C code of the server and proves what
    its components promise.

    ** Files

    Foundations, which model no code of the repository: Prelude.v (bytes,
    machine integers, the outcome monad [out] of C code, finite ranges, searching
    in byte strings, tactics), CStd.v (blocks with bounds, strings, [strtok],
    decimal text, a POSIX file system) and Floats.v (IEEE single and double
    precision).

    Policies.
    - PolicyStore.v, PolicyStoreSpec.v: src/plugins/pap/posix/pap_plugin_posix.c.
      The state is the file system and the callback table; the specification is
      an index of identifiers with a map of policies.
    - PolicyUpdater.v: src/policy_updater/policy_updater.c, one TCP exchange with
      the policy service per call.
    - Base64.v, PolicyLoader.v, PolicyLoaderSpec.v: src/policy_loader/policy_loader.c,
      the decoder of signatures and the state machine that fetches policies and
      hands them to the policy administration point, with its thread;
      PolicyService.v: loader, updater and thread composed, round after round,
      against a policy service; ReplyScanner.v: the scanner of policy lists that
      nothing calls any more.

    Requests and actions.
    - Network.v: src/network/network.c, one client after the other; the state of
      the SDK is the type [world].
    - PepPlugins.v: src/plugins/pep/relay, print, can and canopen, written
      against the class [RelayBoard]; Relay.v: src/portability/boards/raspberrypi,
      which implements it on the pigpio library.
    - Wallet.v: src/wallet/wallet.c with its two services; WalletPlugins.v:
      src/plugins/pep/wallet and src/plugins/pip/wallet, written against the class
      [TransactionStore]; TxStore.v: src/portability/os/posix/posix.c, the text
      file that would implement it; Payment.v: the three together, from the
      action that pays to the attribute a policy reads.

    Attributes of the vehicle.
    - Dataset.v: src/plugins/dataset, the flags of the wanted signals.
    - DataDumper.v: src/data_dumper/data_dumper.c, the tree of JSON objects the
      receivers fill and the file it is written to.
    - CanMsgs.v, CanReceiver.v, CanLinux.v: src/plugins/pip/can, the layouts of the
      messages, the two frame callbacks and the socket with its reader thread;
      CanMsgsAlt.v: can_msgs_alt.h, a second description of the messages, against
      which the layouts are checked; CanText.v: lib.c, frames as text.
    - CanOpenSdo.v, CanOpen.v: src/plugins/pip/canopen, the object dictionary and
      the receiver with its sending thread.
    - VehiclePlugins.v: creating, starting and destroying the plugins around the
      two receivers, and their composition with the dataset and the dumper.
    - Serial.v: the configuration of a serial line, of which the GPS and the
      Modbus plugin have one copy each.
    - Minmea.v, Gps.v: src/plugins/pip/gps, the parser of sentences and the thread
      that puts them together from the serial line.
    - Modbus.v: src/plugins/pip/modbus; SerialPlugins.v: the ports, the start and
      the end of the GPS and the Modbus receiver.
    - Obdii.v, ObdiiQuery.v, ObdiiDaemon.v: src/plugins/pip/obdii/ejv_obdii, the
      decoders, the queries and the daemon that shares sockets; InfoPlugins.v:
      src/plugins/pip/gpio and the OBD-II plugin itself.

    Start: Config.v: src/config_manager; Main.v: src/main.c up to the wallet;
    Server.v: the whole of [main] with src/access/access.c, from the first line to
    the return, calling the start and stop of the loader and of the network.

    Tests: RepoTests.v, the test programs of the repository that need neither a
    network nor the SDK, run on the definitions of the other files.

    ** How the code is modelled

    A C function is a Rocq function of the same name; what it changes is passed
    as a state, a record with the static variables of its file.  A function that
    can meet undefined behaviour returns [out]: [Ret] of its result or [Undef]
    with the kind of the fault (a read or write outside a block, a null pointer,
    an uninitialised value, a double free, an overflow).  A theorem that
    concludes [Ret] therefore also says that no such fault occurs.  The one
    departure from the standard is a nibble or byte shifted into the sign bit of
    an [int] (lib.c, OBDII.c, OBDIIDaemon.c, pip_plugin_canopen.c), which is taken
    as gcc documents it: the bits are kept.  A byte is an
    integer, a buffer a list of bytes, a C string its bytes up to the NUL; the
    widths of machine integers are written out with [u8] to [u64] and [s32].
    Memory is explicit where the code shares it: the heap of the daemon's linked
    list, the array of JSON objects, the buffers a parser cuts into tokens.  What
    uninitialised memory holds, and what follows a block the code reads beyond
    its end as a string, is an argument: [heap_after] of the policy store,
    [uri_arrays] of the wallet plugin.

    Code outside the repository is a parameter: a class of its operations
    ([IotaClient], [Pigpio], [LoaderSdk], [ServerSdk], [AccessSdk], [PapApi],
    [HexCodec], [Json]) with, where a theorem needs it, a class or hypothesis that states its
    documented behaviour; the witness of such a theorem gives a concrete
    instance.  What the operating system returns is an argument.  Threads that
    hold a common lock are sequences of calls; the reader thread and the thread
    that stops it, which share a flag without one, are a step relation, and a
    stop that waits for the reader comes back or not by the fate of its request
    ([stop_fate] of VehiclePlugins.v).

    Loops that end by themselves are structural.  A loop whose end depends on the
    environment takes the rounds the environment offers as a list, so that
    nothing is cut off: the services of the wallet, the reader of CAN frames, the
    client of the serial port, the daemon of the OBD-II sockets.  The remaining
    fuel is a bound that the theorems show to be enough: 20 decimal digits for 64
    bits, six digits of microseconds, 32 rounds to count the bits of a word, and
    the size of the heap for the search in a linked list.

    ** What the theorems show

    - Refinement: the policy store implements a map with an index for every
      sequence of operations, as long as a NUL follows the blocks it searches as
      strings (a condition on [heap_after]; without it the run is a read behind
      a block); the relay board a list of switches; the bill a
      record of payments; the CANopen plugin a map of actions; the daemon a table
      of counted descriptors whose open sockets are exactly the table's; the file
      of a dump period holds exactly what the frames of the period produce.
    - Round trips: stored policies are read back, Base64, options of an INI
      file and the text form of CAN frames decode to what was encoded, fields
      of CAN frames, NMEA sentences, trouble codes and selections of signals
      come out as they were put in.
    - From end to end: the policies handed to the administration point are
      those the policy service lists, round after round; a selection in JSON
      decides which signals the frames of the bus publish, but for the two
      driver's doors, which it exchanges; what the published Modbus signals are
      for any device on the line, silent ones included; a report on the serial
      port, however it is cut into pieces short of the array, becomes the
      published position; a payment becomes the attribute of the policy, on any
      store that obeys its law.
    - Safety and errors: clients that fail to authenticate change nothing;
      damaged Modbus frames and NMEA sentences are reported; any sequence of
      OBD-II queries gives each command a value of its type or an error and
      never leaves a buffer, up to the first correct reply to a command without
      a decoder, which is a null pointer; which inputs do make other code leave
      theirs; the server ends without a fault exactly when its threads came into
      being; a CAN plugin lives once.
    - Liveness and termination: the services of the wallet report and end, and
      when the confirmation service does not.
    - Equivalence and invariants: reading a file in chunks is one scan, the pieces
      of a serial line do not matter, published objects stay well formed, the
      two descriptions of the CAN messages agree but for a list of fields.
    - Several theorems describe what the code does where that is not what it means
      to do (an answer is inverted, a wallet is never created, a command set
      counts a command it does not hold); the manifest lists them as findings.

    Every property has a number in its comment (C1, C2, ...); its witness carries
    its name with the suffix [_witness] and lies in a module at the end of the
    file.

    ** Not modelled

    - lib.c, can_linux.c and can_thread.c of the CANopen plugin, byte for byte
      copies of the files of the CAN plugin that no build file compiles; the
      plugin calls the CAN plugin's.
    - The loggers, with the malformed conversions two calls in wallet.c pass to
      them; the boards esp and telemaco3p and the hsm plugins, which have
      no code; the test programs that talk to a network or to the SDK.
    - The header rpi_trans.h with the functions rpitransaction_*, which the wallet
      plugins call and no file of the repository defines: WalletPlugins.v and
      Payment.v take any store with the law [TransactionStoreOk].
    - Dumps that come in between the test of the time and the lock of another
      thread's dump (a lemma of DataDumper.v shows what they do).
    - Settings of sockets, file descriptors of log files, time strings and console
      messages.  The tables of callbacks that initializers fill are the functions
      they hold.
    - The floating-point option of the configuration manager, which nothing
      reads, and datadumper_get_mutex, which returns an address.
    - Policies are evaluated by libraries whose directories are empty in the
      repository. *)

From Stdlib Require Export ZArith Lia.
From stdpp Require Export base numbers list gmap strings option.

#[export] Set Default Goal Selector "!".

Declare Scope access_scope.
Delimit Scope access_scope with access.
#[global] Open Scope Z_scope.
#[global] Open Scope access_scope.

(** ** Bytes *)

(** A C byte is an integer in [0, 256); a C buffer is the list of its bytes. *)
Abbreviation byte := Z (only parsing).
Abbreviation bytes := (list Z).

Definition is_byte (b : Z) : Prop := 0 <= b < 256.

(** The bytes of a string literal, without its terminating NUL. *)
Definition cstr (s : string) : bytes :=
  map (fun a => Z.of_N (Ascii.N_of_ascii a)) (String.list_ascii_of_string s).
Arguments cstr s%_string.

(** The same literal between double quotes, as it occurs in JSON text. *)
Definition quoted (s : string) : bytes := 34 :: cstr s ++ [34].
Arguments quoted s%_string.

(** ** Machine integers *)

Definition u8 (z : Z) : Z := z mod 2 ^ 8.
Definition u16 (z : Z) : Z := z mod 2 ^ 16.
Definition u32 (z : Z) : Z := z mod 2 ^ 32.
Definition u64 (z : Z) : Z := z mod 2 ^ 64.

(** Two's complement reading of the low 32 bits. *)
Definition s32 (z : Z) : Z := (z + 2 ^ 31) mod 2 ^ 32 - 2 ^ 31.

Definition int_max : Z := 2 ^ 31 - 1.
Definition int_min : Z := - 2 ^ 31.

(** ** Outcomes of C code

    A C function either produces a value or meets undefined behaviour; the
    constructor of [ub] says which. *)

Inductive ub : Set :=
| OobRead | OobWrite | NullDeref | Uninit | DoubleFree | BadFree | IntOverflow | DivByZero | BadShift.

Inductive out (A : Type) : Type :=
| Ret (a : A)
| Undef (u : ub).
Arguments Ret {A} a.
Arguments Undef {A} u.

#[export] Instance ub_eq_dec : EqDecision ub.
Proof. solve_decision. Defined.

#[export] Instance out_eq_dec `{EqDecision A} : EqDecision (out A).
Proof. solve_decision. Defined.

#[export] Instance out_ret : MRet out := fun _ a => Ret a.
#[export] Instance out_bind : MBind out :=
  fun _ _ f m => match m with Ret a => f a | Undef u => Undef u end.
#[export] Instance out_fmap : FMap out :=
  fun _ _ f m => match m with Ret a => Ret (f a) | Undef u => Undef u end.

(** A run-time obligation of the C code: undefined behaviour [u] when it fails. *)
Definition ensure (b : bool) (u : ub) : out unit := if b then Ret tt else Undef u.

(** Dereferencing a possibly null pointer. *)
Definition deref {A} (p : option A) : out A :=
  match p with Some a => Ret a | None => Undef NullDeref end.

Definition defined {A} (m : out A) : Prop := exists a, m = Ret a.

Lemma bind_Ret {A B} (m : out A) (f : A -> out B) (b : B) :
  m ≫= f = Ret b <-> exists a, m = Ret a /\ f a = Ret b.
Proof.
  destruct m as [a|u]; cbn; split.
  - eauto.
  - intros (a' & [= ->] & H). done.
  - done.
  - intros (a' & H & _). done.
Qed.

(** The two rewriting rules run one step of a computation whose next part is
    large, where unfolding [mbind] would make the kernel compare both parts. *)
Lemma ret_bind {A B} (a : A) (f : A -> out B) : Ret a ≫= f = f a.
Proof. done. Qed.

Lemma deref_bind {A B} (a : A) (f : A -> out B) : deref (Some a) ≫= f = f a.
Proof. done. Qed.

Create HintDb run.
#[export] Hint Rewrite @ret_bind @deref_bind : run.

(** [run] performs every step that does not depend on the value of an earlier
    one; [run_step] performs one and computes. *)
Ltac run := autorewrite with run.
Ltac run_step := first [ rewrite ret_bind | rewrite deref_bind ]; cbn beta iota.

Lemma ensure_Ret b u : ensure b u = Ret tt <-> b = true.
Proof. destruct b; cbn; split; done. Qed.

(** [zdec] decides the comparisons of a goal that linear arithmetic settles. *)
Ltac zdec_step :=
  match goal with
  | |- context [?a <=? ?b] =>
      first [ rewrite (proj2 (Z.leb_le a b)) by lia | rewrite (proj2 (Z.leb_gt a b)) by lia ]
  | |- context [?a <? ?b] =>
      first [ rewrite (proj2 (Z.ltb_lt a b)) by lia | rewrite (proj2 (Z.ltb_ge a b)) by lia ]
  | |- context [?a =? ?b] =>
      first [ rewrite (proj2 (Z.eqb_eq a b)) by lia | rewrite (proj2 (Z.eqb_neq a b)) by lia ]
  | |- context [(?a <=? ?b)%nat] =>
      first [ rewrite (proj2 (Nat.leb_le a b)) by lia | rewrite (proj2 (Nat.leb_gt a b)) by lia ]
  | |- context [(?a <? ?b)%nat] =>
      first [ rewrite (proj2 (Nat.ltb_lt a b)) by lia | rewrite (proj2 (Nat.ltb_ge a b)) by lia ]
  | |- context [(?a =? ?b)%nat] =>
      first [ rewrite (proj2 (Nat.eqb_eq a b)) by lia | rewrite (proj2 (Nat.eqb_neq a b)) by lia ]
  end.
Ltac zdec := repeat (zdec_step; cbn [andb orb negb]).

(** [znorm H] turns the boolean comparisons of a hypothesis into propositions. *)
Ltac znorm H :=
  repeat first
    [ rewrite andb_true_iff in H | rewrite orb_true_iff in H
    | rewrite andb_false_iff in H | rewrite orb_false_iff in H
    | rewrite negb_true_iff in H | rewrite negb_false_iff in H
    | rewrite Z.leb_le in H | rewrite Z.leb_gt in H
    | rewrite Z.ltb_lt in H | rewrite Z.ltb_ge in H
    | rewrite Z.eqb_eq in H | rewrite Z.eqb_neq in H
    | rewrite Nat.leb_le in H | rewrite Nat.leb_gt in H
    | rewrite Nat.ltb_lt in H | rewrite Nat.ltb_ge in H
    | rewrite Nat.eqb_eq in H | rewrite Nat.eqb_neq in H ].

(** ** Finite ranges of integers

    [all_bits n f acc] tests [f] on the [2 ^ n] numbers whose leading bits are
    [acc], so that a property of all 16-bit words can be computed. *)
Fixpoint all_bits (n : nat) (f : Z -> bool) (acc : Z) : bool :=
  match n with
  | O => f acc
  | S n => all_bits n f (2 * acc) && all_bits n f (2 * acc + 1)
  end.

Lemma all_bits_spec n f acc z :
  all_bits n f acc = true -> acc * 2 ^ Z.of_nat n <= z < (acc + 1) * 2 ^ Z.of_nat n -> f z = true.
Proof.
  revert acc; induction n as [|n IH]; intros acc; cbn [all_bits].
  - change (2 ^ Z.of_nat 0) with 1. intros Hf Hz. by replace z with acc by lia.
  - rewrite andb_true_iff, Nat2Z.inj_succ, Z.pow_succ_r by lia. intros [H0 H1] Hz.
    destruct (Z.lt_ge_cases z ((2 * acc + 1) * 2 ^ Z.of_nat n)) as [Hl|Hl].
    + apply (IH (2 * acc)); [done | lia].
    + apply (IH (2 * acc + 1)); [done | lia].
Qed.

Lemma lxor_bound n a b :
  0 <= n -> 0 <= a < 2 ^ n -> 0 <= b < 2 ^ n -> 0 <= Z.lxor a b < 2 ^ n.
Proof.
  intros Hn Ha Hb. assert (Z.lxor a b = Z.lxor a b mod 2 ^ n) as ->.
  { apply Z.bits_inj'. intros i Hi. destruct (Z.lt_ge_cases i n).
    - by rewrite Z.mod_pow2_bits_low.
    - rewrite Z.mod_pow2_bits_high by lia. rewrite Z.lxor_spec.
      rewrite <- (Z.mod_small a (2 ^ n)), <- (Z.mod_small b (2 ^ n)) by done.
      by rewrite !Z.mod_pow2_bits_high by lia. }
  apply Z.mod_pos_bound. lia.
Qed.

(** A property of all bytes can be computed as well. *)
Lemma byte_computes (P : Z -> Prop) `{forall z, Decision (P z)} b :
  all_bits 8 (fun z => bool_decide (P z)) 0 = true -> is_byte b -> P b.
Proof.
  intros Hall Hb. apply (bool_decide_eq_true (P b)). unfold is_byte in Hb.
  apply (all_bits_spec 8 _ 0 b Hall). lia.
Qed.

Lemma land_bound n a b : 0 <= n -> 0 <= a < 2 ^ n -> 0 <= Z.land a b < 2 ^ n.
Proof.
  intros Hn Ha. assert (Z.land a b = Z.land a b mod 2 ^ n) as ->.
  { apply Z.bits_inj'. intros i Hi. destruct (Z.lt_ge_cases i n).
    - by rewrite Z.mod_pow2_bits_low.
    - rewrite Z.mod_pow2_bits_high, Z.land_spec by lia.
      by rewrite <- (Z.mod_small a (2 ^ n)), Z.mod_pow2_bits_high by lia. }
  apply Z.mod_pos_bound. lia.
Qed.

(** A number of [n] bits has none above them. *)
Lemma testbit_high n m i : 0 <= m < 2 ^ n -> n <= i -> Z.testbit m i = false.
Proof.
  intros Hm Hi. destruct (Z.lt_ge_cases n 0) as [Hn|Hn]; [by rewrite Z.pow_neg_r in Hm by lia; lia|].
  rewrite <- (Z.mod_small m (2 ^ n)) by done. by apply Z.mod_pow2_bits_high.
Qed.

Lemma lor_shift_add n hi lo :
  0 <= n -> 0 <= lo < 2 ^ n -> Z.lor (Z.shiftl hi n) lo = hi * 2 ^ n + lo.
Proof.
  intros Hn Hlo. assert (Z.land (Z.shiftl hi n) lo = 0) as Hand.
  { apply Z.bits_inj'. intros i Hi. rewrite Z.land_spec, Z.bits_0.
    destruct (Z.lt_ge_cases i n).
    - by rewrite Z.shiftl_spec_low.
    - rewrite <- (Z.mod_small lo (2 ^ n)), Z.mod_pow2_bits_high by lia. apply andb_false_r. }
  rewrite <- Z.lxor_lor, <- Z.add_nocarry_lxor, Z.shiftl_mul_pow2 by done. done.
Qed.

Lemma lor_shift_high n lo hi : 0 <= n -> 0 <= lo < 2 ^ n -> Z.lor lo (Z.shiftl hi n) = lo + hi * 2 ^ n.
Proof. intros. rewrite Z.lor_comm, lor_shift_add by done. lia. Qed.

Lemma u32_range z : 0 <= u32 z < 2 ^ 32.
Proof. apply Z.mod_pos_bound. lia. Qed.

Lemma mapM_Ret {A B} (f : A -> out B) l ys :
  Forall2 (fun x y => f x = Ret y) l ys -> mapM f l = Ret ys.
Proof.
  induction 1 as [|x y l ys Hx _ IH]; [done|]. cbn. rewrite Hx. cbn.
  change ((mapM f l ≫= fun k => Ret (y :: k)) = Ret (y :: ys)). by rewrite IH.
Qed.

Lemma mjoin_cons {A} (x : list A) l : mjoin (x :: l) = x ++ mjoin l.
Proof. done. Qed.

Lemma drop_repeat {A} (x : A) n m : drop n (repeat x m) = repeat x (m - n).
Proof. revert m; induction n as [|n IH]; intros [|m]; cbn; auto. Qed.

Lemma find_ext_in {A} (f g : A -> bool) l :
  (forall x, x ∈ l -> f x = g x) -> List.find f l = List.find g l.
Proof.
  induction l as [|x l IH]; cbn; intros Hfg; [done|].
  rewrite Hfg, IH; [done | set_solver | set_solver].
Qed.

(** ** Searching a byte string

    [find_sub p l] is the offset of the first occurrence of [p] in [l]. *)

Fixpoint is_prefix (p l : bytes) : bool :=
  match p, l with
  | [], _ => true
  | a :: p', b :: l' => (a =? b) && is_prefix p' l'
  | _ :: _, [] => false
  end.

Fixpoint find_sub (p l : bytes) : option nat :=
  if is_prefix p l then Some 0%nat
  else match l with
       | [] => None
       | _ :: l' => S <$> find_sub p l'
       end.

Lemma is_prefix_spec p l : is_prefix p l = true <-> exists k, l = p ++ k.
Proof.
  revert l; induction p as [|a p IH]; intros [|b l]; cbn; split; try done; eauto.
  - intros [k Hk]. done.
  - rewrite andb_true_iff, Z.eqb_eq, IH. intros [-> [k ->]]. eauto.
  - rewrite andb_true_iff, Z.eqb_eq, IH. intros [k [= -> ->]]. eauto.
Qed.

Lemma is_prefix_app p k : is_prefix p (p ++ k) = true.
Proof. apply is_prefix_spec. eauto. Qed.

Lemma find_sub_here p k : find_sub p (p ++ k) = Some 0%nat.
Proof.
  destruct (p ++ k) eqn:E; cbn; rewrite <- E, is_prefix_app; done.
Qed.

Lemma find_sub_cons_ne p c l :
  is_prefix p (c :: l) = false -> find_sub p (c :: l) = S <$> find_sub p l.
Proof. intros H. cbn [find_sub]. by rewrite H. Qed.

(** Every successful search returns an occurrence. *)
Lemma find_sub_Some p l i :
  find_sub p l = Some i ->
  exists a k, l = a ++ p ++ k /\ length a = i /\ find_sub p l = Some (length a).
Proof.
  revert i; induction l as [|c l IH]; intros i; cbn [find_sub].
  - destruct (is_prefix p []) eqn:E; [|done]. intros [= <-].
    apply is_prefix_spec in E as [k Hk]. exists [], k. done.
  - destruct (is_prefix p (c :: l)) eqn:E.
    + intros [= <-]. apply is_prefix_spec in E as [k Hk]. exists [], k. done.
    + destruct (find_sub p l) as [j|] eqn:F; [|done]. intros [= <-].
      destruct (IH j eq_refl) as (a & k & -> & Hj & _).
      exists (c :: a), k. cbn. rewrite Hj. done.
Qed.

Lemma is_prefix_longer p s k :
  (length p <= length s)%nat -> is_prefix p (s ++ k) = is_prefix p s.
Proof.
  revert s; induction p as [|a p IH]; intros [|b s] Hl; cbn in *; [done.. | lia |]. rewrite IH by lia. done.
Qed.

(** What follows a text does not move the first occurrence inside it. *)
Lemma find_sub_app p l k i : find_sub p l = Some i -> find_sub p (l ++ k) = Some i.
Proof.
  revert i; induction l as [|c l IH]; intros i Hf.
  - cbn in Hf. destruct p as [|a p]; [|done]. injection Hf as <-. by destruct k.
  - assert (length p <= length (c :: l))%nat as Hl.
    { apply find_sub_Some in Hf as (a & r & -> & _). rewrite !length_app. lia. }
    cbn [find_sub app] in *. change (c :: l ++ k) with ((c :: l) ++ k). rewrite is_prefix_longer by done.
    destruct (is_prefix p (c :: l)); [done|]. destruct (find_sub p l); [|done].
    by rewrite (IH n).
Qed.

(** [clash p s]: the two strings differ at a position both have. *)
Fixpoint clash (p s : bytes) : bool :=
  match p, s with
  | a :: p', b :: s' => negb (a =? b) || clash p' s'
  | _, _ => false
  end.

(** [skips p lit]: no occurrence of [p] starts inside [lit], whatever follows. *)
Fixpoint skips (p lit : bytes) : bool :=
  match lit with
  | [] => true
  | _ :: lit' => clash p lit && skips p lit'
  end.

Lemma clash_is_prefix p s k : clash p s = true -> is_prefix p (s ++ k) = false.
Proof.
  revert s; induction p as [|a p IH]; intros [|b s]; cbn; try done.
  destruct (a =? b); cbn; [apply IH | done].
Qed.

Lemma find_sub_skips p lit l :
  skips p lit = true -> find_sub p (lit ++ l) = Nat.add (length lit) <$> find_sub p l.
Proof.
  induction lit as [|c lit IH]; cbn [skips app length].
  - intros _. destruct (find_sub p l); done.
  - rewrite andb_true_iff. intros [Hc Hs].
    rewrite find_sub_cons_ne by exact (clash_is_prefix p (c :: lit) l Hc).
    rewrite IH by done. destruct (find_sub p l); done.
Qed.

(** No occurrence of [p] starts in a piece of text that is shorter than [p] and
    followed by a byte that does not occur after the head of [p]. *)
Lemma short_no_prefix p f c l :
  f <> [] -> (length f < length p)%nat -> c ∉ tail p -> is_prefix p (f ++ c :: l) = false.
Proof.
  intros Hf Hlen Hc. destruct (is_prefix p (f ++ c :: l)) eqn:E; [|done]. exfalso.
  apply is_prefix_spec in E as [k Hk].
  destruct f as [|b f]; [done|]. destruct p as [|a p]; [cbn in Hlen; lia|].
  cbn in *. injection Hk as -> Hk. apply Hc.
  apply (f_equal (lookup (length f))) in Hk.
  rewrite lookup_app_r, Nat.sub_diag in Hk by lia. cbn in Hk.
  rewrite lookup_app_l in Hk by lia. by eapply list_elem_of_lookup_2.
Qed.

(** A field [f] that misses some byte of [p], followed by a byte that does not
    occur after the head of [p], cannot start an occurrence of [p]. *)
Lemma field_no_prefix p f c l x :
  f <> [] -> x ∈ p -> x ∉ f -> c ∉ tail p -> is_prefix p (f ++ c :: l) = false.
Proof.
  intros Hf Hx Hxf Hc.
  destruct (decide (length p <= length f)%nat) as [Hle|Hgt]; [|apply short_no_prefix; auto; lia].
  destruct (is_prefix p (f ++ c :: l)) eqn:E; [|done]. exfalso.
  apply is_prefix_spec in E as [k Hk].
  apply (f_equal (take (length p))) in Hk.
  rewrite take_app_length, take_app_le in Hk by done.
  apply Hxf. rewrite <- (take_drop (length p) f), Hk. set_solver.
Qed.

Lemma find_sub_field p f c l x :
  x ∈ p -> x ∉ f -> c ∉ tail p ->
  find_sub p (f ++ c :: l) = Nat.add (length f) <$> find_sub p (c :: l).
Proof.
  intros Hx. induction f as [|b f IH]; intros Hf Hc.
  - cbn [app length]. destruct (find_sub p (c :: l)); done.
  - cbn [app length]. rewrite find_sub_cons_ne.
    + rewrite IH by set_solver. destruct (find_sub p (c :: l)); done.
    + change (b :: f ++ c :: l) with ((b :: f) ++ c :: l).
      eapply field_no_prefix; [done | exact Hx | done | done].
Qed.

Lemma find_sub_short p f c l :
  (length f < length p)%nat -> c ∉ p ->
  find_sub p (f ++ c :: l) = Nat.add (S (length f)) <$> find_sub p l.
Proof.
  intros Hlen Hc. assert (c ∉ tail p) as Ht by (destruct p; set_solver).
  revert Hlen; induction f as [|b f IH]; intros Hlen.
  - cbn [app length]. rewrite find_sub_cons_ne; [done|].
    destruct p as [|a p]; [cbn in Hlen; lia|]. cbn.
    destruct (Z.eqb_spec a c); [set_solver | done].
  - cbn [app length]. rewrite find_sub_cons_ne.
    + rewrite IH by (cbn in Hlen; lia). destruct (find_sub p l); done.
    + change (b :: f ++ c :: l) with ((b :: f) ++ c :: l). by apply short_no_prefix.
Qed.

(** A record of the length of [p] but different from it, closed by a separator
    that [p] does not contain, is skipped whole. *)
Lemma find_sub_block p f c l :
  p <> [] -> length f = length p -> f <> p -> c ∉ p ->
  find_sub p (f ++ c :: l) = Nat.add (S (length f)) <$> find_sub p l.
Proof.
  intros Hp Hlen Hne Hc. destruct f as [|b f]; [destruct p; done|].
  cbn [app length]. rewrite find_sub_cons_ne.
  - rewrite find_sub_short by (cbn in Hlen; done || lia). destruct (find_sub p l); done.
  - destruct (is_prefix p (b :: f ++ c :: l)) eqn:E; [|done]. exfalso.
    apply is_prefix_spec in E as [k Hk]. apply Hne.
    change (b :: f ++ c :: l) with ((b :: f) ++ c :: l) in Hk.
    apply (f_equal (take (length p))) in Hk.
    by rewrite take_app_length, take_app_length' in Hk by done.
Qed.
