(* ===== verification/CStd.v ===== *)
(** * The C standard library, as far as the access server uses it

    Memory blocks with bounds, NUL-terminated strings, [strstr], [strtok],
    [strncpy], decimal conversion, and a small POSIX file system.  The file
    models the language and its library, not code of the repository, so none
    of its definitions has an entry in the map. *)

From S2P Require Import Prelude.

(** ** Memory blocks *)

(** [len] bytes of the block from offset [off]; a negative length is a huge
    [size_t]. *)
Definition slice (off len : Z) (buf : bytes) : out bytes :=
  if (0 <=? off) && (0 <=? len) && (off + len <=? Z.of_nat (length buf))
  then Ret (take (Z.to_nat len) (drop (Z.to_nat off) buf))
  else Undef OobRead.

(** [memcpy(dst + off, src, length src)]. *)
Definition blit (dst : bytes) (off : Z) (src : bytes) : out bytes :=
  if (0 <=? off) && (off + Z.of_nat (length src) <=? Z.of_nat (length dst))
  then Ret (take (Z.to_nat off) dst ++ src ++ drop (Z.to_nat off + length src) dst)
  else Undef OobWrite.

(** A single cell. *)
Definition load (buf : bytes) (i : Z) : out Z :=
  if (0 <=? i) && (i <? Z.of_nat (length buf))
  then from_option Ret (Undef OobRead) (buf !! Z.to_nat i)
  else Undef OobRead.

Definition store (buf : bytes) (i v : Z) : out bytes :=
  if (0 <=? i) && (i <? Z.of_nat (length buf))
  then Ret (<[Z.to_nat i := v]> buf)
  else Undef OobWrite.

Lemma length_blit dst off src b :
  blit dst off src = Ret b -> length b = length dst.
Proof.
  unfold blit. destruct (_ && _) eqn:E; [|done]. intros [= <-].
  znorm E. rewrite !length_app, length_take, length_drop. lia.
Qed.

Lemma blit_Ret dst off src :
  0 <= off -> off + Z.of_nat (length src) <= Z.of_nat (length dst) ->
  blit dst off src = Ret (take (Z.to_nat off) dst ++ src ++ drop (Z.to_nat off + length src) dst).
Proof. intros. unfold blit. by zdec. Qed.

Lemma blit_oob dst off src :
  Z.of_nat (length dst) < off + Z.of_nat (length src) -> blit dst off src = Undef OobWrite.
Proof. intros H. unfold blit. rewrite (proj2 (Z.leb_gt (off + _) _)) by lia. by rewrite andb_false_r. Qed.

Lemma blit_0 dst src :
  (length src <= length dst)%nat -> blit dst 0 src = Ret (src ++ drop (length src) dst).
Proof.
  intros H. unfold blit. by zdec.
Qed.

Lemma slice_app a b c off len :
  off = Z.of_nat (length a) -> len = Z.of_nat (length b) -> slice off len (a ++ b ++ c) = Ret b.
Proof.
  intros -> ->. unfold slice. rewrite !length_app. zdec.
  rewrite !Nat2Z.id, drop_app_length, take_app_length. done.
Qed.

Lemma slice_0_app a junk len :
  len = Z.of_nat (length a) -> slice 0 len (a ++ junk) = Ret a.
Proof. intros H. by apply (slice_app [] a junk). Qed.

Lemma slice_Ret off len buf b :
  slice off len buf = Ret b ->
  Z.of_nat (length b) = len /\ b = take (Z.to_nat len) (drop (Z.to_nat off) buf).
Proof.
  unfold slice. destruct (_ && _) eqn:E; [|done]. intros [= <-].
  znorm E.
  rewrite length_take, length_drop. split; [lia | done].
Qed.

Lemma load_lookup buf i x :
  0 <= i -> buf !! Z.to_nat i = Some x -> load buf i = Ret x.
Proof.
  intros Hi Hx. unfold load. pose proof (lookup_lt_Some _ _ _ Hx). zdec. by rewrite Hx.
Qed.

Lemma load_app a x b i : i = Z.of_nat (length a) -> load (a ++ x :: b) i = Ret x.
Proof.
  intros ->. apply load_lookup; [lia|]. by rewrite Nat2Z.id, list_lookup_middle.
Qed.

Lemma load_app_r a b i k :
  i = Z.of_nat (length a) + k -> 0 <= k -> load (a ++ b) i = load b k.
Proof.
  intros -> Hk. unfold load. rewrite length_app.
  destruct (Z.ltb_spec k (Z.of_nat (length b))); zdec.
  - rewrite lookup_app_r by lia. do 3 f_equal. lia.
  - done.
Qed.

Lemma load_at a b i k x :
  i = Z.of_nat (length a) + Z.of_nat k -> b !! k = Some x -> load (a ++ b) i = Ret x.
Proof.
  intros -> Hx. apply load_lookup; [lia|]. rewrite lookup_app_r by lia. rewrite <- Hx. f_equal. lia.
Qed.

Lemma load_oob buf i : Z.of_nat (length buf) <= i -> load buf i = Undef OobRead.
Proof. intros Hi. unfold load. rewrite (proj2 (Z.ltb_ge i _)) by lia. by rewrite andb_false_r. Qed.

Lemma load_defined buf i : 0 <= i < Z.of_nat (length buf) -> exists x, load buf i = Ret x.
Proof.
  intros Hi. destruct (lookup_lt_is_Some_2 buf (Z.to_nat i)) as [x Hx]; [lia|].
  exists x. apply load_lookup; [lia | done].
Qed.

Lemma store_app a x b i v : i = Z.of_nat (length a) -> store (a ++ x :: b) i v = Ret (a ++ v :: b).
Proof.
  intros ->. unfold store. rewrite length_app. cbn [length]. zdec.
  rewrite Nat2Z.id, insert_app_r_alt, Nat.sub_diag by lia. done.
Qed.

Lemma store_at a b i k v :
  i = Z.of_nat (length a) + Z.of_nat k -> (k < length b)%nat ->
  store (a ++ b) i v = Ret (a ++ <[k := v]> b).
Proof.
  intros -> Hk. unfold store. rewrite length_app. zdec.
  replace (Z.to_nat _) with (length a + k)%nat by lia. by rewrite insert_app_r.
Qed.

Lemma store_oob buf i v : Z.of_nat (length buf) <= i -> store buf i v = Undef OobWrite.
Proof. intros Hi. unfold store. rewrite (proj2 (Z.ltb_ge i _)) by lia. by rewrite andb_false_r. Qed.

Lemma store_defined buf i v :
  0 <= i < Z.of_nat (length buf) -> exists b, store buf i v = Ret b /\ length b = length buf.
Proof.
  intros Hi. unfold store. zdec. eexists. split; [done|]. by rewrite length_insert.
Qed.

(** A load from a block of bytes gives a byte. *)
Lemma load_byte p i x : Forall is_byte p -> load p i = Ret x -> is_byte x.
Proof.
  unfold load. intros Hp. destruct (_ && _); [|done].
  destruct (p !! Z.to_nat i) as [y|] eqn:E; [|done]. intros [= <-].
  exact (proj1 (list.Forall_forall _ _) Hp y (list_elem_of_lookup_2 _ _ _ E)).
Qed.

(** The unsigned number a little-endian machine reads from some bytes. *)
Fixpoint from_le (b : bytes) : Z :=
  match b with [] => 0 | c :: b => c + 256 * from_le b end.

(** The bytes such a machine stores for a number. *)
Fixpoint le_bytes (n : nat) (v : Z) : bytes :=
  match n with O => [] | S n => v mod 256 :: le_bytes n (v / 256) end.

Lemma from_le_bytes n v : 0 <= v < 256 ^ Z.of_nat n -> from_le (le_bytes n v) = v.
Proof.
  revert v; induction n as [|n IH]; intros v Hv; cbn [le_bytes from_le].
  - change (256 ^ Z.of_nat 0) with 1 in Hv. lia.
  - rewrite Nat2Z.inj_succ, Z.pow_succ_r in Hv by lia.
    rewrite IH; [pose proof (Z.div_mod v 256); lia|].
    split; [apply Z.div_pos; lia | apply Z.div_lt_upper_bound; lia].
Qed.

(** The memory from a pointer [i] bytes into a block. *)
Definition tail_from (mem : bytes) (i : Z) : out bytes :=
  if (0 <=? i) && (i <=? Z.of_nat (length mem)) then Ret (drop (Z.to_nat i) mem) else Undef OobRead.

Lemma tail_from_app a b i : i = Z.of_nat (length a) -> tail_from (a ++ b) i = Ret b.
Proof.
  intros ->. unfold tail_from. rewrite length_app. zdec. by rewrite Nat2Z.id, drop_app_length.
Qed.

Lemma tail_from_length mem i r : tail_from mem i = Ret r -> (length r <= length mem)%nat.
Proof.
  unfold tail_from. destruct (_ && _); [|done]. intros [= <-]. rewrite length_drop. lia.
Qed.

(** A zeroed array of [n] bytes after [memcpy] of a literal to its head. *)
Definition literal_in (n : nat) (s : bytes) : bytes := s ++ repeat 0 (n - length s).

(** A character of a string literal. *)
Definition nth_char (s : string) (n : Z) : Z := default 0 (cstr s !! Z.to_nat n).
Arguments nth_char s%_string.

(** ** Strings *)

(** The bytes before the first NUL, and whether there is one. *)
Fixpoint before_nul (mem : bytes) : bytes :=
  match mem with
  | [] => []
  | c :: mem' => if c =? 0 then [] else c :: before_nul mem'
  end.

Definition has_nul (mem : bytes) : bool := bool_decide (0 ∈ mem).

(** The C string at the head of a block. *)
Definition c_str (mem : bytes) : out bytes :=
  if has_nul mem then Ret (before_nul mem) else Undef OobRead.

Definition no_nul (s : bytes) : Prop := 0 ∉ s.

Lemma before_nul_app s k : no_nul s -> before_nul (s ++ 0 :: k) = s.
Proof.
  unfold no_nul. induction s as [|c s IH]; cbn; [done|].
  intros H. destruct (Z.eqb_spec c 0) as [->|]; [set_solver|].
  rewrite IH; [done | set_solver].
Qed.

Lemma before_nul_id s : no_nul s -> before_nul s = s.
Proof.
  unfold no_nul. induction s as [|c s IH]; cbn; [done|].
  intros H. destruct (Z.eqb_spec c 0) as [->|]; [set_solver|].
  rewrite IH; [done | set_solver].
Qed.

Lemma before_nul_no_nul s : no_nul (before_nul s).
Proof.
  unfold no_nul. induction s as [|c s IH]; cbn; [set_solver|].
  destruct (Z.eqb_spec c 0); set_solver.
Qed.

Lemma c_str_app s k : no_nul s -> c_str (s ++ 0 :: k) = Ret s.
Proof.
  intros H. unfold c_str, has_nul. rewrite bool_decide_true by set_solver.
  by rewrite before_nul_app.
Qed.

Lemma c_str_inv mem s : c_str mem = Ret s -> exists junk, mem = s ++ 0 :: junk.
Proof.
  unfold c_str, has_nul. case_bool_decide as H; [|done]. intros [= <-].
  induction mem as [|c mem IH]; [set_solver|]. cbn [before_nul].
  destruct (Z.eqb_spec c 0) as [->|]; [by exists mem|].
  destruct IH as [junk E]; [set_solver|]. exists junk. cbn. by rewrite E at 1.
Qed.

Lemma length_before_nul s : (length (before_nul s) <= length s)%nat.
Proof. induction s as [|c s IH]; cbn; [lia|]. destruct (c =? 0); cbn; lia. Qed.

(** [strstr] takes a string: readable memory without a terminator is a read
    behind its end, whether or not the pattern occurs in it. *)
Definition strstr (mem pat : bytes) : out (option nat) :=
  s ← c_str mem; Ret (find_sub pat s).

Lemma strstr_unterminated mem pat : has_nul mem = false -> strstr mem pat = Undef OobRead.
Proof. intros H. unfold strstr, c_str. by rewrite H. Qed.

Lemma has_nul_app a b : no_nul a -> has_nul (a ++ b) = has_nul b.
Proof. intros Ha. apply bool_decide_ext. unfold no_nul in Ha. rewrite elem_of_app. tauto. Qed.

Lemma before_nul_app_l a b : no_nul a -> before_nul (a ++ b) = a ++ before_nul b.
Proof.
  unfold no_nul. induction a as [|c a IH]; intros Ha; [done|]. cbn.
  destruct (Z.eqb_spec c 0) as [->|]; [set_solver|]. rewrite IH; [done | set_solver].
Qed.

(** A match inside a block is the first match of the block and what follows it. *)
Lemma strstr_block s k pat i :
  no_nul s -> has_nul k = true -> find_sub pat s = Some i -> strstr (s ++ k) pat = Ret (Some i).
Proof.
  intros Hs Hk Hf. unfold strstr, c_str. rewrite has_nul_app, Hk by done. cbn [mbind out_bind].
  by rewrite before_nul_app_l, (find_sub_app pat s _ i Hf) by done.
Qed.

(** [memcmp(a, b, n) == 0]. *)
Definition memcmp_eq (a b : bytes) (n : nat) : out bool :=
  if (n <=? length a)%nat && (n <=? length b)%nat
  then Ret (bool_decide (take n a = take n b))
  else Undef OobRead.

(** [strncmp(a, b, n) == 0] on two C strings (their contents, without NUL). *)
Definition strncmp_eq (a b : bytes) (n : nat) : bool := bool_decide (take n a = take n b).

Definition strcmp_eq (a b : bytes) : bool := bool_decide (a = b).

(** [strncpy(dst, src, n)], [src] a block: at most [n] bytes up to the NUL,
    then zeros, [n] bytes in all. *)
Definition strncpy (dst src : bytes) (n : nat) : out bytes :=
  let body := before_nul (take n src) in
  if negb (has_nul (take n src)) && (length src <? n)%nat then Undef OobRead
  else blit dst 0 (body ++ repeat 0 (n - length body)).

(** ** [strtok]

    The tokens of a block, in order, with how the scan ends: at a NUL
    ([Ret tt]) or by running off the block. *)
Fixpoint strtok_from (delim : Z) (cur : bytes) (mem : bytes) : list bytes * out unit :=
  let flush := match cur with [] => [] | _ => [cur] end in
  match mem with
  | [] => ([], Undef OobRead)
  | c :: mem' =>
      if c =? 0 then (flush, Ret tt)
      else if c =? delim then
        let '(ts, e) := strtok_from delim [] mem' in (flush ++ ts, e)
      else strtok_from delim (cur ++ [c]) mem'
  end.

Definition strtok_all (delim : Z) (mem : bytes) : list bytes * out unit :=
  strtok_from delim [] mem.

Lemma strtok_from_token delim cur t mem :
  no_nul t -> delim ∉ t ->
  strtok_from delim cur (t ++ mem) = strtok_from delim (cur ++ t) mem.
Proof.
  unfold no_nul. revert cur; induction t as [|c t IH]; intros cur H0 Hd.
  - by rewrite app_nil_r.
  - cbn. destruct (Z.eqb_spec c 0) as [->|]; [set_solver|].
    destruct (Z.eqb_spec c delim) as [->|]; [set_solver|].
    rewrite IH by set_solver. by rewrite <- app_assoc.
Qed.

Lemma strtok_all_token delim t mem :
  t <> [] -> no_nul t -> delim ∉ t -> delim <> 0 ->
  strtok_all delim (t ++ delim :: mem) =
  (t :: (strtok_all delim mem).1, (strtok_all delim mem).2).
Proof.
  intros Ht H0 Hd Hz. unfold strtok_all. rewrite strtok_from_token by done.
  cbn. destruct (Z.eqb_spec delim 0); [done|]. rewrite Z.eqb_refl.
  destruct t as [|c t]; [done|]. cbn.
  destruct (strtok_from delim [] mem) as [ts e]. done.
Qed.

(** One call of [strtok] at a position of the block: the token, the memory
    behind the NUL that now ends it, and where the next call starts. *)
Fixpoint skip_delim (delim : Z) (mem : bytes) : bytes :=
  match mem with
  | c :: mem' => if (c =? delim) && negb (c =? 0) then skip_delim delim mem' else mem
  | [] => []
  end.

Fixpoint token_split (delim : Z) (mem : bytes) : out (bytes * bytes * bytes) :=
  match mem with
  | [] => Undef OobRead
  | c :: mem' =>
      if c =? 0 then Ret ([], mem', mem)
      else if c =? delim then Ret ([], mem', mem')
      else r ← token_split delim mem'; Ret (c :: r.1.1, r.1.2, r.2)
  end.

(** [None] is the null pointer. *)
Definition strtok_next (delim : Z) (mem : bytes) : out (option (bytes * bytes * bytes)) :=
  match skip_delim delim mem with
  | [] => Undef OobRead
  | c :: _ => if c =? 0 then Ret None
              else r ← token_split delim (skip_delim delim mem); Ret (Some r)
  end.

Lemma token_split_delim delim t mem :
  no_nul t -> delim ∉ t -> delim <> 0 -> token_split delim (t ++ delim :: mem) = Ret (t, mem, mem).
Proof.
  unfold no_nul. intros H0 Hd Hz. induction t as [|c t IH]; cbn [app token_split].
  - by rewrite (proj2 (Z.eqb_neq delim 0)), Z.eqb_refl.
  - apply not_elem_of_cons in H0 as [Hc0 H0]. apply not_elem_of_cons in Hd as [Hcd Hd].
    rewrite (proj2 (Z.eqb_neq c 0)), (proj2 (Z.eqb_neq c delim)), IH by done. done.
Qed.

Lemma token_split_nul delim t mem :
  no_nul t -> delim ∉ t -> token_split delim (t ++ 0 :: mem) = Ret (t, mem, 0 :: mem).
Proof.
  unfold no_nul. intros H0 Hd. induction t as [|c t IH]; cbn [app token_split]; [done|].
  apply not_elem_of_cons in H0 as [Hc0 H0]. apply not_elem_of_cons in Hd as [Hcd Hd].
  rewrite (proj2 (Z.eqb_neq c 0)), (proj2 (Z.eqb_neq c delim)), IH by done. done.
Qed.

Lemma strtok_next_start delim t mem :
  t <> [] -> no_nul t -> delim ∉ t ->
  strtok_next delim (t ++ mem) = (r ← token_split delim (t ++ mem); Ret (Some r)).
Proof.
  unfold no_nul. intros Ht H0 Hd. destruct t as [|c t]; [done|]. unfold strtok_next.
  apply not_elem_of_cons in H0 as [Hc0 H0]. apply not_elem_of_cons in Hd as [Hcd Hd].
  cbn [app skip_delim].
  rewrite (proj2 (Z.eqb_neq c delim)) by done. cbn [andb]. by rewrite (proj2 (Z.eqb_neq c 0)) by done.
Qed.

Lemma strtok_next_delim delim t mem :
  t <> [] -> no_nul t -> delim ∉ t -> delim <> 0 ->
  strtok_next delim (t ++ delim :: mem) = Ret (Some (t, mem, mem)).
Proof. intros. rewrite strtok_next_start by done. by rewrite token_split_delim. Qed.

Lemma strtok_next_nul delim t mem :
  t <> [] -> no_nul t -> delim ∉ t -> strtok_next delim (t ++ 0 :: mem) = Ret (Some (t, mem, 0 :: mem)).
Proof. intros. rewrite strtok_next_start by done. by rewrite token_split_nul. Qed.

Lemma token_split_defined delim mem : has_nul mem = true -> exists r, token_split delim mem = Ret r.
Proof.
  intros H%bool_decide_eq_true. induction mem as [|c mem IH]; [set_solver|]. cbn [token_split].
  destruct (Z.eqb_spec c 0); [by eexists|]. destruct (c =? delim); [by eexists|].
  destruct IH as [r ->]; [set_solver|]. destruct r as [[tok after] rest]. by eexists.
Qed.

(** A token that whatever follows may make longer. *)
Lemma strtok_next_defined delim t mem :
  t <> [] -> no_nul t -> delim ∉ t -> has_nul mem = true ->
  exists r, strtok_next delim (t ++ mem) = Ret (Some r).
Proof.
  intros Ht H0 Hd Hm. rewrite strtok_next_start by done.
  destruct (token_split_defined delim (t ++ mem)) as [r ->]; [by rewrite has_nul_app|]. by exists r.
Qed.

(** ** Decimal numbers *)

Definition is_digit (c : Z) : bool := (48 <=? c) && (c <=? 57).

Definition is_space (c : Z) : bool := (c =? 32) || ((9 <=? c) && (c <=? 13)).

Fixpoint skip_spaces (s : bytes) : bytes :=
  match s with c :: s' => if is_space c then skip_spaces s' else s | [] => [] end.

Fixpoint digits_value (acc : Z) (s : bytes) : Z :=
  match s with
  | c :: s' => if is_digit c then digits_value (10 * acc + (c - 48)) s' else acc
  | [] => acc
  end.

(** [atoi] on a C string; a value outside [int] is undefined behaviour. *)
Definition atoi (s : bytes) : out Z :=
  let v := match skip_spaces s with
           | 45 :: s' => - digits_value 0 s'
           | 43 :: s' => digits_value 0 s'
           | s' => digits_value 0 s'
           end in
  if (int_min <=? v) && (v <=? int_max) then Ret v else Undef IntOverflow.

Fixpoint dec_digits (fuel : nat) (n : Z) (acc : bytes) : bytes :=
  match fuel with
  | O => acc
  | S fuel' =>
      let acc' := (48 + n mod 10) :: acc in
      if n / 10 =? 0 then acc' else dec_digits fuel' (n / 10) acc'
  end.

(** [%d] and [%u] for numbers of at most 20 digits (every 64-bit number). *)
Definition show_dec (n : Z) : bytes :=
  if n <? 0 then 45 :: dec_digits 20 (- n) [] else dec_digits 20 n [].

(** Reading back what was printed. *)
Lemma dec_digits_value fuel n acc :
  0 <= n < 10 ^ Z.of_nat fuel ->
  exists k, 0 <= k /\ forall a, digits_value a (dec_digits fuel n acc) = digits_value (a * 10 ^ k + n) acc.
Proof.
  revert n acc; induction fuel as [|fuel IH]; intros n acc Hn.
  - exists 0. split; [lia|]. intros a. cbn in Hn |- *. f_equal. lia.
  - rewrite Nat2Z.inj_succ, Z.pow_succ_r in Hn by lia. cbn [dec_digits].
    assert (forall a, digits_value a ((48 + n mod 10) :: acc) = digits_value (10 * a + n mod 10) acc) as Hc.
    { intros a. cbn [digits_value]. pose proof (Z.mod_pos_bound n 10). unfold is_digit. zdec.
      f_equal. lia. }
    pose proof (Z.div_mod n 10) as Hd. destruct (Z.eqb_spec (n / 10) 0) as [E|E].
    + exists 1. split; [lia|]. intros a. rewrite Hc. f_equal. lia.
    + destruct (IH (n / 10) ((48 + n mod 10) :: acc)) as (k & Hk & Hv).
      { split; [apply Z.div_pos; lia | apply Z.div_lt_upper_bound; lia]. }
      exists (k + 1). split; [lia|]. intros a. rewrite Hv, Hc, Z.pow_add_r by lia. f_equal. lia.
Qed.

(** Only digits are printed for a natural number. *)
Lemma show_dec_digits n c : 0 <= n -> c ∈ show_dec n -> is_digit c = true.
Proof.
  intros Hn. unfold show_dec. zdec.
  assert (forall fuel m acc, c ∈ dec_digits fuel m acc -> is_digit c = true \/ c ∈ acc) as G.
  { induction fuel as [|fuel IH]; intros m acc; cbn [dec_digits]; [by right|].
    assert (is_digit (48 + m mod 10) = true) as Hd
      by (pose proof (Z.mod_pos_bound m 10); unfold is_digit; by zdec).
    destruct (m / 10 =? 0); [|intros H; apply IH in H as [H|H]; [by left|]; revert H];
      rewrite elem_of_cons; intros [-> | H]; auto. }
  intros H. apply G in H as [H|H]; [done | by apply elem_of_nil in H].
Qed.

Lemma length_dec_digits fuel n acc : (length (dec_digits fuel n acc) <= fuel + length acc)%nat.
Proof.
  revert n acc; induction fuel as [|fuel IH]; intros n acc; cbn [dec_digits]; [lia|].
  destruct (n / 10 =? 0); [cbn [length]; lia|]. etransitivity; [apply IH|]. cbn [length]. lia.
Qed.

Lemma length_show_dec n : (length (show_dec n) <= 21)%nat.
Proof.
  unfold show_dec. destruct (n <? 0); cbn [length].
  - pose proof (length_dec_digits 20 (- n) []). cbn [length] in *. lia.
  - pose proof (length_dec_digits 20 n []). cbn [length] in *. lia.
Qed.

(** A number is read from its own decimal text. *)
Lemma atoi_show_dec n : 0 <= n <= int_max -> atoi (show_dec n) = Ret n.
Proof.
  intros Hn. unfold int_max in Hn.
  assert (digits_value 0 (show_dec n) = n) as Hv.
  { destruct (dec_digits_value 20 n []) as (k & _ & Hk); [lia|]. unfold show_dec. zdec. rewrite Hk. cbn. lia. }
  pose proof (show_dec_digits n) as Hd. unfold atoi. revert Hd Hv.
  destruct (show_dec n) as [|c r]; [by intros _ <-|]. intros Hd Hv.
  specialize (Hd c ltac:(lia) ltac:(by left)). unfold is_digit in Hd. znorm Hd.
  assert (c = 48 \/ c = 49 \/ c = 50 \/ c = 51 \/ c = 52 \/ c = 53 \/ c = 54 \/ c = 55 \/ c = 56 \/ c = 57) as Hc by lia.
  cbn [skip_spaces]. destruct_or! Hc; subst c; change (is_space _) with false; cbn match; rewrite Hv.
  all: unfold int_min, int_max; by zdec.
Qed.

Lemma show_dec_inj a b k :
  0 <= a < 10 ^ 20 -> 0 <= b < 10 ^ 20 -> (forall v, digits_value v k = v) ->
  show_dec a ++ k = show_dec b ++ k -> a = b.
Proof.
  assert (forall n, 0 <= n < 10 ^ 20 -> show_dec n ++ k = dec_digits 20 n k) as Hs.
  { intros n Hn. unfold show_dec. zdec.
    assert (forall f m acc, dec_digits f m acc ++ k = dec_digits f m (acc ++ k)) as Happ.
    { induction f as [|f IH]; intros m acc; cbn [dec_digits]; [done|]. destruct (_ =? 0); [done | apply IH]. }
    apply Happ. }
  intros Ha Hb Hk. rewrite !Hs by done. intros E. apply (f_equal (digits_value 0)) in E.
  destruct (dec_digits_value 20 a k Ha) as (i & _ & Ei), (dec_digits_value 20 b k Hb) as (j & _ & Ej).
  rewrite Ei, Ej, !Hk in E. lia.
Qed.

(** ** Formatted output

    Upper-case hexadecimal digits, [%0nX] of a number below [16 ^ n], [%X] of a
    32-bit number and the padding of a field of at least [n] characters. *)
Definition hex_digit (n : Z) : Z := if n <? 10 then 48 + n else 55 + n.

Fixpoint hexw (n : nat) (v : Z) : bytes :=
  match n with O => [] | S n => hex_digit (v / 16 ^ Z.of_nat n mod 16) :: hexw n v end.

Fixpoint strip_zeros (s : bytes) : bytes :=
  match s with
  | c :: s' => match s' with [] => s | _ :: _ => if c =? 48 then strip_zeros s' else s end
  | [] => []
  end.

Definition show_hex (v : Z) : bytes := strip_zeros (hexw 8 v).

Definition pad_left (n : nat) (s : bytes) : bytes := repeat 32 (n - length s) ++ s.

(** [sprintf(buf + off, ...)] of a text. *)
Definition sprintf_at (buf : bytes) (off : Z) (text : bytes) : out bytes := blit buf off (text ++ [0]).

(** [snprintf(buf + off, size, ...)]: the block and the length of the whole text. *)
Definition snprintf_at (buf : bytes) (off size : Z) (text : bytes) : out (bytes * Z) :=
  let n := Z.of_nat (length text) in
  b ← (if size =? 0 then Ret buf else blit buf off (take (Z.to_nat (Z.min (size - 1) n)) text ++ [0]));
  Ret (b, n).

Lemma length_hexw n v : length (hexw n v) = n.
Proof. induction n as [|n IH]; cbn [hexw length]; by rewrite ?IH. Qed.

Lemma length_strip_zeros s : (length (strip_zeros s) <= length s)%nat.
Proof.
  induction s as [|c s IH]; [done|]. cbn [strip_zeros]. destruct s as [|d s]; [done|].
  destruct (c =? 48); cbn [length] in *; lia.
Qed.

Lemma length_pad_left n s : (length s <= n)%nat -> length (pad_left n s) = n.
Proof. intros H. unfold pad_left. rewrite length_app, repeat_length. lia. Qed.

(** Printing behind a text that ends in a NUL. *)
Lemma sprintf_at_app pre c junk off t :
  off = Z.of_nat (length pre) -> (length t <= length junk)%nat ->
  sprintf_at (pre ++ c :: junk) off t = Ret (pre ++ t ++ 0 :: drop (length t) junk).
Proof.
  intros -> H. unfold sprintf_at. rewrite blit_Ret; [|lia|].
  - rewrite Nat2Z.id, take_app_length, drop_app_ge, length_app by lia. cbn [length].
    replace (length pre + (length t + 1) - length pre)%nat with (S (length t)) by lia.
    by rewrite <- !app_assoc.
  - rewrite !length_app. cbn [length]. lia.
Qed.

Lemma sprintf_at_0 buf t :
  (length t < length buf)%nat -> sprintf_at buf 0 t = Ret (t ++ 0 :: drop (S (length t)) buf).
Proof.
  intros H. destruct buf as [|c junk]; [cbn in H; lia|].
  apply (sprintf_at_app [] c junk 0 t); [done|]. cbn in H. lia.
Qed.

Lemma blit_app pre junk off t :
  off = Z.of_nat (length pre) -> (length t <= length junk)%nat ->
  blit (pre ++ junk) off t = Ret (pre ++ t ++ drop (length t) junk).
Proof.
  intros -> H. rewrite blit_Ret by (rewrite ?length_app; lia).
  rewrite Nat2Z.id, take_app_length, drop_app_ge by lia. do 4 f_equal. lia.
Qed.

(** A text that fits is printed whole. *)
Lemma snprintf_at_app pre c junk off size t :
  off = Z.of_nat (length pre) -> Z.of_nat (length t) < size -> (length t <= length junk)%nat ->
  snprintf_at (pre ++ c :: junk) off size t
  = Ret (pre ++ t ++ 0 :: drop (length t) junk, Z.of_nat (length t)).
Proof.
  intros Ho Hs Hl. unfold snprintf_at. zdec. rewrite Z.min_r, Nat2Z.id, firstn_all by lia.
  change (blit (pre ++ c :: junk) off (t ++ [0])) with (sprintf_at (pre ++ c :: junk) off t).
  by rewrite sprintf_at_app.
Qed.

Lemma hex_digit_range n : 0 <= n < 16 -> 48 <= hex_digit n <= 57 \/ 65 <= hex_digit n <= 70.
Proof. intros Hn. unfold hex_digit. destruct (Z.ltb_spec n 10); lia. Qed.

Lemma hexw_S n v : hexw (S n) v = hex_digit (v / 16 ^ Z.of_nat n mod 16) :: hexw n v.
Proof. done. Qed.

(** Only the low digits count. *)
Lemma hexw_add n q r : hexw n (q * 16 ^ Z.of_nat n + r) = hexw n r.
Proof.
  revert q; induction n as [|n IH]; intros q; [done|]. rewrite !hexw_S, Nat2Z.inj_succ, Z.pow_succ_r by lia.
  f_equal.
  - rewrite Z.mul_assoc, Z.div_add_l by lia. rewrite Z.add_comm, Z.mod_add by lia. done.
  - rewrite Z.mul_assoc. apply IH.
Qed.

Lemma hexw_chars n v c : c ∈ hexw n v -> 48 <= c <= 57 \/ 65 <= c <= 70.
Proof.
  induction n as [|n IH]; [by intros ?%elem_of_nil|]. rewrite hexw_S, elem_of_cons. intros [-> | H]; [|by apply IH].
  apply hex_digit_range. apply Z.mod_pos_bound. lia.
Qed.

(** ** Threads

    Joining a thread that was never created, or twice, is undefined. *)
Inductive thread : Set := NotCreated | Running | Joined.

Definition pthread_join (t : thread) : out thread :=
  match t with Running => Ret Joined | _ => Undef Uninit end.

(** ** Files

    [denied] holds the paths the process may neither open nor remove nor
    create; every other failure of [fopen] comes from a missing file or a
    missing directory. *)
Record fsys := Fsys {
  files : gmap bytes bytes;
  dirs : gset bytes;
  denied : gset bytes
}.

Definition upd_files (f : gmap bytes bytes -> gmap bytes bytes) (fs : fsys) : fsys :=
  {| files := f (files fs); dirs := dirs fs; denied := denied fs |}.

(** The part of a path before its last slash. *)
Fixpoint after_slash (r : bytes) : bytes :=
  match r with
  | [] => []
  | c :: r' => if c =? 47 then r' else after_slash r'
  end.
Definition dirname (path : bytes) : bytes := rev (after_slash (rev path)).

Definition dir_exists (fs : fsys) (d : bytes) : bool :=
  bool_decide (d = []) || bool_decide (d ∈ dirs fs).

Definition is_denied (fs : fsys) (path : bytes) : bool := bool_decide (path ∈ denied fs).

(** [fopen(path, r)]: the content of the file. *)
Definition fopen_r (fs : fsys) (path : bytes) : option bytes :=
  if is_denied fs path then None else files fs !! path.

(** [fopen(path, w)]: creates or truncates. *)
Definition fopen_w (fs : fsys) (path : bytes) : option fsys :=
  if is_denied fs path || negb (dir_exists fs (dirname path)) then None
  else Some (upd_files <[path := []]> fs).

(** [fopen(path, a)]: creates or keeps. *)
Definition fopen_a (fs : fsys) (path : bytes) : option fsys :=
  if is_denied fs path || negb (dir_exists fs (dirname path)) then None
  else Some (upd_files (fun m => <[path := default [] (m !! path)]> m) fs).

(** [fwrite(data, length data, 1, f)] at the end of an open stream. *)
Definition fwrite (path data : bytes) (fs : fsys) : fsys :=
  upd_files (alter (fun c => c ++ data) path) fs.

Definition fremove (fs : fsys) (path : bytes) : option fsys :=
  if is_denied fs path then None
  else match files fs !! path with
       | Some _ => Some (upd_files (delete path) fs)
       | None => None
       end.

Definition file_exists (fs : fsys) (path : bytes) : bool :=
  bool_decide (is_Some (files fs !! path)).

Definition mkdir (d : bytes) (fs : fsys) : fsys :=
  if is_denied fs d || negb (dir_exists fs (dirname d)) then fs
  else {| files := files fs; dirs := {[d]} ∪ dirs fs; denied := denied fs |}.

Lemma fwrite_insert path c data fs :
  fwrite path data (upd_files <[path := c]> fs) = upd_files <[path := c ++ data]> fs.
Proof.
  unfold fwrite, upd_files. cbn. f_equal.
  rewrite alter_insert. by rewrite decide_True.
Qed.

Lemma after_slash_app r k : 47 ∉ r -> after_slash (r ++ 47 :: k) = k.
Proof.
  induction r as [|c r IH]; cbn; [done|]. intros H.
  destruct (Z.eqb_spec c 47) as [->|]; [set_solver | apply IH; set_solver].
Qed.

Lemma dirname_app d n : 47 ∉ n -> dirname (d ++ 47 :: n) = d.
Proof.
  intros H. unfold dirname. rewrite rev_app_distr. cbn [rev].
  rewrite <- app_assoc. cbn [app].
  rewrite after_slash_app; [apply rev_involutive|].
  rewrite list_elem_of_In, <- in_rev, <- list_elem_of_In. done.
Qed.
