(* ===== verification/Floats.v ===== *)
(** * IEEE floating point

    The float and double of the code, on the Standard Library's executable
    specification of binary formats: [float] is binary32 (24 bits of mantissa,
    exponents below 128), [double] is binary64.  The lemmas say when an
    operation is exact, that numbers without a sign stay so, and that the order
    of normal numbers is that of the integers they stand for. *)

From Stdlib Require Export SpecFloat.
From S2P Require Import Prelude.

Abbreviation float := spec_float (only parsing).
Abbreviation double := spec_float (only parsing).

#[export] Instance spec_float_eq_dec : EqDecision spec_float.
Proof. solve_decision. Defined.

(** Conversions: integers are rounded to the nearest float, a float becomes the
    double of the same value, a double is rounded to a float. *)
Definition float_of_Z (z : Z) : float := binary_normalize 24 128 z 0 false.
Definition double_of_Z (z : Z) : double := binary_normalize 53 1024 z 0 false.

Definition convert (prec emax : Z) (x : spec_float) : spec_float :=
  match x with
  | S754_finite s m e => binary_round prec emax s m e
  | _ => x
  end.
Definition double_of_float (x : float) : double := convert 53 1024 x.
Definition float_of_double (x : double) : float := convert 24 128 x.

Definition float_div : float -> float -> float := SFdiv 24 128.
Definition float_add : float -> float -> float := SFadd 24 128.
Definition float_mul : float -> float -> float := SFmul 24 128.
Definition double_div : double -> double -> double := SFdiv 53 1024.
Definition double_add : double -> double -> double := SFadd 53 1024.
Definition double_sub : double -> double -> double := SFsub 53 1024.
Definition double_mul : double -> double -> double := SFmul 53 1024.

(** A double literal that is the quotient of two integers below 2^53. *)
Definition double_lit (num den : Z) : double := double_div (double_of_Z num) (double_of_Z den).

(** ** Digits *)

Lemma digits_bound p :
  2 ^ (Zpos (digits2_pos p) - 1) <= Zpos p < 2 ^ Zpos (digits2_pos p).
Proof.
  induction p as [p IH|p IH|]; cbn [digits2_pos].
  1,2: rewrite Pos2Z.inj_succ;
    replace (Z.succ (Zpos (digits2_pos p)) - 1) with (Z.succ (Zpos (digits2_pos p) - 1)) by lia;
    rewrite !Z.pow_succ_r by lia; lia.
  cbn. lia.
Qed.

Lemma digits_unique p d :
  0 <= d -> 2 ^ (d - 1) <= Zpos p < 2 ^ d -> Zpos (digits2_pos p) = d.
Proof.
  intros Hd [H1 H2]. pose proof (digits_bound p) as [G1 G2].
  assert (d <> 0) by (intros ->; cbn in H2; lia).
  assert (Zpos (digits2_pos p) - 1 < d) by (apply (Z.pow_lt_mono_r_iff 2); lia).
  assert (d - 1 < Zpos (digits2_pos p)) by (apply (Z.pow_lt_mono_r_iff 2); lia).
  lia.
Qed.

(** A positive mantissa shifted left by [k] bits. *)
Definition shl_pos (p : positive) (k : Z) : positive := Z.to_pos (Zpos p * 2 ^ k).

Lemma shl_pos_Z p k : 0 <= k -> Zpos (shl_pos p k) = Zpos p * 2 ^ k.
Proof. intros Hk. unfold shl_pos. apply Z2Pos.id. pose proof (Z.pow_pos_nonneg 2 k). lia. Qed.

Lemma digits_shl p k : 0 <= k -> Zpos (digits2_pos (shl_pos p k)) = Zpos (digits2_pos p) + k.
Proof.
  intros Hk. pose proof (digits_bound p). apply digits_unique; [lia|]. rewrite shl_pos_Z by done.
  replace (Zpos (digits2_pos p) + k - 1) with (Zpos (digits2_pos p) - 1 + k) by lia.
  rewrite !Z.pow_add_r by lia. pose proof (Z.pow_pos_nonneg 2 k). nia.
Qed.

Lemma iter_xO p d : Pos.iter xO p d = shl_pos p (Zpos d).
Proof.
  apply Pos2Z.inj. rewrite shl_pos_Z by lia.
  revert p. induction d as [|d IH] using Pos.peano_ind; intros p.
  - cbn. lia.
  - rewrite Pos.iter_succ. rewrite Pos2Z.inj_xO, IH, Pos2Z.inj_succ, Z.pow_succ_r by lia. lia.
Qed.

(** ** Exact results *)

Section Exact.
Context (prec emax : Z) (Hprec : 0 < prec < emax).

(** The exponents at which a number of [prec] digits is normal. *)
Abbreviation in_range e := (3 - emax - prec <= e <= emax - prec).

Lemma fexp_normal e : 3 - emax <= e -> fexp prec emax e = e - prec.
Proof. intros He. unfold fexp, emin. lia. Qed.

(** A normal number is not rounded. *)
Lemma round_aux_exact s m e :
  Zpos (digits2_pos m) = prec -> in_range e ->
  binary_round_aux prec emax s (Zpos m) e loc_Exact = S754_finite s m e.
Proof.
  intros Hm He. unfold binary_round_aux, shr_fexp. cbn [shr_record_of_loc Zdigits2].
  rewrite Hm, fexp_normal by lia. replace (prec + e - prec - e) with 0 by lia.
  cbn [shr loc_of_shr_record shr_m round_nearest_even shr_record_of_loc Zdigits2].
  rewrite Hm, fexp_normal by lia. replace (prec + e - prec - e) with 0 by lia.
  cbn [shr shr_m]. by zdec.
Qed.

(** One spare digit that is zero is dropped. *)
Lemma round_aux_even s m e :
  Zpos (digits2_pos m) = prec -> in_range (e + 1) ->
  binary_round_aux prec emax s (Zpos m~0) e loc_Exact = S754_finite s m (e + 1).
Proof.
  intros Hm He. unfold binary_round_aux, shr_fexp. cbn [shr_record_of_loc Zdigits2 digits2_pos].
  rewrite Pos2Z.inj_succ, Hm, fexp_normal by lia. replace (Z.succ prec + e - prec - e) with 1 by lia.
  cbn [shr SpecFloat.iter_pos shr_1 orb loc_of_shr_record shr_m round_nearest_even shr_record_of_loc Zdigits2].
  rewrite Hm, fexp_normal by lia. replace (prec + (e + 1) - prec - (e + 1)) with 0 by lia.
  cbn [shr shr_m]. by zdec.
Qed.

(** A number of at most [prec] digits is only normalised. *)
Lemma round_exact s m e :
  let d := Zpos (digits2_pos m) in
  d <= prec -> in_range (d + e - prec) ->
  binary_round prec emax s m e = S754_finite s (shl_pos m (prec - d)) (d + e - prec).
Proof.
  intros d Hd He. unfold binary_round. fold d. rewrite fexp_normal by lia. unfold shl_align.
  destruct (d + e - prec - e) as [|k|k] eqn:E; [|lia|].
  - replace (shl_pos m (prec - d)) with m.
    + replace (d + e - prec) with e by lia. apply round_aux_exact; [unfold d in *; lia | lia].
    + apply Pos2Z.inj. rewrite shl_pos_Z by lia. replace (prec - d) with 0 by lia. lia.
  - rewrite iter_xO. replace (Zpos k) with (prec - d) by lia. apply round_aux_exact; [|done].
    rewrite digits_shl by lia. unfold d. lia.
Qed.

(** Dividing a normal number by the normal power of two of exponent [e2]. *)
Lemma div_exact s m e e2 :
  Zpos (digits2_pos m) = prec -> in_range (e - e2 - prec + 1) -> 3 - emax <= e - e2 ->
  SFdiv prec emax (S754_finite s m e) (S754_finite false (shl_pos 1 (prec - 1)) e2)
  = S754_finite s m (e - e2 - prec + 1).
Proof.
  intros Hm He Hx. unfold SFdiv, SFdiv_core_binary. cbn [Zdigits2].
  rewrite Hm, (digits_shl 1) by lia. cbn [digits2_pos].
  replace (prec + e - (1 + (prec - 1) + e2)) with (e - e2) by lia.
  rewrite fexp_normal by lia. rewrite Z.min_l by lia.
  replace (e - e2 - (e - e2 - prec)) with prec by lia.
  destruct prec as [|q|q] eqn:E; [lia| |lia]. rewrite <- E in *.
  rewrite Z.shiftl_mul_pow2, shl_pos_Z by lia.
  assert (Zpos m * 2 ^ prec = 1 * 2 ^ (prec - 1) * Zpos m~0) as Hq.
  { replace prec with (Z.succ (prec - 1)) at 1 by lia. rewrite Z.pow_succ_r by lia. lia. }
  pose proof (Z.pow_pos_nonneg 2 (prec - 1)) as Hp.
  assert (Z.div_eucl (Zpos m * 2 ^ prec) (1 * 2 ^ (prec - 1)) = (Zpos m~0, 0)) as ->.
  { rewrite (surjective_pairing (Z.div_eucl _ _)). f_equal.
    - change ((Zpos m * 2 ^ prec) / (1 * 2 ^ (prec - 1)) = Zpos m~0).
      rewrite Hq, Z.mul_comm. apply Z.div_mul. lia.
    - change ((Zpos m * 2 ^ prec) mod (1 * 2 ^ (prec - 1)) = 0).
      rewrite Hq, Z.mul_comm. apply Z.mod_mul. lia. }
  assert (new_location (1 * 2 ^ (prec - 1)) 0 = loc_Exact) as ->.
  { unfold new_location, new_location_even, new_location_odd. by destruct (Z.even _). }
  rewrite xorb_false_r. rewrite round_aux_even by (done || lia). done.
Qed.
End Exact.

(** ** Signs *)

(** Neither negative nor a NaN. *)
Definition nonneg (x : spec_float) : bool :=
  match x with
  | S754_zero s | S754_infinity s | S754_finite s _ _ => negb s
  | S754_nan => false
  end.

Lemma iter_pos_inv {A} (P : A -> Prop) (f : A -> A) n x :
  (forall y, P y -> P (f y)) -> P x -> P (SpecFloat.iter_pos f n x).
Proof. intros Hf. revert x; induction n as [n IH|n IH|]; cbn; auto. Qed.

Lemma shr_nonneg r e n : 0 <= shr_m r -> 0 <= shr_m (shr r e n).1.
Proof.
  intros Hr. destruct n as [|n|n]; cbn [shr fst]; [done | | done].
  apply (iter_pos_inv (fun r => 0 <= shr_m r)); [|done].
  intros [[|[p|p|]|p] a b]; cbn; lia.
Qed.

Lemma round_nearest_even_nonneg m l : 0 <= m -> 0 <= round_nearest_even m l.
Proof. intros Hm. destruct l as [|[]]; cbn; [lia | destruct (Z.even m); lia | lia | lia]. Qed.

Lemma shr_record_of_loc_m m l : shr_m (shr_record_of_loc m l) = m.
Proof. by destruct l as [|[]]. Qed.

Lemma round_aux_nonneg prec emax m e l :
  0 <= m -> nonneg (binary_round_aux prec emax false m e l) = true.
Proof.
  intros Hm. unfold binary_round_aux, shr_fexp.
  pose proof (shr_nonneg (shr_record_of_loc m l) e (fexp prec emax (Zdigits2 m + e) - e)) as H1.
  rewrite shr_record_of_loc_m in H1. specialize (H1 Hm).
  destruct (shr (shr_record_of_loc m l) _ _) as [r1 e1]. cbn [fst] in H1.
  pose proof (round_nearest_even_nonneg _ (loc_of_shr_record r1) H1) as H2.
  set (m2 := round_nearest_even _ _) in *.
  pose proof (shr_nonneg (shr_record_of_loc m2 loc_Exact) e1 (fexp prec emax (Zdigits2 m2 + e1) - e1) H2) as H3.
  destruct (shr (shr_record_of_loc m2 loc_Exact) _ _) as [r3 e3]. cbn [fst] in H3.
  destruct (shr_m r3) as [|p|p]; [done | by destruct (_ <=? _) | lia].
Qed.

Lemma round_nonneg prec emax m e : nonneg (binary_round prec emax false m e) = true.
Proof. unfold binary_round. destruct (shl_align _ _ _). apply round_aux_nonneg. lia. Qed.

Lemma normalize_nonneg prec emax z e : 0 <= z -> nonneg (binary_normalize prec emax z e false) = true.
Proof. intros Hz. destruct z as [|p|p]; [done | apply round_nonneg | lia]. Qed.

Lemma convert_nonneg prec emax x : nonneg x = true -> nonneg (convert prec emax x) = true.
Proof. destruct x as [| | |[] m e]; try done. intros _. apply round_nonneg. Qed.

Lemma div_nonneg prec emax x m e :
  nonneg x = true -> nonneg (SFdiv prec emax x (S754_finite false m e)) = true.
Proof.
  destruct x as [[]|[]| |[] mx ex]; try done. intros _. unfold SFdiv, SFdiv_core_binary.
  set (num := match _ with Z0 => _ | Zpos _ => _ | Zneg _ => _ end).
  assert (0 <= num) as Hn.
  { unfold num. destruct (_ - _ - _) as [|s|s]; [lia | | lia]. apply Z.shiftl_nonneg. lia. }
  rewrite (surjective_pairing (Z.div_eucl num _)).
  apply round_aux_nonneg. change (0 <= num / Zpos m). apply Z.div_pos; lia.
Qed.

Create HintDb floats.
#[export] Hint Resolve round_nonneg normalize_nonneg convert_nonneg div_nonneg : floats.

Lemma add_zero_r prec emax x :
  nonneg x = true -> SFadd prec emax x (S754_zero false) = x.
Proof. by destruct x as [[]|[]| |[] m e]. Qed.

(** ** Order *)

(** Normal numbers are ordered as [m * 2 ^ e]. *)
Lemma compare_normal m1 e1 m2 e2 b :
  digits2_pos m1 = digits2_pos m2 -> b <= e1 -> b <= e2 ->
  SFcompare (S754_finite false m1 e1) (S754_finite false m2 e2)
  = Some (Z.compare (Zpos m1 * 2 ^ (e1 - b)) (Zpos m2 * 2 ^ (e2 - b))).
Proof.
  intros Hd Hb1 Hb2. cbn [SFcompare]. f_equal.
  pose proof (digits_bound m1) as B1. pose proof (digits_bound m2) as B2. rewrite <- Hd in B2.
  set (d := Zpos (digits2_pos m1)) in *.
  assert (forall x y e f, 2 ^ (d - 1) <= x < 2 ^ d -> 2 ^ (d - 1) <= y < 2 ^ d -> 0 <= e < f ->
            x * 2 ^ e < y * 2 ^ f) as Hlt.
  { intros x y e f Hx Hy Hef. replace f with (Z.succ (f - 1 - e) + e) by lia.
    rewrite Z.pow_add_r, Z.pow_succ_r by lia.
    assert (2 ^ d = 2 * 2 ^ (d - 1)) as Hd2.
    { rewrite <- Z.pow_succ_r by (unfold d; lia). f_equal. lia. }
    pose proof (Z.pow_pos_nonneg 2 (f - 1 - e)). pose proof (Z.pow_pos_nonneg 2 e).
    rewrite Z.mul_assoc. apply Z.mul_lt_mono_pos_r; nia. }
  destruct (Z.compare_spec e1 e2) as [He|He|He].
  - subst e2. rewrite <- Zmult_compare_compat_r by (apply Z.lt_gt, Z.pow_pos_nonneg; lia). done.
  - symmetry. apply Z.compare_lt_iff. apply Hlt; lia.
  - symmetry. apply Z.compare_gt_iff. apply Hlt; lia.
Qed.
