(* ===== verification/PolicyStore.v ===== *)
(** * The POSIX policy store (src/plugins/pap/posix/pap_plugin_posix.c)

    Policies live in one file each, and an index file lists their identifiers.
    This file translates the plugin function by function; the abstract store it
    implements and the refinement are in PolicyStoreSpec.v. *)

From S2P Require Import Prelude CStd.

(** ** The interfaces the plugin is written against *)

(** utils.h of the SDK: conversion between 32 raw bytes and 64 hex digits. *)
Class HexCodec := {
  hex_to_str : bytes -> nat -> option bytes;
  str_to_hex : bytes -> nat -> option bytes
}.

(** pap.h of the SDK: the enumerators and the length the plugin uses. *)
Class PapApi := {
  PAP_SHA_256 : Z;
  PAP_ECDSA : Z;
  PAP_POL_ID_MAX_LEN : nat
}.

(** The fields of the SDK structures the plugin reads and writes. *)
Record pap_policy_object_t := {
  policy_object : option bytes;
  policy_object_size : Z;
  cost : option bytes
}.
Record pap_policy_id_signature_t := {
  signature : option bytes;
  public_key : option bytes;
  signature_algorithm : Z
}.
Record pap_policy_t := {
  policy_id : bytes;
  object : pap_policy_object_t;
  id_signature : pap_policy_id_signature_t;
  hash_function : Z
}.

(** ** Translation *)

Definition STORAGE_SIGN_ALG_LEN : nat := 64.
Definition STORAGE_HASH_FN_LEN : nat := 64.
Definition RPI_POL_ID_MAX_LEN : nat := 32.
Definition RPI_PUBLIC_KEY_LEN : Z := 32 * 2.
Definition RPI_SIGNATURE_LEN : Z := 64 * 2.

Definition store_dir : bytes := cstr "stored_policies".
Definition index_path : bytes := cstr "stored_policies/stored_policies.txt".
Definition policy_path (pol_id_str : bytes) : bytes :=
  cstr "stored_policies/" ++ pol_id_str ++ cstr ".txt".

Definition nl (s : string) : bytes := 10 :: cstr s.
Arguments nl s%_string.

(** The six output buffers of [posix_acquire_policy] and the object size. *)
Record acquired := {
  a_object : bytes;
  a_object_size : Z;
  a_cost : bytes;
  a_signature : bytes;
  a_public_key : bytes;
  a_sign_alg : bytes;
  a_hash : bytes
}.

Section Plugin.
Context `{HexCodec, PapApi}.

Definition posix_store_policy (policy_id policy_object : option bytes)
    (policy_object_size : Z)
    (policy_cost signature public_key signature_algorithm hash_function : option bytes)
    (fs : fsys) : out (bool * fsys) :=
  match policy_id, policy_object, policy_cost, signature, public_key,
        signature_algorithm, hash_function with
  | Some id, Some obj, Some cst, Some sg, Some pk, Some alg, Some hf =>
      if policy_object_size =? 0 then Ret (false, fs) else
      match hex_to_str id RPI_POL_ID_MAX_LEN with
      | None => Ret (false, fs)
      | Some pol_id_str =>
          let fs := if dir_exists fs store_dir then fs else mkdir store_dir fs in
          let pol_path := policy_path pol_id_str in
          match fopen_w fs pol_path with
          | None => Ret (false, fs)
          | Some fs =>
              let fs := fwrite pol_path (cstr "policy id:") fs in
              let fs := fwrite pol_path pol_id_str fs in
              let fs := fwrite pol_path (nl "policy object:") fs in
              obj ← slice 0 policy_object_size obj;
              let fs := fwrite pol_path obj fs in
              let fs := fwrite pol_path (nl "policy cost:") fs in
              cst ← c_str cst;
              let fs := fwrite pol_path cst fs in
              let fs := fwrite pol_path (nl "policy id signature:") fs in
              sg ← slice 0 RPI_SIGNATURE_LEN sg;
              let fs := fwrite pol_path sg fs in
              let fs := fwrite pol_path (nl "policy id signature public key:") fs in
              pk ← slice 0 RPI_PUBLIC_KEY_LEN pk;
              let fs := fwrite pol_path pk fs in
              let fs := fwrite pol_path (nl "policy id signature sign. algorithm:") fs in
              alg ← c_str alg;
              let fs := fwrite pol_path alg fs in
              let fs := fwrite pol_path (nl "hash function:") fs in
              hf ← c_str hf;
              let fs := fwrite pol_path hf fs in
              match fopen_a fs index_path with
              | None => Ret (false, fs)
              | Some fs =>
                  let fs := fwrite index_path pol_id_str fs in
                  let fs := fwrite index_path (cstr "|") fs in
                  Ret (true, fs)
              end
          end
      end
  | _, _, _, _, _, _, _ => Ret (false, fs)
  end.

(** The file is read into a block of its length, without a terminator: [strstr]
    goes on in [heap_after], the bytes readable behind the block.

    [strstr(buffer, stop) - (strstr(buffer, start) + strlen(start))] bytes
    copied from behind [start]. *)
Definition between (heap_after buffer start stop : bytes) : out bytes :=
  substr ← strstr (buffer ++ heap_after) start ≫= deref;
  e ← strstr (buffer ++ heap_after) stop ≫= deref;
  let from := Z.of_nat substr + Z.of_nat (length start) in
  slice from (Z.of_nat e - from) buffer.

(** The bytes from behind [start] to the end of the buffer. *)
Definition to_end (heap_after buffer start : bytes) : out bytes :=
  substr ← strstr (buffer ++ heap_after) start ≫= deref;
  let from := Z.of_nat substr + Z.of_nat (length start) in
  slice from (Z.of_nat (length buffer) - from) buffer.

Definition posix_acquire_policy (heap_after : bytes) (policy_id policy_object : option bytes)
    (policy_object_size : option Z)
    (policy_cost signature public_key signature_algorithm hash_function : option bytes)
    (fs : fsys) : out (option acquired) :=
  match policy_id, policy_object, policy_object_size, policy_cost, signature, public_key,
        signature_algorithm, hash_function with
  | Some id, Some obj, Some _, Some cst, Some sg, Some pk, Some alg, Some hf =>
      match hex_to_str id RPI_POL_ID_MAX_LEN with
      | None => Ret None
      | Some pol_id_str =>
          match fopen_r fs (policy_path pol_id_str) with
          | None => Ret None
          | Some buffer =>
              v ← between heap_after buffer (cstr "policy object:") (nl "policy cost:");
              obj ← blit obj 0 v;
              let size := Z.of_nat (length v) in
              v ← between heap_after buffer (cstr "policy cost:") (nl "policy id signature:");
              cst ← blit cst 0 v;
              v ← between heap_after buffer (cstr "policy id signature:")
                    (nl "policy id signature public key:");
              sg ← blit sg 0 v;
              v ← between heap_after buffer (cstr "policy id signature public key:")
                    (nl "policy id signature sign. algorithm:");
              pk ← blit pk 0 v;
              v ← between heap_after buffer (cstr "policy id signature sign. algorithm:")
                    (nl "hash function:");
              alg ← blit alg 0 v;
              v ← to_end heap_after buffer (cstr "hash function:");
              hf ← blit hf 0 v;
              Ret (Some {| a_object := obj; a_object_size := size; a_cost := cst;
                           a_signature := sg; a_public_key := pk; a_sign_alg := alg;
                           a_hash := hf |})
          end
      end
  | _, _, _, _, _, _, _, _ => Ret None
  end.

Definition posix_check_if_stored_policy (policy_id : option bytes) (fs : fsys) : bool :=
  match policy_id with
  | None => false
  | Some id =>
      match hex_to_str id RPI_POL_ID_MAX_LEN with
      | None => false
      | Some pol_id_str => file_exists fs (policy_path pol_id_str)
      end
  end.

Definition posix_flush_policy (heap_after : bytes) (policy_id : option bytes) (fs : fsys) : out (bool * fsys) :=
  match policy_id with
  | None => Ret (false, fs)
  | Some id =>
      match hex_to_str id RPI_POL_ID_MAX_LEN with
      | None => Ret (false, fs)
      | Some pol_id_str =>
          match fremove fs (policy_path pol_id_str) with
          | None => Ret (false, fs)
          | Some fs =>
              match fopen_r fs index_path with
              | None => Ret (false, fs)
              | Some buff =>
                  let len := Z.of_nat (length buff) in
                  let entry := Z.of_nat (length pol_id_str) + 1 in
                  let new_len := len - entry in
                  _ ← ensure (0 <=? new_len) OobWrite;
                  let new := repeat 0 (Z.to_nat new_len) in
                  pos ← strstr (buff ++ heap_after) pol_id_str ≫= deref;
                  let pos := Z.of_nat pos in
                  head ← slice 0 pos buff;
                  new ← blit new 0 head;
                  rest ← slice (pos + entry) (len - (pos + entry)) buff;
                  new ← blit new pos rest;
                  match fopen_w fs index_path with
                  | None => Ret (false, fs)
                  | Some fs => Ret (true, fwrite index_path new fs)
                  end
              end
          end
      end
  end.

Definition posix_get_pol_obj_len (heap_after : bytes) (policy_id : option bytes) (fs : fsys) : out Z :=
  match policy_id with
  | None => Ret 0
  | Some id =>
      match hex_to_str id RPI_POL_ID_MAX_LEN with
      | None => Ret 0
      | Some pol_id_str =>
          match fopen_r fs (policy_path pol_id_str) with
          | None => Ret 0
          | Some buffer =>
              pos ← strstr (buffer ++ heap_after) (cstr "policy object:") ≫= deref;
              Ret (Z.of_nat (length buffer)
                   - (Z.of_nat pos + Z.of_nat (length (cstr "policy object:"))))
          end
      end
  end.

Definition store_policy (policy_id : option bytes) (po : pap_policy_object_t)
    (sig : pap_policy_id_signature_t) (hash_fn : Z) (fs : fsys) : out (bool * fsys) :=
  match policy_id with
  | None => Ret (false, fs)
  | Some id =>
      if negb (hash_fn =? PAP_SHA_256) then Ret (false, fs) else
      let hash_function := literal_in STORAGE_HASH_FN_LEN (cstr "sha-256") in
      if negb (signature_algorithm sig =? PAP_ECDSA) then Ret (false, fs) else
      let sign_algorithm := literal_in STORAGE_SIGN_ALG_LEN (cstr "ECDSA") in
      posix_store_policy (Some id) (policy_object po) (policy_object_size po) (cost po)
        (signature sig) (public_key sig) (Some sign_algorithm) (Some hash_function) fs
  end.

(** The result carries the structures as the call leaves them: the copied
    fields are written even when an unsupported algorithm makes it fail. *)
Definition acquire_policy (heap_after : bytes) (policy_id : option bytes) (po : option pap_policy_object_t)
    (sig : option pap_policy_id_signature_t) (hash_fn : option Z) (fs : fsys)
    : out (bool * option (pap_policy_object_t * pap_policy_id_signature_t * Z)) :=
  match policy_id, po, sig, hash_fn with
  | Some id, Some po, Some sig, Some hash_fn =>
      r ← posix_acquire_policy heap_after (Some id) (policy_object po) (Some (policy_object_size po))
            (cost po) (signature sig) (public_key sig)
            (Some (repeat 0 STORAGE_SIGN_ALG_LEN)) (Some (repeat 0 STORAGE_HASH_FN_LEN)) fs;
      match r with
      | None => Ret (false, Some (po, sig, hash_fn))
      | Some a =>
          let po := {| policy_object := Some (a_object a);
                       policy_object_size := a_object_size a;
                       cost := Some (a_cost a) |} in
          let sig := {| signature := Some (a_signature a);
                        public_key := Some (a_public_key a);
                        signature_algorithm := signature_algorithm sig |} in
          ecdsa ← memcmp_eq (a_sign_alg a) (cstr "ECDSA") 5;
          if negb ecdsa then Ret (false, Some (po, sig, hash_fn)) else
          let sig := {| signature := signature sig; public_key := public_key sig;
                        signature_algorithm := PAP_ECDSA |} in
          sha ← memcmp_eq (a_hash a) (cstr "sha-256") 7;
          if negb sha then Ret (false, Some (po, sig, hash_fn))
          else Ret (true, Some (po, sig, PAP_SHA_256))
      end
  | _, _, _, _ => Ret (false, None)
  end.

Definition check_if_stored_policy (policy_id : option bytes) (fs : fsys) : bool :=
  match policy_id with
  | None => false
  | Some id => posix_check_if_stored_policy (Some id) fs
  end.

Definition flush_policy (heap_after : bytes) (policy_id : option bytes) (fs : fsys) : out (bool * fsys) :=
  match policy_id with
  | None => Ret (false, fs)
  | Some id => posix_flush_policy heap_after (Some id) fs
  end.

Definition acquire_pol_obj_len (heap_after : bytes) (policy_id : option bytes) (pol_obj_len : option Z)
    (fs : fsys) : out (bool * option Z) :=
  match policy_id, pol_obj_len with
  | Some id, Some _ => len ← posix_get_pol_obj_len heap_after (Some id) fs; Ret (true, Some len)
  | _, _ => Ret (false, pol_obj_len)
  end.

(** The loop of [acquire_all_policies] over the tokens of the index; [status]
    is how the scan for the token after the last one ends. *)
Fixpoint collect_ids (toks : list bytes) (status : out unit) (pol_list : list bytes)
    : out (bool * list bytes) :=
  match toks with
  | [] => _ ← status; Ret (true, pol_list)
  | tok :: toks =>
      match str_to_hex tok (PAP_POL_ID_MAX_LEN * 2) with
      | None => Ret (false, pol_list)
      | Some hex =>
          elem ← blit (repeat 0 PAP_POL_ID_MAX_LEN) 0 hex;
          collect_ids toks status (pol_list ++ [elem])
      end
  end.

(** [heap_after]: the bytes readable behind the [calloc]ed block. *)
Definition acquire_all_policies (heap_after : bytes) (pol_list_head : list bytes)
    (fs : fsys) : out (bool * list bytes) :=
  match fopen_r fs index_path with
  | None => Ret (false, pol_list_head)
  | Some pol_id_buff =>
      let '(toks, status) := strtok_all 124 (pol_id_buff ++ heap_after) in
      collect_ids toks status pol_list_head
  end.

(** *** The callbacks; each answers 0 whatever the operation reported. *)

Definition put_cb (policy : pap_policy_t) (fs : fsys) : out (Z * fsys) :=
  r ← store_policy (Some (policy_id policy)) (object policy) (id_signature policy)
        (hash_function policy) fs;
  Ret (0, r.2).

Definition get_cb (heap_after : bytes) (arg_id : bytes) (policy : pap_policy_t) (fs : fsys)
    : out (Z * pap_policy_t) :=
  r ← acquire_policy heap_after (Some arg_id) (Some (object policy)) (Some (id_signature policy))
        (Some (hash_function policy)) fs;
  let '(po, sig, hash) :=
    default (object policy, id_signature policy, hash_function policy) r.2 in
  id ← strncpy (policy_id policy) arg_id PAP_POL_ID_MAX_LEN;
  id ← store id (Z.of_nat PAP_POL_ID_MAX_LEN + 1) 0;
  Ret (0, {| policy_id := id; object := po; id_signature := sig; hash_function := hash |}).

Definition has_cb (arg_id : option bytes) (fs : fsys) : Z * bool :=
  (0, check_if_stored_policy arg_id fs).

Definition del_cb (heap_after : bytes) (arg_id : option bytes) (fs : fsys) : out (Z * fsys) :=
  r ← flush_policy heap_after arg_id fs; Ret (0, r.2).

Definition get_len_cb (heap_after : bytes) (arg_id : option bytes) (len : Z) (fs : fsys) : out (Z * Z) :=
  r ← acquire_pol_obj_len heap_after arg_id (Some len) fs; Ret (0, default len r.2).

Definition get_all_cb (heap_after : bytes) (id_list : list bytes) (fs : fsys)
    : out (Z * list bytes) :=
  r ← acquire_all_policies heap_after id_list fs; Ret (0, r.2).

(** *** The callback table of the initializer *)

Inductive pap_slot : Set :=
| PAP_PLUGIN_PUT_CB | PAP_PLUGIN_GET_CB | PAP_PLUGIN_HAS_CB | PAP_PLUGIN_DEL_CB
| PAP_PLUGIN_GET_POL_OBJ_LEN_CB | PAP_PLUGIN_GET_ALL_CB.

(** The argument a caller passes through [void* data], and what it reads back. *)
Inductive pap_data :=
| PolicyData (p : pap_policy_t)
| GetData (id : bytes) (p : pap_policy_t)
| HasData (id : option bytes) (does_have : bool)
| IdData (id : option bytes)
| LenData (id : option bytes) (len : Z)
| ListData (ids : list bytes).

(** Calling the function the initializer put in a slot.  A slot called with
    data of another type is a misuse the plugin cannot detect. *)
Definition pap_plugin_posix_call (heap_after : bytes) (slot : pap_slot) (d : pap_data)
    (fs : fsys) : out (Z * pap_data * fsys) :=
  match slot, d with
  | PAP_PLUGIN_PUT_CB, PolicyData p =>
      r ← put_cb p fs; Ret (r.1, PolicyData p, r.2)
  | PAP_PLUGIN_GET_CB, GetData id p =>
      r ← get_cb heap_after id p fs; Ret (r.1, GetData id r.2, fs)
  | PAP_PLUGIN_HAS_CB, HasData id _ =>
      let r := has_cb id fs in Ret (r.1, HasData id r.2, fs)
  | PAP_PLUGIN_DEL_CB, IdData id =>
      r ← del_cb heap_after id fs; Ret (r.1, IdData id, r.2)
  | PAP_PLUGIN_GET_POL_OBJ_LEN_CB, LenData id len =>
      r ← get_len_cb heap_after id len fs; Ret (r.1, LenData id r.2, fs)
  | PAP_PLUGIN_GET_ALL_CB, ListData ids =>
      r ← get_all_cb heap_after ids fs; Ret (r.1, ListData r.2, fs)
  | _, _ => Undef BadFree
  end.
End Plugin.
