(* ===== verification/PolicyStoreSpec.v ===== *)
(** * What the policy store promises

    The documented behaviour of the hex conversion, the text of a policy file,
    the abstract store (an index of identifiers and a map of policies), and the
    theorems: a stored policy is read back unchanged, and every sequence of
    operations on the plugin simulates the abstract store. *)

From S2P Require Import Prelude CStd PolicyStore.

(** ** Laws of the interfaces *)

Definition hex_char (c : Z) : bool :=
  is_digit c || ((97 <=? c) && (c <=? 102)) || ((65 <=? c) && (c <=? 70)).

Definition id_ok (id : bytes) : Prop := length id = RPI_POL_ID_MAX_LEN /\ Forall is_byte id.

Class HexCodecSpec `{HexCodec} : Prop := {
  hex_to_str_ok id : id_ok id -> exists s,
    hex_to_str id RPI_POL_ID_MAX_LEN = Some s /\ length s = 64%nat /\ Forall hex_char s;
  str_to_hex_ok id s : id_ok id ->
    hex_to_str id RPI_POL_ID_MAX_LEN = Some s -> str_to_hex s 64 = Some id
}.

Class PapApiSpec `{PapApi} : Prop := {
  pol_id_max_len : PAP_POL_ID_MAX_LEN = RPI_POL_ID_MAX_LEN
}.

(** ** Policies and their text *)

Record policy := {
  p_object : bytes;
  p_cost : bytes;
  p_signature : bytes;
  p_public_key : bytes
}.

(** Fields free of NUL, newline and space: normalised JSON and printable keys. *)
Definition plain_byte (c : Z) : bool := negb ((c =? 0) || (c =? 10) || (c =? 32)).
Definition field_ok (f : bytes) : Prop := Forall plain_byte f.

Record policy_ok (p : policy) : Prop := {
  ok_object : field_ok (p_object p) /\ p_object p <> [];
  ok_cost : field_ok (p_cost p);
  ok_signature : field_ok (p_signature p) /\ Z.of_nat (length (p_signature p)) = RPI_SIGNATURE_LEN;
  ok_public_key : field_ok (p_public_key p) /\ Z.of_nat (length (p_public_key p)) = RPI_PUBLIC_KEY_LEN
}.

Definition render (pol_id_str : bytes) (p : policy) : bytes :=
  cstr "policy id:" ++ pol_id_str
  ++ nl "policy object:" ++ p_object p
  ++ nl "policy cost:" ++ p_cost p
  ++ nl "policy id signature:" ++ p_signature p
  ++ nl "policy id signature public key:" ++ p_public_key p
  ++ nl "policy id signature sign. algorithm:" ++ cstr "ECDSA"
  ++ nl "hash function:" ++ cstr "sha-256".

Definition hex_str `{HexCodec} (id : bytes) : bytes :=
  default [] (hex_to_str id RPI_POL_ID_MAX_LEN).

Definition file_of `{HexCodec} (id : bytes) : bytes := policy_path (hex_str id).

Definition index_text `{HexCodec} (ids : list bytes) : bytes :=
  mjoin ((fun id => hex_str id ++ [124]) <$> ids).

(** The C structure a caller passes for the policy [p] with identifier [id];
    arrays may be longer than their contents. *)
Record encodes `{PapApi} (cp : pap_policy_t) (id : bytes) (p : policy) : Prop := {
  enc_id : policy_id cp = id;
  enc_object : exists junk, policy_object (object cp) = Some (p_object p ++ junk);
  enc_size : policy_object_size (object cp) = Z.of_nat (length (p_object p));
  enc_cost : exists junk, cost (object cp) = Some (p_cost p ++ 0 :: junk);
  enc_signature : exists junk, signature (id_signature cp) = Some (p_signature p ++ junk);
  enc_public_key : exists junk, public_key (id_signature cp) = Some (p_public_key p ++ junk);
  enc_alg : signature_algorithm (id_signature cp) = PAP_ECDSA;
  enc_hash : hash_function cp = PAP_SHA_256
}.

(** ** The abstract store *)

Record astore := { a_index : list bytes; a_map : gmap bytes policy }.

Fixpoint remove_first (id : bytes) (ids : list bytes) : list bytes :=
  match ids with
  | [] => []
  | i :: ids => if bool_decide (i = id) then ids else i :: remove_first id ids
  end.

(** A deletion copies the index to a block; [heap_after] is what lies behind it. *)
Inductive op := Put (cp : pap_policy_t) (id : bytes) (p : policy) | Del (heap_after id : bytes).

Definition op_ok `{PapApi} (o : op) : Prop :=
  match o with
  | Put cp id p => id_ok id /\ policy_ok p /\ encodes cp id p
  | Del _ id => id_ok id
  end.

Definition astep (o : op) (s : astore) : astore :=
  match o with
  | Put _ id p => {| a_index := a_index s ++ [id]; a_map := <[id := p]> (a_map s) |}
  | Del _ id =>
      match a_map s !! id with
      | Some _ => {| a_index := remove_first id (a_index s); a_map := delete id (a_map s) |}
      | None => s
      end
  end.

(** The same operation on the plugin. *)
Definition cstep `{HexCodec, PapApi} (o : op) (fs : fsys) : out fsys :=
  match o with
  | Put cp _ _ => r ← put_cb cp fs; Ret r.2
  | Del heap_after id => r ← del_cb heap_after (Some id) fs; Ret r.2
  end.

Fixpoint csteps `{HexCodec, PapApi} (os : list op) (fs : fsys) : out fsys :=
  match os with [] => Ret fs | o :: os => fs ← cstep o fs; csteps os fs end.

Fixpoint asteps (os : list op) (s : astore) : astore :=
  match os with [] => s | o :: os => asteps os (astep o s) end.

(** The file system holds the abstract store. *)
Record represents `{HexCodec} (fs : fsys) (s : astore) : Prop := {
  rep_denied : denied fs = ∅;
  rep_dir : a_index s <> [] -> dir_exists fs store_dir = true;
  rep_index : default [] (files fs !! index_path) = index_text (a_index s);
  rep_index_dir : is_Some (files fs !! index_path) -> dir_exists fs store_dir = true;
  rep_index_file : a_index s <> [] -> is_Some (files fs !! index_path);
  rep_index_ok : Forall id_ok (a_index s);
  rep_file id : id_ok id ->
    files fs !! file_of id = render (hex_str id) <$> a_map s !! id;
  rep_policies id p : a_map s !! id = Some p -> id_ok id /\ policy_ok p;
  rep_listed id p : a_map s !! id = Some p -> id ∈ a_index s
}.

(** ** Searching the text of a policy *)

Lemma plain_byte_spec c : plain_byte c = true <-> c <> 0 /\ c <> 10 /\ c <> 32.
Proof.
  unfold plain_byte. rewrite negb_true_iff, !orb_false_iff, !Z.eqb_neq. tauto.
Qed.

Lemma field_ok_not f c : field_ok f -> c = 0 \/ c = 10 \/ c = 32 -> c ∉ f.
Proof.
  intros Hf Hc Hin. unfold field_ok in Hf. rewrite Forall_forall in Hf.
  apply list_elem_of_In, Hf, Is_true_true in Hin. apply plain_byte_spec in Hin. lia.
Qed.

Lemma hex_char_plain c : hex_char c -> plain_byte c.
Proof.
  intros H. apply Is_true_true in H. apply Is_true_true. apply plain_byte_spec.
  unfold hex_char, is_digit in H. znorm H. lia.
Qed.

Lemma hex_field s : Forall hex_char s -> field_ok s.
Proof. apply Forall_impl, hex_char_plain. Qed.

Lemma find_field pat f m l :
  bool_decide (32 ∈ pat) && bool_decide (10 ∉ tail pat) = true -> field_ok f ->
  find_sub pat (f ++ nl m ++ l) = Nat.add (length f) <$> find_sub pat (nl m ++ l).
Proof.
  intros [H32%bool_decide_eq_true H10%bool_decide_eq_true]%andb_true_iff Hf.
  apply find_sub_field with (x := 32); auto using field_ok_not.
Qed.

Lemma find_in_nl m l :
  skips (cstr m) [10] = true -> find_sub (cstr m) (nl m ++ l) = Some 1%nat.
Proof.
  intros H. change (nl m ++ l) with ([10] ++ cstr m ++ l).
  by rewrite find_sub_skips, find_sub_here.
Qed.

Lemma between_spec heap buffer start stop a f c :
  no_nul buffer -> has_nul heap = true -> buffer = a ++ start ++ f ++ stop ++ c ->
  find_sub start buffer = Some (length a) ->
  find_sub stop buffer = Some (length a + (length start + length f))%nat ->
  between heap buffer start stop = Ret f.
Proof.
  intros H0 Hh Hb H1 H2. unfold between.
  rewrite (strstr_block _ _ _ _ H0 Hh H1), (strstr_block _ _ _ _ H0 Hh H2). cbn -[Z.of_nat]. rewrite Hb, (app_assoc a start).
  apply slice_app; rewrite ?length_app; lia.
Qed.

Lemma to_end_spec heap buffer start a f :
  no_nul buffer -> has_nul heap = true -> buffer = a ++ start ++ f ->
  find_sub start buffer = Some (length a) -> to_end heap buffer start = Ret f.
Proof.
  intros H0 Hh Hb H1. unfold to_end. rewrite (strstr_block _ _ _ _ H0 Hh H1). cbn -[Z.of_nat]. rewrite Hb, (app_assoc a start).
  rewrite <- (slice_app (a ++ start) f [] _ _ eq_refl eq_refl), app_nil_r.
  rewrite !length_app. f_equal; lia.
Qed.

(** [find_text] evaluates a search in a rendered policy: literals are skipped
    by computation, fields by [find_field], until the occurrence. *)
Ltac find_text :=
  repeat first
    [ rewrite find_sub_here
    | rewrite find_in_nl by reflexivity
    | rewrite find_sub_skips by reflexivity
    | rewrite find_field by (first [reflexivity | assumption]) ];
  cbn [fmap option_fmap option_map].

Section RenderedText.
Context (heap s : bytes) (p : policy) (Hheap : has_nul heap = true) (Hs : field_ok s) (Hp : policy_ok p).

Lemma render_no_nul : no_nul (render s p).
Proof.
  destruct Hp as [[Ho _] Hc [Hg _] [Hk _]]. unfold no_nul, render.
  rewrite !not_elem_of_app. repeat split;
    first [ apply field_ok_not; [assumption | tauto] | apply (bool_decide_unpack _); vm_compute; exact I ].
Qed.

#[local] Ltac fields :=
  pose proof (ok_object p Hp) as [Ho _]; pose proof (ok_cost p Hp) as Hc;
  pose proof (ok_signature p Hp) as [Hg _]; pose proof (ok_public_key p Hp) as [Hk _].

(** The occurrence of both markers of a field, with the text [a] in front. *)
#[local] Ltac text_between pre :=
  fields; first [ eapply (between_spec _ _ _ _ pre) | eapply (to_end_spec _ _ _ pre) ];
  [ apply render_no_nul
  | exact Hheap
  | unfold render; rewrite <- !app_assoc; reflexivity
  | unfold render; find_text; rewrite ?length_app; f_equal; cbn; lia .. ].

Lemma between_object :
  between heap (render s p) (cstr "policy object:") (nl "policy cost:") = Ret (p_object p).
Proof. text_between (cstr "policy id:" ++ s ++ [10]). Qed.

Lemma between_cost :
  between heap (render s p) (cstr "policy cost:") (nl "policy id signature:") = Ret (p_cost p).
Proof.
  text_between (cstr "policy id:" ++ s ++ nl "policy object:" ++ p_object p ++ [10]).
Qed.

Lemma between_signature :
  between heap (render s p) (cstr "policy id signature:") (nl "policy id signature public key:")
  = Ret (p_signature p).
Proof.
  text_between (cstr "policy id:" ++ s ++ nl "policy object:" ++ p_object p
                ++ nl "policy cost:" ++ p_cost p ++ [10]).
Qed.

Lemma between_public_key :
  between heap (render s p) (cstr "policy id signature public key:")
    (nl "policy id signature sign. algorithm:") = Ret (p_public_key p).
Proof.
  text_between (cstr "policy id:" ++ s ++ nl "policy object:" ++ p_object p
                ++ nl "policy cost:" ++ p_cost p ++ nl "policy id signature:"
                ++ p_signature p ++ [10]).
Qed.

Lemma between_algorithm :
  between heap (render s p) (cstr "policy id signature sign. algorithm:") (nl "hash function:")
  = Ret (cstr "ECDSA").
Proof.
  text_between (cstr "policy id:" ++ s ++ nl "policy object:" ++ p_object p
                ++ nl "policy cost:" ++ p_cost p ++ nl "policy id signature:"
                ++ p_signature p ++ nl "policy id signature public key:"
                ++ p_public_key p ++ [10]).
Qed.

Lemma to_end_hash :
  to_end heap (render s p) (cstr "hash function:") = Ret (cstr "sha-256").
Proof.
  text_between (cstr "policy id:" ++ s ++ nl "policy object:" ++ p_object p
                ++ nl "policy cost:" ++ p_cost p ++ nl "policy id signature:"
                ++ p_signature p ++ nl "policy id signature public key:"
                ++ p_public_key p ++ nl "policy id signature sign. algorithm:"
                ++ cstr "ECDSA" ++ [10]).
Qed.

Lemma strstr_object :
  strstr (render s p ++ heap) (cstr "policy object:")
  = Ret (Some (length (cstr "policy id:" ++ s ++ [10]))).
Proof.
  fields. apply strstr_block; [apply render_no_nul | exact Hheap |].
  unfold render. find_text. rewrite !length_app. cbn. by do 2 f_equal.
Qed.
End RenderedText.

(** ** The file operations of the plugin *)

Lemma dir_exists_mkdir d fs :
  denied fs = ∅ -> dirname d = [] ->
  dir_exists (if dir_exists fs d then fs else mkdir d fs) d = true.
Proof.
  intros Hden Hdir. destruct (dir_exists fs d) eqn:E; [done|].
  unfold mkdir, is_denied. rewrite Hden, Hdir, bool_decide_false by set_solver. cbn.
  unfold dir_exists. cbn. rewrite (bool_decide_true (d ∈ _)) by set_solver. apply orb_true_r.
Qed.

Lemma mkdir_files d fs : files (if dir_exists fs d then fs else mkdir d fs) = files fs.
Proof. unfold mkdir. repeat case_match; done. Qed.

Lemma mkdir_denied d fs : denied (if dir_exists fs d then fs else mkdir d fs) = denied fs.
Proof. unfold mkdir. repeat case_match; done. Qed.

Lemma dirname_policy_path str : 47 ∉ str -> dirname (policy_path str) = store_dir.
Proof.
  intros H. unfold policy_path.
  change (cstr "stored_policies/" ++ str ++ cstr ".txt")
    with (store_dir ++ 47 :: (str ++ cstr ".txt")).
  apply dirname_app. rewrite not_elem_of_app. split; [done|].
  apply (bool_decide_unpack _). vm_compute. exact I.
Qed.

Lemma hex_no_slash s : Forall hex_char s -> 47 ∉ s.
Proof.
  intros Hf Hin. rewrite Forall_forall in Hf.
  apply list_elem_of_In, Hf in Hin. done.
Qed.

Lemma policy_path_not_index str : length str = 64%nat -> policy_path str <> index_path.
Proof.
  intros H E. apply (f_equal length) in E. unfold policy_path, index_path in E.
  rewrite !length_app, H in E. done.
Qed.

Lemma fopen_w_ok path fs :
  denied fs = ∅ -> dir_exists fs (dirname path) = true ->
  fopen_w fs path = Some (upd_files <[path := []]> fs).
Proof.
  intros Hden Hdir. unfold fopen_w, is_denied.
  by rewrite Hden, Hdir, bool_decide_false by set_solver.
Qed.

Lemma fopen_a_ok path fs :
  denied fs = ∅ -> dir_exists fs (dirname path) = true ->
  fopen_a fs path = Some (upd_files (fun m => <[path := default [] (m !! path)]> m) fs).
Proof.
  intros Hden Hdir. unfold fopen_a, is_denied.
  by rewrite Hden, Hdir, bool_decide_false by set_solver.
Qed.

Lemma fopen_r_ok path fs : denied fs = ∅ -> fopen_r fs path = files fs !! path.
Proof.
  intros Hden. unfold fopen_r, is_denied. by rewrite Hden, bool_decide_false by set_solver.
Qed.

(** The file system after a successful store. *)
Definition stored (str : bytes) (text : bytes) (fs : fsys) : fsys :=
  let fs := if dir_exists fs store_dir then fs else mkdir store_dir fs in
  upd_files (fun m =>
    <[index_path := default [] (m !! index_path) ++ str ++ [124]]>
      (<[policy_path str := text]> m)) fs.

Lemma field_no_nul f : field_ok f -> no_nul f.
Proof. intros H. apply field_ok_not; [done | tauto]. Qed.

Lemma c_str_literal n s :
  no_nul s -> (length s < n)%nat -> c_str (literal_in n s) = Ret s.
Proof.
  intros H0 Hn. unfold literal_in.
  destruct (n - length s)%nat as [|k] eqn:E; [lia|]. cbn. by apply c_str_app.
Qed.

Lemma posix_store_policy_ok `{HexCodec, PapApi} cp id p str fs :
  hex_to_str id RPI_POL_ID_MAX_LEN = Some str -> length str = 64%nat -> Forall hex_char str ->
  policy_ok p -> encodes cp id p -> denied fs = ∅ ->
  store_policy (Some id) (object cp) (id_signature cp) (hash_function cp) fs
  = Ret (true, stored str (render str p) fs).
Proof.
  intros Hhex Hlen Hstr [[Ho Hne] Hc [Hg Hgl] [Hk Hkl]]
    [_ [jo Eo] Es [jc Ec] [jg Eg] [jk Ek] Ea Eh] Hden.
  unfold store_policy. rewrite Eh, Ea, !Z.eqb_refl. cbn [negb].
  unfold posix_store_policy. rewrite Eo, Ec, Eg, Ek, Es, Hhex.
  destruct (Z.eqb_spec (Z.of_nat (length (p_object p))) 0) as [E0|_].
  { destruct (p_object p); [done | cbn in E0; lia]. }
  pose proof (dir_exists_mkdir store_dir fs Hden eq_refl) as Hdir.
  pose proof (mkdir_denied store_dir fs) as Hden'. unfold stored.
  set (fs1 := if dir_exists fs store_dir then fs else mkdir store_dir fs) in *.
  rewrite fopen_w_ok by (rewrite ?dirname_policy_path; auto using hex_no_slash; congruence).
  rewrite slice_0_app by done. cbn [mbind out_bind].
  rewrite c_str_app by auto using field_no_nul. cbn [mbind out_bind].
  rewrite slice_0_app by done. cbn [mbind out_bind].
  rewrite slice_0_app by done. cbn [mbind out_bind].
  rewrite !c_str_literal
    by first [ cbn; lia | apply (bool_decide_unpack _); vm_compute; exact I ].
  cbn [mbind out_bind]. rewrite !fwrite_insert.
  rewrite fopen_a_ok by first [ exact Hdir | cbn; congruence ].
  f_equal. f_equal. unfold fwrite, upd_files. cbn [files dirs denied]. f_equal.
  rewrite alter_insert, decide_True by done. rewrite alter_insert, decide_True by done.
  rewrite lookup_insert_ne by (by apply policy_path_not_index).
  rewrite <- !app_assoc. reflexivity.
Qed.

(** ** The index file *)

Section Index.
Context `{HexCodecSpec}.

Lemma hex_str_spec id :
  id_ok id ->
  hex_to_str id RPI_POL_ID_MAX_LEN = Some (hex_str id)
  /\ length (hex_str id) = 64%nat /\ Forall hex_char (hex_str id).
Proof.
  intros (s & Hs & ? & ?)%hex_to_str_ok. unfold hex_str. by rewrite Hs.
Qed.

Lemma hex_str_inj id1 id2 : id_ok id1 -> id_ok id2 -> hex_str id1 = hex_str id2 -> id1 = id2.
Proof.
  intros H1 H2 E.
  destruct (hex_str_spec id1 H1) as [E1 _]. destruct (hex_str_spec id2 H2) as [E2 _].
  apply str_to_hex_ok in E1; [|done]. apply str_to_hex_ok in E2; [|done]. congruence.
Qed.

Lemma file_of_inj id1 id2 : id_ok id1 -> id_ok id2 -> file_of id1 = file_of id2 -> id1 = id2.
Proof.
  intros H1 H2 E. apply hex_str_inj; [done..|]. unfold file_of, policy_path in E.
  by apply app_inv_head, app_inv_tail in E.
Qed.

Lemma file_of_not_index id : id_ok id -> file_of id <> index_path.
Proof. intros Hid. apply policy_path_not_index, hex_str_spec, Hid. Qed.

Lemma bar_not_hex s : Forall hex_char s -> 124 ∉ s.
Proof.
  intros Hf Hin. rewrite list.Forall_forall in Hf. by apply Hf in Hin.
Qed.

Lemma index_text_app ids1 ids2 : index_text (ids1 ++ ids2) = index_text ids1 ++ index_text ids2.
Proof. unfold index_text. by rewrite fmap_app, join_app. Qed.

Lemma index_text_cons id ids : index_text (id :: ids) = hex_str id ++ 124 :: index_text ids.
Proof. unfold index_text. cbn. by rewrite <- app_assoc. Qed.

(** The first occurrence of an identifier splits the index where
    [remove_first] does. *)
Lemma index_find id ids :
  id ∈ ids -> Forall id_ok ids ->
  exists l r, ids = l ++ id :: r /\ remove_first id ids = l ++ r
    /\ find_sub (hex_str id) (index_text ids) = Some (length (index_text l)).
Proof.
  induction ids as [|i ids IH]; [set_solver|].
  intros Hin [Hi Hids]%Forall_cons_iff. cbn [remove_first]. case_bool_decide as Heq.
  - subst i. exists [], ids. rewrite index_text_cons, find_sub_here. repeat split.
  - destruct IH as (l & r & -> & -> & Hf); [set_solver | done |].
    exists (i :: l), r. repeat split. rewrite !index_text_cons.
    assert (id_ok id) as Hid by (rewrite Forall_app, Forall_cons_iff in Hids; tauto).
    destruct (hex_str_spec i Hi) as (_ & Hli & Hci).
    destruct (hex_str_spec id Hid) as (_ & Hld & Hcd).
    rewrite find_sub_block, Hf.
    + cbn. f_equal. rewrite length_app. cbn. lia.
    + intros E. by rewrite E in Hld.
    + congruence.
    + contradict Heq. by apply hex_str_inj.
    + by apply bar_not_hex.
Qed.

Lemma index_no_nul ids : Forall id_ok ids -> no_nul (index_text ids).
Proof.
  unfold no_nul. induction 1 as [|i ids Hi _ IH]; [set_solver|].
  rewrite index_text_cons, not_elem_of_app, not_elem_of_cons.
  destruct (hex_str_spec i Hi) as (_ & _ & Hc).
  repeat split; [|done..]. apply field_ok_not; [by apply hex_field | tauto].
Qed.

Lemma index_tokens ids rest :
  Forall id_ok ids ->
  strtok_all 124 (index_text ids ++ rest)
  = ((hex_str <$> ids) ++ (strtok_all 124 rest).1, (strtok_all 124 rest).2).
Proof.
  induction 1 as [|i ids Hi _ IH]; [apply surjective_pairing|].
  destruct (hex_str_spec i Hi) as (_ & Hl & Hc).
  rewrite index_text_cons, <- app_assoc. cbn [app fmap list_fmap].
  rewrite strtok_all_token, IH; [reflexivity | | | by apply bar_not_hex | done].
  - intros E. by rewrite E in Hl.
  - apply field_no_nul, hex_field, Hc.
Qed.
End Index.

Lemma blit_over a b c src off :
  off = Z.of_nat (length a) -> length b = length src ->
  blit (a ++ b ++ c) off src = Ret (a ++ src ++ c).
Proof.
  intros -> Hl. rewrite blit_app by (rewrite ?length_app; lia). by rewrite <- Hl, drop_app_length.
Qed.

(** [flush_policy] cuts the first entry of the identifier out of the index. *)
Lemma posix_flush_policy_ok `{HexCodec} heap id str text pre post fs :
  hex_to_str id RPI_POL_ID_MAX_LEN = Some str -> length str = 64%nat -> denied fs = ∅ ->
  dir_exists fs store_dir = true -> files fs !! policy_path str = Some text ->
  files fs !! index_path = Some (pre ++ str ++ 124 :: post) ->
  no_nul (pre ++ str ++ 124 :: post) ->
  find_sub str (pre ++ str ++ 124 :: post) = Some (length pre) ->
  flush_policy heap (Some id) fs
  = if has_nul heap
    then Ret (true, upd_files (fun m => <[index_path := pre ++ post]> (delete (policy_path str) m)) fs)
    else Undef OobRead.
Proof.
  intros Hhex Hlen Hden Hdir Hfile Hidx H0 Hfind.
  unfold flush_policy, posix_flush_policy, fremove, is_denied.
  rewrite Hhex, Hden, bool_decide_false, Hfile by set_solver.
  rewrite fopen_r_ok by done. cbn [files upd_files].
  rewrite lookup_delete_ne, Hidx by (by apply policy_path_not_index).
  unfold ensure. rewrite !length_app. cbn [length]. zdec. cbn [mbind out_bind].
  destruct (has_nul heap) eqn:Hheap.
  2:{ by rewrite strstr_unterminated by (by rewrite has_nul_app). }
  rewrite (strstr_block _ _ _ _ H0 Hheap Hfind). cbn [mbind out_bind deref].
  rewrite slice_0_app by done. cbn [mbind out_bind].
  set (k := Z.to_nat _).
  assert (repeat 0 k = [] ++ repeat 0 (length pre) ++ repeat 0 (length post)) as ->.
  { cbn [app]. rewrite <- repeat_app. f_equal. lia. }
  rewrite (blit_over []) by (done || by rewrite repeat_length). cbn [mbind out_bind app].
  replace (pre ++ str ++ 124 :: post) with ((pre ++ str ++ [124]) ++ post ++ [])
    by (rewrite <- !app_assoc, app_nil_r; done).
  rewrite slice_app by (rewrite ?length_app; cbn [length]; lia). cbn [mbind out_bind].
  rewrite <- (app_nil_r (repeat 0 (length post))).
  rewrite blit_over by (done || by rewrite repeat_length). cbn [mbind out_bind].
  rewrite fopen_w_ok by first [ exact Hdir | cbn; congruence ].
  by rewrite fwrite_insert, app_nil_r.
Qed.

(** ** The simulation *)

Section Simulation.
Context `{HexCodecSpec, PapApiSpec}.

Lemma remove_first_subset id ids j : j ∈ remove_first id ids -> j ∈ ids.
Proof.
  induction ids as [|i ids IH]; cbn; [done|]. case_bool_decide; set_solver.
Qed.

Lemma remove_first_other id ids j : j ∈ ids -> j <> id -> j ∈ remove_first id ids.
Proof.
  induction ids as [|i ids IH]; cbn; [done|]. case_bool_decide; set_solver.
Qed.

Lemma put_simulates fs s cp id p :
  represents fs s -> op_ok (Put cp id p) ->
  exists fs', cstep (Put cp id p) fs = Ret fs' /\ represents fs' (astep (Put cp id p) s).
Proof.
  intros [Hden Hdir Hidx Hid Hif Hok Hfile Hpol Hlist] (Hi & Hp & He).
  destruct (hex_str_spec id Hi) as (Hhex & Hlen & Hchars).
  unfold cstep, put_cb. rewrite (enc_id _ _ _ He).
  rewrite (posix_store_policy_ok cp id p (hex_str id)) by done.
  eexists. split; [reflexivity|]. cbn [astep snd].
  assert (file_of id <> index_path) as Hne by by apply file_of_not_index.
  unfold stored. constructor; cbn [a_index a_map]; unfold upd_files; cbn [files denied].
  - by rewrite mkdir_denied.
  - intros _. by apply dir_exists_mkdir.
  - by rewrite lookup_insert_eq, mkdir_files, Hidx, index_text_app, index_text_cons.
  - intros _. by apply dir_exists_mkdir.
  - intros _. rewrite lookup_insert_eq. done.
  - apply Forall_app_2; [done|]. by constructor.
  - intros j Hj. rewrite lookup_insert_ne, mkdir_files by (apply not_eq_sym, file_of_not_index, Hj).
    destruct (decide (j = id)) as [->|Hji].
    + change (policy_path (hex_str id)) with (file_of id). by rewrite !lookup_insert_eq.
    + rewrite !lookup_insert_ne; [by apply Hfile | done |].
      intros E. by apply Hji, file_of_inj.
  - intros j q. rewrite lookup_insert. case_decide as Hji; [intros [= <-]; by subst j | apply Hpol].
  - intros j q. rewrite lookup_insert. case_decide; [set_solver|].
    intros Hq%Hlist. set_solver.
Qed.

(** A deletion needs a NUL behind its copy of the index, when there is something
    to delete. *)
Definition survives (o : op) (s : astore) : bool :=
  match o with
  | Put _ _ _ => true
  | Del heap_after id => has_nul heap_after || bool_decide (a_map s !! id = None)
  end.

Fixpoint all_survive (os : list op) (s : astore) : bool :=
  match os with [] => true | o :: os => survives o s && all_survive os (astep o s) end.

Lemma del_simulates heap fs s id :
  represents fs s -> op_ok (Del heap id) ->
  if survives (Del heap id) s
  then exists fs', cstep (Del heap id) fs = Ret fs' /\ represents fs' (astep (Del heap id) s)
  else cstep (Del heap id) fs = Undef OobRead.
Proof.
  intros Hrep Hi. cbn [op_ok] in Hi.
  pose proof Hrep as [Hden Hdir Hidx Hid Hif Hok Hfile Hpol Hlist].
  destruct (hex_str_spec id Hi) as (Hhex & Hlen & Hchars).
  pose proof (Hfile id Hi) as Hf. cbn [astep survives]. unfold cstep, del_cb.
  destruct (a_map s !! id) as [p|] eqn:Ep.
  2:{ rewrite bool_decide_true, orb_true_r by done. eexists. split; [|exact Hrep]. unfold flush_policy, posix_flush_policy, fremove, is_denied.
      rewrite Hhex, Hden, bool_decide_false by set_solver.
      change (policy_path (hex_str id)) with (file_of id). by rewrite Hf. }
  destruct (index_find id (a_index s)) as (l & r & Hs & Hrm & Hfind); [by eapply Hlist | done |].
  assert (files fs !! index_path = Some (index_text l ++ hex_str id ++ 124 :: index_text r)) as Hi'.
  { destruct Hif as [t Ht]; [by rewrite Hs; destruct l|].
    rewrite Ht in Hidx |- *. cbn in Hidx. by rewrite Hidx, Hs, index_text_app, index_text_cons. }
  assert (index_text (a_index s) = index_text l ++ hex_str id ++ 124 :: index_text r) as Ht
    by by rewrite Hs, index_text_app, index_text_cons.
  rewrite (posix_flush_policy_ok heap id (hex_str id) (render (hex_str id) p) (index_text l) (index_text r));
    [ | done | done | done | by apply Hid; rewrite Hi' | exact Hf | done
    | rewrite <- Ht; by apply index_no_nul | by rewrite <- Ht ].
  rewrite bool_decide_false, orb_false_r by done. destruct (has_nul heap); [|done].
  eexists. split; [reflexivity|]. cbn [snd].
  constructor; cbn [a_index a_map]; unfold upd_files; cbn [files denied].
  - done.
  - intros _. apply Hid. by rewrite Hi'.
  - rewrite lookup_insert_eq, Hrm, index_text_app. done.
  - intros _. apply Hid. by rewrite Hi'.
  - intros _. by rewrite lookup_insert_eq.
  - rewrite list.Forall_forall in Hok |- *. eauto using remove_first_subset.
  - intros j Hj. rewrite lookup_insert_ne by (apply not_eq_sym, file_of_not_index, Hj).
    destruct (decide (j = id)) as [->|Hji]; [by rewrite !lookup_delete_eq|].
    rewrite !lookup_delete_ne; [by apply Hfile | done |].
    intros E. by apply Hji, file_of_inj.
  - intros j q. rewrite lookup_delete. case_decide; [done | apply Hpol].
  - intros j q. rewrite lookup_delete. case_decide; [done|]. intros Hq%Hlist.
    by apply remove_first_other.
Qed.

Lemma step_simulates fs s o :
  represents fs s -> op_ok o ->
  if survives o s then exists fs', cstep o fs = Ret fs' /\ represents fs' (astep o s)
  else cstep o fs = Undef OobRead.
Proof. destruct o; [apply put_simulates | apply del_simulates]. Qed.

Lemma csteps_refine os fs s :
  represents fs s -> Forall op_ok os ->
  if all_survive os s then exists fs', csteps os fs = Ret fs' /\ represents fs' (asteps os s)
  else csteps os fs = Undef OobRead.
Proof.
  revert fs s; induction os as [|o os IH]; intros fs s Hrep Hops; cbn; [eauto|].
  apply Forall_cons_iff in Hops as [Ho Hos].
  pose proof (step_simulates fs s o Hrep Ho) as Hstep. destruct (survives o s); cbn [andb].
  - destruct Hstep as (fs' & -> & Hrep'). by apply IH.
  - by rewrite Hstep.
Qed.

Lemma has_cb_abs fs s id :
  represents fs s -> id_ok id ->
  has_cb (Some id) fs = (0, bool_decide (is_Some (a_map s !! id))).
Proof.
  intros Hrep Hi. destruct (hex_str_spec id Hi) as (Hhex & _).
  unfold has_cb, check_if_stored_policy, posix_check_if_stored_policy, file_exists.
  rewrite Hhex. change (policy_path (hex_str id)) with (file_of id).
  rewrite (rep_file _ _ Hrep id Hi). f_equal. apply bool_decide_ext. by rewrite fmap_is_Some.
Qed.

(** C1: a sequence of store and delete calls on the plugin keeps the file system
    a representation of the abstract store, and the plugin then reports a policy
    as present exactly when the store holds it, provided that behind every block
    in which a deletion of a stored policy searches the index the memory holds a
    NUL.  The block itself has none: where that fails, the sequence reads behind
    it. *)
Theorem plugin_refines_store os fs s :
  represents fs s -> Forall op_ok os ->
  if all_survive os s then
    exists fs', csteps os fs = Ret fs' /\ represents fs' (asteps os s)
      /\ forall id, id_ok id ->
           has_cb (Some id) fs' = (0, bool_decide (is_Some (a_map (asteps os s) !! id)))
  else csteps os fs = Undef OobRead.
Proof.
  intros Hrep Hops. pose proof (csteps_refine os fs s Hrep Hops) as H'.
  destruct (all_survive os s); [|done]. destruct H' as (fs' & ? & ?). eauto using has_cb_abs.
Qed.

(** C2: a stored policy is read back field by field, with the supported
    algorithms, into buffers that are large enough.  The search for the fields
    runs over a copy of the file without a terminator: it needs one behind the
    block. *)
Theorem get_returns_stored heap fs s id p obj size cst sg pk alg h :
  has_nul heap = true -> represents fs s -> id_ok id -> a_map s !! id = Some p ->
  (length (p_object p) <= length obj)%nat -> (length (p_cost p) <= length cst)%nat ->
  RPI_SIGNATURE_LEN <= Z.of_nat (length sg) -> RPI_PUBLIC_KEY_LEN <= Z.of_nat (length pk) ->
  acquire_policy heap (Some id)
    (Some {| policy_object := Some obj; policy_object_size := size; cost := Some cst |})
    (Some {| signature := Some sg; public_key := Some pk; signature_algorithm := alg |})
    (Some h) fs
  = Ret (true, Some
      ({| policy_object := Some (p_object p ++ drop (length (p_object p)) obj);
          policy_object_size := Z.of_nat (length (p_object p));
          cost := Some (p_cost p ++ drop (length (p_cost p)) cst) |},
       {| signature := Some (p_signature p ++ drop (length (p_signature p)) sg);
          public_key := Some (p_public_key p ++ drop (length (p_public_key p)) pk);
          signature_algorithm := PAP_ECDSA |},
       PAP_SHA_256)).
Proof.
  intros Hheap Hrep Hi Hp Lo Lc Lg Lk. destruct (hex_str_spec id Hi) as (Hhex & _ & Hchars).
  destruct (rep_policies _ _ Hrep _ _ Hp) as [_ Hok].
  pose proof (ok_signature p Hok) as [_ Eg]. pose proof (ok_public_key p Hok) as [_ Ek].
  apply hex_field in Hchars.
  unfold acquire_policy, posix_acquire_policy. cbn [policy_object cost signature public_key].
  rewrite Hhex, fopen_r_ok by apply Hrep. change (policy_path (hex_str id)) with (file_of id).
  rewrite (rep_file _ _ Hrep id Hi), Hp. cbn [fmap option_fmap option_map].
  rewrite between_object, between_cost, between_signature, between_public_key,
    between_algorithm, to_end_hash by done.
  cbn [mbind out_bind]. rewrite !blit_0 by first [ lia | cbn; lia ]. done.
Qed.

Lemma collect_all ids status acc :
  Forall id_ok ids ->
  collect_ids (hex_str <$> ids) status acc = collect_ids [] status (acc ++ ids).
Proof.
  intros Hids. revert acc; induction Hids as [|i ids Hi _ IH]; intros acc.
  - by rewrite app_nil_r.
  - destruct (hex_str_spec i Hi) as (Hhex & _). cbn [fmap list_fmap collect_ids].
    rewrite pol_id_max_len, (str_to_hex_ok i) by done.
    rewrite blit_0 by (rewrite repeat_length; destruct Hi; lia). cbn [mbind out_bind].
    rewrite drop_ge, app_nil_r by (rewrite repeat_length; destruct Hi; lia).
    change (collect_ids (hex_str <$> ids) status (acc ++ [i]) = collect_ids [] status (acc ++ i :: ids)).
    by rewrite IH, <- app_assoc.
Qed.

Lemma get_all_scan fs s text heap_after acc :
  represents fs s -> files fs !! index_path = Some text ->
  acquire_all_policies heap_after acc fs
  = (let '(toks, status) := strtok_all 124 heap_after in
     collect_ids ((hex_str <$> a_index s) ++ toks) status acc).
Proof.
  intros Hrep Ht. unfold acquire_all_policies. rewrite fopen_r_ok, Ht by apply Hrep.
  pose proof (rep_index _ _ Hrep) as E. rewrite Ht in E. cbn in E. subst text.
  rewrite index_tokens by apply Hrep. by destruct (strtok_all 124 heap_after).
Qed.

(** the listing of the stored identifiers.  The plugin scans a [calloc]ed
    copy of the index that has no terminator: when the byte behind the block
    happens to be NUL it appends exactly the identifiers, in the order of
    their storing; with no readable byte behind it the call is undefined. *)
Lemma get_all_lists_index fs s heap acc :
  represents fs s -> is_Some (files fs !! index_path) ->
  acquire_all_policies (0 :: heap) acc fs = Ret (true, acc ++ a_index s)
  /\ acquire_all_policies [] acc fs = Undef OobRead.
Proof.
  intros Hrep [text Ht]. rewrite !(get_all_scan fs s text) by done.
  change (strtok_all 124 (0 :: heap)) with ([] : list bytes, Ret tt).
  change (strtok_all 124 []) with ([] : list bytes, Undef OobRead : out unit).
  cbn iota. rewrite app_nil_r, !collect_all by apply Hrep. done.
Qed.

(** the length reported for a policy object is the number of bytes from
    the object to the end of the file: the object and everything after it. *)
Lemma get_len_counts_to_end heap fs s id p len :
  has_nul heap = true -> represents fs s -> id_ok id -> a_map s !! id = Some p ->
  exists k, get_len_cb heap (Some id) len fs = Ret (0, Z.of_nat (length (p_object p)) + k)
    /\ k = Z.of_nat (length (p_cost p)) + 322.
Proof.
  intros Hheap Hrep Hi Hp. destruct (hex_str_spec id Hi) as (Hhex & Hlen & Hchars).
  destruct (rep_policies _ _ Hrep _ _ Hp) as [_ Hok].
  pose proof (ok_signature p Hok) as [_ Eg]. pose proof (ok_public_key p Hok) as [_ Ek].
  eexists. split; [|reflexivity].
  unfold get_len_cb, acquire_pol_obj_len, posix_get_pol_obj_len.
  rewrite Hhex, fopen_r_ok by apply Hrep. change (policy_path (hex_str id)) with (file_of id).
  rewrite (rep_file _ _ Hrep id Hi), Hp. cbn [fmap option_fmap option_map].
  rewrite strstr_object by auto using hex_field. cbn [mbind out_bind deref].
  unfold render. rewrite !length_app. unfold RPI_SIGNATURE_LEN, RPI_PUBLIC_KEY_LEN in *.
  change (length (cstr "policy id:")) with 10%nat. cbn. do 2 f_equal. lia.
Qed.

(** *** Runs that never store an identifier twice *)

Definition exact (s : astore) : Prop :=
  NoDup (a_index s) /\ forall id, id ∈ a_index s <-> is_Some (a_map s !! id).

Fixpoint fresh (os : list op) (s : astore) : Prop :=
  match os with
  | [] => True
  | o :: os =>
      (match o with Put _ id _ => a_map s !! id = None | Del _ _ => True end)
      /\ fresh os (astep o s)
  end.

Lemma remove_first_NoDup id ids :
  NoDup ids -> NoDup (remove_first id ids) /\ (forall j, j ∈ remove_first id ids <-> j ∈ ids /\ j <> id).
Proof.
  induction 1 as [|i ids Hi Hnd [IH1 IH2]]; cbn; [split; [constructor | set_solver]|].
  case_bool_decide as E; [subst i; split; [done | set_solver]|].
  split; [constructor; [rewrite IH2; tauto | done]|].
  intros j. rewrite !elem_of_cons, IH2. intuition congruence.
Qed.

Lemma astep_exact o s :
  exact s -> (match o with Put _ id _ => a_map s !! id = None | Del _ _ => True end) ->
  exact (astep o s).
Proof.
  intros [Hnd Hdom] Ho. destruct o as [cp id p | heap id]; cbn [astep].
  - assert (id ∉ a_index s) as Hid by (rewrite Hdom, Ho; apply is_Some_None).
    split; cbn [a_index a_map].
    + apply list.NoDup_app. split_and!; [done | set_solver | apply NoDup_singleton].
    + intros j. rewrite elem_of_app, list_elem_of_singleton, Hdom, lookup_insert.
      case_decide; naive_solver.
  - destruct (a_map s !! id) eqn:E; [|done].
    destruct (remove_first_NoDup id (a_index s) Hnd) as [H1' H2'].
    split; cbn [a_index a_map]; [done|].
    intros j. rewrite H2', Hdom, lookup_delete. case_decide; naive_solver.
Qed.

Lemma asteps_exact os s : exact s -> fresh os s -> exact (asteps os s).
Proof.
  revert s; induction os as [|o os IH]; intros s Hs; cbn; [done|].
  intros [Ho Hos]. apply IH; [by apply astep_exact | done].
Qed.

(** C35: when no identifier is stored while it is already present, the index
    file and the policy files stay in step: every run ends in a file system
    whose index has no duplicate and lists an identifier exactly when the
    plugin reports the policy as present. *)
Theorem fresh_runs_keep_index_exact os fs s :
  represents fs s -> exact s -> Forall op_ok os -> fresh os s -> all_survive os s = true ->
  exists fs' ids, csteps os fs = Ret fs'
    /\ files fs' !! index_path ∈ [None; Some (index_text ids)] /\ NoDup ids
    /\ forall id, id_ok id -> has_cb (Some id) fs' = (0, bool_decide (id ∈ ids)).
Proof.
  intros Hrep Hex Hops Hfr Hsv. pose proof (csteps_refine os fs s Hrep Hops) as Hrun.
  rewrite Hsv in Hrun. destruct Hrun as (fs' & Hrun & Hrep').
  destruct (asteps_exact os s Hex Hfr) as [Hnd Hdom].
  exists fs', (a_index (asteps os s)). split_and!; [done | | done |].
  - pose proof (rep_index _ _ Hrep') as E. destruct (files fs' !! index_path); cbn in E; set_solver.
  - intros id Hi. rewrite (has_cb_abs fs' _ id Hrep' Hi). f_equal.
    apply bool_decide_ext. by rewrite Hdom.
Qed.

(** storing an identifier twice and deleting it once leaves the index out
    of step: the policy is gone, yet the listing still names it. *)
Lemma store_twice_delete_leaves_entry heap_after fs s id cp p cq q heap :
  has_nul heap_after = true ->
  represents fs s -> op_ok (Put cp id p) -> op_ok (Put cq id q) ->
  exists fs' ids, csteps [Put cp id p; Put cq id q; Del heap_after id] fs = Ret fs'
    /\ has_cb (Some id) fs' = (0, false)
    /\ acquire_all_policies (0 :: heap) [] fs' = Ret (true, ids) /\ id ∈ ids.
Proof.
  intros Hh Hrep Hp Hq. destruct Hp as (Hi & Hp). set (os := [_; _; _]).
  pose proof (csteps_refine os fs s Hrep) as Hrun. unfold os in Hrun. cbn [all_survive survives] in Hrun.
  rewrite Hh in Hrun. destruct Hrun as (fs' & Hrun & Hrep'); [rewrite !Forall_cons_iff; split_and!; done|].
  fold os in Hrun, Hrep'.
  set (s' := asteps os s) in *.
  assert (id ∈ a_index s') as Hin.
  { subst s' os. cbn [asteps astep a_index a_map]. rewrite lookup_insert_eq. cbn [a_index].
    rewrite <- app_assoc. induction (a_index s) as [|i l IH]; cbn.
    - rewrite bool_decide_true by done. set_solver.
    - case_bool_decide; set_solver. }
  exists fs', (a_index s'). split_and!; [done | | | done].
  - rewrite (has_cb_abs fs' s' id Hrep' Hi). f_equal. subst s' os.
    cbn [asteps astep a_index a_map]. rewrite lookup_insert_eq. cbn [a_map].
    by rewrite lookup_delete_eq.
  - assert (is_Some (files fs' !! index_path)) as [text Ht].
    { apply (rep_index_file _ _ Hrep'). fold s'. intros E. rewrite E in Hin. set_solver. }
    rewrite (get_all_scan fs' s' text) by done.
    change (strtok_all 124 (0 :: heap)) with ([] : list bytes, Ret tt).
    cbn iota. rewrite app_nil_r, collect_all by apply Hrep'. done.
Qed.

(** The get callback copies the identifier into the answer with [strncpy]:
    whatever the reading reported, the bytes behind the first zero byte of the
    identifier, a hash, are answered as zeros; and it writes the byte at
    offset 33, which is out of bounds of a 33-byte array. *)
Lemma get_cb_identifier heap fs id p :
  length id = 32%nat ->
  (forall z p', get_cb heap id p fs = Ret (z, p') ->
     z = 0
     /\ take 32 (policy_id p') = before_nul id ++ repeat 0 (32 - length (before_nul id)))
  /\ ((length (policy_id p) <= 33)%nat -> ~ defined (get_cb heap id p fs)).
Proof.
  intros Hid. unfold get_cb. rewrite pol_id_max_len.
  destruct (acquire_policy _ _ _ _ _ fs) as [r|u]; cbn [mbind out_bind].
  2:{ split; [done|]. intros _ [a Ha]. done. }
  destruct (default _ r.2) as [[po sig] hash].
  unfold strncpy. rewrite take_ge, Hid by (unfold RPI_POL_ID_MAX_LEN; lia).
  change (32 <? RPI_POL_ID_MAX_LEN)%nat with false. rewrite andb_false_r.
  pose proof (length_before_nul id) as Hb. rewrite Hid in Hb.
  destruct (blit _ 0 _) as [b|u] eqn:Eb; cbn [mbind out_bind];
    [|split; [done | intros _ [a Ha]; done]].
  pose proof (length_blit _ _ _ _ Eb) as Hlb. unfold store, RPI_POL_ID_MAX_LEN in *.
  split.
  - intros z p'. case_match; cbn [mbind out_bind]; [|done]. intros [= <- <-]. split; [done|].
    cbn [policy_id]. rewrite take_insert_ge by lia. znorm H3.
    rewrite blit_0 in Eb by (rewrite length_app, repeat_length, <- Hlb; lia).
    injection Eb as <-. by rewrite take_app_length' by (rewrite length_app, repeat_length; lia).
  - intros Hl [a Ha]. revert Ha.
    rewrite (proj2 (Z.ltb_ge (Z.of_nat 32 + 1) _)) by lia. rewrite andb_false_r. done.
Qed.
End Simulation.

(** ** A concrete instance *)

Module Witness.
Definition nibble (n : Z) : Z := if n <? 10 then 48 + n else 87 + n.
Definition unnibble (c : Z) : option Z :=
  if (48 <=? c) && (c <=? 57) then Some (c - 48)
  else if (97 <=? c) && (c <=? 102) then Some (c - 87) else None.

Definition to_hex (l : bytes) : bytes := mjoin ((fun b => [nibble (b / 16); nibble (b mod 16)]) <$> l).
Fixpoint of_hex (s : bytes) : option bytes :=
  match s with
  | [] => Some []
  | a :: b :: s => x ← unnibble a; y ← unnibble b; l ← of_hex s; Some (16 * x + y :: l)
  | [_] => None
  end.

#[export] Instance hex_codec : HexCodec := {
  hex_to_str l n := Some (to_hex (take n l));
  str_to_hex s n := of_hex (take n s)
}.
#[export] Instance pap_api : PapApi :=
  { PAP_SHA_256 := 0; PAP_ECDSA := 1; PAP_POL_ID_MAX_LEN := 32%nat }.
#[export] Instance pap_api_spec : PapApiSpec := { pol_id_max_len := eq_refl }.

Lemma nibble_hex n : 0 <= n < 16 -> hex_char (nibble n) /\ unnibble (nibble n) = Some n.
Proof.
  intros H. assert (n ∈ map Z.of_nat (seq 0 16)) as Hin.
  { apply list_elem_of_In, in_map_iff. exists (Z.to_nat n). rewrite in_seq. lia. }
  revert Hin. cbn. rewrite !elem_of_cons, elem_of_nil. intros Hin.
  repeat destruct Hin as [-> | Hin]; try done.
Qed.

Lemma byte_nibbles b : is_byte b -> 0 <= b / 16 < 16 /\ 0 <= b mod 16 < 16.
Proof. unfold is_byte. intros H. Z.to_euclidean_division_equations. lia. Qed.

Lemma to_hex_spec l :
  Forall is_byte l ->
  length (to_hex l) = (2 * length l)%nat /\ Forall hex_char (to_hex l) /\ of_hex (to_hex l) = Some l.
Proof.
  induction 1 as [|b l Hb _ (IH1 & IH2 & IH3)]; [done|].
  destruct (byte_nibbles b Hb) as [[H1 E1]%nibble_hex [H2 E2]%nibble_hex].
  unfold to_hex. cbn [fmap list_fmap mjoin list_join app].
  change (mjoin _) with (to_hex l). split_and!.
  - cbn [length]. lia.
  - by repeat constructor.
  - cbn [of_hex]. rewrite E1, E2, IH3. cbn. do 2 f_equal.
    Z.to_euclidean_division_equations. lia.
Qed.

#[export] Instance hex_codec_spec : HexCodecSpec.
Proof.
  split.
  - intros id [Hl Hb]. exists (to_hex id). change (hex_to_str id _) with (Some (to_hex (take 32 id))).
    rewrite (take_ge id) by (rewrite Hl; done).
    destruct (to_hex_spec id Hb) as (H1 & H2 & _). rewrite H1, Hl. done.
  - intros id s [Hl Hb]. change (hex_to_str id _) with (Some (to_hex (take 32 id))).
    rewrite (take_ge id) by (rewrite Hl; done). intros [= <-].
    destruct (to_hex_spec id Hb) as (H1 & _ & H3). unfold RPI_POL_ID_MAX_LEN in Hl. cbn.
    by rewrite take_ge by lia.
Qed.

Definition id1 : bytes := map Z.of_nat (seq 5 32).
Definition p1 : policy := {|
  p_object := cstr "{}"; p_cost := cstr "1"; p_signature := repeat 97 128; p_public_key := repeat 98 64 |}.
Definition cp1 : pap_policy_t := {|
  policy_id := id1;
  object := {| policy_object := Some (p_object p1); policy_object_size := 2;
               cost := Some (p_cost p1 ++ [0]) |};
  id_signature := {| signature := Some (p_signature p1 ++ [0]);
                     public_key := Some (p_public_key p1 ++ [0]); signature_algorithm := 1 |};
  hash_function := 0 |}.

Definition fs0 : fsys := {| files := ∅; dirs := ∅; denied := ∅ |}.
Definition s0 : astore := {| a_index := []; a_map := ∅ |}.

Lemma fs0_represents : represents fs0 s0.
Proof. split; try done. cbn. intros [x Hx]. done. Qed.

Lemma id1_ok : id_ok id1.
Proof. split; [done|]. apply (bool_decide_unpack _). vm_compute. exact I. Qed.

Lemma put1_ok : op_ok (Put cp1 id1 p1).
Proof.
  split_and!; [apply id1_ok | |].
  - split; split_and?; try done; by apply (bool_decide_unpack _); vm_compute.
  - split; try done; eexists; cbn; reflexivity || by rewrite app_nil_r.
Qed.

Lemma exact0 : exact s0.
Proof. split; [constructor|]. intros id. cbn. split; [set_solver|]. intros [x Hx]. done. Qed.

Definition run1 : list op := [Put cp1 id1 p1; Del [7; 0] id1; Put cp1 id1 p1].

Lemma run1_ok : Forall op_ok run1.
Proof. repeat (apply Forall_cons_2; [apply put1_ok || apply id1_ok |]). apply Forall_nil_2. Qed.

(** The state after storing [p1], reached by the refinement itself. *)
Definition s1 : astore := astep (Put cp1 id1 p1) s0.
Lemma fs1_ex : exists fs1, cstep (Put cp1 id1 p1) fs0 = Ret fs1 /\ represents fs1 s1.
Proof. exact (step_simulates fs0 s0 _ fs0_represents put1_ok). Qed.
Definition fs1 : fsys := match cstep (Put cp1 id1 p1) fs0 with Ret fs => fs | Undef _ => fs0 end.
Lemma fs1_represents : represents fs1 s1.
Proof. destruct fs1_ex as (fs & E & H). unfold fs1. by rewrite E. Qed.

Lemma plugin_refines_store_witness :
  exists fs', csteps run1 fs0 = Ret fs' /\ represents fs' (asteps run1 s0)
    /\ forall id, id_ok id ->
         has_cb (Some id) fs' = (0, bool_decide (is_Some (a_map (asteps run1 s0) !! id))).
Proof. exact (plugin_refines_store run1 fs0 s0 fs0_represents run1_ok). Defined.

Lemma get_returns_stored_witness :
  acquire_policy [0] (Some id1)
    (Some {| policy_object := Some (repeat 7 4); policy_object_size := 0; cost := Some [9] |})
    (Some {| signature := Some (repeat 0 128); public_key := Some (repeat 0 64);
             signature_algorithm := 9 |}) (Some 9) fs1
  = Ret (true, Some
      ({| policy_object := Some (cstr "{}" ++ [7; 7]); policy_object_size := 2;
          cost := Some (cstr "1") |},
       {| signature := Some (p_signature p1); public_key := Some (p_public_key p1);
          signature_algorithm := 1 |}, 0)).
Proof.
  refine (get_returns_stored [0] fs1 s1 id1 p1 (repeat 7 4) 0 [9] (repeat 0 128) (repeat 0 64) 9 9
    eq_refl fs1_represents id1_ok _ _ _ _ _); [apply lookup_insert_eq | first [ vm_compute; discriminate | cbn; lia ] ..].
Defined.

Lemma get_all_lists_index_witness :
  acquire_all_policies [0] [] fs1 = Ret (true, [id1])
  /\ acquire_all_policies [] [] fs1 = Undef OobRead.
Proof.
  refine (get_all_lists_index fs1 s1 [] [] fs1_represents _).
  apply (rep_index_file _ _ fs1_represents). done.
Defined.

Lemma get_len_counts_to_end_witness :
  exists k, get_len_cb [0] (Some id1) 0 fs1 = Ret (0, 2 + k) /\ k = 1 + 322.
Proof.
  refine (get_len_counts_to_end [0] fs1 s1 id1 p1 0 eq_refl fs1_represents id1_ok _).
  apply lookup_insert_eq.
Defined.

Lemma fresh_runs_keep_index_exact_witness :
  exists fs' ids, csteps run1 fs0 = Ret fs'
    /\ files fs' !! index_path ∈ [None; Some (index_text ids)] /\ NoDup ids
    /\ forall id, id_ok id -> has_cb (Some id) fs' = (0, bool_decide (id ∈ ids)).
Proof.
  refine (fresh_runs_keep_index_exact run1 fs0 s0 fs0_represents exact0 run1_ok _ eq_refl).
  vm_compute. done.
Defined.

Lemma store_twice_delete_leaves_entry_witness :
  exists fs' ids, csteps [Put cp1 id1 p1; Put cp1 id1 p1; Del [0] id1] fs0 = Ret fs'
    /\ has_cb (Some id1) fs' = (0, false)
    /\ acquire_all_policies [0] [] fs' = Ret (true, ids) /\ id1 ∈ ids.
Proof.
  exact (store_twice_delete_leaves_entry [0] fs0 s0 id1 cp1 p1 cp1 p1 [] eq_refl fs0_represents put1_ok put1_ok).
Defined.

Lemma get_cb_identifier_witness :
  (forall z p', get_cb [] id1 cp1 fs1 = Ret (z, p') ->
     z = 0 /\ take 32 (policy_id p') = before_nul id1 ++ repeat 0 (32 - length (before_nul id1)))
  /\ ((length (policy_id cp1) <= 33)%nat -> ~ defined (get_cb [] id1 cp1 fs1)).
Proof. exact (get_cb_identifier [] fs1 id1 cp1 eq_refl). Defined.
End Witness.
