(* ===== verification/Relay.v ===== *)
(** * The relay board and the GPIO inputs
      (src/portability/boards/raspberrypi/relay_interface.c, gpio_interface.c)

    The board is the history of the calls made on the pigpio library, latest
    first; what pigpio answers is a parameter.  [RelayBoard] is the interface
    the enforcement plugins are written against, and this file discharges its
    specification for the Raspberry Pi. *)

From S2P Require Import Prelude CStd.

(** ** The interface *)

Class RelayBoard (S : Type) := {
  rb_on : Z -> S -> out (Z * S);
  rb_off : Z -> S -> out (Z * S);
  rb_pulse : Z -> S -> out (Z * S)
}.

Definition relay_idx (i : Z) : Prop := 0 <= i <= 3.

(** What a board promises: the level of each relay and the pulses given. *)
Class RelayBoardSpec (S : Type) `{RelayBoard S} := {
  level : S -> Z -> bool;
  pulses : S -> list Z;
  rb_on_ok s i : relay_idx i -> exists s', rb_on i s = Ret (0, s')
    /\ (forall j, relay_idx j -> level s' j = if j =? i then true else level s j)
    /\ pulses s' = pulses s;
  rb_off_ok s i : relay_idx i -> exists s', rb_off i s = Ret (0, s')
    /\ (forall j, relay_idx j -> level s' j = if j =? i then false else level s j)
    /\ pulses s' = pulses s;
  rb_pulse_ok s i : relay_idx i -> exists s', rb_pulse i s = Ret (0, s')
    /\ (forall j, relay_idx j -> level s' j = if j =? i then false else level s j)
    /\ pulses s' = pulses s ++ [i]
}.

(** ** The implementation *)

Inductive gpio_call : Set :=
| GpioInitialise
| GpioSetMode (bcm mode : Z)
| GpioWrite (bcm value : Z)
| TimeSleep
| GpioTerminate.

Abbreviation board := (list gpio_call).

(** The answers of pigpio may depend on the whole history. *)
Class Pigpio := {
  PI_INPUT : Z;
  PI_OUTPUT : Z;
  gpioInitialise : board -> Z;
  gpioRead : board -> Z -> Z
}.

Definition LOW : Z := 0.
Definition HIGH : Z := 1.
Definition MIN_IDX : Z := 0.
Definition MAX_IDX : Z := 3.

Definition idx2bcm : bytes := [4; 17; 22; 27].

Definition check_idx (idx : Z) : Z :=
  if (idx <? MIN_IDX) || (MAX_IDX <? idx) then -1 else 0.

Section RelayInterface.
Context `{Pigpio}.

Definition relayinterface_on (idx : Z) (b : board) : out (Z * board) :=
  let r := gpioInitialise b in
  let b := GpioInitialise :: b in
  if (r <? 0) || (check_idx idx <? 0) then Ret (1, b) else
  bcm ← load idx2bcm idx;
  let b := GpioSetMode bcm PI_OUTPUT :: b in
  let b := GpioWrite bcm HIGH :: b in
  let b := GpioTerminate :: b in
  Ret (0, b).

Definition relayinterface_off (idx : Z) (b : board) : out (Z * board) :=
  let r := gpioInitialise b in
  let b := GpioInitialise :: b in
  if (r <? 0) || (check_idx idx <? 0) then Ret (1, b) else
  bcm ← load idx2bcm idx;
  let b := GpioSetMode bcm PI_OUTPUT :: b in
  let b := GpioWrite bcm LOW :: b in
  let b := GpioTerminate :: b in
  Ret (0, b).

Definition relayinterface_toggle (idx : Z) (b : board) : out (Z * board) :=
  let r := gpioInitialise b in
  let b := GpioInitialise :: b in
  if (r <? 0) || (check_idx idx <? 0) then Ret (1, b) else
  bcm ← load idx2bcm idx;
  let b := GpioSetMode bcm PI_OUTPUT :: b in
  let current_state := gpioRead b bcm in
  let b := if current_state =? LOW then GpioWrite bcm HIGH :: b
           else if current_state =? HIGH then GpioWrite bcm LOW :: b
           else b in
  let b := GpioTerminate :: b in
  Ret (0, b).

Definition relayinterface_pulse (idx : Z) (b : board) : out (Z * board) :=
  let r := gpioInitialise b in
  let b := GpioInitialise :: b in
  if (r <? 0) || (check_idx idx <? 0) then Ret (1, b) else
  bcm ← load idx2bcm idx;
  let b := GpioSetMode bcm PI_OUTPUT :: b in
  let b := GpioWrite bcm HIGH :: b in
  let b := TimeSleep :: b in
  let b := GpioWrite bcm LOW :: b in
  let b := GpioTerminate :: b in
  Ret (0, b).

(** gpio_interface.c: its own pin table, and a [check_idx] that falls off its
    end without a value when the index is in range. *)
Definition gpio_idx2bcm : bytes := [4; 17; 27; 22].

Definition gpio_check_idx (idx : Z) : out Z :=
  if (idx <? MIN_IDX) || (MAX_IDX <? idx) then Ret (-1) else Undef Uninit.

Definition gpio_interface_read (idx : Z) (b : board) : out (Z * board) :=
  let r := gpioInitialise b in
  let b := GpioInitialise :: b in
  bad ← (if r <? 0 then Ret true else c ← gpio_check_idx idx; Ret (c <? 0));
  if (bad : bool) then Ret (1, b) else
  bcm ← load gpio_idx2bcm idx;
  let b := GpioSetMode bcm PI_INPUT :: b in
  let current_state := gpioRead b bcm in
  let b := GpioTerminate :: b in
  Ret (current_state, b).

#[export] Instance pigpio_board : RelayBoard board := {
  rb_on := relayinterface_on;
  rb_off := relayinterface_off;
  rb_pulse := relayinterface_pulse
}.
End RelayInterface.

(** ** What the history shows *)

(** The level last written to a pin; pins start low. *)
Fixpoint pin (b : board) (bcm : Z) : Z :=
  match b with
  | [] => LOW
  | GpioWrite p v :: b => if p =? bcm then v else pin b bcm
  | _ :: b => pin b bcm
  end.

Definition bcm_of (idx : Z) : Z := default 0 (idx2bcm !! Z.to_nat idx).

Definition relay_level (b : board) (idx : Z) : bool := pin b (bcm_of idx) =? HIGH.

(** The relays switched on, kept for the sleep time and switched off. *)
Definition idx_of (bcm : Z) : Z :=
  if bcm =? 4 then 0 else if bcm =? 17 then 1 else if bcm =? 22 then 2 else 3.

Fixpoint board_pulses (b : board) : list Z :=
  match b with
  | [] => []
  | GpioWrite q v :: b' =>
      board_pulses b' ++
      match b' with
      | TimeSleep :: GpioWrite p w :: _ =>
          if (p =? q) && (w =? HIGH) && (v =? LOW) then [idx_of p] else []
      | _ => []
      end
  | _ :: b' => board_pulses b'
  end.

(** Library sessions opened and not closed. *)
Fixpoint sessions (b : board) : Z :=
  match b with
  | [] => 0
  | GpioInitialise :: b => sessions b + 1
  | GpioTerminate :: b => sessions b - 1
  | _ :: b => sessions b
  end.

(** Documented behaviour of pigpio: initialising succeeds, and an output pin
    reads as the level last written to it. *)
Class PigpioSpec `{Pigpio} : Prop := {
  init_ok b : 0 <= gpioInitialise b;
  read_ok b bcm : gpioRead b bcm = pin b bcm
}.

Section RelayFacts.
Context `{PigpioSpec}.

Lemma relay_idx_cases i : relay_idx i -> i = 0 \/ i = 1 \/ i = 2 \/ i = 3.
Proof. unfold relay_idx. lia. Qed.

Lemma check_idx_neg i : (check_idx i <? 0) = false <-> relay_idx i.
Proof.
  unfold check_idx, MIN_IDX, MAX_IDX, relay_idx.
  destruct (Z.ltb_spec i 0), (Z.ltb_spec 3 i); cbn; split; intros; (done || lia).
Qed.

(** [relay_cases] runs a relay function on each valid index. *)
Ltac relay_cases b :=
  lazymatch goal with Hi : relay_idx ?i |- _ =>
    unfold relayinterface_on, relayinterface_off, relayinterface_pulse;
    rewrite (proj2 (check_idx_neg i) Hi), (proj2 (Z.ltb_ge _ _) (init_ok b)); cbn [orb];
    destruct (relay_idx_cases i Hi) as [-> | [-> | [-> | ->]]];
    (eexists; split_and!;
     [ reflexivity
     | let j := fresh "j" in let Hj := fresh "Hj" in intros j Hj;
       destruct (relay_idx_cases j Hj) as [-> | [-> | [-> | ->]]]; reflexivity
     | cbn; rewrite ?app_nil_r; reflexivity
     | cbn; lia ])
  end.

Lemma on_ok b i : relay_idx i -> exists b', relayinterface_on i b = Ret (0, b')
  /\ (forall j, relay_idx j -> relay_level b' j = if j =? i then true else relay_level b j)
  /\ board_pulses b' = board_pulses b /\ sessions b' = sessions b.
Proof. intros Hi. relay_cases b. Qed.

Lemma off_ok b i : relay_idx i -> exists b', relayinterface_off i b = Ret (0, b')
  /\ (forall j, relay_idx j -> relay_level b' j = if j =? i then false else relay_level b j)
  /\ board_pulses b' = board_pulses b /\ sessions b' = sessions b.
Proof. intros Hi. relay_cases b. Qed.

Lemma pulse_ok b i : relay_idx i -> exists b', relayinterface_pulse i b = Ret (0, b')
  /\ (forall j, relay_idx j -> relay_level b' j = if j =? i then false else relay_level b j)
  /\ board_pulses b' = board_pulses b ++ [i] /\ sessions b' = sessions b.
Proof. intros Hi. relay_cases b. Qed.

(** Pins only ever carry the two levels. *)
Definition binary (b : board) : Prop := forall p, pin b p = LOW \/ pin b p = HIGH.

Lemma level_write b i j v m :
  relay_idx i -> relay_idx j ->
  relay_level (GpioTerminate :: GpioWrite (bcm_of i) v :: GpioSetMode (bcm_of i) m
               :: GpioInitialise :: b) j
  = if j =? i then v =? HIGH else relay_level b j.
Proof.
  intros Hi Hj. destruct (relay_idx_cases j Hj) as [-> | [-> | [-> | ->]]];
    destruct (relay_idx_cases i Hi) as [-> | [-> | [-> | ->]]]; reflexivity.
Qed.

Lemma toggle_ok b i : relay_idx i -> binary b -> exists b', relayinterface_toggle i b = Ret (0, b')
  /\ (forall j, relay_idx j -> relay_level b' j = if j =? i then negb (relay_level b i) else relay_level b j)
  /\ board_pulses b' = board_pulses b /\ sessions b' = sessions b.
Proof.
  intros Hi Hb. unfold relayinterface_toggle.
  rewrite (proj2 (check_idx_neg i) Hi), (proj2 (Z.ltb_ge _ _) (init_ok b)). cbn [orb].
  assert (bcm_of i ∈ [4; 17; 22; 27] /\ load idx2bcm i = Ret (bcm_of i)) as [Hin ->].
  { destruct (relay_idx_cases i Hi) as [-> | [-> | [-> | ->]]]; split; reflexivity || set_solver. }
  cbn [mbind out_bind]. rewrite read_ok. change (pin (_ :: _ :: b)) with (pin b).
  unfold relay_level at 2.
  destruct (Hb (bcm_of i)) as [E | E]; rewrite E; cbn [Z.eqb LOW HIGH negb]; eexists; split_and!;
    try reflexivity; try (cbn; rewrite ?app_nil_r; reflexivity || lia).
  all: intros j Hj; exact (level_write b i j _ PI_OUTPUT Hi Hj).
Qed.

(** *** Sequences of commands *)

Inductive relay_cmd : Set := On (i : Z) | Off (i : Z) | Toggle (i : Z) | Pulse (i : Z).

Definition cmd_idx (c : relay_cmd) : Z :=
  match c with On i | Off i | Toggle i | Pulse i => i end.

Definition run_cmd (c : relay_cmd) : board -> out (Z * board) :=
  match c with
  | On i => relayinterface_on i
  | Off i => relayinterface_off i
  | Toggle i => relayinterface_toggle i
  | Pulse i => relayinterface_pulse i
  end.

Fixpoint run_cmds (cs : list relay_cmd) (b : board) : out (list Z * board) :=
  match cs with
  | [] => Ret ([], b)
  | c :: cs => r ← run_cmd c b; rs ← run_cmds cs r.2; Ret (r.1 :: rs.1, rs.2)
  end.

(** The specification: four levels, the pulses given, the open sessions. *)
Record relay_bank := { bk_level : Z -> bool; bk_pulses : list Z; bk_open : Z }.

Definition valid_idx (i : Z) : bool := (0 <=? i) && (i <=? 3).

Definition bank_step (c : relay_cmd) (k : relay_bank) : relay_bank :=
  let i := cmd_idx c in
  if valid_idx i then
    {| bk_level j := if j =? i then match c with On _ => true | Toggle _ => negb (bk_level k i)
                                    | _ => false end
                     else bk_level k j;
       bk_pulses := bk_pulses k ++ match c with Pulse _ => [i] | _ => [] end;
       bk_open := bk_open k |}
  else {| bk_level := bk_level k; bk_pulses := bk_pulses k; bk_open := bk_open k + 1 |}.

Definition shows (b : board) (k : relay_bank) : Prop :=
  binary b /\ (forall j, relay_idx j -> relay_level b j = bk_level k j)
  /\ board_pulses b = bk_pulses k /\ sessions b = bk_open k.

Lemma invalid_cmd c b :
  valid_idx (cmd_idx c) = false -> run_cmd c b = Ret (1, GpioInitialise :: b).
Proof.
  intros Hv. assert ((check_idx (cmd_idx c) <? 0) = true) as Hc.
  { apply not_false_is_true. rewrite check_idx_neg. unfold relay_idx, valid_idx in *. znorm Hv. lia. }
  destruct c; cbn [run_cmd cmd_idx] in *;
    unfold relayinterface_on, relayinterface_off, relayinterface_toggle, relayinterface_pulse;
    by rewrite Hc, orb_true_r.
Qed.

Lemma binary_write b p v : binary b -> v = LOW \/ v = HIGH -> binary (GpioWrite p v :: b).
Proof. intros Hb Hv q. cbn. destruct (p =? q); auto. Qed.

Lemma run_cmd_binary c b z b' : binary b -> run_cmd c b = Ret (z, b') -> binary b'.
Proof.
  intros Hb. assert (forall e, e = GpioInitialise \/ (exists p m, e = GpioSetMode p m)
    \/ e = TimeSleep \/ e = GpioTerminate -> forall b, binary b -> binary (e :: b)) as Hskip.
  { intros e [-> | [(p & m & ->) | [-> | ->]]] b0 H0' q; apply H0'. }
  destruct c as [i|i|i|i]; cbn [run_cmd];
    unfold relayinterface_on, relayinterface_off, relayinterface_toggle, relayinterface_pulse;
    (destruct (_ || _); [intros [= <- <-]; eauto|]);
    (destruct (load _ _) as [bcm|]; cbn [mbind out_bind]; [|done]); intros [= <- <-];
    repeat case_match; repeat first [ apply binary_write; [|by auto] | apply Hskip; [by eauto 6|] ]; done.
Qed.

Lemma run_cmd_refines c b k :
  shows b k -> exists b',
    run_cmd c b = Ret (if valid_idx (cmd_idx c) then 0 else 1, b') /\ shows b' (bank_step c k).
Proof.
  intros (Hb & Hl & Hp & Hs). unfold bank_step. destruct (valid_idx (cmd_idx c)) eqn:Hv.
  2:{ rewrite invalid_cmd by done. eexists. split; [done|]. split_and!; try done. cbn. lia. }
  assert (relay_idx (cmd_idx c)) as Hi by (unfold relay_idx, valid_idx in *; znorm Hv; lia).
  enough (exists b', run_cmd c b = Ret (0, b')
    /\ (forall j, relay_idx j -> relay_level b' j = if j =? cmd_idx c then
           match c with On _ => true | Toggle _ => negb (relay_level b (cmd_idx c)) | _ => false end
         else relay_level b j)
    /\ board_pulses b' = board_pulses b ++ match c with Pulse _ => [cmd_idx c] | _ => [] end
    /\ sessions b' = sessions b) as (b' & Hrun & Hl' & Hp' & Hs').
  { exists b'. split; [done|]. split_and!; cbn; [by eapply run_cmd_binary | | congruence | congruence].
    intros j Hj. rewrite Hl' by done. destruct c; rewrite <- ?Hl by done; done. }
  destruct c as [i|i|i|i]; cbn [cmd_idx run_cmd] in *; rewrite ?app_nil_r;
    auto using on_ok, off_ok, toggle_ok, pulse_ok.
Qed.

(** C40: every sequence of commands on the relay functions implements the bank
    of four relays: the levels follow the last command on each, pulses are
    given in order, an index outside 0 to 3 is refused with code 1 and changes
    no relay, but each refusal leaves one library session open. *)
Theorem relay_commands_refine cs b k :
  shows b k -> exists b',
    run_cmds cs b = Ret (map (fun c => if valid_idx (cmd_idx c) then 0 else 1) cs, b')
    /\ shows b' (fold_left (fun k c => bank_step c k) cs k).
Proof.
  revert b k; induction cs as [|c cs IH]; intros b k Hk; cbn [run_cmds map fold_left]; [eauto|].
  destruct (run_cmd_refines c b k Hk) as (b1 & -> & Hk1). cbn [mbind out_bind fst snd].
  destruct (IH b1 _ Hk1) as (b' & -> & Hk'). cbn [mbind out_bind fst snd]. eauto.
Qed.

(** The interface holds of the Raspberry Pi board. *)
#[export] Instance pigpio_board_spec : RelayBoardSpec board.
Proof.
  refine {| level := relay_level; pulses := board_pulses |}; intros b i Hi.
  - destruct (on_ok b i Hi) as (b' & ? & ? & ? & _). eauto.
  - destruct (off_ok b i Hi) as (b' & ? & ? & ? & _). eauto.
  - destruct (pulse_ok b i Hi) as (b' & ? & ? & ? & _). eauto.
Defined.

(** reading a GPIO input is undefined for every valid index, because
    [check_idx] ends without returning a value; for the others it answers 1. *)
Lemma gpio_read_undefined i b :
  gpio_interface_read i b
  = if valid_idx i then Undef Uninit else Ret (1, GpioInitialise :: b).
Proof.
  unfold gpio_interface_read, gpio_check_idx, valid_idx, MIN_IDX, MAX_IDX.
  rewrite (proj2 (Z.ltb_ge _ _) (init_ok b)).
  destruct (Z.ltb_spec i 0), (Z.ltb_spec 3 i), (Z.leb_spec 0 i), (Z.leb_spec i 3);
    cbn; done || lia.
Qed.
End RelayFacts.

(** ** A concrete board *)

Module RelayWitness.
#[export] Instance ideal_pigpio : Pigpio :=
  { PI_INPUT := 0; PI_OUTPUT := 1; gpioInitialise := fun _ => 79; gpioRead := pin }.
#[export] Instance ideal_pigpio_spec : PigpioSpec.
Proof. split; cbn; done || lia. Defined.

Definition bank0 : relay_bank := {| bk_level := fun _ => false; bk_pulses := []; bk_open := 0 |}.

Lemma relay_commands_refine_witness :
  exists b', run_cmds [On 1; Pulse 2; On 7; Toggle 1; Toggle 0] [] = Ret ([0; 0; 1; 0; 0], b')
    /\ shows b' (fold_left (fun k c => bank_step c k) [On 1; Pulse 2; On 7; Toggle 1; Toggle 0] bank0).
Proof.
  refine (relay_commands_refine [On 1; Pulse 2; On 7; Toggle 1; Toggle 0] [] bank0 _).
  split_and!; try done. intros p. by left.
Defined.

Lemma gpio_read_undefined_witness : gpio_interface_read 2 [] = Undef Uninit.
Proof. exact (gpio_read_undefined 2 []). Defined.
End RelayWitness.
