(* ===== verification/Wallet.v ===== *)
(** * The wallet (src/wallet/wallet.c, wallet.h, wallet_errors.h)

    The wallet context, its queries and transfers, and the two services that
    run as threads: one watches a balance, one waits for a confirmation.  The
    IOTA client library is a parameter ([IotaClient]).  A thread is a function
    of the rounds its environment offers: what the node answers at each query
    and whether the stop function ran in between. *)

From S2P Require Import Prelude CStd.

(** ** The client library *)

Class IotaClient := {
  client : Type;
  trits : Type;
  node : Type;                                 (* what a query depends on *)
  is_seed : bytes -> bool;
  is_address : bytes -> bool;
  NUM_TRYTES_HASH : nat;
  NUM_TRYTES_ADDRESS : nat;
  NUM_TRYTES_BUNDLE : nat;
  flex_trits_from_trytes : bytes -> option trits;
  flex_trits_to_trytes : trits -> bytes;
  iota_client_core_init : bytes -> Z -> bytes -> option client;
  get_balances_req_address_add : trits -> bool;
  iota_client_get_balances : client -> trits -> Z -> node -> option Z;
  iota_client_get_new_address : client -> trits -> Z -> Z -> Z -> node -> option (list trits);
  transfer_message : option bytes -> trits;     (* the message may be a null pointer *)
  iota_client_send_transfer :
    client -> trits -> Z -> Z -> Z -> trits -> trits -> Z -> trits -> node -> option trits * node;
  get_inclusion_states_req_hash_add : trits -> bool;
  iota_client_get_inclusion_states : client -> trits -> node -> option bool
}.

(** ** wallet.h and wallet_errors.h *)

Definition WALLET_OK : Z := 0.
Definition WALLET_ERR_UNKNOW : Z := -1.
Definition WALLET_ERR_PRARMS : Z := 1.
Definition WALLET_ERR_OOM : Z := Z.shiftl 1 1.
Definition WALLET_ERR_CLIENT_ERR : Z := Z.shiftl 1 2.
Definition WALLET_ERR_FLEX_TRITS : Z := Z.shiftl 1 3.

Definition DEFAULT_SECURITY_LEVEL : Z := 2.
Definition DEFAULT_TAG : bytes := cstr "ACCESS999999999999999999999".

Section Wallet.
Context `{IotaClient}.

Record wallet_ctx_t := {
  mwm : Z;
  security : Z;
  depth : Z;
  unused_idx : Z;
  seed : trits;
  iota_client : client
}.

(** [alloc]: whether the allocations of the call succeed. *)
Definition wallet_create (alloc : bool) (node_url : bytes) (port_number : Z) (ca_pem : bytes)
    (node_depth node_mwm : Z) (seed_trytes : bytes) : option wallet_ctx_t :=
  if negb (is_seed seed_trytes) then None else
  if negb alloc then None else
  match iota_client_core_init node_url port_number ca_pem with
  | None => None
  | Some c =>
      match flex_trits_from_trytes seed_trytes with
      | None => None
      | Some s => Some {| mwm := node_mwm; security := DEFAULT_SECURITY_LEVEL;
                          depth := node_depth; unused_idx := 0; seed := s; iota_client := c |}
      end
  end.

(** The error code and [*balance] as the call leaves it. *)
Definition wallet_check_balance (alloc : bool) (ctx : option wallet_ctx_t) (address : bytes)
    (balance : Z) (n : node) : Z * Z :=
  match ctx with
  | None => (WALLET_ERR_PRARMS, balance)
  | Some ctx =>
      if negb (is_address address) then (WALLET_ERR_PRARMS, balance) else
      if negb alloc then (WALLET_ERR_OOM, balance) else
      match flex_trits_from_trytes address with
      | None => (WALLET_ERR_FLEX_TRITS, balance)
      | Some tmp_address =>
          if negb (get_balances_req_address_add tmp_address) then (WALLET_ERR_UNKNOW, balance)
          else match iota_client_get_balances (iota_client ctx) tmp_address 100 n with
               | Some b => (WALLET_OK, b)
               | None => (WALLET_ERR_UNKNOW, balance)
               end
      end
  end.

Definition set_unused_idx (i : Z) (ctx : wallet_ctx_t) : wallet_ctx_t :=
  {| mwm := mwm ctx; security := security ctx; depth := depth ctx; unused_idx := i;
     seed := seed ctx; iota_client := iota_client ctx |}.

(** The result: the code, the context, the address buffer and [*index].
    [addresses->prev] of the utlist queue is its last element. *)
Definition wallet_get_address (ctx : wallet_ctx_t) (addr_buf : bytes) (index : Z) (n : node)
    : out (Z * wallet_ctx_t * bytes * Z) :=
  match iota_client_get_new_address (iota_client ctx) (seed ctx) (security ctx)
          (unused_idx ctx) 0 n with
  | Some addresses =>
      last_address ← deref (list.last addresses);
      addr_buf ← blit addr_buf 0 (flex_trits_to_trytes last_address);
      let ctx := set_unused_idx (u64 (Z.of_nat (length addresses) - 1)) ctx in
      Ret (WALLET_OK, ctx, addr_buf, unused_idx ctx)
  | None => Ret (WALLET_OK, ctx, addr_buf, index)
  end.

(** The error code, the bundle hash buffer, and the node afterwards. *)
Definition wallet_send (ctx : option wallet_ctx_t) (receiver : bytes) (balance : Z)
    (msg : option bytes) (bundle_hash : bytes) (n : node) : out (Z * bytes * node) :=
  if negb (is_address receiver) then Ret (WALLET_ERR_PRARMS, bundle_hash, n) else
  match flex_trits_from_trytes receiver with
  | None => Ret (WALLET_ERR_FLEX_TRITS, bundle_hash, n)
  | Some address =>
      match flex_trits_from_trytes DEFAULT_TAG with
      | None => Ret (WALLET_ERR_FLEX_TRITS, bundle_hash, n)
      | Some tag =>
          ctx ← deref ctx;
          let '(r, n) := iota_client_send_transfer (iota_client ctx) (seed ctx) (security ctx)
                           (depth ctx) (mwm ctx) address tag balance (transfer_message msg) n in
          match r with
          | Some hash =>
              bundle_hash ← blit bundle_hash 0 (flex_trits_to_trytes hash);
              Ret (WALLET_OK, bundle_hash, n)
          | None => Ret (WALLET_ERR_CLIENT_ERR, bundle_hash, n)
          end
      end
  end.

Definition wallet_check_confirmation (alloc : bool) (ctx : wallet_ctx_t) (tx_hash : bytes)
    (n : node) : bool :=
  if negb alloc then false else
  match flex_trits_from_trytes tx_hash with
  | None => false
  | Some flex_tx =>
      if negb (get_inclusion_states_req_hash_add flex_tx) then false else
      default false (iota_client_get_inclusion_states (iota_client ctx) flex_tx n)
  end.

(** ** The balance service *)

Record balance_service_t := {
  b_addr : bytes;
  b_status : Z;
  b_interval : Z;
  b_threshold : Z;
  b_current_balance : Z;
  b_wallet : option wallet_ctx_t;
  b_cb : bool                       (* whether a callback is installed *)
}.

Definition set_b_status (s : Z) (v : balance_service_t) : balance_service_t :=
  {| b_addr := b_addr v; b_status := s; b_interval := b_interval v;
     b_threshold := b_threshold v; b_current_balance := b_current_balance v;
     b_wallet := b_wallet v; b_cb := b_cb v |}.

Definition set_b_current (b : Z) (v : balance_service_t) : balance_service_t :=
  {| b_addr := b_addr v; b_status := b_status v; b_interval := b_interval v;
     b_threshold := b_threshold v; b_current_balance := b;
     b_wallet := b_wallet v; b_cb := b_cb v |}.

Definition balance_service_stop (v : balance_service_t) : balance_service_t := set_b_status 2 v.

(** What the environment does around one query of a thread: whether the stop
    function ran since the last one, whether memory is available, the node. *)
Record round := { r_stop : bool; r_alloc : bool; r_node : node }.

Inductive ended : Set := Running | StopSeen | CheckFailed | Reached | TimedOut | NotStarted.

(** [wallet_check_balance(serv->wallet, serv->addr, &serv->current_balance)] *)
Definition balance_query (r : round) (v : balance_service_t) : Z * balance_service_t :=
  let '(err, b) := wallet_check_balance (r_alloc r) (b_wallet v) (b_addr v)
                     (b_current_balance v) (r_node r) in
  (err, set_b_current b v).

(** The [while] loop; it is still [Running] when the offered rounds are used up.
    The line logged in each round, whose format has a malformed conversion, goes
    to the logger, which is not part of the repository. *)
Fixpoint balance_loop (rounds : list round) (old_balance : Z) (v : balance_service_t)
    : ended * balance_service_t :=
  if u64 (b_current_balance v - old_balance) <? b_threshold v then
    match rounds with
    | [] => (Running, v)
    | r :: rounds =>
        let v := if r_stop r then balance_service_stop v else v in
        if b_status v =? 2 then (StopSeen, v) else
        let '(err, v) := balance_query r v in
        if negb (err =? WALLET_OK) then (CheckFailed, v)
        else balance_loop rounds old_balance v
    end
  else (Reached, v).

(** How the thread ends, the service structure, and the callback invocation. *)
Definition balance_service (first : round) (rounds : list round) (v : balance_service_t)
    : ended * balance_service_t * option (Z * Z) :=
  let '(err, v) := balance_query first v in
  if err =? WALLET_OK then
    let old_balance := b_current_balance v in
    let v := set_b_status 1 v in
    let '(e, v) := balance_loop rounds old_balance v in
    match e with
    | Running => (e, v, None)
    | _ => (e, v, if b_cb v then Some (old_balance, b_current_balance v) else None)
    end
  else (NotStarted, v, None).

(** [alloc], [mutex], [thread]: whether the three system calls succeed. *)
Definition balance_service_start (alloc mutex thread : bool) (wallet : option wallet_ctx_t)
    (address : bytes) (interval threshold : Z) (cb : bool) : out (option balance_service_t) :=
  _ ← ensure alloc NullDeref;
  addr ← slice 0 (Z.of_nat NUM_TRYTES_ADDRESS) address;
  if negb mutex then Ret None else
  if negb thread then Ret None else
  Ret (Some {| b_addr := addr; b_status := 0; b_interval := u32 interval;
               b_threshold := u64 threshold; b_current_balance := 0; b_wallet := wallet;
               b_cb := cb |}).

(** ** The confirmation service *)

Record confirmation_service_t := {
  c_tx : bytes;
  c_status : Z;
  c_interval : Z;
  c_timeout : Z;
  c_wallet : wallet_ctx_t;
  c_cb : bool
}.

Definition set_c_status (s : Z) (v : confirmation_service_t) : confirmation_service_t :=
  {| c_tx := c_tx v; c_status := s; c_interval := c_interval v; c_timeout := c_timeout v;
     c_wallet := c_wallet v; c_cb := c_cb v |}.

Definition confirmation_service_stop (v : confirmation_service_t) : confirmation_service_t :=
  set_c_status 2 v.

Definition confirmation_query (r : round) (v : confirmation_service_t) : bool :=
  wallet_check_confirmation (r_alloc r) (c_wallet v) (c_tx v) (r_node r).

(** The [while (1)] loop: the outcome, [time] and [is_confirmed]. *)
Fixpoint confirmation_loop (rounds : list round) (time : Z) (v : confirmation_service_t)
    : ended * Z * bool :=
  match rounds with
  | [] => (Running, time, false)
  | r :: rounds =>
      let v := if r_stop r then confirmation_service_stop v else v in
      if c_timeout v <=? time then (TimedOut, time, false) else
      if c_status v =? 2 then (StopSeen, time, false) else
      if confirmation_query r v then (Reached, time, true)
      else confirmation_loop rounds (u32 (time + c_interval v)) v
  end.

Definition confirmation_service (first : round) (rounds : list round)
    (v : confirmation_service_t) : ended * option (Z * bool) :=
  let '(e, time, is_confirmed) :=
    if confirmation_query first v then (Reached, 0, true) else confirmation_loop rounds 0 v in
  match e with
  | Running => (e, None)
  | _ => (e, if c_cb v then Some (time, is_confirmed) else None)
  end.

Definition confirmation_service_start (alloc mutex thread : bool) (wallet : wallet_ctx_t)
    (tx_hash : bytes) (interval timeout : Z) (cb : bool) : out (option confirmation_service_t) :=
  _ ← ensure alloc NullDeref;
  tx ← slice 0 (Z.of_nat NUM_TRYTES_HASH) tx_hash;
  if negb mutex then Ret None else
  if negb thread then Ret None else
  Ret (Some {| c_tx := tx; c_status := 0; c_interval := u32 interval; c_timeout := u32 timeout;
               c_wallet := wallet; c_cb := cb |}).

(** ** Releasing

    A pointer to a pointer: the outer option is the argument, the inner one what
    it points to.  [wallet_destroy] also returns the clients that it hands to
    [iota_client_core_destroy]. *)
Definition wallet_destroy (wallet : option (option wallet_ctx_t)) : option (option wallet_ctx_t) * list client :=
  match wallet with
  | Some (Some w) => (Some None, [iota_client w])
  | _ => (wallet, [])
  end.

Definition balance_service_free (serv : option (option balance_service_t)) : option (option balance_service_t) :=
  match serv with Some (Some _) => Some None | _ => serv end.

Definition confirmation_service_free (serv : option (option confirmation_service_t))
    : option (option confirmation_service_t) :=
  match serv with Some (Some _) => Some None | _ => serv end.

(** A stub: the buffer is left as it is. *)
Definition wallet_fetch_msg (ctx : option wallet_ctx_t) (hash msg_buf : bytes) (len : Z) : Z * bytes := (0, msg_buf).

End Wallet.

(** ** Properties *)

Section WalletFacts.
Context `{IotaClient}.

Lemma balance_query_fields r v :
  b_status (balance_query r v).2 = b_status v /\ b_cb (balance_query r v).2 = b_cb v
  /\ b_threshold (balance_query r v).2 = b_threshold v
  /\ b_wallet (balance_query r v).2 = b_wallet v /\ b_addr (balance_query r v).2 = b_addr v.
Proof. unfold balance_query. destruct (wallet_check_balance _ _ _ _ _). done. Qed.

(** The node answers [b] to the balance query of round [r], with no stop. *)
Definition answers (v : balance_service_t) (r : round) (b : Z) : Prop :=
  r_stop r = false /\ r_alloc r = true /\ is_address (b_addr v) = true
  /\ exists ctx a, b_wallet v = Some ctx /\ flex_trits_from_trytes (b_addr v) = Some a
     /\ get_balances_req_address_add a = true
     /\ iota_client_get_balances (iota_client ctx) a 100 (r_node r) = Some b.

Lemma answers_query v r b :
  answers v r b -> balance_query r v = (WALLET_OK, set_b_current b v).
Proof.
  intros (_ & Ha & Haddr & ctx & a & Hw & Ht & Hadd & Hb).
  unfold balance_query, wallet_check_balance. by rewrite Hw, Haddr, Ha, Ht, Hadd, Hb.
Qed.

Lemma answers_fields v v' r b :
  b_wallet v = b_wallet v' -> b_addr v = b_addr v' -> answers v r b -> answers v' r b.
Proof. unfold answers. by intros -> ->. Qed.

Lemma last_cons (b : Z) bs d : List.last (b :: bs) d = List.last bs b.
Proof. revert b d; induction bs as [|c bs IH]; intros b d; [done|].
  transitivity (List.last bs c); [exact (IH c d) | symmetry; exact (IH c b)].
Qed.

(** The loop stops at the first balance whose unsigned distance from the start
    reaches the threshold. *)
Lemma balance_loop_finds rounds bs old v :
  b_status v = 1 -> Forall2 (answers v) rounds bs ->
  balance_loop rounds old v =
  match find (fun b => b_threshold v <=? u64 (b - old)) (b_current_balance v :: bs) with
  | Some b => (Reached, set_b_current b v)
  | None => (Running, set_b_current (List.last bs (b_current_balance v)) v)
  end.
Proof.
  intros Hs Hall. revert bs v Hs Hall; induction rounds as [|r rounds IH]; intros bs v Hs Hall.
  - apply Forall2_nil_inv_l in Hall as ->. cbn [find balance_loop].
    rewrite Z.leb_antisym. destruct (u64 _ <? _); destruct v; done.
  - apply Forall2_cons_inv_l in Hall as (b & bs' & Hb & Hall & ->).
    cbn [balance_loop]. change (find ?f (?x :: ?l)) with (if f x then Some x else find f l).
    cbv beta. rewrite Z.leb_antisym. destruct (u64 _ <? _); cbn [negb]; [|by destruct v].
    rewrite (proj1 Hb), Hs, (answers_query _ _ _ Hb). cbn [Z.eqb negb WALLET_OK].
    change (negb (0 =? 0)) with false. cbn iota. rewrite (IH bs').
    + cbn [b_threshold b_current_balance set_b_current].
      destruct (find _ _); [done|]. by rewrite last_cons.
    + done.
    + eapply Forall2_impl; [|exact Hall]. intros r' b'. by apply answers_fields.
Qed.

(** C38: the balance service reports its start balance together with the first
    later balance that is at least the threshold above it, for balances that do
    not fall below the start; it keeps running while none is. *)
Theorem balance_service_reports first rounds v b0 bs :
  b_cb v = true -> answers v first b0 -> Forall2 (answers v) rounds bs ->
  Forall (fun b => b0 <= b < 2 ^ 64) (b0 :: bs) -> 0 <= b0 ->
  balance_service first rounds v =
  let v1 := set_b_status 1 v in
  match find (fun b => b_threshold v <=? b - b0) (b0 :: bs) with
  | Some b => (Reached, set_b_current b v1, Some (b0, b))
  | None => (Running, set_b_current (List.last bs b0) v1, None)
  end.
Proof.
  intros Hcb Hf Hall Hb H0. unfold balance_service.
  rewrite (answers_query _ _ _ Hf). cbn [Z.eqb WALLET_OK].
  change (0 =? 0) with true. cbn iota.
  rewrite (balance_loop_finds _ bs) by first
    [ done | eapply Forall2_impl; [|exact Hall]; intros; by eapply answers_fields ].
  cbn [b_threshold b_current_balance set_b_current set_b_status].
  rewrite (find_ext_in _ (fun b => b_threshold v <=? b - b0)).
  - destruct (find _ _); cbn; by rewrite ?Hcb.
  - intros b Hin. rewrite list.Forall_forall in Hb. apply Hb in Hin.
    unfold u64. rewrite Z.mod_small by lia. done.
Qed.

(** The distance from the start balance is computed in unsigned 64-bit
    arithmetic: a balance that falls below the start by [d] is reported at once
    as having reached every threshold up to [2^64 - d]. *)
Lemma balance_drop_reported first r rounds v b0 b :
  b_cb v = true -> answers v first b0 -> answers v r b ->
  0 <= b < b0 -> b0 < 2 ^ 64 -> 0 < b_threshold v <= 2 ^ 64 - (b0 - b) ->
  balance_service first (r :: rounds) v
  = (Reached, set_b_current b (set_b_status 1 v), Some (b0, b)).
Proof.
  intros Hcb Hf Hr Hb H0 Ht. unfold balance_service.
  rewrite (answers_query _ _ _ Hf). cbn [Z.eqb WALLET_OK].
  change (0 =? 0) with true. cbn iota. cbn [balance_loop].
  cbn [b_threshold b_current_balance set_b_current set_b_status b_status].
  rewrite Z.sub_diag, (proj1 Hr). change (u64 0) with 0. zdec. change (1 =? 2) with false. cbn iota.
  rewrite (answers_query _ r b) by by eapply answers_fields. change (negb (WALLET_OK =? WALLET_OK)) with false.
  cbn iota. assert (u64 (b - b0) = 2 ^ 64 - (b0 - b)) as E.
  { unfold u64. rewrite <- (Z.mod_small (2 ^ 64 - (b0 - b)) (2 ^ 64)) by lia.
    rewrite <- (Z_mod_plus_full (b - b0) 1 (2 ^ 64)). f_equal. lia. }
  destruct rounds; cbn [balance_loop b_threshold b_current_balance set_b_current set_b_status b_status b_cb];
    rewrite E; zdec; cbn [b_cb set_b_current set_b_status]; by rewrite Hcb.
Qed.

(** A stop request that arrives before the first query has returned is
    lost, because the thread then sets its status to running. *)
Lemma early_stop_lost first rounds v :
  (balance_query first v).1 = WALLET_OK ->
  balance_service first rounds (balance_service_stop v) = balance_service first rounds v.
Proof.
  unfold balance_service, balance_query, balance_service_stop. cbn.
  destruct (wallet_check_balance _ _ _ _ _) as [err b]. cbn. intros ->. done.
Qed.

(** The number of queries of the confirmation loop before it times out. *)
Definition rounds_left (v : confirmation_service_t) (time : Z) : nat :=
  Z.to_nat ((c_timeout v - time + c_interval v - 1) / c_interval v).

Lemma rounds_left_done v time :
  0 < c_interval v -> c_timeout v <= time -> rounds_left v time = 0%nat.
Proof.
  intros Hi Ht. unfold rounds_left.
  destruct (Z_lt_le_dec (c_timeout v - time + c_interval v - 1) 0) as [Hneg|Hpos].
  - pose proof (Z.div_lt_upper_bound (c_timeout v - time + c_interval v - 1) (c_interval v) 0). lia.
  - rewrite Z.div_small; lia.
Qed.

Lemma rounds_left_step v time :
  0 < c_interval v -> time < c_timeout v ->
  rounds_left v time = S (rounds_left v (time + c_interval v)).
Proof.
  intros Hi Ht. unfold rounds_left.
  replace (c_timeout v - time + c_interval v - 1)
    with (c_timeout v - (time + c_interval v) + c_interval v - 1 + 1 * c_interval v) by lia.
  rewrite Z_div_plus_full by lia.
  assert (0 <= (c_timeout v - (time + c_interval v) + c_interval v - 1) / c_interval v)
    by (apply Z.div_pos; lia). lia.
Qed.

(** A thread that wakes up sees a stop, of this round or from before its start. *)
Definition stop_seen (v : confirmation_service_t) (r : round) : bool := r_stop r || (c_status v =? 2).

Definition quiet (v : confirmation_service_t) (r : round) : Prop :=
  stop_seen v r = false /\ confirmation_query r v = false.

Lemma confirmation_loop_step r rounds time v :
  confirmation_loop (r :: rounds) time v =
  if c_timeout v <=? time then (TimedOut, time, false)
  else if stop_seen v r then (StopSeen, time, false)
  else if confirmation_query r v then (Reached, time, true)
  else confirmation_loop rounds (u32 (time + c_interval v)) v.
Proof. unfold stop_seen. cbn [confirmation_loop]. by destruct (r_stop r). Qed.

Lemma confirmation_loop_spec rounds v time :
  0 < c_interval v -> c_timeout v + c_interval v <= 2 ^ 32 -> 0 <= time ->
  (rounds_left v time < length rounds)%nat ->
  confirmation_loop rounds time v =
  match list_find (fun r => stop_seen v r = true \/ confirmation_query r v = true)
          (take (rounds_left v time) rounds) with
  | Some (k, r) => if stop_seen v r then (StopSeen, time + Z.of_nat k * c_interval v, false)
                   else (Reached, time + Z.of_nat k * c_interval v, true)
  | None => (TimedOut, time + Z.of_nat (rounds_left v time) * c_interval v, false)
  end.
Proof.
  intros Hi Hw. revert time; induction rounds as [|r rounds IH]; intros time Ht Hl; [cbn [length] in Hl; lia|].
  rewrite confirmation_loop_step. destruct (Z.leb_spec (c_timeout v) time) as [Hle|Hgt].
  { rewrite rounds_left_done by done. cbn. by rewrite Z.add_0_r. }
  rewrite rounds_left_step in * by done. cbn [take list_find].
  destruct (stop_seen v r) eqn:Es; [rewrite decide_True by auto; by rewrite Es, Z.add_0_r|].
  destruct (confirmation_query r v) eqn:Eq; [rewrite decide_True by auto; by rewrite Es, Z.add_0_r|].
  rewrite decide_False by intuition congruence. unfold u32. rewrite Z.mod_small by lia.
  rewrite IH by (cbn [length] in Hl; lia).
  destruct (list_find _ _) as [[k x]|]; cbn [fmap option_fmap option_map prod_map fst snd].
  - cbn. destruct (stop_seen v x); do 2 f_equal; lia.
  - do 2 f_equal. lia.
Qed.

(** Nothing ends a loop whose 32-bit time never reaches the timeout but a stop or
    a confirmation. *)
Lemma confirmation_loop_forever rounds v (k : nat) :
  (forall k : nat, u32 (Z.of_nat k * c_interval v) < c_timeout v) -> Forall (quiet v) rounds ->
  (confirmation_loop rounds (u32 (Z.of_nat k * c_interval v)) v).1.1 = Running.
Proof.
  intros Ht Hq. revert k; induction Hq as [|r rounds [Hs Hc] _ IH]; intros k; [done|].
  rewrite confirmation_loop_step, (proj2 (Z.leb_gt _ _) (Ht k)), Hs, Hc.
  specialize (IH (S k)). replace (u32 (u32 _ + _)) with (u32 (Z.of_nat (S k) * c_interval v)); [done|].
  unfold u32. rewrite Zplus_mod_idemp_l. f_equal. lia.
Qed.

(** C39: How the confirmation service ends.  A transaction that is confirmed at
    the first query is reported at time 0.  Otherwise, with a positive interval
    and [timeout + interval] at most 2^32, the service ends within [ceil (timeout
    / interval)] queries: at the first round in which a stop is seen or the query
    finds the transaction confirmed, or with a timeout after all of them; the
    callback, if there is one, gets the time and whether it is confirmed.  When
    the 32-bit counter never reaches the timeout (an interval of zero, or a
    wrap-around that jumps over it) the service runs on for as long as it is
    neither stopped nor confirmed. *)
Theorem confirmation_service_ends first rounds v :
  (0 < c_interval v -> c_timeout v + c_interval v <= 2 ^ 32 -> (rounds_left v 0 < length rounds)%nat ->
   let report time confirmed := if c_cb v then Some (time, confirmed) else None in
   confirmation_service first rounds v =
   if confirmation_query first v then (Reached, report 0 true) else
   match list_find (fun r => stop_seen v r = true \/ confirmation_query r v = true)
           (take (rounds_left v 0) rounds) with
   | Some (k, r) => if stop_seen v r then (StopSeen, report (Z.of_nat k * c_interval v) false)
                    else (Reached, report (Z.of_nat k * c_interval v) true)
   | None => (TimedOut, report (Z.of_nat (rounds_left v 0) * c_interval v) false)
   end)
  /\ ((forall k : nat, u32 (Z.of_nat k * c_interval v) < c_timeout v) ->
      confirmation_query first v = false -> Forall (quiet v) rounds ->
      confirmation_service first rounds v = (Running, None)).
Proof.
  split.
  - intros Hi Hw Hl. unfold confirmation_service. cbv zeta.
    destruct (confirmation_query first v); [done|]. rewrite confirmation_loop_spec by (done || lia).
    destruct (list_find _ _) as [[k r]|]; [|done]. by destruct (stop_seen v r).
  - intros Ht Hf Hq. unfold confirmation_service. rewrite Hf.
    pose proof (confirmation_loop_forever rounds v 0 Ht Hq) as Hloop.
    change (u32 (Z.of_nat 0 * c_interval v)) with 0 in Hloop.
    destruct (confirmation_loop rounds 0 v) as [[e t] c]. cbn in Hloop. by subst e.
Qed.
End WalletFacts.

(** ** A concrete node *)

Module WalletWitness.
(** The node state is the pair of a balance and whether the transaction is
    included; every text is accepted. *)
#[export] Instance toy_client : IotaClient := {
  client := unit; trits := bytes; node := (Z * bool)%type;
  is_seed := fun s => (length s =? 81)%nat;
  is_address := fun s => (length s =? 81)%nat;
  NUM_TRYTES_HASH := 81%nat; NUM_TRYTES_ADDRESS := 81%nat;
  NUM_TRYTES_BUNDLE := 81%nat;
  flex_trits_from_trytes := Some;
  flex_trits_to_trytes := take 81;
  iota_client_core_init := fun _ _ _ => Some tt;
  get_balances_req_address_add := fun _ => true;
  iota_client_get_balances := fun _ _ _ n => Some n.1;
  iota_client_get_new_address := fun _ _ _ start _ _ => Some [[start]];
  transfer_message := fun m => default [] m;
  iota_client_send_transfer := fun _ _ _ _ _ _ _ v _ n => (Some [1], (n.1 - v, true));
  get_inclusion_states_req_hash_add := fun _ => true;
  iota_client_get_inclusion_states := fun _ _ n => Some n.2
}.

Definition w : wallet_ctx_t := {|
  mwm := 10; security := 2; depth := 3; unused_idx := 0; seed := [] : trits; iota_client := tt : client |}.
Definition bserv (thr : Z) : balance_service_t := {|
  b_addr := repeat 65 81; b_status := 0; b_interval := 1; b_threshold := thr;
  b_current_balance := 0; b_wallet := Some w; b_cb := true |}.
Definition see (b : Z) : round := {| r_stop := false; r_alloc := true; r_node := (b, false) : node |}.
Definition conf (c : bool) : round := {| r_stop := false; r_alloc := true; r_node := (0, c) : node |}.
Definition cserv (interval timeout : Z) : confirmation_service_t := {|
  c_tx := repeat 65 81; c_status := 0; c_interval := interval; c_timeout := timeout;
  c_wallet := w; c_cb := true |}.

Lemma see_answers thr b : answers (bserv thr) (see b) b.
Proof. split_and!; try done. exists w, (repeat 65 81). done. Qed.

Lemma balance_service_reports_witness :
  balance_service (see 10) [see 11; see 13; see 20] (bserv 3)
  = (Reached, set_b_current 13 (set_b_status 1 (bserv 3)), Some (10, 13)).
Proof.
  refine (balance_service_reports (see 10) [see 11; see 13; see 20] (bserv 3) 10 [11; 13; 20]
            eq_refl (see_answers 3 10) _ _ _).
  - repeat constructor; apply see_answers.
  - repeat constructor; lia.
  - lia.
Defined.

Lemma balance_drop_reported_witness :
  balance_service (see 10) [see 9] (bserv 1000000)
  = (Reached, set_b_current 9 (set_b_status 1 (bserv 1000000)), Some (10, 9)).
Proof.
  refine (balance_drop_reported (see 10) (see 9) [] (bserv 1000000) 10 9 eq_refl
            (see_answers _ _) (see_answers _ _) _ _ _); cbn; lia.
Defined.

Lemma early_stop_lost_witness :
  balance_service (see 10) [see 11] (balance_service_stop (bserv 5))
  = balance_service (see 10) [see 11] (bserv 5).
Proof. refine (early_stop_lost (see 10) [see 11] (bserv 5) _). reflexivity. Defined.

Lemma jumped_over (k : nat) : u32 (Z.of_nat k * 2) < 2 ^ 32 - 1.
Proof.
  unfold u32. change (2 ^ 32) with (2 * 2 ^ 31). rewrite (Z.mul_comm _ 2), Z.mul_mod_distr_l by lia.
  pose proof (Z.mod_pos_bound (Z.of_nat k) (2 ^ 31)). lia.
Qed.

(** One service that is confirmed in time, one whose time steps over its timeout. *)
Lemma confirmation_service_ends_witness :
  confirmation_service (conf false) [conf false; conf true; conf false; conf false] (cserv 10 25)
  = (Reached, Some (10, true))
  /\ confirmation_service (conf false) (repeat (conf false) 9) (cserv 2 (2 ^ 32 - 1)) = (Running, None).
Proof.
  split.
  - refine (eq_trans (proj1 (confirmation_service_ends (conf false)
              [conf false; conf true; conf false; conf false] (cserv 10 25)) _ _ _) _);
      [cbn; lia | cbn; lia | vm_compute; lia | vm_compute; reflexivity].
  - refine (proj2 (confirmation_service_ends (conf false) (repeat (conf false) 9) (cserv 2 (2 ^ 32 - 1))) _ _ _).
    + intros k. apply (jumped_over k).
    + reflexivity.
    + repeat constructor.
Defined.
End WalletWitness.
