(* ===== verification/PepPlugins.v ===== *)
(** * The enforcement plugins
      (src/plugins/pep/relay, print, can and canopen)

    Each plugin keeps a table of at most ten named actions and runs the first
    one whose name is a prefix of the requested action.  The plugins are
    written against the relay-board interface of Relay.v and the wallet. *)

From S2P Require Import Prelude CStd Relay Wallet.

(** ** The action table, common to the four files *)

Definition ACTION_NAME_SIZE : nat := 16.
Definition RELAY_INDEX : Z := 0.

(** [strncpy(action_names[i], s, ACTION_NAME_SIZE)] for a literal of at most 15 bytes. *)
Definition action_name (s : bytes) : bytes := literal_in ACTION_NAME_SIZE s.

(** pep_plugin_args_t: the memory of [action.value] and of [obligation]. *)
Record pep_plugin_args_t := { action_value : bytes; obligation : bytes }.

Section ActionSet.
Context {St : Type}.

Abbreviation action_t := (St -> out (Z * St)).
Abbreviation action_set_t := (list (bytes * action_t)).

(** The loop of [action_cb]: [status] stays 0 when no name matches. *)
Fixpoint run_action (set : action_set_t) (value : bytes) (s : St) : out (Z * St) :=
  match set with
  | [] => Ret (0, s)
  | (name, act) :: set =>
      same ← memcmp_eq value (before_nul name) (length (before_nul name));
      if (same : bool) then act s else run_action set value s
  end.

Fixpoint run_requests (cb : pep_plugin_args_t -> St -> out (Z * St)) (rs : list pep_plugin_args_t) (s : St)
    : out (list Z * St) :=
  match rs with
  | [] => Ret ([], s)
  | r :: rs => x ← cb r s; xs ← run_requests cb rs x.2; Ret (x.1 :: xs.1, xs.2)
  end.
End ActionSet.

(** ** pep_plugin_can.c *)

Section Can.
Context {St : Type} `{RelayBoard St}.

Definition car_lock (s : St) : out (Z * St) := r ← rb_pulse 0 s; Ret (0, r.2).
Definition car_unlock (s : St) : out (Z * St) := r ← rb_pulse 1 s; Ret (0, r.2).
Definition start_engine (s : St) : out (Z * St) := r ← rb_pulse 2 s; Ret (0, r.2).
Definition open_trunk (s : St) : out (Z * St) := r ← rb_pulse 3 s; Ret (0, r.2).

Definition can_initializer : list (bytes * (St -> out (Z * St))) :=
  [ (action_name (cstr "open_door"), car_unlock);
    (action_name (cstr "close_door"), car_lock);
    (action_name (cstr "open_trunk"), open_trunk);
    (action_name (cstr "start_engine"), start_engine) ].

Definition can_action_cb (args : pep_plugin_args_t) (s : St) : out (Z * St) :=
  run_action can_initializer (action_value args) s.
End Can.

(** ** pep_plugin_canopen.c *)

Section CanOpen.
Context {St : Type} `{RelayBoard St}.

Definition vehicle_lock (s : St) : out (Z * St) := r ← rb_off 3 s; Ret (0, r.2).
Definition vehicle_unlock (s : St) : out (Z * St) := r ← rb_on 3 s; Ret (0, r.2).
Definition honk (s : St) : out (Z * St) := r ← rb_pulse 2 s; Ret (0, r.2).
Definition alarm_on (s : St) : out (Z * St) := r ← rb_on 1 s; Ret (0, r.2).
Definition alarm_off (s : St) : out (Z * St) := r ← rb_off 1 s; Ret (0, r.2).

Definition canopen_initializer : list (bytes * (St -> out (Z * St))) :=
  [ (action_name (cstr "open_door"), vehicle_unlock);
    (action_name (cstr "close_door"), vehicle_lock);
    (action_name (cstr "honk"), honk);
    (action_name (cstr "alarm_on"), alarm_on);
    (action_name (cstr "alarm_off"), alarm_off) ].

(** [should_log] is computed from the obligation and used by no action. *)
Definition canopen_action_cb (args : pep_plugin_args_t) (s : St) : out (Z * St) :=
  should_log ← memcmp_eq (obligation args) (cstr "log_event") 9;
  run_action canopen_initializer (action_value args) s.
End CanOpen.

(** ** pep_plugin_relay.c and pep_plugin_print.c: actions that use the wallet *)

Definition ACTION_ADDRESS : bytes :=
  cstr "MXHYKULAXKWBY9JCNVPVSOSZHMBDJRWTTXZCTKHLHKSJARDADHJSTCKVQODBVWCYDNGWFGWVTUVENB9UA".

Section WithWallet.
Context `{IotaClient}.

(** [log_tangle] of the relay plugin. *)
Definition log_tangle (dev_wallet : option wallet_ctx_t) (msg : bytes) (n : node) : out (Z * node) :=
  let bundle_hash := repeat 0 (NUM_TRYTES_BUNDLE + 1) in
  r ← wallet_send dev_wallet ACTION_ADDRESS 0 (Some msg) bundle_hash n;
  let '(ret, bundle_hash, n) := r in
  _ ← store bundle_hash (Z.of_nat NUM_TRYTES_BUNDLE) 0;
  if negb (ret =? WALLET_OK) then Ret (-1, n) else Ret (0, n).

Section RelayPlugin.
Context {St : Type} `{RelayBoard St}.
Context (dev_wallet : option wallet_ctx_t).

Definition relay_on (s : St * node) : out (Z * (St * node)) :=
  r ← rb_on RELAY_INDEX s.1;
  let msg := cstr "Relay " ++ show_dec RELAY_INDEX ++ cstr " ON." in
  l ← log_tangle dev_wallet msg s.2;
  Ret (0, (r.2, l.2)).

Definition relay_off (s : St * node) : out (Z * (St * node)) :=
  r ← rb_off RELAY_INDEX s.1;
  let msg := cstr "Relay " ++ show_dec RELAY_INDEX ++ cstr " OFF." in
  l ← log_tangle dev_wallet msg s.2;
  Ret (0, (r.2, l.2)).

(** The table, or [None] when the plugin is not started: no wallet. *)
Definition relay_initializer : option (list (bytes * (St * node -> out (Z * (St * node))))) :=
  match dev_wallet with
  | None => None
  | Some _ => Some [ (action_name (cstr "action#1"), relay_on);
                     (action_name (cstr "action#2"), relay_off) ]
  end.

Definition relay_action_cb (args : pep_plugin_args_t) (s : St * node) : out (Z * (St * node)) :=
  _ ← memcmp_eq (obligation args) (cstr "obligation#1") 12;
  run_action (default [] relay_initializer) (action_value args) s.
End RelayPlugin.

Section PrintPlugin.
Context (dev_wallet : option wallet_ctx_t).

(** Its successful path ends without a value, which no caller uses. *)
Definition print_log_tangle (n : node) : out node :=
  let bundle_hash := repeat 0 (NUM_TRYTES_BUNDLE + 1) in
  r ← wallet_send dev_wallet ACTION_ADDRESS 0 (Some (cstr "hello world from access!")) bundle_hash n;
  let '(ret, bundle_hash, n) := r in
  _ ← store bundle_hash (Z.of_nat NUM_TRYTES_BUNDLE) 0;
  Ret n.

Definition print_terminal (n : node) : out (Z * node) := Ret (0, n).

Definition print_initializer : option (list (bytes * (node -> out (Z * node)))) :=
  match dev_wallet with
  | None => None
  | Some _ => Some [ (action_name (cstr "action#1"), print_terminal) ]
  end.

Definition print_action_cb (args : pep_plugin_args_t) (n : node) : out (Z * node) :=
  obliged ← memcmp_eq (obligation args) (cstr "obligation#1") 12;
  n ← (if (obliged : bool) then print_log_tangle n else Ret n);
  run_action (default [] print_initializer) (action_value args) n.
End PrintPlugin.
End WithWallet.

(** ** Dispatch *)

Lemma memcmp_eq_prefix value name :
  (length name <= length value)%nat ->
  memcmp_eq value name (length name) = Ret (is_prefix name value).
Proof.
  intros Hl. unfold memcmp_eq. zdec. f_equal.
  rewrite (take_ge name) by done. apply eq_bool_prop_intro. rewrite bool_decide_spec.
  rewrite Is_true_true, is_prefix_spec. split.
  - intros E. exists (drop (length name) value). by rewrite <- E at 1; rewrite take_drop.
  - intros [k ->]. apply take_app_length.
Qed.

Section Dispatch.
Context {St : Type}.

(** A table of literal names, each shorter than the name field. *)
Definition table (l : list (bytes * (St -> out (Z * St)))) : list (bytes * (St -> out (Z * St))) :=
  map (fun e => (action_name e.1, e.2)) l.

Fixpoint first_match (l : list (bytes * (St -> out (Z * St)))) (value : bytes) : option (St -> out (Z * St)) :=
  match l with
  | [] => None
  | (name, act) :: l => if is_prefix name value then Some act else first_match l value
  end.

Lemma run_action_first l value s :
  Forall (fun e => no_nul e.1 /\ (length e.1 < 16)%nat) l ->
  Forall (fun e => (length e.1 <= length value)%nat) l ->
  run_action (table l) value s
  = match first_match l value with Some act => act s | None => Ret (0, s) end.
Proof.
  intros H1 H2. induction l as [|[name act] l IH]; [done|].
  apply Forall_cons_iff in H1 as [[Hn Hl] H1]. apply Forall_cons_iff in H2 as [Hv H2].
  cbn [table map run_action fst snd first_match] in *.
  assert (before_nul (action_name name) = name) as ->.
  { unfold action_name, literal_in, ACTION_NAME_SIZE.
    destruct (16 - length name)%nat eqn:E; [lia|]. by apply before_nul_app. }
  rewrite memcmp_eq_prefix by done. cbn [mbind out_bind].
  destruct (is_prefix name value); [done|]. by apply IH.
Qed.
End Dispatch.

(** ** Refinement of the vehicle plugins *)

Inductive can_command : Set := OpenDoor | CloseDoor | OpenTrunk | StartEngine.

Definition can_commands : list (bytes * can_command) :=
  [ (cstr "open_door", OpenDoor); (cstr "close_door", CloseDoor);
    (cstr "open_trunk", OpenTrunk); (cstr "start_engine", StartEngine) ].

(** The command a request names: the first whose name starts the request. *)
Fixpoint parse_request {C} (cmds : list (bytes * C)) (value : bytes) : option C :=
  match cmds with
  | [] => None
  | (name, c) :: cmds => if is_prefix name value then Some c else parse_request cmds value
  end.

Definition can_relay (c : can_command) : Z :=
  match c with OpenDoor => 1 | CloseDoor => 0 | OpenTrunk => 3 | StartEngine => 2 end.

Definition option_list {A} (o : option A) : list A := match o with Some a => [a] | None => [] end.

(** Requests whose [action.value] array covers every name compared to it. *)
Definition long_request (r : pep_plugin_args_t) : Prop :=
  (12 <= length (action_value r))%nat /\ (12 <= length (obligation r))%nat.

Inductive vehicle_command : Set := VUnlock | VLock | VHonk | VAlarmOn | VAlarmOff.

Definition vehicle_commands : list (bytes * vehicle_command) :=
  [ (cstr "open_door", VUnlock); (cstr "close_door", VLock); (cstr "honk", VHonk);
    (cstr "alarm_on", VAlarmOn); (cstr "alarm_off", VAlarmOff) ].

Record vehicle := { unlocked : bool; alarm : bool; honks : nat }.

Definition vehicle_step (v : vehicle) (c : option vehicle_command) : vehicle :=
  match c with
  | Some VUnlock => {| unlocked := true; alarm := alarm v; honks := honks v |}
  | Some VLock => {| unlocked := false; alarm := alarm v; honks := honks v |}
  | Some VHonk => {| unlocked := unlocked v; alarm := alarm v; honks := 1 + honks v |}
  | Some VAlarmOn => {| unlocked := unlocked v; alarm := true; honks := honks v |}
  | Some VAlarmOff => {| unlocked := unlocked v; alarm := false; honks := honks v |}
  | None => v
  end.

Section Vehicles.
Context {St : Type} `{RelayBoardSpec St}.

Definition vehicle_of (s : St) (v : vehicle) : Prop :=
  level s 3 = unlocked v /\ level s 1 = alarm v
  /\ length (filter (fun i => i = 2) (pulses s)) = honks v.

Lemma can_step r s :
  long_request r -> exists s', can_action_cb r s = Ret (0, s')
    /\ pulses s' = pulses s ++ map can_relay (option_list (parse_request can_commands (action_value r))).
Proof.
  intros [Hv _]. unfold can_action_cb.
  change can_initializer with (table [(cstr "open_door", car_unlock (St:=St)); (cstr "close_door", car_lock);
    (cstr "open_trunk", open_trunk); (cstr "start_engine", start_engine)]).
  rewrite run_action_first by (repeat constructor; cbn; first [ lia | by apply (bool_decide_unpack _); vm_compute ]).
  cbn [first_match parse_request can_commands].
  unfold car_unlock, car_lock, open_trunk, start_engine.
  repeat destruct (is_prefix _ (action_value r)); cbn [option_list map can_relay];
    rewrite ?app_nil_r; eauto;
    match goal with |- context [rb_pulse ?i s] =>
      destruct (rb_pulse_ok s i) as (s' & -> & _ & Hp); [unfold relay_idx; lia|] end;
    cbn; eauto.
Qed.

(** The relay call of each vehicle command. *)
Definition vehicle_relay (c : vehicle_command) : St -> out (Z * St) :=
  match c with
  | VUnlock => rb_on 3 | VLock => rb_off 3 | VHonk => rb_pulse 2
  | VAlarmOn => rb_on 1 | VAlarmOff => rb_off 1
  end.

Lemma vehicle_relay_ok c s v :
  vehicle_of s v ->
  exists s', vehicle_relay c s = Ret (0, s') /\ vehicle_of s' (vehicle_step v (Some c)).
Proof.
  intros (H3 & H1' & Hh).
  assert (forall i, i = 1 \/ i = 2 \/ i = 3 -> relay_idx i) as Hi by (unfold relay_idx; lia).
  destruct c; cbn [vehicle_relay];
    match goal with |- context [?f ?i s] =>
      first [ destruct (rb_on_ok s i) as (s' & -> & Hl & Hp); [by auto|]
            | destruct (rb_off_ok s i) as (s' & -> & Hl & Hp); [by auto|]
            | destruct (rb_pulse_ok s i) as (s' & -> & Hl & Hp); [by auto|] ] end;
    exists s'; (split; [done|]); unfold vehicle_of; rewrite Hp, !Hl by auto;
    rewrite ?list.filter_app, ?length_app, ?Hh;
    try change (filter _ [2]) with [2]; cbn [Z.eqb Pos.eqb length honks vehicle_step]; split_and!;
    done || lia.
Qed.

Lemma canopen_step r s v :
  long_request r -> vehicle_of s v -> exists s', canopen_action_cb r s = Ret (0, s')
    /\ vehicle_of s' (vehicle_step v (parse_request vehicle_commands (action_value r))).
Proof.
  intros [Hv Ho] Hs. unfold canopen_action_cb.
  change 9%nat with (length (cstr "log_event")). rewrite memcmp_eq_prefix by (cbn; lia).
  cbn [mbind out_bind].
  change canopen_initializer with (table [(cstr "open_door", vehicle_unlock (St:=St)); (cstr "close_door", vehicle_lock);
    (cstr "honk", honk); (cstr "alarm_on", alarm_on); (cstr "alarm_off", alarm_off)]).
  rewrite run_action_first by (repeat constructor; cbn; first [ lia | by apply (bool_decide_unpack _); vm_compute ]).
  cbn [first_match parse_request vehicle_commands].
  unfold vehicle_unlock, vehicle_lock, honk, alarm_on, alarm_off.
  repeat destruct (is_prefix _ (action_value r)); eauto;
    match goal with |- context [vehicle_step v (Some ?c)] =>
      destruct (vehicle_relay_ok c s v Hs) as (s' & E & Hv'); cbn [vehicle_relay] in E;
      rewrite E; eauto end.
Qed.

(** every sequence of requests to the CAN enforcement plugin answers 0 and
    pulses exactly the relays of the commands the requests name, in order: lock
    on relay 0, unlock on 1, engine on 2, trunk on 3; other requests pulse
    nothing. *)
Lemma can_requests_pulse rs s :
  Forall long_request rs -> exists s',
    run_requests can_action_cb rs s = Ret (map (fun _ => 0) rs, s')
    /\ pulses s' = pulses s ++ mjoin (map (fun r =>
         map can_relay (option_list (parse_request can_commands (action_value r)))) rs).
Proof.
  intros Hrs. revert s; induction Hrs as [|r rs Hr _ IH]; intros s; cbn [run_requests].
  { exists s. cbn. by rewrite app_nil_r. }
  destruct (can_step r s Hr) as (s1 & -> & Hp). cbn [mbind out_bind fst snd].
  destruct (IH s1) as (s' & -> & Hp'). cbn [mbind out_bind fst snd]. exists s'.
  split; [done|]. by rewrite Hp', Hp, <- app_assoc.
Qed.

(** C31: the CANopen enforcement plugin implements the vehicle: after any
    sequence of requests the door relay 3 and the alarm relay 1 are as the
    abstract vehicle's door and alarm, relay 2 was pulsed once per honk, and
    every request is answered 0. *)
Theorem canopen_requests_refine rs s v :
  Forall long_request rs -> vehicle_of s v -> exists s',
    run_requests canopen_action_cb rs s = Ret (map (fun _ => 0) rs, s')
    /\ vehicle_of s' (fold_left vehicle_step
          (map (fun r => parse_request vehicle_commands (action_value r)) rs) v).
Proof.
  intros Hrs. revert s v; induction Hrs as [|r rs Hr _ IH]; intros s v Hs; cbn [run_requests]; [eauto|].
  destruct (canopen_step r s v Hr Hs) as (s1 & -> & Hv). cbn [mbind out_bind fst snd].
  destruct (IH s1 _ Hv) as (s' & -> & Hv'). cbn [mbind out_bind fst snd]. eauto.
Qed.
End Vehicles.

(** ** The plugins that log to the Tangle *)

Section Tangle.
Context `{IotaClient} {St : Type} `{RelayBoardSpec St}.

(** What the plugins rely on: the two literals convert, the client returns
    hashes of the documented length. *)
Record tangle_ok (a t : trits) : Prop := {
  address_ok : is_address ACTION_ADDRESS = true;
  address_trits : flex_trits_from_trytes ACTION_ADDRESS = Some a;
  tag_trits : flex_trits_from_trytes DEFAULT_TAG = Some t;
  hash_length h : (length (flex_trits_to_trytes h) <= NUM_TRYTES_BUNDLE)%nat
}.

(** One zero-value transfer of the message [msg] to the action address. *)
Definition transfer (w : wallet_ctx_t) (a t : trits) (msg : bytes) (n : node) : option trits * node :=
  iota_client_send_transfer (iota_client w) (seed w) (security w) (depth w) (mwm w) a t 0
    (transfer_message (Some msg)) n.

Lemma wallet_send_ok w a t msg n :
  tangle_ok a t -> exists ret hash,
    wallet_send (Some w) ACTION_ADDRESS 0 (Some msg) (repeat 0 (NUM_TRYTES_BUNDLE + 1)) n
    = Ret (ret, hash, (transfer w a t msg n).2)
    /\ length hash = (NUM_TRYTES_BUNDLE + 1)%nat
    /\ ret = (match (transfer w a t msg n).1 with Some _ => WALLET_OK | None => WALLET_ERR_CLIENT_ERR end).
Proof.
  intros [Ha Hat Ht Hh]. unfold wallet_send. rewrite Ha, Hat, Ht. cbn [negb mbind out_bind deref].
  fold (transfer w a t msg n). destruct (transfer w a t msg n) as [[h|] n']; cbn [fst snd].
  - specialize (Hh h). rewrite blit_0 by (rewrite repeat_length; lia). cbn [mbind out_bind].
    do 2 eexists. split_and!; [done | | done].
    rewrite length_app, length_drop, repeat_length. lia.
  - do 2 eexists. split_and!; [done | by rewrite repeat_length | done].
Qed.

Lemma log_tangle_ok w a t msg n :
  tangle_ok a t -> log_tangle (Some w) msg n
  = Ret (match (transfer w a t msg n).1 with Some _ => 0 | None => -1 end, (transfer w a t msg n).2).
Proof.
  intros Hok. unfold log_tangle. destruct (wallet_send_ok w a t msg n Hok) as (ret & hash & -> & Hl & Hr).
  cbn [mbind out_bind]. unfold store. rewrite Hl. zdec. cbn [mbind out_bind]. subst ret.
  by destruct (transfer w a t msg n).1.
Qed.

(** the relay plugin with a wallet sets relay 0 as the action says and sends
    exactly one message that reports it, whether or not the transfer succeeds;
    other requests change neither.  The match is on a prefix: [action#10] is
    taken for [action#1]. *)
Lemma relay_request_effect w a t r s n :
  tangle_ok a t -> long_request r -> exists s',
    let on := is_prefix (cstr "action#1") (action_value r) in
    let off := is_prefix (cstr "action#2") (action_value r) in
    relay_action_cb (Some w) r (s, n)
    = Ret (0, (s', if on then (transfer w a t (cstr "Relay 0 ON.") n).2
                   else if off then (transfer w a t (cstr "Relay 0 OFF.") n).2 else n))
    /\ (forall j, relay_idx j -> level s' j = if (j =? 0) && (on || off) then on else level s j)
    /\ pulses s' = pulses s.
Proof.
  intros Hok [Hv Ho]. cbv zeta. unfold relay_action_cb.
  change 12%nat with (length (cstr "obligation#1")). rewrite memcmp_eq_prefix by (cbn; lia).
  cbn [mbind out_bind].
  change (default [] (relay_initializer (Some w))) with (table [(cstr "action#1", relay_on (Some w) (St := St)); (cstr "action#2", relay_off (Some w))]).
  rewrite run_action_first by (repeat constructor; cbn; first [ lia | by apply (bool_decide_unpack _); vm_compute ]).
  cbn [first_match]. unfold relay_on, relay_off, RELAY_INDEX. cbn [fst snd].
  change (cstr "Relay " ++ show_dec 0 ++ cstr " ON.") with (cstr "Relay 0 ON.").
  change (cstr "Relay " ++ show_dec 0 ++ cstr " OFF.") with (cstr "Relay 0 OFF.").
  assert (relay_idx 0) as H0' by (unfold relay_idx; lia).
  destruct (is_prefix (cstr "action#1") (action_value r)).
  { cbn [fst snd]. destruct (rb_on_ok s 0 H0') as (s' & -> & Hl & Hp). exists s'. cbn [mbind out_bind snd].
    rewrite (log_tangle_ok w a t) by done. cbn [mbind out_bind snd orb]. split_and!; [done | | done].
    intros j Hj. rewrite andb_true_r. by apply Hl. }
  destruct (is_prefix (cstr "action#2") (action_value r)).
  { cbn [fst snd]. destruct (rb_off_ok s 0 H0') as (s' & -> & Hl & Hp). exists s'. cbn [mbind out_bind snd].
    rewrite (log_tangle_ok w a t) by done. cbn [mbind out_bind snd orb]. split_and!; [done | | done].
    intros j Hj. rewrite andb_true_r. by apply Hl. }
  exists s. split_and!; [done | | done]. intros j Hj. cbn [orb]. by rewrite andb_false_r.
Qed.

(** the print plugin with a wallet sends its message to the Tangle exactly
    when the obligation of the request starts with [obligation#1], and answers 0
    in every case. *)
Lemma print_request_effect w a t r n :
  tangle_ok a t -> long_request r ->
  print_action_cb (Some w) r n
  = Ret (0, if is_prefix (cstr "obligation#1") (obligation r)
            then (transfer w a t (cstr "hello world from access!") n).2 else n).
Proof.
  intros Hok [Hv Ho]. unfold print_action_cb.
  change 12%nat with (length (cstr "obligation#1")). rewrite memcmp_eq_prefix by (cbn; lia).
  cbn [mbind out_bind].
  assert (forall n, run_action (default [] (print_initializer (Some w))) (action_value r) n = Ret (0, n)) as Hrun.
  { intros m. change (default [] (print_initializer (Some w))) with (table [(cstr "action#1", print_terminal)]).
    rewrite run_action_first by (repeat constructor; cbn; first [ lia | by apply (bool_decide_unpack _); vm_compute ]).
    cbn [first_match]. by destruct (is_prefix _ _). }
  destruct (is_prefix (cstr "obligation#1") (obligation r)); cbn [mbind out_bind]; [|apply Hrun].
  unfold print_log_tangle.
  destruct (wallet_send_ok w a t (cstr "hello world from access!") n Hok) as (ret & hash & -> & Hl & Hr).
  cbn [mbind out_bind]. unfold store. rewrite Hl. zdec. cbn [mbind out_bind]. apply Hrun.
Qed.
End Tangle.

(** ** Concrete requests *)

Module PepWitness.
Import RelayWitness WalletWitness.

Definition request (value oblig : bytes) : pep_plugin_args_t :=
  {| action_value := literal_in 32 value; obligation := literal_in 32 oblig |}.

Lemma request_long value oblig : long_request (request (cstr value) (cstr oblig)).
Proof.
  split; unfold request, literal_in; cbn [action_value obligation];
    rewrite length_app, repeat_length; lia.
Qed.

Lemma can_requests_pulse_witness :
  exists s', run_requests (can_action_cb (St := board))
               [request (cstr "open_door") []; request (cstr "dance") []; request (cstr "start_engine") []] []
             = Ret ([0; 0; 0], s') /\ pulses s' = [1; 2].
Proof.
  refine (can_requests_pulse
    [request (cstr "open_door") []; request (cstr "dance") []; request (cstr "start_engine") []] [] _).
  repeat constructor; apply (request_long _ EmptyString).
Defined.

Lemma canopen_requests_refine_witness :
  exists s', run_requests (canopen_action_cb (St := board))
               [request (cstr "open_door") []; request (cstr "honk") []; request (cstr "alarm_on") []] []
             = Ret ([0; 0; 0], s')
    /\ vehicle_of s' {| unlocked := true; alarm := true; honks := 1 |}.
Proof.
  refine (canopen_requests_refine
    [request (cstr "open_door") []; request (cstr "honk") []; request (cstr "alarm_on") []] []
    {| unlocked := false; alarm := false; honks := 0 |} _ _).
  - repeat constructor; apply (request_long _ EmptyString).
  - split_and!; reflexivity.
Defined.

Lemma toy_tangle_ok : tangle_ok ACTION_ADDRESS DEFAULT_TAG.
Proof. split; try reflexivity. intros h. cbn. rewrite length_take. lia. Qed.

Lemma relay_request_effect_witness :
  exists s', relay_action_cb (Some w) (request (cstr "action#10") []) ([] : board, (5, false) : node)
      = Ret (0, (s', (5, true)))
    /\ (forall j, relay_idx j -> level s' j = if (j =? 0) && true then true else false)
    /\ pulses s' = [].
Proof.
  refine (relay_request_effect w _ _ (request (cstr "action#10") []) ([] : board) (5, false)
            toy_tangle_ok (request_long _ EmptyString)).
Defined.

Lemma print_request_effect_witness :
  print_action_cb (Some w) (request (cstr "action#1") (cstr "obligation#1")) ((5, false) : node)
  = Ret (0, (5, true)).
Proof.
  refine (print_request_effect w _ _ (request (cstr "action#1") (cstr "obligation#1")) (5, false)
            toy_tangle_ok (request_long _ _)).
Defined.
End PepWitness.
