(* ===== verification/Base64.v ===== *)
(** * Base64 decoding (src/policy_loader/policy_loader.c, lines 208-241)

    [b64_decode] writes exactly as many groups as fill the output buffer,
    whatever the length of its input.  It inverts the standard encoding; on
    other inputs the theorems say when it leaves its buffers. *)

From S2P Require Import Prelude CStd.

Definition b64_isvalidchar (c : Z) : bool :=
  if (48 <=? c) && (c <=? 57) then true
  else if (65 <=? c) && (c <=? 90) then true
  else if (97 <=? c) && (c <=? 122) then true
  else if (c =? 43) || (c =? 47) || (c =? 61) then true
  else false.

Definition b64invs : list Z :=
  [62; -1; -1; -1; 63; 52; 53; 54; 55; 56; 57; 58; 59; 60; 61; -1; -1; -1; -1; -1;
   -1; -1; 0;  1;  2;  3;  4;  5;  6;  7;  8;  9;  10; 11; 12; 13; 14; 15; 16; 17;
   18; 19; 20; 21; 22; 23; 24; 25; -1; -1; -1; -1; -1; -1; 26; 27; 28; 29; 30; 31;
   32; 33; 34; 35; 36; 37; 38; 39; 40; 41; 42; 43; 44; 45; 46; 47; 48; 49; 50; 51].

(** [b64invs[c - 43]] *)
Definition b64inv (c : Z) : out Z := load b64invs (c - 43).

(** One turn of the decoding loop.  [input] is the readable memory from [in]. *)
Definition b64_group (input : bytes) (i j : Z) (out_buf : bytes) : out bytes :=
  c0 ← load input i;
  v ← b64inv c0;
  c1 ← load input (i + 1);
  v1 ← b64inv c1;
  let v := Z.lor (Z.shiftl v 6) v1 in
  c2 ← load input (i + 2);
  v ← (if c2 =? 61 then Ret (Z.shiftl v 6)
       else v2 ← b64inv c2; Ret (Z.lor (Z.shiftl v 6) v2));
  c3 ← load input (i + 3);
  v ← (if c3 =? 61 then Ret (Z.shiftl v 6)
       else v3 ← b64inv c3; Ret (Z.lor (Z.shiftl v 6) v3));
  out_buf ← store out_buf j (Z.land (Z.shiftr v 16) 255);
  out_buf ← (if negb (c2 =? 61) then store out_buf (j + 1) (Z.land (Z.shiftr v 8) 255)
             else Ret out_buf);
  if negb (c3 =? 61) then store out_buf (j + 2) (Z.land v 255) else Ret out_buf.

(** The loop: of the condition [i < in_len, j < out_len] only the second part
    counts, the comma operator drops the first. *)
Fixpoint b64_loop (fuel : nat) (input : bytes) (i j : Z) (out_buf : bytes) (out_len : Z) : out bytes :=
  match fuel with
  | O => Ret out_buf
  | S fuel =>
      if j <? out_len then
        out_buf ← b64_group input i j out_buf;
        b64_loop fuel input (i + 4) (j + 3) out_buf out_len
      else Ret out_buf
  end.

(** The loop makes at most [out_len] turns. *)
Definition b64_decode (input : option bytes) (in_len : Z) (out_buf : option bytes) (out_len : Z)
    : out (bool * option bytes) :=
  match input, out_buf with
  | Some inp, Some o =>
      chars ← slice 0 in_len inp;
      if negb (forallb b64_isvalidchar chars) then Ret (false, out_buf) else
      o ← b64_loop (Z.to_nat out_len) inp 0 0 o out_len;
      Ret (true, Some o)
  | _, _ => Ret (false, out_buf)
  end.

(** ** The reference encoding (RFC 4648) *)

Definition b64_char (n : Z) : Z :=
  if n <? 26 then 65 + n else if n <? 52 then 71 + n else if n <? 62 then n - 4
  else if n =? 62 then 43 else 47.

Fixpoint b64_encode (l : bytes) : bytes :=
  match l with
  | a :: b :: c :: l =>
      [b64_char (a / 4); b64_char (a mod 4 * 16 + b / 16);
       b64_char (b mod 16 * 4 + c / 64); b64_char (c mod 64)] ++ b64_encode l
  | [a; b] => [b64_char (a / 4); b64_char (a mod 4 * 16 + b / 16); b64_char (b mod 16 * 4); 61]
  | [a] => [b64_char (a / 4); b64_char (a mod 4 * 16); 61; 61]
  | [] => []
  end.

(** The number of groups for [n] bytes. *)
Definition groups (n : Z) : Z := (n + 2) / 3.

(** ** Sextets *)

Lemma sextet_in n : 0 <= n < 64 -> n ∈ map Z.of_nat (seq 0 64).
Proof.
  intros H. apply list_elem_of_In, in_map_iff. exists (Z.to_nat n). rewrite in_seq. lia.
Qed.

Lemma b64_char_ok n :
  0 <= n < 64 ->
  b64inv (b64_char n) = Ret n /\ b64_isvalidchar (b64_char n) = true /\ (b64_char n =? 61) = false.
Proof.
  intros Hn. apply sextet_in in Hn. revert n Hn. apply list.Forall_forall.
  repeat constructor.
Qed.

Lemma b64_inv_valid c :
  b64_isvalidchar c = true -> exists v, b64inv c = Ret v.
Proof.
  intros H. assert (43 <= c <= 122) as Hc.
  { unfold b64_isvalidchar in H. repeat case_match; try done;
      repeat match goal with E : _ = true |- _ => znorm E end; lia. }
  assert (c ∈ map Z.of_nat (seq 43 80)) as Hin.
  { apply list_elem_of_In, in_map_iff. exists (Z.to_nat c). rewrite in_seq. lia. }
  clear H Hc. revert c Hin. apply list.Forall_forall.
  repeat (constructor; [by eexists |]). constructor.
Qed.

Lemma b64_inv_nul : b64inv 0 = Undef OobRead.
Proof. reflexivity. Qed.

(** The three bytes packed in four sextets. *)
Lemma join_sextets a b c d :
  0 <= a < 64 -> 0 <= b < 64 -> 0 <= c < 64 -> 0 <= d < 64 ->
  Z.lor (Z.shiftl (Z.lor (Z.shiftl (Z.lor (Z.shiftl a 6) b) 6) c) 6) d
  = ((a * 64 + b) * 64 + c) * 64 + d.
Proof.
  intros Ha Hb Hc Hd.
  assert (forall x y, 0 <= y < 64 -> Z.lor (Z.shiftl x 6) y = x * 64 + y) as Hor.
  { intros x y Hy. rewrite Z.shiftl_mul_pow2 by lia. change (2 ^ 6) with 64.
    rewrite <- Z.add_lor_land. replace (Z.land (x * 64) y) with 0; [lia|].
    symmetry. change 64 with (2 ^ 6). rewrite <- Z.shiftl_mul_pow2 by lia.
    apply Z.bits_inj'. intros n Hn. rewrite Z.land_spec, Z.bits_0.
    destruct (Z_lt_le_dec n 6).
    - rewrite Z.shiftl_spec_low by done. done.
    - rewrite (Z.bits_above_log2 y n); [apply andb_false_r | lia |].
      destruct (decide (y = 0)) as [->|]; [cbn; lia|].
      apply Z.log2_lt_pow2; [lia|]. assert (2 ^ 6 <= 2 ^ n) by (apply Z.pow_le_mono_r; lia). lia. }
  rewrite !Hor by done. done.
Qed.

Lemma byte_of v k : 0 <= k -> Z.land (Z.shiftr v k) 255 = v / 2 ^ k mod 256.
Proof.
  intros Hk. rewrite Z.shiftr_div_pow2 by done. change 255 with (Z.ones 8). by rewrite Z.land_ones.
Qed.

Lemma low_byte v : Z.land v 255 = v mod 256.
Proof. change 255 with (Z.ones 8). by rewrite Z.land_ones. Qed.

(** ** Decoding an encoding *)

Lemma sextets_of a b c :
  is_byte a -> is_byte b -> is_byte c ->
  0 <= a / 4 < 64 /\ 0 <= a mod 4 * 16 + b / 16 < 64 /\
  0 <= b mod 16 * 4 + c / 64 < 64 /\ 0 <= c mod 64 < 64.
Proof. unfold is_byte. intros Ha Hb Hc. Z.to_euclidean_division_equations. lia. Qed.

Lemma pack_sextets a b c :
  is_byte a -> is_byte b -> is_byte c ->
  ((a / 4 * 64 + (a mod 4 * 16 + b / 16)) * 64 + (b mod 16 * 4 + c / 64)) * 64 + c mod 64
  = (a * 256 + b) * 256 + c.
Proof. unfold is_byte. intros Ha Hb Hc. Z.to_euclidean_division_equations. lia. Qed.

Lemma unpack_bytes a b c :
  is_byte a -> is_byte b -> is_byte c ->
  Z.land (Z.shiftr ((a * 256 + b) * 256 + c) 16) 255 = a
  /\ Z.land (Z.shiftr ((a * 256 + b) * 256 + c) 8) 255 = b
  /\ Z.land ((a * 256 + b) * 256 + c) 255 = c.
Proof.
  unfold is_byte. intros Ha Hb Hc. rewrite !byte_of, low_byte by lia.
  change (2 ^ 16) with 65536. change (2 ^ 8) with 256.
  Z.to_euclidean_division_equations. lia.
Qed.

Lemma is_byte_0 : is_byte 0.
Proof. unfold is_byte. lia. Qed.

(** [group_loads] evaluates the four reads of a group behind a known prefix. *)
Ltac group_loads pre i :=
  unfold b64_group; cbn [app];
  erewrite (load_at pre _ i 0); [ | lia | reflexivity ]; cbn [mbind out_bind];
  erewrite (load_at pre _ (i + 1) 1); [ | lia | reflexivity ];
  erewrite (load_at pre _ (i + 2) 2); [ | lia | reflexivity ];
  erewrite (load_at pre _ (i + 3) 3); [ | lia | reflexivity ].

Section Groups.
Context (pre post o1 o2 : bytes) (i j x y z : Z)
  (Hi : i = Z.of_nat (length pre)) (Hj : j = Z.of_nat (length o1)).

Lemma group_three a b c :
  is_byte a -> is_byte b -> is_byte c ->
  b64_group (pre ++ [b64_char (a / 4); b64_char (a mod 4 * 16 + b / 16);
                     b64_char (b mod 16 * 4 + c / 64); b64_char (c mod 64)] ++ post)
    i j (o1 ++ x :: y :: z :: o2)
  = Ret (o1 ++ a :: b :: c :: o2).
Proof using Hi Hj.
  intros Ha Hb Hc. destruct (sextets_of a b c Ha Hb Hc) as (H0 & H1 & H2 & H3).
  destruct (b64_char_ok _ H0) as (E0 & _ & _). destruct (b64_char_ok _ H1) as (E1 & _ & _).
  destruct (b64_char_ok _ H2) as (E2 & _ & N2). destruct (b64_char_ok _ H3) as (E3 & _ & N3).
  group_loads pre i. rewrite E0. cbn [mbind out_bind]. rewrite E1. cbn [mbind out_bind].
  rewrite N2, E2. cbn [mbind out_bind]. rewrite N3, E3. cbn [mbind out_bind negb].
  rewrite join_sextets, pack_sextets by done. destruct (unpack_bytes a b c Ha Hb Hc) as (-> & -> & ->).
  rewrite (store_at _ _ _ 0) by (cbn; lia). cbn [mbind out_bind insert list_insert].
  rewrite (store_at _ _ _ 1) by (cbn; lia). cbn [mbind out_bind insert list_insert].
  rewrite (store_at _ _ _ 2) by (cbn; lia). done.
Qed.

Lemma group_two a b :
  is_byte a -> is_byte b ->
  b64_group (pre ++ [b64_char (a / 4); b64_char (a mod 4 * 16 + b / 16);
                     b64_char (b mod 16 * 4); 61] ++ post)
    i j (o1 ++ x :: y :: o2)
  = Ret (o1 ++ a :: b :: o2).
Proof using Hi Hj.
  intros Ha Hb. destruct (sextets_of a b 0 Ha Hb is_byte_0) as (H0 & H1 & H2 & H3).
  rewrite Z.div_0_l, Z.add_0_r in H2 by lia.
  destruct (b64_char_ok _ H0) as (E0 & _ & _). destruct (b64_char_ok _ H1) as (E1 & _ & _).
  destruct (b64_char_ok _ H2) as (E2 & _ & N2).
  group_loads pre i. rewrite E0. cbn [mbind out_bind]. rewrite E1. cbn [mbind out_bind].
  rewrite N2, E2. cbn [mbind out_bind Z.eqb Pos.eqb negb].
  rewrite <- (Z.lor_0_r (Z.shiftl _ 6)), join_sextets by (done || lia).
  pose proof (pack_sextets a b 0 Ha Hb is_byte_0) as E. change (0 mod 64) with 0 in E.
  rewrite Z.div_0_l, !Z.add_0_r in E by lia. rewrite Z.add_0_r, E, <- (Z.add_0_r ((_ + _) * 256)). destruct (unpack_bytes a b 0 Ha Hb is_byte_0) as (-> & -> & _).
  rewrite (store_at _ _ _ 0) by (cbn; lia). cbn [mbind out_bind insert list_insert].
  rewrite (store_at _ _ _ 1) by (cbn; lia). done.
Qed.

Lemma group_one a :
  is_byte a ->
  b64_group (pre ++ [b64_char (a / 4); b64_char (a mod 4 * 16); 61; 61] ++ post)
    i j (o1 ++ x :: o2)
  = Ret (o1 ++ a :: o2).
Proof using Hi Hj.
  intros Ha. destruct (sextets_of a 0 0 Ha is_byte_0 is_byte_0) as (H0 & H1 & _ & _).
  rewrite Z.div_0_l, Z.add_0_r in H1 by lia.
  destruct (b64_char_ok _ H0) as (E0 & _ & _). destruct (b64_char_ok _ H1) as (E1 & _ & _).
  group_loads pre i. rewrite E0. cbn [mbind out_bind]. rewrite E1. cbn [mbind out_bind Z.eqb Pos.eqb negb].
  rewrite <- (Z.lor_0_r (Z.shiftl (Z.shiftl _ 6) 6)), <- (Z.lor_0_r (Z.shiftl (Z.lor _ _) 6)), join_sextets by (done || lia).
  pose proof (pack_sextets a 0 0 Ha is_byte_0 is_byte_0) as E. change (0 mod 64) with 0 in E.
  change (0 mod 16 * 4 + 0 / 64) with 0 in E. rewrite Z.div_0_l, !Z.add_0_r in E by lia.
  rewrite !Z.add_0_r, E. replace (a * 256 * 256) with ((a * 256 + 0) * 256 + 0) by lia.
  destruct (unpack_bytes a 0 0 Ha is_byte_0 is_byte_0) as (-> & _ & _).
  by rewrite (store_at _ _ _ 0) by (cbn; lia).
Qed.
End Groups.

Lemma b64_loop_done fuel input i j o out_len : out_len <= j -> b64_loop fuel input i j o out_len = Ret o.
Proof. intros H. destruct fuel; [done|]. cbn. by zdec. Qed.

(** Lists by threes, as the encoding takes them. *)
Lemma triples_ind (P : bytes -> Prop) :
  P [] -> (forall a, P [a]) -> (forall a b, P [a; b]) ->
  (forall a b c l, P l -> P (a :: b :: c :: l)) -> forall l, P l.
Proof.
  intros H0 H1 H2 H3. fix IH 1. intros [|a [|b [|c l]]]; [done..|]. apply H3, IH.
Qed.

Lemma b64_loop_encoded l : forall pre post o1 o2 fuel out_len,
  Forall is_byte l -> length o2 = length l -> (length l <= fuel)%nat ->
  out_len = Z.of_nat (length o1 + length l) ->
  b64_loop fuel (pre ++ b64_encode l ++ post) (Z.of_nat (length pre)) (Z.of_nat (length o1))
    (o1 ++ o2) out_len = Ret (o1 ++ l).
Proof.
  induction l as [ | a | a b | a b c l IH] using triples_ind;
    intros pre post o1 o2 fuel out_len Hl Ho Hf ->.
  - destruct o2; [|done]. cbn [length]. by rewrite b64_loop_done by lia.
  - destruct o2 as [|x [|]]; try done. destruct fuel as [|fuel]; [cbn in Hf; lia|].
    apply Forall_cons_iff in Hl as [Ha _]. cbn [b64_loop b64_encode length]. zdec.
    rewrite group_one by done. cbn [mbind out_bind]. by rewrite b64_loop_done by lia.
  - destruct o2 as [|x [|y [|]]]; try done. destruct fuel as [|fuel]; [cbn in Hf; lia|].
    apply Forall_cons_iff in Hl as [Ha Hl]. apply Forall_cons_iff in Hl as [Hb _].
    cbn [b64_loop b64_encode length]. zdec.
    rewrite group_two by done. cbn [mbind out_bind]. by rewrite b64_loop_done by lia.
  - destruct o2 as [|x [|y [|z o2]]]; try done. destruct fuel as [|fuel]; [cbn in Hf; lia|].
    do 3 (apply Forall_cons_iff in Hl as [? Hl]). cbn [b64_loop length] in *. zdec.
    change (b64_encode (a :: b :: c :: l)) with
      ([b64_char (a / 4); b64_char (a mod 4 * 16 + b / 16);
        b64_char (b mod 16 * 4 + c / 64); b64_char (c mod 64)] ++ b64_encode l).
    rewrite <- app_assoc, group_three by done. cbn [mbind out_bind].
    rewrite app_assoc.
    replace (Z.of_nat (length pre) + 4)
      with (Z.of_nat (length (pre ++ [b64_char (a / 4); b64_char (a mod 4 * 16 + b / 16);
        b64_char (b mod 16 * 4 + c / 64); b64_char (c mod 64)]))) by (rewrite length_app; cbn [length]; lia).
    replace (Z.of_nat (length o1) + 3) with (Z.of_nat (length (o1 ++ [a; b; c]))) by (rewrite length_app; cbn [length]; lia).
    replace (o1 ++ a :: b :: c :: o2) with ((o1 ++ [a; b; c]) ++ o2) by by rewrite <- app_assoc.
    rewrite IH; [by rewrite <- app_assoc | done | lia | lia | rewrite length_app; cbn [length]; lia].
Qed.

Lemma b64_encode_valid l : Forall is_byte l -> forallb b64_isvalidchar (b64_encode l) = true.
Proof.
  induction l as [ | a | a b | a b c l IH] using triples_ind; intros Hl; [done|..].
  - apply Forall_cons_iff in Hl as [Ha _].
    destruct (sextets_of a 0 0 Ha is_byte_0 is_byte_0) as (H0 & H1 & _ & _).
    rewrite Z.div_0_l, Z.add_0_r in H1 by lia. cbn [b64_encode forallb].
    by rewrite (proj1 (proj2 (b64_char_ok _ H0))), (proj1 (proj2 (b64_char_ok _ H1))).
  - apply Forall_cons_iff in Hl as [Ha Hl]. apply Forall_cons_iff in Hl as [Hb _].
    destruct (sextets_of a b 0 Ha Hb is_byte_0) as (H0 & H1 & H2 & _).
    rewrite Z.div_0_l, Z.add_0_r in H2 by lia. cbn [b64_encode forallb].
    by rewrite (proj1 (proj2 (b64_char_ok _ H0))), (proj1 (proj2 (b64_char_ok _ H1))),
      (proj1 (proj2 (b64_char_ok _ H2))).
  - do 3 (apply Forall_cons_iff in Hl as [? Hl]).
    destruct (sextets_of a b c) as (S0 & S1 & S2 & S3); [done..|].
    cbn [b64_encode app forallb].
    by rewrite (proj1 (proj2 (b64_char_ok _ S0))), (proj1 (proj2 (b64_char_ok _ S1))),
      (proj1 (proj2 (b64_char_ok _ S2))), (proj1 (proj2 (b64_char_ok _ S3))), IH.
Qed.

Lemma decode_encoded l post o :
  Forall is_byte l -> length o = length l ->
  b64_decode (Some (b64_encode l ++ post)) (Z.of_nat (length (b64_encode l)))
    (Some o) (Z.of_nat (length l)) = Ret (true, Some l).
Proof.
  intros Hl Ho. unfold b64_decode. rewrite slice_0_app by done. cbn [mbind out_bind].
  rewrite b64_encode_valid by done. cbn [negb].
  pose proof (b64_loop_encoded l [] post [] o (Z.to_nat (Z.of_nat (length l))) (Z.of_nat (length l))) as E.
  cbn [app length] in E. change (Z.of_nat 0) with 0 in E. rewrite E by (done || lia). done.
Qed.

(** The length of an encoding: four characters for three bytes or a part of them. *)
Lemma length_b64_encode l : Z.of_nat (length (b64_encode l)) = 4 * groups (Z.of_nat (length l)).
Proof.
  unfold groups. induction l as [ | a | a b | a b c l IH] using triples_ind; [done..|].
  cbn [b64_encode app length]. rewrite !Nat2Z.inj_succ, IH.
  replace (Z.succ (Z.succ (Z.succ (Z.of_nat (length l)))) + 2) with (Z.of_nat (length l) + 2 + 1 * 3) by lia.
  rewrite Z.div_add by lia. lia.
Qed.

(** C4: decoding inverts the standard encoding: for every byte string, decoding
    its encoding, of [4 * ceil (n / 3)] characters, into a buffer of its length
    succeeds and yields the string, whatever follows the encoding in memory. *)
Theorem b64_decode_encode l post o :
  Forall is_byte l -> length o = length l ->
  b64_decode (Some (b64_encode l ++ post)) (4 * groups (Z.of_nat (length l)))
    (Some o) (Z.of_nat (length l)) = Ret (true, Some l).
Proof. rewrite <- length_b64_encode. apply decode_encoded. Qed.

(** ** Memory safety *)

(** A turn that reads the terminator of a string of valid characters fails. *)
Lemma b64_group_short s tl i j o :
  forallb b64_isvalidchar s = true -> 0 <= i <= Z.of_nat (length s) -> Z.of_nat (length s) < i + 4 ->
  b64_group (s ++ 0 :: tl) i j o = Undef OobRead.
Proof.
  intros Hv Hi Hl.
  assert (forall k, 0 <= k < Z.of_nat (length s) -> exists c v, load (s ++ 0 :: tl) k = Ret c /\ b64inv c = Ret v)
    as Hin.
  { intros k Hk. destruct (lookup_lt_is_Some_2 s (Z.to_nat k)) as [c Hc]; [lia|].
    rewrite forallb_forall in Hv. destruct (b64_inv_valid c) as [v Ev].
    { apply Hv, list_elem_of_In. by eapply list_elem_of_lookup_2. }
    exists c, v. split; [|done]. apply load_lookup; [lia|]. by rewrite lookup_app_l by lia. }
  assert (load (s ++ 0 :: tl) (Z.of_nat (length s)) = Ret 0) as Hnul by by apply load_app.
  unfold b64_group.
  assert (i = Z.of_nat (length s) \/ i + 1 = Z.of_nat (length s) \/ i + 2 = Z.of_nat (length s)
          \/ i + 3 = Z.of_nat (length s)) as [E | [E | [E | E]]] by lia.
  - by rewrite E, Hnul.
  - destruct (Hin i) as (c0 & v0 & -> & E0); [lia|]. cbn [mbind out_bind]. rewrite E0.
    cbn [mbind out_bind]. by rewrite E, Hnul.
  - destruct (Hin i) as (c0 & v0 & -> & E0); [lia|]. cbn [mbind out_bind]. rewrite E0.
    cbn [mbind out_bind]. destruct (Hin (i + 1)) as (c1 & v1 & -> & E1); [lia|].
    cbn [mbind out_bind]. rewrite E1. cbn [mbind out_bind]. by rewrite E, Hnul.
  - destruct (Hin i) as (c0 & v0 & -> & E0); [lia|]. cbn [mbind out_bind]. rewrite E0.
    cbn [mbind out_bind]. destruct (Hin (i + 1)) as (c1 & v1 & -> & E1); [lia|].
    cbn [mbind out_bind]. rewrite E1. cbn [mbind out_bind].
    destruct (Hin (i + 2)) as (c2 & v2 & -> & E2); [lia|]. cbn [mbind out_bind]. rewrite E2, E, Hnul.
    by destruct (c2 =? 61).
Qed.

(** A turn inside the string is defined up to its writes. *)
Lemma b64_group_inside s tl i j o :
  forallb b64_isvalidchar s = true -> 0 <= i -> i + 4 <= Z.of_nat (length s) ->
  0 <= j < Z.of_nat (length o) ->
  exists c2 c3 o', s !! Z.to_nat (i + 2) = Some c2 /\ s !! Z.to_nat (i + 3) = Some c3
    /\ length o' = length o
    /\ b64_group (s ++ tl) i j o
       = if ((c2 =? 61) || (j + 1 <? Z.of_nat (length o))) && ((c3 =? 61) || (j + 2 <? Z.of_nat (length o)))
         then Ret o' else Undef OobWrite.
Proof.
  intros Hv Hi Hl Hj.
  assert (forall k, i <= k < i + 4 -> exists c v, s !! Z.to_nat k = Some c
    /\ load (s ++ tl) k = Ret c /\ b64inv c = Ret v) as Hin.
  { intros k Hk. destruct (lookup_lt_is_Some_2 s (Z.to_nat k)) as [c Hc]; [lia|].
    rewrite forallb_forall in Hv. destruct (b64_inv_valid c) as [v Ev].
    { apply Hv, list_elem_of_In. by eapply list_elem_of_lookup_2. }
    exists c, v. split_and!; [done | | done]. apply load_lookup; [lia|]. by rewrite lookup_app_l by lia. }
  destruct (Hin i) as (c0 & v0 & _ & L0 & E0); [lia|].
  destruct (Hin (i + 1)) as (c1 & v1 & _ & L1 & E1); [lia|].
  destruct (Hin (i + 2)) as (c2 & v2 & G2 & L2 & E2); [lia|].
  destruct (Hin (i + 3)) as (c3 & v3 & G3 & L3 & E3); [lia|].
  unfold b64_group. rewrite L0. cbn [mbind out_bind]. rewrite E0. cbn [mbind out_bind].
  rewrite L1. cbn [mbind out_bind]. rewrite E1. cbn [mbind out_bind]. rewrite L2, L3.
  cbn [mbind out_bind]. rewrite E2, E3.
  exists c2, c3.
  assert (forall o1 k v, length o1 = length o -> 0 <= k -> exists o2, length o2 = length o
    /\ store o1 k v = if k <? Z.of_nat (length o) then Ret o2 else Undef OobWrite) as Hst.
  { intros o1 k v Ho1 Hk. destruct (Z.ltb_spec k (Z.of_nat (length o))).
    - destruct (store_defined o1 k v) as (o2 & -> & ?); [lia|]. exists o2. split; [congruence | done].
    - exists o. split; [done|]. apply store_oob. lia. }
  assert (forall v v' v'', exists o', length o' = length o /\
    (o1 ← store o j v; o1 ← (if negb (c2 =? 61) then store o1 (j + 1) v' else Ret o1);
     if negb (c3 =? 61) then store o1 (j + 2) v'' else Ret o1)
    = if ((c2 =? 61) || (j + 1 <? Z.of_nat (length o))) && ((c3 =? 61) || (j + 2 <? Z.of_nat (length o)))
      then Ret o' else Undef OobWrite) as Hw.
  { intros v v' v''. destruct (Hst o j v) as (o1 & Ho1 & ->); [done | lia |]. zdec. cbn [mbind out_bind].
    destruct (Hst o1 (j + 1) v') as (o2 & Ho2 & E'); [done | lia |].
    destruct (Hst (if c2 =? 61 then o1 else o2) (j + 2) v'') as (o3 & Ho3 & E''); [by destruct (c2 =? 61) | lia |].
    destruct (c2 =? 61); cbn [negb orb mbind out_bind].
    - destruct (c3 =? 61); cbn [negb orb andb]; [by exists o1 | by exists o3].
    - rewrite E'. destruct (j + 1 <? _); cbn [andb mbind out_bind]; [|by exists o].
      destruct (c3 =? 61); cbn [negb orb andb]; [by exists o2 | by exists o3]. }
  set (v := if c2 =? 61 then Z.shiftl (Z.lor (Z.shiftl v0 6) v1) 6
            else Z.lor (Z.shiftl (Z.lor (Z.shiftl v0 6) v1) 6) v2).
  set (w := if c3 =? 61 then Z.shiftl v 6 else Z.lor (Z.shiftl v 6) v3).
  destruct (Hw (Z.land (Z.shiftr w 16) 255) (Z.land (Z.shiftr w 8) 255) (Z.land w 255)) as (o' & Ho' & E').
  exists o'. split_and!; [done.. | rewrite <- E'].
  subst v w. by destruct (c2 =? 61), (c3 =? 61).
Qed.

Lemma defined_bind {A B} (m : out A) (f : A -> out B) a :
  m = Ret a -> defined (m ≫= f) <-> defined (f a).
Proof. by intros ->. Qed.

Lemma defined_Ret {A} (a : A) : defined (Ret a).
Proof. by exists a. Qed.

Lemma not_defined {A} (u : ub) : ~ defined (Undef u : out A).
Proof. by intros [a Ha]. Qed.

(** The loop on a 64-byte array with [g] groups to go. *)
Lemma b64_loop_safe s tl g : forall fuel o,
  forallb b64_isvalidchar s = true -> length o = 64%nat -> (g <= 22)%nat -> (g <= fuel)%nat ->
  88 - 4 * Z.of_nat g <= Z.of_nat (length s) ->
  defined (b64_loop fuel (s ++ 0 :: tl) (88 - 4 * Z.of_nat g) (66 - 3 * Z.of_nat g) o 64)
  <-> g = 0%nat \/ ((88 <= length s)%nat /\ s !! 86%nat = Some 61 /\ s !! 87%nat = Some 61).
Proof.
  induction g as [|g IH]; intros fuel o Hv Ho Hg Hf Hi.
  { rewrite b64_loop_done by lia. split; [auto | intros _; apply defined_Ret]. }
  destruct fuel as [|fuel]; [lia|]. cbn [b64_loop]. zdec.
  destruct (Z_lt_le_dec (Z.of_nat (length s)) (88 - 4 * Z.of_nat (S g) + 4)) as [Hs|Hs].
  { rewrite b64_group_short by (done || lia). split; [intros ?%not_defined; done | intros [? | [? _]]; lia]. }
  destruct (b64_group_inside s (0 :: tl) (88 - 4 * Z.of_nat (S g)) (66 - 3 * Z.of_nat (S g)) o)
    as (c2 & c3 & o' & G2 & G3 & Ho' & ->); [done | lia.. |].
  rewrite Ho. destruct g as [|g].
  - change (66 - 3 * Z.of_nat 1 + 1 <? Z.of_nat 64) with false.
    change (66 - 3 * Z.of_nat 1 + 2 <? Z.of_nat 64) with false. rewrite !orb_false_r.
    change (Z.to_nat _) with 86%nat in G2. change (Z.to_nat _) with 87%nat in G3. rewrite G2, G3.
    destruct (Z.eqb_spec c2 61) as [->|N2]; cbn [andb];
      [destruct (Z.eqb_spec c3 61) as [->|N3]|]; cbn [mbind out_bind].
    + rewrite b64_loop_done by lia. split; [intros _; right; split_and!; done || lia | intros _; apply defined_Ret].
    + split; [intros ?%not_defined; done | intros [? | (_ & _ & [=])]; done].
    + split; [intros ?%not_defined; done | intros [? | (_ & [=] & _)]; done].
  - rewrite !(proj2 (Z.ltb_lt _ (Z.of_nat 64))) by lia. rewrite !orb_true_r. cbn [andb mbind out_bind].
    replace (88 - 4 * Z.of_nat (S (S g)) + 4) with (88 - 4 * Z.of_nat (S g)) by lia.
    replace (66 - 3 * Z.of_nat (S (S g)) + 3) with (66 - 3 * Z.of_nat (S g)) by lia.
    rewrite IH by (done || lia). split; intros [? | ?]; auto; lia.
Qed.

(** C6: decoding a signature, a terminated string, into its 64-byte array stays
    inside both buffers exactly when the text has at least 88 characters and
    the 22nd group ends in two padding characters; shorter text is read behind
    its end and unpadded text writes behind the array. *)
Theorem b64_signature_safe s tl o :
  forallb b64_isvalidchar s = true -> length o = 64%nat ->
  defined (b64_decode (Some (s ++ 0 :: tl)) (Z.of_nat (length s)) (Some o) 64)
  <-> (88 <= length s)%nat /\ s !! 86%nat = Some 61 /\ s !! 87%nat = Some 61.
Proof.
  intros Hv Ho. unfold b64_decode. rewrite slice_0_app by done. cbn [mbind out_bind]. rewrite Hv. cbn [negb].
  pose proof (b64_loop_safe s tl 22 64 o Hv Ho) as Hloop.
  change (88 - 4 * Z.of_nat 22) with 0 in Hloop. change (66 - 3 * Z.of_nat 22) with 0 in Hloop.
  change (Z.to_nat 64) with 64%nat.
  transitivity (defined (b64_loop 64 (s ++ 0 :: tl) 0 0 o 64)).
  - destruct (b64_loop 64 (s ++ 0 :: tl) 0 0 o 64); cbn [mbind out_bind];
      split; first [ intros ?%not_defined; done | intros _; apply defined_Ret ].
  - rewrite Hloop by lia. split; [intros [? | ?]; done | auto].
Qed.

Module Base64Witness.
Definition sig : bytes := map Z.of_nat (seq 100 64).
Definition short : bytes := repeat 65 80.

Lemma b64_decode_encode_witness :
  b64_decode (Some (b64_encode sig ++ [0])) 88 (Some (repeat 0 64)) 64 = Ret (true, Some sig).
Proof.
  refine (b64_decode_encode sig [0] (repeat 0 64) _ _); [|reflexivity].
  apply (bool_decide_unpack _). vm_compute. exact I.
Defined.

Lemma b64_signature_safe_witness :
  defined (b64_decode (Some (short ++ [0])) 80 (Some (repeat 0 64)) 64)
  <-> (88 <= 80)%nat /\ short !! 86%nat = Some 61 /\ short !! 87%nat = Some 61.
Proof. exact (b64_signature_safe short [] (repeat 0 64) eq_refl eq_refl). Defined.
End Base64Witness.
