(* ===== verification/Config.v ===== *)
(** * The configuration manager (src/config_manager)

    An INI file is read in chunks of 16 bytes into a buffer and cut into tokens
    by a small state machine; options are then looked up by group and name. *)

From S2P Require Import Prelude CStd.

Definition CONFIG_MANAGER_OK : Z := 0.
Definition CONFIG_MANAGER_INIT_ERROR : Z := -1.
Definition CONFIG_MANAGER_GROUP_NOT_FOUND : Z := -2.
Definition CONFIG_MANAGER_OPTION_NOT_FOUND : Z := -3.

Definition CONFIG_MANAGER_DATA_SIZE : nat := 2048.
Definition CONFIG_MANAGER_MAX_TOKENS : nat := 1024.
Definition READ_CHUNK_SIZE : nat := 16.

Inductive config_manager_token_type_t : Set :=
| CONFIG_MANAGER_TOKEN_GROUP | CONFIG_MANAGER_TOKEN_OPTION.

#[export] Instance token_type_eq_dec : EqDecision config_manager_token_type_t.
Proof. solve_decision. Defined.

Record config_manager_token_t := Tok {
  tok_start : Z;
  eq_sign_idx : Z;
  tok_end : Z;
  tok_size : Z;
  tok_level : config_manager_token_type_t
}.

Record config_manager_t := {
  data : bytes;
  tokens : list config_manager_token_t;
  tokens_count : Z
}.

(** ** The tokenizer *)

(** The locals of [config_manager_implementation_init_cb]; token pointers are
    indices, and [token_index] always equals [this_token]. *)
Record scan := {
  sc_tokens : list config_manager_token_t;
  sc_count : Z;
  value_started : bool;
  new_line : bool;
  comment_line : bool;
  this_token : nat;
  group_token : nat
}.

(** Writing the fields of a token. *)
Definition upd (i : nat) (f : config_manager_token_t -> config_manager_token_t)
    (l : list config_manager_token_t) : out (list config_manager_token_t) :=
  if (i <? length l)%nat then Ret (alter f i l) else Undef OobWrite.

Definition with_tokens (l : list config_manager_token_t) (s : scan) : scan :=
  {| sc_tokens := l; sc_count := sc_count s; value_started := value_started s;
     new_line := new_line s; comment_line := comment_line s;
     this_token := this_token s; group_token := group_token s |}.

(** The body of the [for] loop on the byte [c] at offset [pos] of the data. *)
Definition scan_byte (pos c : Z) (s : scan) : out scan :=
  if new_line s && (c =? 35) then
    Ret {| sc_tokens := sc_tokens s; sc_count := sc_count s; value_started := value_started s;
           new_line := false; comment_line := true;
           this_token := this_token s; group_token := group_token s |}
  else if new_line s then
    if c =? 91 then
      l ← upd (this_token s) (fun t => Tok (pos + 1) (eq_sign_idx t) (pos + 1) 0
                                          CONFIG_MANAGER_TOKEN_GROUP) (sc_tokens s);
      Ret {| sc_tokens := l; sc_count := sc_count s; value_started := value_started s;
             new_line := false; comment_line := comment_line s;
             this_token := this_token s; group_token := this_token s |}
    else
      l ← upd (group_token s) (fun t => Tok (tok_start t) (eq_sign_idx t) (tok_end t)
                                           (tok_size t + 1) (tok_level t)) (sc_tokens s);
      l ← upd (this_token s) (fun _ => Tok pos pos pos 1 CONFIG_MANAGER_TOKEN_OPTION) l;
      Ret {| sc_tokens := l; sc_count := sc_count s; value_started := value_started s;
             new_line := false; comment_line := comment_line s;
             this_token := this_token s; group_token := group_token s |}
  else if (c =? 61) && negb (value_started s) then
    l ← upd (this_token s) (fun t => Tok (tok_start t) pos (tok_end t) (tok_size t) (tok_level t))
          (sc_tokens s);
    Ret {| sc_tokens := l; sc_count := sc_count s; value_started := true;
           new_line := new_line s; comment_line := comment_line s;
           this_token := this_token s; group_token := group_token s |}
  else if c =? 10 then
    if comment_line s then
      Ret {| sc_tokens := sc_tokens s; sc_count := sc_count s; value_started := false;
             new_line := true; comment_line := false;
             this_token := this_token s; group_token := group_token s |}
    else
      let e := if (this_token s =? group_token s)%nat then pos - 1 else pos in
      l ← upd (this_token s) (fun t => Tok (tok_start t) (eq_sign_idx t) e (tok_size t) (tok_level t))
            (sc_tokens s);
      Ret {| sc_tokens := l; sc_count := sc_count s + 1; value_started := false;
             new_line := true; comment_line := false;
             this_token := S (this_token s); group_token := group_token s |}
  else Ret s.

Fixpoint scan_bytes (pos : Z) (l : bytes) (s : scan) : out scan :=
  match l with
  | [] => Ret s
  | c :: l => s ← scan_byte pos c s; scan_bytes (pos + 1) l s
  end.

(** The [do ... while] loop.  [file] is what is left to read; every turn but
    the last consumes a chunk, so [length file + 1] turns are enough. *)
Fixpoint read_chunks (fuel : nat) (file : bytes) (total : Z) (mem : bytes) (s : scan)
    : out (bytes * scan) :=
  match fuel with
  | O => Ret (mem, s)
  | S fuel =>
      let chunk := take READ_CHUNK_SIZE file in
      mem ← blit mem total chunk;
      s ← scan_bytes total chunk s;
      if (length chunk =? READ_CHUNK_SIZE)%nat
      then read_chunks fuel (drop READ_CHUNK_SIZE file) (total + Z.of_nat (length chunk)) mem s
      else Ret (mem, s)
  end.

Definition scan0 (toks : list config_manager_token_t) : scan :=
  {| sc_tokens := toks; sc_count := 0; value_started := false; new_line := true;
     comment_line := false; this_token := 0; group_token := 0 |}.

(** [file]: the content of the configuration file, if it can be opened. *)
Definition config_manager_implementation_init_cb (file : option bytes) (g_config : config_manager_t)
    : out (Z * config_manager_t) :=
  match file with
  | None => Ret (CONFIG_MANAGER_INIT_ERROR, g_config)
  | Some f =>
      r ← read_chunks (S (length f)) f 0 (data g_config) (scan0 (tokens g_config));
      Ret (CONFIG_MANAGER_OK,
           {| data := r.1; tokens := sc_tokens r.2; tokens_count := sc_count r.2 |})
  end.

(** ** Lookup *)

(** [strncmp(a, mem, n) == 0] with an [int] length that converts to [size_t];
    [a] is a string, [mem] memory. *)
Definition strncmp_int (a mem : bytes) (n : Z) : out bool :=
  b ← c_str mem;
  Ret (if n <? 0 then strcmp_eq a b else strncmp_eq a b (Z.to_nat n)).

Definition token_at (cfg : config_manager_t) (i : Z) : out config_manager_token_t :=
  if 0 <=? i then from_option Ret (Undef OobRead) (tokens cfg !! Z.to_nat i) else Undef OobRead.

(** The first loop: [n] tokens from index [i]; -1 when none matches. *)
Fixpoint find_module (n : nat) (i : Z) (cfg : config_manager_t) (module_name : bytes) : out Z :=
  match n with
  | O => Ret (-1)
  | S n =>
      tok ← token_at cfg i;
      same ← (if bool_decide (tok_level tok = CONFIG_MANAGER_TOKEN_GROUP)
              then mem ← tail_from (data cfg) (tok_start tok);
                   strncmp_int module_name mem (tok_end tok - tok_start tok)
              else Ret false);
      if (same : bool) then Ret i else find_module n (i + 1) cfg module_name
  end.

(** The second loop: [n] tokens from index [idx]. *)
Fixpoint find_option (n : nat) (idx : Z) (cfg : config_manager_t) (option_name : bytes)
    : out (option config_manager_token_t) :=
  match n with
  | O => Ret None
  | S n =>
      tok ← token_at cfg idx;
      mem ← tail_from (data cfg) (tok_start tok);
      same ← strncmp_int option_name mem (eq_sign_idx tok - tok_start tok);
      if (same : bool) then Ret (Some tok) else find_option n (idx + 1) cfg option_name
  end.

(** [snprintf(dst, n, fmt, src)] with the format of a string; a size of 0 writes nothing. *)
Definition snprintf_s (dst : bytes) (n : Z) (src : bytes) : out bytes :=
  s ← c_str src;
  if n =? 0 then Ret dst else blit dst 0 (take (Z.to_nat (n - 1)) s ++ [0]).

(** The code and the buffer [option_value] as the call leaves it. *)
Definition config_manager_implementation_get_string_cb (cfg : config_manager_t)
    (module_name option_name option_value : bytes) (option_value_size : Z) : out (Z * bytes) :=
  found_module ← find_module (Z.to_nat (tokens_count cfg)) 0 cfg module_name;
  if found_module =? -1 then Ret (CONFIG_MANAGER_GROUP_NOT_FOUND, option_value) else
  m ← token_at cfg found_module;
  found ← find_option (Z.to_nat (tok_size m)) (found_module + 1) cfg option_name;
  match found with
  | None => Ret (CONFIG_MANAGER_OPTION_NOT_FOUND, option_value)
  | Some tok =>
      let copy_len := Z.min (u64 (tok_end tok - eq_sign_idx tok)) option_value_size in
      src ← tail_from (data cfg) (eq_sign_idx tok + 1);
      v ← snprintf_s option_value copy_len src;
      v ← store v (copy_len + 1) 0;
      Ret (CONFIG_MANAGER_OK, v)
  end.

(** [*option_value] as the call leaves it. *)
Definition config_manager_implementation_get_int_cb (cfg : config_manager_t)
    (module_name option_name : bytes) (option_value : Z) : out (Z * Z) :=
  r ← config_manager_implementation_get_string_cb cfg module_name option_name (repeat 0 32) 32;
  let '(status, string_value) := r in
  if negb (status =? CONFIG_MANAGER_OK) then Ret (status, option_value) else
  s ← c_str string_value;
  v ← atoi s;
  Ret (CONFIG_MANAGER_OK, v).

(** config_manager.c forwards to the implementation. *)
Definition config_manager_init := config_manager_implementation_init_cb.
Definition config_manager_get_option_string := config_manager_implementation_get_string_cb.
Definition config_manager_get_option_int := config_manager_implementation_get_int_cb.

(** ** Chunking is invisible *)

Lemma scan_bytes_app pos a b s :
  scan_bytes pos (a ++ b) s
  = (s ← scan_bytes pos a s; scan_bytes (pos + Z.of_nat (length a)) b s).
Proof.
  revert pos s; induction a as [|c a IH]; intros pos s; cbn [app scan_bytes length].
  - cbn. by rewrite Z.add_0_r.
  - destruct (scan_byte pos c s) as [s'|u]; cbn [mbind out_bind]; [|done].
    rewrite IH. destruct (scan_bytes (pos + 1) a s'); cbn [mbind out_bind]; [|done].
    f_equal. lia.
Qed.

Lemma read_chunks_whole fuel file total mem s :
  (length file < fuel)%nat -> 0 <= total -> total + Z.of_nat (length file) <= Z.of_nat (length mem) ->
  read_chunks fuel file total mem s
  = (s ← scan_bytes total file s;
     Ret (take (Z.to_nat total) mem ++ file ++ drop (Z.to_nat total + length file) mem, s)).
Proof.
  revert file total mem s; induction fuel as [|fuel IH]; intros file total mem s Hf H0 Hl; [lia|].
  cbn [read_chunks]. pose proof (length_take file READ_CHUNK_SIZE) as Ht.
  rewrite blit_Ret by lia. cbn [mbind out_bind].
  destruct (decide (READ_CHUNK_SIZE <= length file)%nat) as [Hc|Hc].
  2:{ rewrite take_ge by lia. destruct (scan_bytes total file s); cbn [mbind out_bind]; [|done].
      replace (READ_CHUNK_SIZE `min` length file)%nat with (length file) by lia. by zdec. }
  replace (READ_CHUNK_SIZE `min` length file)%nat with READ_CHUNK_SIZE by lia.
  replace (scan_bytes total file s)
    with (scan_bytes total (take READ_CHUNK_SIZE file ++ drop READ_CHUNK_SIZE file) s)
    by by rewrite take_drop.
  rewrite scan_bytes_app, Ht.
  replace (READ_CHUNK_SIZE `min` length file)%nat with READ_CHUNK_SIZE by lia.
  destruct (scan_bytes total (take READ_CHUNK_SIZE file) s) as [s'|u]; cbn [mbind out_bind]; [|done].
  rewrite Nat.eqb_refl. set (mem' := take _ mem ++ _).
  assert (length mem' = length mem) as Hm
    by (subst mem'; rewrite !length_app, !length_take, length_drop; lia).
  rewrite IH; [ | rewrite length_drop; unfold READ_CHUNK_SIZE in *; lia | lia | rewrite Hm, length_drop; lia ].
  destruct (scan_bytes _ _ s') as [s''|u]; cbn [mbind out_bind]; [|done].
  do 2 f_equal. set (n := READ_CHUNK_SIZE) in *.
  replace (Z.to_nat (total + Z.of_nat n)) with (Z.to_nat total + n)%nat by lia.
  assert (mem' = (take (Z.to_nat total) mem ++ take n file) ++ drop (Z.to_nat total + n) mem) as ->
    by (subst mem'; by rewrite app_assoc).
  rewrite take_app_length' by (rewrite length_app, !length_take; lia).
  rewrite drop_app_ge by (rewrite length_app, !length_take; lia).
  rewrite length_app, !length_take, drop_drop, length_drop, <- !app_assoc.
  rewrite (app_assoc (take n file)), take_drop. do 3 f_equal. lia.
Qed.

(** the tokenizer does not see the chunks: for a file that fits the data
    buffer, reading it 16 bytes at a time gives the data and the tokens of one
    scan over the whole file; a file that cannot be opened is reported. *)
Lemma init_is_one_scan file g :
  length (data g) = CONFIG_MANAGER_DATA_SIZE -> (length file <= CONFIG_MANAGER_DATA_SIZE)%nat ->
  config_manager_init (Some file) g
  = (s ← scan_bytes 0 file (scan0 (tokens g));
     Ret (CONFIG_MANAGER_OK,
          {| data := file ++ drop (length file) (data g); tokens := sc_tokens s;
             tokens_count := sc_count s |}))
  /\ config_manager_init None g = Ret (CONFIG_MANAGER_INIT_ERROR, g).
Proof.
  intros Hd Hf. split; [|done]. unfold config_manager_init, config_manager_implementation_init_cb.
  rewrite read_chunks_whole by (rewrite ?Hd; lia).
  by destruct (scan_bytes 0 file _).
Qed.

(** ** Configurations and their text *)

Inductive cline := COpt (name value : bytes) | CComment (text : bytes).

Record cgroup := { g_name : bytes; g_lines : list cline }.

Definition render_line (l : cline) : bytes :=
  match l with
  | COpt name value => name ++ 61 :: value ++ [10]
  | CComment text => 35 :: text ++ [10]
  end.

Definition render_group (g : cgroup) : bytes :=
  91 :: g_name g ++ 93 :: 10 :: mjoin (render_line <$> g_lines g).

Definition render_config (gs : list cgroup) : bytes := mjoin (render_group <$> gs).

(** Bytes of a name and of a value. *)
Definition name_byte (c : Z) : Prop := c <> 0 /\ c <> 10 /\ c <> 61.
Definition value_byte (c : Z) : Prop := c <> 0 /\ c <> 10.

Definition line_ok (l : cline) : Prop :=
  match l with
  | COpt name value => Forall name_byte name /\ Forall value_byte value
      /\ exists c n, name = c :: n /\ c <> 35 /\ c <> 91
  | CComment text => Forall value_byte text
  end.

Definition group_ok (g : cgroup) : Prop := Forall name_byte (g_name g) /\ Forall line_ok (g_lines g).

(** The answer the text calls for: the first group whose name is a prefix of the
    module name, in it the first option whose name is a prefix of the option's. *)
Inductive answer := NoGroup | NoOption | Value (v : bytes).

Fixpoint lookup_line (ls : list cline) (o : bytes) : option bytes :=
  match ls with
  | [] => None
  | COpt name value :: ls => if is_prefix name o then Some value else lookup_line ls o
  | CComment _ :: ls => lookup_line ls o
  end.

Fixpoint lookup_config (gs : list cgroup) (m o : bytes) : answer :=
  match gs with
  | [] => NoGroup
  | g :: gs => if is_prefix (g_name g) m
               then match lookup_line (g_lines g) o with Some v => Value v | None => NoOption end
               else lookup_config gs m o
  end.

(** ** Scanning a line *)

(** The state at the start of a line. *)
Definition at_line (toks : list config_manager_token_t) (count : Z) (this group : nat) : scan :=
  {| sc_tokens := toks; sc_count := count; value_started := false; new_line := true;
     comment_line := false; this_token := this; group_token := group |}.

Lemma upd_at a x b i f : i = length a -> upd i f (a ++ x :: b) = Ret (a ++ f x :: b).
Proof.
  intros ->. unfold upd. rewrite length_app. cbn [length]. zdec. f_equal.
  rewrite alter_app_r_alt, Nat.sub_diag by lia. done.
Qed.

(** Inside a line the scanner passes over every byte that is neither the end of
    the line nor the first equals sign. *)
Lemma scan_skip pos l s :
  new_line s = false -> Forall (fun c => c <> 10 /\ (c = 61 -> value_started s = true)) l ->
  scan_bytes pos l s = Ret s.
Proof.
  intros Hn Hl. revert pos; induction Hl as [|c l [H10 H61] _ IH]; intros pos; [done|].
  cbn [scan_bytes]. assert (scan_byte pos c s = Ret s) as ->; [|apply IH].
  unfold scan_byte. rewrite Hn, (proj2 (Z.eqb_neq c 10) H10). cbn [andb].
  destruct (Z.eqb_spec c 61) as [->|]; cbn [andb]; [by rewrite H61|done].
Qed.

Lemma name_skips l s : Forall name_byte l -> Forall (fun c => c <> 10 /\ (c = 61 -> value_started s = true)) l.
Proof. apply Forall_impl. unfold name_byte. tauto. Qed.

Lemma value_skips l s :
  value_started s = true -> Forall value_byte l ->
  Forall (fun c => c <> 10 /\ (c = 61 -> value_started s = true)) l.
Proof. intros H. apply Forall_impl. unfold value_byte. tauto. Qed.

(** The tokens the lines of a group leave, from offset [pos]. *)
Definition opt_tok (pos : Z) (name value : bytes) : config_manager_token_t :=
  let eq := pos + Z.of_nat (length name) in
  Tok pos eq (eq + 1 + Z.of_nat (length value)) 1 CONFIG_MANAGER_TOKEN_OPTION.

Fixpoint line_toks (pos : Z) (ls : list cline) : list config_manager_token_t :=
  match ls with
  | [] => []
  | l :: ls =>
      match l with COpt name value => [opt_tok pos name value] | CComment _ => [] end
      ++ line_toks (pos + Z.of_nat (length (render_line l))) ls
  end.

(** [scan_cbn] computes the fields of scanner states and tokens. *)
Ltac scan_cbn :=
  cbn [at_line new_line value_started comment_line sc_tokens sc_count this_token group_token
       andb negb Z.eqb Pos.eqb mbind out_bind tok_start tok_end tok_size tok_level eq_sign_idx].

Lemma scan_option pre g mid x rest count pos name value :
  line_ok (COpt name value) ->
  scan_bytes pos (render_line (COpt name value))
    (at_line (pre ++ g :: mid ++ x :: rest) count (length pre + S (length mid)) (length pre))
  = Ret (at_line (pre ++ Tok (tok_start g) (eq_sign_idx g) (tok_end g) (tok_size g + 1) (tok_level g)
                    :: (mid ++ [opt_tok pos name value]) ++ rest)
           (count + 1) (length pre + S (S (length mid))) (length pre)).
Proof.
  intros (Hn & Hv & c & n & -> & H35 & H91). apply Forall_cons_iff in Hn as [Hc Hn].
  cbn [render_line app scan_bytes]. unfold scan_byte at 1. scan_cbn.
  rewrite (proj2 (Z.eqb_neq c 35) H35), (proj2 (Z.eqb_neq c 91) H91). scan_cbn.
  rewrite upd_at by done. scan_cbn.
  set (g' := Tok _ _ _ (tok_size g + 1) _).
  assert (forall t, pre ++ g' :: mid ++ t :: rest = (pre ++ g' :: mid) ++ t :: rest) as Ha
    by (intros t; by rewrite <- app_assoc).
  rewrite Ha, upd_at by (rewrite length_app; cbn [length]; lia). scan_cbn.
  rewrite scan_bytes_app, scan_skip by (done || by apply name_skips). scan_cbn.
  cbn [scan_bytes]. unfold scan_byte at 1. scan_cbn.
  rewrite upd_at by (rewrite length_app; cbn [length]; lia). scan_cbn.
  rewrite scan_bytes_app, scan_skip by (done || by apply value_skips). scan_cbn.
  cbn [scan_bytes]. unfold scan_byte at 1.
  scan_cbn.
  rewrite (proj2 (Nat.eqb_neq _ _)) by lia.
  rewrite upd_at by (rewrite length_app; cbn [length]; lia).
  scan_cbn.
  unfold at_line. do 2 f_equal.
  - rewrite <- !app_assoc. cbn [app]. do 4 f_equal. unfold opt_tok. cbn [length]. f_equal; lia.
  - lia.
Qed.

(** A comment leaves no token, but an equals sign in it is written to the
    token that comes next. *)
Lemma scan_comment pre rest count this group pos text :
  line_ok (CComment text) -> this = length pre -> rest <> [] ->
  exists rest', length rest' = length rest /\
    scan_bytes pos (render_line (CComment text)) (at_line (pre ++ rest) count this group)
    = Ret (at_line (pre ++ rest') count this group).
Proof.
  intros Ht -> Hr. cbn [render_line app scan_bytes]. unfold scan_byte at 1.
  scan_cbn.
  cbn [line_ok] in Ht.
  assert (forall pos vs rest, rest <> [] -> exists rest' vs', length rest' = length rest /\
    scan_bytes pos text {| sc_tokens := pre ++ rest; sc_count := count; value_started := vs; new_line := false;
                           comment_line := true; this_token := length pre; group_token := group |}
    = Ret {| sc_tokens := pre ++ rest'; sc_count := count; value_started := vs'; new_line := false;
             comment_line := true; this_token := length pre; group_token := group |}) as Htext.
  { clear Hr pos rest. induction Ht as [|c text [H0 H10] _ IH]; intros pos vs rest Hr; [by exists rest, vs|].
    cbn [scan_bytes]. unfold scan_byte at 1.
    scan_cbn.
    rewrite (proj2 (Z.eqb_neq c 10) H10). destruct ((c =? 61) && negb vs); scan_cbn; [|by apply IH].
    destruct rest as [|x rest]; [done|]. rewrite upd_at by done. scan_cbn.
    destruct (IH (pos + 1) true (Tok (tok_start x) pos (tok_end x) (tok_size x) (tok_level x) :: rest))
      as (rest' & vs' & Hl & ->); [done|]. exists rest', vs'. done. }
  destruct (Htext (pos + 1) false rest Hr) as (rest' & vs' & Hl & E).
  exists rest'. split; [done|]. rewrite scan_bytes_app, E. done.
Qed.

(** ** Scanning groups *)

Definition add_size (k : Z) (g : config_manager_token_t) : config_manager_token_t :=
  Tok (tok_start g) (eq_sign_idx g) (tok_end g) (tok_size g + k) (tok_level g).

Lemma scan_lines ls : forall pre g mid rest count pos,
  Forall line_ok ls -> (length (line_toks pos ls) < length rest)%nat ->
  exists rest', length rest' = (length rest - length (line_toks pos ls))%nat /\
    scan_bytes pos (mjoin (render_line <$> ls))
      (at_line (pre ++ g :: mid ++ rest) count (length pre + S (length mid)) (length pre))
    = Ret (at_line (pre ++ add_size (Z.of_nat (length (line_toks pos ls))) g
                      :: (mid ++ line_toks pos ls) ++ rest')
             (count + Z.of_nat (length (line_toks pos ls)))
             (length pre + S (length mid + length (line_toks pos ls))) (length pre)).
Proof.
  induction ls as [|l ls IH]; intros pre g mid rest count pos Hok Hlen.
  - exists rest. cbn [line_toks length fmap list_fmap mjoin list_join scan_bytes] in *. split; [lia|].
    rewrite app_nil_r, Nat.add_0_r, !Z.add_0_r. unfold add_size. rewrite Z.add_0_r. by destruct g.
  - apply Forall_cons_iff in Hok as [Hl Hok]. cbn [line_toks] in *.
    rewrite fmap_cons, mjoin_cons, scan_bytes_app.
    destruct l as [name value | text]; cbn [app] in *.
    + destruct rest as [|x rest]; [cbn in Hlen; lia|]. rewrite scan_option by done.
      cbn [mbind out_bind length] in *.
      set (toks := line_toks (pos + _) ls) in *.
      destruct (IH pre (add_size 1 g) (mid ++ [opt_tok pos name value]) rest (count + 1)
                  (pos + Z.of_nat (length (render_line (COpt name value))))) as (rest' & Hr & E);
        [done | subst toks; lia |].
      exists rest'. split; [exact Hr|]. rewrite length_app in E. cbn [length] in E.
      replace (length pre + S (length mid + 1))%nat with (length pre + S (S (length mid)))%nat in E by lia.
      etransitivity; [exact E|]. fold toks.
      do 2 f_equal; [ | lia | lia ].
      unfold add_size. cbn [tok_start eq_sign_idx tok_end tok_size tok_level].
      rewrite <- !app_assoc. cbn [app]. do 2 f_equal. f_equal. lia.
    + assert (forall r, pre ++ g :: mid ++ r = (pre ++ g :: mid) ++ r) as Ha by (intros r; by rewrite <- app_assoc).
      rewrite Ha. destruct (scan_comment (pre ++ g :: mid) rest count (length pre + S (length mid)) (length pre) pos text)
        as (rest1 & Hr1 & ->); [done | rewrite length_app; done | by destruct rest; cbn in Hlen; [lia|] |].
      cbn [mbind out_bind]. rewrite <- Ha.
      destruct (IH pre g mid rest1 count (pos + Z.of_nat (length (render_line (CComment text))))) as (rest' & Hr & E);
        [done | by rewrite Hr1 |].
      exists rest'. split; [by rewrite Hr, Hr1 | exact E].
Qed.

(** The tokens of a configuration; the field [eq_sign_idx] of a group token is
    whatever was in the slot. *)
Fixpoint config_toks (pos : Z) (gs : list cgroup) (toks : list config_manager_token_t) : Prop :=
  match gs with
  | [] => toks = []
  | g :: gs =>
      let lpos := pos + 3 + Z.of_nat (length (g_name g)) in
      exists q toks',
        toks = Tok (pos + 1) q (pos + 1 + Z.of_nat (length (g_name g)))
                   (Z.of_nat (length (line_toks lpos (g_lines g)))) CONFIG_MANAGER_TOKEN_GROUP
               :: line_toks lpos (g_lines g) ++ toks'
        /\ config_toks (pos + Z.of_nat (length (render_group g))) gs toks'
  end.

Fixpoint count_toks (gs : list cgroup) : nat :=
  match gs with
  | [] => 0
  | g :: gs => S (length (line_toks 0 (g_lines g)) + count_toks gs)
  end.

Lemma length_line_toks p q ls : length (line_toks p ls) = length (line_toks q ls).
Proof.
  revert p q; induction ls as [|l ls IH]; intros p q; [done|]. cbn [line_toks].
  rewrite !length_app, (IH _ (q + Z.of_nat (length (render_line l)))). by destruct l.
Qed.

Lemma scan_group pre rest count group pos g :
  group_ok g -> (S (length (line_toks 0 (g_lines g))) < length rest)%nat ->
  let lpos := pos + 3 + Z.of_nat (length (g_name g)) in
  let n := length (line_toks lpos (g_lines g)) in
  exists q rest', length rest' = (length rest - S n)%nat /\
    scan_bytes pos (render_group g) (at_line (pre ++ rest) count (length pre) group)
    = Ret (at_line (pre ++ (Tok (pos + 1) q (pos + 1 + Z.of_nat (length (g_name g))) (Z.of_nat n)
                              CONFIG_MANAGER_TOKEN_GROUP :: line_toks lpos (g_lines g)) ++ rest')
             (count + Z.of_nat (S n)) (length pre + S n) (length pre)).
Proof.
  intros [Hn Hls] Hlen lpos n. destruct rest as [|x rest]; [cbn in Hlen; lia|]. cbn [length] in Hlen.
  rewrite (length_line_toks 0 lpos) in Hlen. fold n in Hlen.
  unfold render_group. cbn [scan_bytes]. unfold scan_byte at 1. scan_cbn.
  rewrite upd_at by done. scan_cbn.
  rewrite scan_bytes_app, scan_skip by (done || by apply name_skips). scan_cbn.
  cbn [scan_bytes]. unfold scan_byte at 1. scan_cbn.
  cbn [scan_bytes]. unfold scan_byte at 1. scan_cbn. rewrite Nat.eqb_refl.
  rewrite upd_at by done. scan_cbn. cbn [sc_count].
  set (gt := Tok _ _ _ 0 _).
  destruct (scan_lines (g_lines g) pre gt [] rest (count + 1) lpos) as (rest' & Hr & E); [done | fold n; lia |].
  cbn [app length] in E. fold n in E, Hr.
  exists (eq_sign_idx x), rest'. split; [cbn [length]; lia|].
  replace (pos + 1 + Z.of_nat (length (g_name g)) + 1 + 1) with lpos by (subst lpos; lia).
  unfold at_line in E |- *. replace (S (length pre)) with (length pre + 1)%nat by lia.
  etransitivity; [exact E|]. do 2 f_equal; [|lia].
  f_equal. unfold add_size, gt. scan_cbn. cbn [app]. do 2 f_equal. lia.
Qed.

Lemma scan_config gs : forall pre rest count group pos,
  Forall group_ok gs -> (count_toks gs < length rest)%nat ->
  exists toks rest' group', config_toks pos gs toks /\ length toks = count_toks gs /\
    scan_bytes pos (render_config gs) (at_line (pre ++ rest) count (length pre) group)
    = Ret (at_line (pre ++ toks ++ rest') (count + Z.of_nat (length toks)) (length pre + length toks) group').
Proof.
  induction gs as [|g gs IH]; intros pre rest count group pos Hok Hlen.
  - exists [], rest, group. split_and!; [done | done |]. cbn. by rewrite Nat.add_0_r, Z.add_0_r.
  - apply Forall_cons_iff in Hok as [Hg Hok]. cbn [count_toks] in Hlen.
    unfold render_config. rewrite fmap_cons, mjoin_cons, scan_bytes_app. fold (render_config gs).
    destruct (scan_group pre rest count group pos g Hg) as (q & rest1 & Hr1 & ->); [lia|].
    cbn [mbind out_bind]. set (lpos := pos + 3 + _) in *. set (n := length (line_toks lpos _)) in *.
    set (gt := Tok _ _ _ _ _).
    assert (length (line_toks 0 (g_lines g)) = n) as Hn by apply length_line_toks.
    rewrite app_assoc.
    destruct (IH (pre ++ gt :: line_toks lpos (g_lines g)) rest1 (count + Z.of_nat (S n)) (length pre)
                (pos + Z.of_nat (length (render_group g)))) as (toks & rest' & group' & Ht & Hl & E); [done | lia |].
    rewrite length_app in E. cbn [length] in E. fold n in E.
    exists ((gt :: line_toks lpos (g_lines g)) ++ toks), rest', group'. split_and!.
    + exists q, toks. done.
    + rewrite length_app. cbn [length count_toks]. fold n. lia.
    + etransitivity; [exact E|]. unfold at_line. rewrite length_app. cbn [length]. fold n. do 2 f_equal; [ | lia | lia].
      by rewrite <- !app_assoc.
Qed.

(** ** Looking up *)

Lemma strncmp_prefix key name junk :
  Forall name_byte name -> no_nul key -> 0 ∈ junk ->
  strncmp_int key (name ++ junk) (Z.of_nat (length name)) = Ret (is_prefix name key).
Proof.
  intros Hn Hk H0. unfold strncmp_int, c_str, has_nul. rewrite bool_decide_true by set_solver.
  cbn [mbind out_bind]. zdec. rewrite Nat2Z.id. f_equal. unfold strncmp_eq.
  assert (exists k, before_nul (name ++ junk) = name ++ k) as [k ->].
  { clear H0. induction Hn as [|c name [Hc _] _ [k IH]]; cbn [app]; [eauto|]. cbn [before_nul].
    rewrite (proj2 (Z.eqb_neq c 0) Hc), IH. eauto. }
  rewrite take_app_length. apply eq_bool_prop_intro. rewrite bool_decide_spec.
  rewrite Is_true_true, is_prefix_spec. split.
  - intros E. exists (drop (length name) key). rewrite <- E at 1. by rewrite take_drop.
  - intros [k' ->]. apply take_app_length.
Qed.

Lemma token_at_app cfg a t b i :
  tokens cfg = a ++ t :: b -> i = Z.of_nat (length a) -> token_at cfg i = Ret t.
Proof.
  intros E ->. unfold token_at. zdec. by rewrite E, Nat2Z.id, list_lookup_middle.
Qed.

(** The option loop on the tokens of the lines [ls]. *)
Lemma find_option_spec o ls : no_nul o -> forall tpre trest dpre dtail cfg,
  Forall line_ok ls -> 0 ∈ dtail ->
  tokens cfg = tpre ++ line_toks (Z.of_nat (length dpre)) ls ++ trest ->
  data cfg = dpre ++ mjoin (render_line <$> ls) ++ dtail ->
  match lookup_line ls o with
  | None => find_option (length (line_toks (Z.of_nat (length dpre)) ls)) (Z.of_nat (length tpre)) cfg o = Ret None
  | Some v => exists tok k,
      find_option (length (line_toks (Z.of_nat (length dpre)) ls)) (Z.of_nat (length tpre)) cfg o = Ret (Some tok)
      /\ tok_end tok - eq_sign_idx tok = Z.of_nat (length v) + 1
      /\ tail_from (data cfg) (eq_sign_idx tok + 1) = Ret (v ++ 10 :: k) /\ 0 ∈ k /\ Forall value_byte v
  end.
Proof.
  intros Ho. induction ls as [|l ls IH]; intros tpre trest dpre dtail cfg Hok H0 Ht Hd; [done|].
  apply Forall_cons_iff in Hok as [Hl Hok].
  cbn [line_toks lookup_line] in *. rewrite fmap_cons, mjoin_cons in Hd.
  replace (Z.of_nat (length dpre) + Z.of_nat (length (render_line l)))
    with (Z.of_nat (length (dpre ++ render_line l))) in * by (rewrite length_app; lia).
  destruct l as [name value | text]; cbn [app length] in *.
  - destruct Hl as (Hn & Hv & _). cbn [find_option].
    rewrite (token_at_app _ _ _ _ _ Ht eq_refl). cbn [mbind out_bind opt_tok tok_start eq_sign_idx].
    assert (tail_from (data cfg) (Z.of_nat (length dpre))
            = Ret (name ++ 61 :: value ++ 10 :: mjoin (render_line <$> ls) ++ dtail)) as ->.
    { rewrite Hd, tail_from_app by done. cbn [render_line]. rewrite <- !app_assoc. cbn [app].
      by rewrite <- (app_assoc value). }
    cbn [mbind out_bind]. replace (_ + _ - _) with (Z.of_nat (length name)) by lia.
    rewrite strncmp_prefix by (done || set_solver).
    cbn [mbind out_bind]. destruct (is_prefix name o).
    + eexists. exists (mjoin (render_line <$> ls) ++ dtail). split; [reflexivity|].
      unfold opt_tok. cbn [tok_end eq_sign_idx]. split_and!; [lia | | set_solver | done].
      rewrite Hd. cbn [render_line]. rewrite <- !app_assoc. cbn [app]. rewrite <- (app_assoc value).
      replace (dpre ++ name ++ 61 :: value ++ [10] ++ mjoin (render_line <$> ls) ++ dtail)
        with ((dpre ++ name ++ [61]) ++ value ++ 10 :: mjoin (render_line <$> ls) ++ dtail)
        by (rewrite <- !app_assoc; done).
      apply tail_from_app. rewrite !length_app. cbn [length]. lia.
    + set (ot := opt_tok _ name value) in *.
      replace (Z.of_nat (length tpre) + 1) with (Z.of_nat (length (tpre ++ [ot])))
        by (rewrite length_app; cbn [length]; lia).
      apply (IH (tpre ++ [ot]) trest (dpre ++ render_line (COpt name value)) dtail cfg);
        [done | done | by rewrite Ht, <- app_assoc | by rewrite Hd, <- !app_assoc].
  - apply (IH tpre trest (dpre ++ render_line (CComment text)) dtail cfg); try done.
    by rewrite Hd, <- !app_assoc.
Qed.

Lemma line_toks_option pos ls : Forall (fun t => tok_level t = CONFIG_MANAGER_TOKEN_OPTION) (line_toks pos ls).
Proof. revert pos; induction ls as [|[]]; intros pos; cbn; auto. Qed.

(** Option tokens are passed over by the group loop. *)
Lemma find_module_skip m toks n : forall tpre trest cfg,
  Forall (fun t => tok_level t = CONFIG_MANAGER_TOKEN_OPTION) toks -> tokens cfg = tpre ++ toks ++ trest ->
  find_module (length toks + n) (Z.of_nat (length tpre)) cfg m
  = find_module n (Z.of_nat (length (tpre ++ toks))) cfg m.
Proof.
  induction toks as [|t toks IH]; intros tpre trest cfg Hl Ht; [by rewrite app_nil_r|].
  apply Forall_cons_iff in Hl as [Hlt Hl]. cbn [length Nat.add find_module].
  rewrite (token_at_app _ _ _ _ _ Ht eq_refl). cbn [mbind out_bind]. rewrite Hlt, bool_decide_false by done.
  cbn [mbind out_bind].
  replace (Z.of_nat (length tpre) + 1) with (Z.of_nat (length (tpre ++ [t]))) by (rewrite length_app; cbn [length]; lia).
  rewrite (IH (tpre ++ [t]) trest) by (done || by rewrite Ht, <- app_assoc). by rewrite <- app_assoc.
Qed.

Lemma find_module_spec m gs : no_nul m -> forall tpre toks trest dpre dtail cfg,
  Forall group_ok gs -> 0 ∈ dtail -> config_toks (Z.of_nat (length dpre)) gs toks ->
  tokens cfg = tpre ++ toks ++ trest -> data cfg = dpre ++ render_config gs ++ dtail ->
  (find_module (length toks) (Z.of_nat (length tpre)) cfg m = Ret (-1) /\ forall o, lookup_config gs m o = NoGroup)
  \/ exists g tpre' t trest' dpre' dtail',
      find_module (length toks) (Z.of_nat (length tpre)) cfg m = Ret (Z.of_nat (length tpre'))
      /\ group_ok g /\ 0 ∈ dtail'
      /\ tokens cfg = tpre' ++ t :: line_toks (Z.of_nat (length dpre')) (g_lines g) ++ trest'
      /\ tok_size t = Z.of_nat (length (line_toks (Z.of_nat (length dpre')) (g_lines g)))
      /\ data cfg = dpre' ++ mjoin (render_line <$> g_lines g) ++ dtail'
      /\ forall o, lookup_config gs m o
           = match lookup_line (g_lines g) o with Some v => Value v | None => NoOption end.
Proof.
  intros Hm. induction gs as [|g gs IH]; intros tpre toks trest dpre dtail cfg Hok H0 Hc Ht Hd.
  - cbn in Hc. subst toks. by left.
  - apply Forall_cons_iff in Hok as [Hg Hok]. pose proof Hg as [Hn _].
    destruct Hc as (q & toks' & -> & Hc). set (lpos := Z.of_nat (length dpre) + 3 + _) in *.
    unfold render_config in Hd. rewrite fmap_cons, mjoin_cons in Hd. fold (render_config gs) in Hd.
    set (dpre' := dpre ++ 91 :: g_name g ++ [93; 10]).
    assert (lpos = Z.of_nat (length dpre')) as Hlpos
      by (subst lpos dpre'; rewrite length_app; cbn [length]; rewrite length_app; cbn [length]; lia).
    assert (data cfg = dpre' ++ mjoin (render_line <$> g_lines g) ++ render_config gs ++ dtail) as Hd'.
    { rewrite Hd. subst dpre'. unfold render_group. rewrite <- !app_assoc. cbn [app].
      rewrite <- !app_assoc. done. }
    cbn [length find_module]. cbn [app] in Ht. rewrite (token_at_app _ _ _ _ _ Ht eq_refl).
    cbn [mbind out_bind tok_level tok_start tok_end]. rewrite bool_decide_true by done.
    assert (tail_from (data cfg) (Z.of_nat (length dpre) + 1)
            = Ret (g_name g ++ 93 :: 10 :: mjoin (render_line <$> g_lines g) ++ render_config gs ++ dtail)) as ->.
    { replace (data cfg) with ((dpre ++ [91]) ++ (g_name g ++ 93 :: 10 :: mjoin (render_line <$> g_lines g) ++ render_config gs ++ dtail)).
      - apply tail_from_app. rewrite length_app. cbn [length]. lia.
      - rewrite Hd'. subst dpre'. rewrite <- !app_assoc. cbn [app]. by rewrite <- !app_assoc. }
    cbn [mbind out_bind]. replace (_ + _ - _) with (Z.of_nat (length (g_name g))) by lia.
    rewrite strncmp_prefix by (done || set_solver). cbn [mbind out_bind lookup_config].
    destruct (is_prefix (g_name g) m) eqn:Hp.
    + right. exists g, tpre, (Tok (Z.of_nat (length dpre) + 1) q (Z.of_nat (length dpre) + 1 + Z.of_nat (length (g_name g)))
        (Z.of_nat (length (line_toks lpos (g_lines g)))) CONFIG_MANAGER_TOKEN_GROUP), (toks' ++ trest), dpre', (render_config gs ++ dtail).
      rewrite <- Hlpos. split_and!; try done; [set_solver | by rewrite Ht, <- app_assoc].
    + rewrite length_app.
      set (gt := Tok _ _ _ _ _) in *.
      replace (Z.of_nat (length tpre) + 1) with (Z.of_nat (length (tpre ++ [gt]))) by (rewrite length_app; cbn [length]; lia).
      rewrite (find_module_skip _ _ _ (tpre ++ [gt]) (toks' ++ trest))
        by (apply line_toks_option || by rewrite Ht, <- !app_assoc).
      apply (IH ((tpre ++ [gt]) ++ line_toks lpos (g_lines g)) toks' trest (dpre ++ render_group g) dtail cfg); try done.
      * by rewrite length_app, Nat2Z.inj_add.
      * by rewrite Ht, <- !app_assoc.
      * by rewrite Hd, <- !app_assoc.
Qed.

(** Copying the value into the caller's buffer: it needs two spare bytes. *)
Lemma copy_value v k buf :
  Forall value_byte v -> 0 ∈ k ->
  let copy_len := Z.min (Z.of_nat (length v) + 1) (Z.of_nat (length buf)) in
  let r := b ← snprintf_s buf copy_len (v ++ 10 :: k); b ← store b (copy_len + 1) 0; Ret (CONFIG_MANAGER_OK, b) in
  if (length v + 2 <? length buf)%nat
  then exists b, r = Ret (CONFIG_MANAGER_OK, b) /\ c_str b = Ret v /\ length b = length buf
  else r = Undef OobWrite.
Proof.
  intros Hv Hk copy_len r.
  assert (exists j, c_str (v ++ 10 :: k) = Ret (v ++ 10 :: j)) as [j Hc].
  { unfold c_str, has_nul. rewrite bool_decide_true by set_solver. exists (before_nul k). f_equal.
    clear Hk r copy_len. induction Hv as [|c v [Hc _] _ IH]; cbn [app before_nul]; [done|].
    by rewrite (proj2 (Z.eqb_neq c 0) Hc), IH. }
  subst r. unfold snprintf_s. rewrite Hc. cbn [mbind out_bind].
  destruct (Nat.ltb_spec (length v + 2) (length buf)) as [Hs|Hs].
  - subst copy_len. rewrite Z.min_l by lia. zdec.
    replace (Z.to_nat (Z.of_nat (length v) + 1 - 1)) with (length v) by lia. rewrite take_app_length.
    rewrite blit_0 by (rewrite length_app; cbn [length]; lia). cbn [mbind out_bind].
    rewrite length_app. cbn [length]. rewrite <- app_assoc. cbn [app].
    destruct (drop (length v + 1) buf) as [|x [|y rest]] eqn:E;
      [apply (f_equal length) in E; rewrite length_drop in E; cbn in E; lia.. |].
    rewrite (store_at v (0 :: x :: y :: rest) _ 2) by (cbn [length]; lia). cbn [mbind out_bind insert list_insert].
    eexists. split_and!; [reflexivity | |].
    + apply c_str_app. intros H0. rewrite list.Forall_forall in Hv. by destruct (Hv 0 H0).
    + apply (f_equal length) in E. rewrite length_drop in E. rewrite length_app. cbn [length] in *. lia.
  - assert (exists b, (if copy_len =? 0 then Ret buf
      else blit buf 0 (take (Z.to_nat (copy_len - 1)) (v ++ 10 :: j) ++ [0])) = Ret b /\ length b = length buf) as (b & -> & Hb).
    { destruct (Z.eqb_spec copy_len 0); [by exists buf|]. subst copy_len.
      set (src := v ++ 10 :: j).
      set (m := Z.to_nat (Z.min (Z.of_nat (length v) + 1) (Z.of_nat (length buf)) - 1)).
      assert (length (take m src ++ [0%Z]) <= length buf)%nat as Hl
        by (subst m src; rewrite length_app, length_take, length_app; cbn [length]; lia).
      rewrite blit_0 by done. eexists. split; [done|]. rewrite length_app, length_drop. lia. }
    cbn [mbind out_bind]. rewrite store_oob by (subst copy_len; lia). done.
Qed.

Definition config0 : config_manager_t :=
  {| data := repeat 0 CONFIG_MANAGER_DATA_SIZE;
     tokens := repeat (Tok 0 0 0 0 CONFIG_MANAGER_TOKEN_GROUP) CONFIG_MANAGER_MAX_TOKENS;
     tokens_count := 0 |}.

(** Every token but a comment takes two bytes of text. *)
Lemma count_toks_bound gs : (2 * count_toks gs <= length (render_config gs))%nat.
Proof.
  assert (forall ls, 2 * length (line_toks 0 ls) <= length (mjoin (render_line <$> ls)))%nat as Hls.
  { induction ls as [|l ls IH]; [done|]. cbn [line_toks]. rewrite fmap_cons, mjoin_cons, !length_app, (length_line_toks _ 0). destruct l as [name value|text]; cbn [render_line length];
      rewrite ?length_app; cbn [length]; rewrite ?length_app; cbn [length]; lia. }
  induction gs as [|g gs IH]; [done|]. cbn [count_toks]. unfold render_config.
  rewrite fmap_cons, mjoin_cons, length_app. fold (render_config gs). unfold render_group at 1.
  cbn [length]. rewrite length_app. cbn [length]. pose proof (Hls (g_lines g)). lia.
Qed.

(** Strings: initialisation succeeds, and a lookup finds what the file says. *)
Lemma string_lookup gs :
  Forall group_ok gs -> (length (render_config gs) < CONFIG_MANAGER_DATA_SIZE)%nat ->
  exists cfg, config_manager_init (Some (render_config gs)) config0 = Ret (CONFIG_MANAGER_OK, cfg)
    /\ forall m o buf, no_nul m -> no_nul o ->
       let r := config_manager_get_option_string cfg m o buf (Z.of_nat (length buf)) in
       match lookup_config gs m o with
       | NoGroup => r = Ret (CONFIG_MANAGER_GROUP_NOT_FOUND, buf)
       | NoOption => r = Ret (CONFIG_MANAGER_OPTION_NOT_FOUND, buf)
       | Value v =>
           if (length v + 2 <? length buf)%nat
           then exists b, r = Ret (CONFIG_MANAGER_OK, b) /\ c_str b = Ret v /\ length b = length buf
           else r = Undef OobWrite
       end.
Proof.
  intros Hok Hlen. unfold config_manager_init, config_manager_implementation_init_cb.
  assert (length (data config0) = CONFIG_MANAGER_DATA_SIZE) as Hdata by done.
  rewrite read_chunks_whole by (rewrite ?Hdata; lia).
  destruct (scan_config gs [] (tokens config0) 0 0 0) as (toks & rest & group & Hc & Hl & E);
    [done | pose proof (count_toks_bound gs); change (length (tokens config0)) with (2048 / 2)%nat;
            change (2048 / 2)%nat with 1024%nat; unfold CONFIG_MANAGER_DATA_SIZE in Hlen; lia |].
  cbn [app length] in E. change (scan0 (tokens config0)) with (at_line (tokens config0) 0 0 0).
  rewrite E. cbn [mbind out_bind fst snd]. eexists. split; [reflexivity|].
  cbn [sc_tokens sc_count at_line]. set (cfg := {| data := _ |}). intros m o buf Hm Ho.
  set (dtail := drop (length (render_config gs)) (data config0)).
  assert (data cfg = [] ++ render_config gs ++ dtail) as Hd.
  { subst cfg dtail. cbn [data]. rewrite take_0. cbn [app Z.to_nat Nat.add]. done. }
  assert (0 ∈ dtail) as H0.
  { subst dtail. change (data config0) with (repeat 0 CONFIG_MANAGER_DATA_SIZE). rewrite drop_repeat.
    destruct (CONFIG_MANAGER_DATA_SIZE - _)%nat eqn:En; [lia|]. clear. cbn [repeat]. apply elem_of_cons. by left. }
  cbv zeta. unfold config_manager_get_option_string, config_manager_implementation_get_string_cb.
  change (tokens_count cfg) with (0 + Z.of_nat (length toks)). rewrite Z.add_0_l, Nat2Z.id.
  destruct (find_module_spec m gs Hm [] toks rest [] dtail cfg Hok H0 Hc eq_refl Hd)
    as [[E1 E2] | (g & tpre & t & trest & dpre & dt & E1 & [Hgn Hg] & H0' & Ht & Hsz & Hd' & E2)];
    cbn [length] in E1; change (Z.of_nat 0) with 0 in E1; rewrite E1; cbn [mbind out_bind]; [by rewrite E2|].
  rewrite (proj2 (Z.eqb_neq _ (-1))) by lia. rewrite (token_at_app _ _ _ _ _ Ht eq_refl), E2.
  cbn [mbind out_bind]. rewrite Hsz, Nat2Z.id.
  replace (Z.of_nat (length tpre) + 1) with (Z.of_nat (length (tpre ++ [t]))) by (rewrite length_app; cbn [length]; lia).
  pose proof (find_option_spec o (g_lines g) Ho (tpre ++ [t]) trest dpre dt cfg Hg H0') as Hopt.
  rewrite <- app_assoc in Hopt. specialize (Hopt Ht Hd').
  destruct (lookup_line (g_lines g) o) as [v|].
  2:{ by rewrite Hopt. }
  destruct Hopt as (tok & k & -> & Hlv & Htail & Hk & Hv). cbn [mbind out_bind]. rewrite Htail, Hlv.
  assert (Z.of_nat (length v) < 2048) as Hvl.
  { apply tail_from_length in Htail. rewrite Hd, !length_app in Htail. subst dtail.
    rewrite length_drop, Hdata in Htail. cbn [length] in Htail. unfold CONFIG_MANAGER_DATA_SIZE in *. lia. }
  unfold u64. rewrite Z.mod_small by lia. cbn [mbind out_bind].
  exact (copy_value v k buf Hv Hk).
Qed.

(** The integer lookup reads the string into 32 bytes of its own. *)
Lemma int_from_string cfg gs m o old :
  (let r := config_manager_get_option_string cfg m o (repeat 0 32) 32 in
   match lookup_config gs m o with
   | NoGroup => r = Ret (CONFIG_MANAGER_GROUP_NOT_FOUND, repeat 0 32)
   | NoOption => r = Ret (CONFIG_MANAGER_OPTION_NOT_FOUND, repeat 0 32)
   | Value v =>
       if (length v + 2 <? 32)%nat
       then exists b, r = Ret (CONFIG_MANAGER_OK, b) /\ c_str b = Ret v /\ length b = 32%nat
       else r = Undef OobWrite
   end) ->
  config_manager_get_option_int cfg m o old =
    match lookup_config gs m o with
    | NoGroup => Ret (CONFIG_MANAGER_GROUP_NOT_FOUND, old)
    | NoOption => Ret (CONFIG_MANAGER_OPTION_NOT_FOUND, old)
    | Value v => if (length v + 2 <? 32)%nat then x ← atoi v; Ret (CONFIG_MANAGER_OK, x)
                 else Undef OobWrite
    end.
Proof.
  cbv zeta.
  unfold config_manager_get_option_int, config_manager_implementation_get_int_cb, config_manager_get_option_string.
  destruct (lookup_config gs m o) as [| |v]; [by intros -> | by intros -> |].
  destruct (length v + 2 <? 32)%nat; [|by intros ->]. intros (b & -> & Hb & _). run. rewrite Hb. by run.
Qed.

(** C8: reading back a configuration file: for a file of well-formed groups,
    options and comments that fits the data buffer, initialisation succeeds and
    every later lookup gives the value of the first option, in the first
    matching group, whose name is a prefix of the requested one, or the error
    code that says which is missing; the caller's buffer must be three bytes
    longer than the value, otherwise the terminator is written behind it.  An
    integer lookup gives the number the text of the value stands for, and leaves
    the caller's variable alone when there is none. *)
Theorem config_lookup gs :
  Forall group_ok gs -> (length (render_config gs) < CONFIG_MANAGER_DATA_SIZE)%nat ->
  exists cfg, config_manager_init (Some (render_config gs)) config0 = Ret (CONFIG_MANAGER_OK, cfg)
    /\ forall m o buf, no_nul m -> no_nul o ->
       let r := config_manager_get_option_string cfg m o buf (Z.of_nat (length buf)) in
       match lookup_config gs m o with
       | NoGroup => r = Ret (CONFIG_MANAGER_GROUP_NOT_FOUND, buf)
       | NoOption => r = Ret (CONFIG_MANAGER_OPTION_NOT_FOUND, buf)
       | Value v =>
           if (length v + 2 <? length buf)%nat
           then exists b, r = Ret (CONFIG_MANAGER_OK, b) /\ c_str b = Ret v /\ length b = length buf
           else r = Undef OobWrite
       end
       /\ forall old, config_manager_get_option_int cfg m o old =
            match lookup_config gs m o with
            | NoGroup => Ret (CONFIG_MANAGER_GROUP_NOT_FOUND, old)
            | NoOption => Ret (CONFIG_MANAGER_OPTION_NOT_FOUND, old)
            | Value v => if (length v + 2 <? 32)%nat then x ← atoi v; Ret (CONFIG_MANAGER_OK, x)
                         else Undef OobWrite
            end.
Proof.
  intros Hok Hlen. destruct (string_lookup gs Hok Hlen) as (cfg & E & Hs). exists cfg. split; [done|].
  intros m o buf Hm Ho. split; [by apply Hs|]. intros old. exact (int_from_string cfg gs m o old (Hs m o (repeat 0 32) Hm Ho)).
Qed.

(** A number is read from its own decimal text. *)
Lemma number_read_back gs n :
  Forall group_ok gs -> (length (render_config gs) < CONFIG_MANAGER_DATA_SIZE)%nat -> 0 <= n <= int_max ->
  exists cfg, config_manager_init (Some (render_config gs)) config0 = Ret (CONFIG_MANAGER_OK, cfg)
    /\ forall m o old, no_nul m -> no_nul o -> lookup_config gs m o = Value (show_dec n) ->
         config_manager_get_option_int cfg m o old = Ret (CONFIG_MANAGER_OK, n).
Proof.
  intros Hok Hlen Hn. destruct (string_lookup gs Hok Hlen) as (cfg & E & Hs). exists cfg. split; [done|].
  intros m o old Hm Ho Hv. pose proof (int_from_string cfg gs m o old (Hs m o (repeat 0 32) Hm Ho)) as H.
  rewrite Hv in H. pose proof (length_show_dec n). rewrite H.
  rewrite (proj2 (Nat.ltb_lt _ _)) by lia. by rewrite atoi_show_dec by done.
Qed.

(** ** The shipped configuration *)

Module ConfigWitness.
(** A part of src/config.ini. *)
Definition shipped : list cgroup :=
  [ {| g_name := cstr "config";
       g_lines := [ COpt (cstr "client") (cstr "acsri_development");
                    COpt (cstr "device_id") (cstr "123");
                    COpt (cstr "thread_sleep_period") (cstr "1000");
                    COpt (cstr "owner_public_key") (cstr "r81TRDt5DSrvRZ3Ivrw9piJP+5KqgBlMXw5jKOPkSSc=") ] |};
    {| g_name := cstr "network"; g_lines := [ COpt (cstr "tcp_port") (cstr "9998") ] |} ].

Lemma cstr_bytes (P : Z -> Prop) (dec : forall c, Decision (P c)) s :
  bool_decide (Forall P (cstr s)) = true -> Forall P (cstr s).
Proof. apply bool_decide_eq_true_1. Qed.

#[local] Instance name_byte_dec c : Decision (name_byte c).
Proof. unfold name_byte. apply _. Defined.
#[local] Instance value_byte_dec c : Decision (value_byte c).
Proof. unfold value_byte. apply _. Defined.

Lemma shipped_ok : Forall group_ok shipped.
Proof.
  unfold shipped, group_ok. cbn [g_name g_lines].
  repeat first
    [ apply (cstr_bytes _ name_byte_dec); reflexivity
    | apply (cstr_bytes _ value_byte_dec); reflexivity
    | apply Forall_cons_2 | apply Forall_nil_2 | split; cbn [g_name g_lines line_ok]
    | do 2 eexists; split_and!; [reflexivity | done..] ].
Qed.

Lemma init_is_one_scan_witness :
  config_manager_init (Some (render_config shipped)) config0
  = (s ← scan_bytes 0 (render_config shipped) (scan0 (tokens config0));
     Ret (CONFIG_MANAGER_OK,
          {| data := render_config shipped ++ drop (length (render_config shipped)) (data config0);
             tokens := sc_tokens s; tokens_count := sc_count s |}))
  /\ config_manager_init None config0 = Ret (CONFIG_MANAGER_INIT_ERROR, config0).
Proof.
  refine (init_is_one_scan (render_config shipped) config0 eq_refl _).
  apply Nat.leb_le. reflexivity.
Defined.

Lemma config_lookup_witness :
  exists cfg, config_manager_init (Some (render_config shipped)) config0 = Ret (CONFIG_MANAGER_OK, cfg)
    /\ forall m o buf, no_nul m -> no_nul o ->
       let r := config_manager_get_option_string cfg m o buf (Z.of_nat (length buf)) in
       match lookup_config shipped m o with
       | NoGroup => r = Ret (CONFIG_MANAGER_GROUP_NOT_FOUND, buf)
       | NoOption => r = Ret (CONFIG_MANAGER_OPTION_NOT_FOUND, buf)
       | Value v =>
           if (length v + 2 <? length buf)%nat
           then exists b, r = Ret (CONFIG_MANAGER_OK, b) /\ c_str b = Ret v /\ length b = length buf
           else r = Undef OobWrite
       end
       /\ forall old, config_manager_get_option_int cfg m o old =
            match lookup_config shipped m o with
            | NoGroup => Ret (CONFIG_MANAGER_GROUP_NOT_FOUND, old)
            | NoOption => Ret (CONFIG_MANAGER_OPTION_NOT_FOUND, old)
            | Value v => if (length v + 2 <? 32)%nat then x ← atoi v; Ret (CONFIG_MANAGER_OK, x)
                         else Undef OobWrite
            end.
Proof.
  refine (config_lookup shipped shipped_ok _). apply Nat.ltb_lt. reflexivity.
Defined.

(** The public key of the shipped file overruns the 45-byte array of the policy
    loader, which is exactly as long as the key and its terminator. *)
Lemma shipped_key_overruns :
  (r ← config_manager_init (Some (render_config shipped)) config0;
   config_manager_get_option_string r.2 (cstr "config") (cstr "owner_public_key") (repeat 0 45) 45)
  = Undef OobWrite.
Proof. vm_compute. reflexivity. Qed.

(** A blank line is taken for the start of an option, and hides the group or
    the option on the line behind it. *)
Lemma blank_line_hides_group :
  (r ← config_manager_init (Some (render_config shipped ++ 10 :: cstr "[late]" ++ 10 :: cstr "x=1" ++ [10])) config0;
   config_manager_get_option_string r.2 (cstr "late") (cstr "x") (repeat 0 8) 8)
  = Ret (CONFIG_MANAGER_GROUP_NOT_FOUND, repeat 0 8).
Proof. vm_compute. reflexivity. Qed.
End ConfigWitness.
