(* ===== verification/DataDumper.v ===== *)
(** * The data dumper (src/data_dumper/data_dumper.c)

    Modules register a filler that creates their JSON object; at the end of
    every period the tree of all of them is written to a file named after the
    time it was started, and fresh objects are made.  The printer of libfastjson
    and the objects of the modules are parameters; the connection to a server
    is compiled out ([DUMP_TO_CLOUD] is not defined).  Calls from the threads
    come one after the other; [period_over] and [dump_locked] are the halves
    another thread's dump could come in between of. *)

From S2P Require Import Prelude CStd Config.

Definition DATADUMPER_STR_LEN : Z := 128.
Definition DATADUMPER_NAME_LEN : nat := 64.

(** A registered module: its filler, the bytes of its name, and the variable
    that gets the object the filler returns. *)
Record datadumper_filler_node := FillerNode {
  json_filler : option nat;
  name : bytes;
  added_node : option nat }.

Section Dumper.
Context {V : Type}.

Inductive dump_json : Type :=
| DString (s : bytes)
| DInt (z : Z)
| DModule (v : V)
| DObject (members : list (bytes * dump_json)).

(** [fill]: what a module's filler returns. *)
Context (fill : nat -> V) (to_string : list (bytes * dump_json) -> bytes) (cfg : config_manager_t).

(** The static variables: the first node is never allocated. *)
Record dumper := Dumper {
  first_node : datadumper_filler_node;
  more_nodes : list datadumper_filler_node;
  fj_root : option (list (bytes * dump_json));
  json_started : Z;
  device_id : bytes;
  added : gmap nat V;
  ipaddr : bytes;
  ipport : Z }.

Definition dumper0 : dumper :=
  Dumper (FillerNode None (repeat 0 DATADUMPER_NAME_LEN) None) [] None 0
    (repeat 0 (Z.to_nat DATADUMPER_STR_LEN)) ∅ (literal_in (Z.to_nat DATADUMPER_STR_LEN) (cstr "127.0.0.1")) 12345.

Definition set_first (n : datadumper_filler_node) (s : dumper) : dumper :=
  Dumper n (more_nodes s) (fj_root s) (json_started s) (device_id s) (added s) (ipaddr s) (ipport s).
Definition set_more (l : list datadumper_filler_node) (s : dumper) : dumper :=
  Dumper (first_node s) l (fj_root s) (json_started s) (device_id s) (added s) (ipaddr s) (ipport s).
Definition set_root (r : option (list (bytes * dump_json))) (s : dumper) : dumper :=
  Dumper (first_node s) (more_nodes s) r (json_started s) (device_id s) (added s) (ipaddr s) (ipport s).
Definition set_started (t : Z) (s : dumper) : dumper :=
  Dumper (first_node s) (more_nodes s) (fj_root s) t (device_id s) (added s) (ipaddr s) (ipport s).
Definition set_device_id (b : bytes) (s : dumper) : dumper :=
  Dumper (first_node s) (more_nodes s) (fj_root s) (json_started s) b (added s) (ipaddr s) (ipport s).
Definition set_added (m : gmap nat V) (s : dumper) : dumper :=
  Dumper (first_node s) (more_nodes s) (fj_root s) (json_started s) (device_id s) m (ipaddr s) (ipport s).
Definition set_server (a : bytes) (p : Z) (s : dumper) : dumper :=
  Dumper (first_node s) (more_nodes s) (fj_root s) (json_started s) (device_id s) (added s) a p.

Definition datadumper_set_address (new_addr : bytes) (s : dumper) : out dumper :=
  a ← strncpy (ipaddr s) new_addr (length (ipaddr s)); Ret (set_server a (ipport s) s).
Definition datadumper_set_port (new_port : Z) (s : dumper) : dumper := set_server (ipaddr s) new_port s.

(** The first node is used in place; later ones are appended.  A node that was
    just allocated has a name without contents, which [strncpy] fills. *)
Definition datadumper_add_module_init_cb (filler node : nat) (nm : bytes) (s : dumper) : out dumper :=
  match json_filler (first_node s) with
  | Some _ =>
      b ← strncpy (repeat 0 DATADUMPER_NAME_LEN) nm DATADUMPER_NAME_LEN;
      Ret (set_more (more_nodes s ++ [FillerNode (Some filler) b (Some node)]) s)
  | None =>
      b ← strncpy (name (first_node s)) nm DATADUMPER_NAME_LEN;
      Ret (set_first (FillerNode (Some filler) b (Some node)) s)
  end.

(** [fjson_object_object_add] keeps the order and replaces a member of the same
    name. *)
Fixpoint object_add (k : bytes) (v : dump_json) (o : list (bytes * dump_json))
  : list (bytes * dump_json) :=
  match o with
  | [] => [(k, v)]
  | (k', v') :: o => if bool_decide (k' = k) then (k, v) :: o else (k', v') :: object_add k v o
  end.

(** The loop over the nodes behind the first; [data] is the object under way. *)
Fixpoint call_fillers (l : list datadumper_filler_node) (data : list (bytes * dump_json))
    (m : gmap nat V) : out (list (bytes * dump_json) * gmap nat V) :=
  match l with
  | [] => Ret (data, m)
  | n :: l =>
      match json_filler n, added_node n with
      | Some f, Some p =>
          nm ← c_str (name n);
          call_fillers l (object_add nm (DModule (fill f)) data) (<[p := fill f]> m)
      | _, _ => Ret (data, m)
      end
  end.

(** Objects are values here, so the members are added to the root after those
    of [data], in whose place the root holds a reference. *)
Definition call_all_filler_callbacks (s : dumper) : out dumper :=
  match json_filler (first_node s), added_node (first_node s) with
  | Some f, Some p =>
      root ← deref (fj_root s);
      dev ← c_str (device_id s);
      nm ← c_str (name (first_node s));
      r ← call_fillers (more_nodes s)
            (object_add nm (DModule (fill f)) [(cstr "timestamp", DInt (s32 (json_started s)))])
            (<[p := fill f]> (added s));
      Ret (set_added r.2
             (set_root (Some (object_add (cstr "deviceId") (DString dev)
                                (object_add (cstr "data") (DObject r.1) root))) s))
  | _, _ => Ret s
  end.

(** [now]: the time. *)
Definition datadumper_init (now : Z) (s : dumper) : out dumper :=
  let s := set_root (Some []) (set_started now s) in
  a ← config_manager_get_option_string cfg (cstr "json_interface") (cstr "ipaddr") (ipaddr s)
        DATADUMPER_STR_LEN;
  r ← config_manager_get_option_string cfg (cstr "config") (cstr "device_id") (device_id s)
        DATADUMPER_STR_LEN;
  p ← config_manager_get_option_int cfg (cstr "json_interface") (cstr "ipport") (ipport s);
  call_all_filler_callbacks (set_device_id r.2 (set_server a.2 p.2 s)).

Definition json_log : bytes := cstr "./json_log".
Definition log_file (t : Z) : bytes := json_log ++ 47 :: show_dec t ++ cstr ".json".

(** [fjson_object_to_file_ext]: a null object is refused before the file is
    opened, and errors are ignored. *)
Definition to_file (path : bytes) (root : option (list (bytes * dump_json))) (fs : fsys) : fsys :=
  match root with
  | None => fs
  | Some o => match fopen_w fs path with Some fs => fwrite path (to_string o) fs | None => fs end
  end.

(** The two halves of a call: the test of the time, which reads [json_started]
    without the lock, and what is done with it. *)
Definition period_over (now dump_period_s : Z) (s : dumper) : bool := json_started s + dump_period_s - 1 <? now.

Definition dump_locked (now : Z) (st : dumper * fsys) : out (Z * (dumper * fsys)) :=
  let (s, fs) := st in
  let fs := if dir_exists fs json_log then fs else mkdir json_log fs in
  let fs := to_file (log_file (json_started s)) (fj_root s) fs in
  s ← datadumper_init now s;
  Ret (1, (s, fs)).

(** A call that no other thread's dump comes in between of: the time, and
    whether [trylock] gets the lock. *)
Definition datadumper_dump_if_needed (now : Z) (locks : bool) (dump_period_s : Z) (st : dumper * fsys)
  : out (Z * (dumper * fsys)) :=
  if period_over now dump_period_s st.1 && locks then dump_locked now st else Ret (0, st).

(** The first member whose name starts with the given one. *)
Definition datadumper_get (nm : bytes) (s : dumper) : out (option dump_json) :=
  root ← deref (fj_root s);
  Ret (snd <$> List.find (fun e => strncmp_eq e.1 nm (length nm)) root).

(** The walk to the end of the list, which frees nothing: what the local [tmp]
    last pointed to. *)
Fixpoint last_but_one (cur : datadumper_filler_node) (l : list datadumper_filler_node)
    (tmp : option datadumper_filler_node) : option datadumper_filler_node :=
  match l with [] => tmp | n :: l => last_but_one n l (Some cur) end.

Definition datadumper_clear_filler_node_list (s : dumper) : dumper * option datadumper_filler_node :=
  match more_nodes s with [] => (s, None) | n :: l => (s, last_but_one n l None) end.

Definition datadumper_deinit (s : dumper) : dumper := (datadumper_clear_filler_node_list (set_root None s)).1.

(** [socket_send_string], which is compiled only with [DUMP_TO_CLOUD]: the text
    the server receives, if there is a connection.  An address or a socket that
    is not usable makes the connection fail. *)
Definition socket_send_string (connected : bytes -> Z -> bool) (data : bytes) (s : dumper) : out (option bytes) :=
  addr ← c_str (ipaddr s);
  if connected addr (u16 (ipport s)) then d ← c_str data; Ret (Some d) else Ret None.

(** A sequence of calls, from any threads in the order of the lock. *)
Fixpoint dump_calls (calls : list (Z * bool * Z)) (st : dumper * fsys) : out (dumper * fsys) :=
  match calls with
  | [] => Ret st
  | (now, locks, period) :: calls =>
      r ← datadumper_dump_if_needed now locks period st; dump_calls calls r.2
  end.

(** ** The state of a running dumper *)

(** Reading the options works: the configuration has values that fit, or none at
    all.  The address need not be terminated, since nothing reads it. *)
Definition options_readable : Prop :=
  (forall buf, Z.of_nat (length buf) = DATADUMPER_STR_LEN -> has_nul buf = true ->
   exists code b,
     config_manager_get_option_string cfg (cstr "config") (cstr "device_id") buf DATADUMPER_STR_LEN
       = Ret (code, b)
     /\ Z.of_nat (length b) = DATADUMPER_STR_LEN /\ has_nul b = true)
  /\ (forall buf, Z.of_nat (length buf) = DATADUMPER_STR_LEN ->
      exists code b,
        config_manager_get_option_string cfg (cstr "json_interface") (cstr "ipaddr") buf DATADUMPER_STR_LEN
          = Ret (code, b)
        /\ Z.of_nat (length b) = DATADUMPER_STR_LEN)
  /\ (forall v, exists r, config_manager_get_option_int cfg (cstr "json_interface") (cstr "ipport") v = Ret r).

Definition node_ok (n : datadumper_filler_node) : Prop :=
  is_Some (json_filler n) /\ is_Some (added_node n) /\ has_nul (name n) = true.

(** Modules are registered, with terminated names. *)
Definition dumper_ok (s : dumper) : Prop :=
  (json_filler (first_node s) = None \/ node_ok (first_node s)) /\ Forall node_ok (more_nodes s)
  /\ Z.of_nat (length (device_id s)) = DATADUMPER_STR_LEN /\ has_nul (device_id s) = true
  /\ Z.of_nat (length (ipaddr s)) = DATADUMPER_STR_LEN.

Lemma c_str_nul mem : has_nul mem = true -> c_str mem = Ret (before_nul mem).
Proof. intros H. unfold c_str. by rewrite H. Qed.

(** The pointers and members of some nodes. *)
Definition node_member (n : datadumper_filler_node) : bytes * dump_json :=
  (before_nul (name n), DModule (fill (default 0%nat (json_filler n)))).
Definition add_nodes (l : list datadumper_filler_node) (data : list (bytes * dump_json)) :=
  fold_left (fun d n => object_add (node_member n).1 (node_member n).2 d) l data.
Definition node_pointers (l : list datadumper_filler_node) (m : gmap nat V) : gmap nat V :=
  fold_left (fun m n => <[default 0%nat (added_node n) := fill (default 0%nat (json_filler n))]> m) l m.

Lemma call_fillers_ok l data m :
  Forall node_ok l -> call_fillers l data m = Ret (add_nodes l data, node_pointers l m).
Proof.
  intros Hl. revert data m; induction Hl as [|n l ([f Hf] & [q Hq] & Hn) _ IH]; intros data m; [done|].
  cbn [call_fillers]. rewrite Hf, Hq, (c_str_nul _ Hn), ret_bind, IH.
  unfold add_nodes, node_pointers, node_member. cbn [fold_left fst snd]. by rewrite Hf, Hq.
Qed.

(** A member that is not there yet comes last. *)
Lemma object_add_new k v o : k ∉ o.*1 -> object_add k v o = o ++ [(k, v)].
Proof.
  induction o as [|[k' v'] o IH]; [done|]. cbn [object_add fmap list_fmap fst]. intros Hk.
  apply not_elem_of_cons in Hk as [Hne Hk]. rewrite bool_decide_false by congruence. by rewrite IH.
Qed.

Lemma add_nodes_new l data :
  NoDup ((fun n => (node_member n).1) <$> l) ->
  Forall (fun n => (node_member n).1 ∉ data.*1) l ->
  add_nodes l data = data ++ (node_member <$> l).
Proof.
  unfold add_nodes. revert data; induction l as [|n l IH]; intros data Hnd Hf.
  { cbn. by rewrite app_nil_r. }
  cbn [fmap list_fmap fold_left] in *. apply list.NoDup_cons in Hnd as [Hn Hnd].
  apply list.Forall_cons in Hf as [Hf Hfs]. rewrite object_add_new by done. rewrite IH; [|done|].
  - rewrite <- app_assoc. cbn [app]. by destruct (node_member n).
  - rewrite list.Forall_forall in Hfs |- *. intros n' Hn'. rewrite fmap_app, elem_of_app. intros [H|H].
    + by apply (Hfs n').
    + cbn in H. apply list_elem_of_singleton in H. apply Hn. apply list_elem_of_fmap.
      by exists n'.
Qed.

(** The options are read before the callbacks run. *)
Lemma init_reads now s :
  options_readable -> dumper_ok s ->
  exists b a q, datadumper_init now s
      = call_all_filler_callbacks (set_device_id b (set_server a q (set_root (Some []) (set_started now s))))
    /\ Z.of_nat (length b) = DATADUMPER_STR_LEN /\ has_nul b = true
    /\ Z.of_nat (length a) = DATADUMPER_STR_LEN.
Proof.
  intros (Hc & Ha & Hp) (_ & _ & H3 & H4 & H5). unfold datadumper_init.
  destruct (Ha (ipaddr s) H5) as (ca & a & Ea & La). destruct (Hc (device_id s) H3 H4) as (cb & b & Eb & Lb & Hb).
  destruct (Hp (ipport s)) as [q Eq]. cbn [device_id ipaddr ipport set_root set_started].
  rewrite Ea, ret_bind, Eb, ret_bind, Eq, ret_bind. exists b, a, q.2. by split_and!.
Qed.

(** Starting afresh keeps the nodes and leaves a root. *)
Lemma datadumper_init_ok now s :
  options_readable -> dumper_ok s ->
  exists s', datadumper_init now s = Ret s' /\ dumper_ok s' /\ json_started s' = now
    /\ is_Some (fj_root s') /\ first_node s' = first_node s /\ more_nodes s' = more_nodes s.
Proof.
  intros Hc Hs. destruct (init_reads now s Hc Hs) as (b & a & q' & -> & Hb & Hn & Ha). clear Hc.
  destruct Hs as (H1 & H2 & _). unfold call_all_filler_callbacks.
  cbn [first_node set_device_id set_root set_started set_server].
  destruct H1 as [H1 | ([f Hf] & [q Hq] & Hm)].
  { rewrite H1. eexists. split; [reflexivity|]. cbn.
    split; [split; [by left | by split_and!] | by split_and!]. }
  rewrite Hf, Hq. cbn [fj_root set_device_id set_root set_started set_server device_id more_nodes snd]. run_step.
  rewrite (c_str_nul b Hn), (c_str_nul _ Hm). do 2 run_step. rewrite call_fillers_ok by done. run_step.
  eexists. split; [reflexivity|]. cbn. split; [|done].
  split; [right; split_and!; [by exists f | by exists q | done] | by split_and!].
Qed.

(** ** Dumps *)

Definition due_at (now : Z) (locks : bool) (period : Z) (s : dumper) : bool :=
  (json_started s + period - 1 <? now) && locks.

(** A call either does nothing or writes the root and starts afresh. *)
Lemma dump_if_needed_ok now locks period s fs :
  options_readable -> dumper_ok s ->
  exists s', datadumper_dump_if_needed now locks period (s, fs)
    = Ret (if due_at now locks period s
           then (1, (s', to_file (log_file (json_started s)) (fj_root s)
                           (if dir_exists fs json_log then fs else mkdir json_log fs)))
           else (0, (s, fs)))
    /\ dumper_ok s' /\ (due_at now locks period s = true -> json_started s' = now /\ is_Some (fj_root s')).
Proof.
  intros Hc Hs. unfold datadumper_dump_if_needed. cbn [fst]. change (period_over now period s && locks) with (due_at now locks period s).
  destruct (due_at now locks period s).
  - destruct (datadumper_init_ok now s Hc Hs) as (s' & E & Hs' & Ht & Hr & _). unfold dump_locked. rewrite E. run_step.
    by exists s'.
  - by exists s.
Qed.

(** Two threads that both find the period over before either has the lock dump
    one after the other, the second one a tree that has just been begun. *)
Lemma two_tests_two_dumps now period s fs :
  options_readable -> dumper_ok s -> period_over now period s = true ->
  exists s1 fs1 s2 fs2,
    dump_locked now (s, fs) = Ret (1, (s1, fs1)) /\ json_started s1 = now
    /\ dump_locked now (s1, fs1) = Ret (1, (s2, fs2))
    /\ fs2 = to_file (log_file now) (fj_root s1) (if dir_exists fs1 json_log then fs1 else mkdir json_log fs1)
    /\ (1 <= period -> period_over now period s1 = false).
Proof.
  intros Hc Hs _. destruct (datadumper_init_ok now s Hc Hs) as (s1 & E1 & Hs1 & Ht1 & _).
  destruct (datadumper_init_ok now s1 Hc Hs1) as (s2 & E2 & _). unfold dump_locked. rewrite E1, ret_bind.
  do 4 eexists. split; [reflexivity|]. split; [done|]. rewrite E2, ret_bind, Ht1. split; [reflexivity|].
  split; [done|]. intros Hp. unfold period_over. rewrite Ht1. by zdec.
Qed.

Lemma log_file_inj a b :
  0 <= a < 10 ^ 20 -> 0 <= b < 10 ^ 20 -> log_file a = log_file b -> a = b.
Proof.
  intros Ha Hb E. unfold log_file in E. apply app_inj_1 in E as [_ E]; [|done]. injection E as E.
  by apply (show_dec_inj a b (cstr ".json")).
Qed.

Lemma to_file_other path p root fs : p <> path -> files (to_file path root fs) !! p = files fs !! p.
Proof.
  intros Hp. destruct root as [o|]; cbn [to_file]; [|done]. unfold fopen_w.
  destruct (_ || _); [done|]. rewrite fwrite_insert. cbn. by rewrite lookup_insert_ne.
Qed.

Lemma mkdir_keeps_files d fs : files (mkdir d fs) = files fs.
Proof. unfold mkdir. by destruct (_ || _). Qed.

(** Calls leave the files of earlier trees alone. *)
Lemma dump_calls_keep calls s fs t :
  options_readable -> dumper_ok s -> 0 <= t < json_started s -> json_started s < 10 ^ 20 ->
  Forall (fun c => c.1.1 < 10 ^ 20 /\ 1 <= c.2) calls ->
  exists s' fs', dump_calls calls (s, fs) = Ret (s', fs')
    /\ files fs' !! log_file t = files fs !! log_file t /\ dumper_ok s' /\ json_started s <= json_started s'.
Proof.
  intros Hc Hs Ht Hb Hcalls. revert s fs Hs Ht Hb.
  induction Hcalls as [|[[now locks] period] calls [Hnow Hp] _ IH]; intros s fs Hs Ht Hb.
  { exists s, fs. cbn. split_and!; done || lia. }
  cbn [fst snd] in *. cbn [dump_calls].
  destruct (dump_if_needed_ok now locks period s fs Hc Hs) as (s1 & E & Hs1 & H1). rewrite E. run_step.
  destruct (due_at now locks period s) eqn:Ed; cbn [snd]; [|by apply IH].
  destruct (H1 eq_refl) as [Hst _]. unfold due_at in Ed. apply andb_true_iff in Ed as [Ed _].
  apply Z.ltb_lt in Ed. edestruct (IH s1) as (s' & fs' & E' & Hk & Hs' & Hle); [done | lia | lia |].
  exists s', fs'. split; [exact E'|]. split; [|split; [done | lia]]. rewrite Hk, to_file_other.
  - destruct (dir_exists fs json_log); [done|]. by rewrite mkdir_keeps_files.
  - intros Hl. apply log_file_inj in Hl; lia.
Qed.

Lemma dirname_log_file t : 0 <= t -> dirname (log_file t) = json_log.
Proof.
  intros Ht. unfold log_file. apply dirname_app. rewrite elem_of_app. intros [H|H].
  - by apply show_dec_digits in H.
  - revert H. apply (bool_decide_unpack (_ ∉ _)); vm_compute; exact I.
Qed.

(** The file of the current tree can be created. *)
Definition log_writable (fs : fsys) (t : Z) : Prop :=
  log_file t ∉ denied fs
  /\ (json_log ∈ dirs fs \/ (cstr "." ∈ dirs fs /\ json_log ∉ denied fs)).

Lemma to_file_written fs t o :
  0 <= t -> log_writable fs t ->
  files (to_file (log_file t) (Some o) (if dir_exists fs json_log then fs else mkdir json_log fs))
    !! log_file t = Some (to_string o).
Proof.
  intros Ht [Hd Hw]. set (fs1 := if dir_exists fs json_log then fs else mkdir json_log fs).
  assert (is_denied fs1 (log_file t) = false /\ dir_exists fs1 json_log = true) as [E1 E2].
  { assert (is_denied fs (log_file t) = false) as Hd' by by apply bool_decide_false.
    unfold fs1. destruct (dir_exists fs json_log) eqn:E; [done|].
    unfold dir_exists in E. apply orb_false_iff in E as [_ E]. apply bool_decide_eq_false in E.
    destruct Hw as [Hw | [Hdot Hj]]; [done|]. unfold mkdir.
    assert (is_denied fs json_log = false) as -> by by apply bool_decide_false.
    change (dirname json_log) with (cstr "."). unfold dir_exists.
    rewrite (bool_decide_true (cstr "." ∈ dirs fs)) by done. cbn [orb negb denied dirs].
    split; [exact Hd'|]. apply bool_decide_true. set_solver. }
  cbn [to_file]. unfold fopen_w. rewrite E1, dirname_log_file, E2 by done. cbn [orb negb].
  rewrite fwrite_insert. cbn. by rewrite lookup_insert_eq.
Qed.

(** C22: A dump is written once and for all: when a period has passed and the
    lock is free, the current tree is written under its start time and a fresh
    one is begun, and no later call, at whatever times, touches that file
    again. *)
Theorem dump_kept now period s fs o calls :
  options_readable -> dumper_ok s -> fj_root s = Some o ->
  0 <= json_started s -> json_started s + period <= now < 10 ^ 20 -> 1 <= period ->
  log_writable fs (json_started s) ->
  Forall (fun c => c.1.1 < 10 ^ 20 /\ 1 <= c.2) calls ->
  exists s1 fs1 s2 fs2,
    datadumper_dump_if_needed now true period (s, fs) = Ret (1, (s1, fs1))
    /\ files fs1 !! log_file (json_started s) = Some (to_string o)
    /\ json_started s1 = now /\ is_Some (fj_root s1)
    /\ dump_calls calls (s1, fs1) = Ret (s2, fs2)
    /\ files fs2 !! log_file (json_started s) = Some (to_string o).
Proof.
  intros Hc Hs Ho H0 Hnow Hp Hw Hcalls.
  destruct (dump_if_needed_ok now true period s fs Hc Hs) as (s1 & E & Hs1 & H1).
  assert (due_at now true period s = true) as Hdue by (unfold due_at; by zdec).
  rewrite Hdue, Ho in E. destruct (H1 Hdue) as [Ht Hr].
  pose proof (to_file_written fs (json_started s) o H0 Hw) as Hfile.
  set (fs1 := to_file _ _ _) in *. exists s1, fs1.
  destruct (dump_calls_keep calls s1 fs1 (json_started s)) as (s2 & fs2 & E2 & Hk & _ & _);
    [done | done | lia | lia | done |].
  exists s2, fs2. split_and!; try done. by rewrite Hk.
Qed.

(** The tree begun by a dump has one member per registered module, with the
    object its filler has just made, in the order of registration behind the
    time stamp, and the device's identifier. *)
Lemma fresh_tree now s :
  options_readable -> dumper_ok s -> is_Some (json_filler (first_node s)) ->
  NoDup ((fun n => before_nul (name n)) <$> first_node s :: more_nodes s) ->
  cstr "timestamp" ∉ (fun n => before_nul (name n)) <$> first_node s :: more_nodes s ->
  exists s' dev, datadumper_init now s = Ret s'
    /\ fj_root s' = Some [ (cstr "data", DObject ((cstr "timestamp", DInt (s32 now))
                              :: (node_member <$> first_node s :: more_nodes s)));
                           (cstr "deviceId", DString dev) ].
Proof.
  intros Hc Hs Hf0 Hnd Hts. destruct (init_reads now s Hc Hs) as (b & a & q' & -> & Hb & Hn & Ha). clear Hc.
  destruct Hs as (H1 & H2 & _). unfold call_all_filler_callbacks.
  cbn [first_node set_device_id set_root set_started set_server].
  destruct H1 as [H1 | ([f Hf] & [q Hq] & Hm)]; [destruct Hf0; congruence|].
  rewrite Hf, Hq. cbn [fj_root set_device_id set_root set_started set_server device_id more_nodes snd]. run_step.
  rewrite (c_str_nul b Hn), (c_str_nul _ Hm). do 2 run_step. rewrite call_fillers_ok by done. run_step.
  do 2 eexists. split; [reflexivity|]. cbn [fj_root set_added set_root].
  change (object_add (cstr "data") ?v []) with [(cstr "data", v)].
  rewrite (object_add_new (cstr "deviceId")) by (apply (bool_decide_unpack (_ ∉ _)); vm_compute; exact I).
  cbn [app fmap list_fmap] in *. apply not_elem_of_cons in Hts as [Ht0 Hts].
  apply list.NoDup_cons in Hnd as [Hn0 Hnd].
  rewrite (object_add_new (before_nul (name (first_node s)))) by (cbn [fmap list_fmap fst]; set_solver).
  cbn [app]. rewrite add_nodes_new; [|done|].
  - cbn [app]. unfold node_member at 2. by rewrite Hf.
  - apply list.Forall_forall. intros n Hin. cbn [fmap list_fmap fst node_member].
    intros Hx. rewrite !elem_of_cons, elem_of_nil in Hx. destruct Hx as [Hx | [Hx | []]].
    + apply Hts. rewrite <- Hx. apply list_elem_of_fmap. by exists n.
    + apply Hn0. rewrite <- Hx. apply list_elem_of_fmap. by exists n.
Qed.
End Dumper.

(** ** Instances *)

Module DataDumperWitness.
Definition text_of (o : list (bytes * dump_json (V := Z))) : bytes := mjoin (fst <$> o).
Definition cb (f : nat) : Z := Z.of_nat f.
Definition a_node (n : string) (f : nat) : datadumper_filler_node :=
  FillerNode (Some f) (cstr n ++ repeat 0 (64 - String.length n)) (Some f).
(** Two modules, started at time 100; the configuration is empty. *)
Definition two_modules : dumper (V := Z) :=
  Dumper (a_node "can_data" 1) [a_node "gps_data" 2] (Some [(cstr "data", DObject [])]) 100
    (cstr "dev" ++ repeat 0 125) ∅ (repeat 0 128) 0.
Definition cwd : fsys := Fsys ∅ {[cstr "."]} ∅.

Lemma nothing_readable : options_readable config0.
Proof.
  split_and!.
  - intros buf Hl Hn. exists CONFIG_MANAGER_GROUP_NOT_FOUND, buf. by split_and!.
  - intros buf Hl. by exists CONFIG_MANAGER_GROUP_NOT_FOUND, buf.
  - intros v. by exists (CONFIG_MANAGER_GROUP_NOT_FOUND, v).
Qed.

Lemma two_modules_ok : dumper_ok two_modules.
Proof.
  split_and!; [right | | reflexivity | reflexivity | reflexivity]; [by split_and!; eexists |].
  apply list.Forall_cons. split; [by split_and!; eexists | constructor].
Qed.

Lemma dump_kept_witness :
  exists s1 fs1 s2 fs2,
    datadumper_dump_if_needed cb text_of config0 106 true 6 (two_modules, cwd) = Ret (1, (s1, fs1))
    /\ files fs1 !! log_file 100 = Some (text_of [(cstr "data", DObject [])])
    /\ json_started s1 = 106 /\ is_Some (fj_root s1)
    /\ dump_calls cb text_of config0 [(107, true, 6); (90, true, 6); (120, false, 6); (125, true, 6)] (s1, fs1)
       = Ret (s2, fs2)
    /\ files fs2 !! log_file 100 = Some (text_of [(cstr "data", DObject [])]).
Proof.
  refine (dump_kept cb text_of config0 106 6 two_modules cwd [(cstr "data", DObject [])]
            [(107, true, 6); (90, true, 6); (120, false, 6); (125, true, 6)]
            nothing_readable two_modules_ok eq_refl _ _ _ _ _); [cbn; lia | cbn; lia | lia | |].
  - split; [apply (bool_decide_unpack _); vm_compute; exact I|].
    right. split; apply (bool_decide_unpack _); vm_compute; exact I.
  - repeat (apply list.Forall_cons; split; [cbn; lia|]). constructor.
Defined.

Lemma fresh_tree_witness :
  exists s' dev, datadumper_init cb config0 500 two_modules = Ret s'
    /\ fj_root s' = Some [ (cstr "data", DObject ((cstr "timestamp", DInt (s32 500))
                              :: (node_member cb <$> first_node two_modules :: more_nodes two_modules)));
                           (cstr "deviceId", DString dev) ].
Proof.
  refine (fresh_tree cb config0 500 two_modules nothing_readable two_modules_ok _ _ _);
    [by eexists | |]; apply (bool_decide_unpack _); vm_compute; exact I.
Defined.

(** Before the first dump there is no tree: the pointers of the modules are
    null, and looking a member up dereferences the null root. *)
Lemma no_tree_at_start : datadumper_get (V := Z) (cstr "data") dumper0 = Undef NullDeref.
Proof. reflexivity. Qed.

(** Names are matched by prefix. *)
Lemma get_matches_prefix :
  datadumper_get (cstr "d") two_modules = Ret (Some (DObject [])).
Proof. reflexivity. Qed.
End DataDumperWitness.
