(* ===== verification/PolicyUpdater.v ===== *)
(** * The policy updater (src/policy_updater/policy_updater.c)

    Requests to the policy service over TCP.  Each exchange is a value that
    says which system calls succeed and which bytes the service sends for the
    request it reads before it closes the connection. *)

From S2P Require Import Prelude CStd Config.

Definition POLICY_UPDATER_REQ_GET_LIST_SIZE : nat := 256.
Definition POLICY_UPDATER_ADDRESS_SIZE : nat := 127.
Definition POLICY_UPDATER_POL_ID_BUF_LEN : nat := 64.
Definition POLICY_UPDATER_RESPONSE_LEN : nat := 2048.

(** The globals of the file. *)
Record updater := {
  g_policy_updater_address : bytes;
  g_policy_updater_port : Z;
  g_user_address : bytes;
  g_user_port : Z
}.

(** What the system and the service do during one exchange.  [hosts]: the
    addresses the name lookup gives, as text; [reply]: what the service answers
    to a message. *)
Record tcp_exchange := {
  hosts : option (list bytes);
  socket_ok : bool;
  address_ok : bool;
  connect_ok : bool;
  reply : bytes -> bytes
}.

(** The string the function writes: the first address.  Without one it is not
    written, and the result, 1 or none at all, is not looked at. *)
Definition hostname_to_ip (he : option (list bytes)) : option bytes := l ← he; head l.

(** [get_tcp_response]: the reply is read byte by byte to the end, with no
    bound; [rec] is the buffer of [POLICY_UPDATER_RESPONSE_LEN] bytes.  The
    result is the initialised part of the buffer and its length. *)
Definition get_tcp_response (r : bytes) : out (bytes * Z) :=
  if (length r <? POLICY_UPDATER_RESPONSE_LEN)%nat
  then Ret (r ++ [0], Z.of_nat (length r) + 1)
  else Undef OobWrite.

(** [None]: 1 is returned, and neither the buffer nor the length is written.
    A name lookup that failed leaves the address string uninitialised, and
    [inet_pton] reads it. *)
Definition tcp_send (msg : bytes) (e : tcp_exchange) : out (option (bytes * Z)) :=
  if negb (socket_ok e) then Ret None else
  match hostname_to_ip (hosts e) with
  | None => Undef Uninit
  | Some servip =>
      if negb (address_ok e) then Ret None else
      if negb (connect_ok e) then Ret None else
      r ← get_tcp_response (reply e msg); Ret (Some r)
  end.

(** [%.*s] with precision [n]: at most [n] bytes of a string. *)
Definition fmt_prec (n : nat) (mem : bytes) : out bytes :=
  if has_nul (take n mem) || (n <=? length mem)%nat then Ret (before_nul (take n mem)) else Undef OobRead.

(** [snprintf(buf, n, ...)] of the text [s]. *)
Definition snprintf (n : nat) (s : bytes) : bytes := take (n - 1) s.

Definition policy_request_text (id : bytes) : bytes :=
  cstr "{" ++ quoted "cmd" ++ cstr ":" ++ quoted "get_policy" ++ cstr "," ++
  quoted "policyId" ++ cstr ":" ++ [34] ++ id ++ [34] ++ cstr "}".

Definition list_request_text (version device : bytes) : bytes :=
  cstr "{" ++ quoted "cmd" ++ cstr ":" ++ quoted "get_policy_list" ++ cstr "," ++
  quoted "policyStoreId" ++ cstr ":" ++ [34] ++ version ++ [34] ++ cstr "," ++
  quoted "deviceId" ++ cstr ":" ++ [34] ++ device ++ [34] ++ cstr "}".

(** The request that was sent and the buffer [p_policy] afterwards.  A failed
    exchange leaves [response_length] uninitialised, and it is used. *)
Definition policyupdater_get_policy (policy_id p_policy : bytes) (e : tcp_exchange)
    : out (bytes * bytes) :=
  id ← fmt_prec POLICY_UPDATER_POL_ID_BUF_LEN policy_id;
  let policy_request := snprintf POLICY_UPDATER_REQ_GET_LIST_SIZE (policy_request_text id) in
  r ← tcp_send policy_request e;
  match r with
  | None => Undef Uninit
  | Some (response, response_length) =>
      let n := Z.min (response_length + 1) (Z.of_nat POLICY_UPDATER_RESPONSE_LEN - 1) in
      p ← strncpy p_policy (response ++ repeat 0 (POLICY_UPDATER_RESPONSE_LEN - length response)) (Z.to_nat n);
      Ret (policy_request, p)
  end.

(** The request, the list buffer, its length and the new-list flag. *)
Definition policyupdater_get_policy_list (policy_store_version device_id policy_list : bytes)
    (policy_list_len new_policy_list_flag : Z) (e : tcp_exchange) : out (bytes * bytes * Z * Z) :=
  version ← c_str policy_store_version;
  device ← c_str device_id;
  let policy_request := snprintf POLICY_UPDATER_REQ_GET_LIST_SIZE (list_request_text version device) in
  r ← tcp_send policy_request e;
  match r with
  | None => Ret (policy_request, policy_list, policy_list_len, new_policy_list_flag)
  | Some (response, response_length) =>
      l ← strncpy policy_list (response ++ repeat 0 (POLICY_UPDATER_RESPONSE_LEN - length response))
            POLICY_UPDATER_RESPONSE_LEN;
      s ← c_str l;
      l ← (if (POLICY_UPDATER_RESPONSE_LEN <=? length s)%nat
           then store l (Z.of_nat POLICY_UPDATER_RESPONSE_LEN - 1) 0 else Ret l);
      s ← c_str l;
      Ret (policy_request, l, Z.of_nat (length s), 1)
  end.

(** Options that are missing leave the globals as they were. *)
Definition policyupdater_init (cfg : config_manager_t) (u : updater) : out updater :=
  ip ← config_manager_get_option_string cfg (cstr "pap") (cstr "policy_store_service_ip")
         (g_policy_updater_address u) (Z.of_nat POLICY_UPDATER_ADDRESS_SIZE);
  port ← config_manager_get_option_int cfg (cstr "pap") (cstr "policy_store_service_port")
           (g_policy_updater_port u);
  uip ← config_manager_get_option_string cfg (cstr "pap") (cstr "user_ip")
          (g_user_address u) (Z.of_nat POLICY_UPDATER_ADDRESS_SIZE);
  uport ← config_manager_get_option_int cfg (cstr "pap") (cstr "user_port") (g_user_port u);
  Ret {| g_policy_updater_address := ip.2; g_policy_updater_port := port.2;
         g_user_address := uip.2; g_user_port := uport.2 |}.

(** Two functions without a body. *)
Definition policyupdater_start (u : updater) : updater := u.
Definition policyupdater_stop (u : updater) : updater := u.

(** ** Properties *)

(** A successful exchange. *)
Definition served (e : tcp_exchange) : Prop :=
  socket_ok e = true /\ is_Some (hostname_to_ip (hosts e)) /\ address_ok e = true /\ connect_ok e = true.

Lemma served_send msg e :
  served e -> (length (reply e msg) < POLICY_UPDATER_RESPONSE_LEN)%nat ->
  tcp_send msg e = Ret (Some (reply e msg ++ [0], Z.of_nat (length (reply e msg)) + 1)).
Proof.
  intros (Hs & [ip Hh] & Ha & Hc) Hl. unfold tcp_send, get_tcp_response.
  rewrite Hs, Hh, Ha, Hc. by zdec.
Qed.

Lemma fmt_prec_exact n id junk : no_nul id -> length id = n -> fmt_prec n (id ++ junk) = Ret id.
Proof.
  intros H0 <-. unfold fmt_prec. rewrite length_app, take_app_length. zdec.
  by rewrite orb_true_r, before_nul_id.
Qed.

(** The copy of a reply that holds no zero byte. *)
Lemma strncpy_reply p r n :
  no_nul r -> length p = POLICY_UPDATER_RESPONSE_LEN -> (length r < n <= POLICY_UPDATER_RESPONSE_LEN)%nat ->
  strncpy p ((r ++ [0]) ++ repeat 0 (POLICY_UPDATER_RESPONSE_LEN - length (r ++ [0]))) n
  = Ret (r ++ repeat 0 (n - length r) ++ drop n p).
Proof.
  intros H0 Hp Hn. unfold strncpy. set (k := (_ - _)%nat).
  assert (take n ((r ++ [0]) ++ repeat 0 k) = r ++ 0 :: take (n - length r - 1) (repeat 0 k)) as ->.
  { rewrite <- app_assoc, take_app_ge by lia. f_equal. cbn [app].
    replace (n - length r)%nat with (S (n - length r - 1)) by lia. cbn [take]. do 2 f_equal. lia. }
  rewrite before_nul_app by done. unfold has_nul. rewrite bool_decide_true by set_solver. cbn [negb andb].
  rewrite blit_0 by (rewrite length_app, repeat_length; lia).
  rewrite length_app, repeat_length, <- app_assoc. do 4 f_equal. lia.
Qed.

(** The request for a policy is never cut. *)
Lemma policy_request_whole id :
  length id = POLICY_UPDATER_POL_ID_BUF_LEN ->
  snprintf POLICY_UPDATER_REQ_GET_LIST_SIZE (policy_request_text id) = policy_request_text id.
Proof.
  intros Hl. unfold snprintf. apply take_ge. unfold policy_request_text.
  rewrite !length_app, Hl. apply Nat.leb_le. reflexivity.
Qed.

Section Fetch.
Context (id junk p : bytes) (e : tcp_exchange).
Context (Hid : no_nul id) (Hlen : length id = POLICY_UPDATER_POL_ID_BUF_LEN)
  (Hp : length p = POLICY_UPDATER_RESPONSE_LEN).
Local Notation answer := (reply e (policy_request_text id)).

Lemma get_policy_sends :
  policyupdater_get_policy (id ++ junk) p e
  = (r ← tcp_send (policy_request_text id) e;
     match r with
     | None => Undef Uninit
     | Some (response, response_length) =>
         let n := Z.min (response_length + 1) (Z.of_nat POLICY_UPDATER_RESPONSE_LEN - 1) in
         p ← strncpy p (response ++ repeat 0 (POLICY_UPDATER_RESPONSE_LEN - length response)) (Z.to_nat n);
         Ret (policy_request_text id, p)
     end).
Proof.
  unfold policyupdater_get_policy. rewrite fmt_prec_exact by done. cbn [mbind out_bind].
  by rewrite policy_request_whole.
Qed.

Lemma get_policy_served :
  no_nul answer -> served e -> (length answer <= 2046)%nat ->
  exists p', policyupdater_get_policy (id ++ junk) p e = Ret (policy_request_text id, p')
    /\ c_str p' = Ret answer /\ length p' = POLICY_UPDATER_RESPONSE_LEN.
Proof.
  intros Hr Hs Hl. rewrite get_policy_sends.
  rewrite served_send by (done || (unfold POLICY_UPDATER_RESPONSE_LEN; lia)). cbn [mbind out_bind].
  rewrite strncpy_reply by (try done; unfold POLICY_UPDATER_RESPONSE_LEN; lia). cbn [mbind out_bind].
  eexists. split_and!; [done | |].
  - set (n := Z.to_nat _). destruct (n - length answer)%nat as [|k] eqn:E;
      [subst n; unfold POLICY_UPDATER_RESPONSE_LEN in E; lia|]. by apply c_str_app.
  - rewrite !length_app, repeat_length, length_drop, Hp. unfold POLICY_UPDATER_RESPONSE_LEN. lia.
Qed.

(** fetching a policy sends the identifier in a complete JSON request and
    leaves the reply of the service, terminated, in the policy buffer, for
    every reply of at most 2046 bytes without a zero; a longer reply is written
    behind the response buffer from 2048 bytes on, and a failed exchange makes
    the call use an uninitialised length. *)
Lemma get_policy_result :
  no_nul answer ->
  (served e -> (length answer <= 2046)%nat ->
     exists p', policyupdater_get_policy (id ++ junk) p e = Ret (policy_request_text id, p')
       /\ c_str p' = Ret answer /\ length p' = POLICY_UPDATER_RESPONSE_LEN)
  /\ (served e -> (2048 <= length answer)%nat ->
       policyupdater_get_policy (id ++ junk) p e = Undef OobWrite)
  /\ (~ served e -> policyupdater_get_policy (id ++ junk) p e = Undef Uninit).
Proof.
  intros Hr. split_and!.
  - by apply get_policy_served.
  - intros (Hs & [ip Hh] & Ha & Hc) Hl. rewrite get_policy_sends. unfold tcp_send, get_tcp_response.
    rewrite Hs, Hh, Ha, Hc. cbn [negb].
    by rewrite (proj2 (Nat.ltb_ge _ _)) by (unfold POLICY_UPDATER_RESPONSE_LEN; lia).
  - intros Hn. rewrite get_policy_sends. unfold tcp_send. unfold served in Hn.
    destruct (socket_ok e), (hostname_to_ip (hosts e)), (address_ok e), (connect_ok e); try done.
    exfalso. apply Hn. split_and!; done.
Qed.
End Fetch.

(** The list: a reply of at most 2047 bytes is left in the buffer, its length
    and the flag are set; the request carries the version and the device. *)
Lemma get_list_served version device vjunk djunk l len flag e :
  no_nul version -> no_nul device -> (length version + length device <= 190)%nat ->
  length l = POLICY_UPDATER_RESPONSE_LEN -> served e ->
  let answer := reply e (list_request_text version device) in
  no_nul answer -> (length answer <= 2047)%nat ->
  exists l', policyupdater_get_policy_list (version ++ 0 :: vjunk) (device ++ 0 :: djunk) l len flag e
      = Ret (list_request_text version device, l', Z.of_nat (length answer), 1)
    /\ c_str l' = Ret answer /\ length l' = POLICY_UPDATER_RESPONSE_LEN.
Proof.
  intros Hv Hd Hvd Hl Hs answer Hn Ha. unfold policyupdater_get_policy_list.
  rewrite !c_str_app by done. cbn [mbind out_bind].
  assert (snprintf POLICY_UPDATER_REQ_GET_LIST_SIZE (list_request_text version device)
          = list_request_text version device) as ->.
  { unfold snprintf. apply take_ge. unfold list_request_text. rewrite !length_app.
    unfold POLICY_UPDATER_REQ_GET_LIST_SIZE. cbn [length quoted cstr]. cbn. lia. }
  rewrite served_send by (done || (subst answer; unfold POLICY_UPDATER_RESPONSE_LEN; lia)).
  fold answer. cbn [mbind out_bind].
  rewrite strncpy_reply by (try done; unfold POLICY_UPDATER_RESPONSE_LEN; lia). cbn [mbind out_bind].
  rewrite drop_ge, app_nil_r by (rewrite Hl; done).
  destruct (POLICY_UPDATER_RESPONSE_LEN - length answer)%nat as [|k] eqn:E;
    [unfold POLICY_UPDATER_RESPONSE_LEN in E; lia|].
  cbn [repeat]. rewrite c_str_app by done. cbn [mbind out_bind].
  rewrite (proj2 (Nat.leb_gt _ _)) by (unfold POLICY_UPDATER_RESPONSE_LEN in *; lia). cbn [mbind out_bind].
  rewrite c_str_app by done. cbn [mbind out_bind]. eexists. split_and!; [done | by apply c_str_app |].
  rewrite length_app. cbn [length]. rewrite repeat_length. unfold POLICY_UPDATER_RESPONSE_LEN in *. lia.
Qed.

Module UpdaterWitness.
Definition ok_exchange (r : bytes) : tcp_exchange :=
  {| hosts := Some [cstr "10.0.0.1"]; socket_ok := true; address_ok := true; connect_ok := true; reply := fun _ => r |}.

Lemma get_policy_result_witness :
  (served (ok_exchange (cstr "{}")) -> (2 <= 2046)%nat ->
     exists p', policyupdater_get_policy (repeat 97 64 ++ []) (repeat 0 2048) (ok_exchange (cstr "{}"))
                = Ret (policy_request_text (repeat 97 64), p')
       /\ c_str p' = Ret (cstr "{}") /\ length p' = POLICY_UPDATER_RESPONSE_LEN)
  /\ (served (ok_exchange (cstr "{}")) -> (2048 <= 2)%nat ->
       policyupdater_get_policy (repeat 97 64 ++ []) (repeat 0 2048) (ok_exchange (cstr "{}")) = Undef OobWrite)
  /\ (~ served (ok_exchange (cstr "{}")) ->
       policyupdater_get_policy (repeat 97 64 ++ []) (repeat 0 2048) (ok_exchange (cstr "{}")) = Undef Uninit).
Proof.
  refine (get_policy_result (repeat 97 64) [] (repeat 0 2048) (ok_exchange (cstr "{}")) _ _ _ _);
    first [ reflexivity | apply (bool_decide_unpack _); vm_compute; exact I ].
Defined.
End UpdaterWitness.
