(* ===== verification/PolicyLoader.v ===== *)
(** * The policy loader (src/policy_loader/policy_loader.c)

    A state machine that asks the policy service for the list of policies,
    fetches each one, splits it with the JSON tokenizer, decodes its signature
    and hands it to the policy administration point.  The tokenizer (jsmn), the
    JSON helper and the PAP belong to the SDK and are parameters.  The target
    is the 32-bit board, where [int] and [size_t] have the same width. *)

From S2P Require Import Prelude CStd Config Base64 PolicyUpdater.

(** ** The interfaces *)

Record jsmntok_t := { tk_type : Z; tk_start : Z; tk_end : Z }.

Class LoaderSdk := {
  JSMN_OBJECT : Z;
  (** the result [r] and the token array after the call *)
  jsmn_parse : bytes -> list jsmntok_t -> Z * list jsmntok_t;
  (** the parser state of the JSON helper *)
  jhelper : Type;
  jsonhelper_parser_init : bytes -> jhelper -> Z * jhelper;
  jsonhelper_get_value : bytes -> Z -> bytes -> jhelper -> Z;
  jsonhelper_get_token_type : Z -> jhelper -> Z;
  jsonhelper_get_token_start : Z -> jhelper -> Z;
  jsonhelper_array_size : Z -> jhelper -> Z;
  pap_state : Type;
  (** the signed policy, its length, the owner's key *)
  pap_add_policy : bytes -> Z -> bytes -> pap_state -> pap_state
}.

(** ** Constants *)

Definition POLICY_LOADER_ERROR : Z := 0.
Definition POLICY_LOADER_INIT : Z := 1.
Definition POLICY_LOADER_GET_PL : Z := 2.
Definition POLICY_LOADER_GET_PL_DONE : Z := 3.
Definition POLICY_LOADER_GET_PSS : Z := 4.

Definition POLICY_LOADER_TOK_NUM : nat := 256.
Definition POLICY_LOADER_STR_LEN : nat := 67.
Definition POLICY_LOADER_POL_FULLY_RETRIEVED : Z := 2.
Definition POLICY_LOADER_ARRAY_TOK_IDX : Z := 2.
Definition POLICY_LOADER_MAX_GET_TRY : Z := 3.
Definition POLICY_LOADER_PUBLIC_KEY_LEN : nat := 32.
Definition POLICY_LOADER_PUBLIC_KEY_B64_LEN : nat := 44.
Definition POLICY_LOADER_SIGNATURE_LEN : nat := 64.
Definition POLICY_LOADER_POL_RESPONSE_TYPE_ARRAY : Z := 2.
Definition POLICY_LOADER_POL_RESPONSE_TYPE_STRING : Z := 3.

(** A heap pointer as its owner sees it. *)
Inductive heap_ptr := Null | Owned (block : bytes) | Dangling.

(** [if (p != NULL) free(p);] leaves the pointer itself alone. *)
Definition free_if (p : heap_ptr) : out heap_ptr :=
  match p with
  | Null => Ret Null
  | Owned _ => Ret Dangling
  | Dangling => Undef DoubleFree
  end.

Section Loader.
Context `{LoaderSdk}.

(** The globals of the file, and the states of the modules it calls. *)
Record loader := {
  g_policy_list : bytes;
  g_policy_list_len : Z;
  g_new_policy_list : Z;
  g_policy : bytes;
  g_owner_public_key : bytes;
  g_policy_store_version : bytes;
  g_device_id : bytes;
  num_of_policies : Z;
  g_fsm_try_counter : Z;
  g_policy_updater_fsm_state : Z;
  jsmn_tokens : list jsmntok_t;
  helper : jhelper;
  pap : pap_state
}.

Definition set_list (l : bytes) (len flag : Z) (s : loader) : loader :=
  {| g_policy_list := l; g_policy_list_len := len; g_new_policy_list := flag; g_policy := g_policy s;
     g_owner_public_key := g_owner_public_key s; g_policy_store_version := g_policy_store_version s;
     g_device_id := g_device_id s; num_of_policies := num_of_policies s;
     g_fsm_try_counter := g_fsm_try_counter s;
     g_policy_updater_fsm_state := g_policy_updater_fsm_state s;
     jsmn_tokens := jsmn_tokens s; helper := helper s; pap := pap s |}.

Definition set_policy (p : bytes) (toks : list jsmntok_t) (s : loader) : loader :=
  {| g_policy_list := g_policy_list s; g_policy_list_len := g_policy_list_len s;
     g_new_policy_list := g_new_policy_list s; g_policy := p;
     g_owner_public_key := g_owner_public_key s; g_policy_store_version := g_policy_store_version s;
     g_device_id := g_device_id s; num_of_policies := num_of_policies s;
     g_fsm_try_counter := g_fsm_try_counter s;
     g_policy_updater_fsm_state := g_policy_updater_fsm_state s;
     jsmn_tokens := toks; helper := helper s; pap := pap s |}.

Definition set_pap (n : Z) (q : pap_state) (s : loader) : loader :=
  {| g_policy_list := g_policy_list s; g_policy_list_len := g_policy_list_len s;
     g_new_policy_list := g_new_policy_list s; g_policy := g_policy s;
     g_owner_public_key := g_owner_public_key s; g_policy_store_version := g_policy_store_version s;
     g_device_id := g_device_id s; num_of_policies := n;
     g_fsm_try_counter := g_fsm_try_counter s;
     g_policy_updater_fsm_state := g_policy_updater_fsm_state s;
     jsmn_tokens := jsmn_tokens s; helper := helper s; pap := q |}.

Definition set_service (n : Z) (version : bytes) (h : jhelper) (s : loader) : loader :=
  {| g_policy_list := g_policy_list s; g_policy_list_len := g_policy_list_len s;
     g_new_policy_list := g_new_policy_list s; g_policy := g_policy s;
     g_owner_public_key := g_owner_public_key s; g_policy_store_version := version;
     g_device_id := g_device_id s; num_of_policies := n;
     g_fsm_try_counter := g_fsm_try_counter s;
     g_policy_updater_fsm_state := g_policy_updater_fsm_state s;
     jsmn_tokens := jsmn_tokens s; helper := h; pap := pap s |}.

Definition set_fsm (state tries flag : Z) (s : loader) : loader :=
  {| g_policy_list := g_policy_list s; g_policy_list_len := g_policy_list_len s;
     g_new_policy_list := flag; g_policy := g_policy s;
     g_owner_public_key := g_owner_public_key s; g_policy_store_version := g_policy_store_version s;
     g_device_id := g_device_id s; num_of_policies := num_of_policies s;
     g_fsm_try_counter := tries; g_policy_updater_fsm_state := state;
     jsmn_tokens := jsmn_tokens s; helper := helper s; pap := pap s |}.

(** ** Splitting a policy document *)

Definition token (t : list jsmntok_t) (i : nat) : out jsmntok_t :=
  from_option Ret (Undef OobRead) (t !! i).

(** [memcmp(p_policy + t.start, key, strlen(key)) == 0 && t.end - t.start == strlen(key)] *)
Definition token_is (p_policy key : bytes) (t : jsmntok_t) : out bool :=
  text ← slice (tk_start t) (Z.of_nat (length key)) p_policy;
  Ret (bool_decide (text = key) && (tk_end t - tk_start t =? Z.of_nat (length key))).

(** The search loops: the first of [n] tokens from [i] that is the key. *)
Fixpoint find_key (n i : nat) (p_policy key : bytes) (t : list jsmntok_t) : out (option nat) :=
  match n with
  | O => Ret None
  | S n =>
      ti ← token t i;
      same ← token_is p_policy key ti;
      if (same : bool) then Ret (Some i) else find_key n (S i) p_policy key t
  end.

(** The text of the token behind the key, in a fresh terminated block. *)
Definition copy_value (p_policy : bytes) (t : list jsmntok_t) (i : nat) : out (bytes * Z) :=
  ti ← token t (S i);
  let len := tk_end ti - tk_start ti in
  text ← slice (tk_start ti) len p_policy;
  Ret (text ++ [0], len).

(** The result, the buffer assigned to [*signed_policy_buff] with its length
    when one is, and the token array. *)
Definition parse_policy_struct (p_policy : bytes) (t : list jsmntok_t)
    : out (Z * option (bytes * Z) * list jsmntok_t) :=
  s ← c_str p_policy;
  let '(r, t) := jsmn_parse s t in
  if r <? 0 then Ret (0, None, t) else
  if r <? 1 then Ret (0, None, t) else
  t0 ← token t 0;
  if negb (tk_type t0 =? JSMN_OBJECT) then Ret (0, None, t) else
  t1 ← token t 1;
  e ← slice (tk_start t1) 5 p_policy;
  if bool_decide (e = cstr "error") then Ret (0, None, t) else
  k ← find_key (Z.to_nat r) 0 p_policy (cstr "signature") t;
  sig ← match k with
        | None => Ret (true, repeat 0 POLICY_LOADER_SIGNATURE_LEN, 0)
        | Some i =>
            v ← copy_value p_policy t i;
            d ← b64_decode (Some v.1) v.2 (Some (repeat 0 POLICY_LOADER_SIGNATURE_LEN))
                  (Z.of_nat POLICY_LOADER_SIGNATURE_LEN);
            Ret (d.1, default [] d.2, 1)
        end;
  let '(decoded, policy_signature_decoded, policy_retrieved) := sig in
  if negb decoded then Ret (0, None, t) else
  k ← find_key (Z.to_nat r) 0 p_policy (cstr "policy") t;
  pol ← match k with
        | None => Ret (None, policy_retrieved)
        | Some i => v ← copy_value p_policy t i; Ret (Some v, policy_retrieved + 1)
        end;
  let '(policy, policy_retrieved) := pol in
  if policy_retrieved =? POLICY_LOADER_POL_FULLY_RETRIEVED then
    v ← deref policy;
    let policy_len := v.2 in
    Ret (1, Some (policy_signature_decoded ++ take (Z.to_nat policy_len) v.1 ++ [0],
                  Z.of_nat POLICY_LOADER_SIGNATURE_LEN + policy_len + 1), t)
  else Ret (0, None, t).

(** ** The list of policies *)

Definition parse_policy_service_list (s : loader) : out loader :=
  list ← c_str (g_policy_list s);
  let '(policy_list, h) := jsonhelper_parser_init list (helper s) in
  let s := set_service (num_of_policies s) (g_policy_store_version s) h s in
  if 0 <? policy_list then
    let response := jsonhelper_get_value list 0 (cstr "response") h in
    if negb (response =? -1) then
      let response_type := jsonhelper_get_token_type response h in
      if response_type =? POLICY_LOADER_POL_RESPONSE_TYPE_ARRAY then
        let n := jsonhelper_array_size POLICY_LOADER_ARRAY_TOK_IDX h in
        let ps_id := jsonhelper_get_value list 0 (cstr "policyStoreId") h in
        version ← slice (jsonhelper_get_token_start ps_id h) (Z.of_nat POLICY_LOADER_STR_LEN - 1)
                    (g_policy_list s);
        Ret (set_service n (version ++ [0]) h s)
      else if response_type =? POLICY_LOADER_POL_RESPONSE_TYPE_STRING then
        ok ← slice (jsonhelper_get_token_start response h) 2 (g_policy_list s);
        Ret s
      else Ret s
    else Ret s
  else Ret s.

Definition fsm_get_policy_list_done (s : loader) : out (Z * loader) :=
  let tries := g_fsm_try_counter s + 1 in
  if negb (g_new_policy_list s =? 0) then
    s ← parse_policy_service_list (set_fsm (g_policy_updater_fsm_state s) 0 0 s);
    Ret (POLICY_LOADER_GET_PSS, s)
  else if tries <? POLICY_LOADER_MAX_GET_TRY then
    Ret (POLICY_LOADER_GET_PL_DONE,
         set_fsm (g_policy_updater_fsm_state s) tries (g_new_policy_list s) s)
  else Ret (POLICY_LOADER_GET_PL, set_fsm (g_policy_updater_fsm_state s) 0 (g_new_policy_list s) s).

(** ** Fetching the policies

    [net k]: the exchange for the policy with index [k].  The loop runs once
    per policy, so [num_of_policies] turns are enough. *)
Fixpoint receive_loop (fuel : nat) (net : Z -> tcp_exchange) (policy_buff : heap_ptr)
    (owner_public_key : bytes) (s : loader) : out loader :=
  match fuel with
  | O => Ret s
  | S fuel =>
      if 0 <? num_of_policies s then
        let current_policy := num_of_policies s - 1 in
        id ← tail_from (g_policy_list s) (jsonhelper_get_token_start (3 + current_policy) (helper s));
        p ← policyupdater_get_policy id (g_policy s) (net current_policy);
        r ← parse_policy_struct p.2 (jsmn_tokens s);
        let '(status, signed, t) := r in
        let s := set_policy p.2 t s in
        let policy_buff := match signed with Some b => Owned b.1 | None => policy_buff end in
        let policy_len := match signed with Some b => b.2 | None => 0 end in
        if status =? 1 then
          d ← b64_decode (Some (g_owner_public_key s)) (Z.of_nat POLICY_LOADER_PUBLIC_KEY_B64_LEN)
                (Some owner_public_key) (Z.of_nat POLICY_LOADER_PUBLIC_KEY_LEN);
          if negb d.1 then Ret s else
          let owner_public_key := default [] d.2 in
          let block := match policy_buff with Owned b => b | _ => [] end in
          let q := pap_add_policy block policy_len owner_public_key (pap s) in
          policy_buff ← free_if policy_buff;
          receive_loop fuel net policy_buff owner_public_key (set_pap current_policy q s)
        else
          policy_buff ← free_if policy_buff;
          receive_loop fuel net policy_buff owner_public_key (set_pap current_policy (pap s) s)
      else Ret s
  end.

Definition receive_policies (net : Z -> tcp_exchange) (s : loader) : out loader :=
  receive_loop (Z.to_nat (num_of_policies s)) net Null (repeat 0 POLICY_LOADER_PUBLIC_KEY_LEN) s.

(** ** The state machine *)

Definition fsm_init : Z := POLICY_LOADER_GET_PL.

(** The environment of one cycle: the exchange for the list, those for the policies. *)
Record cycle_env := { list_net : tcp_exchange; policy_net : Z -> tcp_exchange }.

Definition cycle_fsm (e : cycle_env) (s : loader) : out loader :=
  let state := g_policy_updater_fsm_state s in
  r ← (if state =? POLICY_LOADER_GET_PL then
         l ← policyupdater_get_policy_list (g_policy_store_version s) (g_device_id s) (g_policy_list s)
               (g_policy_list_len s) (g_new_policy_list s) (list_net e);
         let '(_, list, len, flag) := l in
         Ret (POLICY_LOADER_GET_PL_DONE, set_list list len flag s)
       else if state =? POLICY_LOADER_GET_PL_DONE then
         r ← fsm_get_policy_list_done s;
         s ← receive_policies (policy_net e) r.2;
         Ret (POLICY_LOADER_GET_PL, s)
       else if state =? POLICY_LOADER_INIT then Ret (fsm_init, s)
       else Ret (POLICY_LOADER_ERROR, s));
  let '(next_state, s) := r in
  Ret (set_fsm next_state (g_fsm_try_counter s) (g_new_policy_list s) s).

Fixpoint cycles (es : list cycle_env) (s : loader) : out loader :=
  match es with [] => Ret s | e :: es => s ← cycle_fsm e s; cycles es s end.

End Loader.

(** ** Start and the thread *)

(** [policyloader_start]: the device identifier, the sleep time and the key. *)
Definition policyloader_start (cfg : config_manager_t) (device_id owner_key : bytes) (sleep : Z)
    : out (bytes * Z * bytes) :=
  d ← config_manager_get_option_string cfg (cstr "config") (cstr "device_id") device_id
        (Z.of_nat POLICY_LOADER_STR_LEN);
  st ← config_manager_get_option_int cfg (cstr "config") (cstr "thread_sleep_period") sleep;
  let sleep := if negb (st.1 =? CONFIG_MANAGER_OK) then 1000 else st.2 in
  k ← config_manager_get_option_string cfg (cstr "config") (cstr "owner_public_key") owner_key
        (Z.of_nat POLICY_LOADER_PUBLIC_KEY_B64_LEN + 1);
  Ret (d.2, sleep, k.2).

(** One turn of [policy_loader_thread_function]: the counter and whether the
    state machine is run.  C division truncates. *)
Definition loader_tick (g_task_sleep_time period_counter : Z) : out (Z * bool) :=
  if g_task_sleep_time =? 0 then Undef DivByZero else
  let period := Z.quot 5000000 g_task_sleep_time in
  if int_max <? period_counter + 1 then Undef IntOverflow else
  if (period_counter =? period) || (period =? 0) then Ret (0, true)
  else Ret (period_counter + 1, false).

(** How many of [n] turns run the state machine. *)
Fixpoint loader_ticks (n : nat) (sleep counter : Z) : out Z :=
  match n with
  | O => Ret 0
  | S n =>
      r ← loader_tick sleep counter;
      k ← loader_ticks n sleep r.1;
      Ret (if r.2 : bool then 1 + k else k)
  end.

(** The flag [g_end] and the thread.  The result of [pthread_create] is not looked
    at; [created] says whether there is a new thread. *)
Record loader_life := LoaderLife { g_end : bool; g_thread : thread }.

Definition policyloader_create (created : bool) (l : loader_life) : loader_life :=
  LoaderLife false (if created then Running else g_thread l).

Definition policyloader_stop (l : loader_life) : out (Z * loader_life) :=
  t ← pthread_join (g_thread l); Ret (0, LoaderLife true t).

(** The thread over the turns until [g_end] is set; each brings the environment a
    cycle would meet. *)
Fixpoint thread_turns `{LoaderSdk} (turns : list cycle_env) (sleep counter : Z) (s : loader) : out (Z * loader) :=
  match turns with
  | [] => Ret (counter, s)
  | e :: turns =>
      t ← loader_tick sleep counter;
      s ← (if t.2 : bool then cycle_fsm e s else Ret s);
      thread_turns turns sleep t.1 s
  end.

Definition policy_loader_thread_function `{LoaderSdk} (l : loader_life) (turns : list cycle_env) (sleep : Z)
    (s : loader) : out loader :=
  if g_end l then Ret s else r ← thread_turns turns sleep 0 s; Ret r.2.
