(* ===== verification/PolicyLoaderSpec.v ===== *)
(** * What the policy loader does

    A document whose tokens contain a signature and a policy is split into the
    signed policy; the good documents of a list reach the PAP, the last first,
    and one bad document behind a good one frees a block twice; the state
    machine and its period. *)

From S2P Require Import Prelude CStd Config Base64 PolicyUpdater PolicyLoader.

Section LoaderFacts.
Context `{LoaderSdk}.

(** ** Documents *)

Definition tok_in (doc : bytes) (t : jsmntok_t) : Prop :=
  0 <= tk_start t <= tk_end t /\ tk_end t <= Z.of_nat (length doc).

Definition tok_text (doc : bytes) (t : jsmntok_t) : bytes :=
  take (Z.to_nat (tk_end t - tk_start t)) (drop (Z.to_nat (tk_start t)) doc).

(** The first token with the text [key] is number [i], and the token behind it
    has the text [value]. *)
Definition keyed (doc : bytes) (t : list jsmntok_t) (key : bytes) (i : nat) (value : bytes) : Prop :=
  (exists ti tv, t !! i = Some ti /\ tok_text doc ti = key
     /\ t !! S i = Some tv /\ tok_in doc tv /\ tok_text doc tv = value)
  /\ (forall j tj, (j < i)%nat -> t !! j = Some tj -> tok_text doc tj <> key).

(** [doc] is a policy document with signature [sig] and policy text [pol], for
    whatever the token array held before. *)
Definition document (doc sig pol : bytes) : Prop :=
  no_nul doc /\ (length doc <= 2000)%nat /\ length sig = 64%nat /\ Forall is_byte sig /\
  forall t0, length t0 = POLICY_LOADER_TOK_NUM -> exists r t i j,
    jsmn_parse doc t0 = (r, t) /\ length t = POLICY_LOADER_TOK_NUM
    /\ 2 <= r <= Z.of_nat POLICY_LOADER_TOK_NUM
    /\ (forall k tk, (k < Z.to_nat r)%nat -> t !! k = Some tk -> tok_in doc tk)
    /\ (exists tk, t !! 0%nat = Some tk /\ tk_type tk = JSMN_OBJECT)
    /\ (exists tk, t !! 1%nat = Some tk
          /\ is_prefix (cstr "error") (drop (Z.to_nat (tk_start tk)) doc) = false)
    /\ (i < Z.to_nat r)%nat /\ keyed doc t (cstr "signature") i (b64_encode sig)
    /\ (j < Z.to_nat r)%nat /\ keyed doc t (cstr "policy") j pol.

Lemma slice_tail doc junk off len :
  0 <= off <= Z.of_nat (length doc) -> 0 <= len <= Z.of_nat (length junk) ->
  slice off len (doc ++ junk) = Ret (take (Z.to_nat len) (drop (Z.to_nat off) doc ++ junk)).
Proof.
  intros Ho Hl. unfold slice. rewrite length_app. zdec. by rewrite drop_app_le by lia.
Qed.

(** Comparing memory behind a token: the text of the document, or its terminator. *)
Lemma token_is_text doc junk key t :
  tok_in doc t -> no_nul key -> (length key <= S (length junk))%nat ->
  token_is (doc ++ 0 :: junk) key t = Ret (bool_decide (tok_text doc t = key)).
Proof.
  intros [Hs He] Hk Hl. unfold token_is.
  rewrite slice_tail by (cbn [length]; lia). cbn [mbind out_bind]. rewrite Nat2Z.id. f_equal.
  apply eq_bool_prop_intro. rewrite Is_true_true, andb_true_iff, bool_decide_eq_true, Z.eqb_eq, bool_decide_spec.
  unfold tok_text. set (d := drop (Z.to_nat (tk_start t)) doc).
  assert (Z.of_nat (length d) = Z.of_nat (length doc) - tk_start t) as Hd
    by (subst d; rewrite length_drop; lia).
  split.
  - intros [E El]. rewrite El, Nat2Z.id. by rewrite take_app_le in E by lia.
  - intros E. assert (tk_end t - tk_start t = Z.of_nat (length key)) as El
      by (rewrite <- E, length_take; lia).
    split; [|done]. rewrite take_app_le by lia. by rewrite El, Nat2Z.id in E.
Qed.

Lemma find_key_keyed doc junk t key i value n : forall k,
  no_nul key -> (length key <= S (length junk))%nat ->
  (forall m tm, (m < k + n)%nat -> t !! m = Some tm -> tok_in doc tm) -> (k + n <= length t)%nat ->
  keyed doc t key i value -> (k <= i < k + n)%nat ->
  find_key n k (doc ++ 0 :: junk) key t = Ret (Some i).
Proof.
  induction n as [|n IH]; intros k Hk Hj Hin Hlen Hkey Hi; [lia|]. cbn [find_key].
  destruct (lookup_lt_is_Some_2 t k) as [tk Htk]; [lia|]. unfold token. rewrite Htk. cbn [from_option mbind out_bind].
  rewrite token_is_text by (done || (eapply Hin; [|exact Htk]; lia)). cbn [mbind out_bind].
  destruct Hkey as [(ti & tv & Hti & Et & Hrest) Hfirst].
  destruct (decide (k = i)) as [->|Hne].
  - rewrite Htk in Hti. injection Hti as ->. by rewrite bool_decide_true.
  - rewrite bool_decide_false by (eapply Hfirst; [|exact Htk]; lia).
    apply IH; try done; [intros m tm Hm; apply Hin; lia | lia | split; [by exists ti, tv | done] | lia].
Qed.

Lemma copy_value_keyed doc junk t key i value :
  keyed doc t key i value ->
  copy_value (doc ++ 0 :: junk) t i = Ret (value ++ [0], Z.of_nat (length value)).
Proof.
  intros [(ti & tv & _ & _ & Htv & [Hs He] & <-) _]. unfold copy_value, token. rewrite Htv.
  cbn [from_option mbind out_bind]. unfold slice. rewrite length_app. cbn [length]. zdec. cbn [mbind out_bind].
  rewrite drop_app_le by lia. rewrite take_app_le by (rewrite length_drop; lia).
  do 3 f_equal. unfold tok_text. rewrite length_take, length_drop. lia.
Qed.

Lemma slice_error_text doc junk t :
  tok_in doc t -> (5 <= length junk)%nat -> 0 ∉ cstr "error" ->
  is_prefix (cstr "error") (drop (Z.to_nat (tk_start t)) doc) = false ->
  exists e, slice (tk_start t) 5 (doc ++ 0 :: junk) = Ret e /\ e <> cstr "error".
Proof.
  intros [Hs He] Hj H0 Hp. rewrite slice_tail by (cbn [length]; lia). eexists. split; [reflexivity|].
  change (Z.to_nat 5) with 5%nat. set (d := drop _ doc) in *. intros E.
  destruct (decide (5 <= length d)%nat).
  - rewrite take_app_le in E by done. apply not_true_iff_false in Hp. apply Hp, is_prefix_spec.
    exists (drop 5 d). by rewrite <- E, take_drop.
  - apply H0. rewrite <- E. rewrite take_app_ge by lia.
    replace (5 - length d)%nat with (S (4 - length d)) by lia. cbn [take]. set_solver.
Qed.

Definition signed (sig pol : bytes) : bytes * Z := (sig ++ pol ++ [0], Z.of_nat (64 + length pol + 1)).

Lemma token_lookup t i x : t !! i = Some x -> token t i = Ret x.
Proof. unfold token. by intros ->. Qed.

Lemma parse_document doc sig pol junk t0 :
  document doc sig pol -> (10 <= length junk)%nat -> length t0 = POLICY_LOADER_TOK_NUM ->
  exists t, length t = POLICY_LOADER_TOK_NUM
    /\ parse_policy_struct (doc ++ 0 :: junk) t0 = Ret (1, Some (signed sig pol), t).
Proof.
  intros (Hn & Hlen & Hsl & Hsb & Hdoc) Hj Ht0.
  destruct (Hdoc t0 Ht0) as (r & t & i & j & Hp & Htl & Hr & Hin & (tk0 & Ht0' & Hty) & (tk1 & Ht1 & He)
    & Hi & Hsig & Hj' & Hpol).
  exists t. split; [done|]. unfold parse_policy_struct. rewrite c_str_app by done. cbn [mbind out_bind].
  rewrite Hp. cbn beta iota. zdec. rewrite (token_lookup _ _ _ Ht0'). cbn [mbind out_bind].
  rewrite Hty, Z.eqb_refl. cbn [negb]. rewrite (token_lookup _ _ _ Ht1). cbn [mbind out_bind].
  destruct (slice_error_text doc junk tk1) as (e & -> & Hne);
    [by apply (Hin 1%nat); [lia|] | lia | by apply (bool_decide_unpack _); vm_compute | done |].
  cbn [mbind out_bind]. rewrite bool_decide_false by done.
  rewrite (find_key_keyed doc junk t (cstr "signature") i (b64_encode sig));
    [ | by apply (bool_decide_unpack _); vm_compute | cbn; lia | intros m tm Hm; apply Hin; lia
      | rewrite Htl; lia | done | lia ].
  cbn [mbind out_bind]. rewrite (copy_value_keyed _ _ _ _ _ _ Hsig). cbn [mbind out_bind fst snd].
  pose proof (decode_encoded sig [0] (repeat 0 POLICY_LOADER_SIGNATURE_LEN) Hsb) as Hdec.
  rewrite Hsl in Hdec. change (Z.of_nat 64) with (Z.of_nat POLICY_LOADER_SIGNATURE_LEN) in Hdec.
  rewrite Hdec by done. cbn [mbind out_bind fst snd negb].
  rewrite (find_key_keyed doc junk t (cstr "policy") j pol);
    [ | by apply (bool_decide_unpack _); vm_compute | cbn; lia | intros m tm Hm; apply Hin; lia
      | rewrite Htl; lia | done | lia ].
  cbn [mbind out_bind]. rewrite (copy_value_keyed _ _ _ _ _ _ Hpol). cbn [mbind out_bind fst snd].
  change (1 + 1 =? POLICY_LOADER_POL_FULLY_RETRIEVED) with true. cbn [deref mbind out_bind fst snd].
  unfold signed. rewrite Nat2Z.id, take_app_length. unfold POLICY_LOADER_SIGNATURE_LEN.
  replace (Z.of_nat 64 + Z.of_nat (length pol) + 1) with (Z.of_nat (64 + length pol + 1)) by lia. done.
Qed.

(** a policy document is split into the decoded signature followed by the
    policy text and a terminator, with the length of the whole. *)
Lemma parse_policy_struct_splits doc sig pol junk t0 :
  document doc sig pol -> (10 <= length junk)%nat -> length t0 = POLICY_LOADER_TOK_NUM ->
  exists t, length t = POLICY_LOADER_TOK_NUM
    /\ parse_policy_struct (doc ++ 0 :: junk) t0
       = Ret (1, Some (sig ++ pol ++ [0], Z.of_nat (64 + length pol + 1)), t).
Proof. apply parse_document. Qed.

(** ** Receiving the list *)

(** The identifier of policy [k] lies in the list, and the service answers the
    request for it with [doc]. *)
Definition fetches (s : loader) (net : Z -> tcp_exchange) (k : Z) (doc : bytes) : Prop :=
  served (net k) /\ no_nul doc /\ (length doc <= 2000)%nat
  /\ exists pre id post,
       g_policy_list s = pre ++ id ++ post
       /\ jsonhelper_get_token_start (3 + k) (helper s) = Z.of_nat (length pre)
       /\ reply (net k) (policy_request_text id) = doc
       /\ no_nul id /\ length id = POLICY_UPDATER_POL_ID_BUF_LEN.

(** The buffers of the loader have their declared sizes, and the owner's key is
    the encoding of [key]. *)
Record loader_ok (s : loader) (key : bytes) : Prop := {
  lo_policy : length (g_policy s) = POLICY_UPDATER_RESPONSE_LEN;
  lo_tokens : length (jsmn_tokens s) = POLICY_LOADER_TOK_NUM;
  lo_key : Forall is_byte key /\ length key = POLICY_LOADER_PUBLIC_KEY_LEN;
  lo_owner : exists rest, g_owner_public_key s = b64_encode key ++ rest
}.

Lemma owner_key_decodes s key o :
  loader_ok s key -> length o = POLICY_LOADER_PUBLIC_KEY_LEN ->
  b64_decode (Some (g_owner_public_key s)) (Z.of_nat POLICY_LOADER_PUBLIC_KEY_B64_LEN)
    (Some o) (Z.of_nat POLICY_LOADER_PUBLIC_KEY_LEN) = Ret (true, Some key).
Proof.
  intros [_ _ [Hb Hl] [rest ->]] Ho. rewrite <- Hl in *.
  assert (Z.of_nat POLICY_LOADER_PUBLIC_KEY_B64_LEN = Z.of_nat (length (b64_encode key))) as ->.
  { rewrite length_b64_encode, Hl. reflexivity. }
  by apply decode_encoded.
Qed.

(** The fetch and the parse of one turn. *)
Lemma fetch_one s net k doc :
  fetches s net k doc -> length (g_policy s) = POLICY_UPDATER_RESPONSE_LEN ->
  exists id req junk,
    tail_from (g_policy_list s) (jsonhelper_get_token_start (3 + k) (helper s)) = Ret id
    /\ policyupdater_get_policy id (g_policy s) (net k) = Ret (req, doc ++ 0 :: junk)
    /\ length (doc ++ 0 :: junk) = POLICY_UPDATER_RESPONSE_LEN.
Proof.
  intros (Hs & Hn & Hl & pre & id & post & HL & Hst & <- & Hid & Hidl) Hp.
  destruct (get_policy_served id post (g_policy s) (net k)) as (p' & Hg & Hc & Hl'); try done; [lia|].
  apply c_str_inv in Hc as [junk ->].
  exists (id ++ post), (policy_request_text id), junk. split_and!; [|done|done].
  rewrite HL, Hst. by apply tail_from_app.
Qed.

Definition add_policy (key : bytes) (q : pap_state) (sp : bytes * bytes) : pap_state :=
  let b := signed sp.1 sp.2 in pap_add_policy b.1 b.2 key q.

(** What receiving policies leaves alone. *)
Definition kept (s s' : loader) : Prop :=
  g_policy_list s' = g_policy_list s /\ helper s' = helper s
  /\ g_new_policy_list s' = g_new_policy_list s /\ g_device_id s' = g_device_id s
  /\ g_policy_store_version s' = g_policy_store_version s.

Lemma receive_good fuel net buf o s key k doc sig pol :
  loader_ok s key -> length o = POLICY_LOADER_PUBLIC_KEY_LEN -> num_of_policies s = k + 1 -> 0 <= k ->
  fetches s net k doc -> document doc sig pol ->
  exists s', receive_loop (S fuel) net buf o s = receive_loop fuel net Dangling key s'
    /\ loader_ok s' key /\ num_of_policies s' = k /\ pap s' = add_policy key (pap s) (sig, pol)
    /\ kept s s'.
Proof.
  intros Hok Ho Hn Hk Hf Hd. pose proof Hok as [Hp Ht Hkey How].
  destruct (fetch_one s net k doc Hf Hp) as (id & req & junk & Hid & Hget & Hlen).
  assert (10 <= length junk)%nat as Hj.
  { destruct Hd as (_ & Hdl & _). rewrite length_app in Hlen. cbn [length] in Hlen.
    unfold POLICY_UPDATER_RESPONSE_LEN in Hlen. lia. }
  destruct (parse_document doc sig pol junk (jsmn_tokens s) Hd Hj Ht) as (t & Htl & Hparse).
  cbn [receive_loop]. zdec. rewrite Hn. replace (k + 1 - 1) with k by lia.
  rewrite Hid. cbn [mbind out_bind]. rewrite Hget. cbn [mbind out_bind snd]. rewrite Hparse.
  cbn [mbind out_bind]. change (1 =? 1) with true. cbn iota. cbn [g_owner_public_key set_policy].
  rewrite (owner_key_decodes s key o Hok Ho). cbn [mbind out_bind fst snd negb free_if].
  eexists. split; [reflexivity|]. split_and!; try done.
Qed.

(** A reply the parser refuses without assigning a block. *)
Definition refused (doc : bytes) : Prop :=
  no_nul doc /\ (length doc <= 2000)%nat
  /\ forall junk t0, length (doc ++ 0 :: junk) = POLICY_UPDATER_RESPONSE_LEN ->
       length t0 = POLICY_LOADER_TOK_NUM ->
       exists t, length t = POLICY_LOADER_TOK_NUM
         /\ parse_policy_struct (doc ++ 0 :: junk) t0 = Ret (0, None, t).

(** After a refused reply the block of the last good one is freed again. *)
Lemma receive_bad fuel net buf o s key k doc :
  loader_ok s key -> num_of_policies s = k + 1 -> 0 <= k ->
  fetches s net k doc -> refused doc ->
  exists s', receive_loop (S fuel) net buf o s
      = (buf ← free_if buf; receive_loop fuel net buf o s')
    /\ loader_ok s' key /\ num_of_policies s' = k /\ pap s' = pap s /\ kept s s'.
Proof.
  intros Hok Hn Hk Hf (_ & _ & Hbad). pose proof Hok as [Hp Ht Hkey How].
  destruct (fetch_one s net k doc Hf Hp) as (id & req & junk & Hid & Hget & Hlen).
  destruct (Hbad junk (jsmn_tokens s) Hlen Ht) as (t & Htl & Hparse).
  cbn [receive_loop]. zdec. rewrite Hn. replace (k + 1 - 1) with k by lia.
  rewrite Hid. cbn [mbind out_bind]. rewrite Hget. cbn [mbind out_bind snd]. rewrite Hparse.
  cbn [mbind out_bind]. change (0 =? 1) with false. cbn iota.
  eexists. split; [reflexivity|]. split_and!; done.
Qed.

(** What the service answers for a policy: a signature and a text, or nothing
    the parser accepts. *)
Definition reply_is (doc : bytes) (p : option (bytes * bytes)) : Prop :=
  match p with Some (sig, pol) => document doc sig pol | None => refused doc end.

(** No refused reply comes after a good one. *)
Definition all_good (l : list (option (bytes * bytes))) : bool := forallb (fun p => bool_decide (is_Some p)) l.

Fixpoint orderly (l : list (option (bytes * bytes))) : bool :=
  match l with [] => true | None :: l => orderly l | Some _ :: l => all_good l end.

(** The loop over the list, whose last entry comes first: each good policy goes
    to the PAP with the decoded key of the owner; the first refused reply behind
    a good one frees a block twice. *)
Lemma receive_list net docs : forall s key o buf,
  loader_ok s key -> length o = POLICY_LOADER_PUBLIC_KEY_LEN -> num_of_policies s = Z.of_nat (length docs) ->
  buf = Null \/ buf = Dangling ->
  (forall k doc p, docs !! k = Some (doc, p) -> fetches s net (Z.of_nat k) doc /\ reply_is doc p) ->
  let l := rev (map snd docs) in
  if match buf with Null => orderly l | _ => all_good l end then
    exists s', receive_loop (length docs) net buf o s = Ret s' /\ num_of_policies s' = 0
      /\ pap s' = fold_left (add_policy key) (omap id l) (pap s) /\ loader_ok s' key /\ kept s s'
  else receive_loop (length docs) net buf o s = Undef DoubleFree.
Proof.
  induction docs as [|[doc p] docs IH] using rev_ind; intros s key o buf Hok Ho Hn Hbuf Hdocs.
  { destruct Hbuf as [-> | ->]; cbn; by exists s. }
  rewrite length_app in *. cbn [length] in *. rewrite Nat.add_1_r, map_app, rev_app_distr. cbn [map rev app snd].
  destruct (Hdocs (length docs) doc p) as [Hf Hd]; [by rewrite list_lookup_middle|].
  assert (forall s1, kept s s1 -> forall k d q, docs !! k = Some (d, q) ->
            fetches s1 net (Z.of_nat k) d /\ reply_is d q) as Hrest.
  { intros s1 (HL & Hh & _) k d q Hk. destruct (Hdocs k d q) as [Hf' Hd'];
      [rewrite lookup_app_l; [done | by eapply lookup_lt_Some]|].
    split; [|done]. unfold fetches in *. by rewrite HL, Hh. }
  assert (forall s1 s2, kept s s1 -> kept s1 s2 -> kept s s2) as Htrans by (unfold kept; intuition congruence).
  destruct p as [[sig pol]|]; cbn [reply_is] in Hd.
  - destruct (receive_good (length docs) net buf o s key (Z.of_nat (length docs)) doc sig pol)
      as (s1 & -> & Hok1 & Hn1 & Hq & Hk); try done; [lia.. |].
    specialize (IH s1 key key Dangling Hok1 ltac:(apply Hok1) Hn1 ltac:(by right) (Hrest s1 Hk)). cbn beta iota zeta in IH.
    replace (match buf with Null => orderly _ | _ => all_good _ end) with (all_good (rev (map snd docs)))
      by by destruct Hbuf as [-> | ->].
    destruct (all_good _); [|done]. destruct IH as (s' & -> & Hn' & Hq' & Hok' & Hk').
    exists s'. split_and!; try done; [|by eapply Htrans]. cbn. by rewrite Hq', Hq.
  - destruct (receive_bad (length docs) net buf o s key (Z.of_nat (length docs)) doc)
      as (s1 & -> & Hok1 & Hn1 & Hq & Hk); try done; [lia.. |].
    destruct Hbuf as [-> | ->]; cbn [free_if mbind out_bind]; [|done].
    specialize (IH s1 key o Null Hok1 Ho Hn1 ltac:(by left) (Hrest s1 Hk)). cbn beta iota zeta in IH.
    cbn [orderly]. destruct (orderly _); [|done]. destruct IH as (s' & -> & Hn' & Hq' & Hok' & Hk').
    exists s'. split_and!; try done; [|by eapply Htrans]. cbn. by rewrite Hq', Hq.
Qed.

Lemma receive_policies_list net s key docs :
  loader_ok s key -> num_of_policies s = Z.of_nat (length docs) ->
  (forall k doc p, docs !! k = Some (doc, p) -> fetches s net (Z.of_nat k) doc /\ reply_is doc p) ->
  let l := rev (map snd docs) in
  if orderly l then
    exists s', receive_policies net s = Ret s' /\ num_of_policies s' = 0
      /\ pap s' = fold_left (add_policy key) (omap id l) (pap s) /\ loader_ok s' key /\ kept s s'
  else receive_policies net s = Undef DoubleFree.
Proof.
  intros Hok Hn Hdocs. unfold receive_policies. rewrite Hn, Nat2Z.id.
  apply (receive_list net docs s key _ Null); try done; by left.
Qed.

(** ** The state machine *)

(** from its initial state the machine asks for the list and handles it in
    turn, whatever the service answers: after [n] cycles it is about to ask
    when [n] is odd and about to handle when [n] is even; the states for
    errors, retries and policy fetching are never reached. *)
Lemma cycle_fsm_alternates es s s' :
  es <> [] -> g_policy_updater_fsm_state s = POLICY_LOADER_INIT -> cycles es s = Ret s' ->
  g_policy_updater_fsm_state s'
  = if Nat.odd (length es) then POLICY_LOADER_GET_PL else POLICY_LOADER_GET_PL_DONE.
Proof.
  assert (forall e s s', cycle_fsm e s = Ret s' ->
    g_policy_updater_fsm_state s'
    = if g_policy_updater_fsm_state s =? POLICY_LOADER_GET_PL then POLICY_LOADER_GET_PL_DONE
      else if g_policy_updater_fsm_state s =? POLICY_LOADER_GET_PL_DONE then POLICY_LOADER_GET_PL
      else if g_policy_updater_fsm_state s =? POLICY_LOADER_INIT then POLICY_LOADER_GET_PL
      else POLICY_LOADER_ERROR) as Hstep.
  { clear. intros e s s'. unfold cycle_fsm.
    destruct (_ =? POLICY_LOADER_GET_PL).
    { destruct (policyupdater_get_policy_list _ _ _ _ _ _) as [[[[? ?] ?] ?]|]; [|done]. by intros [= <-]. }
    destruct (_ =? POLICY_LOADER_GET_PL_DONE).
    { destruct (fsm_get_policy_list_done s) as [r|]; [|done]. cbn [mbind out_bind].
      destruct (receive_policies _ _); [|done]. by intros [= <-]. }
    destruct (_ =? POLICY_LOADER_INIT); by intros [= <-]. }
  intros Hne Hs. revert s'. induction es as [|e es IH] using rev_ind; [done|]. intros s'.
  assert (cycles (es ++ [e]) s = (s1 ← cycles es s; cycle_fsm e s1)) as ->.
  { clear. revert s; induction es as [|e0 es IH]; intros s; cbn [app cycles mbind out_bind].
    - by destruct (cycle_fsm e s).
    - destruct (cycle_fsm e0 s); cbn [mbind out_bind]; [apply IH | done]. }
  destruct (cycles es s) as [s1|] eqn:E; [|done]. cbn [mbind out_bind]. intros Hc.
  apply Hstep in Hc. rewrite Hc, length_app. cbn [length]. rewrite Nat.add_1_r, Nat.odd_succ, <- Nat.negb_odd.
  destruct es as [|e0 es]; [cbn in E; injection E as <-; by rewrite Hs|].
  rewrite (IH ltac:(done) s1 eq_refl). by destruct (Nat.odd (length (e0 :: es))).
Qed.
End LoaderFacts.

(** ** The pace of the thread *)

Lemma loader_tick_spec sleep c :
  0 < sleep <= 5000000 -> 0 <= c <= 5000000 / sleep ->
  loader_tick sleep c = Ret (if c =? 5000000 / sleep then (0, true) else (c + 1, false)).
Proof.
  intros Hs Hc. set (q := 5000000 / sleep) in *.
  assert (1 <= q <= 5000000) as Hq.
  { subst q. split; [apply Z.div_le_lower_bound; lia|]. apply Z.div_le_upper_bound; nia. }
  unfold loader_tick. rewrite Z.quot_div_nonneg by lia. fold q.
  unfold int_max. zdec. rewrite orb_false_r. by destruct (c =? q).
Qed.

(** The environments of the turns that run the state machine, every [q + 1]st. *)
Fixpoint picked {A} (q c : Z) (turns : list A) : list A :=
  match turns with
  | [] => []
  | e :: turns => if c =? q then e :: picked q 0 turns else picked q (c + 1) turns
  end.

Lemma length_picked {A} q c (turns : list A) :
  0 <= c <= q -> Z.of_nat (length (picked q c turns)) = (Z.of_nat (length turns) + c) / (q + 1).
Proof.
  revert c; induction turns as [|e turns IH]; intros c Hc; cbn [picked length].
  - by rewrite Z.div_small by lia.
  - destruct (Z.eqb_spec c q) as [->|Hne]; cbn [length].
    + rewrite Nat2Z.inj_succ, IH by lia.
      replace (Z.of_nat (S (length turns)) + q) with (Z.of_nat (length turns) + 0 + 1 * (q + 1)) by lia.
      rewrite Z.div_add by lia. lia.
    + rewrite IH by lia. f_equal. lia.
Qed.

Lemma thread_turns_cycles `{LoaderSdk} turns sleep c s :
  0 < sleep <= 5000000 -> 0 <= c <= 5000000 / sleep ->
  snd <$> thread_turns turns sleep c s = cycles (picked (5000000 / sleep) c turns) s.
Proof.
  intros Hs. revert c s; induction turns as [|e turns IH]; intros c s Hc; [done|].
  cbn [thread_turns picked]. rewrite loader_tick_spec, ret_bind by done.
  destruct (Z.eqb_spec c (5000000 / sleep)) as [Hq|Hq]; cbn [fst snd cycles].
  - destruct (cycle_fsm e s) as [s'|]; [|done]. run. apply IH. lia.
  - run. apply IH. lia.
Qed.

(** With a sleep time of 1 to 5000000 microseconds the thread runs the state
    machine once in [5000000 / sleep + 1] turns, each time in the state the
    last cycle left; a loader that was stopped runs again after the next start. *)
Lemma loader_thread_cycles `{LoaderSdk} l turns sleep s :
  0 < sleep <= 5000000 -> g_thread l = Running ->
  exists stopped es, policyloader_stop l = Ret (0, stopped)
    /\ policy_loader_thread_function stopped turns sleep s = Ret s
    /\ policy_loader_thread_function (policyloader_create true stopped) turns sleep s = cycles es s
    /\ es `sublist_of` turns /\ Z.of_nat (length es) = Z.of_nat (length turns) / (5000000 / sleep + 1).
Proof.
  intros Hs Hl. assert (0 <= 5000000 / sleep) as Hq by (apply Z.div_pos; lia).
  unfold policyloader_stop. rewrite Hl. eexists _, (picked (5000000 / sleep) 0 turns). split; [done|].
  split; [done|]. split; [|split].
  - unfold policy_loader_thread_function. cbn [g_end policyloader_create].
    rewrite <- (thread_turns_cycles turns sleep 0 s) by lia. by destruct (thread_turns turns sleep 0 s).
  - generalize 0. induction turns as [|e turns IH]; intros c; cbn [picked]; [constructor|].
    destruct (c =? 5000000 / sleep); [by constructor | by apply sublist_cons].
  - rewrite length_picked by lia. by rewrite Z.add_0_r.
Qed.

(** The same count for the turns alone. *)
Lemma loader_period n sleep :
  0 < sleep <= 5000000 ->
  loader_ticks n sleep 0 = Ret (Z.of_nat n / (5000000 / sleep + 1)).
Proof.
  intros Hs. set (q := 5000000 / sleep).
  assert (0 <= q) by (apply Z.div_pos; lia).
  assert (forall c, 0 <= c <= q -> loader_ticks n sleep c = Ret (Z.of_nat (length (picked q c (repeat tt n))))) as ->.
  { induction n as [|n IH]; intros c Hc; cbn [loader_ticks repeat picked]; [done|].
    rewrite loader_tick_spec, ret_bind by done. fold q.
    destruct (Z.eqb_spec c q) as [->|Hne]; cbn [fst snd]; rewrite IH, ret_bind by lia; [|done].
    cbn [length]. f_equal. lia. }
  - rewrite length_picked, repeat_length, Z.add_0_r by lia. done.
  - lia.
Qed.

(** ** A concrete SDK *)

Module LoaderWitness.
Definition wsig : bytes := map Z.of_nat (seq 10 64).
Definition wkey : bytes := map Z.of_nat (seq 40 32).
Definition wdoc : bytes :=
  cstr "{" ++ quoted "policy" ++ cstr ":" ++ quoted "x" ++ cstr "," ++ quoted "signature" ++ cstr ":"
  ++ [34] ++ b64_encode wsig ++ [34] ++ cstr "}".
Definition tk (ty s e : Z) : jsmntok_t := {| tk_type := ty; tk_start := s; tk_end := e |}.
Definition wtoks : list jsmntok_t := [tk 1 0 117; tk 3 2 8; tk 3 11 12; tk 3 15 24; tk 3 27 115].

(** A list of two policies and the version of the list. *)
Definition wversion : bytes := repeat 57 66.
Definition wid (k : Z) : bytes := repeat (97 + k) 64.
Definition wlist : bytes :=
  cstr "{" ++ quoted "response" ++ cstr ":[" ++ [34] ++ wid 0 ++ [34; 44; 34] ++ wid 1 ++ [34]
  ++ cstr "]," ++ quoted "policyStoreId" ++ cstr ":" ++ [34] ++ wversion ++ [34] ++ cstr "}".

(** A tokenizer for this document and a JSON helper for this list; of other
    text the helper finds a string as the response, at its start. *)
#[export] Instance toy_sdk : LoaderSdk := {
  JSMN_OBJECT := 1;
  jsmn_parse d t0 := if bool_decide (d = wdoc) then (5, wtoks ++ drop 5 t0) else (-2, t0);
  jhelper := bytes;
  jsonhelper_parser_init d h := (7, d);
  jsonhelper_get_value d _ key _ := if bool_decide (key = cstr "response") then 2 else 6;
  jsonhelper_get_token_type _ h := if bool_decide (h = wlist) then 2 else 3;
  jsonhelper_get_token_start i _ := if i =? 2 then 0 else if i =? 6 then 165 else 14 + 67 * (i - 3);
  jsonhelper_array_size _ h := if bool_decide (h = wlist) then 2 else 0;
  pap_state := list (bytes * Z * bytes);
  pap_add_policy b n k q := q ++ [(b, n, k)]
}.

Lemma lookup_short {A} (l : list A) (P : A -> Prop) :
  Forall P l -> forall j x r, (j < length l)%nat -> (l ++ r) !! j = Some x -> P x.
Proof.
  intros Hl j x r Hj. rewrite lookup_app_l by done. rewrite list.Forall_forall in Hl.
  intros Hx. apply Hl. by eapply list_elem_of_lookup_2.
Qed.

#[local] Instance tok_in_dec d t : Decision (tok_in d t).
Proof. unfold tok_in. apply _. Defined.

Lemma wdoc_keyed key i v r :
  bool_decide (Forall (fun t => tok_text wdoc t <> key) (take i wtoks)) = true -> (S i < 5)%nat ->
  (tok_text wdoc <$> wtoks !! i) = Some key -> (tok_text wdoc <$> wtoks !! S i) = Some v ->
  keyed wdoc (wtoks ++ r) key i v.
Proof.
  intros Hb Hi Hk Hv. apply bool_decide_eq_true_1 in Hb. split.
  - destruct (wtoks !! i) as [ti|] eqn:Ei; [|done]. destruct (wtoks !! S i) as [tv|] eqn:Ev; [|done].
    exists ti, tv. cbn in Hk, Hv. injection Hk as Hk. injection Hv as Hv.
    rewrite !lookup_app_l by (cbn; lia). split_and!; try done.
    assert (Forall (tok_in wdoc) wtoks) as Hall by (apply (bool_decide_unpack _); vm_compute; exact I).
    rewrite list.Forall_forall in Hall. apply Hall. by eapply list_elem_of_lookup_2.
  - intros j tj Hj Htj. rewrite list.Forall_forall in Hb. apply Hb.
    rewrite lookup_app_l in Htj by (cbn; lia). eapply list_elem_of_lookup_2.
    rewrite lookup_take by done. rewrite decide_True by done. exact Htj.
Qed.

Lemma wdoc_document : document wdoc wsig (cstr "x").
Proof.
  split_and!; try by (apply (bool_decide_unpack _); vm_compute).
  intros t0 Ht0. exists 5, (wtoks ++ drop 5 t0), 3%nat, 1%nat. split_and!; try done.
  - rewrite length_app, length_drop, Ht0. reflexivity.
  - intros k t Hk. apply lookup_short; [|exact Hk]. apply (bool_decide_unpack _). vm_compute. exact I.
  - by eexists.
  - by eexists.
  - cbn; lia.
  - apply wdoc_keyed; try reflexivity. cbn. lia.
  - cbn; lia.
  - apply wdoc_keyed; try reflexivity. cbn. lia.
Qed.

Definition wstate (n : Z) : loader := {|
  g_policy_list := repeat 97 2048; g_policy_list_len := 0; g_new_policy_list := 0;
  g_policy := repeat 0 2048; g_owner_public_key := b64_encode wkey ++ [0];
  g_policy_store_version := repeat 0 67; g_device_id := repeat 0 67; num_of_policies := n;
  g_fsm_try_counter := 0; g_policy_updater_fsm_state := 1; jsmn_tokens := repeat (tk 0 0 0) 256;
  helper := [] : jhelper; pap := [] : pap_state |}.

Lemma wstate_ok n : loader_ok (wstate n) wkey.
Proof.
  split; try done.
  - by apply (bool_decide_unpack _); vm_compute.
  - by exists [0].
Qed.

Lemma wfetches n net k doc :
  net k = UpdaterWitness.ok_exchange doc -> no_nul doc -> (length doc <= 2000)%nat -> 0 <= k <= 2 ->
  fetches (wstate n) net k doc.
Proof.
  intros Hnet Hn Hl Hk. unfold fetches. rewrite Hnet. split_and!; try done.
  exists (repeat 97 (14 + 67 * Z.to_nat k)), (repeat 97 64), (repeat 97 (1970 - 67 * Z.to_nat k)).
  split_and!.
  - cbn [g_policy_list wstate]. rewrite <- !repeat_app. f_equal. lia.
  - cbn -[repeat Z.mul]. rewrite repeat_length. zdec. lia.
  - done.
  - by apply (bool_decide_unpack _); vm_compute.
  - done.
Qed.

Lemma wdoc_plain : no_nul wdoc /\ (length wdoc <= 2000)%nat.
Proof. destruct wdoc_document as (? & ? & _). done. Qed.

Lemma parse_policy_struct_splits_witness :
  exists t, length t = POLICY_LOADER_TOK_NUM
    /\ parse_policy_struct (wdoc ++ 0 :: repeat 0 20) (repeat (tk 0 0 0) 256)
       = Ret (1, Some (wsig ++ cstr "x" ++ [0], 66), t).
Proof.
  refine (parse_policy_struct_splits wdoc wsig (cstr "x") (repeat 0 20) (repeat (tk 0 0 0) 256) wdoc_document _ eq_refl).
  cbn; lia.
Defined.

Lemma cycle_fsm_alternates_witness :
  exists s', cycles [{| list_net := UpdaterWitness.ok_exchange (cstr "{}");
                        policy_net := fun _ => UpdaterWitness.ok_exchange [] |}] (wstate 0) = Ret s'
    /\ g_policy_updater_fsm_state s' = POLICY_LOADER_GET_PL.
Proof.
  eexists. split; [reflexivity|].
  refine (cycle_fsm_alternates
    [{| list_net := UpdaterWitness.ok_exchange (cstr "{}"); policy_net := fun _ => UpdaterWitness.ok_exchange [] |}]
    (wstate 0) _ _ eq_refl eq_refl). done.
Defined.

Lemma loader_period_witness : loader_ticks 200 100000 0 = Ret (200 / 51).
Proof. refine (loader_period 200 100000 _). lia. Defined.
End LoaderWitness.
