(* ===== verification/PolicyService.v ===== *)
(** * The policy loader and the policy service, round after round

    One round of the loader is two cycles of its state machine: the request for
    the list, and the handling of the answer with one exchange per policy.  This
    file puts the state machine, the updater, the list, the documents and the
    thread together: what reaches the policy administration point is a function
    of what the service answers. *)

From S2P Require Import Prelude CStd Config Base64 PolicyUpdater PolicyLoader PolicyLoaderSpec.

(** ** What the service answers *)

(** A round in which the service lists policies, each with its identifier and
    either its signature and text or no document, and names the version of the
    list; one in which it has nothing new; and one in which it cannot be reached. *)
Inductive service_round :=
| Listed (policies : list (bytes * option (bytes * bytes))) (version : bytes)
| NoNews
| Unreachable.

(** An exchange that fails before the request is sent. *)
Definition fails (e : tcp_exchange) : Prop :=
  socket_ok e = false
  \/ (is_Some (hostname_to_ip (hosts e)) /\ (address_ok e = false \/ connect_ok e = false)).

Section Rounds.
Context `{LoaderSdk}.

(** What the JSON helper finds in the text of a list, whatever it held before. *)
Definition at_token (L value : bytes) (i : Z) (h : jhelper) : Prop :=
  exists pre post, L = pre ++ value ++ post /\ jsonhelper_get_token_start i h = Z.of_nat (length pre).

Definition lists (L version : bytes) (ids : list bytes) : Prop :=
  no_nul L /\ (length L <= 2047)%nat /\ length version = 66%nat
  /\ Forall (fun id => length id = POLICY_UPDATER_POL_ID_BUF_LEN) ids
  /\ forall h0, exists n h,
       jsonhelper_parser_init L h0 = (n, h) /\ 0 < n
       /\ (let response := jsonhelper_get_value L 0 (cstr "response") h in
           response <> -1 /\ jsonhelper_get_token_type response h = POLICY_LOADER_POL_RESPONSE_TYPE_ARRAY)
       /\ jsonhelper_array_size POLICY_LOADER_ARRAY_TOK_IDX h = Z.of_nat (length ids)
       /\ at_token L version (jsonhelper_get_value L 0 (cstr "policyStoreId") h) h
       /\ forall k id, ids !! k = Some id -> at_token L id (3 + Z.of_nat k) h.

(** A text in which it finds no array of policies. *)
Definition no_list (L : bytes) : Prop :=
  no_nul L /\ (length L <= 2045)%nat
  /\ forall h0, exists n h,
       jsonhelper_parser_init L h0 = (n, h)
       /\ let response := jsonhelper_get_value L 0 (cstr "response") h in
          jsonhelper_get_token_type response h <> POLICY_LOADER_POL_RESPONSE_TYPE_ARRAY
          /\ 0 <= jsonhelper_get_token_start response h <= Z.of_nat (length L).

(** The environments of the two cycles of a round, when the loader asks with
    [version]. *)
Definition answers (device version : bytes) (r : service_round) (e1 e2 : cycle_env) : Prop :=
  let answer := reply (list_net e1) (list_request_text version device) in
  match r with
  | Listed policies version' =>
      served (list_net e1) /\ lists answer version' (map fst policies)
      /\ forall k id p, policies !! k = Some (id, p) ->
           let net := policy_net e2 (Z.of_nat k) in
           served net /\ reply_is (reply net (policy_request_text id)) p
  | NoNews => served (list_net e1) /\ no_list answer
  | Unreachable => fails (list_net e1)
  end.

(** The effect: the version to ask with, and the policies the PAP was given. *)
Definition round_step (key : bytes) (r : service_round) (v : bytes * pap_state) : bytes * pap_state :=
  match r with
  | Listed policies version => (version, fold_left (add_policy key) (omap id (rev (map snd policies))) v.2)
  | _ => v
  end.

(** A round the loader survives: the last of the list comes first, and nothing
    refused comes after a document. *)
Definition survived (r : service_round) : bool :=
  match r with Listed policies _ => orderly (rev (map snd policies)) | _ => true end.

(** Rounds after each other. *)
Fixpoint answered (device version : bytes) (rs : list (service_round * (cycle_env * cycle_env))) : Prop :=
  match rs with
  | [] => True
  | (r, (e1, e2)) :: rs =>
      answers device version r e1 e2
      /\ answered device (match r with Listed _ version' => version' | _ => version end) rs
  end.

(** ** The loader between two rounds *)

Record ready (key device version : bytes) (s : loader) : Prop := {
  rd_ok : loader_ok s key;
  rd_list : length (g_policy_list s) = POLICY_UPDATER_RESPONSE_LEN;
  rd_flag : g_new_policy_list s = 0;
  rd_none : num_of_policies s = 0;
  rd_device : (exists junk, g_device_id s = device ++ 0 :: junk) /\ no_nul device /\ (length device <= 66)%nat;
  rd_version : (exists junk, g_policy_store_version s = version ++ 0 :: junk)
               /\ no_nul version /\ (length version <= 66)%nat
}.

Lemma receive_none net s : num_of_policies s = 0 -> receive_policies net s = Ret s.
Proof. intros E. unfold receive_policies. by rewrite E. Qed.

Lemma fails_send msg e : fails e -> tcp_send msg e = Ret None.
Proof.
  unfold tcp_send. intros [-> | [[ip ->] Hf]]; [done|].
  destruct (socket_ok e); [|done]. cbn [negb]. by destruct Hf as [-> | ->]; [|destruct (address_ok e)].
Qed.

(** The first cycle of a round, by the outcome of the exchange. *)
Lemma ask_fails e s key device version :
  ready key device version s -> g_policy_updater_fsm_state s = POLICY_LOADER_GET_PL ->
  fails (list_net e) ->
  cycle_fsm e s = Ret (set_fsm POLICY_LOADER_GET_PL_DONE (g_fsm_try_counter s) 0 s).
Proof.
  intros [? Hl Hf Hn ((dj & Ed) & Hd & Hdl) ((vj & Ev) & Hv & Hvl)] Hst Hfail. unfold cycle_fsm. rewrite Hst.
  change (POLICY_LOADER_GET_PL =? POLICY_LOADER_GET_PL) with true. cbn iota.
  unfold policyupdater_get_policy_list. rewrite Ed, Ev, !c_str_app, !ret_bind by done.
  rewrite fails_send by done. run. rewrite Hf. by destruct s.
Qed.

Lemma ask_served e s key device version :
  ready key device version s -> g_policy_updater_fsm_state s = POLICY_LOADER_GET_PL ->
  let answer := reply (list_net e) (list_request_text version device) in
  served (list_net e) -> no_nul answer -> (length answer <= 2047)%nat ->
  exists junk, cycle_fsm e s = Ret (set_fsm POLICY_LOADER_GET_PL_DONE (g_fsm_try_counter s) 1
                 (set_list (answer ++ 0 :: junk) (Z.of_nat (length answer)) 1 s))
    /\ length (answer ++ 0 :: junk) = POLICY_UPDATER_RESPONSE_LEN.
Proof.
  intros [? Hl Hf Hn ((dj & Ed) & Hd & Hdl) ((vj & Ev) & Hv & Hvl)] Hst answer Hs Ha Hal. unfold cycle_fsm. rewrite Hst.
  change (POLICY_LOADER_GET_PL =? POLICY_LOADER_GET_PL) with true. cbn iota.
  rewrite Ed, Ev.
  destruct (get_list_served version device vj dj (g_policy_list s) (g_policy_list_len s)
              (g_new_policy_list s) (list_net e)) as (l' & -> & Hc & Hlen); try done; [lia|].
  apply c_str_inv in Hc as [junk ->]. exists junk. split; [|done]. run. by destruct s.
Qed.

(** The second cycle: without an answer, or with one that lists nothing. *)
Lemma ready_set key device version s state tries :
  ready key device version s -> ready key device version (set_fsm state tries 0 s).
Proof. intros [[] ? ? ? ? ?]. by split. Qed.

(** A cycle that handles the list, by what it makes of the answer. *)
Lemma handled e s d s1 :
  g_policy_updater_fsm_state s = POLICY_LOADER_GET_PL_DONE -> fsm_get_policy_list_done s = Ret (d, s1) ->
  cycle_fsm e s
  = (s' ← receive_policies (policy_net e) s1;
     Ret (set_fsm POLICY_LOADER_GET_PL (g_fsm_try_counter s') (g_new_policy_list s') s')).
Proof.
  intros Hst Hd. unfold cycle_fsm. rewrite Hst.
  change (POLICY_LOADER_GET_PL_DONE =? POLICY_LOADER_GET_PL) with false.
  change (POLICY_LOADER_GET_PL_DONE =? POLICY_LOADER_GET_PL_DONE) with true. cbn iota.
  rewrite Hd. run. cbn [snd]. by destruct (receive_policies _ s1).
Qed.

Lemma handle_nothing e s key device version :
  ready key device version s -> g_policy_updater_fsm_state s = POLICY_LOADER_GET_PL_DONE ->
  exists s', cycle_fsm e s = Ret s' /\ ready key device version s'
    /\ g_policy_updater_fsm_state s' = POLICY_LOADER_GET_PL /\ pap s' = pap s.
Proof.
  intros Hr Hst. pose proof (rd_flag _ _ _ _ Hr) as Hf.
  set (tries := g_fsm_try_counter s + 1).
  set (s1 := set_fsm POLICY_LOADER_GET_PL_DONE (if tries <? POLICY_LOADER_MAX_GET_TRY then tries else 0) 0 s).
  assert (exists d, fsm_get_policy_list_done s = Ret (d, s1)) as [d Hd].
  { unfold fsm_get_policy_list_done. rewrite Hf, Hst. fold tries. cbn [Z.eqb negb]. subst s1.
    destruct (tries <? _); eauto. }
  rewrite (handled e s d s1 Hst Hd), receive_none by apply Hr. run.
  eexists. split_and!; [done | by do 2 apply ready_set | done | done].
Qed.

Lemma list_arrived s s1 :
  g_policy_updater_fsm_state s = POLICY_LOADER_GET_PL_DONE -> g_new_policy_list s = 1 ->
  parse_policy_service_list (set_fsm POLICY_LOADER_GET_PL_DONE 0 0 s) = Ret s1 ->
  fsm_get_policy_list_done s = Ret (POLICY_LOADER_GET_PSS, s1).
Proof. intros Hst Hf Hp. unfold fsm_get_policy_list_done. by rewrite Hf, Hst, Hp. Qed.

Lemma parse_no_list L junk t s :
  no_list L -> g_policy_list s = L ++ 0 :: junk -> length (L ++ 0 :: junk) = POLICY_UPDATER_RESPONSE_LEN ->
  exists h, parse_policy_service_list (set_fsm t 0 0 s)
            = Ret (set_service (num_of_policies s) (g_policy_store_version s) h (set_fsm t 0 0 s)).
Proof.
  intros (Hn & Hl & Hh) HL Hlen. destruct (Hh (helper s)) as (n & h & Hp & Hty & Hst).
  exists h. unfold parse_policy_service_list. cbn [g_policy_list set_fsm helper]. rewrite HL, c_str_app by done.
  run. rewrite Hp. cbn beta iota. set (rsp := jsonhelper_get_value L 0 (cstr "response") h) in *.
  destruct (0 <? n); [|done]. destruct (negb (rsp =? -1)); [|done].
  rewrite (proj2 (Z.eqb_neq _ _) Hty).
  destruct (_ =? POLICY_LOADER_POL_RESPONSE_TYPE_STRING); [|done].
  cbn [g_policy_list set_service set_fsm]. rewrite HL, slice_tail; [done | lia |].
  rewrite length_app in Hlen. unfold POLICY_UPDATER_RESPONSE_LEN in Hlen. cbn [length] in *. lia.
Qed.

Lemma parse_lists L version ids junk t s :
  lists L version ids -> g_policy_list s = L ++ 0 :: junk ->
  exists h, parse_policy_service_list (set_fsm t 0 0 s)
            = Ret (set_service (Z.of_nat (length ids)) (version ++ [0]) h (set_fsm t 0 0 s))
    /\ forall k id, ids !! k = Some id -> at_token L id (3 + Z.of_nat k) h.
Proof.
  intros (Hn & Hl & Hv & Hids & Hh) HL.
  destruct (Hh (helper s)) as (n & h & Hp & Hpos & [Hr Hty] & Hsize & (pre & post & EL & Hst) & Hk).
  exists h. split; [|done].
  unfold parse_policy_service_list. cbn [g_policy_list set_fsm helper]. rewrite HL, c_str_app by done.
  run. rewrite Hp. cbn beta iota zeta. zdec. cbn [negb].
  cbn [g_policy_list set_service set_fsm]. rewrite HL, Hst, EL, <- !app_assoc.
  rewrite slice_app by (done || by rewrite Hv). run. by rewrite Hsize.
Qed.

Lemma lists_version L version ids (h : jhelper) : lists L version ids -> no_nul version.
Proof.
  intros (Hn & _ & _ & _ & Hh). destruct (Hh h) as (? & ? & _ & _ & _ & _ & (pre & post & E & _) & _).
  unfold no_nul in *. rewrite E in Hn. set_solver.
Qed.

Lemma handle_no_list e s key device version L junk :
  ready key device version s -> no_list L -> length (L ++ 0 :: junk) = POLICY_UPDATER_RESPONSE_LEN ->
  exists s', cycle_fsm e (set_fsm POLICY_LOADER_GET_PL_DONE (g_fsm_try_counter s) 1
                            (set_list (L ++ 0 :: junk) (Z.of_nat (length L)) 1 s)) = Ret s'
    /\ ready key device version s'
    /\ g_policy_updater_fsm_state s' = POLICY_LOADER_GET_PL /\ pap s' = pap s.
Proof.
  intros [[] Hl Hf Hn Hd Hv] HL Hlen. set (s1 := set_fsm _ _ _ _).
  destruct (parse_no_list L junk POLICY_LOADER_GET_PL_DONE s1 HL eq_refl Hlen) as (h & Hparse).
  rewrite (handled e s1 _ _ eq_refl (list_arrived s1 _ eq_refl eq_refl Hparse)), receive_none by done. run. eexists. split_and!; [done | by split | done | done].
Qed.

Lemma reply_plain doc p : reply_is doc p -> no_nul doc /\ (length doc <= 2000)%nat.
Proof. destruct p as [[sig pol]|]; [intros (? & ? & _) | intros (? & ? & _)]; done. Qed.

Lemma handle_list e s key device version L junk version' policies :
  ready key device version s -> lists L version' (map fst policies) ->
  length (L ++ 0 :: junk) = POLICY_UPDATER_RESPONSE_LEN ->
  (forall k id p, policies !! k = Some (id, p) ->
     let net := policy_net e (Z.of_nat k) in
     served net /\ reply_is (reply net (policy_request_text id)) p) ->
  let handled := cycle_fsm e (set_fsm POLICY_LOADER_GET_PL_DONE (g_fsm_try_counter s) 1
                   (set_list (L ++ 0 :: junk) (Z.of_nat (length L)) 1 s)) in
  let l := rev (map snd policies) in
  if orderly l then
    exists s', handled = Ret s' /\ ready key device version' s'
      /\ g_policy_updater_fsm_state s' = POLICY_LOADER_GET_PL
      /\ pap s' = fold_left (add_policy key) (omap id l) (pap s)
  else handled = Undef DoubleFree.
Proof.
  intros [[Hp Ht Hkey How] Hl Hf Hn Hd Hv] HL Hlen Hdocs. set (s1 := set_fsm _ _ _ _).
  pose proof HL as (Hnul & HLlen & Hvl & Hids & Hh).
  destruct (parse_lists L version' _ junk POLICY_LOADER_GET_PL_DONE s1 HL eq_refl) as (h & Hparse & Hat).
  rewrite length_map in Hparse.
  rewrite (handled e s1 _ _ eq_refl (list_arrived s1 _ eq_refl eq_refl Hparse)). set (s2 := set_service _ _ _ _).
  set (answer k id := reply (policy_net e (Z.of_nat k)) (policy_request_text id)).
  set (docs := imap (fun k p => (answer k p.1, p.2)) policies).
  assert (map snd docs = map snd policies) as Esnd.
  { apply list_eq. intros k. unfold docs. rewrite !list_lookup_fmap, list_lookup_imap. by destruct (policies !! k). }
  assert (forall k doc p, docs !! k = Some (doc, p) ->
            fetches s2 (policy_net e) (Z.of_nat k) doc /\ reply_is doc p) as Hfetch.
  { intros k doc p Hk. unfold docs in Hk. rewrite list_lookup_imap in Hk.
    destruct (policies !! k) as [[id q]|] eqn:E; [|done]. cbn in Hk. injection Hk as <- <-.
    destruct (Hdocs k id q E) as [Hs Hdoc]. split; [|done].
    destruct (reply_plain _ _ Hdoc) as [Hdn Hdl].
    assert (map fst policies !! k = Some id) as Eid by by rewrite list_lookup_fmap, E.
    destruct (Hat k id Eid) as (pre & post & EL & Hst).
    assert (length id = POLICY_UPDATER_POL_ID_BUF_LEN) as Hidl.
    { rewrite list.Forall_forall in Hids. apply Hids. by eapply list_elem_of_lookup_2. }
    split_and!; try done. exists pre, id, (post ++ 0 :: junk). split_and!; try done.
    + change (g_policy_list s2) with (L ++ 0 :: junk). by rewrite EL, <- !app_assoc.
    + unfold no_nul in *. rewrite EL in Hnul. set_solver. }
  pose proof (receive_policies_list (policy_net e) s2 key docs) as Hrec. rewrite Esnd in Hrec.
  specialize (Hrec ltac:(by split) ltac:(by unfold docs; rewrite length_imap) Hfetch). cbv zeta in Hrec |- *.
  destruct (orderly _); [|by rewrite Hrec]. destruct Hrec as (s3 & -> & Hn3 & Hq & Hok & Hkept).
  run. eexists. split_and!; [done | | done | exact Hq].
  destruct Hkept as (K1 & K2 & K3 & K4 & K5).
  split; cbn [g_policy_list g_new_policy_list num_of_policies g_device_id g_policy_store_version set_fsm];
    rewrite ?K1, ?K3, ?K4, ?K5; try done.
  - by destruct Hok; split.
  - split_and!; [by exists [] | by apply (lists_version L version' _ (helper s) HL) | lia].
Qed.

(** A whole round. *)
Lemma round_followed key device version r e1 e2 s :
  ready key device version s -> g_policy_updater_fsm_state s = POLICY_LOADER_GET_PL ->
  answers device version r e1 e2 ->
  if survived r then
    exists s', cycles [e1; e2] s = Ret s'
      /\ g_policy_updater_fsm_state s' = POLICY_LOADER_GET_PL
      /\ let v := round_step key r (version, pap s) in ready key device v.1 s' /\ pap s' = v.2
  else cycles [e1; e2] s = Undef DoubleFree.
Proof.
  intros Hr Hst Ha. cbn [cycles]. unfold answers in Ha.
  destruct r as [policies version'| |]; cbn [round_step fst snd survived].
  - destruct Ha as (Hs & HL & Hdocs). pose proof HL as (Hn & Hl & _).
    destruct (ask_served e1 s key device version Hr Hst Hs Hn Hl) as (junk & -> & Hlen). run.
    pose proof (handle_list e2 s key device version _ junk version' policies Hr HL Hlen Hdocs) as Hh.
    cbv zeta in Hh. destruct (orderly _); [|by rewrite Hh].
    destruct Hh as (s' & -> & Hr' & Hst' & Hq). eauto.
  - destruct Ha as (Hs & HL). pose proof HL as (Hn & Hl & _).
    destruct (ask_served e1 s key device version Hr Hst Hs Hn) as (junk & -> & Hlen); [lia|]. run.
    destruct (handle_no_list e2 s key device version _ junk Hr HL Hlen) as (s' & -> & Hr' & Hst' & Hq). eauto.
  - rewrite (ask_fails e1 s key device version Hr Hst Ha). run.
    destruct (handle_nothing e2 _ key device version (ready_set _ _ _ _ _ (g_fsm_try_counter s) Hr) eq_refl)
      as (s' & -> & Hr' & Hst' & Hq). eauto.
Qed.

Lemma cycles_app es es' s : cycles (es ++ es') s = (s' ← cycles es s; cycles es' s').
Proof.
  revert s; induction es as [|e es IH]; intros s; cbn [app cycles].
  - by rewrite ret_bind.
  - destruct (cycle_fsm e s); cbn [mbind out_bind]; [apply IH | done].
Qed.

Definition both (r : service_round * (cycle_env * cycle_env)) : list cycle_env := [r.2.1; r.2.2].

Lemma rounds_followed key device rs : forall version s,
  ready key device version s -> g_policy_updater_fsm_state s = POLICY_LOADER_GET_PL ->
  answered device version rs ->
  if forallb survived (map fst rs) then
    exists s', cycles (mjoin (map both rs)) s = Ret s'
      /\ let v := fold_left (fun v r => round_step key r v) (map fst rs) (version, pap s) in
         ready key device v.1 s' /\ pap s' = v.2
  else cycles (mjoin (map both rs)) s = Undef DoubleFree.
Proof.
  induction rs as [|[r [e1 e2]] rs IH]; intros version s Hr Hst Ha.
  { exists s. split_and!; done. }
  destruct Ha as [Ha Has]. cbn [map fst mjoin list_join forallb]. rewrite cycles_app. change (both _) with [e1; e2].
  pose proof (round_followed key device version r e1 e2 s Hr Hst Ha) as Hround.
  destruct (survived r); cbn [andb]; [|by rewrite Hround].
  destruct Hround as (s1 & -> & Hst1 & Hr1 & Hq1). run.
  specialize (IH _ s1 Hr1 Hst1 ltac:(by destruct r)).
  destruct (forallb survived _); [|done]. destruct IH as (s' & Hc & Hv).
  exists s'. split; [done|]. rewrite Hq1, <- surjective_pairing in Hv. exact Hv.
Qed.

(** C15: the loader thread follows the policy service: started with a sleep time
    of at most five seconds, it hands to the PAP exactly the signed policies of
    the documents the service lists, round after round, each with the decoded
    key of the owner, the last of a list first; it asks for the list with the
    device and the version of the last list it got, and for every policy with
    its identifier; rounds without news, or in which the service cannot be
    reached, change nothing.  This is so exactly when no list has a policy that
    is refused in front of one that is a document; otherwise a block is freed
    twice. *)
Theorem loader_follows_service key device version rs e0 turns sleep l s :
  0 < sleep <= 5000000 -> g_end l = false ->
  ready key device version s -> g_policy_updater_fsm_state s = POLICY_LOADER_INIT ->
  picked (5000000 / sleep) 0 turns = e0 :: mjoin (map both rs) ->
  answered device version rs ->
  if forallb survived (map fst rs) then
    exists s', policy_loader_thread_function l turns sleep s = Ret s'
      /\ let v := fold_left (fun v r => round_step key r v) (map fst rs) (version, pap s) in
         ready key device v.1 s' /\ pap s' = v.2
  else policy_loader_thread_function l turns sleep s = Undef DoubleFree.
Proof.
  intros Hsl Hl Hr Hst Hturns Ha. assert (0 <= 5000000 / sleep) by (apply Z.div_pos; lia).
  assert (cycles (picked (5000000 / sleep) 0 turns) s
          = cycles (mjoin (map both rs)) (set_fsm POLICY_LOADER_GET_PL (g_fsm_try_counter s) 0 s)) as Hc.
  { rewrite Hturns. cbn [cycles]. unfold cycle_fsm. rewrite Hst.
    change (POLICY_LOADER_INIT =? POLICY_LOADER_GET_PL) with false.
    change (POLICY_LOADER_INIT =? POLICY_LOADER_GET_PL_DONE) with false.
    change (POLICY_LOADER_INIT =? POLICY_LOADER_INIT) with true. cbn iota. rewrite !ret_bind.
    cbn beta iota. by rewrite (rd_flag _ _ _ _ Hr). }
  assert (policy_loader_thread_function l turns sleep s
          = cycles (mjoin (map both rs)) (set_fsm POLICY_LOADER_GET_PL (g_fsm_try_counter s) 0 s)) as ->.
  { unfold policy_loader_thread_function. rewrite Hl, <- Hc, <- (thread_turns_cycles turns sleep 0 s) by lia.
    by destruct (thread_turns turns sleep 0 s). }
  exact (rounds_followed key device rs version _ (ready_set _ _ _ _ _ (g_fsm_try_counter s) Hr) eq_refl Ha).
Qed.

End Rounds.

(** ** A service with two policies *)

Module ServiceWitness.
Import LoaderWitness.

Definition wdevice : bytes := cstr "123".

Definition wservice (msg : bytes) : bytes :=
  if bool_decide (msg = list_request_text (cstr "0x0") wdevice) then wlist
  else if bool_decide (msg = list_request_text wversion wdevice)
  then cstr "{" ++ quoted "response" ++ cstr ":" ++ quoted "ok" ++ cstr "}"
  else if bool_decide (msg = policy_request_text (wid 0)) then wdoc
  else cstr "no".

Definition up : tcp_exchange :=
  {| hosts := Some [cstr "10.0.0.1"]; socket_ok := true; address_ok := true; connect_ok := true;
     reply := wservice |}.
Definition down : tcp_exchange :=
  {| hosts := Some [cstr "10.0.0.1"]; socket_ok := true; address_ok := true; connect_ok := false;
     reply := wservice |}.
Definition env (e : tcp_exchange) : cycle_env := {| list_net := e; policy_net := fun _ => up |}.

Definition wnews : service_round := Listed [(wid 0, Some (wsig, cstr "x")); (wid 1, None)] wversion.

(** Down, a list of two of which the second is refused, nothing new. *)
Definition wrounds : list (service_round * (cycle_env * cycle_env)) :=
  [ (Unreachable, (env down, env down)); (wnews, (env up, env up)); (NoNews, (env up, env up)) ].

(** A sleep time of five seconds: every second turn runs a cycle. *)
Definition wturns : list cycle_env :=
  mjoin (map (fun e => [env down; e]) (env down :: mjoin (map both wrounds))).

Definition wstart : loader := {|
  g_policy_list := repeat 0 2048; g_policy_list_len := 0; g_new_policy_list := 0;
  g_policy := repeat 0 2048; g_owner_public_key := b64_encode wkey ++ [0];
  g_policy_store_version := cstr "0x0" ++ repeat 0 64; g_device_id := wdevice ++ repeat 0 64;
  num_of_policies := 0; g_fsm_try_counter := 0; g_policy_updater_fsm_state := POLICY_LOADER_INIT;
  jsmn_tokens := repeat (tk 0 0 0) 256; helper := [] : jhelper; pap := [] : pap_state |}.

Lemma wstart_ready : ready wkey wdevice (cstr "0x0") wstart.
Proof.
  split; try done.
  - split; try done; [by apply (bool_decide_unpack _); vm_compute | by exists [0]].
  - split_and!; [by exists (repeat 0 63) | by apply (bool_decide_unpack _); vm_compute | cbn; lia].
  - split_and!; [by exists (repeat 0 63) | by apply (bool_decide_unpack _); vm_compute | cbn; lia].
Qed.

Lemma wlist_lists : lists wlist wversion [wid 0; wid 1].
Proof.
  split_and!; try by apply (bool_decide_unpack _); vm_compute.
  intros h0. exists 7, wlist. split_and!; try reflexivity; try done.
  - exists (take 165 wlist), (cstr (String (Ascii.ascii_of_nat 34) "}")). split; vm_compute; reflexivity.
  - intros [|[|k]] id [= <-].
    + exists (take 14 wlist), (drop 78 wlist). split; vm_compute; reflexivity.
    + exists (take 81 wlist), (drop 145 wlist). split; vm_compute; reflexivity.
Qed.

Lemma wok_no_list : no_list (wservice (list_request_text wversion wdevice)).
Proof.
  split_and!; try by apply (bool_decide_unpack _); vm_compute.
  intros h0. exists 7, (wservice (list_request_text wversion wdevice)). split; [reflexivity|]. cbv zeta. split.
  - intros E. vm_compute in E. discriminate E.
  - cbn [jsonhelper_get_token_start toy_sdk jsonhelper_get_value]. rewrite bool_decide_true by done. cbn. lia.
Qed.

Lemma wrefused : refused (cstr "no").
Proof.
  split_and!; [by apply (bool_decide_unpack _); vm_compute | cbn; lia |].
  intros junk t0 _ Ht. exists t0. split; [done|]. unfold parse_policy_struct.
  rewrite c_str_app by (by apply (bool_decide_unpack _); vm_compute). reflexivity.
Qed.

Lemma wrounds_answered : answered wdevice (cstr "0x0") wrounds.
Proof.
  assert (served up) as Hup by (split_and!; done || by eexists).
  split; [right; split; [by eexists | by right]|]. split; [split_and!; [done | |] | split; [|done]].
  - change (lists (wservice (list_request_text (cstr "0x0") wdevice)) wversion [wid 0; wid 1]).
    assert (wservice (list_request_text (cstr "0x0") wdevice) = wlist) as -> by (vm_compute; reflexivity).
    exact wlist_lists.
  - intros [|[|k]] id p Hk; cbn in Hk; try done; injection Hk as <- <-; (split; [done|]).
    + cbn [reply_is]. match goal with |- document ?d _ _ => replace d with wdoc by (vm_compute; reflexivity) end.
      exact wdoc_document.
    + cbn [reply_is]. match goal with |- refused ?d => replace d with (cstr "no") by (vm_compute; reflexivity) end.
      exact wrefused.
  - exact (conj Hup wok_no_list).
Qed.

Lemma loader_follows_service_witness :
  exists s', policy_loader_thread_function (LoaderLife false Running) wturns 5000000 wstart = Ret s'
    /\ ready wkey wdevice wversion s'
    /\ pap s' = fold_left (add_policy wkey) [(wsig, cstr "x")] (pap wstart).
Proof.
  refine (loader_follows_service wkey wdevice (cstr "0x0") wrounds (env down) wturns 5000000
            (LoaderLife false Running) wstart _ eq_refl wstart_ready eq_refl eq_refl wrounds_answered). lia.
Defined.
End ServiceWitness.
