(* ===== verification/ReplyScanner.v ===== *)
(** * The scanner of policy lists (find_char, search_key_word and
      parse_policy_updater_response of src/policy_loader/policy_loader.c)

    The first parser of the list of policies, which the tokenizer of
    PolicyLoader.v has replaced; nothing calls it any more.  It walks through the
    reply with pointers, here the offsets into its memory, and accepts a colon
    and an array of words between quotation marks. *)

From S2P Require Import Prelude CStd.

Definition POLICY_LOADER_ClosedBracket2 : Z := 93.
Definition POLICY_LOADER_OpenBracket2 : Z := 91.
Definition POLICY_LOADER_Comma : Z := 44.
Definition POLICY_LOADER_QuotationMark : Z := 34.
Definition POLICY_LOADER_Colon : Z := 58.
Definition POLICY_LOADER_Space : Z := 32.

(** The two loops of [find_char]; [rest] is the memory from [start_p] on.  The
    first one tests its limit only behind a space. *)
Fixpoint over_spaces (rest : bytes) (start_p end_p : Z) : out Z :=
  match rest with
  | [] => Undef OobRead
  | c :: rest =>
      if c =? POLICY_LOADER_Space then
        if start_p + 1 =? end_p then Ret end_p else over_spaces rest (start_p + 1) end_p
      else Ret start_p
  end.

Fixpoint scan_for (char_to_find : Z) (rest : bytes) (start_p end_p : Z) : out (option Z) :=
  if start_p =? end_p then Ret None else
  match rest with
  | [] => Undef OobRead
  | c :: rest =>
      if c =? char_to_find then Ret (Some start_p) else scan_for char_to_find rest (start_p + 1) end_p
  end.

Section Reply.
Context (mem : bytes).

Definition find_char (char_to_find start_p end_p : Z) (skip : bool) : out (option Z) :=
  rest ← tail_from mem start_p;
  if skip then scan_for char_to_find rest start_p end_p
  else
    p ← over_spaces rest start_p end_p;
    c ← load mem p;
    Ret (if c =? char_to_find then Some p else None).

(** The result and the two pointers, which may become null. *)
Definition search_key_word (start_p : Z) (end_p : option Z) (end_all_p : Z) : out (Z * option Z * option Z) :=
  s ← find_char POLICY_LOADER_QuotationMark start_p end_all_p false;
  match s with
  | None => Ret (1, None, end_p)
  | Some s =>
      e ← find_char POLICY_LOADER_QuotationMark (s + 1) end_all_p true;
      Ret (match e with None => 1 | Some _ => 0 end, Some (s + 1), e)
  end.

(** The loop over the spaces behind a word: [None] when it passes the end. *)
Fixpoint behind_word (rest : bytes) (start_p end_all_p : Z) : out (option Z) :=
  match rest with
  | [] => Undef OobRead
  | c :: rest =>
      if c =? POLICY_LOADER_Space then
        if start_p + 1 >? end_all_p then Ret None else behind_word rest (start_p + 1) end_all_p
      else Ret (Some start_p)
  end.

(** The [do ... while] loop; [None] when the fuel runs out. *)
Fixpoint key_words (fuel : nat) (start_p : Z) (end_p : option Z) (end_all_p : Z)
    : out (option (Z * option Z * option Z)) :=
  match fuel with
  | O => Ret None
  | S fuel =>
      w ← search_key_word start_p end_p end_all_p;
      match w with
      | (0, _, Some e) =>
          let s := e + 1 in
          if s >? end_all_p then Ret (Some (1, Some s, Some e)) else
          rest ← tail_from mem s;
          p ← behind_word rest s end_all_p;
          match p with
          | None => Ret (Some (1, Some (end_all_p + 1), Some e))
          | Some s =>
              c ← load mem s;
              if c =? POLICY_LOADER_ClosedBracket2 then
                if s + 1 >? end_all_p then Ret (Some (1, Some (s + 1), Some e))
                else Ret (Some (0, Some (s + 1), Some e))
              else
                q ← find_char POLICY_LOADER_Comma s end_all_p false;
                match q with
                | None => Ret (Some (1, None, Some e))
                | Some s =>
                    if s + 1 >? end_all_p then Ret (Some (1, Some (s + 1), Some e))
                    else key_words fuel (s + 1) (Some e) end_all_p
                end
          end
      | (_, s, e) => Ret (Some (1, s, e))
      end
  end.

(** A turn consumes two quotation marks and a comma, so that the length of the
    memory is fuel enough. *)
Definition parse_policy_updater_response (start_p : Z) (end_p : option Z) (end_all_p : Z)
    : out (option (Z * option Z * option Z)) :=
  s ← find_char POLICY_LOADER_Colon start_p end_all_p false;
  match s with
  | None => Ret (Some (1, None, end_p))
  | Some s =>
      let s := s + 1 in
      if s >? end_all_p then Ret (Some (1, Some s, end_p)) else
      s ← find_char POLICY_LOADER_OpenBracket2 s end_all_p false;
      match s with
      | None => Ret (Some (1, None, end_p))
      | Some s =>
          let s := s + 1 in
          if s >? end_all_p then Ret (Some (1, Some s, end_p))
          else key_words (length mem) s end_p end_all_p
      end
  end.
End Reply.

(** ** The grammar *)

Definition spaces (n : nat) : bytes := repeat 32 n.

(** [word_list s]: words between quotation marks with commas, up to the bracket. *)
Inductive word_list : bytes -> Prop :=
| last_word (m n : nat) (w : bytes) :
    34 ∉ w -> word_list (spaces m ++ 34 :: w ++ 34 :: spaces n ++ [93])
| next_word (m n : nat) (w l : bytes) :
    34 ∉ w -> word_list l -> word_list (spaces m ++ 34 :: w ++ 34 :: spaces n ++ 44 :: l).

Definition response (s : bytes) : Prop :=
  exists m n l, word_list l /\ s = spaces m ++ 58 :: spaces n ++ 91 :: l.

(** ** The scanner on lists

    The same steps on the text that is left, without pointers. *)
Fixpoint unblank (s : bytes) : bytes :=
  match s with [] => [] | c :: s' => if c =? 32 then unblank s' else s end.

Definition expect (c : Z) (s : bytes) : option bytes :=
  match unblank s with [] => None | x :: s => if x =? c then Some s else None end.

Fixpoint until_quote (s : bytes) : option bytes :=
  match s with [] => None | c :: s => if c =? 34 then Some s else until_quote s end.

(** The outer option is the fuel. *)
Fixpoint words (fuel : nat) (s : bytes) : option (option bytes) :=
  match fuel with
  | O => None
  | S fuel =>
      match expect 34 s ≫= until_quote with
      | None => Some None
      | Some s =>
          match expect 93 s, expect 44 s with
          | Some s, _ => Some (Some s)
          | None, Some s => words fuel s
          | None, None => Some None
          end
      end
  end.

Lemma unblank_split s : exists n, s = spaces n ++ unblank s.
Proof.
  induction s as [|c s [n IH]]; [by exists 0%nat|]. cbn [unblank]. destruct (c =? 32) eqn:E; [|by exists 0%nat].
  apply Z.eqb_eq in E as ->. exists (S n). change (spaces (S n)) with (32 :: spaces n). cbn [app]. by rewrite <- IH.
Qed.

Lemma unblank_spaces n s : unblank (spaces n ++ s) = unblank s.
Proof. by induction n. Qed.

Lemma expect_split c s s' : expect c s = Some s' -> exists n, s = spaces n ++ c :: s'.
Proof.
  unfold expect. destruct (unblank_split s) as [n E]. destruct (unblank s) as [|x r]; [done|].
  destruct (x =? c) eqn:Ex; [|done]. apply Z.eqb_eq in Ex as ->. intros [= ->]. eauto.
Qed.

Lemma expect_spaces c n s : c <> 32 -> expect c (spaces n ++ c :: s) = Some s.
Proof. intros Hc. unfold expect. rewrite unblank_spaces. cbn. by zdec. Qed.

Lemma expect_other c x n s : c <> 32 -> x <> 32 -> x <> c -> expect c (spaces n ++ x :: s) = None.
Proof. intros ? ? ?. unfold expect. rewrite unblank_spaces. cbn. by zdec. Qed.

Lemma until_quote_split s s' : until_quote s = Some s' -> exists w, 34 ∉ w /\ s = w ++ 34 :: s'.
Proof.
  induction s as [|c s IH]; cbn; [done|]. destruct (c =? 34) eqn:E.
  - apply Z.eqb_eq in E as ->. intros [= ->]. exists []. split; [by intros ?%elem_of_nil | done].
  - intros H. destruct (IH H) as (w & Hw & ->). exists (c :: w). split; [|done].
    apply Z.eqb_neq in E. rewrite elem_of_cons. by intros [? | ?].
Qed.

Lemma until_quote_word w s : 34 ∉ w -> until_quote (w ++ 34 :: s) = Some s.
Proof.
  induction w as [|c w IH]; [done|]. rewrite elem_of_cons. intros Hw. cbn [app until_quote].
  rewrite (proj2 (Z.eqb_neq c 34)); [apply IH; tauto | intros ->; tauto].
Qed.

Lemma words_sound n s s' : words n s = Some (Some s') -> exists l, word_list l /\ s = l ++ s'.
Proof.
  revert s; induction n as [|n IH]; [done|]. intros s. cbn [words].
  destruct (expect 34 s) as [s1|] eqn:E1; [|done]. cbn [mbind option_bind].
  destruct (until_quote s1) as [s2|] eqn:E2; [|done].
  apply expect_split in E1 as [m ->]. apply until_quote_split in E2 as (w & Hw & ->).
  destruct (expect 93 s2) as [s3|] eqn:E3; [|destruct (expect 44 s2) as [s3|] eqn:E4; [|done]].
  - intros [= ->]. apply expect_split in E3 as [k ->]. eexists. split; [by apply (last_word m k w)|].
    unfold spaces. by rewrite <- !app_assoc; cbn; rewrite <- !app_assoc; cbn; rewrite <- !app_assoc.
  - intros H. destruct (IH _ H) as (l & Hl & ->). apply expect_split in E4 as [k ->].
    eexists. split; [by apply (next_word m k w l)|].
    unfold spaces. by rewrite <- !app_assoc; cbn; rewrite <- !app_assoc; cbn; rewrite <- !app_assoc.
Qed.

Lemma words_complete l s' n : word_list l -> (length l < n)%nat -> words n (l ++ s') = Some (Some s').
Proof.
  intros Hl; revert n; induction Hl as [m k w Hw|m k w l Hw Hl IH]; intros [|n] Hn; try lia; cbn [words].
  all: rewrite <- !app_assoc; cbn [app]; rewrite expect_spaces by done; cbn [mbind option_bind].
  all: rewrite <- !app_assoc; cbn [app]; rewrite until_quote_word by done; rewrite <- !app_assoc; cbn [app].
  - by rewrite expect_spaces.
  - rewrite expect_other, expect_spaces by done. apply IH.
    rewrite !length_app in Hn. cbn [length] in Hn. rewrite !length_app in Hn. cbn [length] in Hn.
    rewrite !length_app in Hn. cbn [length] in Hn. lia.
Qed.

Lemma words_ends n s : (length s < n)%nat -> is_Some (words n s).
Proof.
  revert s; induction n as [|n IH]; intros s Hn; [lia|]. cbn [words].
  destruct (expect 34 s) as [s1|] eqn:E1; cbn [mbind option_bind]; [|by eexists].
  destruct (until_quote s1) as [s2|] eqn:E2; [|by eexists].
  destruct (expect 93 s2); [by eexists|]. destruct (expect 44 s2) as [s3|] eqn:E3; [|by eexists].
  apply IH. apply expect_split in E1 as [m ->]. apply until_quote_split in E2 as (w & _ & ->).
  apply expect_split in E3 as [k ->].
  rewrite length_app in Hn. cbn [length] in Hn. rewrite length_app in Hn. cbn [length] in Hn.
  rewrite length_app in Hn. cbn [length] in Hn. lia.
Qed.

(** The colon and the opening bracket, and the whole reply. *)
Definition list_start (s : bytes) : option bytes := expect 58 s ≫= expect 91.

Definition recognise (fuel : nat) (s : bytes) : option (option bytes) :=
  match list_start s with None => Some None | Some s => words fuel s end.

Lemma list_start_spec s s' :
  list_start s = Some s' <-> exists m n, s = spaces m ++ 58 :: spaces n ++ 91 :: s'.
Proof.
  unfold list_start. split.
  - destruct (expect 58 s) as [s1|] eqn:E; [|done]. apply expect_split in E as [m ->].
    cbn. intros [n ->]%expect_split. by exists m, n.
  - intros (m & n & ->). rewrite expect_spaces by done. cbn. by apply expect_spaces.
Qed.

Lemma recognise_spec fuel s :
  (length s < fuel)%nat ->
  exists r, recognise fuel s = Some r
    /\ forall rest, r = Some rest <-> exists resp, response resp /\ s = resp ++ rest.
Proof.
  intros Hf. unfold recognise. destruct (list_start s) as [s'|] eqn:E; cycle 1.
  { exists None. split; [done|]. intros rest. split; [done|]. intros (resp & (m & n & l & _ & ->) & ->).
    rewrite (proj2 (list_start_spec _ (l ++ rest))) in E; [done|]. exists m, n.
    rewrite <- !app_assoc. cbn [app]. by rewrite <- app_assoc. }
  pose proof E as E'. apply list_start_spec in E' as (m & n & ->).
  rewrite length_app in Hf. cbn [length] in Hf. rewrite length_app in Hf. cbn [length] in Hf.
  destruct (words_ends fuel s' ltac:(lia)) as [r Hr]. exists r. split; [done|]. intros rest. split.
  - intros ->. destruct (words_sound _ _ _ Hr) as (l & Hl & ->).
    exists (spaces m ++ 58 :: spaces n ++ 91 :: l). split; [by exists m, n, l|].
    rewrite <- !app_assoc. cbn [app]. by rewrite <- app_assoc.
  - intros (resp & (m' & n' & l & Hl & ->) & Et).
    rewrite Et, (proj2 (list_start_spec _ (l ++ rest))) in E.
    + injection E as <-. rewrite words_complete in Hr; [congruence | done |]. rewrite length_app in Hf. lia.
    + exists m', n'. rewrite <- !app_assoc. cbn [app]. by rewrite <- app_assoc.
Qed.

(** ** The pointers follow the lists *)

Section Pointers.
Context (text junk : bytes).
Let mem := text ++ 0 :: junk.
Let stop := Z.of_nat (length text).

(** The pointer to a suffix of the text. *)
Definition pos (s : bytes) : Z := stop - Z.of_nat (length s).

Lemma pos_cons c s : pos (c :: s) + 1 = pos s.
Proof. unfold pos. cbn [length]. lia. Qed.

Lemma pos_stop s : (pos s =? stop) = bool_decide (s = []).
Proof.
  unfold pos. destruct s; cbn [length]; [rewrite bool_decide_true by done; apply Z.eqb_eq; lia|].
  rewrite bool_decide_false by done. apply Z.eqb_neq. lia.
Qed.

Lemma pos_gt s : (pos s >? stop) = false.
Proof. rewrite Z.gtb_ltb. unfold pos. zdec. done. Qed.

Lemma suffix_unblank s : s `suffix_of` text -> unblank s `suffix_of` text.
Proof. destruct (unblank_split s) as [n E]. intros H. etrans; [|exact H]. by exists (spaces n). Qed.

Lemma tail_pos s : s `suffix_of` text -> tail_from mem (pos s) = Ret (s ++ 0 :: junk).
Proof.
  intros [k E]. unfold mem. rewrite E, <- app_assoc. apply tail_from_app.
  unfold pos, stop. rewrite E, length_app. lia.
Qed.

Lemma load_pos s : s `suffix_of` text -> load mem (pos s) = Ret (match s with [] => 0 | c :: _ => c end).
Proof.
  intros [k E]. unfold mem. rewrite E, <- app_assoc. destruct s as [|c s]; cbn [app]; apply load_app;
    unfold pos, stop; rewrite E, length_app; lia.
Qed.

Lemma over_spaces_unblank s : over_spaces (s ++ 0 :: junk) (pos s) stop = Ret (pos (unblank s)).
Proof.
  induction s as [|c s IH]; [done|]. cbn [app over_spaces unblank]. unfold POLICY_LOADER_Space.
  destruct (c =? 32); [|done]. rewrite pos_cons, pos_stop.
  destruct s; [rewrite bool_decide_true by done; cbn [unblank]; f_equal; unfold pos; cbn [length]; lia|].
  by rewrite bool_decide_false.
Qed.

Lemma behind_word_unblank s : behind_word (s ++ 0 :: junk) (pos s) stop = Ret (Some (pos (unblank s))).
Proof.
  induction s as [|c s IH]; [done|]. cbn [app behind_word unblank]. unfold POLICY_LOADER_Space.
  destruct (c =? 32); [|done]. by rewrite pos_cons, pos_gt.
Qed.

Lemma scan_for_quote s :
  scan_for 34 (s ++ 0 :: junk) (pos s) stop
  = Ret ((fun s' => pos s' - 1) <$> until_quote s).
Proof.
  induction s as [|c s IH]; cbn [app scan_for until_quote].
  - by rewrite pos_stop.
  - rewrite pos_stop, bool_decide_false by done. destruct (c =? 34).
    + cbn. do 2 f_equal. rewrite <- (pos_cons c s). lia.
    + by rewrite pos_cons.
Qed.

Lemma find_expect c s : c <> 0 -> s `suffix_of` text ->
  find_char mem c (pos s) stop false = Ret ((fun s' => pos s' - 1) <$> expect c s).
Proof.
  intros Hc Hs. unfold find_char. rewrite (tail_pos s Hs), ret_bind, over_spaces_unblank, ret_bind.
  rewrite (load_pos _ (suffix_unblank s Hs)), ret_bind. unfold expect.
  destruct (unblank s) as [|x r]; [by zdec|]. destruct (x =? c); [|done].
  cbn. do 2 f_equal. rewrite <- (pos_cons x r). lia.
Qed.


Lemma find_quote s : s `suffix_of` text ->
  find_char mem 34 (pos s) stop true = Ret ((fun s' => pos s' - 1) <$> until_quote s).
Proof. intros Hs. unfold find_char. by rewrite (tail_pos s Hs), ret_bind, scan_for_quote. Qed.

Lemma expect_suffix c s s' : expect c s = Some s' -> s `suffix_of` text -> s' `suffix_of` text.
Proof.
  intros H%expect_split Hs. destruct H as [n ->]. etrans; [|exact Hs].
  exists (spaces n ++ [c]). by rewrite <- app_assoc.
Qed.

Lemma until_quote_suffix s s' : until_quote s = Some s' -> s `suffix_of` text -> s' `suffix_of` text.
Proof.
  intros H%until_quote_split Hs. destruct H as (w & _ & ->). etrans; [|exact Hs].
  exists (w ++ [34]). by rewrite <- app_assoc.
Qed.

(** What a scan that has the words [r] returns. *)
Definition scanned (r : option bytes) (m : out (option (Z * option Z * option Z))) : Prop :=
  exists s e, m = Ret (Some (match r with None => 1 | Some _ => 0 end, s, e))
    /\ forall s', r = Some s' -> s = Some (pos s').

Lemma scanned_1 s e : scanned None (Ret (Some (1, s, e))).
Proof. by exists s, e. Qed.

Lemma key_words_words n s e r :
  s `suffix_of` text -> words n s = Some r -> scanned r (key_words mem n (pos s) e stop).
Proof.
  revert s e; induction n as [|n IH]; [done|]. intros s e Hs. cbn [words key_words].
  unfold search_key_word, POLICY_LOADER_QuotationMark.
  rewrite (find_expect 34 s) by done. run.
  destruct (expect 34 s) as [s1|] eqn:E1; cbn [mbind option_bind fmap option_fmap option_map];
    [|intros [= <-]; apply scanned_1].
  pose proof (expect_suffix _ _ _ E1 Hs) as Hs1. rewrite Z.sub_add.
  rewrite (find_quote s1 Hs1). run.
  destruct (until_quote s1) as [s2|] eqn:E2; cbn [fmap option_fmap option_map]; [|intros [= <-]; apply scanned_1].
  pose proof (until_quote_suffix _ _ E2 Hs1) as Hs2. rewrite Z.sub_add, pos_gt.
  rewrite (tail_pos s2 Hs2), ret_bind, behind_word_unblank. run.
  rewrite (load_pos _ (suffix_unblank s2 Hs2)), ret_bind. unfold POLICY_LOADER_ClosedBracket2.
  assert (find_char mem 44 (pos (unblank s2)) stop false = Ret ((fun s' => pos s' - 1) <$> expect 44 s2)) as Hcomma.
  { rewrite find_expect by (done || by apply suffix_unblank). unfold expect.
    destruct (unblank_split s2) as [k E]. f_equal. rewrite E at 2. rewrite unblank_spaces. done. }
  unfold POLICY_LOADER_Comma. rewrite Hcomma.
  pose proof (expect_suffix 44 s2) as Hx. unfold expect in *. destruct (unblank s2) as [|x s3] eqn:E3.
  - change (0 =? 93) with false. cbn. intros [= <-]. apply scanned_1.
  - destruct (x =? 93) eqn:E4.
    + rewrite pos_cons, pos_gt. intros [= <-]. eexists _, _. split; [done|]. by intros s' [= ->].
    + run. destruct (x =? 44); cbn [fmap option_fmap option_map].
      * rewrite Z.sub_add, pos_gt. intros Hw. apply IH; [by apply Hx | done].
      * intros [= <-]. apply scanned_1.
Qed.
Lemma parse_recognise e r :
  recognise (length mem) text = Some r -> scanned r (parse_policy_updater_response mem 0 e stop).
Proof.
  unfold recognise, list_start, parse_policy_updater_response, POLICY_LOADER_Colon, POLICY_LOADER_OpenBracket2.
  assert (0 = pos text) as Hstart by (unfold pos, stop; lia). rewrite Hstart.
  rewrite find_expect by done. run.
  destruct (expect 58 text) as [s1|] eqn:E1; cbn [mbind option_bind fmap option_fmap option_map];
    [|intros [= <-]; apply scanned_1].
  pose proof (expect_suffix _ _ _ E1 ltac:(done)) as Hs1. rewrite Z.sub_add, pos_gt, find_expect by done. run.
  destruct (expect 91 s1) as [s2|] eqn:E2; cbn [fmap option_fmap option_map]; [|intros [= <-]; apply scanned_1].
  rewrite Z.sub_add, pos_gt. apply key_words_words. by apply (expect_suffix 91 s1).
Qed.
End Pointers.

(** The scanner of policy lists is exact and stays within the reply: on every
    text behind which a NUL lies it ends, reads nothing past the NUL, and accepts
    exactly when a colon and an array of words between quotation marks start
    the text; the pointer then stands behind the closing bracket. *)
Lemma response_recognised text junk end_p :
  exists code s e,
    parse_policy_updater_response (text ++ 0 :: junk) 0 end_p (Z.of_nat (length text)) = Ret (Some (code, s, e))
    /\ (code = 0 -> exists resp rest, text = resp ++ rest /\ response resp /\ s = Some (Z.of_nat (length resp)))
    /\ (forall resp rest, text = resp ++ rest -> response resp -> code = 0).
Proof.
  destruct (recognise_spec (length (text ++ 0 :: junk)) text) as (r & Hr & Hspec);
    [rewrite length_app; cbn [length]; lia|].
  destruct (parse_recognise text junk end_p r Hr) as (s & e & E & Hs).
  eexists _, s, e. split; [exact E|]. split.
  - destruct r as [rest|]; [|done]. intros _. destruct (proj1 (Hspec rest) eq_refl) as (resp & Hresp & Et).
    exists resp, rest. split; [done|]. split; [done|]. rewrite (Hs rest) by done. unfold pos.
    rewrite Et, length_app. f_equal. lia.
  - intros resp rest Et Hresp. by rewrite (proj2 (Hspec rest)) by eauto.
Qed.

Module ReplyScannerExamples.
Definition reply (s : string) : bytes := cstr s ++ [0].

Example accepts_words :
  parse_policy_updater_response (map (fun c => if c =? 39 then 34 else c) (reply " : [ 'ab' , 'c' ]}")) 0 None 18
  = Ret (Some (0, Some 17, Some 14)).
Proof. reflexivity. Qed.

(** Behind a reply that ends in a space and whose memory goes on with spaces, the
    first loop leaves the reply: it tests its limit only after the step. *)
Example runs_past_spaces : parse_policy_updater_response (cstr ":  ") 0 None 1 = Undef OobRead.
Proof. reflexivity. Qed.
End ReplyScannerExamples.
