(* ===== verification/Network.v ===== *)
(** * The TCP server (src/network/network.c)

    One client at a time connects, authenticates, sends one request and gets
    one answer.  Authentication, the JSON helper and the access-control core
    belong to the SDK and are parameters; [world] is all their state. *)

From S2P Require Import Prelude CStd Config PolicyUpdater.

(** ** The interfaces *)

Class ServerSdk := {
  world : Type;
  jtokens : Type;
  jsonhelper_parser_init : bytes -> Z * jtokens;
  jsonhelper_get_token_start : jtokens -> Z -> Z;
  jsonhelper_token_size : jtokens -> Z -> Z;
  jsonhelper_token_is_array : jtokens -> Z -> bool;
  jsonhelper_token_end : jtokens -> Z -> Z;
  auth_helper_check_msg_format : bytes -> jtokens -> Z;
  (** what is written to the answer buffer, and the new world *)
  pep_request_access : bytes -> world -> bytes * world;
  pip_set_dataset : bytes -> Z -> world -> world;
  pip_get_dataset : world -> bytes * Z;
  PAP_USERMNG_GET_USER : Z;
  PAP_USERMNG_GET_USER_ID : Z;
  PAP_USERMNG_PUT_USER : Z;
  PAP_USERMNG_GET_ALL_USR : Z;
  PAP_USERMNG_CLR_ALL_USR : Z;
  pap_user_management_action : Z -> bytes -> world -> bytes * world
}.

(** ** Constants and state *)

Definition SEND_BUFF_LEN : nat := 4096.
Definition BUF_LEN : nat := 80.
Definition USERNAME_LEN : nat := 128.
Definition USER_DATA_LEN : nat := 4096.
Definition MAX_TRY_NUM : Z := 350.

Definition NO_ERROR : Z := 0.
Definition ERROR_BIND_FAILED : Z := 1.
Definition ERROR_LISTEN_FAILED : Z := 2.
Definition ERROR_CREATE_THREAD_FAILED : Z := 3.

Definition COMMAND_RESOLVE : Z := 0.
Definition COMMAND_GET_POL_LIST : Z := 1.
Definition COMMAND_ENABLE_POLICY : Z := 2.
Definition COMMAND_SET_DATASET : Z := 3.
Definition COMMAND_GET_DATASET : Z := 4.
Definition COMMAND_GET_USER_OBJ : Z := 5.
Definition COMMAND_GET_USERID : Z := 6.
Definition COMMAND_REDISTER_USER : Z := 7.
Definition COMMAND_GET_ALL_USER : Z := 8.
Definition COMMAND_CLEAR_ALL_USER : Z := 9.

Definition grant : bytes :=
  cstr "{" ++ quoted "response" ++ cstr ":" ++ quoted "access granted" ++ cstr "}".
Definition deny : bytes :=
  cstr "{" ++ quoted "response" ++ cstr ":" ++ quoted "access denied " ++ cstr "}".
Definition auth_error : bytes :=
  cstr "{" ++ quoted "error" ++ cstr ":" ++ quoted "authentication failed" ++ cstr "}".

Record network_ctx_internal_t := {
  state : Z;
  DAC_AUTH : Z;
  send_buffer : bytes;
  port : Z;
  end_flag : Z
}.

Definition set_send (b : bytes) (c : network_ctx_internal_t) : network_ctx_internal_t :=
  {| state := state c; DAC_AUTH := DAC_AUTH c; send_buffer := b; port := port c; end_flag := end_flag c |}.

Definition set_state (v : Z) (c : network_ctx_internal_t) : network_ctx_internal_t :=
  {| state := v; DAC_AUTH := DAC_AUTH c; send_buffer := send_buffer c; port := port c; end_flag := end_flag c |}.

(** [network_init]: [file] is the content of config.ini; the send buffer of
    the fresh context is uninitialised memory, any [SEND_BUFF_LEN] bytes. *)
Definition network_init (file : option bytes) (g : config_manager_t) (u : updater) (fresh : bytes)
    : out (network_ctx_internal_t * config_manager_t * updater) :=
  r ← config_manager_init file g;
  let g := r.2 in
  p ← config_manager_get_option_int g (cstr "network") (cstr "tcp_port") 0;
  let prt := if negb (CONFIG_MANAGER_OK =? p.1) then 9998 else u16 p.2 in
  u ← policyupdater_init g u;
  Ret ({| state := 0; DAC_AUTH := 1; send_buffer := fresh; port := prt; end_flag := 0 |}, g, u).

(** [network_start]: the code, and whether the context has been freed. *)
Definition network_start (bind_ok listen_ok thread_ok : bool) (ctx : network_ctx_internal_t) : Z * bool :=
  if negb bind_ok then (ERROR_BIND_FAILED, true) else
  if negb (end_flag ctx =? 1) && negb listen_ok then (ERROR_LISTEN_FAILED, true) else
  if negb thread_ok then (ERROR_CREATE_THREAD_FAILED, true) else (NO_ERROR, false).

Section Server.
Context `{ServerSdk}.

(** Where [*recv_data] points when [calculate_decision] returns. *)
Inductive answer_ptr : Set := Received | SendBuffer.

Record decision := {
  d_position : Z;               (* the result, the length of the answer *)
  d_answer : answer_ptr;
  d_freed : bool;               (* whether the received block has been freed *)
  d_ctx : network_ctx_internal_t;
  d_world : world
}.

(** [memcmp( *recv_data + token_start(i), key, strlen(key)) == 0] *)
Definition token_starts (recv : bytes) (t : jtokens) (i : Z) (key : bytes) : out bool :=
  text ← slice (jsonhelper_get_token_start t i) (Z.of_nat (length key)) recv;
  Ret (bool_decide (text = key)).

(** The search loops: the first of [n] tokens from [i] that starts with [key]. *)
Fixpoint find_token (n : nat) (i : Z) (recv : bytes) (t : jtokens) (key : bytes) : out (option Z) :=
  match n with
  | O => Ret None
  | S n =>
      same ← token_starts recv t i key;
      if (same : bool) then Ret (Some i) else find_token n (i + 1) recv t key
  end.

(** [strncpy(dst, *recv_data + token_start(i), token_size(i)); dst[token_size(i)] = 0;]
    a negative size is a huge [size_t]. *)
Definition copy_token (dst recv : bytes) (t : jtokens) (i : Z) : out bytes :=
  src ← tail_from recv (jsonhelper_get_token_start t i);
  let size := jsonhelper_token_size t i in
  _ ← ensure (0 <=? size) OobWrite;
  dst ← strncpy dst src (Z.to_nat size);
  store dst size 0.

(** The branches that ask the user management with the name in the request. *)
Definition user_action (action : Z) (recv : bytes) (n : Z) (t : jtokens) (ctx : network_ctx_internal_t)
    (w : world) : out decision :=
  k ← find_token (Z.to_nat n) 0 recv t (cstr "username");
  username ← match k with
             | Some i => copy_token (repeat 0 USERNAME_LEN) recv t (i + 1)
             | None => Ret (repeat 0 USERNAME_LEN)
             end;
  name ← c_str username;
  let '(answer, w) := pap_user_management_action action name w in
  b ← blit (send_buffer ctx) 0 answer;
  s ← c_str b;
  Ret {| d_position := Z.of_nat (length s); d_answer := SendBuffer; d_freed := false;
         d_ctx := set_send b ctx; d_world := w |}.

Definition calculate_decision (recv : bytes) (ctx : network_ctx_internal_t) (w : world) : out decision :=
  text ← c_str recv;
  let '(num_of_tokens, t) := jsonhelper_parser_init text in
  let request_code := auth_helper_check_msg_format text t in
  if request_code =? COMMAND_RESOLVE then
    let '(d, w) := pep_request_access text w in
    decision ← blit (repeat 0 BUF_LEN) 0 d;
    is_grant ← memcmp_eq decision (cstr "grant") 5;
    let msg := if negb is_grant then grant else deny in
    b ← blit (send_buffer ctx) 0 (msg ++ [0]);
    Ret {| d_position := Z.of_nat (length grant) + 1; d_answer := SendBuffer;
           d_freed := DAC_AUTH ctx =? 1; d_ctx := set_send b ctx; d_world := w |}
  else if request_code =? COMMAND_GET_POL_LIST then
    let '(d, w) := pep_request_access text w in
    b ← blit (send_buffer ctx) 0 d;
    s ← c_str b;
    Ret {| d_position := Z.of_nat (length s); d_answer := SendBuffer;
           d_freed := DAC_AUTH ctx =? 1; d_ctx := set_send b ctx; d_world := w |}
  else if request_code =? COMMAND_ENABLE_POLICY then
    Ret {| d_position := 0; d_answer := Received; d_freed := false; d_ctx := ctx; d_world := w |}
  else if request_code =? COMMAND_SET_DATASET then
    k ← find_token (Z.to_nat num_of_tokens) 0 recv t (cstr "dataset_list");
    let dataset_list_index := default (-1) k in
    let arr_start := dataset_list_index + 1 in
    if (dataset_list_index =? -1) || negb (jsonhelper_token_is_array t arr_start) then
      b ← blit (send_buffer ctx) 0 deny;
      Ret {| d_position := Z.of_nat (length deny); d_answer := SendBuffer; d_freed := false;
             d_ctx := set_send b ctx; d_world := w |}
    else
      src ← tail_from recv (jsonhelper_get_token_start t arr_start);
      let w := pip_set_dataset src (jsonhelper_token_end t arr_start - jsonhelper_get_token_start t arr_start) w in
      b ← blit (send_buffer ctx) 0 grant;
      Ret {| d_position := Z.of_nat (length grant); d_answer := SendBuffer; d_freed := false;
             d_ctx := set_send b ctx; d_world := w |}
  else if request_code =? COMMAND_GET_DATASET then
    let '(d, len) := pip_get_dataset w in
    b ← blit (send_buffer ctx) 0 d;
    Ret {| d_position := u32 len; d_answer := SendBuffer; d_freed := false;
           d_ctx := set_send b ctx; d_world := w |}
  else if request_code =? COMMAND_GET_USER_OBJ then
    user_action PAP_USERMNG_GET_USER recv num_of_tokens t ctx w
  else if request_code =? COMMAND_GET_USERID then
    user_action PAP_USERMNG_GET_USER_ID recv num_of_tokens t ctx w
  else if request_code =? COMMAND_REDISTER_USER then
    k ← find_token (Z.to_nat num_of_tokens) 0 recv t (cstr "user");
    (* without the token the array is passed on uninitialised *)
    user_data ← match k with
                | Some i => copy_token (repeat 0 USER_DATA_LEN) recv t (i + 1)
                | None => Undef Uninit
                end;
    data ← c_str user_data;
    let '(answer, w) := pap_user_management_action PAP_USERMNG_PUT_USER data w in
    b ← blit (send_buffer ctx) 0 answer;
    s ← c_str b;
    Ret {| d_position := Z.of_nat (length s); d_answer := SendBuffer; d_freed := false;
           d_ctx := set_send b ctx; d_world := w |}
  else if (request_code =? COMMAND_GET_ALL_USER) || (request_code =? COMMAND_CLEAR_ALL_USER) then
    let action := if request_code =? COMMAND_GET_ALL_USER then PAP_USERMNG_GET_ALL_USR
                  else PAP_USERMNG_CLR_ALL_USR in
    let '(answer, w) := pap_user_management_action action [] w in
    b ← blit (send_buffer ctx) 0 answer;
    s ← c_str b;
    Ret {| d_position := Z.of_nat (length s); d_answer := SendBuffer; d_freed := false;
           d_ctx := set_send b ctx; d_world := w |}
  else
    (* the whole length of the send buffer is set in the received block *)
    _ ← blit recv 0 (repeat 48 SEND_BUFF_LEN);
    b ← blit (send_buffer ctx) 0 (deny ++ [0]);
    Ret {| d_position := Z.of_nat (length deny) + 1; d_answer := SendBuffer; d_freed := false;
           d_ctx := set_send b ctx; d_world := w |}.

(** ** The thread *)

(** A client: whether [auth_authenticate] accepts it, and the block that
    [auth_receive] allocates for its request; without one the pointer stays null
    and is handed to the JSON helper. *)
Record client_conn := { authenticated : bool; request : option bytes }.

(** What is sent back: an answer through the session, or the plain error. *)
Inductive sent := Answer (b : bytes) | Plain (b : bytes) | NotServed.

(** One turn of [network_thread_function] with a client waiting.  The wait on
    the state at its end is over at once: the state has just been reset. *)
Definition serve (c : client_conn) (ctx : network_ctx_internal_t) (w : world)
    : out (sent * network_ctx_internal_t * world) :=
  if state ctx =? 0 then
    let ctx := set_state 1 ctx in
    if authenticated c then
      recv ← deref (request c);
      d ← calculate_decision recv ctx w;
      answer ← slice 0 (d_position d)
                 (match d_answer d with SendBuffer => send_buffer (d_ctx d) | Received => recv end);
      Ret (Answer answer, set_state 0 (d_ctx d), d_world d)
    else Ret (Plain (auth_error ++ [0]), set_state 0 ctx, w)
  else Ret (NotServed, ctx, w).

Fixpoint serve_all (cs : list client_conn) (ctx : network_ctx_internal_t) (w : world)
    : out (list sent * network_ctx_internal_t * world) :=
  match cs with
  | [] => Ret ([], ctx, w)
  | c :: cs =>
      r ← serve c ctx w;
      let '(s, ctx, w) := r in
      rs ← serve_all cs ctx w;
      let '(ss, ctx, w) := rs in
      Ret (s :: ss, ctx, w)
  end.

End Server.

(** ** Properties *)

Section ServerFacts.
Context `{ServerSdk}.

Lemma calculate_decision_state recv ctx w d :
  calculate_decision recv ctx w = Ret d -> state (d_ctx d) = state ctx.
Proof.
  unfold calculate_decision, user_action.
  repeat (first
    [ progress cbn [mbind out_bind]
    | match goal with
      | |- Ret _ = Ret _ -> _ => intros [= <-]; done
      | |- Undef _ = Ret _ -> _ => done
      | |- (match ?m with Ret _ => _ | Undef _ => _ end) = _ -> _ => destruct m
      | |- (let '(_, _) := ?m in _) = _ -> _ => destruct m
      | |- (if ?b then _ else _) = _ -> _ => destruct b
      | |- mbind _ ?m = _ -> _ => destruct m
      end ]).
Qed.

(** The server is idle between clients. *)
Lemma serve_idle c ctx w s ctx' w' :
  state ctx = 0 -> serve c ctx w = Ret (s, ctx', w') -> state ctx' = 0.
Proof.
  intros H0. unfold serve. rewrite H0. cbn [Z.eqb].
  destruct (authenticated c); [|by intros [= <- <- <-]].
  destruct (request c) as [recv|]; [|done]. cbn [deref mbind out_bind].
  destruct (calculate_decision _ _ _) as [d|]; [|done]. cbn [mbind out_bind].
  destruct (slice _ _ _); [|done]. by intros [= <- <- <-].
Qed.

Lemma serve_rejected c ctx w :
  state ctx = 0 -> authenticated c = false -> serve c ctx w = Ret (Plain (auth_error ++ [0]), ctx, w).
Proof. intros H0 Ha. unfold serve. rewrite H0, Ha. destruct ctx; cbn in *. by subst. Qed.

(** The answers of the clients that [p] keeps. *)
Fixpoint keep {A} (bs : list bool) (l : list A) : list A :=
  match bs, l with
  | b :: bs, x :: l => if b then x :: keep bs l else keep bs l
  | _, _ => []
  end.

(** C5: clients that fail to authenticate have no effect: they get the error
    text, and every run of the server gives the same answers to the others,
    and leaves the same state, as the run without them. *)
Theorem unauthenticated_clients_no_effect cs ctx w ss ctx' w' :
  state ctx = 0 -> serve_all cs ctx w = Ret (ss, ctx', w') ->
  serve_all (keep (map authenticated cs) cs) ctx w = Ret (keep (map authenticated cs) ss, ctx', w')
  /\ keep (map (fun c => negb (authenticated c)) cs) ss
     = map (fun _ => Plain (auth_error ++ [0])) (keep (map (fun c => negb (authenticated c)) cs) cs).
Proof.
  revert ctx w ss; induction cs as [|c cs IH]; intros ctx w ss H0 Hrun; cbn [serve_all map keep] in *.
  { by injection Hrun as <- <- <-. }
  destruct (serve c ctx w) as [[[s1 ctx1] w1]|] eqn:E; cbn [mbind out_bind] in Hrun; [|done].
  pose proof (serve_idle _ _ _ _ _ _ H0 E) as H1.
  destruct (serve_all cs ctx1 w1) as [[[ss1 ctx2] w2]|] eqn:Es; cbn [mbind out_bind] in Hrun; [|done].
  injection Hrun as <- <- <-. destruct (IH ctx1 w1 ss1 H1 Es) as [IH1 IH2].
  destruct (authenticated c) eqn:Ea; cbn [keep negb serve_all].
  - by rewrite E, IH2; cbn [mbind out_bind]; rewrite IH1.
  - rewrite (serve_rejected c ctx w H0 Ea) in E. injection E as <- <- <-.
    by rewrite IH1, IH2.
Qed.

(** A request whose text the helper classifies with [code]. *)
Definition asks (c : client_conn) (text junk : bytes) (n : Z) (t : jtokens) (code : Z) : Prop :=
  authenticated c = true /\ request c = Some (text ++ 0 :: junk) /\ no_nul text
  /\ jsonhelper_parser_init text = (n, t) /\ auth_helper_check_msg_format text t = code.

(** C7: the answer to a request for a decision is inverted: access is granted
    exactly when the decision of the core does not begin with [grant]. *)
Theorem resolve_answer_inverted c text junk n t ctx w d w' :
  asks c text junk n t COMMAND_RESOLVE -> state ctx = 0 ->
  length (send_buffer ctx) = SEND_BUFF_LEN ->
  pep_request_access text w = (d, w') -> (length d <= BUF_LEN)%nat ->
  exists ctx', serve c ctx w
    = Ret (Answer ((if is_prefix (cstr "grant") d then deny else grant) ++ [0]), ctx', w').
Proof.
  intros (Ha & Hr & Hn & Hp & Hc) H0 Hb Hd Hl. unfold serve. rewrite H0, Ha, Hr. cbn [Z.eqb deref mbind out_bind].
  unfold calculate_decision. rewrite c_str_app by done. cbn [mbind out_bind].
  rewrite Hp. cbn beta iota zeta. rewrite Hc.
  change (COMMAND_RESOLVE =? COMMAND_RESOLVE) with true. cbn iota. rewrite Hd.
  rewrite blit_0 by (rewrite repeat_length; lia). cbn [mbind out_bind].
  assert (memcmp_eq (d ++ drop (length d) (repeat 0 BUF_LEN)) (cstr "grant") 5
          = Ret (is_prefix (cstr "grant") d)) as ->.
  { rewrite drop_repeat. unfold memcmp_eq. rewrite length_app, repeat_length, (take_ge (cstr "grant")) by done.
    rewrite (proj2 (Nat.leb_le 5 _)) by (unfold BUF_LEN in *; lia). cbn [andb].
    change (5 <=? length (cstr "grant"))%nat with true. cbn iota. f_equal.
    apply eq_bool_prop_intro. rewrite bool_decide_spec, Is_true_true, is_prefix_spec. split.
    - intros E. destruct (decide (5 <= length d)%nat).
      + rewrite take_app_le in E by done. exists (drop 5 d). by rewrite <- E, take_drop.
      + rewrite take_app_ge in E by lia. exfalso.
        assert (0 ∈ cstr "grant") as H1.
        { rewrite <- E. destruct (5 - length d)%nat eqn:E5; [lia|].
          destruct (BUF_LEN - length d)%nat eqn:E8; [unfold BUF_LEN in E8; lia|]. cbn. set_solver. }
        revert H1. by apply (bool_decide_unpack _); vm_compute.
    - intros [k ->]. rewrite <- app_assoc. apply (take_app_length (cstr "grant")). }
  cbn [mbind out_bind]. set (msg := if negb (is_prefix (cstr "grant") d) then grant else deny).
  assert (length msg = 29%nat) as Hm by (subst msg; by destruct (is_prefix _ d)).
  rewrite blit_0 by (rewrite length_app, Hm; cbn [length send_buffer set_state]; rewrite Hb; unfold SEND_BUFF_LEN; lia).
  cbn [mbind out_bind d_position d_answer d_ctx d_world send_buffer set_send].
  rewrite slice_0_app by (rewrite length_app, Hm; reflexivity). cbn [mbind out_bind].
  subst msg. by destruct (is_prefix (cstr "grant") d); eexists.
Qed.

Lemma length_deny : length deny = 29%nat.
Proof. reflexivity. Qed.

(** a request that is not recognised is denied, but first 4096 bytes of the
    received block are overwritten: with a block of any smaller size, whatever
    the request, the server writes behind it. *)
Lemma unknown_request_overwrites c text junk n t code ctx w :
  asks c text junk n t code -> (code < 0 \/ 9 < code) -> state ctx = 0 ->
  length (send_buffer ctx) = SEND_BUFF_LEN ->
  if (length (text ++ 0%Z :: junk) <? SEND_BUFF_LEN)%nat then serve c ctx w = Undef OobWrite
  else exists ctx', serve c ctx w = Ret (Answer (deny ++ [0]), ctx', w).
Proof.
  intros (Ha & Hr & Hn & Hp & Hc) Hcode H0 Hb. unfold serve. rewrite H0, Ha, Hr. cbn [Z.eqb deref mbind out_bind].
  unfold calculate_decision. rewrite c_str_app by done. cbn [mbind out_bind].
  rewrite Hp. cbn beta iota zeta. rewrite Hc.
  unfold COMMAND_RESOLVE, COMMAND_GET_POL_LIST, COMMAND_ENABLE_POLICY, COMMAND_SET_DATASET,
    COMMAND_GET_DATASET, COMMAND_GET_USER_OBJ, COMMAND_GET_USERID, COMMAND_REDISTER_USER,
    COMMAND_GET_ALL_USER, COMMAND_CLEAR_ALL_USER.
  rewrite !(proj2 (Z.eqb_neq code _)) by lia. cbn [orb].
  destruct (Nat.ltb_spec (length (text ++ 0 :: junk)) SEND_BUFF_LEN) as [Hs|Hs].
  - by rewrite (blit_oob (text ++ 0 :: junk)) by (rewrite repeat_length; lia).
  - rewrite (blit_0 (text ++ 0 :: junk)) by (rewrite repeat_length; lia). cbn [mbind out_bind].
    rewrite blit_0 by (rewrite length_app, length_deny; cbn [length send_buffer set_state]; rewrite Hb; unfold SEND_BUFF_LEN; lia).
    cbn [mbind out_bind d_position d_answer d_ctx d_world send_buffer set_send].
    rewrite slice_0_app by (rewrite length_app, length_deny; reflexivity). cbn [mbind out_bind]. eauto.
Qed.

(** the name in a request to the user management is copied whole up to 127
    bytes; a longer one is written behind its 128-byte array. *)
Lemma username_copied recv t i pre name post :
  recv = pre ++ name ++ post -> no_nul name -> jsonhelper_get_token_start t i = Z.of_nat (length pre) ->
  jsonhelper_token_size t i = Z.of_nat (length name) ->
  if (length name <? USERNAME_LEN)%nat
  then exists b, copy_token (repeat 0 USERNAME_LEN) recv t i = Ret b /\ c_str b = Ret name
  else copy_token (repeat 0 USERNAME_LEN) recv t i = Undef OobWrite.
Proof.
  intros -> Hn Hs Hsz. unfold copy_token. rewrite Hs, tail_from_app by done. cbn [mbind out_bind].
  rewrite Hsz. unfold ensure. zdec. cbn [mbind out_bind]. rewrite Nat2Z.id.
  unfold strncpy. rewrite take_app_length, before_nul_id by done.
  rewrite length_app, Nat.sub_diag, (proj2 (Nat.ltb_ge (length name + length post) (length name))) by lia. rewrite andb_false_r.
  cbn [repeat]. rewrite app_nil_r.
  destruct (Nat.ltb_spec (length name) USERNAME_LEN) as [Hl|Hl].
  - rewrite blit_0 by (rewrite repeat_length; lia). cbn [mbind out_bind].
    rewrite drop_repeat. destruct (USERNAME_LEN - length name)%nat eqn:E; [lia|]. cbn [repeat].
    rewrite store_app by done. eexists. split; [done|]. by apply c_str_app.
  - destruct (decide (length name = USERNAME_LEN)) as [E|].
    + rewrite blit_0 by (rewrite repeat_length; lia). cbn [mbind out_bind]. rewrite store_oob; [done|].
      rewrite length_app, length_drop, repeat_length. lia.
    + by rewrite blit_oob by (rewrite repeat_length; lia).
Qed.
End ServerFacts.

(** ** A concrete server *)

Module NetworkWitness.
(** The first byte of a request is its code; the core grants unless the text
    ends with a z; the world counts the decisions. *)
#[export] Instance toy_server : ServerSdk := {
  world := Z;
  jtokens := unit;
  jsonhelper_parser_init _ := (0, tt);
  jsonhelper_get_token_start _ i := 1 + i;
  jsonhelper_token_size _ _ := 3;
  jsonhelper_token_is_array _ _ := false;
  jsonhelper_token_end _ _ := 0;
  auth_helper_check_msg_format text _ := match text with c :: _ => c - 65 | [] => -1 end;
  pep_request_access text w :=
    (if bool_decide (list.last text = Some 122) then cstr "deny" else cstr "grant", w + 1);
  pip_set_dataset _ _ w := w;
  pip_get_dataset _ := ([], 0);
  PAP_USERMNG_GET_USER := 0; PAP_USERMNG_GET_USER_ID := 1; PAP_USERMNG_PUT_USER := 2;
  PAP_USERMNG_GET_ALL_USR := 3; PAP_USERMNG_CLR_ALL_USR := 4;
  pap_user_management_action _ name w := (name ++ [0], w)
}.

Definition idle : network_ctx_internal_t :=
  {| state := 0; DAC_AUTH := 1; send_buffer := repeat 0 SEND_BUFF_LEN; port := 9998; end_flag := 0 |}.
Definition client (auth : bool) (text : bytes) : client_conn := {| authenticated := auth; request := Some (text ++ [0]) |}.

Lemma client_asks text code :
  no_nul text -> auth_helper_check_msg_format text tt = code -> asks (client true text) text [] 0 (tt : jtokens) code.
Proof. intros Hn Hc. split_and!; done. Qed.

Definition three : list client_conn :=
  [client false (cstr "Ax"); client true (cstr "Az"); client false (cstr "A")].
Definition after_three : list sent * network_ctx_internal_t * world :=
  match serve_all three idle (0 : world) with Ret r => r | Undef _ => ([], idle, 0 : world) end.

Lemma unauthenticated_clients_no_effect_witness :
  serve_all [client true (cstr "Az")] idle (0 : world) = Ret ([Answer (grant ++ [0])], after_three.1.2, 1 : world)
  /\ keep [true; false; true] after_three.1.1
     = [Plain (auth_error ++ [0]); Plain (auth_error ++ [0])].
Proof.
  refine (unauthenticated_clients_no_effect three idle (0 : world) after_three.1.1 after_three.1.2 (1 : world) eq_refl _).
  vm_compute. reflexivity.
Defined.

Lemma resolve_answer_inverted_witness :
  exists ctx', serve (client true (cstr "A")) idle (0 : world) = Ret (Answer (deny ++ [0]), ctx', 1 : world).
Proof.
  refine (resolve_answer_inverted (client true (cstr "A")) (cstr "A") [] 0 (tt : jtokens) idle (0 : world)
            (cstr "grant") (1 : world) _ eq_refl eq_refl eq_refl _).
  - apply client_asks; [by apply (bool_decide_unpack _); vm_compute | reflexivity].
  - cbn; unfold BUF_LEN; lia.
Defined.

Lemma unknown_request_overwrites_witness :
  serve (client true (cstr "Z")) idle (0 : world) = Undef OobWrite.
Proof.
  refine (unknown_request_overwrites (client true (cstr "Z")) (cstr "Z") [] 0 (tt : jtokens) 25 idle (0 : world)
            _ _ eq_refl eq_refl).
  - apply client_asks; [by apply (bool_decide_unpack _); vm_compute | reflexivity].
  - lia.
Defined.

Lemma username_copied_witness :
  exists b, copy_token (repeat 0 USERNAME_LEN) (cstr "xbob!") (tt : jtokens) 0 = Ret b /\ c_str b = Ret (cstr "bob").
Proof.
  refine (username_copied (cstr "xbob!") (tt : jtokens) 0 (cstr "x") (cstr "bob") (cstr "!") eq_refl _ eq_refl eq_refl).
  by apply (bool_decide_unpack _); vm_compute.
Defined.
End NetworkWitness.
