(* ===== verification/TxStore.v ===== *)
(** * The transaction bill (src/portability/os/posix/posix.c)

    Payments are remembered in one text file, a line per transaction.  The
    wallet plugins call the functions of a header that is not in the repository
    ([rpitransaction_*] of rpi_trans.h): these are the interface
    [TransactionStore], with the law [TransactionStoreOk] for the calls about
    one policy.  posix.c has four functions of the same form under other names,
    [posix_transaction_*], which nothing in the repository calls; over the file
    system of CStd.v they are an implementation of the interface.  Memory from [malloc] and the stack holds
    what [garbage] says; allocations of a few hundred bytes succeed. *)

From S2P Require Import Prelude CStd.

(** What the wallet plugins call: [rpitransaction_*]. *)
Class TransactionStore (St : Type) := {
  tx_store : option bytes -> Z -> St -> out (bool * St);
  tx_update_payment_status : option bytes -> Z -> bool -> St -> out (bool * St);
  tx_is_stored : option bytes -> St -> out bool;
  tx_is_verified : option bytes -> Z -> St -> out bool
}.

(** The path written out in each of the four functions. *)
Definition BILL : bytes := cstr "../plugins/data/transactions/platforms/r_pi/bill".

(** The text up to the status digit. *)
Definition tx_key (id : bytes) : bytes := cstr "policy_id:" ++ id ++ cstr ",validated:".

(** [n] bytes nobody has written yet. *)
Definition fresh (garbage : nat -> Z) (n : nat) : bytes := map garbage (seq 0 n).

Section Posix.
Context (garbage : nat -> Z).

Definition posix_transaction_store (policy_id : option bytes) (policy_id_len : Z) (fs : fsys)
    : out (bool * fsys) :=
  match policy_id with
  | None => Ret (false, fs)
  | Some policy_id =>
      let line_len := 10 + policy_id_len + 13 + 1 in
      let line := fresh garbage (Z.to_nat line_len) in
      id ← c_str policy_id;
      line ← blit line 0 (cstr "policy_id:" ++ id ++ cstr ",validated:0" ++ [10] ++ [0]);
      match fopen_a fs BILL with
      | None => Ret (false, fs)
      | Some fs => data ← slice 0 line_len line; Ret (true, fwrite BILL data fs)
      end
  end.

(** The search line: [malloc(line_len + 1)] and the [sprintf] into it. *)
Definition search_line (policy_id : bytes) (line_len : Z) : out bytes :=
  id ← c_str policy_id;
  line ← blit (fresh garbage (Z.to_nat (line_len + 1))) 0 (tx_key id ++ [0]);
  c_str line.

Definition posix_transaction_update_payment_status (policy_id : option bytes) (policy_id_len : Z)
    (is_verified : bool) (fs : fsys) : out (bool * fsys) :=
  match policy_id with
  | None => Ret (false, fs)
  | Some policy_id =>
      match fopen_r fs BILL with
      | None => Ret (false, fs)
      | Some buff =>
          let line_len := 10 + policy_id_len + 11 in
          line ← search_line policy_id line_len;
          t ← strstr buff line;
          transaction ← deref t;
          buff ← store buff (Z.of_nat transaction + line_len) (if is_verified then 49 else 48);
          match fopen_w fs BILL with
          | None => Ret (false, fs)
          | Some fs => Ret (true, fwrite BILL buff fs)
          end
      end
  end.

Definition posix_transaction_is_stored (policy_id : option bytes) (fs : fsys) : out bool :=
  match policy_id with
  | None => Ret false
  | Some policy_id =>
      match fopen_r fs BILL with
      | None => Ret false
      | Some buff => id ← c_str policy_id; t ← strstr buff id; Ret (bool_decide (is_Some t))
      end
  end.

Definition posix_transaction_is_verified (policy_id : option bytes) (policy_id_len : Z) (fs : fsys)
    : out bool :=
  match policy_id with
  | None => Ret false
  | Some policy_id =>
      match fopen_r fs BILL with
      | None => Ret false
      | Some buff =>
          let line_len := 10 + policy_id_len + 11 in
          line ← search_line policy_id line_len;
          t ← strstr buff line;
          transaction ← deref t;
          c ← load buff (Z.of_nat transaction + line_len);
          Ret (c =? 49)
      end
  end.

(** The functions of posix.c in the place of [rpitransaction_*]. *)
#[export] Instance posix_store : TransactionStore fsys := {
  tx_store := posix_transaction_store;
  tx_update_payment_status := posix_transaction_update_payment_status;
  tx_is_stored := posix_transaction_is_stored;
  tx_is_verified := posix_transaction_is_verified
}.
End Posix.

(** ** Calls and histories *)

Inductive tx_call : Set := TxStore | TxUpdate (v : bool) | TxIsStored | TxIsVerified.

(** One call about a policy whose identifier is the C string at [id]. *)
Definition tx_step {St} `{TransactionStore St} (id : bytes) (len : Z) (c : tx_call) (s : St)
    : out (bool * St) :=
  match c with
  | TxStore => tx_store (Some id) len s
  | TxUpdate v => tx_update_payment_status (Some id) len v s
  | TxIsStored => b ← tx_is_stored (Some id) s; Ret (b, s)
  | TxIsVerified => b ← tx_is_verified (Some id) len s; Ret (b, s)
  end.

Fixpoint tx_run {St} `{TransactionStore St} (id : bytes) (len : Z) (cs : list tx_call) (s : St)
    : out (list bool * St) :=
  match cs with
  | [] => Ret ([], s)
  | c :: cs => r ← tx_step id len c s; rs ← tx_run id len cs r.2; Ret (r.1 :: rs.1, rs.2)
  end.

(** ** The abstract bill of one policy: not stored, or its status *)

Definition abs_step (c : tx_call) (s : option bool) : bool * option bool :=
  match c, s with
  | TxStore, None => (true, Some false)
  | TxStore, Some b => (true, Some b)
  | TxUpdate v, Some _ => (true, Some v)
  | TxIsStored, Some _ => (true, s)
  | TxIsVerified, Some b => (b, s)
  | _, None => (false, None)
  end.

Fixpoint abs_run (cs : list tx_call) (s : option bool) : list bool :=
  match cs with
  | [] => []
  | c :: cs => let '(b, s) := abs_step c s in b :: abs_run cs s
  end.

(** The law of a store, for the calls about one policy: [holds id st s] says that
    the store [s] remembers [st] of the policy [id]. *)
Class TransactionStoreOk {St} `{TransactionStore St} (holds : bytes -> option bool -> St -> Prop) : Prop :=
  tx_step_ok id junk c st s :
    no_nul id -> holds id st s ->
    exists s', tx_step (id ++ 0 :: junk) (Z.of_nat (length id)) c s = Ret ((abs_step c st).1, s')
               /\ holds id (abs_step c st).2 s'.

(** The file system lets the process write the bill. *)
Definition usable (fs : fsys) : Prop :=
  is_denied fs BILL = false /\ dir_exists fs (dirname BILL) = true.

Definition digit (b : bool) : Z := if b then 49 else 48.

(** The bill whose first line is about [id]: every line ends with a newline
    and the NUL that [line_len] counts. *)
Definition bill (id : bytes) (b : bool) (rest : bytes) : bytes :=
  tx_key id ++ digit b :: 10 :: 0 :: rest.

Definition bill_is (id : bytes) (s : option bool) (fs : fsys) : Prop :=
  usable fs /\
  match s with
  | None => files fs !! BILL = None
  | Some b => exists rest, files fs !! BILL = Some (bill id b rest)
  end.

Lemma length_fresh g n : length (fresh g n) = n.
Proof. unfold fresh. by rewrite length_map, length_seq. Qed.

Lemma usable_upd f fs : usable fs -> usable (upd_files f fs).
Proof. done. Qed.

Lemma usable_append fs data :
  usable fs ->
  exists fs1, fopen_a fs BILL = Some fs1 /\
    fwrite BILL data fs1 = upd_files <[BILL := default [] (files fs !! BILL) ++ data]> fs.
Proof.
  intros [Hd He]. unfold fopen_a. rewrite Hd, He. eexists. split; [done|].
  generalize BILL. intros p. apply (fwrite_insert p (default [] (files fs !! p)) data fs).
Qed.

Lemma usable_rewrite fs data :
  usable fs ->
  exists fs1, fopen_w fs BILL = Some fs1 /\ fwrite BILL data fs1 = upd_files <[BILL := data]> fs.
Proof.
  intros [Hd He]. unfold fopen_w. rewrite Hd, He. eexists. split; [done|].
  generalize BILL. intros p. apply (fwrite_insert p []).
Qed.

Lemma usable_read fs : usable fs -> fopen_r fs BILL = files fs !! BILL.
Proof. intros [Hd _]. unfold fopen_r. by rewrite Hd. Qed.

Lemma files_upd_insert p c fs : files (upd_files <[p := c]> fs) !! p = Some c.
Proof. cbn. by rewrite lookup_insert, decide_True. Qed.

Lemma length_tx_key id : Z.of_nat (length (tx_key id)) = 10 + Z.of_nat (length id) + 11.
Proof. unfold tx_key. rewrite !length_app. cbn [length cstr map String.list_ascii_of_string]. lia. Qed.

Lemma no_nul_tx_key id : no_nul id -> no_nul (tx_key id).
Proof.
  unfold no_nul, tx_key. rewrite !elem_of_app. intros H [H'|[H'|H']]; [|done|].
  - revert H'. apply (bool_decide_unpack _); vm_compute; exact I.
  - revert H'. apply (bool_decide_unpack _); vm_compute; exact I.
Qed.

Section Bill.
Context (garbage : nat -> Z) (id junk : bytes) (Hid : no_nul id).
Abbreviation len := (Z.of_nat (length id)).
Abbreviation idp := (Some (id ++ 0 :: junk)).

Lemma search_line_key : search_line garbage (id ++ 0 :: junk) (10 + len + 11) = Ret (tx_key id).
Proof.
  unfold search_line. rewrite c_str_app by done. cbn [mbind out_bind].
  pose proof (length_tx_key id) as L.
  rewrite blit_0 by (rewrite length_fresh, length_app; cbn [length]; lia). cbn [mbind out_bind].
  rewrite <- app_assoc. apply c_str_app. by apply no_nul_tx_key.
Qed.

Lemma store_appends fs :
  usable fs ->
  posix_transaction_store garbage idp len fs =
  Ret (true, upd_files <[BILL := default [] (files fs !! BILL) ++ bill id false []]> fs).
Proof.
  intros Hu. cbn beta iota delta [posix_transaction_store].
  rewrite c_str_app by done. cbn [mbind out_bind].
  assert (cstr "policy_id:" ++ id ++ cstr ",validated:0" ++ [10] ++ [0] = bill id false []) as ->.
  { unfold bill, tx_key. by rewrite <- !app_assoc. }
  pose proof (length_tx_key id) as L.
  rewrite blit_0 by (rewrite length_fresh; unfold bill; rewrite length_app; cbn [length]; lia).
  cbn [mbind out_bind]. destruct (usable_append fs (bill id false []) Hu) as (fs1 & -> & E).
  rewrite slice_0_app by (unfold bill; rewrite length_app; cbn [length]; lia). cbn [mbind out_bind].
  by rewrite E.
Qed.

(** What is visible of the bill: its first line. *)
Lemma strstr_first_line id1 b rest p :
  no_nul id1 -> strstr (bill id1 b rest) p = Ret (find_sub p (tx_key id1 ++ [digit b; 10])).
Proof.
  intros H1. unfold strstr, bill.
  assert (tx_key id1 ++ digit b :: 10 :: 0 :: rest = (tx_key id1 ++ [digit b; 10]) ++ 0 :: rest) as ->.
  { by rewrite <- app_assoc. }
  rewrite c_str_app; [done|]. unfold no_nul. rewrite elem_of_app. intros [H|H].
  - by apply (no_nul_tx_key id1 H1).
  - destruct b; set_solver.
Qed.

Lemma strstr_bill b rest : strstr (bill id b rest) (tx_key id) = Ret (Some 0%nat).
Proof.
  rewrite strstr_first_line by done. by rewrite find_sub_here.
Qed.

Lemma update_bill b v rest fs :
  usable fs -> files fs !! BILL = Some (bill id b rest) ->
  posix_transaction_update_payment_status garbage idp len v fs =
  Ret (true, upd_files <[BILL := bill id v rest]> fs).
Proof.
  intros Hu Hf. cbn beta iota delta [posix_transaction_update_payment_status].
  rewrite usable_read, Hf by done. cbn beta iota zeta. rewrite search_line_key. cbn [mbind out_bind].
  rewrite strstr_bill. cbn [mbind out_bind deref].
  pose proof (length_tx_key id). unfold bill at 1. rewrite store_app by lia. cbn [mbind out_bind].
  destruct (usable_rewrite fs (bill id v rest) Hu) as (fs1 & -> & E).
  destruct v; exact (f_equal (fun x => Ret (true, x)) E).
Qed.

Lemma is_verified_bill b rest fs :
  usable fs -> files fs !! BILL = Some (bill id b rest) ->
  posix_transaction_is_verified garbage idp len fs = Ret b.
Proof.
  intros Hu Hf. cbn beta iota delta [posix_transaction_is_verified].
  rewrite usable_read, Hf by done. cbn beta iota zeta. rewrite search_line_key. cbn [mbind out_bind].
  rewrite strstr_bill. cbn [mbind out_bind deref].
  pose proof (length_tx_key id). unfold bill. rewrite load_app by lia. by destruct b.
Qed.

Lemma find_id_in_line b : exists i, find_sub id (tx_key id ++ [digit b; 10]) = Some i.
Proof.
  unfold tx_key. rewrite <- !app_assoc.
  generalize (cstr "policy_id:"). intros pre. induction pre as [|c pre IH]; cbn [app].
  - exists 0%nat. apply find_sub_here.
  - cbn [find_sub]. destruct (is_prefix id _); [by eexists|].
    destruct IH as [i ->]. by eexists.
Qed.

Lemma is_stored_bill b rest fs :
  usable fs -> files fs !! BILL = Some (bill id b rest) ->
  posix_transaction_is_stored idp fs = Ret true.
Proof.
  intros Hu Hf. cbn beta iota delta [posix_transaction_is_stored].
  rewrite usable_read, Hf by done. rewrite c_str_app by done. cbn [mbind out_bind].
  rewrite strstr_first_line by done. destruct (find_id_in_line b) as [i ->]. done.
Qed.

(** One call on the file agrees with the abstract bill. *)
Lemma tx_step_refines c s fs :
  bill_is id s fs ->
  exists fs', tx_step (H := posix_store garbage) (id ++ 0 :: junk) len c fs
              = Ret ((abs_step c s).1, fs') /\ bill_is id (abs_step c s).2 fs'.
Proof.
  intros [Hu Hs]. pose proof (usable_read fs Hu) as Hr.
  destruct s as [b|]; [destruct Hs as [rest Hs]|].
  - destruct c as [|v| |]; cbn [tx_step tx_store tx_update_payment_status tx_is_stored
      tx_is_verified posix_store abs_step fst snd].
    + rewrite store_appends, Hs by done. eexists. split; [done|]. split; [by apply usable_upd|].
      rewrite files_upd_insert. cbn [default Datatypes.id].
      exists (rest ++ bill id false []). 
      unfold bill. by rewrite <- app_assoc.
    + erewrite update_bill by done. eexists. split; [done|]. split; [by apply usable_upd|].
      exists rest. apply files_upd_insert.
    + erewrite is_stored_bill by done. exists fs. split; [done|]. split; eauto.
    + erewrite is_verified_bill by done. exists fs. split; [done|]. split; eauto.
  - rewrite Hs in Hr.
    destruct c as [|v| |]; cbn [tx_step tx_store tx_update_payment_status tx_is_stored
      tx_is_verified posix_store abs_step fst snd].
    + rewrite store_appends, Hs by done. eexists. split; [done|]. split; [by apply usable_upd|].
      exists []. apply files_upd_insert.
    + cbn beta iota delta [posix_transaction_update_payment_status]. rewrite Hr. eexists. split; [done|]. by split.
    + cbn beta iota delta [posix_transaction_is_stored]. rewrite Hr. eexists. split; [done|]. by split.
    + cbn beta iota delta [posix_transaction_is_verified]. rewrite Hr. eexists. split; [done|]. by split.
Qed.
End Bill.

#[export] Instance posix_store_ok garbage : TransactionStoreOk (H := posix_store garbage) bill_is.
Proof. intros id junk c st s Hid. by apply tx_step_refines. Qed.

(** C26: As long as the bill is only asked about one policy, it behaves as one
    remembered status: any sequence of stores, status updates and queries from
    a missing file is answered as the abstract bill answers it, without
    undefined behaviour. *)
Theorem posix_bill_refines garbage id junk cs fs :
  no_nul id -> usable fs -> files fs !! BILL = None ->
  exists fs', tx_run (H := posix_store garbage)
                (id ++ 0 :: junk) (Z.of_nat (length id)) cs fs = Ret (abs_run cs None, fs').
Proof.
  intros Hid Hu Hf.
  assert (forall s fs, bill_is id s fs ->
    exists fs', tx_run (H := posix_store garbage)
                (id ++ 0 :: junk) (Z.of_nat (length id)) cs fs = Ret (abs_run cs s, fs')) as G.
  { induction cs as [|c cs IH]; intros s f Hb; cbn [tx_run abs_run]; [by eexists|].
    destruct (tx_step_refines garbage id junk Hid c s f Hb) as (f' & -> & Hb').
    cbn [mbind out_bind snd fst]. destruct (IH _ f' Hb') as [f'' ->].
    cbn [mbind out_bind snd fst]. destruct (abs_step c s). by eexists. }
  apply G. by split.
Qed.

(** Every line is written with its terminating NUL, so the first line hides
    all others: after a second policy is stored, it counts as not stored, and
    both asking for its status and updating it dereference a null pointer. *)
Lemma second_transaction_lost garbage id1 id2 v fs :
  no_nul id1 -> no_nul id2 -> usable fs -> files fs !! BILL = None ->
  find_sub id2 (tx_key id1 ++ [48; 10]) = None ->
  exists fs1 fs2,
    posix_transaction_store garbage (Some (id1 ++ [0])) (Z.of_nat (length id1)) fs = Ret (true, fs1) /\
    posix_transaction_store garbage (Some (id2 ++ [0])) (Z.of_nat (length id2)) fs1 = Ret (true, fs2) /\
    posix_transaction_is_stored (Some (id2 ++ [0])) fs2 = Ret false /\
    posix_transaction_is_verified garbage (Some (id2 ++ [0])) (Z.of_nat (length id2)) fs2
      = Undef NullDeref /\
    posix_transaction_update_payment_status garbage (Some (id2 ++ [0])) (Z.of_nat (length id2)) v fs2
      = Undef NullDeref.
Proof.
  intros H1 H2 Hu Hf Hno.
  pose proof (store_appends garbage id1 [] H1 fs Hu) as E1. rewrite Hf in E1.
  cbn [default Datatypes.id app] in E1. eexists _, _. split; [exact E1|].
  split; [apply store_appends; [done | by apply usable_upd]|].
  rewrite files_upd_insert. cbn [default Datatypes.id].
  assert (bill id1 false [] ++ bill id2 false [] = bill id1 false (bill id2 false [])) as ->.
  { unfold bill. by rewrite <- app_assoc. }
  assert (find_sub (tx_key id2) (tx_key id1 ++ [48; 10]) = None) as Hk.
  { destruct (find_sub (tx_key id2) (tx_key id1 ++ [48; 10])) as [i|] eqn:F; [|done]. exfalso.
    apply find_sub_Some in F as (a & k & E & _ & _). unfold tx_key at 2 in E.
    rewrite <- !app_assoc in E. rewrite E in Hno.
    rewrite (app_assoc a) in Hno. revert Hno.
    generalize (a ++ cstr "policy_id:"). intros pre. induction pre as [|c pre IH]; cbn [app].
    - by rewrite find_sub_here.
    - cbn [find_sub]. destruct (is_prefix id2 _); [done|].
      destruct (find_sub id2 _); [done|]. auto. }
  repeat split.
  - cbn beta iota delta [posix_transaction_is_stored].
    rewrite usable_read, files_upd_insert by done. rewrite c_str_app by done. cbn [mbind out_bind].
    rewrite (strstr_first_line id1) by done. cbn [digit]. by rewrite Hno.
  - cbn beta iota delta [posix_transaction_is_verified].
    rewrite usable_read, files_upd_insert by done.
    cbn beta iota zeta. rewrite search_line_key by done. cbn [mbind out_bind].
    rewrite (strstr_first_line id1) by done. cbn [digit]. by rewrite Hk.
  - cbn beta iota delta [posix_transaction_update_payment_status].
    rewrite usable_read, files_upd_insert by done.
    cbn beta iota zeta. rewrite search_line_key by done. cbn [mbind out_bind].
    rewrite (strstr_first_line id1) by done. cbn [digit]. by rewrite Hk.
Qed.

Module TxWitness.

Definition fs0 : fsys := Fsys ∅ {[ dirname BILL ]} ∅.

Lemma fs0_usable : usable fs0.
Proof. split; apply (bool_decide_unpack _); vm_compute; exact I. Qed.

Lemma posix_bill_refines_witness :
  exists fs', tx_run (H := posix_store (fun _ => 170)) (cstr "p1" ++ [0]) 2
    [TxIsStored; TxStore; TxIsVerified; TxUpdate true; TxIsVerified; TxStore; TxIsStored] fs0
    = Ret ([false; true; false; true; true; true; true], fs').
Proof.
  apply (posix_bill_refines (fun _ => 170) (cstr "p1") []
    [TxIsStored; TxStore; TxIsVerified; TxUpdate true; TxIsVerified; TxStore; TxIsStored] fs0).
  - apply (bool_decide_unpack _); vm_compute; exact I.
  - exact fs0_usable.
  - reflexivity.
Defined.

Lemma second_transaction_lost_witness :
  exists fs1 fs2,
    posix_transaction_store (fun _ => 0) (Some (cstr "p1" ++ [0])) 2 fs0 = Ret (true, fs1) /\
    posix_transaction_store (fun _ => 0) (Some (cstr "p2" ++ [0])) 2 fs1 = Ret (true, fs2) /\
    posix_transaction_is_stored (Some (cstr "p2" ++ [0])) fs2 = Ret false /\
    posix_transaction_is_verified (fun _ => 0) (Some (cstr "p2" ++ [0])) 2 fs2 = Undef NullDeref /\
    posix_transaction_update_payment_status (fun _ => 0) (Some (cstr "p2" ++ [0])) 2 true fs2
      = Undef NullDeref.
Proof.
  apply (second_transaction_lost (fun _ => 0) (cstr "p1") (cstr "p2") true fs0).
  - apply (bool_decide_unpack _); vm_compute; exact I.
  - apply (bool_decide_unpack _); vm_compute; exact I.
  - exact fs0_usable.
  - reflexivity.
  - vm_compute. reflexivity.
Defined.

End TxWitness.
