(* ===== verification/WalletPlugins.v ===== *)
(** * The wallet plugins
      (src/plugins/pep/wallet/pep_plugin_wallet.c,
       src/plugins/pip/wallet/pip_plugin_wallet.c)

    The enforcement plugin pays and remembers a payment until it is confirmed;
    the information plugin answers whether a policy was paid for.  Both are
    written against the transaction store of TxStore.v and the wallet.  The
    pending payments are a table of 64 services; a service's thread calls
    [transaction_confirmation], without the lock, when it ends. *)

From S2P Require Import Prelude CStd Config Wallet Relay PepPlugins TxStore.

Definition TRANS_CONF_SERV_MAX_NUM : nat := 64.
Definition TRANS_INTERVAL_S : Z := 30.
Definition TRANS_TIMEOUT_S : Z := 120.
Definition RES_POL_ID_STR_LEN : Z := 64.
Definition RES_MAX_STR_LEN : nat := 512.
Definition RES_SEED_LEN : nat := 81 + 1.
Definition RES_MAX_PEM_LEN : nat := 4 * 1024.

(** The four bytes of an [int]. *)
Definition int_bytes (v : Z) : bytes :=
  map (fun i => Z.land (Z.shiftr (u32 v) (8 * i)) 255) [0; 1; 2; 3].

Section WalletPlugins.
Context `{IotaClient} {St : Type} `{TransactionStore St} (garbage : nat -> Z).

(** ** Start of both plugins *)

(** [config_manager_get_option_int(m, o, (int* )&var)]: four bytes to [var]. *)
Definition option_int_into (cfg : config_manager_t) (m o var : bytes) : out bytes :=
  r ← config_manager_get_option_int cfg m o 0;
  if r.1 =? CONFIG_MANAGER_OK then blit var 0 (int_bytes r.2) else Ret var.

Definition option_string_into (cfg : config_manager_t) (m o var : bytes) : out bytes :=
  r ← config_manager_get_option_string cfg m o var (Z.of_nat (length var)); Ret r.2.

(** The part the two initialisers share: the return code and the wallet. *)
Definition wallet_from_config (cfg : config_manager_t) (fs : fsys) (alloc : bool)
    : out (Z * option wallet_ctx_t) :=
  let m := cstr "wallet" in
  node_url ← option_string_into cfg m (cstr "url") (repeat 0 RES_MAX_STR_LEN);
  seed ← option_string_into cfg m (cstr "seed") (repeat 0 RES_SEED_LEN);
  pem_file ← option_string_into cfg m (cstr "pem_file_path") (repeat 0 RES_MAX_STR_LEN);
  node_mwm ← option_int_into cfg m (cstr "mwm") (fresh garbage 1);
  port ← option_int_into cfg m (cstr "port") (fresh garbage 2);
  node_depth ← option_int_into cfg m (cstr "depth") (fresh garbage 4);
  pem ← c_str pem_file;
  match pem with
  | [] => Ret (-1, None)
  | _ =>
      match fopen_r fs pem with
      | None => Ret (-1, None)
      | Some f =>
          ca_pem ← blit (repeat 0 RES_MAX_PEM_LEN) 0 (take RES_MAX_PEM_LEN f);
          match wallet_create alloc node_url (from_le port) ca_pem (from_le node_depth)
                  (from_le node_mwm) seed with
          | None => Ret (-1, None)
          | Some w => Ret (0, Some w)
          end
      end
  end.

(** ** The enforcement plugin *)

Record transaction_serv_confirm_t := {
  service : option (confirmation_service_t * Z);    (* with its [thread_id] *)
  policy_id : option bytes;
  policy_id_len : Z;
  transaction_confirmed : bool
}.

Definition empty_slot : transaction_serv_confirm_t :=
  {| service := None; policy_id := None; policy_id_len := 0; transaction_confirmed := false |}.

(** What a call finds outside: memory, the thread primitives, the node. *)
Record env := { e_alloc : bool; e_mutex : bool; e_thread : option Z; e_node : node }.

Record pep_state := { p_tx : St; p_service : list transaction_serv_confirm_t }.

Definition set_tx (s : St) (p : pep_state) : pep_state := {| p_tx := s; p_service := p_service p |}.
Definition set_service (l : list transaction_serv_confirm_t) (p : pep_state) : pep_state :=
  {| p_tx := p_tx p; p_service := l |}.

(** The loop that clears all confirmed services. *)
Fixpoint clear_confirmed (l : list transaction_serv_confirm_t)
    : out (list transaction_serv_confirm_t) :=
  match l with
  | [] => Ret []
  | e :: l =>
      e ← (if transaction_confirmed e then _ ← deref (service e); Ret empty_slot else Ret e);
      l ← clear_confirmed l; Ret (e :: l)
  end.

(** The index of the first available service, or the length of the table. *)
Fixpoint first_available (l : list transaction_serv_confirm_t) : nat :=
  match l with
  | [] => 0
  | e :: l => match service e with None => 0 | Some _ => S (first_available l) end
  end.

Definition transaction_store_transaction (dev_wallet : wallet_ctx_t) (policy_id : option bytes)
    (policy_id_len : Z) (transaction_hash : option bytes) (e : env) (p : pep_state)
    : out (bool * pep_state) :=
  match policy_id, transaction_hash with
  | Some _, Some hash =>
      r ← tx_store policy_id policy_id_len (p_tx p);
      let p := set_tx r.2 p in
      if negb r.1 then Ret (false, p) else
      if wallet_check_confirmation (e_alloc e) dev_wallet hash (e_node e) then
        r ← tx_update_payment_status policy_id policy_id_len true (p_tx p);
        Ret (r.1, set_tx r.2 p)
      else
        l ← clear_confirmed (p_service p);
        let i := first_available l in
        if (i =? TRANS_CONF_SERV_MAX_NUM)%nat then Ret (false, set_service l p) else
        s ← confirmation_service_start (e_alloc e) (e_mutex e) (bool_decide (is_Some (e_thread e)))
              dev_wallet hash TRANS_INTERVAL_S TRANS_TIMEOUT_S true;
        let slot := {| service := s ≫= (fun s => pair s <$> e_thread e);
                       policy_id := Some (fresh garbage (Z.to_nat policy_id_len));
                       policy_id_len := policy_id_len;
                       transaction_confirmed := false |} in
        Ret (true, set_service (<[i := slot]> l) p)
  | _, _ => Ret (false, p)
  end.

(** The search for the service of a thread; it visits empty slots too. *)
Fixpoint find_thread (l : list transaction_serv_confirm_t) (thread_id : Z) : out nat :=
  match l with
  | [] => Ret 0%nat
  | e :: l =>
      s ← deref (service e);
      if s.2 =? thread_id then Ret 0%nat else i ← find_thread l thread_id; Ret (S i)
  end.

Definition mark_confirmed (e : transaction_serv_confirm_t) : transaction_serv_confirm_t :=
  {| service := service e; policy_id := policy_id e; policy_id_len := policy_id_len e;
     transaction_confirmed := true |}.

Definition transaction_confirmation (is_confirmed : bool) (thread_id : Z) (p : pep_state)
    : out pep_state :=
  i ← find_thread (p_service p) thread_id;
  if (i =? TRANS_CONF_SERV_MAX_NUM)%nat then Ret p else
  e ← from_option Ret (Undef OobRead) (p_service p !! i);
  r ← tx_update_payment_status (policy_id e) (policy_id_len e) is_confirmed (p_tx p);
  let p := set_tx r.2 p in
  if negb r.1 then Ret p
  else Ret (set_service (alter mark_confirmed i (p_service p)) p).

(** The function of pip_plugin_wallet.c, on a table of its own that nothing fills,
    compiled with [USE_RPI]. *)
Definition pip_transaction_confirmation (is_confirmed : bool) (thread_id : Z) (p : pep_state)
    : out pep_state :=
  i ← find_thread (p_service p) thread_id;
  if (i =? TRANS_CONF_SERV_MAX_NUM)%nat then Ret p else
  e ← from_option Ret (Undef OobRead) (p_service p !! i);
  r ← tx_update_payment_status (policy_id e) (policy_id_len e) is_confirmed (p_tx p);
  if negb r.1 then Ret (set_tx r.2 p)
  else Ret (set_service (alter mark_confirmed i (p_service p)) (set_tx r.2 p)).

(** pdp_action_t, as far as the actions read it. *)
Record pdp_action_t := {
  value : bytes; pol_id_str : bytes; balance : Z; transaction_hash : bytes
}.

Definition demo_wallet_transfer_tokens (dev_wallet : wallet_ctx_t) (action : pdp_action_t)
    (s : pep_state * node) : out (Z * (pep_state * node)) :=
  r ← wallet_send (Some dev_wallet) ACTION_ADDRESS (balance action) None (fresh garbage 81) s.2;
  Ret (0, (s.1, r.2)).

Definition demo_wallet_store_transaction (dev_wallet : wallet_ctx_t) (e : env)
    (action : pdp_action_t) (s : pep_state * node) : out (Z * (pep_state * node)) :=
  r ← transaction_store_transaction dev_wallet (Some (pol_id_str action)) RES_POL_ID_STR_LEN
        (Some (transaction_hash action)) e s.1;
  Ret (0, (r.2, s.2)).

Definition wallet_actions (dev_wallet : wallet_ctx_t) (e : env) (action : pdp_action_t)
    : list (bytes * (pep_state * node -> out (Z * (pep_state * node)))) :=
  [ (action_name (cstr "action#3"), demo_wallet_transfer_tokens dev_wallet action);
    (action_name (cstr "action#4"), demo_wallet_store_transaction dev_wallet e action) ].

Definition wallet_action_cb (dev_wallet : wallet_ctx_t) (e : env) (action : pdp_action_t)
    (s : pep_state * node) : out (Z * (pep_state * node)) :=
  run_action (wallet_actions dev_wallet e action) (value action) s.

(** The plugin starts with an empty table when [mutexes] can be initialised. *)
Definition pep_plugin_wallet_initializer (cfg : config_manager_t) (fs : fsys)
    (alloc mutex1 mutex2 : bool) : out (Z * option wallet_ctx_t) :=
  r ← wallet_from_config cfg fs alloc;
  if negb (r.1 =? 0) then Ret r else
  if negb mutex1 then Ret (-1, None) else
  if negb mutex2 then Ret (-1, None) else Ret r.

(** ** The information plugin (built with USE_RPI) *)

Definition PROTOCOL_MAX_STR_LEN : nat := 256.
Definition PROTOCOL_WALLET_ADDR_LEN : nat := 81.

Inductive transaction_payment_state_e : Set := TRANS_NOT_PAYED | TRANS_PAYED | TRANS_PAYED_VERIFIED.

Definition recover_transaction (policy_id : option bytes) (policy_id_len : Z) (s : St)
    : out transaction_payment_state_e :=
  match policy_id with
  | None => Ret TRANS_NOT_PAYED
  | Some _ =>
      stored ← tx_is_stored policy_id s;
      if negb stored then Ret TRANS_NOT_PAYED else
      verified ← tx_is_verified policy_id policy_id_len s;
      Ret (if (verified : bool) then TRANS_PAYED_VERIFIED else TRANS_PAYED)
  end.

Definition payment_text (t : transaction_payment_state_e) : bytes :=
  match t with
  | TRANS_PAYED_VERIFIED => cstr "verified"
  | TRANS_PAYED => cstr "paid"
  | TRANS_NOT_PAYED => cstr "not_paid"
  end.

(** The attribute the caller passes, and the wallet, change. *)
Record pip_state := { attr_type : bytes; attr_value : bytes; pip_wallet : wallet_ctx_t }.

(** The four arrays of 256 bytes as the call finds them on the stack. *)
Record uri_arrays := { temp0 : bytes; pol_id0 : bytes; type0 : bytes; value0 : bytes }.

(** A token copied to the head of an array. *)
Definition copy_part (array t : bytes) : out bytes := blit array 0 (take PROTOCOL_MAX_STR_LEN t).

Definition pip_acquire_cb (arrays : uri_arrays) (uri : bytes) (n : node) (s : St) (a : pip_state) : out (Z * pip_state) :=
  u ← c_str uri;
  if (PROTOCOL_MAX_STR_LEN <? length u)%nat then Ret (-1, a) else
  temp ← blit (temp0 arrays) 0 u;
  t ← strtok_next 58 temp;
  ptr ← deref t; let '(tok, after, rest) := ptr in
  iota ← memcmp_eq (tok ++ 0 :: after) (cstr "iota") 4;
  if negb iota then Ret (-1, a) else
  t ← strtok_next 47 rest;
  ptr ← deref t; let '(tok, after, rest) := ptr in
  pol_id ← copy_part (pol_id0 arrays) tok;
  t ← strtok_next 63 rest;
  ptr ← deref t; let '(tok, after, rest) := ptr in
  type ← copy_part (type0 arrays) tok;
  t ← strtok_next 63 rest;
  ptr ← deref t; let '(tok, after, rest) := ptr in
  value ← copy_part (value0 arrays) tok;
  payed ← memcmp_eq type (cstr "request.isPayed.type") 20;
  if (payed : bool) then
    ty ← blit (attr_type a) 0 (cstr "string");
    id ← c_str pol_id;
    ret ← recover_transaction (Some pol_id) (Z.of_nat (length id)) s;
    v ← blit (attr_value a) 0 (payment_text ret);
    Ret (0, {| attr_type := ty; attr_value := v; pip_wallet := pip_wallet a |})
  else
    address ← memcmp_eq type (cstr "request.walletAddress.type") 26;
    if (address : bool) then
      r ← wallet_get_address (pip_wallet a) (repeat 0 PROTOCOL_WALLET_ADDR_LEN) 0 n;
      let '(_, w, addr_buf, _) := r in
      ty ← blit (attr_type a) 0 (cstr "string");
      v ← blit (attr_value a) 0 addr_buf;
      Ret (0, {| attr_type := ty; attr_value := v; pip_wallet := w |})
    else Ret (0, a).

Definition pip_plugin_wallet_initializer (cfg : config_manager_t) (fs : fsys) (alloc : bool)
    : out (Z * option wallet_ctx_t) := wallet_from_config cfg fs alloc.

End WalletPlugins.

(** ** A payment that has to wait *)

Section Pending.
Context `{IotaClient} {St : Type} `{TransactionStore St} (garbage : nat -> Z).

Lemma first_available_empty l :
  (first_available l < length l)%nat ->
  exists e, l !! first_available l = Some e /\ service e = None.
Proof.
  induction l as [|e l IH]; cbn [first_available length]; [lia|].
  destruct (service e) eqn:E; intros Hl; [|by exists e].
  destruct IH as (e' & He & Hs); [lia|]. by exists e'.
Qed.

Definition runs_thread (tid : Z) (e : transaction_serv_confirm_t) : Prop :=
  exists s, service e = Some (s, tid).

(** The table is searched up to the first free slot; a thread put there is found. *)
Lemma find_thread_placed l slot s tid :
  service slot = Some (s, tid) -> (first_available l < length l)%nat ->
  (forall j e, (j < first_available l)%nat -> l !! j = Some e -> ~ runs_thread tid e) ->
  find_thread (<[first_available l := slot]> l) tid = Ret (first_available l).
Proof.
  intros Hs. induction l as [|e l IH]; cbn [first_available length]; [lia|]. intros Hl Hne.
  destruct (service e) as [[se te]|] eqn:E.
  - change (<[S (first_available l) := slot]> (e :: l)) with (e :: <[first_available l := slot]> l).
    cbn [find_thread]. rewrite E. cbn [deref mbind out_bind snd].
    destruct (Z.eqb_spec te tid) as [->|Ht].
    { exfalso. apply (Hne 0%nat e); [lia | done | by exists se]. }
    rewrite IH; [done | lia |]. intros j e' Hj He'. apply (Hne (S j)); [lia | done].
  - cbn [insert list_insert find_thread]. rewrite Hs. cbn [deref mbind out_bind snd].
    by rewrite Z.eqb_refl.
Qed.

(** A free slot in front of a thread's slot, or in front of the end of the
    table for a thread that has none, is dereferenced. *)
Lemma find_thread_hole l tid :
  (first_available l < length l)%nat ->
  (forall j e, (j < first_available l)%nat -> l !! j = Some e -> ~ runs_thread tid e) ->
  find_thread l tid = Undef NullDeref.
Proof.
  induction l as [|e l IH]; cbn [first_available length]; [lia|]. intros Hl Hne.
  cbn [find_thread]. destruct (service e) as [[se te]|] eqn:E; [|done].
  cbn [deref mbind out_bind snd]. destruct (Z.eqb_spec te tid) as [->|Ht].
  { exfalso. apply (Hne 0%nat e); [lia | done | by exists se]. }
  rewrite IH; [done | lia |]. intros j e' Hj He'. apply (Hne (S j)); [lia | done].
Qed.

Lemma length_clear_confirmed l l' : clear_confirmed l = Ret l' -> length l' = length l.
Proof.
  revert l'; induction l as [|e l IH]; intros l'; cbn [clear_confirmed]; [by intros [= <-]|].
  rewrite bind_Ret. intros (e' & _ & E). apply bind_Ret in E as (l2 & E & [= <-]).
  cbn [length]. by rewrite (IH l2).
Qed.

(** A payment that is not confirmed at once is stored and waits in the
    first free slot, whose thread is found again when it reports; but the
    policy's identifier was never copied, so the status update is made for the
    uninitialised 64 bytes of the slot instead of for the policy. *)
Lemma pending_payment_loses_id w id hash e p s1 l tid :
  tx_store (Some id) RES_POL_ID_STR_LEN (p_tx p) = Ret (true, s1) ->
  wallet_check_confirmation (e_alloc e) w hash (e_node e) = false ->
  clear_confirmed (p_service p) = Ret l ->
  length (p_service p) = TRANS_CONF_SERV_MAX_NUM ->
  (first_available l < TRANS_CONF_SERV_MAX_NUM)%nat ->
  e_alloc e = true -> e_mutex e = true -> e_thread e = Some tid ->
  (NUM_TRYTES_HASH <= length hash)%nat ->
  (forall j x, (j < first_available l)%nat -> l !! j = Some x -> ~ runs_thread tid x) ->
  exists p1, transaction_store_transaction garbage w (Some id) RES_POL_ID_STR_LEN (Some hash) e p
             = Ret (true, p1)
    /\ p_tx p1 = s1
    /\ forall confirmed,
       transaction_confirmation confirmed tid p1
       = (r ← tx_update_payment_status (Some (fresh garbage 64)) RES_POL_ID_STR_LEN confirmed s1;
          let p2 := set_tx r.2 p1 in
          Ret (if (r.1 : bool) then set_service (alter mark_confirmed (first_available l) (p_service p1)) p2
               else p2)).
Proof.
  intros Hs Hc Hcl Hlen Hi Ha Hm Ht Hh Hne. pose proof (length_clear_confirmed _ _ Hcl) as Hll.
  unfold transaction_store_transaction. rewrite Hs. cbn [mbind out_bind fst snd negb].
  rewrite Hc. cbn [set_tx p_service]. rewrite Hcl. cbn [mbind out_bind]. zdec.
  unfold confirmation_service_start. rewrite Ha, Hm, Ht. cbn [ensure mbind out_bind].
  unfold slice. zdec. cbn [mbind out_bind is_Some negb].
  rewrite bool_decide_true by done. cbn [negb mbind out_bind option_bind fmap option_fmap option_map].
  set (serv := {| c_tx := _ |}). eexists. split; [reflexivity|]. split; [done|]. intros confirmed.
  unfold transaction_confirmation. cbn [p_service set_service set_tx].
  rewrite (find_thread_placed l _ serv) by first [ reflexivity | exact Hne | lia ]. cbn [mbind out_bind]. zdec.
  rewrite list_lookup_insert, decide_True by lia. cbn [from_option mbind out_bind policy_id policy_id_len p_tx p_service set_service set_tx].
  change (Z.to_nat RES_POL_ID_STR_LEN) with 64%nat.
  destruct (tx_update_payment_status _ _ _ s1) as [[b s2]|u]; cbn [mbind out_bind fst snd]; [|done].
  by destruct b.
Qed.
End Pending.

(** ** The answer to a policy engine *)

Definition abs_payment (s : option bool) : transaction_payment_state_e :=
  match s with None => TRANS_NOT_PAYED | Some false => TRANS_PAYED | Some true => TRANS_PAYED_VERIFIED end.

Lemma recover_held {St} `{TransactionStoreOk St holds} id junk st s :
  no_nul id -> holds id st s ->
  recover_transaction (Some (id ++ 0 :: junk)) (Z.of_nat (length id)) s = Ret (abs_payment st).
Proof.
  intros Hid Hb. unfold recover_transaction.
  destruct (tx_step_ok id junk TxIsStored st s Hid Hb) as (f1 & E1 & _).
  destruct (tx_step_ok id junk TxIsVerified st s Hid Hb) as (f2 & E2 & _).
  cbn [tx_step] in E1, E2. apply bind_Ret in E1 as (b1 & -> & [= -> _]).
  apply bind_Ret in E2 as (b2 & -> & [= -> _]).
  by destruct st as [[]|].
Qed.

(** A part that is shorter than its array stays in front of what the array held. *)
Lemma copy_part_short array t :
  length array = PROTOCOL_MAX_STR_LEN -> (length t <= PROTOCOL_MAX_STR_LEN)%nat ->
  copy_part array t = Ret (t ++ drop (length t) array).
Proof. intros Ha Hl. unfold copy_part. rewrite take_ge by done. apply blit_0. lia. Qed.

Lemma copy_part_defined array t :
  length array = PROTOCOL_MAX_STR_LEN -> exists b, copy_part array t = Ret b.
Proof.
  intros Ha. unfold copy_part. rewrite blit_0 by (rewrite length_take; lia). by eexists.
Qed.

Lemma memcmp_eq_app p k n : n = length p -> memcmp_eq (p ++ k) p n = Ret true.
Proof.
  intros ->. rewrite memcmp_eq_prefix; [by rewrite is_prefix_app|]. rewrite length_app. apply Nat.le_add_r.
Qed.

(** A URI [iota:<policy>/request.isPayed.type?<value>]. *)
Definition payed_uri (id v : bytes) : bytes :=
  cstr "iota" ++ 58 :: id ++ 47 :: cstr "request.isPayed.type" ++ 63 :: v.

(** The parts of a URI the parser takes for what they are. *)
Record uri_part (delim : Z) (t : bytes) : Prop := {
  part_some : t <> [];
  part_no_nul : no_nul t;
  part_no_delim : delim ∉ t
}.

Lemma c_str_payed_uri id v k :
  no_nul id -> no_nul v -> c_str (payed_uri id v ++ 0 :: k) = Ret (payed_uri id v).
Proof.
  intros Hi Hv. apply c_str_app. unfold no_nul, payed_uri.
  repeat first [ setoid_rewrite elem_of_app | setoid_rewrite elem_of_cons ].
  intros [E|[E|[E|[E|[E|[E|E]]]]]]; try done.
  - revert E. apply (bool_decide_unpack _); vm_compute; exact I.
  - revert E. apply (bool_decide_unpack _); vm_compute; exact I.
Qed.

Lemma length_payed_uri id v :
  length (payed_uri id v) = (27 + length id + length v)%nat.
Proof.
  assert (length (cstr "request.isPayed.type") = 20%nat) as E by reflexivity.
  unfold payed_uri. rewrite length_app, length_cons, length_app, length_cons, length_app, length_cons, E.
  change (length (cstr "iota")) with 4%nat. lia.
Qed.

(** What the first and the third call of [strtok] see. *)
Lemma payed_uri_scheme id v mem :
  strtok_next 58 (payed_uri id v ++ mem)
  = let rest := id ++ 47 :: cstr "request.isPayed.type" ++ 63 :: v ++ mem in
    Ret (Some (cstr "iota", rest, rest)).
Proof.
  unfold payed_uri. repeat (rewrite <- app_assoc; cbn [app]).
  apply strtok_next_delim; [done | | | done]; apply (bool_decide_unpack _); vm_compute; exact I.
Qed.

Lemma payed_uri_type mem :
  strtok_next 63 (cstr "request.isPayed.type" ++ 63 :: mem)
  = Ret (Some (cstr "request.isPayed.type", mem, mem)).
Proof. apply strtok_next_delim; [done | | | done]; apply (bool_decide_unpack _); vm_compute; exact I. Qed.

Lemma is_iota k : memcmp_eq (cstr "iota" ++ k) (cstr "iota") 4 = Ret true.
Proof. by apply memcmp_eq_app. Qed.

Lemma is_payed_type k :
  memcmp_eq (cstr "request.isPayed.type" ++ k) (cstr "request.isPayed.type") 20 = Ret true.
Proof. by apply memcmp_eq_app. Qed.

Lemma write_payment st (b : bytes) :
  (8 <= length b)%nat ->
  blit b 0 (payment_text st) = Ret (payment_text st ++ drop (length (payment_text st)) b).
Proof. intros Hl. apply blit_0. destruct st; cbn; lia. Qed.

Lemma write_string (b : bytes) :
  (6 <= length b)%nat -> blit b 0 (cstr "string") = Ret (cstr "string" ++ drop 6 b).
Proof. intros Hl. by apply (blit_0 b (cstr "string")). Qed.

(** What lies behind the identifier in the array it is copied to. *)
Definition behind_id (arrays : uri_arrays) (id : bytes) : bytes := drop (length id) (pol_id0 arrays).

(** The second part of the URI ends somewhere in the array it was copied to. *)
Record arrays_ok (arrays : uri_arrays) (uri : bytes) : Prop := {
  len_temp : length (temp0 arrays) = PROTOCOL_MAX_STR_LEN;
  len_pol_id : length (pol_id0 arrays) = PROTOCOL_MAX_STR_LEN;
  len_type : length (type0 arrays) = PROTOCOL_MAX_STR_LEN;
  len_value : length (value0 arrays) = PROTOCOL_MAX_STR_LEN;
  temp_ends : has_nul (drop (length uri) (temp0 arrays)) = true
}.

(** The attribute after the answer about a payment, written over its head
    without a terminator. *)
Definition answered `{IotaClient} (a : pip_state) (t : transaction_payment_state_e) : pip_state :=
  {| attr_type := cstr "string" ++ drop 6 (attr_type a);
     attr_value := payment_text t ++ drop (length (payment_text t)) (attr_value a);
     pip_wallet := pip_wallet a |}.

(** Asking whether a policy is paid asks the store about the identifier of the
    URI with whatever follows it in an array that was never cleared; without a
    NUL there the identifier is read behind the array. *)
Lemma acquire_asks `{IotaClient} `{TransactionStore St} arrays id v k s n a :
  uri_part 47 id -> uri_part 63 v -> (length (payed_uri id v) <= PROTOCOL_MAX_STR_LEN)%nat ->
  arrays_ok arrays (payed_uri id v) ->
  (6 <= length (attr_type a))%nat -> (8 <= length (attr_value a))%nat ->
  pip_acquire_cb arrays (payed_uri id v ++ 0 :: k) n s a
  = if has_nul (behind_id arrays id)
    then t ← recover_transaction (Some (id ++ behind_id arrays id))
               (Z.of_nat (length (id ++ before_nul (behind_id arrays id)))) s;
         Ret (0, answered a t)
    else Undef OobRead.
Proof.
  intros [Hi1 Hi2 Hi3] [Hv1 Hv2 Hv3] Hl [L1 L2 L3 L4 Hterm] Ht Hval. unfold pip_acquire_cb.
  rewrite c_str_payed_uri by done. run_step. zdec.
  rewrite (blit_0 (temp0 arrays)) by lia. run_step. rewrite length_payed_uri in Hl.
  rewrite payed_uri_scheme. cbn zeta. do 2 run_step. rewrite is_iota. run_step. cbn [negb].
  rewrite strtok_next_delim by done. do 2 run_step. rewrite copy_part_short by lia. run_step.
  rewrite payed_uri_type. do 2 run_step.
  rewrite (copy_part_short (type0 arrays)) by (done || (apply Nat.leb_le; reflexivity)). run_step.
  destruct (strtok_next_defined 63 v _ Hv1 Hv2 Hv3 Hterm) as ([[tok after] rest] & ->). do 2 run_step.
  destruct (copy_part_defined (value0 arrays) tok L4) as [b ->]. run_step.
  rewrite is_payed_type. run_step. rewrite write_string by done. run_step. fold (behind_id arrays id).
  unfold c_str. rewrite has_nul_app by done. destruct (has_nul (behind_id arrays id)); [|done].
  run_step. rewrite before_nul_app_l by done.
  destruct (recover_transaction _ _ s) as [t|u]; [|done]. run_step. run_step.
  by rewrite write_payment by done.
Qed.

(** With a NUL right behind it, the answer is what the store remembers. *)
Lemma acquire_reports `{IotaClient} {St} `{TransactionStoreOk St holds} arrays id v k st s n a :
  uri_part 47 id -> uri_part 63 v -> (length (payed_uri id v) <= PROTOCOL_MAX_STR_LEN)%nat ->
  arrays_ok arrays (payed_uri id v) -> head (behind_id arrays id) = Some 0 ->
  (6 <= length (attr_type a))%nat -> (8 <= length (attr_value a))%nat -> holds id st s ->
  pip_acquire_cb arrays (payed_uri id v ++ 0 :: k) n s a = Ret (0, answered a (abs_payment st)).
Proof.
  intros Hi Hv Hl Harr Hclean Ht Hval Hb. rewrite acquire_asks by done.
  destruct (behind_id arrays id) as [|c junk]; [done|]. injection Hclean as ->.
  change (has_nul (0 :: junk)) with true. cbn [before_nul Z.eqb]. rewrite app_nil_r.
  by rewrite (recover_held (holds := holds) _ junk st) by (done || apply (part_no_nul _ _ Hi)).
Qed.

(** The thread that overtakes the assignment of its service meets an empty
    table and dereferences a null pointer. *)
Lemma early_confirmation_crashes `{IotaClient} `{TransactionStore St} confirmed tid (s : St) :
  transaction_confirmation confirmed tid
    {| p_tx := s; p_service := repeat empty_slot TRANS_CONF_SERV_MAX_NUM |} = Undef NullDeref.
Proof. done. Qed.

Lemma pip_confirmation_crashes `{IotaClient} `{TransactionStore St} confirmed tid (s : St) :
  pip_transaction_confirmation confirmed tid
    {| p_tx := s; p_service := repeat empty_slot TRANS_CONF_SERV_MAX_NUM |} = Undef NullDeref.
Proof. done. Qed.

(** The plugins only start when the options the initialiser reads into too
    short variables are missing: four bytes do not fit one. *)
Lemma wallet_start_needs_no_mwm `{IotaClient} garbage cfg fs alloc w :
  wallet_from_config garbage cfg fs alloc = Ret (0, Some w) ->
  exists r, config_manager_get_option_int cfg (cstr "wallet") (cstr "mwm") 0 = Ret r
            /\ r.1 <> CONFIG_MANAGER_OK.
Proof.
  unfold wallet_from_config. intros E.
  do 3 apply bind_Ret in E as (? & _ & E). apply bind_Ret in E as (mwm_bytes & E1 & _).
  unfold option_int_into in E1. apply bind_Ret in E1 as (r & Er & E1). exists r. split; [done|].
  intros Hr. rewrite Hr in E1. cbn in E1. discriminate E1.
Qed.

Module WalletPluginsWitness.
Import WalletWitness TxWitness.

Definition pid : bytes := cstr "0123456789abcdef".
Definition ew : env := {| e_alloc := true; e_mutex := true; e_thread := Some 7; e_node := (0, false) : node |}.

(** A store that accepts everything and remembers the last update. *)
#[local] Instance last_update : TransactionStore (option (option bytes * bool)) := {
  tx_store := fun _ _ s => Ret (true, s);
  tx_update_payment_status := fun id _ v _ => Ret (true, Some (id, v));
  tx_is_stored := fun _ _ => Ret true;
  tx_is_verified := fun _ _ _ => Ret true
}.

Definition p0 : pep_state (St := option (option bytes * bool)) := {| p_tx := None; p_service := repeat empty_slot 64 |}.

Lemma pending_payment_loses_id_witness :
  exists p1, transaction_store_transaction (fun _ => 170) w (Some pid) RES_POL_ID_STR_LEN
               (Some (repeat 65 81)) ew p0 = Ret (true, p1)
    /\ p_tx p1 = None
    /\ forall confirmed,
       transaction_confirmation confirmed 7 p1
       = (r ← tx_update_payment_status (Some (fresh (fun _ => 170) 64)) RES_POL_ID_STR_LEN confirmed None;
          let p2 := set_tx r.2 p1 in
          Ret (if (r.1 : bool) then set_service (alter mark_confirmed 0%nat (p_service p1)) p2 else p2)).
Proof.
  refine (pending_payment_loses_id (fun _ => 170) w pid (repeat 65 81) ew p0 None
            (repeat empty_slot 64) 7 eq_refl eq_refl eq_refl eq_refl _ eq_refl eq_refl eq_refl _ _).
  - apply Nat.ltb_lt. reflexivity.
  - apply Nat.leb_le. reflexivity.
  - intros j x Hj. cbn in Hj. lia.
Defined.

End WalletPluginsWitness.
