(* ===== verification/Payment.v ===== *)
(** * From a payment to the attribute of the policy
      (src/plugins/pep/wallet and src/plugins/pip/wallet together)

    The enforcement plugin stores the transaction of an action, the information
    plugin reads the store for the attribute a policy asks about.  Both use the
    functions of rpi_trans.h, a header the repository does not have: any store
    that obeys the law [TransactionStoreOk].  Memory nobody has written is a
    parameter, for the arrays of the information plugin as for the heap. *)

From S2P Require Import Prelude CStd Config Wallet Relay PepPlugins TxStore WalletPlugins.

(** An identifier as the policy store hands it out, a text of 64 characters. *)
Record policy_id_ok (id : bytes) : Prop := {
  id_uri : uri_part 47 id;
  id_length : length id = 64%nat
}.

Section Payment.
Context `{IotaClient} {St : Type} `{TransactionStoreOk St holds} (garbage : nat -> Z).
Context (id idjunk : bytes) (Hid : policy_id_ok id).

(** The state of the enforcement plugin without waiting payments. *)
Definition idle (s : St) : pep_state :=
  {| p_tx := s; p_service := repeat empty_slot TRANS_CONF_SERV_MAX_NUM |}.

(** One call of the store about the policy. *)
Lemma policy_call c st s :
  holds id st s ->
  exists s', tx_step (id ++ 0 :: idjunk) RES_POL_ID_STR_LEN c s = Ret ((abs_step c st).1, s')
             /\ holds id (abs_step c st).2 s'.
Proof.
  intros Hs. destruct (tx_step_ok id idjunk c st s (part_no_nul _ _ (id_uri _ Hid)) Hs) as (s' & E & Hs').
  rewrite (id_length _ Hid) in E. by exists s'.
Qed.

(** The report of the thread that waits for a payment: the update is made for 64
    bytes nobody has written. *)
Definition report_of_slot (c : bool) (i : nat) (p : pep_state) : out pep_state :=
  r ← tx_update_payment_status (Some (fresh garbage 64)) RES_POL_ID_STR_LEN c (p_tx p);
  Ret (if (r.1 : bool) then set_service (alter mark_confirmed i (p_service p)) (set_tx r.2 p)
       else set_tx r.2 p).

Lemma pending_payment w hash e s tid :
  holds id None s -> (NUM_TRYTES_HASH <= length hash)%nat ->
  e_alloc e = true -> e_mutex e = true -> e_thread e = Some tid ->
  wallet_check_confirmation true w hash (e_node e) = false ->
  exists p, transaction_store_transaction garbage w (Some (id ++ 0 :: idjunk)) RES_POL_ID_STR_LEN
              (Some hash) e (idle s) = Ret (true, p)
    /\ holds id (Some false) (p_tx p)
    /\ forall c, transaction_confirmation c tid p = report_of_slot c 0 p.
Proof.
  intros Hs Hh Ha Hm Ht Hc. destruct (policy_call TxStore None s Hs) as (s1 & E & Hs1).
  destruct (pending_payment_loses_id garbage w (id ++ 0 :: idjunk) hash e (idle s) s1
              (repeat empty_slot TRANS_CONF_SERV_MAX_NUM) tid) as (p & Es & <- & Hconf); try done.
  - by rewrite Ha.
  - apply Nat.ltb_lt. reflexivity.
  - intros j x Hj. change (first_available (repeat empty_slot TRANS_CONF_SERV_MAX_NUM)) with 0%nat in Hj. lia.
  - by exists p.
Qed.

Lemma confirmed_payment w hash e s :
  holds id None s -> wallet_check_confirmation (e_alloc e) w hash (e_node e) = true ->
  exists p, transaction_store_transaction garbage w (Some (id ++ 0 :: idjunk)) RES_POL_ID_STR_LEN
              (Some hash) e (idle s) = Ret (true, p) /\ holds id (Some true) (p_tx p).
Proof.
  intros Hs Hc. destruct (policy_call TxStore None s Hs) as (s1 & E & Hs1).
  destruct (policy_call (TxUpdate true) (Some false) s1 Hs1) as (s2 & E2 & Hs2).
  cbn [tx_step] in E, E2. unfold transaction_store_transaction. cbn [idle p_tx]. rewrite E. run_step.
  cbn [fst snd negb abs_step]. rewrite Hc. cbn [set_tx p_tx]. rewrite E2. run_step. by eexists.
Qed.

(** The action that stores a transaction. *)
Lemma store_action w e act vr hash s nd b p :
  value act = cstr "action#4" ++ vr -> pol_id_str act = id ++ 0 :: idjunk -> transaction_hash act = hash ->
  transaction_store_transaction garbage w (Some (id ++ 0 :: idjunk)) RES_POL_ID_STR_LEN (Some hash) e
    (idle s) = Ret (b, p) ->
  wallet_action_cb garbage w e act (idle s, nd) = Ret (0, (p, nd)).
Proof.
  intros Hval Hpol Hhash E. unfold wallet_action_cb, wallet_actions, run_action. rewrite Hval.
  rewrite (memcmp_eq_prefix (cstr "action#4" ++ vr) (before_nul (action_name (cstr "action#3")))), ret_bind
    by (rewrite length_app; apply Nat.le_add_r).
  rewrite (memcmp_eq_prefix (cstr "action#4" ++ vr) (before_nul (action_name (cstr "action#4")))), ret_bind
    by (rewrite length_app; apply Nat.le_add_r).
  change (is_prefix (before_nul (action_name (cstr "action#3"))) (cstr "action#4" ++ vr)) with false.
  assert (is_prefix (before_nul (action_name (cstr "action#4"))) (cstr "action#4" ++ vr) = true) as -> by apply is_prefix_app.
  cbn iota. unfold demo_wallet_store_transaction. cbn [fst snd]. by rewrite Hpol, Hhash, E.
Qed.

End Payment.

(** ** An instance: the bill of posix.c in the place of the missing functions *)

Module PaymentWitness.
Import WalletWitness TxWitness WalletPluginsWitness.

Definition pol : bytes := repeat 97 64.
Definition pay_action : pdp_action_t :=
  {| value := cstr "action#4" ++ repeat 0 8; pol_id_str := pol ++ [0]; balance := 5; transaction_hash := repeat 65 81 |}.
Definition attr : pip_state := {| attr_type := repeat 0 16; attr_value := repeat 0 100; pip_wallet := w |}.

Lemma pol_ok : policy_id_ok pol.
Proof.
  split; [split; [done | |] | reflexivity]; apply (bool_decide_unpack _); vm_compute; exact I.
Qed.

(** A stack whose array for the identifier is clear behind it. *)
Definition clear_stack : uri_arrays :=
  {| temp0 := repeat 170 255 ++ [0]; pol_id0 := repeat 170 64 ++ 0 :: repeat 170 191;
     type0 := repeat 170 256; value0 := repeat 170 256 |}.

End PaymentWitness.
