(* ===== verification/Serial.v ===== *)
(** * Serial lines (the static functions set_interface_attribs and set_blocking of
      src/plugins/pip/gps/pip_plugin_gps.c and src/plugins/pip/modbus/modbus.c)

    Both files hold the same two functions; only the names of the constants
    differ.  The attributes of a terminal are a record with the flag words as
    unsigned 32-bit numbers, the bits being those of Linux; the rates lie in
    fields of their own.  What [tcgetattr] reads and whether [tcsetattr] succeeds
    are arguments; a descriptor that is no terminal has no attributes. *)

From S2P Require Import Prelude CStd.

Definition IGNBRK : Z := 0x1.
Definition ICRNL : Z := 0x100.
Definition IXON : Z := 0x400.
Definition IXANY : Z := 0x800.
Definition IXOFF : Z := 0x1000.
Definition CSIZE : Z := 0x30.
Definition CS8 : Z := 0x30.
Definition CSTOPB : Z := 0x40.
Definition CREAD : Z := 0x80.
Definition PARENB : Z := 0x100.
Definition PARODD : Z := 0x200.
Definition CLOCAL : Z := 0x800.
Definition CRTSCTS : Z := 0x80000000.
Definition VTIME : nat := 5.
Definition VMIN : nat := 6.
Definition NCCS : nat := 32.
Definition B4800 : Z := 0xc.
Definition B115200 : Z := 0x1002.

Definition SERIAL_READ_TIMEOUT : Z := 5.
Definition SERIAL_ERROR : Z := -1.

Record termios := {
  c_iflag : Z; c_oflag : Z; c_cflag : Z; c_lflag : Z;
  c_cc : bytes; c_ispeed : Z; c_ospeed : Z }.

(** [word &= ~mask]. *)
Definition clear_bits (word mask : Z) : Z := Z.land word (Z.lnot mask).

Definition line_attribs (speed parity : Z) (tty : termios) : termios :=
  let cflag := Z.lor (clear_bits (c_cflag tty) CSIZE) CS8 in
  let iflag := clear_bits (c_iflag tty) IGNBRK in
  let iflag := clear_bits iflag (Z.lor (Z.lor IXON IXOFF) IXANY) in
  let cflag := Z.lor cflag (Z.lor CLOCAL CREAD) in
  let cflag := clear_bits cflag (Z.lor PARENB PARODD) in
  let cflag := Z.lor cflag parity in
  let cflag := clear_bits cflag CSTOPB in
  {| c_iflag := iflag; c_oflag := 0; c_cflag := clear_bits cflag CRTSCTS; c_lflag := 0;
     c_cc := <[VTIME := SERIAL_READ_TIMEOUT]> (<[VMIN := 0]> (c_cc tty));
     c_ispeed := speed; c_ospeed := speed |}.

(** The result and the terminal behind the descriptor afterwards. *)
Definition set_interface_attribs (speed parity : Z) (set_ok : bool) (port : option termios)
  : Z * option termios :=
  match port with
  | None => (SERIAL_ERROR, None)
  | Some tty =>
      if set_ok then (0, Some (line_attribs speed parity tty)) else (SERIAL_ERROR, Some tty)
  end.

Definition set_blocking (should_block : Z) (set_ok : bool) (port : option termios) : option termios :=
  match port with
  | None => None
  | Some tty =>
      if set_ok then
        Some {| c_iflag := c_iflag tty; c_oflag := c_oflag tty;
                c_cflag := c_cflag tty; c_lflag := c_lflag tty;
                c_cc := <[VTIME := SERIAL_READ_TIMEOUT]>
                          (<[VMIN := if should_block =? 0 then 0 else 1]> (c_cc tty));
                c_ispeed := c_ispeed tty; c_ospeed := c_ospeed tty |}
      else Some tty
  end.

(** What both callers do with the descriptor of the port they opened; the first
    result is discarded. *)
Definition configure_port (speed : Z) (set1 set2 : bool) (port : option termios) : option termios :=
  set_blocking 1 set2 (set_interface_attribs speed 0 set1 port).2.

(** ** The line that results *)

Lemma clear_bits_spec word mask n :
  0 <= n -> Z.testbit (clear_bits word mask) n = Z.testbit word n && negb (Z.testbit mask n).
Proof. intros. unfold clear_bits. by rewrite Z.land_spec, Z.lnot_spec. Qed.

(** The bits of a flag word outside [mask] are those of another. *)
Definition same_but (mask a b : Z) : Prop := Z.land a (Z.lnot mask) = Z.land b (Z.lnot mask).

Lemma same_but_bits mask a b :
  (forall n, 0 <= n -> Z.testbit mask n = false -> Z.testbit a n = Z.testbit b n) -> same_but mask a b.
Proof.
  intros H. apply Z.bits_inj'. intros n Hn. rewrite !Z.land_spec, Z.lnot_spec by done.
  destruct (Z.testbit mask n) eqn:E; [by rewrite !andb_false_r | by rewrite (H n Hn E)].
Qed.

(** The modes that the two functions decide: eight data bits, no parity, one stop
    bit, receiver on, no modem control and no flow control; no processing. *)
Definition line_mask : Z := Eval vm_compute in
  Z.lor CSIZE (Z.lor CLOCAL (Z.lor CREAD (Z.lor PARENB (Z.lor PARODD (Z.lor CSTOPB CRTSCTS))))).
Definition line_8n1 : Z := Eval vm_compute in Z.lor CS8 (Z.lor CLOCAL CREAD).
Definition input_mask : Z := Eval vm_compute in Z.lor IGNBRK (Z.lor IXON (Z.lor IXOFF IXANY)).

(** [raw_line speed old new]: the line [new] is a plain 8n1 line at [speed] whose
    reads wait for one byte, and keeps everything else of [old]. *)
Record raw_line (speed : Z) (old new : termios) : Prop := {
  raw_control : Z.land (c_cflag new) line_mask = line_8n1;
  raw_control_kept : same_but line_mask (c_cflag old) (c_cflag new);
  raw_input : Z.land (c_iflag new) input_mask = 0;
  raw_input_kept : same_but input_mask (c_iflag old) (c_iflag new);
  raw_output : c_oflag new = 0;
  raw_local : c_lflag new = 0;
  raw_speed : c_ispeed new = speed /\ c_ospeed new = speed;
  raw_cc : c_cc new = <[VTIME := SERIAL_READ_TIMEOUT]> (<[VMIN := 1]> (c_cc old)) }.

Lemma low_bit n (P : Z -> bool) :
  0 <= n < 32 -> forallb P (Z.of_nat <$> seq 0 32) = true -> P n = true.
Proof.
  intros Hn H. rewrite forallb_forall in H. apply H. apply list_elem_of_In, list_elem_of_fmap.
  exists (Z.to_nat n). split; [lia|]. apply elem_of_seq. lia.
Qed.

(** [flag_bits a] compares two words made from [a] bit by bit: above the highest
    flag no mask has a bit, below it the bits are computed. *)
Ltac no_high_bits n Hge :=
  repeat match goal with
  | |- context [Z.testbit ?m n] => rewrite (testbit_high 32 m n (ltac:(by split; vm_compute)) Hge)
  end.

Ltac flag_bits a :=
  let n := fresh "n" in let Hn := fresh in let H := fresh in let b := fresh "b" in
  apply Z.bits_inj'; intros n Hn;
  repeat first [ rewrite Z.lor_spec | rewrite clear_bits_spec by exact Hn ];
  set (b := Z.testbit a n); clearbody b;
  destruct (Z.lt_ge_cases n 32) as [H|H];
  [ pattern n;
    match goal with |- (fun x => ?l = ?r) n =>
      apply Bool.eqb_prop; refine (low_bit n (fun x => Bool.eqb l r) (conj Hn H) _); by destruct b
    end
  | no_high_bits n H; by destruct b ].

(** The control flags are the old ones where the mask has no bit. *)
Lemma control_bits a :
  clear_bits (clear_bits (Z.lor (clear_bits (Z.lor (Z.lor (clear_bits a CSIZE) CS8) (Z.lor CLOCAL CREAD))
    (Z.lor PARENB PARODD)) 0) CSTOPB) CRTSCTS = Z.lor (clear_bits a line_mask) line_8n1.
Proof. flag_bits a. Qed.

Lemma input_bits a :
  clear_bits (clear_bits a IGNBRK) (Z.lor (Z.lor IXON IXOFF) IXANY) = clear_bits a input_mask.
Proof. flag_bits a. Qed.

Lemma land_cleared a mask v : Z.land v mask = v -> Z.land (Z.lor (clear_bits a mask) v) mask = v.
Proof.
  intros Hv. rewrite Z.land_lor_distr_l, Hv. unfold clear_bits.
  by rewrite <- Z.land_assoc, (Z.land_comm (Z.lnot mask)), Z.land_lnot_diag, Z.land_0_r.
Qed.

Lemma same_cleared a mask v : Z.land v mask = v -> same_but mask a (Z.lor (clear_bits a mask) v).
Proof.
  intros Hv. apply same_but_bits. intros n Hn Hm. rewrite Z.lor_spec, clear_bits_spec, Hm by done.
  rewrite <- Hv, Z.land_spec, Hm, andb_false_r. by rewrite andb_true_r, orb_false_r.
Qed.

(** Configuring a serial port makes it a raw 8n1 line at the wanted rate
    whose reads wait for a byte, and leaves every other attribute alone; when
    one of the two changes is refused the line keeps what that change would have
    set, and nobody is told. *)
Lemma serial_line_configured speed set1 set2 tty :
  exists new, configure_port speed set1 set2 (Some tty) = Some new /\
    (set1 = true -> set2 = true -> raw_line speed tty new) /\
    (set1 = false -> set2 = false -> new = tty) /\
    (set1 = false -> c_iflag new = c_iflag tty /\ c_cflag new = c_cflag tty
       /\ c_lflag new = c_lflag tty /\ c_oflag new = c_oflag tty).
Proof.
  unfold configure_port. destruct set1; [|destruct set2; cbn; eexists; split_and!; done].
  cbn [set_interface_attribs snd].
  destruct set2; cbn [set_blocking]; (eexists; split; [reflexivity|]); split_and!; try done.
  intros _ _. constructor; cbn [line_attribs c_cflag c_iflag c_oflag c_lflag c_cc c_ispeed c_ospeed].
  - rewrite control_bits. by apply land_cleared.
  - rewrite control_bits. by apply same_cleared.
  - rewrite input_bits, <- (Z.lor_0_r (clear_bits _ _)). by apply land_cleared.
  - rewrite input_bits, <- (Z.lor_0_r (clear_bits _ _)). by apply same_cleared.
  - done.
  - done.
  - done.
  - by rewrite (list_insert_insert_ne _ VMIN VTIME), !list_insert_insert_eq by done.
Qed.

(** The translation of input characters that a line of the kernel starts with is
    among what is kept: [c_iflag] is [ICRNL | IXON] there, and a carriage return
    goes on being read as a newline. *)
Definition cooked (tty : termios) (input : bytes) : bytes :=
  if Z.land (c_iflag tty) ICRNL =? 0 then input else (fun c => if c =? 13 then 10 else c) <$> input.

Lemma carriage_returns_translated speed tty :
  Z.testbit (c_iflag tty) 8 = true ->
  exists new, configure_port speed true true (Some tty) = Some new /\
    forall a b, cooked new (a ++ 13 :: b) = cooked new a ++ 10 :: cooked new b.
Proof.
  intros Hcr. eexists. split; [reflexivity|]. intros a b. unfold cooked.
  rewrite (proj2 (Z.eqb_neq _ 0)); [by rewrite fmap_app|].
  intros H. apply (f_equal (fun w => Z.testbit w 8)) in H. cbn [set_blocking c_iflag line_attribs] in H.
  rewrite input_bits, Z.land_spec, clear_bits_spec, Hcr, Z.bits_0 in H by done. done.
Qed.

Module SerialWitness.
(** The attributes of a serial line the kernel has just opened. *)
Definition std_line : termios :=
  {| c_iflag := Z.lor ICRNL IXON; c_oflag := 5; c_cflag := 0x8b0; c_lflag := 0x8a3b;
     c_cc := repeat 0 NCCS; c_ispeed := 0xf; c_ospeed := 0xf |}.

(** A modem line with parity, two stop bits and seven data bits becomes plain 8n1. *)
Definition modem_line : termios :=
  {| c_iflag := 0x1c01; c_oflag := 5; c_cflag := 0x80000370; c_lflag := 0x8a3b;
     c_cc := repeat 0 NCCS; c_ispeed := 0xf; c_ospeed := 0xf |}.

Example modem_becomes_8n1 :
  (fun t => (c_iflag t, c_cflag t, take 8 (c_cc t))) <$> configure_port B4800 true true (Some modem_line)
  = Some (0, line_8n1, [0; 0; 0; 0; 0; 5; 1; 0]).
Proof. reflexivity. Qed.

(** When only the first change goes through, reads no longer wait. *)
Example half_configured :
  (fun t => take 8 (c_cc t)) <$> configure_port B4800 true false (Some std_line)
  = Some [0; 0; 0; 0; 0; 5; 0; 0].
Proof. reflexivity. Qed.
End SerialWitness.
