(* ===== verification/Modbus.v ===== *)
(** * The Modbus plugin
      (src/plugins/pip/modbus/modbus.c, modbus.h, pip_plugin_modbus.c)

    Reading holding registers over a serial line, with the CRC of the Modbus
    RTU frames, and the receiver thread that publishes four registers as JSON.
    The device at the other end is a parameter: it sees each request and gives
    the bytes [read] returns.  JSON objects live in the array the data dumper
    owns; the plugin's global pointers are indices into it. *)

From S2P Require Import Prelude CStd Serial.

(** ** modbus.c *)

Definition MODBUS_DEVICE_NAME_LEN : nat := 127.
Definition MODBUS_DEV_NAME_LEN : nat := 128.
Definition MODBUS_SLAVE_DEVICE_BUFF_LEN : nat := 8.
Definition MODBUS_READ_REG_FN : Z := 3.
Definition MODBUS_READ_BUFF_LEN : nat := 100.
Definition MODBUS_DATA_LEN : Z := 256.

Definition crc_bit (crc : Z) : Z :=
  if negb (Z.land crc 1 =? 0) then Z.lxor (Z.shiftr crc 1) 0xA001 else Z.shiftr crc 1.

Definition crc_byte (crc b : Z) : Z := Nat.iter 8 crc_bit (Z.lxor crc b).

Definition calculate_crc (buf : bytes) (len : Z) : out Z :=
  l ← slice 0 (Z.max 0 len) buf; Ret (fold_left crc_byte l 0xffff).

(** The two bytes of a [uint16_t] in memory. *)
Definition byte0 (v : Z) : Z := Z.land v 255.
Definition byte1 (v : Z) : Z := Z.land (Z.shiftr v 8) 255.

Definition s16 (z : Z) : Z := (z + 2 ^ 15) mod 2 ^ 16 - 2 ^ 15.

(** The request as [buff] holds it when it is written. *)
Definition read_request (slave_device_address register_address quantity_to_read : Z) : out bytes :=
  let buff := [u8 slave_device_address; MODBUS_READ_REG_FN;
               byte1 register_address; byte0 register_address;
               byte1 quantity_to_read; byte0 quantity_to_read; 0; 0] in
  crc ← calculate_crc buff 6;
  buff ← store buff 6 (byte0 crc);
  store buff 7 (byte1 crc).

(** The copy loop: [n] registers from number [i] on, an array of [int16_t]. *)
Fixpoint copy_registers (n : nat) (i : Z) (buffer : bytes) (data : list Z) : out (list Z) :=
  match n with
  | O => Ret data
  | S n =>
      lo ← load buffer (3 + (i * 2 + 1));
      hi ← load buffer (3 + i * 2);
      data ← store data i (s16 (lo + hi * MODBUS_DATA_LEN));
      copy_registers n (i + 1) buffer data
  end.

Record modbus_t := { device_name : bytes; fd : Z }.

(** [port]: the terminal the port turns out to be; [set1], [set2]: whether its
    attributes can be set.  The function falls off its end when the port opens:
    its result is [None] then. *)
Definition modbus_init (modbus : modbus_t) (serial_device : bytes) (open_fd : Z) (set1 set2 : bool)
    (port : option termios) : out (modbus_t * option Z * option termios) :=
  name ← strncpy (device_name modbus) serial_device MODBUS_DEVICE_NAME_LEN;
  let modbus := {| device_name := name; fd := open_fd |} in
  if open_fd <? 0 then Ret (modbus, Some (-1), None)
  else Ret (modbus, None, configure_port B115200 set1 set2 port).

(** [close], on the set of open descriptors; closing a closed one is an error that
    is not looked at. *)
Definition modbus_deinit (modbus : modbus_t) (fds : gset Z) : gset Z := fds ∖ {[fd modbus]}.

Section Device.
(** [exchange] is the [write] of a request and the [read] that follows it. *)
Context {Dev : Type} (exchange : bytes -> Dev -> option bytes * Dev).

(** Whether the CRC differs, the array [data], and the device afterwards. *)
Definition modbus_read_registers (slave_device_address register_address quantity_to_read : Z)
    (data : list Z) (d : Dev) : out (bool * list Z * Dev) :=
  buff ← read_request slave_device_address register_address quantity_to_read;
  let '(answer, d) := exchange buff d in
  let response := take MODBUS_READ_BUFF_LEN (default [] answer) in
  buffer ← blit (repeat 0 MODBUS_READ_BUFF_LEN) 0 response;
  bytes_read ← load buffer 2;
  let response_len := 3 + bytes_read in
  crc ← calculate_crc buffer response_len;
  lo ← load buffer response_len;
  hi ← load buffer (response_len + 1);
  let response_crc := lo + 256 * hi in
  data ← copy_registers (Z.to_nat (bytes_read / 2)) 0 buffer data;
  Ret (negb (response_crc =? crc), data, d).

(** ** pip_plugin_modbus.c *)

Definition MODBUS_BRAKE_1_VOLTAGE_REGADDR : Z := 0x010f.
Definition MODBUS_BRAKE_2_VOLTAGE_REGADDR : Z := 0x0110.
Definition MODBUS_RPM_REGADDR : Z := 0x107.
Definition MODBUS_THROTTLE_VOLTAGE_REGADDR : Z := 0x010e.
Definition MODBUS_DATA_RESOLUTION : Z := 4096.

(** The part of canopen01_vehicle_dataset_t the plugin reads. *)
Record wanted_signals_t := {
  want_motor_rpm : Z; want_brake_1_voltage : Z; want_brake_2_voltage : Z; want_throttle_voltage : Z
}.

(** A JSON object with a name and possibly a value, a fraction. *)
Record signal := { sig_name : bytes; sig_value : option (Z * Z) }.

Record modbus_json := {
  fj_obj_modbus : list signal;
  fj_obj_motor_rpm : option nat;
  fj_obj_brake_1_voltage : option nat;
  fj_obj_brake_2_voltage : option nat;
  fj_obj_throttle_voltage : option nat
}.

Definition add_signal (name : bytes) (l : list signal) : list signal * option nat :=
  (l ++ [{| sig_name := name; sig_value := None |}], Some (length l)).

(** Line 95 clears the pointer of the first brake when the second is unwanted. *)
Definition modbus_json_filler (w : wanted_signals_t) (j : modbus_json) : modbus_json :=
  let l := [] in
  let '(l, rpm) := if want_motor_rpm w =? 1 then add_signal (cstr "motor_rpm") l else (l, None) in
  let '(l, b1) := if want_brake_1_voltage w =? 1 then add_signal (cstr "brake_1_voltage") l
                  else (l, None) in
  let '(l, b2, b1) := if want_brake_2_voltage w =? 1
                      then (add_signal (cstr "brake_2_voltage") l, b1)
                      else (l, fj_obj_brake_2_voltage j, None) in
  let '(l, th) := if want_throttle_voltage w =? 1 then add_signal (cstr "throttle_voltage") l
                  else (l, None) in
  {| fj_obj_modbus := l; fj_obj_motor_rpm := rpm; fj_obj_brake_1_voltage := b1;
     fj_obj_brake_2_voltage := b2; fj_obj_throttle_voltage := th |}.

Definition set_signals (l : list signal) (j : modbus_json) : modbus_json :=
  {| fj_obj_modbus := l; fj_obj_motor_rpm := fj_obj_motor_rpm j;
     fj_obj_brake_1_voltage := fj_obj_brake_1_voltage j;
     fj_obj_brake_2_voltage := fj_obj_brake_2_voltage j;
     fj_obj_throttle_voltage := fj_obj_throttle_voltage j |}.

(** [fjson_object_object_add(obj, value, v)]: the object must exist. *)
Definition publish (obj : option nat) (v : Z * Z) (j : modbus_json) : out modbus_json :=
  i ← deref obj;
  Ret (set_signals (alter (fun s => {| sig_name := sig_name s; sig_value := Some v |}) i
                      (fj_obj_modbus j)) j).

(** One [if] of the loop body: read a register into [data], publish it. *)
Definition poll (wanted addr resolution : Z) (obj : modbus_json -> option nat)
    (s : Z * modbus_json * Dev) : out (Z * modbus_json * Dev) :=
  let '(data, j, d) := s in
  if wanted =? 1 then
    r ← modbus_read_registers 1 addr 1 [data] d;
    let '(_, cell, d) := r in
    data ← load cell 0;
    j ← publish (obj j) (u16 data, resolution) j;
    Ret (data, j, d)
  else Ret s.

(** The body of [thread_loop] up to the dump. *)
Definition thread_step (w : wanted_signals_t) (j : modbus_json) (d : Dev) : out (modbus_json * Dev) :=
  s ← poll (want_motor_rpm w) MODBUS_RPM_REGADDR 1 fj_obj_motor_rpm (u16 (-1), j, d);
  s ← poll (want_brake_1_voltage w) MODBUS_BRAKE_1_VOLTAGE_REGADDR MODBUS_DATA_RESOLUTION
        fj_obj_brake_1_voltage s;
  s ← poll (want_brake_2_voltage w) MODBUS_BRAKE_2_VOLTAGE_REGADDR MODBUS_DATA_RESOLUTION
        fj_obj_brake_2_voltage s;
  s ← poll (want_throttle_voltage w) MODBUS_THROTTLE_VOLTAGE_REGADDR MODBUS_DATA_RESOLUTION
        fj_obj_throttle_voltage s;
  Ret (s.1.2, s.2).

(** [thread_loop] over the rounds until [end_thread] is set; the dump of a round
    may replace the objects ([datadumper_dump_if_needed] calls the filler). *)
Fixpoint thread_loop (dumps : list bool) (w : wanted_signals_t) (j : modbus_json) (d : Dev)
    : out (modbus_json * Dev) :=
  match dumps with
  | [] => Ret (j, d)
  | dump :: dumps =>
      s ← thread_step w j d;
      thread_loop dumps w (if (dump : bool) then modbus_json_filler w s.1 else s.1) s.2
  end.
End Device.

(** ** The checksum *)

(** One step backwards: the top bit says whether the polynomial was added. *)
Definition crc_unbit (crc : Z) : Z :=
  if Z.testbit crc 15 then Z.lor (Z.shiftl (Z.lxor crc 0xA001) 1) 1 else Z.shiftl crc 1.

Definition word (v : Z) : Prop := 0 <= v < 2 ^ 16.

Lemma crc_bit_table :
  all_bits 16 (fun c => (crc_unbit (crc_bit c) =? c) && (0 <=? crc_bit c) && (crc_bit c <? 2 ^ 16)) 0
  = true.
Proof. vm_compute. reflexivity. Qed.

Lemma crc_bit_ok c : word c -> crc_unbit (crc_bit c) = c /\ word (crc_bit c).
Proof.
  intros Hc. pose proof (all_bits_spec 16 _ 0 c crc_bit_table) as H. unfold word in *.
  change (2 ^ Z.of_nat 16) with (2 ^ 16) in H. specialize (H ltac:(lia)). znorm H. lia.
Qed.

Lemma crc_bits_ok n c : word c -> word (Nat.iter n crc_bit c).
Proof. intros Hc. induction n as [|n IH]; cbn [Nat.iter nat_rect]; [done|]. by apply crc_bit_ok. Qed.

Lemma crc_bits_inj n c1 c2 :
  word c1 -> word c2 -> Nat.iter n crc_bit c1 = Nat.iter n crc_bit c2 -> c1 = c2.
Proof.
  intros H1 H2. induction n as [|n IH]; [done|]. rewrite !Nat.iter_succ. intros E. apply IH.
  apply (f_equal crc_unbit) in E.
  by rewrite (proj1 (crc_bit_ok _ (crc_bits_ok n c1 H1))),
    (proj1 (crc_bit_ok _ (crc_bits_ok n c2 H2))) in E.
Qed.

Lemma byte_word b : is_byte b -> word b.
Proof. unfold is_byte, word. lia. Qed.

Lemma crc_byte_ok c b : word c -> is_byte b -> word (crc_byte c b).
Proof. intros Hc Hb. apply crc_bits_ok, lxor_bound; [lia | done | by apply byte_word]. Qed.

Lemma crc_byte_inj_l c1 c2 b :
  word c1 -> word c2 -> is_byte b -> crc_byte c1 b = crc_byte c2 b -> c1 = c2.
Proof.
  intros H1 H2 Hb%byte_word E. apply crc_bits_inj in E; [|by apply lxor_bound..].
  apply (f_equal (fun x => Z.lxor x b)) in E.
  by rewrite !Z.lxor_assoc, !Z.lxor_nilpotent, !Z.lxor_0_r in E.
Qed.

Lemma crc_byte_inj_r c b1 b2 :
  word c -> is_byte b1 -> is_byte b2 -> crc_byte c b1 = crc_byte c b2 -> b1 = b2.
Proof.
  intros Hc H1%byte_word H2%byte_word E. apply crc_bits_inj in E; [|by apply lxor_bound..].
  apply (f_equal (fun x => Z.lxor c x)) in E.
  by rewrite <- !Z.lxor_assoc, !Z.lxor_nilpotent, !Z.lxor_0_l in E.
Qed.

Abbreviation crc_of := (fold_left crc_byte).

Lemma crc_of_word l c : Forall is_byte l -> word c -> word (crc_of l c).
Proof.
  intros Hl; revert c; induction Hl as [|b l Hb Hl IH]; intros c Hc; [done|].
  cbn [fold_left]. by apply IH, crc_byte_ok.
Qed.

Lemma crc_of_inj l c1 c2 :
  Forall is_byte l -> word c1 -> word c2 -> crc_of l c1 = crc_of l c2 -> c1 = c2.
Proof.
  intros Hl; revert c1 c2; induction Hl as [|b l Hb Hl IH]; intros c1 c2 H1 H2; cbn [fold_left]; [done|].
  intros E. apply IH in E; [|by apply crc_byte_ok..]. by eapply crc_byte_inj_l.
Qed.

(** Two texts that differ in exactly one byte have different checksums. *)
Lemma crc_of_one_byte l k b x c :
  Forall is_byte l -> is_byte x -> word c -> l !! k = Some b -> x <> b ->
  crc_of (<[k := x]> l) c <> crc_of l c.
Proof.
  intros Hl Hx. revert k c; induction Hl as [|b' l Hb Hl IH]; intros [|k] c Hc; try done.
  - intros [= ->] Hne E. cbn [insert list_insert fold_left] in E.
    apply crc_of_inj in E; [|done | by apply crc_byte_ok | by apply crc_byte_ok].
    by apply crc_byte_inj_r in E.
  - intros Hk Hne. change (<[S k := x]> (b' :: l)) with (b' :: <[k := x]> l). cbn [fold_left].
    apply IH; [by apply crc_byte_ok | done | done].
Qed.

(** ** Responses *)

(** The registers a payload holds, high byte first. *)
Fixpoint regs_of (l : bytes) : list Z :=
  match l with
  | hi :: lo :: l => s16 (lo + hi * MODBUS_DATA_LEN) :: regs_of l
  | _ => []
  end.

Lemma copy_registers_spec n i pre payload k hd data :
  length pre = (3 + 2 * i)%nat -> length payload = (2 * n)%nat -> length hd = i ->
  (n <= length data)%nat ->
  copy_registers n (Z.of_nat i) (pre ++ payload ++ k) (hd ++ data)
  = Ret (hd ++ regs_of payload ++ drop n data).
Proof.
  revert i pre payload hd data.
  induction n as [|n IH]; intros i pre payload hd data Hpre Hpay Hhd Hn.
  - destruct payload; [|done]. done.
  - destruct payload as [|hi [|lo payload]]; cbn [length] in Hpay; [lia.. |].
    destruct data as [|x data]; cbn [length] in Hn; [lia|]. cbn [copy_registers].
    rewrite (load_at pre _ (3 + (Z.of_nat i * 2 + 1)) 1 lo) by first [ reflexivity | lia ]. run_step.
    rewrite (load_at pre _ (3 + Z.of_nat i * 2) 0 hi) by first [ reflexivity | lia ]. run_step.
    rewrite store_app by lia. run_step.
    replace (Z.of_nat i + 1) with (Z.of_nat (S i)) by lia.
    assert (forall (A : Type) (a b : list A) y, a ++ y :: b = (a ++ [y]) ++ b) as Hsh
      by (intros; by rewrite <- app_assoc).
    change ((hi :: lo :: payload) ++ k) with (hi :: lo :: payload ++ k).
    rewrite (Hsh _ hd), (Hsh _ pre). rewrite (Hsh _ (pre ++ [hi])).
    rewrite IH; [| rewrite !length_app; cbn [length]; lia | lia | rewrite length_app; cbn [length]; lia | lia].
    cbn [regs_of drop]. by rewrite <- app_assoc.
Qed.

(** The header of a response: device, function and number of payload bytes. *)
Definition response_body (a f : Z) (payload : bytes) : bytes :=
  a :: f :: Z.of_nat (length payload) :: payload.

Definition be16 (v : Z) : bytes := [byte1 v; byte0 v].

(** What a device sends back. *)
Definition response_frame (a f : Z) (regs : list Z) : bytes :=
  let body := response_body a f (mjoin (be16 <$> regs)) in
  let crc := crc_of body 0xffff in body ++ [byte0 crc; byte1 crc].

Lemma word_bytes v : word v -> byte0 v + 256 * byte1 v = v /\ is_byte (byte0 v) /\ is_byte (byte1 v).
Proof.
  unfold word, byte0, byte1, is_byte. intros Hv. change 255 with (Z.ones 8).
  rewrite !Z.land_ones, Z.shiftr_div_pow2 by lia. change (2 ^ 8) with 256. change (2 ^ 16) with 65536 in Hv.
  pose proof (Z.mod_pos_bound v 256). pose proof (Z.mod_pos_bound (v / 256) 256).
  rewrite (Z.mod_small (v / 256)) in * by (split; [apply Z.div_pos; lia | apply Z.div_lt_upper_bound; lia]).
  pose proof (Z.div_mod v 256). lia.
Qed.

Lemma regs_of_be16 regs : Forall word regs -> regs_of (mjoin (be16 <$> regs)) = s16 <$> regs.
Proof.
  induction 1 as [|v regs Hv Hr IH]; [done|]. rewrite !fmap_cons, mjoin_cons.
  cbn [be16 app regs_of]. rewrite IH. destruct (word_bytes v Hv) as (E & _).
  unfold MODBUS_DATA_LEN. by rewrite Z.mul_comm, E.
Qed.

Lemma length_be16s regs : length (mjoin (be16 <$> regs)) = (2 * length regs)%nat.
Proof. induction regs; [done|]. rewrite fmap_cons, mjoin_cons, length_app. cbn [length be16]. lia. Qed.

Lemma bytes_be16s regs : Forall word regs -> Forall is_byte (mjoin (be16 <$> regs)).
Proof.
  induction 1 as [|v regs Hv Hr IH]; [constructor|]. rewrite fmap_cons, mjoin_cons.
  destruct (word_bytes v Hv) as (_ & H0 & H1). cbn [be16 app].
  constructor; [done|]. by constructor.
Qed.

Lemma bytes_body a f p :
  is_byte a -> is_byte f -> Forall is_byte p -> (length p < 256)%nat ->
  Forall is_byte (response_body a f p).
Proof.
  intros Ha Hf Hp Hl. unfold response_body. do 3 (apply Forall_cons_2; [try done|]); try done.
  unfold is_byte. lia.
Qed.

Lemma read_request_ok slave addr q :
  exists c0 c1, read_request slave addr q
    = Ret [u8 slave; MODBUS_READ_REG_FN; byte1 addr; byte0 addr; byte1 q; byte0 q; c0; c1].
Proof. unfold read_request, calculate_crc. cbn. eexists _, _. reflexivity. Qed.

Section Responses.
Context {Dev : Type} (exchange : bytes -> Dev -> option bytes * Dev).

(** Whatever a response of the right shape contains. *)
Lemma read_response slave addr q rq a f payload c0 c1 rest data d d' :
  read_request slave addr q = Ret rq ->
  exchange rq d = (Some (response_body a f payload ++ c0 :: c1 :: rest), d') ->
  (length payload <= 94)%nat -> Nat.even (length payload) = true ->
  (length payload <= 2 * length data)%nat ->
  modbus_read_registers exchange slave addr q data d
  = Ret (negb (c0 + 256 * c1 =? crc_of (response_body a f payload) 0xffff),
         regs_of payload ++ drop (length payload / 2) data, d').
Proof.
  intros Hrq Hx Hl He Hd. unfold modbus_read_registers. rewrite Hrq. run_step. rewrite Hx. cbn iota.
  cbn [default]. set (body := response_body a f payload).
  assert (length body = (3 + length payload)%nat) as Hb by done.
  destruct (proj1 (Nat.even_spec _) He) as [n Hn].
  assert (exists k, repeat 0 MODBUS_READ_BUFF_LEN = repeat 0 MODBUS_READ_BUFF_LEN /\
    blit (repeat 0 MODBUS_READ_BUFF_LEN) 0 (take MODBUS_READ_BUFF_LEN (body ++ c0 :: c1 :: rest))
    = Ret (body ++ c0 :: c1 :: k)) as (k & _ & E).
  { unfold MODBUS_READ_BUFF_LEN. rewrite take_app_ge by lia.
    rewrite blit_0 by (rewrite length_app, length_take, repeat_length; cbn [length]; lia).
    destruct (100 - length body)%nat as [|[|m]] eqn:Em; [lia.. |]. cbn [take].
    eexists. split; [done|]. rewrite <- app_assoc. cbn [app]. done. }
  change (id (body ++ c0 :: c1 :: rest)) with (body ++ c0 :: c1 :: rest). rewrite E. run_step.
  assert (load (body ++ c0 :: c1 :: k) 2 = Ret (Z.of_nat (length payload))) as -> by
    (apply load_lookup; [lia | done]). run_step.
  unfold calculate_crc. rewrite Z.max_r by lia. rewrite slice_0_app by lia. run_step. run_step.
  rewrite (load_app body c0 _ (3 + Z.of_nat (length payload))) by lia. run_step.
  rewrite (load_at body _ (3 + Z.of_nat (length payload) + 1) 1 c1) by first [ reflexivity | lia ]. run_step.
  replace (Z.to_nat (Z.of_nat (length payload) / 2)) with n.
  2:{ change 2 with (Z.of_nat 2). rewrite <- Nat2Z.inj_div, Nat2Z.id, Hn, Nat.mul_comm, Nat.div_mul; lia. }
  replace (length payload / 2)%nat with n by (rewrite Hn, Nat.mul_comm, Nat.div_mul; lia).
  pose proof (copy_registers_spec n 0 [a; f; Z.of_nat (length payload)] payload (c0 :: c1 :: k) [] data) as C.
  cbn [app] in C. change (body ++ c0 :: c1 :: k)
    with (a :: f :: Z.of_nat (length payload) :: payload ++ c0 :: c1 :: k).
  change (Z.of_nat 0) with 0 in C. rewrite C by (done || lia). by run_step.
Qed.
End Responses.

(** Registers survive the line: when the device answers with a well-formed
    frame of up to 47 registers that fit the caller's array, the read reports no
    error and stores each register as a signed 16-bit number. *)
Lemma read_registers_roundtrip {Dev} (exchange : bytes -> Dev -> option bytes * Dev)
    slave addr q rq a f regs data d d' :
  Forall word regs -> is_byte a -> is_byte f ->
  (length regs <= 47)%nat -> (length regs <= length data)%nat ->
  read_request slave addr q = Ret rq ->
  exchange rq d = (Some (response_frame a f regs), d') ->
  modbus_read_registers exchange slave addr q data d
  = Ret (false, (s16 <$> regs) ++ drop (length regs) data, d').
Proof.
  intros Hr Ha Hf Hl Hd Hrq Hx. pose proof (length_be16s regs) as Hlen.
  erewrite read_response; [| exact Hrq | exact Hx | lia | | lia].
  - rewrite regs_of_be16 by done.
    set (crc := crc_of _ _). assert (word crc) as Hw.
    { apply crc_of_word; [|unfold word; lia]. apply bytes_body; try done; [by apply bytes_be16s | lia]. }
    rewrite (proj1 (word_bytes crc Hw)), Z.eqb_refl.
    by rewrite Hlen, Nat.mul_comm, Nat.div_mul by lia.
  - rewrite Hlen. apply Nat.even_spec. by exists (length regs).
Qed.

(** A frame with one damaged byte keeps its shape but not its checksum. *)
Lemma damaged_frame a f regs k x :
  Forall word regs -> is_byte a -> is_byte f -> is_byte x -> (length regs <= 47)%nat ->
  (k < length (response_frame a f regs))%nat -> k <> 2%nat ->
  response_frame a f regs !! k <> Some x ->
  exists a' f' p' c0 c1,
    <[k := x]> (response_frame a f regs) = response_body a' f' p' ++ [c0; c1]
    /\ length p' = (2 * length regs)%nat
    /\ c0 + 256 * c1 <> crc_of (response_body a' f' p') 0xffff.
Proof.
  intros Hr Ha Hf Hxb Hl Hk Hk2 Hne. pose proof (length_be16s regs) as Hlen.
  pose proof (bytes_be16s regs Hr) as Hpb. unfold response_frame in *. cbv zeta in *.
  set (p := mjoin (be16 <$> regs)) in *.
  assert (Forall is_byte (response_body a f p)) as Hbb by (apply bytes_body; done || lia).
  assert (word (crc_of (response_body a f p) 0xffff)) as Hw
    by (apply crc_of_word; [done | unfold word; lia]).
  destruct (word_bytes _ Hw) as (Hc & _ & _).
  set (body := response_body a f p) in *. set (crc := crc_of body 0xffff) in *.
  rewrite length_app in Hk. cbn [length] in Hk.
  destruct (decide (k < length body)%nat) as [Hin|Hout].
  - rewrite lookup_app_l in Hne by done.
    destruct (lookup_lt_is_Some_2 body k Hin) as [b Hb]. rewrite Hb in Hne.
    assert (crc_of (<[k := x]> body) 0xffff <> crc) as Hd2
      by (apply (crc_of_one_byte body k b); [done | done | unfold word; lia | done | congruence]).
    assert (exists a' f' p', length p' = length p /\ <[k := x]> body = response_body a' f' p')
      as (a' & f' & p' & Hp & E).
    { destruct k as [|[|[|k]]]; [by exists x, f, p | by exists a, x, p | done |].
      exists a, f, (<[k := x]> p). unfold body, response_body. by rewrite length_insert. }
    exists a', f', p', (byte0 crc), (byte1 crc). rewrite insert_app_l, E by done.
    split_and!; [done | congruence |]. rewrite <- E, Hc. by intros ->.
  - rewrite lookup_app_r in Hne by lia.
    destruct (k - length body)%nat as [|[|j]] eqn:Ek; [| | lia]; cbn [lookup list_lookup] in Hne.
    + exists a, f, p, x, (byte1 crc). fold body. fold crc. rewrite insert_app_r_alt, Ek by lia.
      split_and!; [done | done |]. intros E. apply Hne. f_equal. lia.
    + exists a, f, p, (byte0 crc), x. fold body. fold crc. rewrite insert_app_r_alt, Ek by lia.
      split_and!; [done | done |]. intros E. apply Hne. f_equal. lia.
Qed.

(** C36: In an answer of up to 47 registers the checksum detects every
    transmission error in a single byte other
    than the length: the read reports it, although it has already stored the
    damaged registers in the caller's array. *)
Theorem byte_error_reported {Dev} (exchange : bytes -> Dev -> option bytes * Dev)
    slave addr q rq a f regs data d d' k x :
  Forall word regs -> is_byte a -> is_byte f -> is_byte x ->
  (length regs <= 47)%nat -> (length regs <= length data)%nat ->
  (k < length (response_frame a f regs))%nat -> k <> 2%nat ->
  response_frame a f regs !! k <> Some x ->
  read_request slave addr q = Ret rq ->
  exchange rq d = (Some (<[k := x]> (response_frame a f regs)), d') ->
  modbus_read_registers exchange slave addr q data d
  = Ret (true,
         regs_of (take (2 * length regs) (drop 3 (<[k := x]> (response_frame a f regs))))
         ++ drop (length regs) data, d').
Proof.
  intros Hr Ha Hf Hxb Hl Hd Hk Hk2 Hne Hrq Hx.
  destruct (damaged_frame a f regs k x Hr Ha Hf Hxb Hl Hk Hk2 Hne) as (a' & f' & p' & c0 & c1 & E & Hp & Hc).
  rewrite E in *. erewrite read_response; [| exact Hrq | exact Hx | lia | | lia].
  - rewrite (proj2 (Z.eqb_neq _ _) Hc), Hp, Nat.mul_comm, Nat.div_mul by lia.
    unfold response_body. cbn [app drop]. by rewrite Nat.mul_comm, <- Hp, drop_0, take_app_length.
  - rewrite Hp. apply Nat.even_spec. by exists (length regs).
Qed.

(** A byte count of 96 or more makes the check read behind the buffer. *)
Lemma long_count_overreads {Dev} (exchange : bytes -> Dev -> option bytes * Dev)
    slave addr q rq a f n rest data d d' :
  read_request slave addr q = Ret rq -> exchange rq d = (Some (a :: f :: n :: rest), d') ->
  96 <= n < 256 -> (length rest <= 97)%nat ->
  modbus_read_registers exchange slave addr q data d = Undef OobRead.
Proof.
  intros Hrq Hx Hn Hl. unfold modbus_read_registers. rewrite Hrq. run_step. rewrite Hx. cbn iota.
  change (default [] (Some (a :: f :: n :: rest))) with (a :: f :: n :: rest).
  unfold MODBUS_READ_BUFF_LEN. rewrite take_ge by (cbn [length]; lia).
  rewrite blit_0 by (rewrite repeat_length; cbn [length]; lia). run_step.
  set (buffer := _ ++ _). assert (length buffer = 100%nat) as Hb.
  { subst buffer. rewrite length_app, length_drop, repeat_length. cbn [length]. lia. }
  assert (load buffer 2 = Ret n) as -> by (apply load_lookup; [lia | done]). run_step.
  unfold calculate_crc, slice. rewrite Hb. destruct (Z.leb_spec (0 + Z.max 0 (3 + n)) (Z.of_nat 100)).
  - zdec. do 2 run_step. destruct (Z.lt_ge_cases (3 + n) 100).
    + destruct (load_defined buffer (3 + n)) as [lo ->]; [lia|]. run_step.
      by rewrite (load_oob buffer (3 + n + 1)) by lia.
    + by rewrite (load_oob buffer (3 + n)) by lia.
  - by rewrite andb_false_r.
Qed.

(** ** The receiver thread *)

(** A wanted register: its name in the published objects, its address, the
    denominator of its value, and whether line 95 has cleared the pointer to its
    object, which is the case for the first brake without the second. *)
Record channel := { ch_name : bytes; ch_addr : Z; ch_resolution : Z; ch_lost : bool }.

Definition chan (wanted : Z) (name : bytes) (addr resolution : Z) (lost : bool) : list channel :=
  if wanted =? 1
  then [{| ch_name := name; ch_addr := addr; ch_resolution := resolution; ch_lost := lost |}] else [].

Definition channels (w : wanted_signals_t) : list channel :=
  chan (want_motor_rpm w) (cstr "motor_rpm") MODBUS_RPM_REGADDR 1 false
  ++ chan (want_brake_1_voltage w) (cstr "brake_1_voltage") MODBUS_BRAKE_1_VOLTAGE_REGADDR MODBUS_DATA_RESOLUTION
       (negb (want_brake_2_voltage w =? 1))
  ++ chan (want_brake_2_voltage w) (cstr "brake_2_voltage") MODBUS_BRAKE_2_VOLTAGE_REGADDR MODBUS_DATA_RESOLUTION
       false
  ++ chan (want_throttle_voltage w) (cstr "throttle_voltage") MODBUS_THROTTLE_VOLTAGE_REGADDR
       MODBUS_DATA_RESOLUTION false.

(** Objects without a value, as the filler leaves them. *)
Definition blank (cs : list channel) : list signal :=
  (fun c => {| sig_name := ch_name c; sig_value := None |}) <$> cs.

(** What an answer leaves in the variable for one register, which held [cell]
    before.  The third byte is its byte count; bytes that did not arrive count as
    zero, so an answer cut short before it is one of no register.  A count of four
    or more writes behind the variable, one of 96 or more has the checksum read
    behind the buffer first.  The checksum itself plays no part. *)
Definition answer_word (answer : option bytes) (cell : Z) : out Z :=
  let byte i := nth i (default [] answer) 0 in
  if byte 2%nat <=? 1 then Ret cell
  else if byte 2%nat <=? 3 then Ret (256 * byte 3%nat + byte 4%nat)
  else if byte 2%nat <=? 95 then Undef OobWrite
  else Undef OobRead.

(** A whole answer brings its register. *)
Lemma answer_word_whole a f v rest cell :
  word v -> answer_word (Some (response_body a f (be16 v) ++ rest)) cell = Ret v.
Proof. intros Hv. unfold answer_word. cbn. rewrite Z.add_comm. f_equal. apply (word_bytes v Hv). Qed.

Lemma u16_s16 v : word v -> u16 (s16 v) = v.
Proof.
  unfold word, u16, s16. intros Hv. change (2 ^ 16) with 65536 in *. change (2 ^ 15) with 32768.
  rewrite Zminus_mod_idemp_l. replace (v + 32768 - 32768) with v by lia. by apply Z.mod_small.
Qed.

Section Receiver.
(** Any device: what its [read] gives for a request are bytes, as many as it
    likes, or none. *)
Context {Dev : Type} (exchange : bytes -> Dev -> option bytes * Dev).
Hypothesis answers_bytes : forall rq d, Forall is_byte (default [] (exchange rq d).1).

(** One round: every wanted register is asked for in turn, and the variable the
    answers go to is shared by the whole round. *)
Fixpoint readings (cs : list channel) (cell : Z) (d : Dev) : out (list signal * Z * Dev) :=
  match cs with
  | [] => Ret ([], cell, d)
  | c :: cs =>
      rq ← read_request 1 (ch_addr c) 1;
      v ← answer_word (exchange rq d).1 cell;
      if ch_lost c then Undef NullDeref else
      r ← readings cs v (exchange rq d).2;
      Ret ({| sig_name := ch_name c; sig_value := Some (v, ch_resolution c) |} :: r.1.1, r.1.2, r.2)
  end.

Fixpoint rounds (dumps : list bool) (cs : list channel) (l : list signal) (d : Dev)
    : out (list signal * Dev) :=
  match dumps with
  | [] => Ret (l, d)
  | dump :: dumps =>
      r ← readings cs 65535 d; rounds dumps cs (if (dump : bool) then blank cs else r.1.1) r.2
  end.

Lemma lookup_repeat {A} (x : A) n k : (k < n)%nat -> repeat x n !! k = Some x.
Proof. revert k; induction n as [|n IH]; intros [|k] Hk; cbn; [lia | lia | done | apply IH; lia]. Qed.

(** The buffer after the read: 100 bytes, zero where none arrived. *)
Lemma response_buffer answer :
  Forall is_byte (default [] answer) ->
  exists buffer, blit (repeat 0 MODBUS_READ_BUFF_LEN) 0 (take MODBUS_READ_BUFF_LEN (default [] answer)) = Ret buffer
    /\ length buffer = MODBUS_READ_BUFF_LEN
    /\ (forall i, (i < MODBUS_READ_BUFF_LEN)%nat ->
          load buffer (Z.of_nat i) = Ret (nth i (default [] answer) 0) /\ is_byte (nth i (default [] answer) 0)).
Proof.
  intros Hb. set (l := default [] answer) in *. unfold MODBUS_READ_BUFF_LEN. rewrite blit_0.
  2:{ rewrite length_take, repeat_length. lia. }
  eexists. split; [done|]. rewrite drop_repeat, length_app, length_take, repeat_length. split; [lia|].
  intros i Hi. assert (is_byte 0) as H0 by (unfold is_byte; lia). destruct (Nat.lt_ge_cases i (length l)) as [Hl|Hl].
  - destruct (lookup_lt_is_Some_2 l i Hl) as [x Hx]. rewrite (nth_lookup_Some _ _ _ _ Hx).
    split; [|by eapply Forall_lookup_1].
    apply load_lookup; [lia|]. rewrite Nat2Z.id, lookup_app_l by (rewrite length_take; lia).
    by rewrite lookup_take_lt.
  - rewrite nth_overflow by lia. split; [|done]. apply load_lookup; [lia|].
    rewrite Nat2Z.id, lookup_app_r by (rewrite length_take; lia). rewrite length_take, Nat.min_r by lia.
    apply lookup_repeat. lia.
Qed.

(** Reading one register from any device. *)
Lemma read_one addr rq x d :
  read_request 1 addr 1 = Ret rq ->
  match answer_word (exchange rq d).1 (u16 x) with
  | Ret v => exists e y, modbus_read_registers exchange 1 addr 1 [x] d = Ret (e, [y], (exchange rq d).2) /\ u16 y = v
  | Undef u => modbus_read_registers exchange 1 addr 1 [x] d = Undef u
  end.
Proof.
  intros Hrq. pose proof (answers_bytes rq d) as Hb. unfold modbus_read_registers, answer_word.
  rewrite Hrq, ret_bind. destruct (exchange rq d) as [answer d']. cbn [fst snd] in *.
  destruct (response_buffer answer Hb) as (buffer & -> & Hl & Hload). rewrite ret_bind.
  assert (forall i, (i <? MODBUS_READ_BUFF_LEN)%nat = true -> load buffer (Z.of_nat i) = Ret (nth i (default [] answer) 0)) as L
    by (intros i Hi%Nat.ltb_lt; by apply Hload).
  destruct (Hload 2%nat) as [L2 [H0 H1]]; [unfold MODBUS_READ_BUFF_LEN; lia|].
  destruct (Hload 3%nat) as [_ B3]; [unfold MODBUS_READ_BUFF_LEN; lia|].
  destruct (Hload 4%nat) as [_ B4]; [unfold MODBUS_READ_BUFF_LEN; lia|].
  change (Z.of_nat 2) with 2 in L2. rewrite L2, ret_bind.
  set (n := nth 2 _ 0) in *. unfold MODBUS_READ_BUFF_LEN in Hl.
  unfold calculate_crc, slice. rewrite Hl, Z.max_r by lia.
  destruct (Z.le_gt_cases n 95) as [Hn|Hn].
  - zdec. rewrite !ret_bind. destruct (load_defined buffer (3 + n)) as [lo ->]; [lia|].
    destruct (load_defined buffer (3 + n + 1)) as [hi ->]; [lia|]. rewrite !ret_bind.
    destruct (n <=? 1) eqn:E1; znorm E1; [|destruct (n <=? 3) eqn:E2; znorm E2].
    + rewrite Z.div_small by lia. do 2 eexists. by split.
    + replace (n / 2) with 1 by (apply (Z.div_unique n 2 1 (n - 2)); lia).
      change (Z.to_nat 1) with 1%nat. cbn [copy_registers].
      rewrite (L 4%nat eq_refl : load buffer (3 + (0 * 2 + 1)) = _), (L 3%nat eq_refl : load buffer (3 + 0 * 2) = _).
      do 2 eexists. split; [reflexivity|]. unfold is_byte, MODBUS_DATA_LEN in *.
      rewrite u16_s16 by (unfold word; lia). lia.
    + zdec. pose proof (Z.div_le_lower_bound n 2 2). destruct (Z.to_nat (n / 2)) as [|[|m]] eqn:Em; [lia|lia|]. cbn [copy_registers].
      rewrite (L 4%nat eq_refl : load buffer (3 + (0 * 2 + 1)) = _), (L 3%nat eq_refl : load buffer (3 + 0 * 2) = _).
      rewrite !ret_bind. change (0 + 1) with 1.
      rewrite (L 6%nat eq_refl : load buffer (3 + (1 * 2 + 1)) = _), (L 5%nat eq_refl : load buffer (3 + 1 * 2) = _). done.
  - do 3 zdec. destruct (Z.leb_spec (0 + (3 + n)) (Z.of_nat 100)).
    + zdec. rewrite !ret_bind. destruct (Z.lt_ge_cases (3 + n) 100).
      * destruct (load_defined buffer (3 + n)) as [lo ->]; [lia|]. rewrite ret_bind.
        by rewrite (load_oob buffer (3 + n + 1)) by lia.
      * by rewrite (load_oob buffer (3 + n)) by lia.
    + by zdec.
Qed.

Lemma poll_unwanted wanted addr res obj s :
  (wanted =? 1) = false -> poll exchange wanted addr res obj s = Ret s.
Proof. intros Hw. unfold poll. destruct s as [[data j] d]. by rewrite Hw. Qed.

(** Objects the filler laid out, with whatever values were published since. *)
Definition laid_out (w : wanted_signals_t) (j : modbus_json) : Prop :=
  exists j0, j = set_signals (fj_obj_modbus j) (modbus_json_filler w j0)
             /\ sig_name <$> fj_obj_modbus j = ch_name <$> channels w.

Lemma filler_blank w j : fj_obj_modbus (modbus_json_filler w j) = blank (channels w).
Proof.
  unfold modbus_json_filler, channels, chan.
  by destruct (want_motor_rpm w =? 1), (want_brake_1_voltage w =? 1), (want_brake_2_voltage w =? 1),
    (want_throttle_voltage w =? 1).
Qed.

Lemma filler_laid_out w j : laid_out w (modbus_json_filler w j).
Proof.
  exists j. split; [by destruct (modbus_json_filler w j)|]. rewrite filler_blank.
  unfold blank. by rewrite <- list_fmap_compose.
Qed.

(** A pointer to the object number [k] where the signal is wanted, unless it is lost. *)
Definition points (wanted : Z) (lost : bool) (k : nat) (obj : option nat) : Prop :=
  (wanted =? 1) = true -> obj = if lost then None else Some k.

Lemma filler_points w j0 (j := modbus_json_filler w j0) :
  let n1 := length (chan (want_motor_rpm w) [] 0 0 false) in
  let n2 := length (chan (want_brake_1_voltage w) [] 0 0 false) in
  let n3 := length (chan (want_brake_2_voltage w) [] 0 0 false) in
  points (want_motor_rpm w) false 0 (fj_obj_motor_rpm j)
  /\ points (want_brake_1_voltage w) (negb (want_brake_2_voltage w =? 1)) n1 (fj_obj_brake_1_voltage j)
  /\ points (want_brake_2_voltage w) false (n1 + n2) (fj_obj_brake_2_voltage j)
  /\ points (want_throttle_voltage w) false (n1 + n2 + n3) (fj_obj_throttle_voltage j).
Proof.
  subst j. unfold points, chan, modbus_json_filler.
  by destruct (want_motor_rpm w =? 1), (want_brake_1_voltage w =? 1), (want_brake_2_voltage w =? 1),
    (want_throttle_voltage w =? 1).
Qed.

Lemma length_chan wanted name addr res lost :
  length (chan wanted name addr res lost) = length (chan wanted [] 0 0 false).
Proof. unfold chan. by destruct (wanted =? 1). Qed.

Lemma readings_app a b cell d :
  readings (a ++ b) cell d
  = (r ← readings a cell d; t ← readings b r.1.2 r.2; Ret (r.1.1 ++ t.1.1, t.1.2, t.2)).
Proof.
  revert cell d. induction a as [|c a IH]; intros cell d; cbn [app readings].
  - rewrite ret_bind. cbn [fst snd app]. by destruct (readings b cell d) as [[[l x] d']|].
  - destruct (read_request _ _ _) as [rq|]; [|done]. rewrite !ret_bind.
    destruct (answer_word _ _) as [v|]; [|done]. rewrite !ret_bind. destruct (ch_lost c); [done|]. rewrite IH.
    destruct (readings a v _) as [[[l x] d']|]; [|done]. rewrite !ret_bind. cbn [fst snd].
    by destruct (readings b x d') as [[[l' x'] d'']|].
Qed.

(** One [if] of the body: the objects before [done] stay, the wanted one of the
    rest gets its reading, or the thread dies of it. *)
Lemma poll_chan wanted name addr res lost obj data j0 d done todo ns :
  points wanted lost (length done) (obj j0) -> (forall l, obj (set_signals l j0) = obj j0) ->
  sig_name <$> todo = (ch_name <$> chan wanted name addr res lost) ++ ns ->
  match readings (chan wanted name addr res lost) (u16 data) d with
  | Ret r => exists data' todo',
      poll exchange wanted addr res obj (data, set_signals (done ++ todo) j0, d)
      = Ret (data', set_signals ((done ++ r.1.1) ++ todo') j0, r.2)
      /\ u16 data' = r.1.2 /\ sig_name <$> todo' = ns
      /\ sig_name <$> r.1.1 = ch_name <$> chan wanted name addr res lost
      /\ length r.1.1 = length (chan wanted [] 0 0 false)
  | Undef u => poll exchange wanted addr res obj (data, set_signals (done ++ todo) j0, d) = Undef u
  end.
Proof.
  intros Hp Ho Hn. unfold points, chan in *. destruct (wanted =? 1) eqn:E; cbn [readings ch_addr ch_lost ch_resolution ch_name].
  2:{ exists data, todo. rewrite poll_unwanted by done. cbn [fst snd]. by rewrite app_nil_r. }
  destruct todo as [|t todo]; [discriminate Hn|]. cbn [fmap list_fmap app ch_name] in Hn.
  injection Hn as <- Hn. unfold poll. rewrite E. destruct (read_request_ok 1 addr 1) as (b0 & b1 & Hrq).
  pose proof (read_one addr _ data d Hrq) as Hr. rewrite Hrq, ret_bind.
  destruct (answer_word _ (u16 data)) as [v|u]; [|by rewrite Hr]. rewrite ret_bind.
  destruct Hr as (e & y & Hr & Hy). rewrite Hr.
  destruct lost; rewrite !ret_bind; change (load [y] 0) with (Ret y); rewrite !ret_bind, Ho, Hp by done; [done|].
  exists y, todo. unfold publish. cbn [deref]. rewrite !ret_bind. cbn [fst snd set_signals fj_obj_modbus].
  rewrite <- (Nat.add_0_r (length done)), alter_app_r, Hy, <- app_assoc. by split_and!.
Qed.

(** The next poll of a round, on both sides. *)
Ltac next_poll wanted P Hn :=
  rewrite ?readings_app;
  lazymatch goal with
  | |- context [poll exchange wanted ?addr ?res ?obj (?data, set_signals (?done ++ ?todo) ?j0, ?d)] =>
      let H := fresh in
      pose proof (fun Hp Ho => poll_chan wanted _ addr res _ obj data j0 d done todo _ Hp Ho Hn) as H;
      rewrite ?length_app in H;
      repeat match goal with E : length _ = length _ |- _ => rewrite E in H end;
      specialize (H P ltac:(reflexivity));
      match type of H with match ?r with _ => _ end => destruct r as [[[? ?] ?]|]; [|by rewrite H] end;
      let Hs := fresh "Hs" in
      cbn [fst snd] in H; clear Hn; destruct H as (? & ? & -> & <- & Hn & Hs & ?);
      rewrite !ret_bind; cbn [fst snd]
  end.

(** The thread's body on laid-out objects. *)
Lemma thread_step_reads w j d :
  laid_out w j ->
  match readings (channels w) 65535 d with
  | Ret r => exists j', thread_step exchange w j d = Ret (j', r.2) /\ laid_out w j' /\ fj_obj_modbus j' = r.1.1
  | Undef u => thread_step exchange w j d = Undef u
  end.
Proof.
  intros (j0 & -> & Hn). destruct (filler_points w j0) as (P1 & P2 & P3 & P4).
  set (l := fj_obj_modbus j) in *. clearbody l.
  assert (forall l', sig_name <$> l' = ch_name <$> channels w ->
            laid_out w (set_signals l' (modbus_json_filler w j0))) as Hlaid by (intros; by exists j0).
  revert Hn Hlaid. generalize (modbus_json_filler w j0) P1 P2 P3 P4. clear P1 P2 P3 P4.
  intros f P1 P2 P3 P4 Hn Hlaid. cbn [set_signals fj_obj_modbus] in Hn.
  unfold thread_step. change l with ([] ++ l). unfold channels in *.
  rewrite !fmap_app, <- (app_nil_r (ch_name <$> chan (want_throttle_voltage w) _ _ _ _)) in Hn.
  change 65535 with (u16 (u16 (-1))).
  next_poll (want_motor_rpm w) P1 Hn.
  next_poll (want_brake_1_voltage w) P2 Hn.
  next_poll (want_brake_2_voltage w) P3 Hn. next_poll (want_throttle_voltage w) P4 Hn.
  apply fmap_nil_inv in Hn as ->. eexists. rewrite app_nil_r, <- !app_assoc. split; [reflexivity|]. split; [|done].
  apply Hlaid. cbn [app]. rewrite !fmap_app. by repeat f_equal.
Qed.

Lemma thread_loop_rounds dumps w j d :
  laid_out w j ->
  (r ← thread_loop exchange dumps w j d; Ret (fj_obj_modbus r.1, r.2))
  = rounds dumps (channels w) (fj_obj_modbus j) d.
Proof.
  revert j d. induction dumps as [|dump dumps IH]; intros j d Hj; [done|]. cbn [thread_loop rounds].
  pose proof (thread_step_reads w j d Hj) as H.
  destruct (readings (channels w) 65535 d) as [[[l cell] d']|u]; [|by rewrite H].
  destruct H as (j1 & -> & Hj1 & E). rewrite !ret_bind. cbn [fst snd] in *. rewrite <- E.
  destruct dump; [|by apply IH]. rewrite <- (filler_blank w j1). apply IH, filler_laid_out.
Qed.

(** C33: The Modbus receiver end to end, with any device on the line.  After any
    number of rounds the published objects are exactly those of the wanted
    registers, in the order of the filler, each with what the answers to the
    last round's requests left in the variable (and without a value after a
    dump), brake and throttle voltages in units of 1/4096.  An answer of one
    register brings its value whether or not its checksum is right; silence, an
    answer cut short before its byte count and one of no register publish what
    the request before it brought, or 65535 at the start of a round.  The thread
    dies at the first answer of more than one register, and of the first brake
    without the second, whose object is a null pointer. *)
Theorem registers_published dumps w j d :
  (r ← thread_loop exchange dumps w (modbus_json_filler w j) d; Ret (fj_obj_modbus r.1, r.2))
  = rounds dumps (channels w) (blank (channels w)) d.
Proof. rewrite <- (filler_blank w j). apply thread_loop_rounds, filler_laid_out. Qed.
End Receiver.

Module ModbusWitness.
Definition line (answer : bytes) (_ : bytes) (d : nat) : option bytes * nat := (Some answer, S d).

(** A device whose registers count the requests, with checksums that are always
    zero, and which does not answer the sixth request; the selection leaves out
    the engine and reads both brakes. *)
Definition counting_device (rq : bytes) (d : nat) : option bytes * nat :=
  match rq with
  | _ :: _ :: hi :: lo :: _ =>
      (if (d =? 5)%nat then None
       else Some (response_body 1 3 (be16 ((256 * hi + lo + Z.of_nat d) mod 2 ^ 16)) ++ [0; 0]), S d)
  | _ => (None, d)
  end.

Lemma counting_bytes rq d : Forall is_byte (default [] (counting_device rq d).1).
Proof.
  unfold counting_device. destruct rq as [|? [|? [|hi [|lo rq]]]]; try constructor. cbn [fst].
  destruct (d =? 5)%nat; [constructor|]. cbn [default]. apply list.Forall_app. split.
  - apply (bytes_body 1 3); [done | done | | cbn; lia].
    destruct (word_bytes ((256 * hi + lo + Z.of_nat d) mod 2 ^ 16)) as (_ & H0 & H1); [|by apply Forall_cons_2; [|apply Forall_cons_2; [|constructor]]].
    apply Z.mod_pos_bound. lia.
  - by repeat constructor.
Qed.

Definition both_brakes : wanted_signals_t :=
  {| want_motor_rpm := 0; want_brake_1_voltage := 1; want_brake_2_voltage := 1; want_throttle_voltage := 0 |}.

Definition no_objects : modbus_json :=
  {| fj_obj_modbus := []; fj_obj_motor_rpm := None; fj_obj_brake_1_voltage := None;
     fj_obj_brake_2_voltage := None; fj_obj_throttle_voltage := None |}.

(** The second brake shows the first one's value, since its own did not come. *)
Lemma registers_published_witness :
  (r ← thread_loop counting_device [false; true; false] both_brakes
         (modbus_json_filler both_brakes no_objects) 0%nat; Ret (fj_obj_modbus r.1, r.2))
  = Ret ([{| sig_name := cstr "brake_1_voltage"; sig_value := Some (0x10f + 4, 4096) |};
          {| sig_name := cstr "brake_2_voltage"; sig_value := Some (0x10f + 4, 4096) |}], 6%nat).
Proof.
  refine (eq_trans (registers_published counting_device counting_bytes [false; true; false] both_brakes no_objects 0%nat) _).
  vm_compute. reflexivity.
Defined.

Lemma byte_error_reported_witness :
  exists rq, read_request 1 0x107 1 = Ret rq /\
  modbus_read_registers (line (<[4%nat := 45]> (response_frame 1 3 [300]))) 1 0x107 1 [7] 0%nat
  = Ret (true, regs_of (take 2 (drop 3 (<[4%nat := 45]> (response_frame 1 3 [300])))) ++ drop 1 [7], 1%nat).
Proof.
  destruct (read_request_ok 1 0x107 1) as (c0 & c1 & E). eexists. split; [exact E|].
  refine (byte_error_reported (line (<[4%nat := 45]> (response_frame 1 3 [300]))) 1 0x107 1 _ 1 3
            [300] [7] 0%nat 1%nat 4 45 _ _ _ _ _ _ _ _ _ E eq_refl).
  - repeat constructor; unfold word; lia.
  - unfold is_byte. lia.
  - unfold is_byte. lia.
  - unfold is_byte. lia.
  - cbn. lia.
  - cbn. lia.
  - cbn. lia.
  - done.
  - vm_compute. discriminate.
Defined.
End ModbusWitness.
