(* ===== verification/Dataset.v ===== *)
(** * The vehicle dataset
      (src/plugins/dataset/dataset.h,
       src/plugins/dataset/vehicle/vehicle_dataset.c, vehicle_dataset.h)

    Which vehicle signals are published: a list of option names, one flag byte
    per option.  A JSON array of names selects options, and the selection is
    printed as a JSON array.  The tokenizer jsmn and the printer libfastjson
    are parameters ([Json]).  Receivers read the flag bytes as a C structure,
    whose field order is part of the model. *)

From S2P Require Import Prelude CStd.

Definition TOK_NUM_MAX : nat := 256.
Definition TOKNAME_LEN : nat := 128.

(** ** vehicle_dataset.h: the structures laid over the flag bytes *)

Definition can01_vehicle_dataset_t : list bytes :=
  [ cstr "DoorDrvrSts"; cstr "DoorDrvrReSts"; cstr "VehMtnStSafe"; cstr "EngCooltLvl"; cstr "TrSts";
    cstr "DoorPassSts"; cstr "DoorPassReSts"; cstr "LockgCenStsForUsrFb"; cstr "VehSpdLgtSafe";
    cstr "FuLvlIndcdVal"; cstr "EngN"; cstr "BkpOfDstTrvld"; cstr "AmbTIndcd";
    cstr "VehSpdIndcdVal"; cstr "VinBlk"; cstr "VinPosn1"; cstr "VinPosn2"; cstr "VinPosn3";
    cstr "VinPosn4"; cstr "VinPosn5"; cstr "VinPosn6"; cstr "VinPosn7"; cstr "TrLockSts";
    cstr "VehBattUSysU"; cstr "AmbTValAtDrvrSide"; cstr "AmbTURawAtLeSideForObd";
    cstr "AmbTURawAtRiSideForObd"; cstr "AmbTValAtPassSide"; cstr "DrvrBrkTqAtWhlsReqd";
    cstr "BrkPedlPsd"; cstr "BrkTqTotReqForPt"; cstr "GearIndcn"; cstr "DrvrPrpsnTqReq";
    cstr "CluPedlRat" ].

Definition canopen01_vehicle_dataset_t : list bytes :=
  [ cstr "bms_bat_voltage"; cstr "analogue_brake_full_voltage"; cstr "analogue_brake_off_voltage";
    cstr "controller_temperature"; cstr "vehicle_speed"; cstr "motor_rpm"; cstr "motor_speed";
    cstr "battery_voltage"; cstr "battery_current"; cstr "battery_soc"; cstr "throttle_voltage";
    cstr "brake_1_voltage"; cstr "brake_2_voltage"; cstr "battery_power_percent";
    cstr "raw_battery_voltage"; cstr "wheel_rpm_speed_sensor_based"; cstr "wheel_rpm_motor_based";
    cstr "trip_meter"; cstr "brake_light_pwm_daylight"; cstr "remote_throttle_voltage" ].

(** ** vehicle_dataset.c: the option strings, with their terminators *)

Definition vehicledatasetdemo01_options : bytes :=
  cstr "DoorDrvrReSts|DoorDrvrSts|VehMtnStSafe|EngCooltLvl|TrSts|DoorPassSts|DoorPassReSts" ++
  cstr "|LockgCenStsForUsrFb|VehSpdLgtSafe|FuLvlIndcdVal|EngN|BkpOfDstTrvld|AmbTIndcd" ++
  cstr "|VehSpdIndcdVal|VinBlk|VinPosn1|VinPosn2|VinPosn3|VinPosn4|VinPosn5|VinPosn6|VinPosn7" ++
  cstr "|TrLockSts|VehBattUSysU|AmbTValAtDrvrSide|AmbTURawAtLeSideForObd|AmbTURawAtRiSideForObd" ++
  cstr "|AmbTValAtPassSide|DrvrBrkTqAtWhlsReqd|BrkPedlPsd|BrkTqTotReqForPt|GearIndcn" ++
  cstr "|DrvrPrpsnTqReq|CluPedlRat" ++ [0].

Definition vehicledatasetdemo02_options : bytes :=
  cstr "bms_bat_voltage|analogue_brake_full_voltage|analogue_brake_off_voltage" ++
  cstr "|controller_temperature|vehicle_speed|motor_rpm|motor_speed|battery_voltage" ++
  cstr "|battery_current|battery_soc|throttle_voltage|brake_1_voltage|brake_2_voltage" ++
  cstr "|battery_power_percent|raw_battery_voltage|wheel_rpm_speed_sensor_based" ++
  cstr "|wheel_rpm_motor_based|trip_meter|remote_throttle_voltage" ++ [0].

(** ** dataset.h *)

(** The name is a pointer into the options; its string is all that is used. *)
Record d_token_t := { name : option bytes; val : Z }.

Record dataset_state_t := {
  options : bytes;
  options_count : Z;
  tokens : list d_token_t;
  dataset : bytes
}.

Definition set_dataset (d : bytes) (s : dataset_state_t) : dataset_state_t :=
  {| options := options s; options_count := options_count s; tokens := tokens s; dataset := d |}.
Definition set_tokens (t : list d_token_t) (s : dataset_state_t) : dataset_state_t :=
  {| options := options s; options_count := options_count s; tokens := t; dataset := dataset s |}.

(** ** The operations *)

Definition set_val (v : Z) (t : d_token_t) : d_token_t := {| name := name t; val := v |}.

(** The first [n] options are tried; [None] is the return code -1. *)
Fixpoint set_token (n : nat) (ts : list d_token_t) (nm : bytes) (v : Z)
    : out (option (list d_token_t)) :=
  match n with
  | O => Ret None
  | S n =>
      match ts with
      | [] => Undef OobRead
      | t :: ts =>
          tn ← deref (name t);
          if strncmp_eq tn nm (length nm) then Ret (Some (set_val v t :: ts))
          else r ← set_token n ts nm v;
               Ret (match r with Some ts => Some (t :: ts) | None => None end)
      end
  end.

(** [dataset[i] = 0] for [n] flags from [i] on. *)
Fixpoint clear_flags (n : nat) (i : Z) (d : bytes) : out bytes :=
  match n with O => Ret d | S n => d ← store d i 0; clear_flags n (i + 1) d end.

Fixpoint clear_vals (n : nat) (ts : list d_token_t) : out (list d_token_t) :=
  match n with
  | O => Ret ts
  | S n => match ts with
           | [] => Undef OobWrite
           | t :: ts => ts ← clear_vals n ts; Ret (set_val 0 t :: ts)
           end
  end.

Definition count_bars (s : bytes) : nat := length (filter (fun c => c = 124) s).

(** What the calls of [strtok] leave of the options: the bar behind a token
    becomes its terminator. *)
Fixpoint cut_options (in_token : bool) (mem : bytes) : bytes :=
  match mem with
  | [] => []
  | c :: mem' =>
      if c =? 0 then mem
      else if c =? 124 then (if in_token then 0 else c) :: cut_options false mem'
      else c :: cut_options true mem'
  end.

Definition vehicledataset_init (s : dataset_state_t) : out dataset_state_t :=
  if negb (options_count s =? 0) then
    let n := Z.to_nat (options_count s) in
    d ← clear_flags n 0 (dataset s);
    ts ← clear_vals n (tokens s);
    Ret (set_tokens ts (set_dataset d s))
  else
    opts ← c_str (options s);
    let vd_options_count_tmp := S (count_bars opts) in
    if (vd_options_count_tmp =? 1)%nat then Ret s else
    let '(names, _) := strtok_all 124 (options s) in
    d ← clear_flags vd_options_count_tmp 0 (dataset s);
    Ret {| options := cut_options false (options s);
           options_count := Z.of_nat vd_options_count_tmp;
           tokens := (fun i => {| name := names !! i; val := 0 |}) <$> seq 0 vd_options_count_tmp;
           dataset := d |}.

(** A JSON token: its type, its span in the text, and its number of elements. *)
Record json_token := { t_array : bool; t_start : Z; t_end : Z; t_size : Z }.

Class Json := {
  (** [jsmn_parse] without and with a token array of the given length *)
  jsmn_count : bytes -> Z;
  jsmn_parse : bytes -> Z -> Z * list json_token;
  (** [fjson_object_to_json_string] of an array of strings *)
  fjson_array_string : list bytes -> bytes
}.

Section Operations.
Context `{Json}.

(** The index of the first array among the first [n] tokens. *)
Fixpoint find_array (n : nat) (i : nat) (toks : list json_token) : out (option nat) :=
  match n with
  | O => Ret None
  | S n =>
      match toks with
      | [] => Undef Uninit
      | t :: toks => if t_array t then Ret (Some i) else find_array n (S i) toks
      end
  end.

(** One element: its text is copied to [tokname] and selected. *)
Definition select_one (json : bytes) (t : json_token) (s : dataset_state_t) : out dataset_state_t :=
  let toklen := t_end t - t_start t in
  _ ← ensure (0 <=? toklen) OobWrite;
  src ← tail_from json (t_start t);
  tokname ← strncpy (repeat 0 TOKNAME_LEN) src (Z.to_nat toklen);
  tokname ← store tokname toklen 0;
  nm ← c_str tokname;
  r ← set_token (Z.to_nat (options_count s)) (tokens s) nm 1;
  Ret (match r with Some ts => set_tokens ts s | None => s end).

Fixpoint select_all (n : nat) (json : bytes) (toks : list json_token) (s : dataset_state_t)
    : out dataset_state_t :=
  match n with
  | O => Ret s
  | S n =>
      match toks with
      | [] => Undef Uninit
      | t :: toks => s ← select_one json t s; select_all n json toks s
      end
  end.

(** [dataset_uint8[i] = tokens[i].val] for [n] options from [i] on. *)
Fixpoint copy_vals (n : nat) (i : Z) (ts : list d_token_t) (d : bytes) : out bytes :=
  match n with
  | O => Ret d
  | S n =>
      match ts with
      | [] => Undef OobRead
      | t :: ts => d ← store d i (u8 (val t)); copy_vals n (i + 1) ts d
      end
  end.

(** [json] is the memory of the text; jsmn writes as many tokens as it counts. *)
Definition vehicledataset_from_json (s : dataset_state_t) (json : bytes) : out dataset_state_t :=
  let num_of_tokens := jsmn_count json in
  if num_of_tokens <? 1 then Ret s else
  _ ← ensure (num_of_tokens <=? Z.of_nat TOK_NUM_MAX) OobWrite;
  let '(num_of_tokens, toks) := jsmn_parse json num_of_tokens in
  a ← find_array (Z.to_nat num_of_tokens) 0 toks;
  match a with
  | None => Ret s
  | Some arr_index =>
      arr ← from_option Ret (Undef Uninit) (toks !! arr_index);
      s ← vehicledataset_init s;
      if t_size arr =? 0 then Ret s else
      s ← select_all (Z.to_nat (t_size arr)) json (drop (S arr_index) toks) s;
      d ← copy_vals (Z.to_nat (options_count s)) 0 (tokens s) (dataset s);
      Ret (set_dataset d s)
  end.

(** The names whose flag is 1, among the first [n] options. *)
Fixpoint checked_names (n : nat) (ts : list d_token_t) (d : bytes) : out (list bytes) :=
  match n with
  | O => Ret []
  | S n =>
      match ts, d with
      | t :: ts, f :: d =>
          nm ← (if f =? 1 then x ← deref (name t); Ret [x] else Ret []);
          r ← checked_names n ts d; Ret (nm ++ r)
      | _, _ => Undef OobRead
      end
  end.

(** The length returned and the buffer [json]. *)
Definition vehicledataset_to_json (s : dataset_state_t) (json : bytes) : out (Z * bytes) :=
  arr ← checked_names (Z.to_nat (options_count s)) (tokens s) (dataset s);
  let json_string := fjson_array_string arr in
  json ← blit json 0 (json_string ++ [0]);
  Ret (Z.of_nat (length json_string), json).

Fixpoint sum_flags (n : nat) (d : bytes) : out Z :=
  match n with
  | O => Ret 0
  | S n => match d with [] => Undef OobRead | f :: d => r ← sum_flags n d; Ret (f + r) end
  end.

Definition vehicledataset_checked_count (s : dataset_state_t) : out Z :=
  sum_flags (Z.to_nat (options_count s)) (dataset s).
End Operations.

(** ** Tokens as names and values *)

Definition toks_of (names : list bytes) (vals : list Z) : list d_token_t :=
  zip_with (fun n v => {| name := Some n; val := v |}) names vals.

(** The option a name selects: the first one it is a prefix of. *)
Fixpoint pick (names : list bytes) (x : bytes) : option nat :=
  match names with
  | [] => None
  | n :: names => if is_prefix x n then Some 0%nat else S <$> pick names x
  end.

(** The flags of a set of names. *)
Definition flags_of (sel names : list bytes) : list Z :=
  map (fun n => if bool_decide (n ∈ sel) then 1 else 0) names.

(** [x] is a prefix of no name but itself. *)
Definition exact (names : list bytes) (x : bytes) : Prop :=
  Forall (fun n => is_prefix x n = true -> n = x) names.

Lemma is_prefix_refl p : is_prefix p p = true.
Proof. apply is_prefix_spec. exists []. by rewrite app_nil_r. Qed.

Lemma strncmp_eq_prefix tn nm : strncmp_eq tn nm (length nm) = is_prefix nm tn.
Proof.
  unfold strncmp_eq. rewrite (take_ge nm) by done. apply eq_bool_prop_intro.
  rewrite bool_decide_spec, Is_true_true, is_prefix_spec. split.
  - intros E. exists (drop (length nm) tn). by rewrite <- E at 1; rewrite take_drop.
  - intros [k ->]. apply take_app_length.
Qed.

Lemma set_token_spec names vals x v :
  length vals = length names ->
  set_token (length names) (toks_of names vals) x v
  = Ret (match pick names x with
         | Some i => Some (toks_of names (<[i := v]> vals)) | None => None end).
Proof.
  revert vals; induction names as [|n names IH]; intros vals Hl; [done|].
  destruct vals as [|w vals]; [done|]. cbn [length toks_of zip_with set_token pick name]. run_step.
  rewrite strncmp_eq_prefix. destruct (is_prefix x n); [done|].
  change (zip_with _ names vals) with (toks_of names vals).
  rewrite IH by (cbn in Hl; lia). run_step. by destruct (pick names x).
Qed.

Lemma clear_flags_spec n i hd d :
  i = Z.of_nat (length hd) -> (n <= length d)%nat ->
  clear_flags n i (hd ++ d) = Ret (hd ++ repeat 0 n ++ drop n d).
Proof.
  revert i hd d; induction n as [|n IH]; intros i hd d Hi Hn; [done|].
  destruct d as [|x d]; cbn [length] in Hn; [lia|]. cbn [clear_flags].
  rewrite store_app by done. run_step. specialize (IH (i + 1) (hd ++ [0]) d).
  rewrite <- !app_assoc in IH. cbn [app] in IH.
  rewrite IH by (rewrite ?length_app; cbn [length]; lia). done.
Qed.

Lemma clear_flags_short n i hd d :
  i = Z.of_nat (length hd) -> (length d < n)%nat -> clear_flags n i (hd ++ d) = Undef OobWrite.
Proof.
  revert i hd d; induction n as [|n IH]; intros i hd d Hi Hn; [lia|]. cbn [clear_flags].
  destruct d as [|x d]; cbn [length] in Hn.
  - rewrite store_oob by (rewrite length_app; cbn [length]; lia). done.
  - rewrite store_app by done. run_step. specialize (IH (i + 1) (hd ++ [0]) d).
    rewrite <- app_assoc in IH. cbn [app] in IH. apply IH; [rewrite length_app; cbn [length]|]; lia.
Qed.

Lemma clear_vals_spec names vals :
  length vals = length names ->
  clear_vals (length names) (toks_of names vals) = Ret (toks_of names (repeat 0 (length names))).
Proof.
  revert vals; induction names as [|n names IH]; intros [|v vals] Hl; try done.
  cbn [length toks_of zip_with clear_vals repeat].
  change (zip_with _ names vals) with (toks_of names vals).
  rewrite IH by (cbn in Hl; lia). by run_step.
Qed.

Lemma copy_vals_spec names vals i hd d :
  length vals = length names -> i = Z.of_nat (length hd) -> (length names <= length d)%nat ->
  copy_vals (length names) i (toks_of names vals) (hd ++ d)
  = Ret (hd ++ map u8 vals ++ drop (length names) d).
Proof.
  revert vals i hd d; induction names as [|n names IH]; intros [|v vals] i hd d Hl Hi Hd; try done.
  destruct d as [|x d]; cbn [length] in *; [lia|]. cbn [toks_of zip_with copy_vals val].
  rewrite store_app by done. run_step. specialize (IH vals (i + 1) (hd ++ [u8 v]) d).
  rewrite <- !app_assoc in IH. cbn [app] in IH.
  change (zip_with _ names vals) with (toks_of names vals).
  rewrite IH by (rewrite ?length_app; cbn [length]; lia). done.
Qed.

Lemma length_flags_of sel names : length (flags_of sel names) = length names.
Proof. apply length_map. Qed.

Lemma flags_of_none names : flags_of [] names = repeat 0 (length names).
Proof. unfold flags_of. induction names as [|n names IH]; cbn; [done|]. by rewrite IH. Qed.

Lemma flags_of_ext sel sel' names :
  (forall n, n ∈ sel <-> n ∈ sel') -> flags_of sel names = flags_of sel' names.
Proof.
  intros He. apply map_ext. intros n. by rewrite (bool_decide_ext _ _ (He n)).
Qed.

Lemma u8_flags sel names : map u8 (flags_of sel names) = flags_of sel names.
Proof.
  unfold flags_of. rewrite map_map. apply map_ext. intros n. by case_bool_decide.
Qed.

(** Selecting one more name that is exact sets its flag and no other. *)
Lemma pick_flags sel names x :
  NoDup names -> exact names x ->
  match pick names x with Some i => <[i := 1]> (flags_of sel names) | None => flags_of sel names end
  = flags_of (x :: sel) names.
Proof.
  unfold exact. induction names as [|n names IH]; intros Hd He; [done|].
  apply list.NoDup_cons in Hd as [Hn Hd]. apply Forall_cons_iff in He as [Hx He].
  cbn [pick flags_of map]. destruct (is_prefix x n) eqn:E.
  - rewrite (Hx eq_refl) in *. cbn [insert list_insert].
    rewrite (bool_decide_true (x ∈ x :: sel)) by (apply elem_of_cons; by left). f_equal.
    apply map_ext_in. intros m Hm%list_elem_of_In. apply (f_equal (fun b : bool => if b then 1 else 0)).
    apply bool_decide_ext. rewrite elem_of_cons. split; [auto|]. intros [->|]; done.
  - assert (n <> x) as Hne by (intros ->; by rewrite is_prefix_refl in E).
    assert (bool_decide (n ∈ sel) = bool_decide (n ∈ x :: sel)) as ->
      by (apply bool_decide_ext; rewrite elem_of_cons; naive_solver).
    specialize (IH Hd He). unfold flags_of in IH. destruct (pick names x) as [i|];
      cbn [fmap option_fmap option_map]; [|by rewrite IH].
    set (h := if bool_decide _ then _ else _).
    change (<[S i := 1]> (h :: map (fun n => if bool_decide (n ∈ sel) then 1 else 0) names))
      with (h :: <[i := 1]> (map (fun n => if bool_decide (n ∈ sel) then 1 else 0) names)).
    by rewrite IH.
Qed.

(** ** Initialisation *)

(** A state whose options are already split. *)
Definition holds_options (names : list bytes) (s : dataset_state_t) : Prop :=
  options_count s = Z.of_nat (length names) /\ (length names <= length (dataset s))%nat
  /\ exists vals, length vals = length names /\ tokens s = toks_of names vals.

Lemma init_clears names s :
  names <> [] -> holds_options names s ->
  vehicledataset_init s
  = Ret (set_tokens (toks_of names (flags_of [] names))
           (set_dataset (flags_of [] names ++ drop (length names) (dataset s)) s)).
Proof.
  intros Hn (Hc & Hd & vals & Hl & Ht). unfold vehicledataset_init. rewrite Hc, Ht, Nat2Z.id.
  destruct names as [|n names]; [done|]. rewrite (proj2 (Z.eqb_neq _ 0)) by (cbn [length]; lia).
  cbn [negb]. pose proof (clear_flags_spec (length (n :: names)) 0 [] (dataset s) eq_refl Hd) as E.
  cbn [app] in E. rewrite E. run_step.
  rewrite clear_vals_spec by done. run_step. by rewrite flags_of_none.
Qed.

(** ** Selection *)

Section Selection.
Context `{Json}.

(** A token spans the text [x]. *)
Definition spans (json : bytes) (t : json_token) (x : bytes) : Prop :=
  exists pre post, json = pre ++ x ++ post /\ t_start t = Z.of_nat (length pre)
    /\ t_end t = Z.of_nat (length pre + length x) /\ no_nul x /\ (length x < TOKNAME_LEN)%nat.

(** What jsmn makes of a text whose first array holds the strings [sel]. *)
Definition parses (json : bytes) (sel : list bytes) : Prop :=
  exists pre arr elems more,
    let toks := pre ++ arr :: elems ++ more in
    jsmn_count json = Z.of_nat (length toks) /\ (length toks <= TOK_NUM_MAX)%nat
    /\ jsmn_parse json (jsmn_count json) = (jsmn_count json, toks)
    /\ Forall (fun t => t_array t = false) pre /\ t_array arr = true
    /\ t_size arr = Z.of_nat (length sel) /\ Forall2 (spans json) elems sel.

Lemma find_array_spec pre arr rest n i :
  Forall (fun t => t_array t = false) pre -> t_array arr = true -> (length pre < n)%nat ->
  find_array n i (pre ++ arr :: rest) = Ret (Some (i + length pre)%nat).
Proof.
  intros Hp Ha. revert n i; induction Hp as [|t pre Ht Hp IH]; intros [|n] i Hn; cbn [length] in Hn; try lia.
  - cbn [app find_array length]. rewrite Ha. do 2 f_equal. lia.
  - cbn [app find_array length]. rewrite Ht, IH by lia. do 2 f_equal. lia.
Qed.

Lemma select_one_spec json t x s names vals :
  spans json t x -> options_count s = Z.of_nat (length names) ->
  length vals = length names -> tokens s = toks_of names vals ->
  select_one json t s
  = Ret (set_tokens (toks_of names (match pick names x with Some i => <[i := 1]> vals | None => vals end)) s).
Proof.
  intros (pre & post & Hj & Hs & He & Hx & Hl) Hc Hv Ht. unfold select_one.
  replace (t_end t - t_start t) with (Z.of_nat (length x)) by lia.
  rewrite (proj2 (Z.leb_le 0 _)) by lia. cbn [ensure]. run_step.
  rewrite Hj, tail_from_app by done. run_step. rewrite Nat2Z.id.
  assert (strncpy (repeat 0 TOKNAME_LEN) (x ++ post) (length x)
          = Ret (x ++ drop (length x) (repeat 0 TOKNAME_LEN))) as ->.
  { unfold strncpy. rewrite take_app_length, before_nul_id, Nat.sub_diag by done.
    rewrite (proj2 (Nat.ltb_ge _ _)) by (rewrite length_app; lia). rewrite andb_false_r, app_nil_r.
    apply blit_0. rewrite repeat_length. lia. }
  run_step. rewrite drop_repeat. destruct (TOKNAME_LEN - length x)%nat as [|k] eqn:Ek; [lia|].
  cbn [repeat]. rewrite store_app by done. run_step. rewrite c_str_app by done. run_step.
  rewrite Hc, Nat2Z.id, Ht, set_token_spec by done. run_step.
  destruct (pick names x); [done|]. destruct s; cbn in *. by subst.
Qed.

Lemma select_all_spec json elems sel more s names acc :
  Forall2 (spans json) elems sel -> NoDup names -> Forall (exact names) sel ->
  options_count s = Z.of_nat (length names) -> tokens s = toks_of names (flags_of acc names) ->
  select_all (length sel) json (elems ++ more) s
  = Ret (set_tokens (toks_of names (flags_of (rev sel ++ acc) names)) s).
Proof.
  intros Hf Hd. revert s acc; induction Hf as [|t x elems sel Hx Hf IH]; intros s acc He Hc Ht.
  - cbn [length select_all rev app]. destruct s; cbn in *. by subst.
  - apply Forall_cons_iff in He as [Hex He]. cbn [length app select_all].
    rewrite (select_one_spec json t x s names (flags_of acc names)) by (done || apply length_flags_of).
    run_step. rewrite pick_flags by done. rewrite (IH _ (x :: acc)) by done.
    cbn [rev]. by rewrite <- app_assoc.
Qed.

(** ** Printing *)

Lemma checked_names_spec sel names k :
  checked_names (length names) (toks_of names (flags_of sel names)) (flags_of sel names ++ k)
  = Ret (filter (fun n => n ∈ sel) names).
Proof.
  induction names as [|n names IH]; [done|]. cbn [length toks_of zip_with flags_of map app checked_names name].
  change (zip_with _ names _) with (toks_of names (flags_of sel names)).
  change (map _ names ++ k) with (flags_of sel names ++ k). rewrite filter_cons.
  case_bool_decide; cbn [Z.eqb Pos.eqb]; do 2 (run_step || idtac); rewrite IH; run_step;
    [by rewrite decide_True | by rewrite decide_False].
Qed.

Lemma sum_flags_spec sel names k :
  sum_flags (length names) (flags_of sel names ++ k)
  = Ret (Z.of_nat (length (filter (fun n => n ∈ sel) names))).
Proof.
  induction names as [|n names IH]; [done|]. cbn [length flags_of map app sum_flags].
  change (map _ names ++ k) with (flags_of sel names ++ k). rewrite IH. run_step. rewrite filter_cons.
  case_bool_decide; [rewrite decide_True by done | rewrite decide_False by done]; cbn [length]; f_equal; lia.
Qed.
End Selection.

(** A state that shows the selection [sel]. *)
Definition shows (names sel : list bytes) (s : dataset_state_t) : Prop :=
  options_count s = Z.of_nat (length names) /\ tokens s = toks_of names (flags_of sel names)
  /\ exists k, dataset s = flags_of sel names ++ k.

Lemma from_json_selects `{Json} names s json sel :
  names <> [] -> NoDup names -> holds_options names s -> parses json sel -> Forall (exact names) sel ->
  exists s', vehicledataset_from_json s json = Ret s' /\ shows names sel s'
    /\ dataset s' = flags_of sel names ++ drop (length names) (dataset s).
Proof.
  intros Hn Hd Hs (pre & arr & elems & more & Hc & Hmax & Hp & Hpre & Harr & Hsz & Hf) Hex.
  pose proof (Hs) as (Hcnt & Hlen & _). unfold vehicledataset_from_json. rewrite Hp.
  set (d1 := drop (length names) (dataset s)).
  rewrite (proj2 (Z.ltb_ge _ 1)) by (rewrite Hc, length_app; cbn [length]; lia).
  rewrite (proj2 (Z.leb_le _ _)) by lia. cbn [ensure]. run_step.
  rewrite Hc, Nat2Z.id, find_array_spec by (done || (rewrite length_app; cbn [length]; lia)). run_step.
  cbn [Nat.add]. rewrite list_lookup_middle by done. cbn [from_option]. run_step.
  rewrite (init_clears names) by done. run_step. rewrite Hsz. fold d1.
  destruct (Z.of_nat (length sel) =? 0) eqn:Esel.
  - apply Z.eqb_eq in Esel. destruct sel; [|cbn in Esel; lia].
    eexists. split; [reflexivity|]. split; [|done]. split; [done|]. split; [done|]. by eexists.
  - rewrite Nat2Z.id.
    assert (drop (S (length pre)) (pre ++ arr :: elems ++ more) = elems ++ more) as ->.
    { change (arr :: elems ++ more) with ([arr] ++ elems ++ more).
      rewrite (app_assoc pre), drop_app_length'; [done|]. rewrite length_app. cbn. lia. }
    rewrite (select_all_spec json elems sel more _ names []) by done. run_step.
    cbn [options_count tokens dataset set_tokens set_dataset]. rewrite Hcnt, Nat2Z.id, app_nil_r.
    pose proof (copy_vals_spec names (flags_of (rev sel) names) 0 [] (flags_of [] names ++ d1)) as C.
    cbn [app] in C. rewrite C by (rewrite ?length_app, ?length_flags_of; done || lia). run_step.
    assert (flags_of (rev sel) names = flags_of sel names) as E.
    { apply flags_of_ext. intros n. by rewrite !list_elem_of_In, <- in_rev. }
    rewrite u8_flags, E, drop_app_length' by (by rewrite length_flags_of).
    eexists. split; [reflexivity|]. split; [|done]. split; [done|]. split; [done|]. by eexists.
Qed.

Lemma to_json_shows `{Json} names sel s buf :
  let text := fjson_array_string (filter (fun n => n ∈ sel) names) in
  shows names sel s -> (length text < length buf)%nat ->
  vehicledataset_to_json s buf
  = Ret (Z.of_nat (length text), text ++ 0 :: drop (S (length text)) buf).
Proof.
  intros text (H1 & H2 & k & H3) Hl. unfold vehicledataset_to_json.
  rewrite H1, H2, H3, Nat2Z.id, checked_names_spec. run_step. fold text.
  rewrite blit_0 by (rewrite length_app; cbn [length]; lia). run_step.
  rewrite length_app, <- app_assoc. cbn [length app]. by rewrite Nat.add_1_r.
Qed.

Lemma shows_holds names sel s :
  shows names sel s -> holds_options names s.
Proof.
  intros (H1 & H2 & k & H3). split_and!; [done | rewrite H3, length_app, length_flags_of; lia |].
  exists (flags_of sel names). by rewrite length_flags_of.
Qed.

(** C37: A selection survives the dataset: when a JSON array holds names none of
    which is a proper prefix of an option, reading it sets exactly the flags of
    the options it names, whatever was selected before; printing gives these
    options in the order of the option list, and the count is their number. *)
Theorem dataset_selection `{Json} names s json sel buf :
  names <> [] -> NoDup names -> holds_options names s ->
  parses json sel -> Forall (exact names) sel ->
  let chosen := filter (fun n => n ∈ sel) names in
  let text := fjson_array_string chosen in
  (length text < length buf)%nat ->
  exists s', vehicledataset_from_json s json = Ret s'
    /\ dataset s' = flags_of sel names ++ drop (length names) (dataset s)
    /\ holds_options names s'
    /\ vehicledataset_to_json s' buf
       = Ret (Z.of_nat (length text), text ++ 0 :: drop (S (length text)) buf)
    /\ vehicledataset_checked_count s' = Ret (Z.of_nat (length chosen)).
Proof.
  intros Hn Hd Hs Hp Hex chosen text Hbuf.
  destruct (from_json_selects names s json sel Hn Hd Hs Hp Hex) as (s' & E & Hsh & Hds).
  exists s'. split_and!; [done | done | by eapply shows_holds | by apply to_json_shows |].
  destruct Hsh as (H1 & _ & k & H3). unfold vehicledataset_checked_count.
  by rewrite H1, H3, Nat2Z.id, sum_flags_spec.
Qed.

(** ** The shipped options *)

Lemma filter_singleton (n : bytes) l : NoDup l -> n ∈ l -> filter (fun m => m ∈ [n]) l = [n].
Proof.
  induction l as [|m l IH]; intros Hd Hn; [by apply elem_of_nil in Hn|]. rewrite filter_cons.
  apply list.NoDup_cons in Hd as [Hm Hd]. apply elem_of_cons in Hn as [->|Hn].
  - rewrite decide_True by (by apply list_elem_of_singleton). f_equal. clear IH Hd.
    induction l as [|k l IH]; [done|]. apply not_elem_of_cons in Hm as [Hk Hm].
    rewrite filter_cons, decide_False; [by apply IH|]. intros E%list_elem_of_singleton. by apply Hk.
  - rewrite decide_False; [by apply IH|]. intros E%list_elem_of_singleton. subst. done.
Qed.

(** The fields of a structure laid over the flags whose byte is 1. *)
Definition fields_set (fields : list bytes) (flags : bytes) : list bytes :=
  map fst (filter (fun p => p.2 = 1) (zip fields flags)).

Definition demo01_names : list bytes := (strtok_all 124 vehicledatasetdemo01_options).1.
Definition demo02_names : list bytes := (strtok_all 124 vehicledatasetdemo02_options).1.

Definition fresh_state (opts d : bytes) : dataset_state_t :=
  {| options := opts; options_count := 0; tokens := []; dataset := d |}.

(** The first call splits the shipped options and clears one flag per option. *)
Lemma demo01_init d :
  (34 <= length d)%nat ->
  exists s, vehicledataset_init (fresh_state vehicledatasetdemo01_options d) = Ret s
    /\ holds_options demo01_names s /\ drop 34 (dataset s) = drop 34 d
    /\ options s = cut_options false vehicledatasetdemo01_options.
Proof.
  intros Hd. unfold vehicledataset_init, fresh_state. cbn [options_count options dataset Z.eqb negb].
  assert (c_str vehicledatasetdemo01_options = Ret (before_nul vehicledatasetdemo01_options)) as ->
    by (vm_compute; reflexivity).
  run_step.
  assert (S (count_bars (before_nul vehicledatasetdemo01_options)) = 34%nat) as -> by (vm_compute; reflexivity).
  cbn [Nat.eqb].
  assert (exists e, strtok_all 124 vehicledatasetdemo01_options = (demo01_names, e)) as [e ->]
    by (eexists; vm_compute; reflexivity).
  pose proof (clear_flags_spec 34 0 [] d eq_refl Hd) as E. cbn [app] in E. rewrite E. run_step.
  assert (length demo01_names = 34%nat) as Hl by (vm_compute; reflexivity).
  eexists. split; [reflexivity|]. unfold holds_options. split_and!; cbn [options_count dataset tokens].
  - by rewrite Hl.
  - rewrite Hl, length_app, repeat_length. lia.
  - exists (repeat 0 34). rewrite repeat_length, Hl. split; [done|]. vm_compute. reflexivity.
  - by rewrite drop_app_length' by (by rewrite repeat_length).
  - done.
Qed.

(** The CANopen receiver gives the same options a block of its own structure's
    twenty bytes, which the first call overruns. *)
Lemma canopen_block_overruns d :
  length d = length canopen01_vehicle_dataset_t ->
  vehicledataset_init (fresh_state vehicledatasetdemo01_options d) = Undef OobWrite.
Proof.
  intros Hd. change (length canopen01_vehicle_dataset_t) with 20%nat in Hd.
  unfold vehicledataset_init, fresh_state. cbn [options_count options dataset Z.eqb negb].
  assert (c_str vehicledatasetdemo01_options = Ret (before_nul vehicledatasetdemo01_options)) as ->
    by (vm_compute; reflexivity).
  run_step.
  assert (S (count_bars (before_nul vehicledatasetdemo01_options)) = 34%nat) as -> by (vm_compute; reflexivity).
  cbn [Nat.eqb]. destruct (strtok_all _ _).
  pose proof (clear_flags_short 34 0 [] d eq_refl ltac:(lia)) as E. cbn [app] in E. by rewrite E.
Qed.

(** Both receivers share the option string: the one that starts second sees a
    single name and keeps no options at all. *)
Lemma second_receiver_gets_nothing d :
  vehicledataset_init (fresh_state (cut_options false vehicledatasetdemo01_options) d)
  = Ret (fresh_state (cut_options false vehicledatasetdemo01_options) d).
Proof. vm_compute. reflexivity. Qed.

(** ** vehicle_datasharing_dataset.c

    Sixteen option strings that nothing selects yet: one with two options, the
    others empty. *)
Definition DATASET_ARRAY_SIZE : nat := 16.
Definition vehicledataset01_options : bytes := cstr "DoorDrvrSts|DoorDrvrReSts" ++ [0].
Definition vehicledataset_empty_options : bytes := [0].
Definition dataset_options : list bytes := vehicledataset01_options :: repeat vehicledataset_empty_options 15.

(** The first one holds two options of the structure of the CAN receiver, in the
    order of its flags; a dataset with one of the others never has options. *)
Lemma datasharing_init d :
  (2 <= length d)%nat ->
  (exists s, vehicledataset_init (fresh_state vehicledataset01_options d) = Ret s
     /\ holds_options [cstr "DoorDrvrSts"; cstr "DoorDrvrReSts"] s)
  /\ (forall o, o ∈ tail dataset_options -> vehicledataset_init (fresh_state o d) = Ret (fresh_state o d))
  /\ length dataset_options = DATASET_ARRAY_SIZE.
Proof.
  intros Hd. split; [|split; [|done]].
  - unfold vehicledataset_init, fresh_state. cbn [options_count options dataset Z.eqb negb].
    assert (c_str vehicledataset01_options = Ret (cstr "DoorDrvrSts|DoorDrvrReSts")) as -> by (vm_compute; reflexivity).
    run_step. assert (S (count_bars (cstr "DoorDrvrSts|DoorDrvrReSts")) = 2%nat) as -> by (vm_compute; reflexivity).
    cbn [Nat.eqb].
    assert (exists e, strtok_all 124 vehicledataset01_options = ([cstr "DoorDrvrSts"; cstr "DoorDrvrReSts"], e)) as [e ->]
      by (eexists; vm_compute; reflexivity).
    pose proof (clear_flags_spec 2 0 [] d eq_refl Hd) as E. cbn [app] in E. rewrite E. run_step.
    eexists. split; [reflexivity|]. unfold holds_options. split_and!; cbn [options_count dataset tokens]; [done | |].
    + rewrite length_app, repeat_length. cbn [length]. lia.
    + exists (repeat 0 2). split; [done|]. vm_compute. reflexivity.
  - intros o Ho. cbn [tail dataset_options] in Ho. apply list_elem_of_In, repeat_spec in Ho as ->. vm_compute. reflexivity.
Qed.

Definition swap_doors (n : bytes) : bytes :=
  if bool_decide (n = cstr "DoorDrvrSts") then cstr "DoorDrvrReSts"
  else if bool_decide (n = cstr "DoorDrvrReSts") then cstr "DoorDrvrSts" else n.

(** Every option, alone, against the structure of the receiver. *)
Definition demo01_check (n : bytes) : bool :=
  bool_decide (fields_set can01_vehicle_dataset_t (flags_of [n] demo01_names) = [swap_doors n])
  && forallb (fun m => implb (is_prefix n m) (bool_decide (m = n))) demo01_names.

Lemma demo01_checked : forallb demo01_check demo01_names = true.
Proof. vm_compute. reflexivity. Qed.

Lemma demo01_distinct : NoDup demo01_names.
Proof. apply (bool_decide_unpack _). vm_compute. exact I. Qed.

Lemma demo01_exact n :
  n ∈ demo01_names ->
  exact demo01_names n
  /\ fields_set can01_vehicle_dataset_t (flags_of [n] demo01_names) = [swap_doors n].
Proof.
  intros Hn. pose proof demo01_checked as H. rewrite forallb_forall in H.
  specialize (H n (proj1 (list_elem_of_In _ _) Hn)). unfold demo01_check in H.
  apply andb_true_iff in H as [H1 H2]. apply bool_decide_eq_true in H1. split; [|done].
  unfold exact. rewrite list.Forall_forall. intros m Hm%list_elem_of_In Hp. rewrite forallb_forall in H2.
  specialize (H2 m Hm). rewrite Hp in H2. cbn [implb] in H2. by apply bool_decide_eq_true in H2.
Qed.

(** The CAN receiver reads the flags as a structure whose first two fields
    are in the other order than the shipped options: selecting one option sets
    the field of its name, except that the two door states are exchanged. *)
Lemma demo01_doors_swapped `{Json} n d json buf :
  n ∈ demo01_names -> length d = length can01_vehicle_dataset_t -> parses json [n] ->
  (length (fjson_array_string [n]) < length buf)%nat ->
  exists s s', vehicledataset_init (fresh_state vehicledatasetdemo01_options d) = Ret s
    /\ vehicledataset_from_json s json = Ret s'
    /\ fields_set can01_vehicle_dataset_t (dataset s') = [swap_doors n]
    /\ exists out, vehicledataset_to_json s' buf = Ret (Z.of_nat (length (fjson_array_string [n])), out).
Proof.
  intros Hn Hd Hp Hb. change (length can01_vehicle_dataset_t) with 34%nat in Hd.
  destruct (demo01_init d) as (s & E & Hs & Hdr & _); [lia|].
  destruct (demo01_exact n Hn) as [He Hfs].
  destruct (from_json_selects demo01_names s json [n]) as (s' & E' & Hsh & Hds);
    [by vm_compute | exact demo01_distinct | done | done | by constructor |].
  exists s, s'. split_and!; [done | done | |].
  - change (length demo01_names) with 34%nat in Hds. rewrite Hds, Hdr, drop_ge by lia.
    by rewrite app_nil_r.
  - eexists. rewrite <- (filter_singleton n demo01_names demo01_distinct Hn). apply to_json_shows; [done|].
    by rewrite (filter_singleton n demo01_names demo01_distinct Hn).
Qed.

Module DatasetWitness.
(** A tokenizer that sees one array of one string, from byte 2 on. *)
#[local] Instance toy_json : Json := {
  jsmn_count := fun _ => 2;
  jsmn_parse := fun json _ =>
    (2, [ {| t_array := true; t_start := 0; t_end := Z.of_nat (length json) - 1; t_size := 1 |};
          {| t_array := false; t_start := 2; t_end := Z.of_nat (length json) - 3; t_size := 0 |} ]);
  fjson_array_string := fun l => 91 :: mjoin l ++ [93]
}.

(** The text [["name"]] with its terminator. *)
Definition one_name (n : bytes) : bytes := [91; 34] ++ n ++ [34; 93; 0].

Lemma one_name_parses n : no_nul n -> (length n < TOKNAME_LEN)%nat -> parses (one_name n) [n].
Proof.
  intros H0 Hl. unfold parses. eexists [], _, [_], []. cbn zeta. split_and!; try reflexivity.
  - cbn. unfold TOK_NUM_MAX. lia.
  - constructor.
  - constructor; [|constructor]. exists [91; 34], [34; 93; 0]. unfold one_name.
    split_and!; cbn [t_start t_end length]; try done; rewrite !length_app; cbn [length]; lia.
Qed.

Lemma dataset_selection_witness :
  exists s', vehicledataset_from_json
      {| options := [97; 0; 98; 0]; options_count := 2;
         tokens := [ {| name := Some [97]; val := 1 |}; {| name := Some [98]; val := 0 |} ];
         dataset := [1; 0; 9] |} (one_name [98]) = Ret s'
    /\ dataset s' = [0; 1; 9]
    /\ holds_options [[97]; [98]] s'
    /\ vehicledataset_to_json s' (repeat 7 5) = Ret (3, [91; 98; 93; 0; 7])
    /\ vehicledataset_checked_count s' = Ret 1.
Proof.
  refine (dataset_selection [[97]; [98]]
      {| options := [97; 0; 98; 0]; options_count := 2;
         tokens := [ {| name := Some [97]; val := 1 |}; {| name := Some [98]; val := 0 |} ];
         dataset := [1; 0; 9] |} (one_name [98]) [[98]] (repeat 7 5) _ _ _ _ _ _).
  - done.
  - apply (bool_decide_unpack _); vm_compute; exact I.
  - split_and!; [done | cbn; lia | by exists [1; 0]].
  - apply one_name_parses; [apply (bool_decide_unpack _); vm_compute; exact I | apply Nat.ltb_lt; reflexivity].
  - constructor; [|constructor]. by repeat constructor.
  - apply Nat.ltb_lt. vm_compute. reflexivity.
Defined.

Lemma demo01_doors_swapped_witness :
  exists s s', vehicledataset_init (fresh_state vehicledatasetdemo01_options (repeat 5 34)) = Ret s
    /\ vehicledataset_from_json s (one_name (cstr "DoorDrvrSts")) = Ret s'
    /\ fields_set can01_vehicle_dataset_t (dataset s') = [cstr "DoorDrvrReSts"]
    /\ exists out, vehicledataset_to_json s' (repeat 0 100) = Ret (13, out).
Proof.
  refine (demo01_doors_swapped (cstr "DoorDrvrSts") (repeat 5 34) (one_name (cstr "DoorDrvrSts"))
            (repeat 0 100) _ _ _ _).
  - apply (bool_decide_unpack _); vm_compute; exact I.
  - reflexivity.
  - apply one_name_parses; [apply (bool_decide_unpack _); vm_compute; exact I | apply Nat.ltb_lt; reflexivity].
  - apply Nat.ltb_lt. reflexivity.
Defined.
End DatasetWitness.

(** ** What a receiver makes of the flags *)

(** [wanted_signals->field]: the byte of the flag block at the field's offset. *)
Fixpoint field_byte (fields : list bytes) (d : bytes) (f : bytes) : Z :=
  match fields, d with
  | g :: fields, b :: d => if bool_decide (g = f) then b else field_byte fields d f
  | _, _ => 0
  end.

(** Flags as the dataset writes them. *)
Definition flags_01 (d : bytes) : Prop := Forall (fun b => b = 0 \/ b = 1) d.

Lemma field_byte_01 fields d f : flags_01 d -> field_byte fields d f = 0 \/ field_byte fields d f = 1.
Proof.
  intros Hd. revert fields; induction Hd as [|b d Hb Hd IH]; intros [|g fields]; cbn; try (by left).
  case_bool_decide; [done | apply IH].
Qed.

(** The JSON fillers of the receivers: in the order of a table, a wanted signal
    gets a fresh object without a value, the pointer of another becomes null.
    The result is the array's names and the pointers. *)
Section Filler.
Context {K V : Type} `{Countable K} (w : K -> Z).

Definition fill_one (acc : list bytes * gmap K (option V)) (k : K) (json_name : bytes)
  : list bytes * gmap K (option V) :=
  if w k =? 1 then (acc.1 ++ [json_name], <[k := None]> acc.2) else (acc.1, delete k acc.2).

Definition fill (table : list (K * bytes)) (acc : list bytes * gmap K (option V))
  : list bytes * gmap K (option V) :=
  fold_left (fun acc e => fill_one acc e.1 e.2) table acc.

Lemma fill_lookup table acc k :
  (fill table acc).2 !! k
  = if bool_decide (k ∈ table.*1) then (if w k =? 1 then Some None else None) else acc.2 !! k.
Proof.
  unfold fill. revert acc; induction table as [|[t n] l IH]; intros [names o]; [done|].
  cbn [fold_left fmap list_fmap fst snd]. rewrite IH. unfold fill_one. cbn [fst snd].
  destruct (decide (t = k)) as [->|Hne].
  - rewrite (bool_decide_true (k ∈ k :: _)) by (apply elem_of_cons; by left).
    destruct (w k =? 1); cbn [snd]; rewrite ?lookup_insert_eq, ?lookup_delete_eq; by case_bool_decide.
  - rewrite (bool_decide_ext _ _ (elem_of_cons _ k t)).
    destruct (w t =? 1); cbn [snd]; rewrite ?lookup_insert_ne, ?lookup_delete_ne by done;
      repeat case_bool_decide; naive_solver.
Qed.
End Filler.
