(* ===== verification/CanMsgs.v ===== *)
(** * The CAN messages (src/plugins/pip/can/can_msgs.h, can_msgs.c)

    A message is eight bytes; its structure lists bit fields of an unsigned
    number.  The compilers the project is built with allocate the fields of a
    packed structure from the least significant bit upwards, without gaps, on
    little-endian targets; a layout is the list of the fields with their widths
    in that order. *)

From S2P Require Import Prelude CStd.

#[local] Open Scope string_scope.

Abbreviation layout := (list (string * Z)).

(** can_id = 0x40 *)
Definition CEMBodyFr02 : layout :=
  [ ("__padding0", 13); ("DoorDrvrSts_UB", 1); ("DoorDrvrSts", 2); ("__padding1", 2);
    ("DoorDrvrReSts", 2); ("DoorDrvrReSts_UB", 1); ("__padding2", 27); ("VehMtnStChks", 8);
    ("VehMtnStSafe", 3); ("VehMtnStCntr", 4); ("VehMtnStSafeGroup_UB", 1) ].

(** can_id = 0xB0 *)
Definition CEMBodyFr05 : layout :=
  [ ("BltLockStAtDrvrForDevErrSts2", 1); ("BltLockStAtDrvrForBltLockSt1", 1);
    ("BltLockStAtDrvr_UB", 1); ("__padding0", 5); ("BltLockStAtRowThrdLeForBltLockSts", 1);
    ("BltLockStAtRowThrdLeForBltLockSt1", 1); ("BltLockStAtRowThrdLeForBltLockEquid", 1);
    ("ChrgnTyp_UB", 1); ("__padding1", 4); ("BltLockStAtPassForBltLockSts", 1);
    ("BltLockStAtPassForBltLockSt1", 1); ("BltLockStAtPass_UB", 1); ("BltLockStAtRowThrdLe_UB", 1);
    ("BltLockStAtRowSecLeForBltLockSts", 1); ("BltLockStAtRowSecLeForBltLockSt1", 1);
    ("BltLockStAtRowSecLeForBltLockEquid", 1); ("BltLockStAtRowSecLe_UB", 1);
    ("BltLockStAtRowSecRiForBltLockSts", 1); ("BltLockStAtRowSecRiForBltLockSt1", 1);
    ("BltLockStAtRowSecRiForBltLockEquid", 1); ("BltLockStAtRowSecRi_UB", 1);
    ("BltLockStAtRowSecMidForBltLockSts", 1); ("BltLockStAtRowSecMidForBltLockSt1", 1);
    ("BltLockStAtRowSecMidForBltLockEquid", 1); ("BltLockStAtRowSecMid_UB", 1);
    ("BltLockStAtRowThrdRiForBltLockSts", 1); ("BltLockStAtRowThrdRiForBltLockSt1", 1);
    ("BltLockStAtRowThrdRiForBltLockEquid", 1); ("BltLockStAtRowThrdRi_UB", 1);
    ("BrkFldLvl_UB", 1); ("BrkFldLvl", 1); ("EngCooltLvl_UB", 1); ("EngCooltLvl", 1);
    ("__padding2", 8); ("ChrgnTyp", 8); ("__padding3", 8) ].

(** can_id = 0xE0 *)
Definition CEMBodyFr11 : layout :=
  [ ("__padding0", 21); ("TrSts_UB", 1); ("TrSts", 2); ("__padding1", 13); ("DoorPassSts_UB", 1);
    ("DoorPassSts", 2); ("__padding2", 12); ("DoorPassReSts", 2); ("DoorPassReSts_UB", 1);
    ("__padding3", 9) ].

(** can_id = 0x100 *)
Definition CEMBodyFr13 : layout :=
  [ ("__padding0", 8); ("HoodSts", 2); ("HoodSts_UB", 1); ("__padding1", 13);
    ("LockgCenStsForUsrFb", 3); ("LockgCenStsForUsrFb_UB", 1); ("__padding2", 10);
    ("DefrstSts_UB", 1); ("__padding3", 9); ("LockgCenSts_UB", 1); ("LockgCenStsUpdEve", 1);
    ("LockgCenStsLockSt", 2); ("__padding4", 12) ].

(** can_id = 0x1B0 *)
Definition CEMBodyFr17 : layout :=
  [ ("__padding0", 34); ("VehSpdLgtSafeQf", 2); ("VehSpdLgtSafeCntr", 4); ("VehSpdLgtSafeChks", 8);
    ("VehSpdLgtSafe", 15); ("VehSpdLgtSafeGroup_UB", 1) ].

(** can_id = 0x250 *)
Definition CEMBodyFr23 : layout :=
  [ ("__padding0", 15); ("VehSpdIndcdQly_UB", 1); ("__padding1", 14); ("VehSpdIndcdQly", 2);
    ("DstToSrv", 15); ("__padding2", 17) ].

(** can_id = 0x270 *)
Definition CEMBodyFr25 : layout :=
  [ ("TankFlapSts", 2); ("TankFlapSts_UB", 1); ("__padding0", 4); ("EngSt1WdSts_UB", 1);
    ("FuLvlIndcdVal", 10); ("FuLvlIndcdQly", 2); ("EngSt1WdSts", 4); ("__padding1", 23);
    ("FuLvlIndcd_UB", 1); ("__padding2", 16) ].

(** can_id = 0x300 *)
Definition CEMBodyFr26 : layout :=
  [ ("DrvModReq", 4); ("DrvModReq_UB", 1); ("__padding0", 1); ("EngNSafe_UB", 1);
    ("__padding1", 13); ("EngNCntr", 4); ("EngNChks", 8); ("EngN", 15); ("__padding2", 1);
    ("EngNSafeEngNGrdt", 16) ].

(** can_id = 0x310 *)
Definition CEMBodyFr27 : layout :=
  [ ("__padding0", 8); ("SpdUnit", 2); ("__padding1", 3); ("FuCnsUnit", 3); ("__padding2", 2);
    ("DstSho", 2); ("DstLong", 2); ("__padding3", 18); ("BkpOfDstTrvld", 21);
    ("BkpOfDstTrvld_UB", 1); ("__padding4", 2) ].

(** can_id = 0x1D0 *)
Definition CEMBodyFr28 : layout :=
  [ ("AmbTRawVal", 11); ("AmbTRawQly", 2); ("__padding0", 19); ("VehSpdIndcdVal", 9);
    ("VehSpdIndcdUnit", 2); ("VehSpdIndcd_UB", 1); ("AmbTRaw_UB", 1); ("__padding1", 2);
    ("AmbTIndcdWithUnit_UB", 1); ("AmbTIndcd", 12); ("AmbTIndcdQf", 2); ("AmbTIndcdUnit", 2) ].

(** can_id = 0x360 *)
Definition CEMBodyFr31 : layout :=
  [ ("VinPosn7", 8); ("VinPosn6", 8); ("VinPosn5", 8); ("VinPosn4", 8); ("VinPosn3", 8);
    ("VinPosn2", 8); ("VinPosn1", 8); ("VinBlk", 8) ].

(** can_id = 0x380 *)
Definition CEMBodyFr32 : layout :=
  [ ("__padding0", 3); ("TrLockSts_UB", 1); ("TrLockSts", 2); ("__padding1", 4);
    ("CurtReDirCmd", 2); ("__padding2", 18); ("CurtReDirCmd_UB", 1); ("__padding3", 33) ].

(** can_id = 0x330 *)
Definition CEMBodyFr33 : layout :=
  [ ("__padding0", 21); ("VehBattUGroup_UB", 1); ("VehBattUSysUQf", 2); ("VehBattUSysU", 8);
    ("__padding1", 12); ("ProfPenSts1", 4); ("TirePReRi", 2); ("__padding2", 2);
    ("TirePFrntRi", 2); ("TirePFrntLe", 2); ("__padding3", 4); ("TirePReLe", 2); ("__padding4", 1);
    ("ProfPenSts1_UB", 1) ].

(** can_id = 0x259 *)
Definition CEMBodyFr44 : layout :=
  [ ("__padding0", 48); ("AmbTOutOfVehAmbTOutOfVeh", 11); ("AmbTOutOfVehAmbTOutOfVehQf", 2);
    ("AmbTOutOfVeh_UB", 1); ("__padding1", 2) ].

(** can_id = 0x95 *)
Definition POTBodyFr02 : layout :=
  [ ("__padding0", 56); ("TrOpenerSts", 4); ("TrOpenerSts_UB", 1); ("__padding1", 3) ].

(** can_id = 0x1E0 *)
Definition DDMBodyFr02 : layout :=
  [ ("__padding0", 9); ("DrvWinPosnStsValue", 7); ("DrvWinPosnStsAvailability", 3);
    ("DrvWinPosnSts_UB", 1); ("__padding1", 12); ("WinPosnStsDrv", 5); ("WinPosnStsDrv_UB", 1);
    ("__padding2", 12); ("AmbTRawAtDrvrSide_UB", 1); ("AmbTQlyAtDrvrSide", 2);
    ("AmbTValAtDrvrSide", 11) ].

(** can_id = 0x130 *)
Definition DDMBodyFr03 : layout :=
  [ ("AmbTURawAtLeSideForObd", 10); ("AmbTURawAtLeSideForObd_UB", 1); ("__padding0", 53) ].

(** can_id = 0x160 *)
Definition PDMBodyFr02 : layout :=
  [ ("__padding0", 8); ("AmbTURawAtRiSideForObd", 10); ("__padding1", 4);
    ("AmbTURawAtRiSideForObd_UB", 1); ("__padding2", 14); ("WinPosnStsPass_UB", 1);
    ("__padding3", 5); ("WinPosnStsPass", 5); ("AmbTValAtPassSide", 11); ("AmbTQlyAtPassSide", 2);
    ("AmbTRawAtPassSide_UB", 1); ("__padding4", 2) ].

(** can_id = 0xD0 *)
Definition VDDMChasFr04 : layout :=
  [ ("__padding0", 9); ("PrpsnTqForBrkRels_UB", 1); ("__padding1", 22); ("PrpsnTqForBrkRels", 15);
    ("__padding2", 17) ].

(** can_id = 0xE0 *)
Definition VDDMChasFr05 : layout :=
  [ ("__padding0", 2); ("VehSpdLgtSafeQf", 2); ("VehSpdLgtSafeCntr", 4); ("VehSpdLgtSafeChks", 8);
    ("VehSpdLgtSafe", 15); ("VehSpdLgtSafeGroup_UB", 1); ("__padding1", 1);
    ("DrvrBrkTqAtWhlsReqdGroup_UB", 1); ("DrvrBrkTqAtWhlsReqdQf", 2);
    ("DrvrBrkTqAtWhlsReqdDrvrBrkTqAtWhlsReqdCntr", 4);
    ("DrvrBrkTqAtWhlsReqdDrvrBrkTqAtWhlsReqdChks", 8); ("DrvrBrkTqAtWhlsReqd", 16) ].

(** can_id = 0xF0 *)
Definition VDDMChasFr06 : layout :=
  [ ("TrSts_UB", 1); ("__padding0", 3); ("TrSts", 2); ("HoodSts", 2); ("DoorPassSts", 2);
    ("DoorPassReSts", 2); ("DoorDrvrSts", 2); ("__padding1", 44); ("HoodSts_UB", 1);
    ("DoorPassSts_UB", 1); ("DoorPassReSts_UB", 1); ("DoorDrvrSts_UB", 1); ("__padding2", 2) ].

(** can_id = 0x3A0 *)
Definition VDDMChasFr08 : layout :=
  [ ("__padding0", 13); ("DoorDrvrReSts_UB", 1); ("DoorDrvrReSts", 2); ("__padding1", 16);
    ("AmbTIndcd", 12); ("AmbTIndcdQf", 2); ("AmbTIndcdUnit", 2); ("__padding2", 1);
    ("AmbTIndcdWithUnit_UB", 1); ("__padding3", 14) ].

(** can_id = 0x1C0 *)
Definition VDDMChasFr12 : layout :=
  [ ("__padding0", 47); ("BrkPedlPsdSafeGroup_UB", 1); ("BrkPedlNotPsdSafe", 1); ("BrkPedlPsd", 1);
    ("BrkPedlPsdQf", 2); ("BrkPedlPsdCntr", 4); ("BrkPedlPsdChks", 8) ].

(** can_id = 0x1F0 *)
Definition VDDMChasFr16 : layout :=
  [ ("__padding0", 11); ("DrvModReq_UB", 1); ("__padding1", 1); ("BkpOfDstTrvld_UB", 1);
    ("__padding2", 12); ("DrvModReq", 4); ("__padding3", 11); ("BkpOfDstTrvld", 21) ].

(** can_id = 0x240 *)
Definition VDDMChasFr17 : layout :=
  [ ("__padding0", 31); ("FuLvlIndcd_UB", 1); ("__padding1", 16); ("FuLvlIndcdVal", 10);
    ("FuLvlIndcdQly", 2); ("__padding2", 4) ].

(** can_id = 0x2E0 *)
Definition VDDMChasFr19 : layout :=
  [ ("__padding0", 8); ("VehMtnStSafeGroup_UB", 1); ("VehMtnStSafe", 3); ("VehMtnStCntr", 4);
    ("VehMtnStChks", 8); ("VehModMngtGlbSafe1_UB", 1); ("__padding1", 1);
    ("CarModSubtypWdCarModSubtyp", 3); ("CarModSts1", 3); ("EgyLvlElecMai", 4);
    ("EgyLvlElecSubtyp", 4); ("PwrLvlElecMai", 4); ("PwrLvlElecSubtyp", 4); ("UsgModSts", 4);
    ("VehModMngtGlbSafe1Cntr", 4); ("VehModMngtGlbSafe1Chks", 8) ].

(** can_id = 0x380 *)
Definition VDDMChasFr25 : layout :=
  [ ("VehBattUSysU", 8); ("VehBattUSysUQf", 2); ("EngCooltLvl_UB", 1); ("EngCooltLvl", 1);
    ("__padding0", 2); ("VehBattUGroup_UB", 1); ("__padding1", 49) ].

(** can_id = 0x1A *)
Definition VDDMChasFr48 : layout :=
  [ ("BrkTqChks", 8); ("BrkTqTotReqForPt", 13); ("__padding0", 3); ("BrkTqCntr", 4);
    ("BrkTq_UB", 1); ("__padding1", 35) ].

(** can_id = 0x15 *)
Definition VDDMChasFr49 : layout :=
  [ ("WhlBrkPEstimdMax", 8); ("BrkSysCylPMstChks", 8); ("BrkSysCylPMstVirt", 10);
    ("BrkSysCylPMstVirtQf", 2); ("__padding0", 4); ("BrkSysCylPMstTar", 10);
    ("BrkSysCylPMstCntr", 4); ("BrkSysCylPMstActQf", 2); ("BrkSysCylPMstAct", 10);
    ("BrkSysCylPMst_UB", 1); ("WhlBrkPEstimdMax_UB", 1); ("__padding1", 4) ].

(** can_id = 0x35 *)
Definition ECMChasFr03 : layout :=
  [ ("__padding0", 15); ("PrpsnTqReReq_UB", 1); ("__padding1", 16); ("AccrPedlRatGrdt_UB", 1);
    ("AccrPedlRatGrdt", 15); ("PrpsnTqReReq", 16) ].

(** can_id = 0x100 *)
Definition ECMChasFr04 : layout :=
  [ ("__padding0", 1); ("GearIndcnRec_UB", 1); ("AccrPedlPsdAccrPedlPsdSts", 1);
    ("AccrPedlPsdAccrPedlPsd", 1); ("AccrPedlPsdAccrPedlPsdCntr", 4);
    ("AccrPedlPsdAccrPedlPsdChks", 8); ("__padding1", 37); ("AccrPedlPsd_UB", 1);
    ("GearShiftIndcn", 2); ("GearTarIndcn", 4); ("GearIndcn", 4) ].

(** can_id = 0x110 *)
Definition ECMChasFr05 : layout :=
  [ ("__padding0", 18); ("EngNGrdt1Safe_UB", 1); ("__padding1", 17); ("EngNGrdt1Cntr", 4);
    ("EngNGrdt1Chks", 8); ("EngNGrdt1", 16) ].

(** can_id = 0x130 *)
Definition ECMChasFr06 : layout :=
  [ ("DrvrPrpsnTqReq", 16); ("__padding0", 2); ("EngNSafe_UB", 1); ("DrvrPrpsnTqReq_UB", 1);
    ("EngNCntr", 4); ("EngNChks", 8); ("EngN", 15); ("__padding1", 1); ("EngNSafeEngNGrdt", 16) ].

(** can_id = 0x210 *)
Definition ECMChasFr10 : layout :=
  [ ("__padding0", 30); ("CluPedlRat_UB", 1); ("__padding1", 9); ("CluPedlRat", 8);
    ("__padding2", 16) ].

(** can_id = 0x23A *)
Definition ECMChasFr22 : layout :=
  [ ("__padding0", 24); ("PrpsnTqDirChks", 8); ("PrpsnTqDirCntr", 4); ("PrpsnTqDirAct", 2);
    ("PrpsnTqDir_UB", 1); ("__padding1", 25) ].

#[local] Open Scope Z_scope.

(** ** The unions: which structure a member name of the union selects *)

Definition CanMsgs_BodyMessage_t (canid : Z) : option layout :=
  if canid =? 0x40 then Some CEMBodyFr02
  else if canid =? 0xB0 then Some CEMBodyFr05
  else if canid =? 0xE0 then Some CEMBodyFr11
  else if canid =? 0x100 then Some CEMBodyFr13
  else if canid =? 0x1B0 then Some CEMBodyFr17
  else if canid =? 0x250 then Some CEMBodyFr23
  else if canid =? 0x270 then Some CEMBodyFr25
  else if canid =? 0x300 then Some CEMBodyFr26
  else if canid =? 0x310 then Some CEMBodyFr27
  else if canid =? 0x1D0 then Some CEMBodyFr28
  else if canid =? 0x360 then Some CEMBodyFr31
  else if canid =? 0x380 then Some CEMBodyFr32
  else if canid =? 0x330 then Some CEMBodyFr33
  else if canid =? 0x259 then Some CEMBodyFr44
  else if canid =? 0x95 then Some POTBodyFr02
  else if canid =? 0x1E0 then Some DDMBodyFr02
  else if canid =? 0x130 then Some DDMBodyFr03
  else if canid =? 0x160 then Some PDMBodyFr02
  else None.

Definition CanMsgs_ChasMessage_t (canid : Z) : option layout :=
  if canid =? 0xD0 then Some VDDMChasFr04
  else if canid =? 0xE0 then Some VDDMChasFr05
  else if canid =? 0xF0 then Some VDDMChasFr06
  else if canid =? 0x3A0 then Some VDDMChasFr08
  else if canid =? 0x1C0 then Some VDDMChasFr12
  else if canid =? 0x1F0 then Some VDDMChasFr16
  else if canid =? 0x240 then Some VDDMChasFr17
  else if canid =? 0x2E0 then Some VDDMChasFr19
  else if canid =? 0x380 then Some VDDMChasFr25
  else if canid =? 0x1A then Some VDDMChasFr48
  else if canid =? 0x15 then Some VDDMChasFr49
  else if canid =? 0x35 then Some ECMChasFr03
  else if canid =? 0x100 then Some ECMChasFr04
  else if canid =? 0x110 then Some ECMChasFr05
  else if canid =? 0x130 then Some ECMChasFr06
  else if canid =? 0x210 then Some ECMChasFr10
  else if canid =? 0x23A then Some ECMChasFr22
  else None.

(** ** can_msgs.c *)

Definition supported_body_msgs : list Z :=
  [ 0x40; 0xB0; 0xE0; 0x100; 0x1B0; 0x250; 0x270; 0x310; 0x1D0;
    0x360; 0x380; 0x330; 0x259; 0x95; 0x1E0; 0x130; 0x160 ].

Definition supported_chas_msgs : list Z :=
  [ 0xD0; 0xE0; 0xF0; 0x3A0; 0x1C0; 0x1F0; 0x240; 0x2E0; 0x380;
    0x1A; 0x15; 0x35; 0x100; 0x110; 0x130; 0x210; 0x23A ].

(** The search loop both functions share, an [int] that is 0 or 1. *)
Fixpoint supported (msgs : list Z) (msg_id : Z) : Z :=
  match msgs with
  | [] => 0
  | m :: msgs => if m =? msg_id then 1 else supported msgs msg_id
  end.

Definition CanMsgs_body_msg_supported (msg_id : Z) : Z := supported supported_body_msgs msg_id.
Definition CanMsgs_chas_msg_supported (msg_id : Z) : Z := supported supported_chas_msgs msg_id.

(** ** Reading a field *)

(** Offset and width of a field. *)
Fixpoint field_at (l : layout) (name : string) (off : Z) : option (Z * Z) :=
  match l with
  | [] => None
  | (n, w) :: l => if String.eqb n name then Some (off, w) else field_at l name (off + w)
  end.

(** [msg.name] for the message with the bits of [v]. *)
Definition get_field (l : layout) (name : string) (v : Z) : Z :=
  match field_at l name 0 with
  | Some (off, w) => Z.land (Z.shiftr v off) (Z.ones w)
  | None => 0
  end.

(** ** Packing

    The sender's side: the message that holds the given field values. *)

Fixpoint pack (l : layout) (vals : string -> Z) : Z :=
  match l with
  | [] => 0
  | (n, w) :: l => vals n + 2 ^ w * pack l vals
  end.

Fixpoint width (l : layout) : Z :=
  match l with [] => 0 | (n, w) :: l => w + width l end.

Definition fits (l : layout) (vals : string -> Z) : Prop :=
  Forall (fun f => 0 <= f.2 /\ 0 <= vals f.1 < 2 ^ f.2) l.

Lemma width_nonneg l vals : fits l vals -> 0 <= width l.
Proof. induction 1 as [|[n w] l [Hw _] _ IH]; cbn in *; lia. Qed.

Lemma pack_bound l vals : fits l vals -> 0 <= pack l vals < 2 ^ width l.
Proof.
  induction 1 as [|[n w] l [Hw Hv] Hl IH]; cbn [pack width fst snd] in *; [lia|].
  pose proof (width_nonneg l vals Hl). rewrite Z.pow_add_r by lia.
  assert (2 ^ w * pack l vals <= 2 ^ w * (2 ^ width l - 1)) by (apply Z.mul_le_mono_nonneg_l; lia).
  pose proof (Z.mul_nonneg_nonneg (2 ^ w) (pack l vals)). lia.
Qed.

Lemma get_field_shift l name vals v off o w :
  fits l vals -> 0 <= off -> Z.shiftr v off = pack l vals -> NoDup (l.*1) ->
  field_at l name off = Some (o, w) -> Z.land (Z.shiftr v o) (Z.ones w) = vals name.
Proof.
  intros Hf; revert off; induction Hf as [|[n k] l [Hk Hv] Hl IH]; intros off Ho Hs Hd; [done|].
  cbn [field_at fst snd] in *. destruct (String.eqb_spec n name) as [->|Hne].
  - intros [= <- <-]. rewrite Hs, Z.land_ones by lia. cbn [pack].
    rewrite Z.mul_comm, Z_mod_plus_full. by apply Z.mod_small.
  - apply (IH (off + k)); [lia | | by apply list.NoDup_cons in Hd as [_ Hd]].
    rewrite <- Z.shiftr_shiftr, Hs by lia. cbn [pack]. rewrite Z.shiftr_div_pow2 by lia.
    rewrite Z.mul_comm, Z_div_plus_full by lia. rewrite Z.div_small; lia.
Qed.

(** Reading a field of a packed message gives the packed value. *)
Lemma get_field_pack l name vals :
  fits l vals -> NoDup (l.*1) -> is_Some (field_at l name 0) ->
  get_field l name (pack l vals) = vals name.
Proof.
  intros Hf Hd [[o w] E]. unfold get_field. rewrite E.
  by apply (get_field_shift l name vals _ 0 o w).
Qed.

(** A field is as wide as its layout says, whatever the message. *)
Lemma get_field_bound l name v o w :
  field_at l name 0 = Some (o, w) -> 0 <= w -> 0 <= get_field l name v < 2 ^ w.
Proof.
  intros E Hw. unfold get_field. rewrite E, Z.land_ones by done. apply Z.mod_pos_bound. lia.
Qed.

(** All structures but one fill their eight bytes; no field name occurs twice. *)
Definition layout_ok (l : layout) : bool :=
  bool_decide (NoDup (l.*1)) && (width l <=? 64) && forallb (fun f => 0 <? f.2) l.

Definition body_ids : list Z :=
  [0x40; 0xB0; 0xE0; 0x100; 0x1B0; 0x250; 0x270; 0x300; 0x310; 0x1D0; 0x360; 0x380; 0x330; 0x259;
   0x95; 0x1E0; 0x130; 0x160].

Lemma body_layouts_ok :
  forallb (fun i => match CanMsgs_BodyMessage_t i with Some l => layout_ok l | None => false end)
    body_ids = true.
Proof. vm_compute. reflexivity. Qed.

Lemma chas_layouts_ok :
  forallb (fun i => match CanMsgs_ChasMessage_t i with Some l => layout_ok l | None => false end)
    supported_chas_msgs = true.
Proof. vm_compute. reflexivity. Qed.

(** The 62 bits of this structure leave its last two fields two bits short of
    where a full frame has them. *)
Lemma VDDMChasFr16_short : width VDDMChasFr16 = 62.
Proof. reflexivity. Qed.

(** ** Frames *)

(** The eight data bytes of a message on the bus, high byte first. *)
Definition frame_of (v : Z) : bytes :=
  map (fun i => Z.land (Z.shiftr v (8 * i)) 255) [7; 6; 5; 4; 3; 2; 1; 0].

Lemma rev_frame v : rev (frame_of v) = le_bytes 8 v.
Proof.
  cbn [frame_of map rev app le_bytes]. change 255 with (Z.ones 8).
  rewrite !Z.land_ones, !Z.shiftr_div_pow2, !Z.div_div by lia.
  change (2 ^ 8) with 256. change (8 * 0) with 0. by rewrite Z.pow_0_r, Z.div_1_r.
Qed.

Lemma frame_value v : 0 <= v < 2 ^ 64 -> from_le (rev (frame_of v)) = v.
Proof. intros Hv. rewrite rev_frame. by apply from_le_bytes. Qed.
