(* ===== verification/CanMsgsAlt.v ===== *)
(** * The alternative CAN layouts (src/plugins/pip/can/can_msgs_alt.h)

    A second description of the same messages.  No file includes it, and it
    lacks one semicolon, so it has never been compiled; but it was written for
    frames as they arrive, while the structures of can_msgs.h are read from the
    reversed bytes (CanReceiver.v).  The two descriptions check each other: all
    fields but those of one list have the same value in every frame. *)

From S2P Require Import Prelude CStd CanMsgs.

#[local] Open Scope string_scope.

(** can_id = 0x40 *)
Definition alt_CEMBodyFr02 : layout :=
  [ ("VehMtnStSafe", 3); ("VehMtnStCntr", 4); ("VehMtnStSafeGroup_UB", 1); ("VehMtnStChks", 8);
    ("DoorDrvrReSts", 2); ("DoorDrvrReSts_UB", 1); ("DoorDrvrSts_UB", 1); ("DoorDrvrSts", 2) ].

(** can_id = 0xB0 *)
Definition alt_CEMBodyFr05 : layout :=
  [ ("__padding0", 8); ("ChrgnTyp", 8); ("__padding1", 8);
    ("BltLockStAtRowThrdRiForBltLockSts", 1); ("BltLockStAtRowThrdRiForBltLockSt1", 1);
    ("BltLockStAtRowThrdRiForBltLockEquid", 1); ("BltLockStAtRowThrdRi_UB", 1);
    ("BrkFldLvl_UB", 1); ("BrkFldLvl", 1); ("EngCooltLvl_UB", 1); ("EngCooltLvl", 1);
    ("BltLockStAtRowSecRiForBltLockSts", 1); ("BltLockStAtRowSecRiForBltLockSt1", 1);
    ("BltLockStAtRowSecRiForBltLockEquid", 1); ("BltLockStAtRowSecRi_UB", 1);
    ("BltLockStAtRowSecMidForBltLockSts", 1); ("BltLockStAtRowSecMidForBltLockSt1", 1);
    ("BltLockStAtRowSecMidForBltLockEquid", 1); ("BltLockStAtRowSecMid_UB", 1);
    ("BltLockStAtPassForBltLockSts", 1); ("BltLockStAtPassForBltLockSt1", 1);
    ("BltLockStAtPass_UB", 1); ("BltLockStAtRowThrdLe_UB", 1);
    ("BltLockStAtRowSecLeForBltLockSts", 1); ("BltLockStAtRowSecLeForBltLockSt1", 1);
    ("BltLockStAtRowSecLeForBltLockEquid", 1); ("BltLockStAtRowSecLe_UB", 1);
    ("BltLockStAtRowThrdLeForBltLockSts", 1); ("BltLockStAtRowThrdLeForBltLockSt1", 1);
    ("BltLockStAtRowThrdLeForBltLockEquid", 1); ("ChrgnTyp_UB", 1); ("__padding2", 4);
    ("BltLockStAtDrvrForDevErrSts2", 1); ("BltLockStAtDrvrForBltLockSt1", 1);
    ("BltLockStAtDrvr_UB", 1) ].

(** can_id = 0xE0 *)
Definition alt_CEMBodyFr11 : layout :=
  [ ("__padding0", 12); ("DoorPassReSts", 2); ("DoorPassReSts_UB", 1); ("__padding1", 14);
    ("DoorPassSts_UB", 1); ("DoorPassSts", 2); ("__padding2", 13); ("TrSts_UB", 1); ("TrSts", 2) ].

(** can_id = 0x100 *)
Definition alt_CEMBodyFr13 : layout :=
  [ ("__padding0", 8); ("LockgCenSts_UB", 1); ("LockgCenStsUpdEve", 1); ("LockgCenStsLockSt", 2);
    ("__padding1", 14); ("DefrstSts_UB", 1); ("__padding2", 1); ("LockgCenStsForUsrFb", 3);
    ("LockgCenStsForUsrFb_UB", 1); ("__padding3", 12); ("HoodSts", 2); ("HoodSts_UB", 1) ].

(** can_id = 0x1B0 *)
Definition alt_CEMBodyFr17 : layout :=
  [ ("VehSpdLgtSafe_msb", 7); ("VehSpdLgtSafeGroup_UB", 1); ("VehSpdLgtSafe_lsb", 8);
    ("VehSpdLgtSafeChks", 8); ("__padding0", 2); ("VehSpdLgtSafeQf", 2);
    ("VehSpdLgtSafeCntr", 4) ].

(** can_id = 0x250 *)
Definition alt_CEMBodyFr23 : layout :=
  [ ("__padding0", 16); ("DstToSrv_msb", 7); ("__padding1", 1); ("DstToSrv_lsb", 8);
    ("__padding2", 6); ("VehSpdIndcdQly", 2); ("__padding3", 15); ("VehSpdIndcdQly_UB", 1) ].

(** can_id = 0x270 *)
Definition alt_CEMBodyFr25 : layout :=
  [ ("__padding0", 23); ("FuLvlIndcd_UB", 1); ("__padding1", 16); ("FuLvlIndcdVal_msb", 2);
    ("FuLvlIndcdQly", 2); ("EngSt1WdSts", 4); ("FuLvlIndcdVal_lsb", 8); ("TankFlapSts", 2);
    ("TankFlapSts_UB", 1); ("__padding2", 4); ("EngSt1WdSts_UB", 1) ].

(** can_id = 0x300 *)
Definition alt_CEMBodyFr26 : layout :=
  [ ("EngNSafeEngNGrdt", 16); ("EngN_msb", 7); ("__padding0", 1); ("EngN_lsb", 8); ("EngNChks", 8);
    ("__padding1", 4); ("EngNCntr", 4); ("__padding2", 8); ("DrvModReq", 4); ("DrvModReq_UB", 1);
    ("__padding3", 1); ("__EngNSafe_UB", 1) ].

(** can_id = 0x310 *)
Definition alt_CEMBodyFr27 : layout :=
  [ ("BkpOfDstTrvld_msb", 5); ("BkpOfDstTrvld_UB", 1); ("__padding0", 2);
    ("BkpOfDstTrvld_lsb", 16); ("__padding1", 18); ("DstSho", 2); ("DstLong", 2);
    ("__padding2", 2); ("SpdUnit", 2); ("__padding3", 3); ("__FuCnsUnit", 3) ].

(** can_id = 0x1D0 *)
Definition alt_CEMBodyFr28 : layout :=
  [ ("AmbTIndcd_msb", 4); ("AmbTIndcdQf", 2); ("AmbTIndcdUnit", 2); ("AmbTIndcd_lsb", 8);
    ("VehSpdIndcdVal_msb", 1); ("VehSpdIndcdUnit", 2); ("VehSpdIndcdUB", 1); ("AmbTRaw_UB", 1);
    ("__padding0", 2); ("AmbTIndcdWithUnit_UB", 1); ("VehSpdIndcdVal_lsb", 8); ("__padding1", 16);
    ("AmbTRawVal_msb", 3); ("AmbTRawQly", 2); ("__padding2", 3); ("AmbTRawVal_lsb", 8) ].

(** can_id = 0x360 *)
Definition alt_CEMBodyFr31 : layout :=
  [ ("VinBlk", 8); ("VinPosn1", 8); ("VinPosn2", 8); ("VinPosn3", 8); ("VinPosn4", 8);
    ("VinPosn5", 8); ("VinPosn6", 8); ("VinPosn7", 8) ].

(** can_id = 0x380 *)
Definition alt_CEMBodyFr32 : layout :=
  [ ("__padding0", 38); ("CurtReDirCmd_UB", 1); ("__padding1", 11); ("CurtReDirCmd", 2);
    ("__padding2", 7); ("TrLockSts_UB", 1); ("TrLockSts", 2) ].

(** can_id = 0x330 *)
Definition alt_CEMBodyFr33 : layout :=
  [ ("__padding0", 4); ("TirePReLe", 2); ("__padding1", 1); ("ProfPenSts1_UB", 1);
    ("TirePReRi", 2); ("__padding2", 2); ("TirePFrntRi", 2); ("TirePFrntLe", 2); ("__padding3", 4);
    ("ProfPenSts1", 4); ("__padding4", 8); ("VehBattUSysU", 8); ("__padding5", 5);
    ("VehBattUGroup_UB", 1); ("VehBattUSysUQf", 2) ].

(** can_id = 0x259 *)
Definition alt_CEMBodyFr44 : layout :=
  [ ("AmbTOutOfVehAmbTOutOfVeh_msb", 3); ("AmbTOutOfVehAmbTOutOfVehQf", 2); ("AmbTOutOfVeh_UB", 1);
    ("__padding0", 2); ("AmbTOutOfVehAmbTOutOfVeh_lsb", 8) ].

(** can_id = 0x95 *)
Definition alt_POTBodyFr02 : layout :=
  [ ("TrOpenerSts", 4); ("TrOpenerSts_UB", 1) ].

(** can_id = 0x1E0 *)
Definition alt_DDMBodyFr02 : layout :=
  [ ("AmbTValAtDrvrSide_msb", 8); ("__padding0", 2); ("AmbTRawAtDrvrSide_UB", 1);
    ("AmbTQlyAtDrvrSide", 2); ("AmbTValAtDrvrSide_lsb", 3); ("__padding1", 8);
    ("WinPosnStsDrv", 5); ("WinPosnStsDrv_UB", 1); ("__padding2", 10);
    ("DrvWinPosnStsAvailability", 3); ("DrvWinPosnSts_UB", 1); ("__padding3", 5);
    ("DrvWinPosnStsValue", 7) ].

(** can_id = 0x130 *)
Definition alt_DDMBodyFr03 : layout :=
  [ ("__padding0", 48); ("AmbTURawAtLeSideForObd_msb", 2); ("AmbTURawAtLeSideForObd_UB", 1);
    ("__padding1", 5); ("AmbTURawAtLeSideForObd_lsb", 8) ].

(** can_id = 0x160 *)
Definition alt_PDMBodyFr02 : layout :=
  [ ("AmbTValAtPassSide_msb", 3); ("AmbTQlyAtPassSide", 2); ("AmbTRawAtPassSide_UB", 1);
    ("__padding0", 2); ("AmbTValAtPassSide_lsb", 8); ("__padding1", 3); ("WinPosnStsPass", 5);
    ("__padding2", 5); ("WinPosnStsPass_UB", 1); ("__padding3", 10);
    ("AmbTURawAtRiSideForObd_msb", 2); ("__padding4", 4); ("AmbTURawAtRiSideForObd_UB", 1);
    ("__padding5", 1); ("AmbTURawAtRiSideForObd_lsb", 8) ].

(** can_id = 0xD0 *)
Definition alt_VDDMChasFr04 : layout :=
  [ ("__padding0", 16); ("PrpsnTqForBrkRels_msb", 7); ("__padding1", 1);
    ("PrpsnTqForBrkRels_lsb", 8); ("__padding2", 17); ("PrpsnTqForBrkRels_UB", 1) ].

(** can_id = 0xE0 *)
Definition alt_VDDMChasFr05 : layout :=
  [ ("DrvrBrkTqAtWhlsReqd", 16); ("DrvrBrkTqAtWhlsReqdDrvrBrkTqAtWhlsReqdChks", 8);
    ("__padding0", 1); ("DrvrBrkTqAtWhlsReqdGroup_UB", 1); ("DrvrBrkTqAtWhlsReqdQf", 2);
    ("DrvrBrkTqAtWhlsReqdDrvrBrkTqAtWhlsReqdCntr", 4); ("VehSpdLgtSafe_msb", 7);
    ("VehSpdLgtSafeGroup_UB", 1); ("VehSpdLgtSafe_lsb", 8); ("VehSpdLgtSafeChks", 8);
    ("__padding1", 2); ("VehSpdLgtSafeQf", 2); ("VehSpdLgtSafeCntr", 4) ].

(** can_id = 0xF0 *)
Definition alt_VDDMChasFr06 : layout :=
  [ ("__padding0", 2); ("HoodSts_UB", 1); ("DoorPassSts_UB", 1); ("DoorPassReSts_UB", 1);
    ("DoorDrvrSts_UB", 1); ("__padding1", 42); ("DoorPassSts", 2); ("DoorPassReSts", 2);
    ("DoorDrvrSts", 2); ("__padding2", 2); ("TrSts_UB", 1); ("__padding3", 3); ("TrSts", 2);
    ("HoodSts", 2) ].

(** can_id = 0x3A0 *)
Definition alt_VDDMChasFr08 : layout :=
  [ ("__padding0", 9); ("AmbTIndcdWithUnit_UB", 1); ("__padding1", 6); ("AmbTIndcd_msb", 4);
    ("AmbTIndcdQf", 2); ("AmbTIndcdUnit", 2); ("AmbTIndcd_lsb", 8); ("__padding2", 21);
    ("DoorDrvrReSts_UB", 1); ("DoorDrvrReSts", 2) ].

(** can_id = 0x1C0 *)
Definition alt_VDDMChasFr12 : layout :=
  [ ("BrkPedlPsdChks", 8); ("BrkPedlNotPsdSafe", 1); ("BrkPedlPsd", 1); ("BrkPedlPsdQf", 2);
    ("BrkPedlPsdCntr", 4); ("__padding0", 7); ("BrkPedlPsdSafeGroup_UB", 1) ].

(** can_id = 0x1F0 *)
Definition alt_VDDMChasFr16 : layout :=
  [ ("BkpOfDstTrvld_msb", 16); ("__padding0", 3); ("BkpOfDstTrvld_lsb", 5); ("__padding1", 12);
    ("DrvModReq", 4); ("__padding2", 11); ("DrvModReq_UB", 1); ("__padding3", 1);
    ("BkpOfDstTrvld_UB", 1) ].

(** can_id = 0x240 *)
Definition alt_VDDMChasFr17 : layout :=
  [ ("FuLvlIndcdVal_msb", 2); ("FuLvlIndcdQly", 2); ("__padding0", 4); ("FuLvlIndcdVal_lsb", 8);
    ("__padding1", 23); ("FuLvlIndcd_UB", 1) ].

(** can_id = 0x2E0 *)
Definition alt_VDDMChasFr19 : layout :=
  [ ("VehModMngtGlbSafe1Chks", 8); ("UsgModSts", 4); ("VehModMngtGlbSafe1Cntr", 4);
    ("PwrLvlElecMai", 4); ("PwrLvlElecSubtyp", 4); ("EgyLvlElecMai", 4); ("EgyLvlElecSubtyp", 4);
    ("VehModMngtGlbSafe1_UB", 1); ("__padding0", 1); ("CarModSubtypWdCarModSubtyp", 3);
    ("CarModSts1", 3); ("VehMtnStSafeGroup_UB", 1); ("VehMtnStSafe", 3); ("VehMtnStCntr", 4) ].

(** can_id = 0x380 *)
Definition alt_VDDMChasFr25 : layout :=
  [ ("__padding0", 48); ("VehBattUSysUQf", 2); ("EngCooltLvl_UB", 1); ("EngCooltLvl", 1);
    ("__padding1", 2); ("VehBattUGroup_UB", 1); ("__padding2", 1); ("VehBattUSysU", 8) ].

(** can_id = 0x1A *)
Definition alt_VDDMChasFr48 : layout :=
  [ ("__padding0", 32); ("BrkTqCntr", 4); ("BrkTq_UB", 1); ("__padding1", 3);
    ("BrkTqTotReqForPt_msb", 5); ("__padding2", 3); ("BrkTqTotReqForPt_lsb", 8);
    ("BrkTqChks", 8) ].

(** can_id = 0x15 *)
Definition alt_VDDMChasFr49 : layout :=
  [ ("BrkSysCylPMstAct_msb", 2); ("BrkSysCylPMst_UB", 1); ("WhlBrkPEstimdMax_UB", 1);
    ("__padding0", 4); ("BrkSysCylPMstAct_lsb", 8); ("BrkSysCylPMstTar_msb", 2);
    ("BrkSysCylPMstCntr", 4); ("BrkSysCylPMstActQf", 2); ("BrkSysCylPMstTar_lsb", 8);
    ("BrkSysCylPMstVirt_msb", 2); ("BrkSysCylPMstVirtQf", 2); ("__padding1", 4);
    ("BrkSysCylPMstVirt_lsb", 8); ("BrkSysCylPMstChks", 8); ("WhlBrkPEstimdMax", 8) ].

(** can_id = 0x35 *)
Definition alt_ECMChasFr03 : layout :=
  [ ("PrpsnTqReReq", 16); ("AccrPedlRatGrdt_msb", 8); ("AccrPedlRatGrdt_UB", 1);
    ("AccrPedlRatGrdt_lsb", 7); ("__padding0", 23); ("PrpsnTqReReq_UB", 1) ].

(** can_id = 0x100 *)
Definition alt_ECMChasFr04 : layout :=
  [ ("GearTarIndcn", 4); ("GeearIndcn", 4); ("__padding0", 5); ("AccrPedlPsd_UB", 1);
    ("GearShiftIndcn", 2); ("__padding1", 32); ("AccrPedlPsdAccrPedlPsdChks", 8);
    ("__padding2", 1); ("GearIndcnRec_UB", 1); ("AccrPedlPsdAccrPedlPsdSts", 1);
    ("AccrPedlPsdAccrPedlPsd", 1); ("AccrPedlPsdAccrPedlPsdCntr", 4) ].

(** can_id = 0x110 *)
Definition alt_ECMChasFr05 : layout :=
  [ ("EngNGrdt1", 16); ("EngNGrdt1Chks", 8); ("__padding0", 4); ("EngNGrdt1Cntr", 4);
    ("__padding1", 10); ("EngNGrdt1Safe_UB", 1) ].

(** can_id = 0x130 *)
Definition alt_ECMChasFr06 : layout :=
  [ ("EngNSafeEngNGrdt", 16); ("EngN_msb", 7); ("__padding0", 1); ("EngN_lsb", 8); ("EngNChks", 8);
    ("__padding1", 2); ("EngNSafe_UB", 1); ("DrvrPrpsnTqReq_UB", 1); ("EngNCntr", 4);
    ("DrvrPrpsnTqReq", 16) ].

(** can_id = 0x210 *)
Definition alt_ECMChasFr10 : layout :=
  [ ("__padding0", 16); ("CluPedlRat", 8); ("__padding1", 14); ("CluPedlRat_UB", 1) ].

(** can_id = 0x23A *)
Definition alt_ECMChasFr22 : layout :=
  [ ("__padding0", 24); ("PrpsnTqDirCntr", 4); ("PrpsnTqDirAct", 2); ("PrpsnTqDir_UB", 1);
    ("__padding1", 1); ("PrpsnTqDirChks", 8) ].

(** Each structure under its name, with the layout of can_msgs.h. *)
Definition alt_pairs : list (string * layout * layout) :=
  [ ("CEMBodyFr02", CEMBodyFr02, alt_CEMBodyFr02);
    ("CEMBodyFr05", CEMBodyFr05, alt_CEMBodyFr05);
    ("CEMBodyFr11", CEMBodyFr11, alt_CEMBodyFr11);
    ("CEMBodyFr13", CEMBodyFr13, alt_CEMBodyFr13);
    ("CEMBodyFr17", CEMBodyFr17, alt_CEMBodyFr17);
    ("CEMBodyFr23", CEMBodyFr23, alt_CEMBodyFr23);
    ("CEMBodyFr25", CEMBodyFr25, alt_CEMBodyFr25);
    ("CEMBodyFr26", CEMBodyFr26, alt_CEMBodyFr26);
    ("CEMBodyFr27", CEMBodyFr27, alt_CEMBodyFr27);
    ("CEMBodyFr28", CEMBodyFr28, alt_CEMBodyFr28);
    ("CEMBodyFr31", CEMBodyFr31, alt_CEMBodyFr31);
    ("CEMBodyFr32", CEMBodyFr32, alt_CEMBodyFr32);
    ("CEMBodyFr33", CEMBodyFr33, alt_CEMBodyFr33);
    ("CEMBodyFr44", CEMBodyFr44, alt_CEMBodyFr44);
    ("POTBodyFr02", POTBodyFr02, alt_POTBodyFr02);
    ("DDMBodyFr02", DDMBodyFr02, alt_DDMBodyFr02);
    ("DDMBodyFr03", DDMBodyFr03, alt_DDMBodyFr03);
    ("PDMBodyFr02", PDMBodyFr02, alt_PDMBodyFr02);
    ("VDDMChasFr04", VDDMChasFr04, alt_VDDMChasFr04);
    ("VDDMChasFr05", VDDMChasFr05, alt_VDDMChasFr05);
    ("VDDMChasFr06", VDDMChasFr06, alt_VDDMChasFr06);
    ("VDDMChasFr08", VDDMChasFr08, alt_VDDMChasFr08);
    ("VDDMChasFr12", VDDMChasFr12, alt_VDDMChasFr12);
    ("VDDMChasFr16", VDDMChasFr16, alt_VDDMChasFr16);
    ("VDDMChasFr17", VDDMChasFr17, alt_VDDMChasFr17);
    ("VDDMChasFr19", VDDMChasFr19, alt_VDDMChasFr19);
    ("VDDMChasFr25", VDDMChasFr25, alt_VDDMChasFr25);
    ("VDDMChasFr48", VDDMChasFr48, alt_VDDMChasFr48);
    ("VDDMChasFr49", VDDMChasFr49, alt_VDDMChasFr49);
    ("ECMChasFr03", ECMChasFr03, alt_ECMChasFr03);
    ("ECMChasFr04", ECMChasFr04, alt_ECMChasFr04);
    ("ECMChasFr05", ECMChasFr05, alt_ECMChasFr05);
    ("ECMChasFr06", ECMChasFr06, alt_ECMChasFr06);
    ("ECMChasFr10", ECMChasFr10, alt_ECMChasFr10);
    ("ECMChasFr22", ECMChasFr22, alt_ECMChasFr22) ].

(** The fields on which the two headers do not agree: other positions, other
    names, missing ones, and numbers of several bytes whose bytes lie in the
    order of the bus. *)
Definition alt_disagreements : list (string * string) :=
  [ ("CEMBodyFr02", "DoorDrvrSts_UB"); ("CEMBodyFr02", "DoorDrvrSts");
    ("CEMBodyFr02", "DoorDrvrReSts"); ("CEMBodyFr02", "DoorDrvrReSts_UB");
    ("CEMBodyFr13", "HoodSts"); ("CEMBodyFr13", "HoodSts_UB");
    ("CEMBodyFr13", "LockgCenStsForUsrFb"); ("CEMBodyFr13", "LockgCenStsForUsrFb_UB");
    ("CEMBodyFr13", "DefrstSts_UB"); ("CEMBodyFr26", "EngNSafe_UB");
    ("CEMBodyFr26", "EngNSafeEngNGrdt"); ("CEMBodyFr27", "FuCnsUnit");
    ("CEMBodyFr27", "BkpOfDstTrvld"); ("CEMBodyFr28", "VehSpdIndcd_UB");
    ("VDDMChasFr05", "DrvrBrkTqAtWhlsReqd"); ("VDDMChasFr16", "DrvModReq");
    ("VDDMChasFr16", "BkpOfDstTrvld"); ("VDDMChasFr19", "VehMtnStSafeGroup_UB");
    ("VDDMChasFr19", "VehMtnStSafe"); ("VDDMChasFr19", "VehMtnStCntr");
    ("VDDMChasFr19", "VehMtnStChks"); ("ECMChasFr03", "PrpsnTqReReq");
    ("ECMChasFr04", "GearIndcn"); ("ECMChasFr05", "EngNGrdt1"); ("ECMChasFr06", "DrvrPrpsnTqReq");
    ("ECMChasFr06", "EngNSafeEngNGrdt") ].

#[local] Open Scope Z_scope.

(** ** Reading a field through the alternative layout *)

(** A number that crosses a byte is split into two fields, named after their
    significance; the parts of a field, least significant first. *)
Definition alt_parts (a : layout) (name : string) : option (list (Z * Z)) :=
  match field_at a name 0 with
  | Some p => Some [p]
  | None =>
      match field_at a (String.append name "_lsb") 0, field_at a (String.append name "_msb") 0 with
      | Some p, Some q => Some [p; q]
      | _, _ => None
      end
  end.

Definition parts_value (ps : list (Z * Z)) (v : Z) : Z :=
  foldr (fun p acc => Z.land (Z.shiftr v p.1) (Z.ones p.2) + 2 ^ p.2 * acc) 0 ps.

Definition alt_field (a : layout) (name : string) (v : Z) : option Z :=
  (fun ps => parts_value ps v) <$> alt_parts a name.

(** ** Fields as lists of bits *)

Definition bits_at (ps : list Z) (v : Z) : Z :=
  foldr (fun p acc => Z.b2z (Z.testbit v p) + 2 * acc) 0 ps.

Lemma bits_at_app ps qs v : bits_at (ps ++ qs) v = bits_at ps v + 2 ^ Z.of_nat (length ps) * bits_at qs v.
Proof.
  induction ps as [|p ps IH]; [change (bits_at qs v = 0 + 1 * bits_at qs v); ring|].
  change (bits_at ((p :: ps) ++ qs) v) with (Z.b2z (Z.testbit v p) + 2 * bits_at (ps ++ qs) v).
  change (bits_at (p :: ps) v) with (Z.b2z (Z.testbit v p) + 2 * bits_at ps v).
  cbn [length]. rewrite IH, Nat2Z.inj_succ, Z.pow_succ_r by lia. ring.
Qed.

Lemma bits_at_field n o v : 0 <= o -> Z.land (Z.shiftr v o) (Z.ones (Z.of_nat n)) = bits_at (seqZ o (Z.of_nat n)) v.
Proof.
  intros Ho. rewrite Z.land_ones by lia. revert o Ho; induction n as [|n IH]; intros o Ho.
  - cbn. apply Z.mod_1_r.
  - rewrite seqZ_cons by lia. replace (Z.pred (Z.of_nat (S n))) with (Z.of_nat n) by lia.
    change (bits_at (o :: ?l) v) with (Z.b2z (Z.testbit v o) + 2 * bits_at l v).
    replace (Z.succ o) with (o + 1) by lia. rewrite <- IH by lia.
    rewrite <- Z.shiftr_shiftr by lia. set (x := Z.shiftr v o).
    rewrite Nat2Z.inj_succ, Z.pow_succ_r, (Z.rem_mul_r x 2) by lia.
    rewrite Z.shiftr_div_pow2 by lia. change (2 ^ 1) with 2.
    assert (Z.testbit v o = Z.testbit x 0) as -> by (unfold x; rewrite Z.shiftr_spec by lia; f_equal; lia).
    rewrite Z.bit0_mod. reflexivity.
Qed.

(** The bits of a field, least significant first. *)
Definition part_bits (ps : list (Z * Z)) : list Z := mjoin ((fun p => seqZ p.1 p.2) <$> ps).

Lemma parts_bits ps v : Forall (fun p => 0 <= p.1 /\ 0 <= p.2) ps -> parts_value ps v = bits_at (part_bits ps) v.
Proof.
  induction 1 as [|[o w] ps [Ho Hw] _ IH]; [done|]. cbn [fst snd] in *.
  unfold part_bits in *. cbn [fmap list_fmap mjoin]. rewrite mjoin_cons, bits_at_app, <- IH. cbn [parts_value foldr fst snd].
  rewrite <- (Z2Nat.id w) at 1 3 by lia. rewrite bits_at_field by lia.
  by rewrite length_seqZ, !Z2Nat.id by lia.
Qed.

(** ** The bytes of a frame in both orders *)

(** The place of a bit when the eight bytes are reversed. *)
Definition swap (p : Z) : Z := 8 * (7 - p / 8) + p mod 8.

Lemma from_le_bit d i j : Forall is_byte d -> 0 <= j < 8 ->
  Z.testbit (from_le d) (8 * Z.of_nat i + j) = Z.testbit (default 0 (d !! i)) j.
Proof.
  intros Hd Hj. revert i; induction Hd as [|b d Hb _ IH]; intros i; [by rewrite !Z.bits_0|].
  cbn [from_le]. assert (b + 256 * from_le d = Z.lor (Z.shiftl (from_le d) 8) b) as ->
    by (rewrite lor_shift_add by (unfold is_byte in Hb; lia); lia).
  rewrite Z.lor_spec. destruct i as [|i]; cbn [lookup list_lookup].
  - rewrite Z.shiftl_spec_low by lia. cbn [orb default from_option id]. f_equal; lia.
  - rewrite Z.shiftl_spec by lia. rewrite (testbit_high 8 b) by (done || lia). by rewrite orb_false_r, <- IH; f_equal; lia.
Qed.

Lemma swap_bit d p : length d = 8%nat -> Forall is_byte d -> 0 <= p < 64 ->
  Z.testbit (from_le (rev d)) p = Z.testbit (from_le d) (swap p).
Proof.
  intros Hl Hd Hp. unfold swap.
  pose proof (Z.mod_pos_bound p 8 ltac:(lia)) as Hm. pose proof (Z.div_mod p 8 ltac:(lia)) as Hdm.
  assert (0 <= p / 8 < 8) as Hq by (split; [apply Z.div_pos; lia | apply Z.div_lt_upper_bound; lia]).
  set (q := p / 8) in *. set (j := p mod 8) in *.
  replace p with (8 * Z.of_nat (Z.to_nat q) + j) at 1 by lia.
  replace (8 * (7 - q) + j) with (8 * Z.of_nat (7 - Z.to_nat q) + j) by lia.
  rewrite !from_le_bit; [| done | lia | by apply Forall_rev | lia]. do 2 f_equal.
  assert (Z.to_nat q < 8)%nat as Hn by lia. revert Hn. generalize (Z.to_nat q). clear -Hl.
  do 8 (destruct d as [|? d]; [done|]). destruct d; [|done].
  intros n Hn. do 8 (destruct n as [|n]; [reflexivity|]). lia.
Qed.

Lemma bits_at_swap d ps : length d = 8%nat -> Forall is_byte d -> Forall (fun p => 0 <= p < 64) ps ->
  bits_at ps (from_le (rev d)) = bits_at (swap <$> ps) (from_le d).
Proof.
  intros Hl Hd. induction 1 as [|p ps Hp _ IH]; [done|].
  change (bits_at (p :: ps) ?v) with (Z.b2z (Z.testbit v p) + 2 * bits_at ps v). cbn [fmap list_fmap].
  change (bits_at (swap p :: ?l) ?v) with (Z.b2z (Z.testbit v (swap p)) + 2 * bits_at l v).
  by rewrite IH, swap_bit.
Qed.

(** ** Agreement *)

(** The alternative layout has the bits of the field where the reversal puts them. *)
Definition mirrored (l a : layout) (name : string) : bool :=
  match field_at l name 0, alt_parts a name with
  | Some (o, w), Some ps =>
      (0 <=? o) && (0 <=? w) && (o + w <=? 64)
      && forallb (fun p => (0 <=? p.1) && (0 <=? p.2)) ps
      && bool_decide (swap <$> seqZ o w = part_bits ps)
  | _, _ => false
  end.

Lemma mirrored_value l a name data :
  mirrored l a name = true -> length data = 8%nat -> Forall is_byte data ->
  alt_field a name (from_le data) = Some (get_field l name (from_le (rev data))).
Proof.
  unfold mirrored, alt_field, get_field. intros H Hl Hd.
  destruct (field_at l name 0) as [[o w]|]; [|done]. destruct (alt_parts a name) as [ps|]; [|done].
  apply andb_true_iff in H as [H Hbits]. apply bool_decide_eq_true in Hbits.
  apply andb_true_iff in H as [H Hps]. znorm H. destruct H as [[Ho Hw] How].
  cbn [fmap option_fmap option_map]. f_equal.
  rewrite parts_bits, <- Hbits.
  - rewrite <- (Z2Nat.id w) at 2 by lia. rewrite bits_at_field, Z2Nat.id by lia. symmetry. apply bits_at_swap; [done | done|].
    apply list.Forall_forall. intros p Hp. apply elem_of_seqZ in Hp. lia.
  - apply list.Forall_forall. intros p Hp. rewrite forallb_forall in Hps.
    specialize (Hps p (proj1 (list_elem_of_In _ _) Hp)). by znorm Hps.
Qed.

Definition is_padding (name : string) : bool := String.prefix "__padding" name.

(** A field whose value both layouts must agree on. *)
Definition expected (nm name : string) : bool :=
  negb (is_padding name) && negb (bool_decide ((nm, name) ∈ alt_disagreements)).

Lemma all_mirrored :
  forallb (fun e => forallb (fun f => negb (expected e.1.1 f.1) || mirrored e.1.2 e.2 f.1) e.1.2) alt_pairs = true.
Proof. vm_compute. reflexivity. Qed.

(** Nothing is on the list without a reason. *)
Lemma disagreements_real :
  forallb (fun d => existsb (fun e => String.eqb e.1.1 d.1 && negb (mirrored e.1.2 e.2 d.2)
                                      && existsb (fun f => String.eqb f.1 d.2) e.1.2) alt_pairs)
    alt_disagreements = true.
Proof. vm_compute. reflexivity. Qed.

(** The two descriptions of the messages agree: in every frame of eight bytes
    each field outside the list of disagreements has the value that the
    structure of can_msgs.h reads from the reversed bytes. *)
Lemma alt_layouts_agree nm l a name data :
  (nm, l, a) ∈ alt_pairs -> name ∈ l.*1 -> expected nm name = true ->
  length data = 8%nat -> Forall is_byte data ->
  alt_field a name (from_le data) = Some (get_field l name (from_le (rev data))).
Proof.
  intros Hp Hn He Hl Hd. apply mirrored_value; [|done | done].
  pose proof all_mirrored as H. rewrite forallb_forall in H. apply list_elem_of_In, H in Hp.
  cbn [fst snd] in Hp. rewrite forallb_forall in Hp. apply list_elem_of_fmap in Hn as (f & -> & Hf).
  apply list_elem_of_In, Hp in Hf. by rewrite He in Hf.
Qed.

(** How many fields that are. *)
Lemma agreement_counts :
  (length (filter (fun b => b = true) (mjoin ((fun e => (fun f => expected e.1.1 f.1) <$> e.1.2) <$> alt_pairs))),
   length alt_disagreements) = (213%nat, 26%nat).
Proof. vm_compute. reflexivity. Qed.

(** The 62 bits of VDDMChasFr16: the alternative header has the driving mode two
    bits above the place where the structure in use reads it. *)
Example driving_mode_moved :
  (swap <$> seqZ 28 4, option_map part_bits (alt_parts alt_VDDMChasFr16 "DrvModReq"),
   field_at VDDMChasFr16 "DrvModReq" 0) = ([36; 37; 38; 39], Some [36; 37; 38; 39], Some (26, 4)).
Proof. vm_compute. reflexivity. Qed.

Module CanMsgsAltWitness.
(** The vehicle's speed in a frame. *)
Lemma alt_layouts_agree_witness :
  alt_field alt_VDDMChasFr05 "VehSpdLgtSafe" (from_le [1; 2; 3; 4; 0x27; 0x10; 7; 8])
  = Some (get_field VDDMChasFr05 "VehSpdLgtSafe" (from_le (rev [1; 2; 3; 4; 0x27; 0x10; 7; 8]))).
Proof.
  apply (alt_layouts_agree "VDDMChasFr05" VDDMChasFr05 alt_VDDMChasFr05 "VehSpdLgtSafe");
    [ | | vm_compute; reflexivity | reflexivity | repeat apply Forall_cons_2; (split; lia) || constructor ].
  - unfold alt_pairs. repeat (apply elem_of_cons; first [left; reflexivity | right]).
  - apply (bool_decide_unpack _). vm_compute. exact I.
Defined.

Example the_speed : get_field VDDMChasFr05 "VehSpdLgtSafe" (from_le (rev [1; 2; 3; 4; 0x27; 0x10; 7; 8])) = 0x2710.
Proof. reflexivity. Qed.
End CanMsgsAltWitness.
