(* ===== verification/CanText.v ===== *)
(** * The text form of CAN frames (src/plugins/pip/can/lib.c and lib.h, and
      their identical copies under src/plugins/pip/canopen/)

    Parsing the compact form, printing the compact and the long form, and the
    description of error frames.  Buffers are blocks with their old contents, so
    that the bounds of every write are part of the model; a stream is the text
    written so far, and the messages for invalid error classes are left out.
    A nibble shifted into the sign bit of an [int], which the C standard leaves
    undefined and gcc defines, keeps its bits. *)

From S2P Require Import Prelude CStd.

(** A frame: [struct can_frame] with the data bytes that are set. *)
Record can_frame := Frame { can_id : Z; can_dlc : Z; fdata : bytes }.

#[export] Instance can_frame_eq_dec : EqDecision can_frame.
Proof. solve_decision. Defined.

(** ** The header of the kernel *)

Definition CAN_EFF_FLAG : Z := 0x80000000.
Definition CAN_RTR_FLAG : Z := 0x40000000.
Definition CAN_ERR_FLAG : Z := 0x20000000.
Definition CAN_SFF_MASK : Z := 0x7FF.
Definition CAN_EFF_MASK : Z := 0x1FFFFFFF.
Definition CAN_ERR_MASK : Z := 0x1FFFFFFF.
Definition CAN_ERR_LOSTARB : Z := 2.
Definition CAN_ERR_CRTL : Z := 4.
Definition CAN_ERR_PROT : Z := 8.

(** [w & m] as a condition. *)
Definition has (w m : Z) : bool := negb (Z.land w m =? 0).

(** ** lib.h *)

Definition CANLIB_VIEW_ASCII : Z := 0x1.
Definition CANLIB_VIEW_BINARY : Z := 0x2.
Definition CANLIB_VIEW_SWAP : Z := 0x4.
Definition CANLIB_VIEW_ERROR : Z := 0x8.
Definition SWAP_DELIMITER : Z := 96.

(** ** Parsing *)

Definition CANID_DELIM : Z := 35.
Definition DATA_SEPERATOR : Z := 46.
Definition MAX_CANFRAME : bytes := cstr "12345678#01.23.45.67.89.AB.CD.EF".
Definition MAX_LONG_CANFRAME_SIZE : Z := 256.

Definition asc2nibble (c : Z) : Z :=
  if (48 <=? c) && (c <=? 57) then c - 48
  else if (65 <=? c) && (c <=? 70) then c - 65 + 10
  else if (97 <=? c) && (c <=? 102) then c - 97 + 10
  else 16.

Definition set_data (cf : can_frame) (i v : Z) : out can_frame :=
  d ← store (fdata cf) i v; Ret (Frame (can_id cf) (can_dlc cf) d).

Definition or_id (cf : can_frame) (flag : Z) : can_frame :=
  Frame (Z.lor (can_id cf) flag) (can_dlc cf) (fdata cf).

(** The two digits at [j] go to [data[i]]: 1 when one of them is none. *)
Definition hex_byte (mem : bytes) (j i : Z) (cf : can_frame) : out (Z * can_frame) :=
  c ← load mem j;
  let tmp := asc2nibble c in
  if 0x0F <? tmp then Ret (1, cf) else
  cf ← set_data cf i (u8 (Z.shiftl tmp 4));
  c ← load mem (j + 1);
  let tmp := asc2nibble c in
  if 0x0F <? tmp then Ret (1, cf) else
  old ← load (fdata cf) i;
  cf ← set_data cf i (Z.lor old tmp);
  Ret (0, cf).

Fixpoint hexstring_bytes (n : nat) (i : Z) (arg : bytes) (cf : can_frame) : out (Z * can_frame) :=
  match n with
  | O => Ret (0, cf)
  | S n => r ← hex_byte arg (2 * i) i cf;
           if r.1 =? 0 then hexstring_bytes n (i + 1) arg r.2 else Ret (1, r.2)
  end.

Definition hexstring2candata (arg : bytes) (cf : can_frame) : out (Z * can_frame) :=
  s ← c_str arg;
  let len := Z.of_nat (length s) in
  if (len =? 0) || negb (len mod 2 =? 0) || (16 <? len) then Ret (1, cf)
  else hexstring_bytes (Z.to_nat (len / 2)) 0 arg cf.

(** [n] digits of the identifier are left, the next one at [i]. *)
Fixpoint parse_id (n : nat) (i : Z) (cs : bytes) (cf : can_frame) : out (Z * can_frame) :=
  match n with
  | O => Ret (0, cf)
  | S n => c ← load cs i;
           let tmp := asc2nibble c in
           if 0x0F <? tmp then Ret (1, cf)
           else parse_id n (i + 1) cs (or_id cf (u32 (Z.shiftl tmp (Z.of_nat n * 4))))
  end.

(** [n] bytes may follow; the counter [i] of the loop is also [dlc]. *)
Fixpoint parse_data (n : nat) (i idx len : Z) (cs : bytes) (cf : can_frame) : out (Z * can_frame) :=
  let done_at dlc := Ret (0, Frame (can_id cf) dlc (fdata cf)) in
  match n with
  | O => done_at i
  | S n => c ← load cs idx;
           let idx := if c =? DATA_SEPERATOR then idx + 1 else idx in
           if len <=? idx then done_at i else
           r ← hex_byte cs idx i cf;
           if r.1 =? 0 then parse_data n (i + 1) (idx + 2) len cs r.2 else Ret (1, r.2)
  end.

Definition parse_rest (cs : bytes) (len idx : Z) (cf : can_frame) : out (Z * can_frame) :=
  c ← load cs idx;
  if (c =? 82) || (c =? 114) then Ret (0, or_id cf CAN_RTR_FLAG)
  else parse_data 8 0 idx len cs cf.

(** The frame may be written in part when the result is 1. *)
Definition parse_canframe (cs : bytes) : out (Z * can_frame) :=
  s ← c_str cs;
  let len := Z.of_nat (length s) in
  let cf := Frame 0 0 (repeat 0 8) in
  if len <? 4 then Ret (1, cf) else
  c3 ← load cs 3;
  if c3 =? CANID_DELIM then
    r ← parse_id 3 0 cs cf;
    if r.1 =? 0 then parse_rest cs len 4 r.2 else Ret r
  else
    c8 ← load cs 8;
    if c8 =? CANID_DELIM then
      r ← parse_id 8 0 cs cf;
      if r.1 =? 0 then
        parse_rest cs len 9 (if has (can_id r.2) CAN_ERR_FLAG then r.2 else or_id r.2 CAN_EFF_FLAG)
      else Ret r
    else Ret (1, cf).

(** ** The compact form *)

Definition dlc_of (cf : can_frame) : Z := if 8 <? can_dlc cf then 8 else can_dlc cf.

(** The data bytes [i] to [i + n - 1], the last of which is [dlc - 1]. *)
Fixpoint sprint_data (n : nat) (i offset dlc sep : Z) (cf : can_frame) (buf : bytes) : out bytes :=
  match n with
  | O => Ret buf
  | S n => d ← load (fdata cf) i;
           buf ← sprintf_at buf offset (hexw 2 d);
           if negb (sep =? 0) && (i + 1 <? dlc)
           then buf ← sprintf_at buf (offset + 2) (cstr ".");
                sprint_data n (i + 1) (offset + 3) dlc sep cf buf
           else sprint_data n (i + 1) (offset + 2) dlc sep cf buf
  end.

Definition sprint_canframe (buf : bytes) (cf : can_frame) (sep : Z) : out bytes :=
  let dlc := dlc_of cf in
  '(text, offset) ← Ret
    (if has (can_id cf) CAN_ERR_FLAG
     then (hexw 8 (Z.land (can_id cf) (Z.lor CAN_ERR_MASK CAN_ERR_FLAG)) ++ cstr "#", 9)
     else if has (can_id cf) CAN_EFF_FLAG
     then (hexw 8 (Z.land (can_id cf) CAN_EFF_MASK) ++ cstr "#", 9)
     else (hexw 3 (Z.land (can_id cf) CAN_SFF_MASK) ++ cstr "#", 4));
  buf ← sprintf_at buf 0 text;
  if has (can_id cf) CAN_RTR_FLAG then sprintf_at buf offset (cstr "R")
  else sprint_data (Z.to_nat dlc) 0 offset dlc sep cf buf.

(** [buf]: the uninitialised local array. *)
Definition fprint_canframe (buf stream : bytes) (cf : can_frame) (eol : option bytes) (sep : Z) : out bytes :=
  buf ← sprint_canframe buf cf sep;
  s ← c_str buf;
  Ret (stream ++ s ++ default [] eol).

(** ** The long form *)

(** A loop over the given indexes. *)
Fixpoint for_each {A} (f : Z -> A -> out A) (idx : list Z) (a : A) : out A :=
  match idx with [] => Ret a | i :: idx => a ← f i a; for_each f idx a end.

(** The eight binary digits of a byte. *)
Definition bits_text (d : Z) : bytes :=
  (fun j => if has (Z.shiftl 1 j) d then 49 else 48) <$> [7; 6; 5; 4; 3; 2; 1; 0].

Definition indexes (view dlc : Z) : list Z :=
  if has view CANLIB_VIEW_SWAP then rev (seqZ 0 dlc) else seqZ 0 dlc.

Definition delimiter (view dlc i : Z) : Z :=
  if has view CANLIB_VIEW_SWAP && negb (i =? dlc - 1) then SWAP_DELIMITER else 32.

Definition long_dlen (view : Z) : Z := if has view CANLIB_VIEW_BINARY then 9 else 3.

(** The state is the buffer and [offset]. *)
Definition long_bytes (cf : can_frame) (view : Z) (st : bytes * Z) : out (bytes * Z) :=
  let dlc := dlc_of cf in
  if has view CANLIB_VIEW_BINARY then
    st ← for_each (fun i st =>
            d ← load (fdata cf) i;
            buf ← blit st.1 st.2 (delimiter view dlc i :: bits_text d);
            Ret (buf, st.2 + 9)) (indexes view dlc) st;
    buf ← store st.1 st.2 0;
    Ret (buf, st.2)
  else
    for_each (fun i st =>
       d ← load (fdata cf) i;
       buf ← sprintf_at st.1 st.2 (delimiter view dlc i :: hexw 2 d);
       Ret (buf, st.2 + 3)) (indexes view dlc) st.

Definition ascii_char (d : Z) : Z := if (0x1F <? d) && (d <? 0x7F) then d else 46.

Definition long_ascii (cf : can_frame) (view : Z) (st : bytes * Z) : out bytes :=
  let dlc := dlc_of cf in
  let j := long_dlen view * (8 - dlc) + 4 in
  let mark := if has view CANLIB_VIEW_SWAP then cstr "`" else cstr "'" in
  buf ← sprintf_at st.1 st.2 (pad_left (Z.to_nat j) mark);
  st ← for_each (fun i st =>
          d ← load (fdata cf) i;
          buf ← store st.1 st.2 (ascii_char d);
          Ret (buf, st.2 + 1)) (indexes view dlc) (buf, st.2 + j);
  sprintf_at st.1 st.2 mark.

Definition sprint_long_canframe (buf : bytes) (cf : can_frame) (view : Z) : out bytes :=
  let dlc := dlc_of cf in
  '(text, offset) ← Ret
    (if has (can_id cf) CAN_ERR_FLAG
     then (pad_left 8 (show_hex (Z.land (can_id cf) (Z.lor CAN_ERR_MASK CAN_ERR_FLAG))) ++ cstr "  ", 10)
     else if has (can_id cf) CAN_EFF_FLAG
     then (pad_left 8 (show_hex (Z.land (can_id cf) CAN_EFF_MASK)) ++ cstr "  ", 10)
     else (pad_left 3 (show_hex (Z.land (can_id cf) CAN_SFF_MASK)) ++ cstr "  ", 5));
  buf ← sprintf_at buf 0 text;
  buf ← sprintf_at buf offset (cstr "[" ++ show_dec dlc ++ cstr "]");
  let offset := offset + 3 in
  if has (can_id cf) CAN_RTR_FLAG then sprintf_at buf offset (cstr " remote request") else
  st ← long_bytes cf view (buf, offset);
  if has (can_id cf) CAN_ERR_FLAG then
    sprintf_at st.1 st.2 (pad_left (Z.to_nat (long_dlen view * (8 - dlc) + 13)) (cstr "ERRORFRAME"))
  else if has view CANLIB_VIEW_ASCII then long_ascii cf view st
  else Ret st.1.

(** ** Error frames *)

Definition error_classes : list bytes :=
  [ cstr "tx-timeout"; cstr "lost-arbitration"; cstr "controller-problem"; cstr "protocol-violation";
    cstr "transceiver-status"; cstr "no-acknowledgement-on-tx"; cstr "bus-off"; cstr "bus-error";
    cstr "restarted-after-bus-off" ].

Definition controller_problems : list bytes :=
  [ cstr "rx-overflow"; cstr "tx-overflow"; cstr "rx-error-warning"; cstr "tx-error-warning";
    cstr "rx-error-passive"; cstr "tx-error-passive" ].

Definition protocol_violation_types : list bytes :=
  [ cstr "single-bit-error"; cstr "frame-format-error"; cstr "bit-stuffing-error"; cstr "tx-dominant-bit-error";
    cstr "tx-recessive-bit-error"; cstr "bus-overload"; cstr "back-to-error-active"; cstr "error-on-tx" ].

Definition protocol_violation_locations : list bytes :=
  [ cstr "unspecified"; cstr "unspecified"; cstr "id.28-to-id.28"; cstr "start-of-frame";
    cstr "bit-srtr"; cstr "bit-ide"; cstr "id.20-to-id.18"; cstr "id.17-to-id.13";
    cstr "crc-sequence"; cstr "reserved-bit-0"; cstr "data-field"; cstr "data-length-code";
    cstr "bit-rtr"; cstr "reserved-bit-1"; cstr "id.4-to-id.0"; cstr "id.12-to-id.5";
    cstr "unspecified"; cstr "active-error-flag"; cstr "intermission"; cstr "tolerate-dominant-bits";
    cstr "unspecified"; cstr "unspecified"; cstr "passive-error-flag"; cstr "error-delimiter";
    cstr "crc-delimiter"; cstr "acknowledge-slot"; cstr "end-of-frame"; cstr "acknowledge-delimiter";
    cstr "overload-flag"; cstr "unspecified"; cstr "unspecified"; cstr "unspecified" ].

(** [n += snprintf(buf + n, len - n, ...)], where [buf] lies [base] bytes into
    the block: the state is the block and [n]; the size is a [size_t]. *)
Definition append_at (base len : Z) (text : bytes) (st : bytes * Z) : out (bytes * Z) :=
  r ← snprintf_at st.1 (base + st.2) (u64 (len - st.2)) text;
  Ret (r.1, st.2 + r.2).

(** The names of the set bits, the [i]-th of which comes first in [arr]. *)
Fixpoint error_names (base len err i count : Z) (arr : list bytes) (st : bytes * Z) : out (bytes * Z) :=
  match arr with
  | [] => Ret st
  | name :: arr =>
      if has err (Z.shiftl 1 i) then
        st ← (if 0 <? count then append_at base len (cstr ",") st else Ret st);
        st ← append_at base len name st;
        error_names base len err (i + 1) (count + 1) arr st
      else error_names base len err (i + 1) count arr st
  end.

(** Each function returns the block and the length of its text. *)
Definition snprintf_error_data (buf : bytes) (base len err : Z) (arr : list bytes) : out (bytes * Z) :=
  if (err =? 0) || (len <=? 0) then Ret (buf, 0) else error_names base len err 0 0 arr (buf, 0).

Definition snprintf_error_lostarb (buf : bytes) (base len : Z) (cf : can_frame) : out (bytes * Z) :=
  if len <=? 0 then Ret (buf, 0) else
  d ← load (fdata cf) 0; snprintf_at buf base len (cstr "{at bit " ++ show_dec d ++ cstr "}").

(** A call [n += f(buf + n, len - n, ...)]. *)
Definition nested (f : bytes -> Z -> Z -> out (bytes * Z)) (base len : Z) (st : bytes * Z) : out (bytes * Z) :=
  r ← f st.1 (base + st.2) (u64 (len - st.2)); Ret (r.1, st.2 + r.2).

Definition snprintf_error_ctrl (buf : bytes) (base len : Z) (cf : can_frame) : out (bytes * Z) :=
  if len <=? 0 then Ret (buf, 0) else
  st ← append_at base len (cstr "{") (buf, 0);
  d ← load (fdata cf) 1;
  st ← nested (fun b o l => snprintf_error_data b o l d controller_problems) base len st;
  append_at base len (cstr "}") st.

Definition snprintf_error_prot (buf : bytes) (base len : Z) (cf : can_frame) : out (bytes * Z) :=
  if len <=? 0 then Ret (buf, 0) else
  st ← append_at base len (cstr "{{") (buf, 0);
  d ← load (fdata cf) 2;
  st ← nested (fun b o l => snprintf_error_data b o l d protocol_violation_types) base len st;
  st ← append_at base len (cstr "}{") st;
  d ← load (fdata cf) 3;
  st ← (if (0 <? d) && (d <? Z.of_nat (length protocol_violation_locations))
        then append_at base len (default [] (protocol_violation_locations !! Z.to_nat d)) st
        else Ret st);
  append_at base len (cstr "}}") st.

(** The classes from bit [i] on. *)
Fixpoint print_classes (len class i classes : Z) (names : list bytes) (cf : can_frame) (sep : bytes)
    (st : bytes * Z) : out (bytes * Z) :=
  match names with
  | [] => Ret st
  | name :: names =>
      let mask := Z.shiftl 1 i in
      if has class mask then
        st ← (if 0 <? classes then append_at 0 len sep st else Ret st);
        st ← append_at 0 len name st;
        st ← (if mask =? CAN_ERR_LOSTARB
              then nested (fun b o l => snprintf_error_lostarb b o l cf) 0 len st else Ret st);
        st ← (if mask =? CAN_ERR_CRTL
              then nested (fun b o l => snprintf_error_ctrl b o l cf) 0 len st else Ret st);
        st ← (if mask =? CAN_ERR_PROT
              then nested (fun b o l => snprintf_error_prot b o l cf) 0 len st else Ret st);
        print_classes len class (i + 1) (classes + 1) names cf sep st
      else print_classes len class (i + 1) classes names cf sep st
  end.

Definition snprintf_can_error_frame (buf : bytes) (len : Z) (cf : can_frame) (sep : option bytes) : out bytes :=
  if negb (has (can_id cf) CAN_ERR_FLAG) then Ret buf else
  let class := Z.land (can_id cf) CAN_EFF_MASK in
  if Z.shiftl 1 (Z.of_nat (length error_classes)) <? class then Ret buf else
  let sep := default (cstr ",") sep in
  st ← print_classes len class 0 0 error_classes cf sep (buf, 0);
  d6 ← load (fdata cf) 6;
  d7 ← load (fdata cf) 7;
  if negb (d6 =? 0) || negb (d7 =? 0) then
    st ← append_at 0 len sep st;
    st ← append_at 0 len (cstr "error-counter-tx-rx{{" ++ show_dec d6 ++ cstr "}{" ++ show_dec d7 ++ cstr "}}") st;
    Ret st.1
  else Ret st.1.

Definition fprint_long_canframe (buf stream : bytes) (cf : can_frame) (eol : option bytes) (view : Z) : out bytes :=
  buf ← sprint_long_canframe buf cf view;
  s ← c_str buf;
  let stream := stream ++ s in
  stream ← (if has view CANLIB_VIEW_ERROR && has (can_id cf) CAN_ERR_FLAG then
              buf ← snprintf_can_error_frame buf (Z.of_nat (length buf)) cf (Some [10; 9]);
              s ← c_str buf;
              Ret (stream ++ [10; 9] ++ s)
            else Ret stream);
  Ret (stream ++ default [] eol).

(** ** The compact form is read back *)

Definition frame_wf (cf : can_frame) : Prop :=
  0 <= can_id cf < 2 ^ 32 /\ 0 <= can_dlc cf < 256 /\ length (fdata cf) = 8%nat /\ Forall is_byte (fdata cf).

(** The data bytes that are printed. *)
Definition payload (cf : can_frame) : bytes := take (Z.to_nat (dlc_of cf)) (fdata cf).

Fixpoint data_text (sep : Z) (l : bytes) : bytes :=
  match l with
  | [] => []
  | d :: l => hexw 2 d ++ (if negb (sep =? 0) && negb (bool_decide (l = [])) then cstr "." else []) ++ data_text sep l
  end.

(** The identifier as it is printed and the flag its digits stand for. *)
Definition printed_id (cf : can_frame) : nat * Z * Z :=
  if has (can_id cf) CAN_ERR_FLAG then (8%nat, Z.land (can_id cf) (Z.lor CAN_ERR_MASK CAN_ERR_FLAG), 0)
  else if has (can_id cf) CAN_EFF_FLAG then (8%nat, Z.land (can_id cf) CAN_EFF_MASK, CAN_EFF_FLAG)
  else (3%nat, Z.land (can_id cf) CAN_SFF_MASK, 0).

Definition canframe_text (cf : can_frame) (sep : Z) : bytes :=
  let '(n, id, _) := printed_id cf in
  hexw n id ++ 35 :: (if has (can_id cf) CAN_RTR_FLAG then cstr "R" else data_text sep (payload cf)).

(** What the text says of a frame. *)
Definition canon (cf : can_frame) : can_frame :=
  let '(_, id, flag) := printed_id cf in
  if has (can_id cf) CAN_RTR_FLAG then Frame (Z.lor (Z.lor id flag) CAN_RTR_FLAG) 0 (repeat 0 8)
  else Frame (Z.lor id flag) (dlc_of cf) (payload cf ++ repeat 0 (8 - length (payload cf))).

Lemma asc2nibble_digit n : 0 <= n < 16 -> asc2nibble (hex_digit n) = n.
Proof. intros Hn. unfold asc2nibble, hex_digit. destruct (Z.ltb_spec n 10); zdec; lia. Qed.

Lemma dlc_of_range cf : frame_wf cf -> 0 <= dlc_of cf <= 8.
Proof. intros (_ & Hd & _). unfold dlc_of. destruct (Z.ltb_spec 8 (can_dlc cf)); lia. Qed.

Lemma length_payload cf : frame_wf cf -> length (payload cf) = Z.to_nat (dlc_of cf).
Proof.
  intros Hw. pose proof (dlc_of_range cf Hw). destruct Hw as (_ & _ & Hl & _).
  unfold payload. rewrite length_take. lia.
Qed.

Lemma payload_lookup cf i d : payload cf !! i = Some d -> fdata cf !! i = Some d.
Proof. unfold payload. intros H. apply lookup_take_Some in H. by destruct H. Qed.

Lemma payload_bytes cf : frame_wf cf -> Forall is_byte (payload cf).
Proof. intros (_ & _ & _ & H). by apply Forall_take. Qed.

Lemma length_data_text sep l : (length (data_text sep l) <= 3 * length l)%nat.
Proof.
  induction l as [|d l IH]; [done|]. cbn [data_text]. rewrite !length_app, length_hexw. cbn [length].
  destruct (_ && _); cbn [length app]; change (length (cstr ".")) with 1%nat; lia.
Qed.

Lemma length_data_text_8 sep l : (length l <= 8)%nat -> (length (data_text sep l) <= 23)%nat.
Proof.
  intros H. destruct l as [|d l] using rev_ind; [cbn; lia|]. clear IHl.
  assert (length (data_text sep (l ++ [d])) <= 3 * length l + 2)%nat as E; [|rewrite length_app in H; cbn in H; lia].
  clear H. induction l as [|x l IH]; [cbn; rewrite andb_false_r; cbn; lia|].
  cbn [app data_text]. rewrite !length_app, length_hexw. cbn [length].
  destruct (_ && _); cbn [length app]; change (length (cstr ".")) with 1%nat; lia.
Qed.

(** Printing the data behind the text [pre]. *)
Lemma sprint_data_text sep cf l i pre junk :
  (forall k d, l !! k = Some d -> fdata cf !! (i + k)%nat = Some d) ->
  (length (data_text sep l) <= length junk)%nat ->
  exists junk', sprint_data (length l) (Z.of_nat i) (Z.of_nat (length pre)) (Z.of_nat (i + length l)) sep cf (pre ++ 0 :: junk)
  = Ret (pre ++ data_text sep l ++ 0 :: junk').
Proof.
  revert i pre junk; induction l as [|d l IH]; intros i pre junk Hl Hj; [by exists junk|].
  cbn [length sprint_data]. rewrite (load_lookup _ _ d) by (lia || (rewrite Nat2Z.id, <- (Nat.add_0_r i); by apply Hl)).
  cbn [data_text] in Hj. rewrite !length_app, length_hexw in Hj.
  rewrite ret_bind, sprintf_at_app, ret_bind by (rewrite ?length_hexw; lia).
  set (junk1 := drop (length (hexw 2 d)) junk).
  assert (length junk1 = length junk - 2)%nat as Hj1 by (unfold junk1; by rewrite length_drop, length_hexw).
  assert (forall k x, l !! k = Some x -> fdata cf !! (S i + k)%nat = Some x) as Hl'
    by (intros k x Hx; rewrite Nat.add_succ_comm; by apply Hl).
  replace (Z.of_nat i + 1) with (Z.of_nat (S i)) by lia.
  replace (i + S (length l))%nat with (S i + length l)%nat by lia.
  assert ((Z.of_nat (S i) <? Z.of_nat (S i + length l)) = negb (bool_decide (l = []))) as ->.
  { destruct l; cbn [length]; [rewrite bool_decide_true by done | rewrite bool_decide_false by done]; cbn [negb]; zdec; done. }
  rewrite app_assoc. cbn [data_text]. destruct (_ && _).
  - rewrite sprintf_at_app by (rewrite ?length_app, ?length_hexw; cbn [length] in *; change (length (cstr ".")) with 1%nat in *; lia).
    rewrite ret_bind, app_assoc.
    destruct (IH (S i) ((pre ++ hexw 2 d) ++ cstr ".") (drop (length (cstr ".")) junk1) Hl') as [junk' E].
    + rewrite length_drop. change (length (cstr ".")) with 1%nat in *. lia.
    + exists junk'. rewrite <- !app_assoc in *. rewrite <- E. f_equal.
      rewrite !length_app, length_hexw. change (length (cstr ".")) with 1%nat. lia.
  - destruct (IH (S i) (pre ++ hexw 2 d) junk1 Hl') as [junk' E]; [cbn [length] in Hj; lia|].
    exists junk'. rewrite <- !app_assoc in *. rewrite app_nil_l, <- E. f_equal.
    rewrite length_app, length_hexw. lia.
Qed.

Lemma canframe_text_app cf sep :
  canframe_text cf sep
  = (hexw (printed_id cf).1.1 (printed_id cf).1.2 ++ cstr "#")
    ++ (if has (can_id cf) CAN_RTR_FLAG then cstr "R" else data_text sep (payload cf)).
Proof. unfold canframe_text. destruct (printed_id cf) as [[n id] fl]. by rewrite <- app_assoc. Qed.

Lemma printed_digits cf : (printed_id cf).1.1 = 8%nat \/ (printed_id cf).1.1 = 3%nat.
Proof. unfold printed_id. destruct (has _ _); [by left|]. destruct (has _ _); [by left | by right]. Qed.

(** Printing stays within 33 bytes whatever the frame holds: its identifier and
    its data need not be in range. *)
Lemma sprint_canframe_fits buf cf sep :
  length (fdata cf) = 8%nat -> (33 <= length buf)%nat -> defined (sprint_canframe buf cf sep).
Proof.
  intros Hd Hb. unfold sprint_canframe, defined. rewrite ret_bind. set (p := if has _ _ then _ else _).
  assert (p.2 = Z.of_nat (length p.1) /\ (length p.1 <= 9)%nat) as [Ho Hp].
  { unfold p. destruct (has _ _); [|destruct (has _ _)]; cbn [fst snd]; rewrite length_app, length_hexw;
      change (length (cstr "#")) with 1%nat; lia. }
  destruct p as [text offset]. cbn [fst snd] in *. subst offset. rewrite sprintf_at_0, ret_bind by lia.
  set (junk := drop _ buf). assert (23 <= length junk)%nat as Hj by (unfold junk; rewrite length_drop; lia).
  destruct (has _ _).
  { rewrite sprintf_at_app by (done || (change (length (cstr "R")) with 1%nat; lia)). by eexists. }
  assert (dlc_of cf <= 8) as H8 by (unfold dlc_of; destruct (Z.ltb_spec 8 (can_dlc cf)); lia).
  destruct (Z.le_gt_cases (dlc_of cf) 0) as [H0|H0]; [replace (Z.to_nat (dlc_of cf)) with 0%nat by lia; by eexists|].
  pose proof (length_data_text_8 sep (take (Z.to_nat (dlc_of cf)) (fdata cf)) ltac:(rewrite length_take; lia)).
  destruct (sprint_data_text sep cf (take (Z.to_nat (dlc_of cf)) (fdata cf)) 0 text junk) as [junk' E].
  - intros k d Hk. apply lookup_take_Some in Hk. by destruct Hk.
  - lia.
  - rewrite length_take, Nat.min_l in E by lia. rewrite Nat.add_0_l, Z2Nat.id in E by lia.
    change (Z.of_nat 0) with 0 in E. rewrite E. by eexists.
Qed.

(** The buffer holds the text, its terminator and old contents. *)
Lemma sprint_canframe_text buf cf sep :
  frame_wf cf -> (33 <= length buf)%nat ->
  exists junk, sprint_canframe buf cf sep = Ret (canframe_text cf sep ++ 0 :: junk).
Proof.
  intros Hw Hb. rewrite canframe_text_app. set (head := hexw _ _ ++ cstr "#").
  assert (length head = S (printed_id cf).1.1) as Hl
    by (unfold head; rewrite length_app, length_hexw; change (length (cstr "#")) with 1%nat; lia).
  pose proof (printed_digits cf) as Hd.
  assert (sprint_canframe buf cf sep
    = (buf ← sprintf_at buf 0 head;
       if has (can_id cf) CAN_RTR_FLAG then sprintf_at buf (Z.of_nat (length head)) (cstr "R")
       else sprint_data (Z.to_nat (dlc_of cf)) 0 (Z.of_nat (length head)) (dlc_of cf) sep cf buf)) as ->.
  { rewrite Hl. unfold sprint_canframe, head, printed_id. destruct (has (can_id cf) CAN_ERR_FLAG), (has (can_id cf) CAN_EFF_FLAG); done. }
  rewrite sprintf_at_0, ret_bind by lia. set (junk := drop _ buf).
  assert (23 <= length junk)%nat as Hj by (unfold junk; rewrite length_drop; lia).
  pose proof (dlc_of_range cf Hw). pose proof (length_payload cf Hw) as Hp. destruct (has (can_id cf) CAN_RTR_FLAG).
  - rewrite sprintf_at_app by (done || (change (length (cstr "R")) with 1%nat; lia)). rewrite app_assoc. by eexists.
  - destruct (sprint_data_text sep cf (payload cf) 0 head junk) as [junk' E].
    + intros k d Hk. by apply payload_lookup.
    + pose proof (length_data_text_8 sep (payload cf)). lia.
    + rewrite Hp in E. replace (Z.of_nat (0 + Z.to_nat (dlc_of cf))) with (dlc_of cf) in E by lia.
      change (Z.of_nat 0) with 0 in E. rewrite E, app_assoc. by eexists.
Qed.

(** ** Parsing what was printed *)

Lemma parse_id_digits n v pre rest i cf :
  (n <= 8)%nat -> i = Z.of_nat (length pre) -> 0 <= v < 16 ^ Z.of_nat n ->
  parse_id n i (pre ++ hexw n v ++ rest) cf = Ret (0, or_id cf v).
Proof.
  revert v pre i cf; induction n as [|n IH]; intros v pre i cf Hn -> Hv.
  - change (16 ^ Z.of_nat 0) with 1 in Hv. replace v with 0 by lia. cbn. unfold or_id.
    rewrite Z.lor_0_r. by destruct cf.
  - rewrite hexw_S. cbn [parse_id app]. rewrite load_app, ret_bind by done.
    rewrite Nat2Z.inj_succ, Z.pow_succ_r in Hv by lia. set (w := 16 ^ Z.of_nat n) in *.
    assert (0 < w) as Hw by (unfold w; lia).
    assert (0 <= v / w < 16) as Hq by (split; [apply Z.div_pos; lia | apply Z.div_lt_upper_bound; lia]).
    rewrite (Z.mod_small (v / w)), asc2nibble_digit by done. cbv zeta. zdec.
    rewrite cons_middle, app_assoc. replace v with (v / w * w + v mod w) at 2 by (pose proof (Z.div_mod v w); lia).
    unfold w at 2. rewrite hexw_add. rewrite IH; [| lia | rewrite length_app; cbn [length]; lia | apply Z.mod_pos_bound; lia].
    assert (w = 2 ^ (Z.of_nat n * 4)) as Ew by (unfold w; rewrite Z.mul_comm, Z.pow_mul_r by lia; done).
    unfold or_id. cbn [can_id can_dlc fdata]. do 3 f_equal. rewrite <- Z.lor_assoc. f_equal.
    assert (u32 (Z.shiftl (v / w) (Z.of_nat n * 4)) = Z.shiftl (v / w) (Z.of_nat n * 4)) as ->.
    { unfold u32. apply Z.mod_small. rewrite Z.shiftl_mul_pow2, <- Ew by lia. split; [nia|].
      assert (w <= 16 ^ 7) by (unfold w; apply Z.pow_le_mono_r; lia). nia. }
    rewrite lor_shift_add; [| lia | rewrite <- Ew; apply Z.mod_pos_bound; lia].
    rewrite <- Ew. pose proof (Z.div_mod v w). lia.
Qed.

Lemma parse_id_head n v rest cf :
  (n <= 8)%nat -> 0 <= v < 16 ^ Z.of_nat n -> parse_id n 0 (hexw n v ++ rest) cf = Ret (0, or_id cf v).
Proof. intros Hn Hv. exact (parse_id_digits n v [] rest 0 cf Hn eq_refl Hv). Qed.

Lemma byte_of_digits b :
  is_byte b -> Z.lor (u8 (Z.shiftl (b / 16 ^ 1 mod 16) 4)) (b / 16 ^ 0 mod 16) = b.
Proof.
  intros Hb.
  refine (byte_computes (fun b => Z.lor (u8 (Z.shiftl (b / 16 ^ 1 mod 16) 4)) (b / 16 ^ 0 mod 16) = b) b _ Hb).
  by vm_compute.
Qed.

(** The two digits of a byte. *)
Lemma hex_byte_digits b pre rest j i cf :
  is_byte b -> j = Z.of_nat (length pre) -> (i < length (fdata cf))%nat ->
  hex_byte (pre ++ hexw 2 b ++ rest) j (Z.of_nat i) cf
  = Ret (0, Frame (can_id cf) (can_dlc cf) (<[i := b]> (fdata cf))).
Proof.
  intros Hb -> Hi. unfold hex_byte. rewrite !hexw_S. cbn [app hexw].
  rewrite (load_app pre _ _ (Z.of_nat (length pre)) eq_refl), ret_bind. cbv zeta.
  pose proof (Z.mod_pos_bound (b / 16 ^ Z.of_nat 1) 16 ltac:(lia)).
  pose proof (Z.mod_pos_bound (b / 16 ^ Z.of_nat 0) 16 ltac:(lia)).
  rewrite asc2nibble_digit by done. zdec. unfold set_data, store. zdec. run. cbn [fdata can_id can_dlc].
  rewrite cons_middle, app_assoc, load_app, ret_bind by (rewrite length_app; cbn [length]; lia).
  rewrite asc2nibble_digit by done. zdec. rewrite !Nat2Z.id.
  rewrite load_lookup with (x := u8 (Z.shiftl (b / 16 ^ Z.of_nat 1 mod 16) 4));
    [| lia | rewrite Nat2Z.id, list_lookup_insert_eq by done; done].
  rewrite ret_bind, length_insert. zdec. run. rewrite list_insert_insert_eq. do 3 f_equal.
  f_equal. by apply byte_of_digits.
Qed.

(** The data behind [pre], perhaps after a separator. *)
Lemma parse_data_text sep l n i pre lead junk cf before :
  Forall is_byte l -> fdata cf = before ++ repeat 0 n -> length before = i -> (length l <= n)%nat ->
  lead = [] \/ l <> [] /\ lead = [DATA_SEPERATOR] ->
  parse_data n (Z.of_nat i) (Z.of_nat (length pre)) (Z.of_nat (length (pre ++ lead ++ data_text sep l)))
    (pre ++ lead ++ data_text sep l ++ 0 :: junk) cf
  = Ret (0, Frame (can_id cf) (Z.of_nat (i + length l)) (before ++ l ++ repeat 0 (n - length l))).
Proof.
  revert n i pre lead cf before; induction l as [|d l IH]; intros n i pre lead cf before Hl Hf Hi Hn Hlead.
  - destruct Hlead as [-> | [? _]]; [|done]. cbn [data_text app length]. rewrite Nat.add_0_r, Nat.sub_0_r, <- Hf.
    destruct n as [|n]; [done|]. cbn [parse_data]. rewrite app_nil_r.
    rewrite load_app, ret_bind by done. cbv zeta. change (0 =? DATA_SEPERATOR) with false. cbn iota. by zdec.
  - destruct n as [|n]; [cbn in Hn; lia|]. apply list.Forall_cons in Hl as [Hd Hl]. cbn [parse_data].
    set (more := if negb (sep =? 0) && negb (bool_decide (l = [])) then cstr "." else []).
    change (data_text sep (d :: l)) with (hexw 2 d ++ more ++ data_text sep l).
    assert (load (pre ++ lead ++ (hexw 2 d ++ more ++ data_text sep l) ++ 0 :: junk) (Z.of_nat (length pre))
            = Ret (hd (hex_digit (d / 16 ^ 1 mod 16)) lead)) as ->
      by (destruct Hlead as [-> | [_ ->]]; by apply load_app).
    rewrite ret_bind. cbv zeta.
    assert ((if hd (hex_digit (d / 16 ^ 1 mod 16)) lead =? DATA_SEPERATOR
             then Z.of_nat (length pre) + 1 else Z.of_nat (length pre)) = Z.of_nat (length (pre ++ lead))) as ->.
    { rewrite length_app. unfold DATA_SEPERATOR.
      pose proof (hex_digit_range (d / 16 ^ 1 mod 16) ltac:(apply Z.mod_pos_bound; lia)).
      destruct Hlead as [-> | [_ ->]]; cbn [hd length]; [by zdec; lia | unfold DATA_SEPERATOR; zdec; lia]. }
    rewrite (proj2 (Z.leb_gt _ _)) by (rewrite !length_app, length_hexw; lia).
    replace (pre ++ lead ++ (hexw 2 d ++ more ++ data_text sep l) ++ 0 :: junk)
      with ((pre ++ lead) ++ hexw 2 d ++ more ++ data_text sep l ++ 0 :: junk) by (by rewrite <- !app_assoc).
    rewrite (hex_byte_digits d (pre ++ lead)) by (done || (rewrite Hf, length_app, repeat_length; lia)).
    run_step. cbn [fst snd]. rewrite Z.eqb_refl.
    replace (Z.of_nat i + 1) with (Z.of_nat (S i)) by lia.
    rewrite Hf, insert_app_r_alt, Hi, Nat.sub_diag by lia. cbn [repeat].
    change (<[0%nat := d]> (0 :: repeat 0 n)) with (d :: repeat 0 n). rewrite cons_middle, app_assoc.
    specialize (IH n (S i) ((pre ++ lead) ++ hexw 2 d) more
      (Frame (can_id cf) (can_dlc cf) ((before ++ [d]) ++ repeat 0 n)) (before ++ [d]) Hl eq_refl).
    cbn [can_id length] in IH. cbn [length]. replace (i + S (length l))%nat with (S i + length l)%nat by lia.
    change (before ++ (d :: l) ++ repeat 0 (S n - S (length l))) with (before ++ [d] ++ l ++ repeat 0 (n - length l)).
    rewrite (app_assoc before [d]). rewrite <- IH.
    + rewrite !length_app, length_hexw, <- !app_assoc. f_equal; lia.
    + rewrite length_app; cbn [length]; lia.
    + cbn [length] in Hn. lia.
    + unfold more. destruct (negb (sep =? 0)); cbn [andb]; [|by left]. case_bool_decide; [by left | by right].
Qed.

Lemma data_text_chars sep l c : c ∈ data_text sep l -> c = 46 \/ 48 <= c <= 57 \/ 65 <= c <= 70.
Proof.
  induction l as [|d l IH]; [by intros ?%elem_of_nil|]. cbn [data_text]. rewrite !elem_of_app.
  intros [H | [H | H]]; [right; by eapply hexw_chars | | by apply IH].
  destruct (_ && _); [|by apply elem_of_nil in H]. apply list_elem_of_singleton in H. by left.
Qed.

Lemma data_text_head sep l junk :
  exists c, load (data_text sep l ++ 0 :: junk) 0 = Ret c /\ (c =? 82) || (c =? 114) = false.
Proof.
  destruct l as [|d l]; [by exists 0|]. exists (hex_digit (d / 16 ^ 1 mod 16)). split; [by apply (load_app [])|].
  pose proof (hex_digit_range (d / 16 ^ 1 mod 16) ltac:(apply Z.mod_pos_bound; lia)). zdec. lia.
Qed.

Lemma parse_rest_text sep (rtr : bool) l pre junk id :
  Forall is_byte l -> (length l <= 8)%nat ->
  let body := if rtr then cstr "R" else data_text sep l in
  parse_rest (pre ++ body ++ 0 :: junk) (Z.of_nat (length (pre ++ body))) (Z.of_nat (length pre)) (Frame id 0 (repeat 0 8))
  = Ret (0, if rtr then Frame (Z.lor id CAN_RTR_FLAG) 0 (repeat 0 8)
            else Frame id (Z.of_nat (length l)) (l ++ repeat 0 (8 - length l))).
Proof.
  intros Hl H8 body. unfold parse_rest, body. destruct rtr.
  - by rewrite (load_app pre 82 (0 :: junk)) by done.
  - destruct (data_text_head sep l junk) as (c & Hc & Hr).
    rewrite (load_app_r pre _ _ 0), Hc, ret_bind, Hr by lia.
    exact (parse_data_text sep l 8 0 pre [] junk (Frame id 0 (repeat 0 8)) [] Hl eq_refl eq_refl H8 (or_introl eq_refl)).
Qed.

Lemma canframe_text_no_nul cf sep : no_nul (canframe_text cf sep).
Proof.
  rewrite canframe_text_app. unfold no_nul. rewrite !not_elem_of_app. split_and!.
  - intros H%hexw_chars. lia.
  - by apply (bool_decide_unpack _).
  - destruct (has (can_id cf) CAN_RTR_FLAG); [by apply (bool_decide_unpack _)|]. intros H%data_text_chars. lia.
Qed.

Lemma has_land id m f : has (Z.land id m) f = has id (Z.land m f).
Proof. unfold has. by rewrite Z.land_assoc. Qed.

Lemma printed_id_range cf :
  frame_wf cf -> 0 <= (printed_id cf).1.2 < 16 ^ Z.of_nat (printed_id cf).1.1.
Proof.
  intros [Hid _]. unfold printed_id. destruct (has _ _); [|destruct (has _ _)]; cbn [fst snd].
  - apply (land_bound 32); [done | exact Hid].
  - apply (land_bound 32); [done | exact Hid].
  - rewrite Z.land_comm. by apply (land_bound 12).
Qed.

(** The long form of an identifier is told apart by its error flag. *)
Lemma printed_id_flag cf :
  (printed_id cf).1.1 = 8%nat ->
  (if has (printed_id cf).1.2 CAN_ERR_FLAG then 0 else CAN_EFF_FLAG) = (printed_id cf).2.
Proof.
  unfold printed_id. destruct (has (can_id cf) CAN_ERR_FLAG) eqn:E; [|destruct (has (can_id cf) CAN_EFF_FLAG)]; cbn [fst snd].
  - rewrite has_land. change (Z.land (Z.lor CAN_ERR_MASK CAN_ERR_FLAG) CAN_ERR_FLAG) with CAN_ERR_FLAG. by rewrite E.
  - rewrite has_land. change (Z.land CAN_EFF_MASK CAN_ERR_FLAG) with 0. unfold has. by rewrite Z.land_0_r.
  - done.
Qed.

Lemma printed_id_short cf : (printed_id cf).1.1 = 3%nat -> (printed_id cf).2 = 0.
Proof. unfold printed_id. destruct (has _ _); [done|]. by destruct (has _ _). Qed.

(** The two widths of an identifier. *)
Lemma parse_canframe_short id body junk :
  0 <= id < 16 ^ 3 -> no_nul (hexw 3 id ++ 35 :: body) ->
  parse_canframe (hexw 3 id ++ 35 :: body ++ 0 :: junk)
  = parse_rest (hexw 3 id ++ 35 :: body ++ 0 :: junk) (Z.of_nat (length (hexw 3 id ++ 35 :: body))) 4
      (Frame id 0 (repeat 0 8)).
Proof.
  intros Hid Hn. unfold parse_canframe. rewrite app_comm_cons, app_assoc, c_str_app, ret_bind by exact Hn. cbv zeta.
  rewrite (proj2 (Z.ltb_ge _ 4)) by (rewrite length_app, length_hexw; cbn [length]; lia).
  rewrite <- app_assoc, <- app_comm_cons. rewrite (load_app (hexw 3 id) _ _ 3 eq_refl), ret_bind.
  rewrite Z.eqb_refl, parse_id_head, ret_bind by (lia || done). done.
Qed.

Lemma parse_canframe_long id body junk :
  0 <= id < 16 ^ 8 -> no_nul (hexw 8 id ++ 35 :: body) ->
  parse_canframe (hexw 8 id ++ 35 :: body ++ 0 :: junk)
  = parse_rest (hexw 8 id ++ 35 :: body ++ 0 :: junk) (Z.of_nat (length (hexw 8 id ++ 35 :: body))) 9
      (Frame (Z.lor id (if has id CAN_ERR_FLAG then 0 else CAN_EFF_FLAG)) 0 (repeat 0 8)).
Proof.
  intros Hid Hn. unfold parse_canframe. rewrite app_comm_cons, app_assoc, c_str_app, ret_bind by exact Hn. cbv zeta.
  rewrite (proj2 (Z.ltb_ge _ 4)) by (rewrite length_app, length_hexw; cbn [length]; lia).
  rewrite <- app_assoc, <- app_comm_cons.
  rewrite (load_lookup (hexw 8 id ++ 35 :: body ++ 0 :: junk) 3 (hex_digit (id / 16 ^ 4 mod 16)) ltac:(lia) eq_refl), ret_bind.
  pose proof (hex_digit_range (id / 16 ^ 4 mod 16) ltac:(apply Z.mod_pos_bound; lia)).
  unfold CANID_DELIM. zdec. rewrite (load_app (hexw 8 id) _ _ 8 eq_refl), ret_bind.
  rewrite Z.eqb_refl, parse_id_head, ret_bind by (lia || done). cbn [fst snd].
  unfold or_id. cbn [can_id can_dlc fdata]. rewrite Z.lor_0_l. destruct (has id CAN_ERR_FLAG); [by rewrite Z.lor_0_r | done].
Qed.

(** The text of a frame stands for its canonical form. *)
Lemma parse_canframe_text cf sep junk :
  frame_wf cf -> parse_canframe (canframe_text cf sep ++ 0 :: junk) = Ret (0, canon cf).
Proof.
  intros Hw. pose proof (canframe_text_no_nul cf sep) as Hn. revert Hn.
  pose proof (printed_id_range cf Hw) as Hr. pose proof (printed_id_flag cf) as Hflag.
  pose proof (printed_id_short cf) as Hshort. pose proof (printed_digits cf) as Hd.
  pose proof (length_payload cf Hw) as Hp. pose proof (dlc_of_range cf Hw).
  unfold canon, canframe_text. destruct (printed_id cf) as [[n id] flag]; cbn [fst snd] in *.
  set (rtr := has (can_id cf) CAN_RTR_FLAG). intros Hn. rewrite <- app_assoc, <- app_comm_cons.
  assert (forall w k, n = w -> k = Z.of_nat (length (hexw w id ++ [35])) -> parse_rest (hexw n id ++ 35 :: (if rtr then cstr "R" else data_text sep (payload cf)) ++ 0 :: junk)
    (Z.of_nat (length (hexw n id ++ 35 :: (if rtr then cstr "R" else data_text sep (payload cf))))) k (Frame (Z.lor id flag) 0 (repeat 0 8))
    = Ret (0, if rtr then Frame (Z.lor (Z.lor id flag) CAN_RTR_FLAG) 0 (repeat 0 8)
              else Frame (Z.lor id flag) (dlc_of cf) (payload cf ++ repeat 0 (8 - length (payload cf))))) as Hrest.
  { intros w k -> ->. pose proof (parse_rest_text sep rtr (payload cf) (hexw w id ++ [35]) junk (Z.lor id flag)
      (payload_bytes cf Hw) ltac:(lia)) as E. cbv zeta in E. rewrite <- !(app_assoc (hexw w id)) in E. cbn [app] in E.
    replace (Z.of_nat (length (payload cf))) with (dlc_of cf) in E by lia. exact E. }
  destruct Hd as [-> | ->].
  - rewrite parse_canframe_long, Hflag by done. rewrite (Hrest 8%nat 9 eq_refl); [by destruct rtr | done].
  - rewrite parse_canframe_short by done. rewrite Hshort, Z.lor_0_r in * by done.
    rewrite (Hrest 3%nat 4 eq_refl); [by destruct rtr | done].
Qed.

(** C21: Whatever the identifier, the flags, the length and the separator, the
    compact text of a frame fits its buffer, and parsing the buffer gives the
    frame back up to what the text cannot say: unused bits of the identifier,
    the data of a remote request and the bytes behind the length are zero. *)
Theorem canframe_text_roundtrip buf cf sep :
  frame_wf cf -> (33 <= length buf)%nat ->
  exists buf', sprint_canframe buf cf sep = Ret buf' /\ c_str buf' = Ret (canframe_text cf sep)
    /\ parse_canframe buf' = Ret (0, canon cf).
Proof.
  intros Hw Hb. destruct (sprint_canframe_text buf cf sep Hw Hb) as [junk ->]. eexists. split; [done|].
  split; [apply c_str_app, canframe_text_no_nul | by apply parse_canframe_text].
Qed.

(** ** The long form is written as described *)

Definition shown_id (cf : can_frame) : bytes :=
  if has (can_id cf) CAN_ERR_FLAG then pad_left 8 (show_hex (Z.land (can_id cf) (Z.lor CAN_ERR_MASK CAN_ERR_FLAG)))
  else if has (can_id cf) CAN_EFF_FLAG then pad_left 8 (show_hex (Z.land (can_id cf) CAN_EFF_MASK))
  else pad_left 3 (show_hex (Z.land (can_id cf) CAN_SFF_MASK)).

Definition byte_field (view d : Z) : bytes := if has view CANLIB_VIEW_BINARY then bits_text d else hexw 2 d.

(** The bytes in the order of the view, the first behind a blank. *)
Definition listed (view : Z) (l : bytes) : bytes := if has view CANLIB_VIEW_SWAP then rev l else l.

Definition fields_text (view : Z) (l : bytes) : bytes :=
  match l with
  | [] => []
  | d :: l => 32 :: byte_field view d
              ++ mjoin ((fun d => (if has view CANLIB_VIEW_SWAP then SWAP_DELIMITER else 32) :: byte_field view d) <$> l)
  end.

Definition quote_mark (view : Z) : bytes := if has view CANLIB_VIEW_SWAP then cstr "`" else cstr "'".

(** What is printed behind the bytes, aligned to the end of eight of them. *)
Definition remark (cf : can_frame) (view : Z) : bytes :=
  let room := long_dlen view * (8 - dlc_of cf) in
  if has (can_id cf) CAN_ERR_FLAG then pad_left (Z.to_nat (room + 13)) (cstr "ERRORFRAME")
  else if has view CANLIB_VIEW_ASCII then
    pad_left (Z.to_nat (room + 4)) (quote_mark view) ++ (ascii_char <$> listed view (payload cf)) ++ quote_mark view
  else [].

Definition long_text (cf : can_frame) (view : Z) : bytes :=
  (shown_id cf ++ cstr "  ") ++ (cstr "[" ++ show_dec (dlc_of cf) ++ cstr "]")
  ++ (if has (can_id cf) CAN_RTR_FLAG then cstr " remote request"
      else fields_text view (listed view (payload cf)) ++ remark cf view).

(** [holds pre cap buf]: the block starts with [pre] and has room for [cap] more
    bytes; [prints] says that a NUL follows. *)
Definition holds (pre : bytes) (cap : nat) (buf : bytes) : Prop := exists junk, buf = pre ++ junk /\ length junk = cap.
Definition prints (pre : bytes) (cap : nat) (buf : bytes) : Prop := exists junk, buf = pre ++ 0 :: junk /\ length junk = cap.

Lemma prints_sprintf pre cap buf t :
  prints pre cap buf -> (length t <= cap)%nat ->
  exists buf', sprintf_at buf (Z.of_nat (length pre)) t = Ret buf' /\ prints (pre ++ t) (cap - length t) buf'.
Proof.
  intros (junk & -> & <-) Ht. rewrite sprintf_at_app by done. eexists. split; [done|].
  exists (drop (length t) junk). by rewrite <- app_assoc, length_drop.
Qed.

Lemma holds_blit pre cap buf t :
  holds pre cap buf -> (length t <= cap)%nat ->
  exists buf', blit buf (Z.of_nat (length pre)) t = Ret buf' /\ holds (pre ++ t) (cap - length t) buf'.
Proof.
  intros (junk & -> & <-) Ht. rewrite blit_app by done. eexists. split; [done|].
  exists (drop (length t) junk). by rewrite <- app_assoc, length_drop.
Qed.

Lemma holds_store pre cap buf c :
  holds pre (S cap) buf -> exists buf', store buf (Z.of_nat (length pre)) c = Ret buf' /\ holds (pre ++ [c]) cap buf'.
Proof.
  intros ([|x junk] & -> & Hc); [done|]. rewrite store_app by done. eexists. split; [done|].
  exists junk. rewrite <- app_assoc. split; [done|]. by injection Hc.
Qed.

Lemma prints_holds pre cap buf : prints pre cap buf -> holds pre (S cap) buf.
Proof. intros (junk & -> & <-). by exists (0 :: junk). Qed.

(** A loop each round of which appends a text. *)
Lemma for_each_appends (R : bytes -> nat -> bytes -> Prop) (f : Z -> bytes * Z -> out (bytes * Z)) (txt : Z -> bytes)
    idx pre cap buf :
  (forall i pre cap buf, i ∈ idx -> (length (txt i) <= cap)%nat -> R pre cap buf ->
     exists buf', f i (buf, Z.of_nat (length pre)) = Ret (buf', Z.of_nat (length (pre ++ txt i)))
       /\ R (pre ++ txt i) (cap - length (txt i))%nat buf') ->
  (length (mjoin (txt <$> idx)) <= cap)%nat -> R pre cap buf ->
  exists buf', for_each f idx (buf, Z.of_nat (length pre)) = Ret (buf', Z.of_nat (length (pre ++ mjoin (txt <$> idx))))
    /\ R (pre ++ mjoin (txt <$> idx)) (cap - length (mjoin (txt <$> idx)))%nat buf'.
Proof.
  revert pre cap buf; induction idx as [|i idx IH]; intros pre cap buf Hf Hc HR.
  - exists buf. cbn. by rewrite app_nil_r, Nat.sub_0_r.
  - rewrite fmap_cons, mjoin_cons in *. rewrite length_app in Hc. cbn [for_each].
    destruct (Hf i pre cap buf) as (b1 & -> & HR1); [set_solver | lia | done |].
    rewrite ret_bind. destruct (IH (pre ++ txt i) (cap - length (txt i))%nat b1) as (b2 & E & HR2).
    + intros j p c b Hj. apply Hf. set_solver.
    + lia.
    + done.
    + exists b2. rewrite (length_app (txt i)), Nat.sub_add_distr. rewrite <- app_assoc in E, HR2. done.
Qed.

(** The loops over the data. *)
Definition data_at (cf : can_frame) (i : Z) : Z := default 0 (fdata cf !! Z.to_nat i).

Lemma load_at_8 cf i : frame_wf cf -> 0 <= i < 8 -> load (fdata cf) i = Ret (data_at cf i).
Proof.
  intros (_ & _ & Hl & _) Hi. destruct (lookup_lt_is_Some_2 (fdata cf) (Z.to_nat i)) as [x Hx]; [lia|].
  unfold data_at. rewrite Hx. apply load_lookup; [lia | done].
Qed.

Lemma in_indexes view dlc i : i ∈ indexes view dlc -> 0 <= i < dlc.
Proof.
  unfold indexes. destruct (has _ _); [rewrite list_elem_of_In, <- in_rev, <- list_elem_of_In|]; intros H%elem_of_seqZ; lia.
Qed.

Lemma load_data cf view i : frame_wf cf -> i ∈ indexes view (dlc_of cf) -> load (fdata cf) i = Ret (data_at cf i).
Proof.
  intros Hw Hi%in_indexes. pose proof (dlc_of_range cf Hw). apply load_at_8; [done | lia].
Qed.

(** Eight symbolic bytes and nine lengths: the two descriptions agree by computation. *)
Lemma indexes_listed {A} (view : Z) cf (g : Z -> list A) :
  frame_wf cf -> mjoin ((fun i => g (data_at cf i)) <$> indexes view (dlc_of cf)) = mjoin (g <$> listed view (payload cf)).
Proof.
  intros Hw. pose proof (dlc_of_range cf Hw) as Hd. destruct Hw as (_ & _ & Hl & _).
  unfold indexes, listed, payload, data_at. destruct cf as [id dlc l]. cbn [fdata] in *.
  generalize dependent (dlc_of (Frame id dlc l)). intros k Hk.
  do 8 (destruct l as [|? l]; [done|]). destruct l; [|done]. clear Hl.
  assert (k = 0 \/ k = 1 \/ k = 2 \/ k = 3 \/ k = 4 \/ k = 5 \/ k = 6 \/ k = 7 \/ k = 8) as Hc by lia.
  destruct (has view CANLIB_VIEW_SWAP); destruct_or! Hc; subst k; reflexivity.
Qed.

Lemma indexes_fields view cf :
  frame_wf cf ->
  mjoin ((fun i => delimiter view (dlc_of cf) i :: byte_field view (data_at cf i)) <$> indexes view (dlc_of cf))
  = fields_text view (listed view (payload cf)).
Proof.
  intros Hw. pose proof (dlc_of_range cf Hw) as Hd. destruct Hw as (_ & _ & Hl & _).
  unfold indexes, listed, payload, data_at, delimiter, fields_text. destruct cf as [id dlc l]. cbn [fdata] in *.
  generalize dependent (dlc_of (Frame id dlc l)). intros k Hk. generalize (byte_field view). intros g.
  do 8 (destruct l as [|? l]; [done|]). destruct l; [|done]. clear Hl.
  assert (k = 0 \/ k = 1 \/ k = 2 \/ k = 3 \/ k = 4 \/ k = 5 \/ k = 6 \/ k = 7 \/ k = 8) as Hc by lia.
  destruct (has view CANLIB_VIEW_SWAP); destruct_or! Hc; subst k; reflexivity.
Qed.

Lemma length_byte_field view d : length (byte_field view d) = Z.to_nat (long_dlen view - 1).
Proof. unfold byte_field, long_dlen. destruct (has _ _); [done | by rewrite length_hexw]. Qed.

Lemma long_bytes_text cf view pre cap buf :
  frame_wf cf -> prints pre cap buf ->
  let t := fields_text view (listed view (payload cf)) in
  (length t <= cap)%nat ->
  exists buf', long_bytes cf view (buf, Z.of_nat (length pre)) = Ret (buf', Z.of_nat (length (pre ++ t)))
    /\ prints (pre ++ t) (cap - length t) buf'.
Proof.
  intros Hw Hb. cbv zeta. rewrite <- indexes_fields by done. intros Ht.
  set (txt := fun i => delimiter view (dlc_of cf) i :: byte_field view (data_at cf i)) in *.
  assert (forall i, length (txt i) = Z.to_nat (long_dlen view)) as Hl.
  { intros i. unfold txt. cbn [length]. rewrite length_byte_field. unfold long_dlen. by destruct (has _ _). }
  unfold long_bytes, byte_field, long_dlen in *. destruct (has view CANLIB_VIEW_BINARY).
  - destruct (for_each_appends holds (fun i st => d ← load (fdata cf) i;
        buf ← blit st.1 st.2 (delimiter view (dlc_of cf) i :: bits_text d); Ret (buf, st.2 + 9)) txt
      (indexes view (dlc_of cf)) pre (S cap) buf) as (b1 & -> & Hb1); [| lia | by apply prints_holds |].
    + intros i p c b Hi Hc Hp. rewrite (load_data cf view i), ret_bind by done. cbn [fst snd].
      destruct (holds_blit p c b (txt i) Hp Hc) as (b' & E & Hb'). unfold txt in E at 1. rewrite E, ret_bind.
      exists b'. split; [|done]. do 2 f_equal. rewrite length_app, Hl. lia.
    + rewrite ret_bind. cbn [fst snd]. rewrite Nat.sub_succ_l in Hb1 by done.
      destruct (holds_store _ _ _ 0 Hb1) as (b2 & -> & junk & -> & Hj). rewrite ret_bind.
      eexists. split; [done|]. exists junk. by rewrite <- app_assoc.
  - apply (for_each_appends prints); [| done | done].
    intros i p c b Hi Hc Hp. rewrite (load_data cf view i), ret_bind by done. cbn [fst snd].
    destruct (prints_sprintf p c b (txt i) Hp Hc) as (b' & E & Hb'). unfold txt in E at 1. rewrite E, ret_bind.
    exists b'. split; [|done]. do 2 f_equal. rewrite length_app, Hl. lia.
Qed.

Lemma mjoin_singletons {A B} (f : A -> B) l : mjoin ((fun x => [f x]) <$> l) = f <$> l.
Proof. induction l as [|x l IH]; [done|]. by rewrite !fmap_cons, mjoin_cons, IH. Qed.

Lemma long_ascii_text cf view pre cap buf :
  frame_wf cf -> prints pre cap buf -> has view CANLIB_VIEW_ASCII = true -> has (can_id cf) CAN_ERR_FLAG = false ->
  (length (remark cf view) <= cap)%nat ->
  exists buf', long_ascii cf view (buf, Z.of_nat (length pre)) = Ret buf'
    /\ prints (pre ++ remark cf view) (cap - length (remark cf view)) buf'.
Proof.
  intros Hw Hb Hv He. unfold remark, long_ascii. rewrite He, Hv. cbv zeta. fold (quote_mark view). cbn [fst snd].
  set (j := long_dlen view * (8 - dlc_of cf) + 4). pose proof (dlc_of_range cf Hw).
  assert (length (pad_left (Z.to_nat j) (quote_mark view)) = Z.to_nat j /\ 0 <= j /\ length (quote_mark view) = 1%nat) as (Hp & Hj & Hq).
  { assert (4 <= j) by (unfold j, long_dlen; destruct (has view CANLIB_VIEW_BINARY); lia).
    assert (length (quote_mark view) = 1%nat) as Hq by (unfold quote_mark; by destruct (has view CANLIB_VIEW_SWAP)).
    split_and!; [apply length_pad_left; lia | lia | done]. }
  rewrite !length_app, Hp, Hq, length_fmap. intros Hc.
  destruct (prints_sprintf pre cap buf (pad_left (Z.to_nat j) (quote_mark view)) Hb) as (b1 & -> & Hb1); [lia|].
  rewrite ret_bind, Hp in *. set (pre1 := pre ++ pad_left _ _) in *.
  replace (Z.of_nat (length pre) + j) with (Z.of_nat (length pre1)) by (unfold pre1; rewrite length_app; lia).
  destruct (for_each_appends holds (fun i st => d ← load (fdata cf) i;
        buf ← store st.1 st.2 (ascii_char d); Ret (buf, st.2 + 1)) (fun i => [ascii_char (data_at cf i)])
      (indexes view (dlc_of cf)) pre1 (S (cap - Z.to_nat j)) b1) as (b2 & -> & Hb2).
  - intros i p [|c] b Hi Hl Hp'; [cbn in Hl; lia|]. rewrite (load_data cf view i), ret_bind by done. cbn [fst snd].
    destruct (holds_store p c b (ascii_char (data_at cf i)) Hp') as (b' & -> & Hb'). rewrite ret_bind.
    exists b'. rewrite length_app. cbn [length]. rewrite Nat.sub_succ, Nat.sub_0_r. split; [do 2 f_equal; lia | done].
  - rewrite (indexes_listed view cf (fun d => [ascii_char d])) by done.
    rewrite mjoin_singletons, length_fmap. lia.
  - by apply prints_holds.
  - rewrite ret_bind. cbn [fst snd]. rewrite (indexes_listed view cf (fun d => [ascii_char d])) in * by done.
    rewrite mjoin_singletons, length_fmap in *. destruct Hb2 as ([|x junk] & -> & Hx); [cbn in Hx; lia|].
    rewrite sprintf_at_app by (done || (rewrite Hq; cbn in Hx; lia)). eexists. split; [done|].
    eexists. unfold pre1. rewrite <- !app_assoc. split; [done|]. rewrite length_drop, Hq. cbn in Hx. lia.
Qed.

(** ** The bounds of the long form *)

Lemma length_shown_id cf :
  frame_wf cf ->
  length (shown_id cf) = if has (can_id cf) CAN_ERR_FLAG || has (can_id cf) CAN_EFF_FLAG then 8%nat else 3%nat.
Proof.
  intros [Hid _]. assert (forall v, length (pad_left 8 (show_hex v)) = 8%nat) as H8.
  { intros v. apply length_pad_left. unfold show_hex. rewrite length_strip_zeros, length_hexw. done. }
  unfold shown_id. destruct (has (can_id cf) CAN_ERR_FLAG); [apply H8|].
  destruct (has (can_id cf) CAN_EFF_FLAG); [apply H8|]. cbn [orb].
  apply Nat.eqb_eq.
  refine (all_bits_spec 11 (fun v => (length (pad_left 3 (show_hex v)) =? 3)%nat) 0 _ _ _); [by vm_compute|].
  rewrite Z.land_comm. by apply (land_bound 11).
Qed.

Lemma length_fields_text view l : length (fields_text view l) = (Z.to_nat (long_dlen view) * length l)%nat.
Proof.
  assert (0 < Z.to_nat (long_dlen view) /\ forall d, S (length (byte_field view d)) = Z.to_nat (long_dlen view))%nat as [_ Hf].
  { split; [unfold long_dlen; destruct (has _ _); lia|]. intros d. rewrite length_byte_field.
    unfold long_dlen. by destruct (has _ _). }
  destruct l as [|d l]; [cbn; lia|]. cbn [fields_text length]. rewrite length_app, <- Nat.add_succ_l, Hf.
  rewrite Nat.mul_succ_r, Nat.add_comm. f_equal. clear d.
  induction l as [|d l IH]; [cbn; lia|]. rewrite fmap_cons, mjoin_cons, length_app, IH. cbn [length]. rewrite Hf. lia.
Qed.

Lemma length_remark cf view :
  frame_wf cf -> (length (remark cf view) + Z.to_nat (long_dlen view * dlc_of cf) <= Z.to_nat (long_dlen view * 8) + 13)%nat.
Proof.
  intros Hw. pose proof (dlc_of_range cf Hw). pose proof (length_payload cf Hw) as Hp. unfold remark. cbv zeta.
  assert (0 < long_dlen view) by (unfold long_dlen; by destruct (has _ _)).
  assert (0 <= long_dlen view * (8 - dlc_of cf) /\ 0 <= long_dlen view * dlc_of cf
          /\ long_dlen view * (8 - dlc_of cf) + long_dlen view * dlc_of cf = long_dlen view * 8) by nia.
  destruct (has (can_id cf) CAN_ERR_FLAG); [|destruct (has view CANLIB_VIEW_ASCII)].
  - rewrite length_pad_left; [lia|]. change (length (cstr "ERRORFRAME")) with 10%nat. lia.
  - assert (length (quote_mark view) = 1%nat) as Hq by (unfold quote_mark; by destruct (has _ _)).
    assert (length (listed view (payload cf)) = length (payload cf)) as Hl
      by (unfold listed; destruct (has _ _); [apply length_rev | done]).
    rewrite !length_app, length_pad_left, length_fmap, Hl, Hq, Hp; lia.
  - cbn [length]. lia.
Qed.

Lemma show_dec_digit k : 0 <= k <= 9 -> show_dec k = [48 + k].
Proof.
  intros Hk. unfold show_dec. zdec. cbn [dec_digits]. rewrite Z.div_small, Z.mod_small by lia. done.
Qed.

Lemma length_long_text cf view : frame_wf cf -> (length (long_text cf view) <= 98)%nat.
Proof.
  intros Hw. pose proof (dlc_of_range cf Hw). pose proof (length_remark cf view Hw).
  pose proof (length_payload cf Hw) as Hp.
  assert (length (shown_id cf) <= 8)%nat by (rewrite length_shown_id by done; destruct (_ || _); lia).
  assert (length (listed view (payload cf)) = length (payload cf)) as Hl
    by (unfold listed; destruct (has _ _); [apply length_rev | done]).
  assert ((Z.to_nat (long_dlen view) * length (payload cf))%nat = Z.to_nat (long_dlen view * dlc_of cf)
          /\ (Z.to_nat (long_dlen view) <= 9)%nat) as [Hm H9].
  { unfold long_dlen. destruct (has _ _); lia. }
  unfold long_text. rewrite !length_app, show_dec_digit by lia.
  change (length (cstr "  ")) with 2%nat. change (length (cstr "[")) with 1%nat. change (length (cstr "]")) with 1%nat.
  change (length [48 + dlc_of cf]) with 1%nat.
  destruct (has (can_id cf) CAN_RTR_FLAG); [change (length (cstr " remote request")) with 15%nat; lia|].
  rewrite length_app, length_fields_text, Hl, Hm. lia.
Qed.

(** The head of the line and the rest. *)
Lemma sprint_long_steps buf cf view :
  frame_wf cf ->
  sprint_long_canframe buf cf view
  = (buf ← sprintf_at buf 0 (shown_id cf ++ cstr "  ");
     let n := Z.of_nat (length (shown_id cf ++ cstr "  ")) in
     buf ← sprintf_at buf n (cstr "[" ++ show_dec (dlc_of cf) ++ cstr "]");
     if has (can_id cf) CAN_RTR_FLAG then sprintf_at buf (n + 3) (cstr " remote request") else
     st ← long_bytes cf view (buf, n + 3);
     if has (can_id cf) CAN_ERR_FLAG then
       sprintf_at st.1 st.2 (pad_left (Z.to_nat (long_dlen view * (8 - dlc_of cf) + 13)) (cstr "ERRORFRAME"))
     else if has view CANLIB_VIEW_ASCII then long_ascii cf view st
     else Ret st.1).
Proof.
  intros Hw. rewrite length_app, length_shown_id by done. unfold sprint_long_canframe, shown_id.
  destruct (has (can_id cf) CAN_ERR_FLAG), (has (can_id cf) CAN_EFF_FLAG); done.
Qed.

Lemma long_remark_text cf view pre cap buf :
  frame_wf cf -> prints pre cap buf -> (length (remark cf view) <= cap)%nat ->
  exists buf',
    (if has (can_id cf) CAN_ERR_FLAG then
       sprintf_at buf (Z.of_nat (length pre)) (pad_left (Z.to_nat (long_dlen view * (8 - dlc_of cf) + 13)) (cstr "ERRORFRAME"))
     else if has view CANLIB_VIEW_ASCII then long_ascii cf view (buf, Z.of_nat (length pre))
     else Ret buf) = Ret buf'
    /\ prints (pre ++ remark cf view) (cap - length (remark cf view)) buf'.
Proof.
  intros Hw Hb Hc. destruct (has (can_id cf) CAN_ERR_FLAG) eqn:He; [|destruct (has view CANLIB_VIEW_ASCII) eqn:Hv].
  - assert (remark cf view = pad_left (Z.to_nat (long_dlen view * (8 - dlc_of cf) + 13)) (cstr "ERRORFRAME")) as E
      by (unfold remark; by rewrite He).
    rewrite E in *. by apply prints_sprintf.
  - by apply long_ascii_text.
  - assert (remark cf view = []) as -> by (unfold remark; by rewrite He, Hv).
    exists buf. rewrite app_nil_r, Nat.sub_0_r. done.
Qed.

(** The long form of every frame, in every view, is exactly its description
    and leaves at least 157 bytes of the buffer for the terminator and beyond. *)
Lemma long_canframe_described buf cf view :
  frame_wf cf -> Z.of_nat (length buf) = MAX_LONG_CANFRAME_SIZE ->
  exists junk, sprint_long_canframe buf cf view = Ret (long_text cf view ++ 0 :: junk) /\ (157 <= length junk)%nat.
Proof.
  intros Hw Hb. pose proof (length_long_text cf view Hw) as Hlen. unfold MAX_LONG_CANFRAME_SIZE in Hb.
  assert (exists b cap, sprint_long_canframe buf cf view = Ret b /\ prints (long_text cf view) cap b /\ (157 <= cap)%nat)
    as (b & cap & -> & (junk & -> & <-) & Hj); [|by exists junk].
  assert (exists b, sprintf_at buf 0 (shown_id cf ++ cstr "  ") = Ret b
    /\ prints (shown_id cf ++ cstr "  ") (255 - length (shown_id cf ++ cstr "  ")) b) as (b & Eb & Hpb).
  { unfold long_text in Hlen. rewrite length_app in Hlen. rewrite sprintf_at_0 by lia. eexists. split; [done|].
    eexists. split; [done|]. rewrite length_drop. lia. }
  rewrite (sprint_long_steps buf cf view Hw), Eb, ret_bind. unfold long_text in *.
  set (p0 := shown_id cf ++ cstr "  ") in *. set (p1 := cstr "[" ++ _) in *. rewrite !length_app in Hlen. cbv zeta.
  destruct (prints_sprintf _ _ _ p1 Hpb) as (b1 & -> & Hp1); [lia|]. rewrite ret_bind.
  assert (Z.of_nat (length p0) + 3 = Z.of_nat (length (p0 ++ p1))) as ->.
  { rewrite length_app. unfold p1. rewrite !length_app, show_dec_digit by (pose proof (dlc_of_range cf Hw); lia).
    change (length (cstr "[")) with 1%nat. change (length (cstr "]")) with 1%nat. cbn [length]. lia. }
  rewrite app_assoc. destruct (has (can_id cf) CAN_RTR_FLAG).
  - destruct (prints_sprintf _ _ _ (cstr " remote request") Hp1) as (b2 & -> & Hp2); [lia|].
    eexists _, _. split; [done|]. split; [exact Hp2 | lia].
  - rewrite length_app in Hlen.
    destruct (long_bytes_text cf view _ _ _ Hw Hp1) as (b2 & -> & Hp2); [lia|]. rewrite ret_bind, app_assoc. cbn [fst snd].
    destruct (long_remark_text cf view _ _ _ Hw Hp2) as (b3 & -> & Hp3); [lia|].
    eexists _, _. split; [done|]. split; [exact Hp3 | lia].
Qed.

(** ** The description of an error frame *)

Fixpoint join (sep : bytes) (l : list bytes) : bytes :=
  match l with [] => [] | [s] => s | s :: l => s ++ sep ++ join sep l end.

(** The names whose bits are set, from bit [i] on. *)
Fixpoint selected (w i : Z) (names : list bytes) : list bytes :=
  match names with
  | [] => []
  | s :: names => if has w (Z.shiftl 1 i) then s :: selected w (i + 1) names else selected w (i + 1) names
  end.

Definition ctrl_text (cf : can_frame) : bytes :=
  cstr "{" ++ join (cstr ",") (selected (data_at cf 1) 0 controller_problems) ++ cstr "}".

Definition location_text (cf : can_frame) : bytes :=
  let d := data_at cf 3 in
  if (0 <? d) && (d <? 32) then default [] (protocol_violation_locations !! Z.to_nat d) else [].

Definition prot_text (cf : can_frame) : bytes :=
  cstr "{{" ++ join (cstr ",") (selected (data_at cf 2) 0 protocol_violation_types) ++ cstr "}{"
  ++ location_text cf ++ cstr "}}".

Definition lostarb_text (cf : can_frame) : bytes := cstr "{at bit " ++ show_dec (data_at cf 0) ++ cstr "}".

(** The classes from bit [i] on with their details. *)
Definition class_detail (cf : can_frame) (i : Z) : bytes :=
  if i =? 1 then lostarb_text cf else if i =? 2 then ctrl_text cf else if i =? 3 then prot_text cf else [].

Fixpoint class_texts (cf : can_frame) (i : Z) (names : list bytes) : list bytes :=
  match names with [] => [] | s :: names => (s ++ class_detail cf i) :: class_texts cf (i + 1) names end.

Definition counters_text (cf : can_frame) (sep : bytes) : bytes :=
  let d6 := data_at cf 6 in
  let d7 := data_at cf 7 in
  if negb (d6 =? 0) || negb (d7 =? 0)
  then sep ++ cstr "error-counter-tx-rx{{" ++ show_dec d6 ++ cstr "}{" ++ show_dec d7 ++ cstr "}}" else [].

Definition error_text (cf : can_frame) (sep : bytes) : bytes :=
  join sep (selected (Z.land (can_id cf) CAN_EFF_MASK) 0 (class_texts cf 0 error_classes)) ++ counters_text cf sep.

Section ErrorText.
Context (len : Z) (Hlen : 0 < len < 2 ^ 64).

(** The first [len] bytes of the block hold [pre], which ends in a NUL once
    something has been written. *)
Definition described (pre buf : bytes) : Prop :=
  exists c junk, buf = pre ++ c :: junk /\ (pre = [] \/ c = 0) /\ len <= Z.of_nat (length buf).

Lemma append_at_step base l n pre buf t :
  described pre buf -> base + l = len -> Z.of_nat (length pre) = base + n -> 0 <= n ->
  Z.of_nat (length (pre ++ t)) < len ->
  exists buf', append_at base l t (buf, n) = Ret (buf', n + Z.of_nat (length t)) /\ described (pre ++ t) buf'.
Proof.
  intros (c & junk & -> & _ & Hb) Hl Hn H0 Hfit. rewrite length_app in *. cbn [length] in Hb.
  unfold append_at. cbn [fst snd]. unfold u64. rewrite Z.mod_small, snprintf_at_app, ret_bind by lia.
  eexists. split; [done|]. exists 0, (drop (length t) junk). cbn [fst snd].
  rewrite <- app_assoc. split; [done|]. split; [by right|]. rewrite !length_app. cbn [length]. rewrite length_drop. lia.
Qed.

Lemma append_at_done n pre buf :
  described pre buf -> exists buf', (Ret (buf, n) : out (bytes * Z)) = Ret (buf', n + Z.of_nat (length (@nil Z)))
    /\ described (pre ++ []) buf'.
Proof. intros H. exists buf. rewrite app_nil_r, Z.add_0_r. done. Qed.

Lemma error_names_text base l w i arr count n pre buf :
  described pre buf -> base + l = len -> Z.of_nat (length pre) = base + n -> 0 <= n -> 0 <= count ->
  let t := (if (0 <? count) && negb (bool_decide (selected w i arr = [])) then cstr "," else [])
           ++ join (cstr ",") (selected w i arr) in
  Z.of_nat (length (pre ++ t)) < len ->
  exists buf', error_names base l w i count arr (buf, n) = Ret (buf', n + Z.of_nat (length t)) /\ described (pre ++ t) buf'.
Proof.
  revert i count n pre buf; induction arr as [|s arr IH]; intros i count n pre buf Hb Hl Hn H0 Hc t Hfit.
  - subst t. cbn [selected error_names join] in *. rewrite bool_decide_true, andb_false_r in * by done.
    by apply append_at_done.
  - subst t. cbn [selected error_names] in *. destruct (has w (Z.shiftl 1 i)); [|by apply IH].
    rewrite bool_decide_false, andb_true_r in * by done. set (lead := if 0 <? count then cstr "," else []) in *.
    set (more := if negb (bool_decide (selected w (i + 1) arr = [])) then cstr "," else []).
    assert (join (cstr ",") (s :: selected w (i + 1) arr) = s ++ more ++ join (cstr ",") (selected w (i + 1) arr)) as Ej.
    { unfold more. destruct (selected w (i + 1) arr); [cbn; by rewrite app_nil_r | done]. }
    rewrite Ej in *. rewrite !app_assoc, <- !(app_assoc _ more) in *. rewrite !length_app in Hfit.
    assert (exists b, (if 0 <? count then append_at base l (cstr ",") (buf, n) else Ret (buf, n))
      = Ret (b, n + Z.of_nat (length lead)) /\ described (pre ++ lead) b) as (b1 & -> & H1).
    { unfold lead in *. destruct (0 <? count); [apply append_at_step; try done; rewrite length_app; lia|].
      by apply append_at_done. }
    rewrite ret_bind. edestruct (append_at_step base l (n + Z.of_nat (length lead)) _ _ s H1 Hl) as (b2 & -> & H2);
      [rewrite length_app; lia | lia | rewrite !length_app; lia |].
    rewrite ret_bind. edestruct (IH (i + 1) (count + 1) (n + Z.of_nat (length lead) + Z.of_nat (length s)) _ _ H2 Hl) as (b3 & -> & H3).
    + rewrite !length_app. lia.
    + lia.
    + lia.
    + zdec. fold more. rewrite !length_app. lia.
    + revert H3. zdec. fold more. intros H3. exists b3. rewrite <- !app_assoc in *. split; [|done].
      do 2 f_equal. rewrite !length_app. lia.
Qed.

(** [F] writes [t] at the place it is called for. *)
Definition calls (F : bytes -> Z -> Z -> out (bytes * Z)) (t : bytes) : Prop :=
  forall pre buf base l, described pre buf -> base + l = len -> Z.of_nat (length pre) = base ->
    Z.of_nat (length (pre ++ t)) < len ->
    exists buf', F buf base l = Ret (buf', Z.of_nat (length t)) /\ described (pre ++ t) buf'.

Lemma nested_step F base l n pre buf t :
  calls F t -> described pre buf -> base + l = len -> Z.of_nat (length pre) = base + n -> 0 <= n ->
  Z.of_nat (length (pre ++ t)) < len ->
  exists buf', nested F base l (buf, n) = Ret (buf', n + Z.of_nat (length t)) /\ described (pre ++ t) buf'.
Proof.
  intros HF Hb Hl Hn H0 Hfit. pose proof Hfit as Hfit'. rewrite length_app in Hfit'.
  unfold nested. cbn [fst snd]. unfold u64. rewrite Z.mod_small by lia.
  destruct (HF pre buf (base + n) (l - n)) as (b & -> & Hd); [done | lia | done | done |]. by exists b.
Qed.

Lemma selected_0 i names : selected 0 i names = [].
Proof. revert i; induction names as [|s names IH]; intros i; [done|]. cbn [selected]. unfold has. rewrite Z.land_0_l. apply IH. Qed.

Lemma error_data_calls err arr :
  calls (fun b o l => snprintf_error_data b o l err arr) (join (cstr ",") (selected err 0 arr)).
Proof.
  intros pre buf base l Hb Hl Hn Hfit. pose proof Hfit as Hfit'. rewrite length_app in Hfit'.
  unfold snprintf_error_data. destruct (Z.eqb_spec err 0) as [->|He]; cbn [orb].
  - rewrite selected_0. by apply append_at_done.
  - zdec. apply (error_names_text base l err 0 arr 0 0 pre buf); (done || lia).
Qed.

Lemma lostarb_calls cf :
  frame_wf cf -> calls (fun b o l => snprintf_error_lostarb b o l cf) (lostarb_text cf).
Proof.
  intros Hw pre buf base l Hb Hl Hn Hfit. pose proof Hfit as Hfit'. rewrite length_app in Hfit'.
  unfold snprintf_error_lostarb. zdec. rewrite (load_at_8 cf 0), ret_bind by done || lia. fold (lostarb_text cf).
  destruct (append_at_step base l 0 pre buf (lostarb_text cf) Hb Hl) as (b & E & Hd); [lia | lia | done |].
  unfold append_at in E. cbn [fst snd] in E. unfold u64 in E. rewrite Z.sub_0_r, Z.add_0_r, Z.mod_small in E by lia.
  destruct (snprintf_at buf base l (lostarb_text cf)) as [[b' m]|]; [|done]. injection E as -> Hm. exists b.
  split; [|done]. do 2 f_equal. exact Hm.
Qed.

(** [f] appends [t] to the text of a buffer [base] bytes into the block. *)
Definition adds (base l : Z) (f : bytes * Z -> out (bytes * Z)) (t : bytes) : Prop :=
  forall n pre buf, described pre buf -> Z.of_nat (length pre) = base + n -> 0 <= n ->
    Z.of_nat (length (pre ++ t)) < len ->
    exists buf', f (buf, n) = Ret (buf', n + Z.of_nat (length t)) /\ described (pre ++ t) buf'.

Lemma adds_append base l t : base + l = len -> adds base l (append_at base l t) t.
Proof. intros Hl n pre buf Hb Hn H0 Hfit. by apply append_at_step. Qed.

Lemma adds_nested base l F t : base + l = len -> calls F t -> adds base l (nested F base l) t.
Proof. intros Hl HF n pre buf Hb Hn H0 Hfit. by apply nested_step. Qed.

Lemma adds_ret base l : adds base l Ret [].
Proof. intros n pre buf Hb _ _ _. by apply append_at_done. Qed.

Lemma adds_if base l (c : bool) f t : adds base l f t -> adds base l (fun st => if c then f st else Ret st) (if c then t else []).
Proof. intros Hf. destruct c; [exact Hf | apply adds_ret]. Qed.

Lemma adds_bind base l f g t t' :
  adds base l f t -> adds base l g t' -> adds base l (fun st => st ← f st; g st) (t ++ t').
Proof.
  intros Hf Hg n pre buf Hb Hn H0 Hfit. rewrite app_assoc in Hfit. pose proof Hfit as Hfit'. rewrite length_app in Hfit'.
  destruct (Hf n pre buf Hb Hn H0) as (b1 & -> & H1); [lia|]. rewrite ret_bind.
  destruct (Hg (n + Z.of_nat (length t)) _ _ H1) as (b2 & -> & H2); [rewrite length_app; lia | lia | done |].
  exists b2. rewrite (length_app t), app_assoc. split; [|done]. do 2 f_equal. lia.
Qed.

Lemma adds_load base l data i d f t :
  load data i = Ret d -> adds base l (f d) t -> adds base l (fun st => d ← load data i; f d st) t.
Proof. intros -> Hf. exact Hf. Qed.

(** A function that writes nothing into no room and starts with nothing. *)
Lemma calls_adds F f t :
  (forall buf base l, 0 < l -> F buf base l = f base l (buf, 0)) ->
  (forall base l, base + l = len -> adds base l (f base l) t) -> calls F t.
Proof.
  intros HF Hf pre buf base l Hb Hl Hn Hfit. pose proof Hfit as Hfit'. rewrite length_app in Hfit'.
  rewrite HF by lia. by apply (Hf base l Hl 0); [ | lia | lia |].
Qed.

Lemma ctrl_calls cf : frame_wf cf -> calls (fun b o l => snprintf_error_ctrl b o l cf) (ctrl_text cf).
Proof.
  intros Hw. eapply calls_adds.
  - intros buf base l Hl. unfold snprintf_error_ctrl. zdec.
    refine (_ : _ = (fun base l st => st ← append_at base l (cstr "{") st; d ← load (fdata cf) 1;
      st ← nested (fun b o l => snprintf_error_data b o l d controller_problems) base l st;
      append_at base l (cstr "}") st) base l (buf, 0)). done.
  - intros base l Hl. cbv beta. apply adds_bind; [by apply adds_append|].
    apply adds_load with (d := data_at cf 1); [by apply load_at_8|].
    apply adds_bind; [apply adds_nested; [done | apply error_data_calls] | by apply adds_append].
Qed.

Lemma prot_calls cf : frame_wf cf -> calls (fun b o l => snprintf_error_prot b o l cf) (prot_text cf).
Proof.
  intros Hw. eapply calls_adds.
  - intros buf base l Hl. unfold snprintf_error_prot. zdec.
    refine (_ : _ = (fun base l st => st ← append_at base l (cstr "{{") st; d ← load (fdata cf) 2;
      st ← nested (fun b o l => snprintf_error_data b o l d protocol_violation_types) base l st;
      st ← append_at base l (cstr "}{") st; d ← load (fdata cf) 3;
      st ← (if (0 <? d) && (d <? Z.of_nat (length protocol_violation_locations))
            then append_at base l (default [] (protocol_violation_locations !! Z.to_nat d)) st else Ret st);
      append_at base l (cstr "}}") st) base l (buf, 0)). done.
  - intros base l Hl. cbv beta. apply adds_bind; [by apply adds_append|].
    apply adds_load with (d := data_at cf 2); [by apply load_at_8|].
    apply adds_bind; [apply adds_nested; [done | apply error_data_calls]|].
    apply adds_bind; [by apply adds_append|]. apply adds_load with (d := data_at cf 3); [by apply load_at_8|].
    apply adds_bind; [by apply adds_if, adds_append | by apply adds_append].
Qed.

Lemma bit_eqb i k : 0 <= i -> 0 <= k -> (Z.shiftl 1 i =? 2 ^ k) = (i =? k).
Proof.
  intros Hi Hk. rewrite Z.shiftl_1_l. destruct (Z.eqb_spec i k) as [->|Hne]; [apply Z.eqb_refl|].
  apply Z.eqb_neq. intros H%Z.pow_inj_r; lia.
Qed.

(** One class: its name and what the three tests add. *)
Lemma class_adds cf i :
  frame_wf cf -> 0 <= i ->
  adds 0 len (fun st =>
    st ← (if Z.shiftl 1 i =? CAN_ERR_LOSTARB then nested (fun b o l => snprintf_error_lostarb b o l cf) 0 len st else Ret st);
    st ← (if Z.shiftl 1 i =? CAN_ERR_CRTL then nested (fun b o l => snprintf_error_ctrl b o l cf) 0 len st else Ret st);
    (if Z.shiftl 1 i =? CAN_ERR_PROT then nested (fun b o l => snprintf_error_prot b o l cf) 0 len st else Ret st))
    (class_detail cf i).
Proof.
  intros Hw Hi. change CAN_ERR_LOSTARB with (2 ^ 1). change CAN_ERR_CRTL with (2 ^ 2). change CAN_ERR_PROT with (2 ^ 3).
  rewrite !bit_eqb by lia.
  assert (class_detail cf i = (if i =? 1 then lostarb_text cf else []) ++ (if i =? 2 then ctrl_text cf else [])
    ++ (if i =? 3 then prot_text cf else [])) as ->.
  { unfold class_detail. destruct (Z.eqb_spec i 1); [subst; zdec; by rewrite app_nil_r|].
    destruct (Z.eqb_spec i 2); [subst; zdec; by rewrite app_nil_r | done]. }
  apply adds_bind; [apply adds_if, adds_nested; [lia | by apply lostarb_calls]|].
  apply adds_bind; [apply adds_if, adds_nested; [lia | by apply ctrl_calls]|].
  apply adds_if, adds_nested; [lia | by apply prot_calls].
Qed.

Lemma bind_assoc {A B C} (m : out A) (f : A -> out B) (g : B -> out C) :
  (y ← (x ← m; f x); g y) = (x ← m; y ← f x; g y).
Proof. by destruct m. Qed.

Lemma print_classes_adds cf class sep i classes names :
  frame_wf cf -> 0 <= i -> 0 <= classes ->
  let texts := selected class i (class_texts cf i names) in
  adds 0 len (print_classes len class i classes names cf sep)
    ((if (0 <? classes) && negb (bool_decide (texts = [])) then sep else []) ++ join sep texts).
Proof.
  intros Hw. revert i classes; induction names as [|s names IH]; intros i classes Hi Hc texts; subst texts.
  - cbn [class_texts selected join print_classes]. rewrite bool_decide_true, andb_false_r by done. apply adds_ret.
  - cbn [class_texts selected print_classes]. destruct (has class (Z.shiftl 1 i)); [|apply IH; lia].
    rewrite bool_decide_false, andb_true_r by done.
    set (rest := selected class (i + 1) (class_texts cf (i + 1) names)).
    assert (join sep ((s ++ class_detail cf i) :: rest)
            = s ++ class_detail cf i ++ (if (0 <? classes + 1) && negb (bool_decide (rest = [])) then sep else []) ++ join sep rest) as ->.
    { zdec. destruct rest; [cbn; by rewrite !app_nil_r | cbn [join bool_decide decide]; by rewrite <- app_assoc]. }
    apply adds_bind; [by apply adds_if, adds_append|]. apply adds_bind; [by apply adds_append|].
    intros n pre buf Hb Hn H0 Hfit.
    destruct (adds_bind 0 len _ _ _ _ (class_adds cf i Hw Hi) (IH (i + 1) (classes + 1) ltac:(lia) ltac:(lia)) n pre buf Hb Hn H0 Hfit)
      as (b & E & Hd). exists b. split; [|exact Hd]. etransitivity; [|exact E]. rewrite !bind_assoc.
    destruct (if Z.shiftl 1 i =? CAN_ERR_LOSTARB then _ else _); [|done]. rewrite !ret_bind.
    by destruct (if Z.shiftl 1 i =? CAN_ERR_CRTL then _ else _).
Qed.

(** The whole description. *)
Lemma error_frame_text buf cf sep :
  frame_wf cf -> has (can_id cf) CAN_ERR_FLAG = true -> Z.land (can_id cf) CAN_EFF_MASK <= 512 ->
  len <= Z.of_nat (length buf) -> Z.of_nat (length (error_text cf (default (cstr ",") sep))) < len ->
  exists buf', snprintf_can_error_frame buf len cf sep = Ret buf' /\ described (error_text cf (default (cstr ",") sep)) buf'.
Proof.
  intros Hw He Hclass Hb Hfit. unfold snprintf_can_error_frame. rewrite He. cbn [negb].
  change (Z.shiftl 1 (Z.of_nat (length error_classes))) with 512. cbv zeta. zdec.
  set (sp := default (cstr ",") sep) in *. unfold error_text in *. rewrite length_app in Hfit.
  assert (described [] buf) as H0.
  { destruct buf as [|c junk]; [cbn in Hb; lia|]. exists c, junk. split; [done|]. split; [by left | done]. }
  pose proof (print_classes_adds cf (Z.land (can_id cf) CAN_EFF_MASK) sp 0 0 error_classes Hw ltac:(lia) ltac:(lia)) as Hpc.
  cbv zeta in Hpc. change (0 <? 0) with false in Hpc. cbn [andb app] in Hpc.
  destruct (Hpc 0 [] buf H0) as (b1 & -> & H1); [done | lia | cbn [app]; lia |].
  rewrite ret_bind, (load_at_8 cf 6), ret_bind, (load_at_8 cf 7), ret_bind by (done || lia). cbn [app] in *.
  set (classes := join sp _) in *. unfold counters_text in *. cbv zeta in *. destruct (_ || _).
  - set (counters := cstr "error-counter-tx-rx{{" ++ _) in *.
    destruct (adds_bind 0 len _ _ _ _ (adds_append 0 len sp ltac:(lia)) (adds_append 0 len counters ltac:(lia))
                (0 + Z.of_nat (length classes)) classes b1 H1) as (b2 & E & H2); [lia | lia | rewrite length_app; exact Hfit |].
    exists b2. split; [|exact H2]. rewrite <- bind_assoc, E. done.
  - exists b1. rewrite app_nil_r. done.
Qed.
End ErrorText.

(** The description of an error frame of a valid class that is shorter
    than the given size is written whole and ends in a NUL: the classes in the
    order of their bits, each with its details, and the error counters. *)
Lemma error_frame_described buf len cf sep :
  frame_wf cf -> has (can_id cf) CAN_ERR_FLAG = true -> Z.land (can_id cf) CAN_EFF_MASK <= 512 ->
  len <= Z.of_nat (length buf) -> len < 2 ^ 64 ->
  let text := error_text cf (default (cstr ",") sep) in
  text <> [] -> Z.of_nat (length text) < len ->
  exists junk, snprintf_can_error_frame buf len cf sep = Ret (text ++ 0 :: junk).
Proof.
  intros Hw He Hc Hb H64 text Hne Hfit.
  destruct (error_frame_text len ltac:(lia) buf cf sep Hw He Hc Hb Hfit) as (b & -> & c & junk & -> & [H | ->] & _);
    [done | by exists junk].
Qed.

(** ** Which strings the parser can read *)

Lemma asc2nibble_0 : asc2nibble 0 = 16.
Proof. done. Qed.

Lemma hex_byte_defined s junk j i cf :
  0 <= j < Z.of_nat (length s) -> 0 <= i < Z.of_nat (length (fdata cf)) ->
  exists r cf', hex_byte (s ++ 0 :: junk) j i cf = Ret (r, cf') /\ length (fdata cf') = length (fdata cf)
    /\ (r = 0 \/ r = 1) /\ (r = 0 -> no_nul s -> j + 1 < Z.of_nat (length s)).
Proof.
  intros Hj Hi. unfold hex_byte, set_data.
  destruct (load_defined (s ++ 0 :: junk) j) as [c ->]; [rewrite length_app; lia|]. rewrite ret_bind. cbv zeta.
  destruct (15 <? asc2nibble c); [exists 1, cf; split_and!; [done | done | by right | done]|].
  destruct (store_defined (fdata cf) i (u8 (Z.shiftl (asc2nibble c) 4))) as (d1 & -> & Hd1); [lia|]. run.
  destruct (load_defined (s ++ 0 :: junk) (j + 1)) as [c2 Hc2]; [rewrite length_app; cbn [length]; lia|].
  rewrite Hc2, ret_bind. cbn [fdata can_id can_dlc].
  destruct (15 <? asc2nibble c2) eqn:E; [eexists 1, _; split_and!; [done | done | by right | done]|].
  destruct (load_defined d1 i) as [old ->]; [lia|]. rewrite ret_bind.
  destruct (store_defined d1 i (Z.lor old (asc2nibble c2))) as (d2 & -> & Hd2); [lia|]. run.
  eexists 0, _. split_and!; [done | cbn [fdata]; lia | by left |]. intros _ Hn.
  destruct (Z.eq_dec (j + 1) (Z.of_nat (length s))) as [Hend|]; [|lia].
  rewrite load_app in Hc2 by done. by injection Hc2 as <-.
Qed.

Lemma parse_data_defined s junk n i idx cf :
  no_nul s -> 0 <= idx <= Z.of_nat (length s) -> 0 <= i -> i + Z.of_nat n <= Z.of_nat (length (fdata cf)) ->
  defined (parse_data n i idx (Z.of_nat (length s)) (s ++ 0 :: junk) cf).
Proof.
  intros Hs. revert i idx cf; induction n as [|n IH]; intros i idx cf Hidx Hi Hn; cbn [parse_data]; [by eexists|].
  destruct (load_defined (s ++ 0 :: junk) idx) as [c Hc]; [rewrite length_app; cbn [length]; lia|].
  rewrite Hc, ret_bind. cbv zeta.
  set (idx' := if c =? DATA_SEPERATOR then idx + 1 else idx).
  assert (0 <= idx') by (unfold idx'; destruct (c =? DATA_SEPERATOR); lia).
  destruct (Z.leb_spec (Z.of_nat (length s)) idx'); [by eexists|].
  destruct (hex_byte_defined s junk idx' i cf) as (r & cf' & -> & Hl & Hr & H1); [lia | lia |].
  rewrite ret_bind. cbn [fst snd]. destruct (Z.eqb_spec r 0) as [->|]; [|by eexists].
  specialize (H1 eq_refl Hs). apply IH; lia.
Qed.

Lemma parse_rest_defined s junk idx cf :
  no_nul s -> 0 <= idx <= Z.of_nat (length s) -> length (fdata cf) = 8%nat ->
  defined (parse_rest (s ++ 0 :: junk) (Z.of_nat (length s)) idx cf).
Proof.
  intros Hs Hi Hl. unfold parse_rest.
  destruct (load_defined (s ++ 0 :: junk) idx) as [c ->]; [rewrite length_app; cbn [length]; lia|].
  rewrite ret_bind. destruct (_ || _); [by eexists|]. apply parse_data_defined; (done || lia).
Qed.

(** The digits that were read are not the terminator. *)
Lemma parse_id_defined mem n i cf :
  0 <= i -> i + Z.of_nat n <= Z.of_nat (length mem) ->
  exists r cf', parse_id n i mem cf = Ret (r, cf') /\ fdata cf' = fdata cf /\ (r = 0 \/ r = 1)
    /\ (r = 0 -> forall j, i <= j < i + Z.of_nat n -> load mem j <> Ret 0).
Proof.
  revert i cf; induction n as [|n IH]; intros i cf Hi Hn; cbn [parse_id].
  - exists 0, cf. split_and!; [done | done | by left | lia].
  - destruct (load_defined mem i) as [c Hc]; [lia|]. rewrite Hc, ret_bind. cbv zeta.
    destruct (15 <? asc2nibble c) eqn:E; [exists 1, cf; split_and!; [done | done | by right | done]|].
    destruct (IH (i + 1) (or_id cf (u32 (Z.shiftl (asc2nibble c) (Z.of_nat n * 4))))) as (r & cf' & -> & Hd & Hr & Hz); [lia | lia |].
    exists r, cf'. split_and!; [done | done | done |]. intros H0 j Hj.
    destruct (Z.eq_dec j i) as [->|]; [|apply Hz; [done | lia]].
    rewrite Hc. intros [= ->]. by rewrite asc2nibble_0 in E.
Qed.

(** C32: The parser stays inside the block that holds the text, except for the
    look at the ninth byte of a text of four to seven characters whose fourth
    is no separator: that byte must belong to the block. *)
Theorem parse_canframe_safe s junk :
  no_nul s ->
  defined (parse_canframe (s ++ 0 :: junk)) <->
  (length s < 4)%nat \/ s !! 3%nat = Some CANID_DELIM \/ (8 < length (s ++ 0%Z :: junk))%nat.
Proof.
  intros Hs. unfold parse_canframe. rewrite c_str_app, ret_bind by done. cbv zeta.
  destruct (Z.ltb_spec (Z.of_nat (length s)) 4) as [H4|H4]; [split; [left; lia | by eexists]|].
  destruct (lookup_lt_is_Some_2 s 3) as [c3 Hc3]; [lia|].
  rewrite (load_lookup (s ++ 0 :: junk) 3 c3), ret_bind by (done || by rewrite lookup_app_l by lia).
  rewrite Hc3. destruct (Z.eqb_spec c3 CANID_DELIM) as [->|Hne].
  - split; [auto | intros _].
    destruct (parse_id_defined (s ++ 0 :: junk) 3 0 (Frame 0 0 (repeat 0 8))) as (r & cf' & -> & Hd & _); [done | rewrite length_app; lia |].
    rewrite ret_bind. cbn [fst snd]. destruct (r =? 0); [|by eexists]. apply parse_rest_defined; [done | lia | by rewrite Hd].
  - split.
    + intros [x Hx]. right. right. destruct (le_lt_dec (length (s ++ 0%Z :: junk)) 8); [|done].
      by rewrite load_oob in Hx by lia.
    + intros [Hl | [[= Hl] | Hl]]; [lia | done |].
      destruct (load_defined (s ++ 0 :: junk) 8) as [c8 Hc8]; [lia|]. rewrite Hc8, ret_bind.
      destruct (Z.eqb_spec c8 CANID_DELIM) as [->|]; [|by eexists].
      destruct (parse_id_defined (s ++ 0 :: junk) 8 0 (Frame 0 0 (repeat 0 8))) as (r & cf' & -> & Hd & _ & Hz); [done | lia |].
      rewrite ret_bind. cbn [fst snd]. destruct (Z.eqb_spec r 0) as [->|]; [|by eexists]. specialize (Hz eq_refl).
      assert (9 <= length s)%nat.
      { destruct (le_lt_dec 9 (length s)) as [|Hlt]; [done|]. exfalso.
        destruct (Nat.eq_dec (length s) 8%nat) as [H8|].
        - rewrite load_app in Hc8 by lia. done.
        - apply (Hz (Z.of_nat (length s))); [lia|]. by apply load_app. }
      destruct (has (can_id cf') CAN_ERR_FLAG); (apply parse_rest_defined; [done | lia |]); cbn [or_id fdata]; by rewrite Hd.
Qed.

(** ** Instances and corner cases *)

Module CanTextWitness.
Definition old (n : nat) : bytes := repeat 170 n.
Definition ext_frame : can_frame := Frame 0x92345678 11 [0x11; 0x22; 0x33; 0xAB; 0; 0xFF; 0x7E; 0x20].
Definition err_frame : can_frame := Frame 0x20000006 8 [5; 9; 0; 0; 0; 0; 1; 2].

(** Every error at once. *)
Definition worst_frame : can_frame := Frame 0x200001FF 8 [198; 0x3F; 0xFF; 0x13; 0; 0; 252; 100].

Lemma ext_frame_wf : frame_wf ext_frame.
Proof.
  split_and!; try done. unfold ext_frame. cbn [fdata]. repeat apply Forall_cons_2; try done; apply Forall_nil_2.
Defined.

Lemma err_frame_wf : frame_wf err_frame.
Proof.
  split_and!; try done. unfold err_frame. cbn [fdata]. repeat apply Forall_cons_2; try done; apply Forall_nil_2.
Defined.

Lemma canframe_text_roundtrip_witness :
  exists buf', sprint_canframe (old 34) ext_frame 1 = Ret buf'
    /\ c_str buf' = Ret (cstr "12345678#11.22.33.AB.00.FF.7E.20")
    /\ parse_canframe buf' = Ret (0, Frame 0x92345678 8 (fdata ext_frame)).
Proof.
  destruct (canframe_text_roundtrip (old 34) ext_frame 1 ext_frame_wf) as (b & H1 & H2 & H3);
    [unfold old; rewrite repeat_length; lia|].
  exists b. split; [exact H1|]. split; [exact H2 | exact H3].
Defined.

Lemma long_canframe_described_witness :
  exists junk, sprint_long_canframe (old 256) ext_frame 5
    = Ret (cstr "12345678  [8] 20`7E`FF`00`AB`33`22`11   ` ~...3" ++ 34 :: cstr ".`" ++ 0 :: junk) /\ (157 <= length junk)%nat.
Proof. exact (long_canframe_described (old 256) ext_frame 5 ext_frame_wf eq_refl). Defined.

Lemma error_frame_described_witness :
  exists junk, snprintf_can_error_frame (old 256) 256 err_frame None
    = Ret (cstr "lost-arbitration{at bit 5},controller-problem{rx-overflow,tx-error-warning},error-counter-tx-rx{{1}{2}}"
           ++ 0 :: junk).
Proof.
  exact (error_frame_described (old 256) 256 err_frame None err_frame_wf eq_refl
    ltac:(apply Z.leb_le; reflexivity) ltac:(apply Z.leb_le; reflexivity) eq_refl ltac:(discriminate) eq_refl).
Defined.

Lemma parse_canframe_safe_witness :
  defined (parse_canframe (cstr "1234" ++ 0 :: [0; 0; 0; 0])) <->
  (4 < 4)%nat \/ Some 52 = Some CANID_DELIM \/ (8 < 9)%nat.
Proof. refine (parse_canframe_safe (cstr "1234") [0; 0; 0; 0] _). by apply (bool_decide_unpack _). Defined.

(** A string literal of four characters is read past its end. *)
Lemma short_text_read_past_end : parse_canframe (cstr "1234" ++ [0]) = Undef OobRead.
Proof. by vm_compute. Qed.

(** With every error at once the description has 470 characters: [len - n] wraps
    round and the buffer of 256 bytes is overrun. *)
Lemma long_description_overruns :
  length (error_text worst_frame [10; 9]) = 470%nat
  /\ fprint_long_canframe (old 256) [] worst_frame None CANLIB_VIEW_ERROR = Undef OobWrite.
Proof. split; by vm_compute. Qed.

(** An invalid class leaves the buffer alone, and the line is printed twice. *)
Lemma invalid_class_repeats_line :
  fprint_long_canframe (old 256) [] (Frame 0x20001111 1 [0xC6; 0; 0; 0; 0; 0; 0; 0]) None CANLIB_VIEW_ERROR
  = Ret (cstr "20001111  [1] C6                        ERRORFRAME" ++ [10; 9]
         ++ cstr "20001111  [1] C6                        ERRORFRAME").
Proof. by vm_compute. Qed.

(** The examples of the header. *)
Lemma header_examples :
  parse_canframe (cstr "123#11.2233.44556677.88" ++ [0]) = Ret (0, Frame 0x123 8 [0x11; 0x22; 0x33; 0x44; 0x55; 0x66; 0x77; 0x88])
  /\ parse_canframe (cstr "7A1#r" ++ [0]) = Ret (0, Frame 0x400007A1 0 (repeat 0 8))
  /\ parse_canframe (cstr "32345678#112233" ++ [0]) = Ret (0, Frame 0x32345678 3 [0x11; 0x22; 0x33; 0; 0; 0; 0; 0])
  /\ hexstring2candata (cstr "11aaFF" ++ [0]) (Frame 0 0 (repeat 9 8)) = Ret (0, Frame 0 0 [0x11; 0xAA; 0xFF; 9; 9; 9; 9; 9])
  /\ fprint_canframe (old 34) [] (Frame 0x7A1 8 (repeat 1 8)) (Some [10]) 0 = Ret (cstr "7A1#0101010101010101" ++ [10]).
Proof. by vm_compute. Qed.
End CanTextWitness.
