(* ===== verification/CanReceiver.v ===== *)
(** * The CAN receiver (src/plugins/pip/can/pip_plugin_can.c)

    Two reader threads call back with the frames of the body and of the
    chassis bus; the callbacks publish the wanted signals in JSON objects.
    Both hold the lock of the data dumper while they do, so their effects are
    a sequence of frames.  A pointer to a signal's object is null or the
    object, whose value may be missing; the flags are the bytes of the dataset
    of Dataset.v.  Doubles are the exact decimal numbers the code names. *)

From S2P Require Import Prelude CStd CanMsgs CanText Dataset.

Inductive can_signal : Set :=
| AmbTIndcd | FuLvlIndcdVal | LockgCenStsForUsrFb | TrSts | DoorDrvrSts | DoorDrvrReSts
| DoorPassSts | DoorPassReSts | DrvrBrkTqAtWhlsReqd | DrvrPrpsnTqReq | CluPedlRat | BrkPedlPsd.

#[export] Instance can_signal_eq_dec : EqDecision can_signal.
Proof. solve_decision. Defined.

(** The signals in the order of [can_json_filler], the field of the structure
    that is their flag, and their JSON name. *)
Definition can_signals : list (can_signal * string * string) :=
  [ (AmbTIndcd, "AmbTIndcd", "ambient_air_temperature");
    (FuLvlIndcdVal, "FuLvlIndcdVal", "fuel_tank_level");
    (LockgCenStsForUsrFb, "LockgCenStsForUsrFb", "central_locking_status_for_user_feedback");
    (TrSts, "TrSts", "trunk_status");
    (DoorDrvrSts, "DoorDrvrSts", "driver_door_status");
    (DoorDrvrReSts, "DoorDrvrReSts", "driver_door_rear_status");
    (DoorPassSts, "DoorPassSts", "passenger_door_status");
    (DoorPassReSts, "DoorPassReSts", "passenger_door_rear_status");
    (DrvrBrkTqAtWhlsReqd, "DrvrBrkTqAtWhlsReqd", "requested_brake_torque_at_wheels");
    (DrvrPrpsnTqReq, "DrvrPrpsnTqReq", "requested_propulsion_torque");
    (CluPedlRat, "CluPedlRat", "clutch_pedal_position");
    (BrkPedlPsd, "BrkPedlPsd", "brake_pedal_pressed") ]%string.

Definition all_signals : list can_signal := (fun e => e.1.1) <$> can_signals.

Lemma elem_of_all_signals s : s ∈ all_signals.
Proof. destruct s; apply (bool_decide_unpack _); vm_compute; exact I. Qed.

#[export] Program Instance can_signal_countable : Countable can_signal := {
  encode := fun s => match list_find (s =.) all_signals with
                     | Some (i, _) => Pos.of_succ_nat i | None => 1%positive end;
  decode := fun p => all_signals !! Nat.pred (Pos.to_nat p)
}.
Next Obligation. by intros []. Qed.

Definition flag_name (s : can_signal) : bytes :=
  match list_find (fun e => e.1.1 = s) can_signals with
  | Some (_, e) => cstr e.1.2 | None => [] end.

Definition wanted (d : bytes) (s : can_signal) : Z :=
  field_byte can01_vehicle_dataset_t d (flag_name s).

(** ** JSON values *)

Inductive jvalue : Type :=
| JInt (z : Z)
| JString (s : bytes)
| JReal (num den : Z)
| JObject (members : list (bytes * jvalue)).

Abbreviation can_objs := (gmap can_signal (option jvalue)).

(** The array's names and the objects. *)
Definition can_json_filler (d : bytes) : list bytes * can_objs :=
  fill (wanted d) ((fun e => (e.1.1, cstr e.2)) <$> can_signals) ([], ∅).

(** ** Interpreted values *)

Definition text (t : bytes) : jvalue := JObject [(cstr "value", JString t)].

Definition gen_interpreted_door_status (status : Z) : jvalue :=
  text (if status =? 0 then cstr "Unknown" else if status =? 1 then cstr "Opened"
        else if status =? 2 then cstr "Closed" else cstr "ERROR").

Definition gen_interpreted_lock_status (status : Z) : jvalue :=
  text (if status =? 0 then cstr "Undefined" else if status =? 1 then cstr "Opened"
        else if status =? 2 then cstr "Closed" else if status =? 3 then cstr "Locked"
        else if status =? 4 then cstr "Safe" else cstr "ERROR").

Definition gen_interpreted_temperature_unit (status : Z) : jvalue :=
  text (if status =? 0 then cstr "C" else if status =? 1 then cstr "F"
        else if status =? 2 then cstr "Unknown unit" else cstr "ERROR").

(** The objects built in the callbacks. *)
Definition lock_value (v : Z) : jvalue := JObject [(cstr "value", gen_interpreted_lock_status v)].
Definition fuel_value (v : Z) : jvalue :=
  JObject [(cstr "value", JReal (v * 2) 10); (cstr "unit", JString (cstr "l"))].
Definition temperature_value (v unit : Z) : jvalue :=
  JObject [(cstr "value", JReal (v - 1000) 10); (cstr "unit", gen_interpreted_temperature_unit unit)].
Definition clutch_value (v : Z) : jvalue := JReal (v * 392156862745) (10 ^ 12).

(** ** The callbacks *)

Definition DATA_SIZE : Z := 8.
Definition CAN_ID_MASK : Z := 0x7ff.
Definition CAN_STR_LEN : nat := 1024.

Fixpoint be2le_loop (n : nat) (i : Z) (inp data : bytes) : out bytes :=
  match n with
  | O => Ret data
  | S n => x ← load inp (DATA_SIZE - 1 - i); data ← store data i x; be2le_loop n (i + 1) inp data
  end.

(** The second loop copies the local array to [out], which may be [in]. *)
Definition be2le (inp outp : bytes) : out bytes :=
  data ← be2le_loop 8 0 inp (repeat 0 8); blit outp 0 data.

(** One guarded update: the update bit, the flag, the null check. *)
Definition update (ub : Z) (is_wanted : bool) (s : can_signal) (v : jvalue) (o : can_objs) : can_objs :=
  if (ub =? 1) && is_wanted && bool_decide (is_Some (o !! s)) then <[s := Some v]> o else o.

Section Callbacks.
Context (d : bytes).

Abbreviation want s := (wanted d s =? 1).
(** Two of the conditions only ask for a flag that is not zero. *)
Abbreviation want_any s := (negb (wanted d s =? 0)).

Definition body_0x40 (v : Z) (o : can_objs) : can_objs :=
  let f n := get_field CEMBodyFr02 n v in
  let o := update (f "DoorDrvrReSts_UB"%string) (want DoorDrvrReSts) DoorDrvrReSts
             (gen_interpreted_door_status (f "DoorDrvrReSts"%string)) o in
  update (f "DoorDrvrSts_UB"%string) (want DoorDrvrSts) DoorDrvrSts
    (gen_interpreted_door_status (f "DoorDrvrSts"%string)) o.

Definition body_0xE0 (v : Z) (o : can_objs) : can_objs :=
  let f n := get_field CEMBodyFr11 n v in
  let o := update (f "TrSts_UB"%string) (want TrSts) TrSts
             (gen_interpreted_door_status (f "TrSts"%string)) o in
  let o := update (f "DoorPassSts_UB"%string) (want_any DoorPassSts) DoorPassSts
             (gen_interpreted_door_status (f "DoorPassSts"%string)) o in
  update (f "DoorPassReSts_UB"%string) (want_any DoorPassReSts) DoorPassReSts
    (gen_interpreted_door_status (f "DoorPassReSts"%string)) o.

Definition body_0x100 (v : Z) (o : can_objs) : can_objs :=
  let f n := get_field CEMBodyFr13 n v in
  update (f "LockgCenStsForUsrFb_UB"%string) (want LockgCenStsForUsrFb) LockgCenStsForUsrFb
    (lock_value (f "LockgCenStsForUsrFb"%string)) o.

Definition body_0x1D0 (v : Z) (o : can_objs) : can_objs :=
  let f n := get_field CEMBodyFr28 n v in
  update (f "AmbTIndcdWithUnit_UB"%string) (want AmbTIndcd) AmbTIndcd
    (temperature_value (f "AmbTIndcd"%string) (f "AmbTIndcdUnit"%string)) o.

(** There is no [break] behind this case: the next one runs too. *)
Definition body_0x270 (v : Z) (o : can_objs) : can_objs :=
  let f n := get_field CEMBodyFr25 n v in
  let o := update (f "FuLvlIndcd_UB"%string) (want FuLvlIndcdVal) FuLvlIndcdVal
             (fuel_value (f "FuLvlIndcdVal"%string)) o in
  body_0x1D0 v o.

(** The frame is printed only with [DEBUG_MODE], which no build file defines. *)
Definition can_body_frame_read_cb (frame : can_frame) (o : can_objs) : out can_objs :=
  data ← be2le (fdata frame) (fdata frame);
  let canid := Z.land (can_id frame) CAN_ID_MASK in
  if CanMsgs_body_msg_supported canid =? 0 then Ret o else
  bm ← slice 0 DATA_SIZE data;
  let v := from_le bm in
  Ret (if canid =? 0x40 then body_0x40 v o
       else if canid =? 0xE0 then body_0xE0 v o
       else if canid =? 0x100 then body_0x100 v o
       else if canid =? 0x270 then body_0x270 v o
       else if canid =? 0x1D0 then body_0x1D0 v o
       else o).

Definition chas_0xE0 (v : Z) (o : can_objs) : can_objs :=
  let f n := get_field VDDMChasFr05 n v in
  update (f "DrvrBrkTqAtWhlsReqdGroup_UB"%string) (want DrvrBrkTqAtWhlsReqd) DrvrBrkTqAtWhlsReqd
    (JInt (f "DrvrBrkTqAtWhlsReqd"%string)) o.

Definition chas_0xF0 (v : Z) (o : can_objs) : can_objs :=
  let f n := get_field VDDMChasFr06 n v in
  let o := update (f "TrSts_UB"%string) (want TrSts) TrSts
             (gen_interpreted_door_status (f "TrSts"%string)) o in
  let o := update (f "DoorPassReSts_UB"%string) (want DoorPassReSts) DoorPassReSts
             (gen_interpreted_door_status (f "DoorPassReSts"%string)) o in
  let o := update (f "DoorDrvrSts_UB"%string) (want DoorDrvrSts) DoorDrvrSts
             (gen_interpreted_door_status (f "DoorDrvrSts"%string)) o in
  update (f "DoorPassSts_UB"%string) (want DoorPassSts) DoorPassSts
    (gen_interpreted_door_status (f "DoorPassSts"%string)) o.

Definition chas_0x3A0 (v : Z) (o : can_objs) : can_objs :=
  let f n := get_field VDDMChasFr08 n v in
  let o := update (f "DoorDrvrReSts_UB"%string) (want DoorDrvrReSts) DoorDrvrReSts
             (gen_interpreted_door_status (f "DoorDrvrReSts"%string)) o in
  update (f "AmbTIndcdWithUnit_UB"%string) (want AmbTIndcd) AmbTIndcd
    (temperature_value (f "AmbTIndcd"%string) (f "AmbTIndcdUnit"%string)) o.

Definition chas_0x1C0 (v : Z) (o : can_objs) : can_objs :=
  let f n := get_field VDDMChasFr12 n v in
  update (f "BrkPedlPsdSafeGroup_UB"%string) (want BrkPedlPsd) BrkPedlPsd
    (JInt (f "BrkPedlPsd"%string)) o.

Definition chas_0x240 (v : Z) (o : can_objs) : can_objs :=
  let f n := get_field VDDMChasFr17 n v in
  update (f "FuLvlIndcd_UB"%string) (want FuLvlIndcdVal) FuLvlIndcdVal
    (fuel_value (f "FuLvlIndcdVal"%string)) o.

Definition chas_0x130 (v : Z) (o : can_objs) : can_objs :=
  let f n := get_field ECMChasFr06 n v in
  update (f "DrvrPrpsnTqReq_UB"%string) (want DrvrPrpsnTqReq) DrvrPrpsnTqReq
    (JInt (f "DrvrPrpsnTqReq"%string)) o.

Definition chas_0x210 (v : Z) (o : can_objs) : can_objs :=
  let f n := get_field ECMChasFr10 n v in
  update (f "CluPedlRat_UB"%string) (want CluPedlRat) CluPedlRat
    (clutch_value (f "CluPedlRat"%string)) o.

(** This callback prints every frame into a local array, whose text nobody reads:
    what the array held before plays no part. *)
Definition can_chas_frame_read_cb (frame : can_frame) (o : can_objs) : out can_objs :=
  data ← be2le (fdata frame) (fdata frame);
  _ ← sprint_canframe (repeat 0 CAN_STR_LEN) (Frame (can_id frame) (can_dlc frame) data) 1;
  let canid := Z.land (can_id frame) CAN_ID_MASK in
  if CanMsgs_chas_msg_supported canid =? 0 then Ret o else
  cm ← slice 0 DATA_SIZE data;
  let v := from_le cm in
  Ret (if canid =? 0xE0 then chas_0xE0 v o
       else if canid =? 0xF0 then chas_0xF0 v o
       else if canid =? 0x3A0 then chas_0x3A0 v o
       else if canid =? 0x1C0 then chas_0x1C0 v o
       else if canid =? 0x240 then chas_0x240 v o
       else if canid =? 0x130 then chas_0x130 v o
       else if canid =? 0x210 then chas_0x210 v o
       else o).

(** The frames of both buses in the order the lock gives them; the flag says
    whether the callback's dump replaced the objects by fresh ones. *)
Inductive bus : Set := Body | Chassis.

Definition on_frame (f : bus * can_frame * bool) (o : can_objs) : out can_objs :=
  let '(b, frame, dump) := f in
  o ← match b with
      | Body => can_body_frame_read_cb frame o
      | Chassis => can_chas_frame_read_cb frame o
      end;
  Ret (if (dump : bool) then (can_json_filler d).2 else o).

Fixpoint receive (fs : list (bus * can_frame * bool)) (o : can_objs) : out can_objs :=
  match fs with [] => Ret o | f :: fs => o ← on_frame f o; receive fs o end.
End Callbacks.

(** ** What the frames mean *)

(** A row of the message catalogue: the update bit, the signal, and the value
    a message with the given fields reports for it. *)
Record row := Row { r_ub : string; r_sig : can_signal; r_json : (string -> Z) -> jvalue }.

Definition door_row (s : can_signal) (ub f : string) : row :=
  Row ub s (fun vals => gen_interpreted_door_status (vals f)).
Definition temperature_row : row :=
  Row "AmbTIndcdWithUnit_UB" AmbTIndcd
    (fun vals => temperature_value (vals "AmbTIndcd"%string) (vals "AmbTIndcdUnit"%string)).
Definition fuel_row : row :=
  Row "FuLvlIndcd_UB" FuLvlIndcdVal (fun vals => fuel_value (vals "FuLvlIndcdVal"%string)).

Definition body_rows (canid : Z) : list row :=
  if canid =? 0x40 then [door_row DoorDrvrReSts "DoorDrvrReSts_UB" "DoorDrvrReSts";
                         door_row DoorDrvrSts "DoorDrvrSts_UB" "DoorDrvrSts"]
  else if canid =? 0xE0 then [door_row TrSts "TrSts_UB" "TrSts";
                              door_row DoorPassSts "DoorPassSts_UB" "DoorPassSts";
                              door_row DoorPassReSts "DoorPassReSts_UB" "DoorPassReSts"]
  else if canid =? 0x100 then
    [Row "LockgCenStsForUsrFb_UB" LockgCenStsForUsrFb
       (fun vals => lock_value (vals "LockgCenStsForUsrFb"%string))]
  else if canid =? 0x270 then [fuel_row]
  else if canid =? 0x1D0 then [temperature_row]
  else [].

Definition chas_rows (canid : Z) : list row :=
  if canid =? 0xE0 then [Row "DrvrBrkTqAtWhlsReqdGroup_UB" DrvrBrkTqAtWhlsReqd
                           (fun vals => JInt (vals "DrvrBrkTqAtWhlsReqd"%string))]
  else if canid =? 0xF0 then [door_row TrSts "TrSts_UB" "TrSts";
                              door_row DoorPassReSts "DoorPassReSts_UB" "DoorPassReSts";
                              door_row DoorDrvrSts "DoorDrvrSts_UB" "DoorDrvrSts";
                              door_row DoorPassSts "DoorPassSts_UB" "DoorPassSts"]
  else if canid =? 0x3A0 then [door_row DoorDrvrReSts "DoorDrvrReSts_UB" "DoorDrvrReSts";
                               temperature_row]
  else if canid =? 0x1C0 then [Row "BrkPedlPsdSafeGroup_UB" BrkPedlPsd
                                 (fun vals => JInt (vals "BrkPedlPsd"%string))]
  else if canid =? 0x240 then [fuel_row]
  else if canid =? 0x130 then [Row "DrvrPrpsnTqReq_UB" DrvrPrpsnTqReq
                                 (fun vals => JInt (vals "DrvrPrpsnTqReq"%string))]
  else if canid =? 0x210 then [Row "CluPedlRat_UB" CluPedlRat
                                 (fun vals => clutch_value (vals "CluPedlRat"%string))]
  else [].

(** A reported value replaces that of a wanted signal. *)
Definition apply_row (d : bytes) (vals : string -> Z) (o : can_objs) (r : row) : can_objs :=
  update (vals (r_ub r)) (wanted d (r_sig r) =? 1) (r_sig r) (r_json r vals) o.

Definition apply_rows (d : bytes) (vals : string -> Z) (rs : list row) (o : can_objs) : can_objs :=
  fold_left (apply_row d vals) rs o.

Lemma want_any_01 d s : flags_01 d -> negb (wanted d s =? 0) = (wanted d s =? 1).
Proof.
  intros Hd. unfold wanted.
  by destruct (field_byte_01 can01_vehicle_dataset_t d (flag_name s) Hd) as [-> | ->].
Qed.

Lemma be2le_rev data : length data = 8%nat -> be2le data data = Ret (rev data).
Proof. intros H. do 9 (destruct data as [|? data]; [done|]). done. Qed.

(** A layout as far as decoding needs it. *)
Lemma layout_decodes l vals n :
  layout_ok l = true -> fits l vals -> is_Some (field_at l n 0) ->
  get_field l n (pack l vals) = vals n.
Proof.
  intros Hl Hf Hn. apply get_field_pack; [done | | done].
  unfold layout_ok in Hl. rewrite !andb_true_iff in Hl. destruct Hl as [[Hd _] _].
  by apply bool_decide_eq_true in Hd.
Qed.

(** [decode vals] replaces every field read from a packed message by its value. *)
Ltac decode vals :=
  repeat match goal with
  | |- context [get_field ?l ?n (pack ?l vals)] =>
      rewrite (layout_decodes l vals n) by first [ assumption | vm_compute; reflexivity | by eexists ]
  end.

Section Decoding.
Context (d : bytes) (vals : string -> Z) (o : can_objs).

Lemma body_0x40_rows :
  fits CEMBodyFr02 vals -> body_0x40 d (pack CEMBodyFr02 vals) o = apply_rows d vals (body_rows 0x40) o.
Proof. intros Hf. unfold body_0x40. by decode vals. Qed.

Lemma body_0xE0_rows :
  flags_01 d -> fits CEMBodyFr11 vals ->
  body_0xE0 d (pack CEMBodyFr11 vals) o = apply_rows d vals (body_rows 0xE0) o.
Proof. intros Hd Hf. unfold body_0xE0. rewrite !want_any_01 by done. by decode vals. Qed.

Lemma body_0x100_rows :
  fits CEMBodyFr13 vals -> body_0x100 d (pack CEMBodyFr13 vals) o = apply_rows d vals (body_rows 0x100) o.
Proof. intros Hf. unfold body_0x100. by decode vals. Qed.

Lemma body_0x1D0_rows :
  fits CEMBodyFr28 vals -> body_0x1D0 d (pack CEMBodyFr28 vals) o = apply_rows d vals (body_rows 0x1D0) o.
Proof. intros Hf. unfold body_0x1D0. by decode vals. Qed.

Lemma body_0x270_rows :
  fits CEMBodyFr25 vals ->
  body_0x270 d (pack CEMBodyFr25 vals) o
  = apply_rows d (fun f => get_field CEMBodyFr28 f (pack CEMBodyFr25 vals)) (body_rows 0x1D0)
      (apply_rows d vals (body_rows 0x270) o).
Proof. intros Hf. unfold body_0x270, body_0x1D0. by decode vals. Qed.

Lemma chas_0xE0_rows :
  fits VDDMChasFr05 vals -> chas_0xE0 d (pack VDDMChasFr05 vals) o = apply_rows d vals (chas_rows 0xE0) o.
Proof. intros Hf. unfold chas_0xE0. by decode vals. Qed.

Lemma chas_0xF0_rows :
  fits VDDMChasFr06 vals -> chas_0xF0 d (pack VDDMChasFr06 vals) o = apply_rows d vals (chas_rows 0xF0) o.
Proof. intros Hf. unfold chas_0xF0. by decode vals. Qed.

Lemma chas_0x3A0_rows :
  fits VDDMChasFr08 vals -> chas_0x3A0 d (pack VDDMChasFr08 vals) o = apply_rows d vals (chas_rows 0x3A0) o.
Proof. intros Hf. unfold chas_0x3A0. by decode vals. Qed.

Lemma chas_0x1C0_rows :
  fits VDDMChasFr12 vals -> chas_0x1C0 d (pack VDDMChasFr12 vals) o = apply_rows d vals (chas_rows 0x1C0) o.
Proof. intros Hf. unfold chas_0x1C0. by decode vals. Qed.

Lemma chas_0x240_rows :
  fits VDDMChasFr17 vals -> chas_0x240 d (pack VDDMChasFr17 vals) o = apply_rows d vals (chas_rows 0x240) o.
Proof. intros Hf. unfold chas_0x240. by decode vals. Qed.

Lemma chas_0x130_rows :
  fits ECMChasFr06 vals -> chas_0x130 d (pack ECMChasFr06 vals) o = apply_rows d vals (chas_rows 0x130) o.
Proof. intros Hf. unfold chas_0x130. by decode vals. Qed.

Lemma chas_0x210_rows :
  fits ECMChasFr10 vals -> chas_0x210 d (pack ECMChasFr10 vals) o = apply_rows d vals (chas_rows 0x210) o.
Proof. intros Hf. unfold chas_0x210. by decode vals. Qed.
End Decoding.

(** Every structure of a union describes at most 64 bits. *)
Lemma body_layout_ok canid l : CanMsgs_BodyMessage_t canid = Some l -> layout_ok l = true.
Proof.
  unfold CanMsgs_BodyMessage_t. intros E.
  repeat (destruct (canid =? _) in E; [injection E as <-; vm_compute; reflexivity|]). done.
Qed.

Lemma chas_layout_ok canid l : CanMsgs_ChasMessage_t canid = Some l -> layout_ok l = true.
Proof.
  unfold CanMsgs_ChasMessage_t. intros E.
  repeat (destruct (canid =? _) in E; [injection E as <-; vm_compute; reflexivity|]). done.
Qed.

(** The number the callbacks read from a packed frame. *)
Lemma packed_frame l vals :
  layout_ok l = true -> fits l vals ->
  be2le (frame_of (pack l vals)) (frame_of (pack l vals)) = Ret (rev (frame_of (pack l vals)))
  /\ slice 0 DATA_SIZE (rev (frame_of (pack l vals))) = Ret (rev (frame_of (pack l vals)))
  /\ from_le (rev (frame_of (pack l vals))) = pack l vals.
Proof.
  intros Hl Hf. split; [by apply be2le_rev|]. split; [done|]. apply frame_value.
  pose proof (pack_bound l vals Hf) as Hb. unfold layout_ok in Hl. rewrite !andb_true_iff in Hl.
  destruct Hl as [[_ Hw] _]. apply Z.leb_le in Hw.
  pose proof (Z.pow_le_mono_r 2 (width l) 64). lia.
Qed.

(** Follow the [if]s of a switch whose cases are the lemmas above. *)
Ltac switch_case canid n E rows :=
  destruct (Z.eqb_spec canid n) as [->|];
  [ injection E as <-; cbn [Z.eqb Pos.eqb]; f_equal; by apply rows |].

(** The text of a frame fits the local array. *)
Lemma frame_printed {A} id dlc data sep (m : out A) :
  length data = 8%nat -> (_ ← sprint_canframe (repeat 0 CAN_STR_LEN) (Frame id dlc data) sep; m) = m.
Proof.
  intros Hl. destruct (sprint_canframe_fits (repeat 0 CAN_STR_LEN) (Frame id dlc data) sep Hl) as [b ->]; [|done].
  rewrite repeat_length. apply Nat.leb_le. reflexivity.
Qed.

(** C24: A frame of the body bus that packs some field values updates exactly
    the wanted signals of its row in the catalogue, with the values that were
    packed; only the fuel frame goes on to read its bits as a temperature
    message, for want of a [break]. *)
Theorem body_frame_decoded d id dlc canid l vals o :
  Z.land id CAN_ID_MASK = canid -> CanMsgs_BodyMessage_t canid = Some l -> fits l vals ->
  flags_01 d ->
  can_body_frame_read_cb d (Frame id dlc (frame_of (pack l vals))) o
  = let o := apply_rows d vals (body_rows canid) o in
    Ret (if canid =? 0x270
         then apply_rows d (fun f => get_field CEMBodyFr28 f (pack l vals)) (body_rows 0x1D0) o
         else o).
Proof.
  intros Hid E Hf Hd. destruct (packed_frame l vals (body_layout_ok canid l E) Hf) as (E1 & E2 & E3).
  unfold can_body_frame_read_cb. cbn [fdata can_id]. rewrite E1. run_step. rewrite Hid, E2.
  destruct (CanMsgs_body_msg_supported canid =? 0) eqn:Es.
  { unfold body_rows. cbv zeta.
    by rewrite !(proj2 (Z.eqb_neq canid _)) by (intros ->; vm_compute in Es; discriminate Es). }
  run_step. rewrite E3.
  switch_case canid 0x40 E body_0x40_rows. switch_case canid 0xE0 E body_0xE0_rows.
  switch_case canid 0x100 E body_0x100_rows. switch_case canid 0x270 E body_0x270_rows.
  switch_case canid 0x1D0 E body_0x1D0_rows.
  unfold body_rows. cbv zeta. by rewrite !(proj2 (Z.eqb_neq canid _)) by done.
Qed.

(** A frame of the chassis bus that packs some field values updates exactly
    the wanted signals of its row in the catalogue, with the values that were
    packed. *)
Lemma chas_frame_decoded d id dlc canid l vals o :
  Z.land id CAN_ID_MASK = canid -> CanMsgs_ChasMessage_t canid = Some l -> fits l vals ->
  can_chas_frame_read_cb d (Frame id dlc (frame_of (pack l vals))) o = Ret (apply_rows d vals (chas_rows canid) o).
Proof.
  intros Hid E Hf. destruct (packed_frame l vals (chas_layout_ok canid l E) Hf) as (E1 & E2 & E3).
  unfold can_chas_frame_read_cb. cbn [fdata can_id can_dlc]. rewrite E1. run_step.
  rewrite frame_printed by reflexivity. rewrite Hid, E2.
  destruct (CanMsgs_chas_msg_supported canid =? 0) eqn:Es.
  { unfold chas_rows. cbv zeta.
    by rewrite !(proj2 (Z.eqb_neq canid _)) by (intros ->; vm_compute in Es; discriminate Es). }
  run_step. rewrite E3.
  switch_case canid 0xE0 E chas_0xE0_rows. switch_case canid 0xF0 E chas_0xF0_rows.
  switch_case canid 0x3A0 E chas_0x3A0_rows. switch_case canid 0x1C0 E chas_0x1C0_rows.
  switch_case canid 0x240 E chas_0x240_rows. switch_case canid 0x130 E chas_0x130_rows.
  switch_case canid 0x210 E chas_0x210_rows.
  unfold chas_rows. by rewrite !(proj2 (Z.eqb_neq canid _)) by done.
Qed.

(** ** What can be published *)

(** The values of a signal: what the comments of the callbacks state as ranges. *)
Definition value_ok (s : can_signal) (v : jvalue) : Prop :=
  match s with
  | DoorDrvrSts | DoorDrvrReSts | DoorPassSts | DoorPassReSts | TrSts =>
      exists n, 0 <= n < 4 /\ v = gen_interpreted_door_status n
  | LockgCenStsForUsrFb => exists n, 0 <= n < 8 /\ v = lock_value n
  | FuLvlIndcdVal => exists n, 0 <= n <= 1023 /\ v = fuel_value n
  | AmbTIndcd => exists n u, 0 <= n <= 4095 /\ 0 <= u < 4 /\ v = temperature_value n u
  | DrvrBrkTqAtWhlsReqd | DrvrPrpsnTqReq => exists n, 0 <= n < 2 ^ 16 /\ v = JInt n
  | CluPedlRat => exists n, 0 <= n < 2 ^ 8 /\ v = clutch_value n
  | BrkPedlPsd => exists n, 0 <= n < 2 /\ v = JInt n
  end.

(** The objects are those of the wanted signals, their values those above. *)
Definition objs_ok (d : bytes) (o : can_objs) : Prop :=
  forall s, match o !! s with
            | None => wanted d s <> 1
            | Some v => wanted d s = 1 /\ forall j, v = Some j -> value_ok s j
            end.

Lemma objs_ok_update d ub w s v o : objs_ok d o -> value_ok s v -> objs_ok d (update ub w s v o).
Proof.
  intros Ho Hv. unfold update. destruct (_ && _) eqn:E; [|done].
  apply andb_true_iff in E as [_ E]. apply bool_decide_eq_true in E. intros s'. rewrite lookup_insert.
  pose proof (Ho s') as H'. destruct (decide (s = s')) as [<-|]; [|done].
  destruct E as [x E]. rewrite E in H'. destruct H' as [Hw _]. split; [done|]. by intros j [= <-].
Qed.

Lemma objs_ok_filler d : objs_ok d (can_json_filler d).2.
Proof.
  intros s. unfold can_json_filler. rewrite fill_lookup, <- list_fmap_compose.
  change (compose fst _) with (fun e : can_signal * string * string => e.1.1).
  rewrite bool_decide_true by apply elem_of_all_signals.
  destruct (Z.eqb_spec (wanted d s) 1); [|done]. by split.
Qed.

(** [bound l n v] states the range of a decoded field; [in_range] shows that a
    published value is one of its signal; [publishes] does so for a case of a
    switch. *)
Ltac bound l n v :=
  let r := eval vm_compute in (field_at l n 0) in
  lazymatch r with
  | Some (?o, ?w) =>
      let H := fresh in pose proof (get_field_bound l n v o w eq_refl ltac:(lia)) as H;
      let m := eval vm_compute in (2 ^ w) in change (2 ^ w) with m in H
  end.
Ltac in_range :=
  lazymatch goal with
  | |- value_ok _ (temperature_value (get_field ?l ?n ?v) (get_field ?l ?u ?v)) =>
      bound l n v; bound l u v; exists (get_field l n v), (get_field l u v); split_and!; [lia.. | reflexivity]
  | |- value_ok _ ?j =>
      lazymatch j with
      | context [get_field ?l ?n ?v] => bound l n v; exists (get_field l n v); split; [lia | reflexivity]
      end
  end.
Ltac publishes := repeat (apply objs_ok_update; [|in_range]); assumption.

Lemma body_publishes d v o :
  objs_ok d o ->
  objs_ok d (body_0x40 d v o) /\ objs_ok d (body_0xE0 d v o) /\ objs_ok d (body_0x100 d v o)
  /\ objs_ok d (body_0x270 d v o) /\ objs_ok d (body_0x1D0 d v o).
Proof.
  intros Ho. split_and!; unfold body_0x40, body_0xE0, body_0x100, body_0x270, body_0x1D0; cbv zeta;
    publishes.
Qed.

Lemma chas_publishes d v o :
  objs_ok d o ->
  objs_ok d (chas_0xE0 d v o) /\ objs_ok d (chas_0xF0 d v o) /\ objs_ok d (chas_0x3A0 d v o)
  /\ objs_ok d (chas_0x1C0 d v o) /\ objs_ok d (chas_0x240 d v o) /\ objs_ok d (chas_0x130 d v o)
  /\ objs_ok d (chas_0x210 d v o).
Proof.
  intros Ho. split_and!; unfold chas_0xE0, chas_0xF0, chas_0x3A0, chas_0x1C0, chas_0x240, chas_0x130,
    chas_0x210; cbv zeta; publishes.
Qed.

Lemma on_frame_ok d b frame dump o :
  length (fdata frame) = 8%nat -> objs_ok d o ->
  exists o', on_frame d (b, frame, dump) o = Ret o' /\ objs_ok d o'.
Proof.
  intros Hl Ho. destruct frame as [i dlc data]. cbn [fdata] in Hl.
  assert (exists o', match b with Body => can_body_frame_read_cb d (Frame i dlc data) o
                     | Chassis => can_chas_frame_read_cb d (Frame i dlc data) o end = Ret o' /\ objs_ok d o')
    as (o' & E & Ho').
  { assert (slice 0 DATA_SIZE (rev data) = Ret (rev data)) as Es.
    { rewrite <- (app_nil_r (rev data)) at 1. apply slice_0_app. by rewrite length_rev, Hl. }
    destruct b; [unfold can_body_frame_read_cb | unfold can_chas_frame_read_cb];
      cbn [fdata can_id can_dlc]; rewrite be2le_rev by done; run_step;
      rewrite ?frame_printed by (by rewrite length_rev); (destruct (_ =? 0); [by exists o|]); rewrite Es; run_step;
      eexists; (split; [reflexivity|]);
      [ destruct (body_publishes d (from_le (rev data)) o Ho) as (? & ? & ? & ? & ?)
      | destruct (chas_publishes d (from_le (rev data)) o Ho) as (? & ? & ? & ? & ? & ? & ?) ];
      by repeat case_match. }
  unfold on_frame. rewrite E. run_step. eexists. split; [reflexivity|].
  destruct dump; [apply objs_ok_filler | done].
Qed.

(** A sequence of frames keeps the objects well formed. *)
Lemma receive_ok d fs o :
  Forall (fun f => length (fdata f.1.2) = 8%nat) fs -> objs_ok d o -> exists o', receive d fs o = Ret o' /\ objs_ok d o'.
Proof.
  intros Hf. revert o; induction Hf as [|[[b frame] dump] fs Hl Hf IH]; intros o Ho; cbn [receive]; [by exists o|].
  destruct (on_frame_ok d b frame dump o Hl Ho) as (o1 & -> & Ho1). run_step. by apply IH.
Qed.

(** C19: Whatever frames arrive on the two buses, in whatever order and with
    whatever data, receiving them is free of undefined behaviour, publishes no
    signal that is not wanted, and every published value is in the range the
    signal has. *)
Theorem frames_publish_wanted d fs :
  Forall (fun f => length (fdata f.1.2) = 8%nat) fs ->
  exists o, receive d fs (can_json_filler d).2 = Ret o
    /\ forall s, match o !! s with
                 | None => wanted d s <> 1
                 | Some v => wanted d s = 1 /\ forall j, v = Some j -> value_ok s j
                 end.
Proof. intros Hf. exact (receive_ok d fs _ Hf (objs_ok_filler d)). Qed.

Module CanWitness.
#[local] Instance fits_dec l vals : Decision (fits l vals).
Proof. unfold fits. apply _. Defined.

(** All signals wanted. *)
Definition all_on : bytes := repeat 1 34.
Definition some_vals (n : string) : Z :=
  if String.eqb n "DoorDrvrSts_UB" then 1 else if String.eqb n "DoorDrvrSts" then 2
  else if String.eqb n "CluPedlRat_UB" then 1 else if String.eqb n "CluPedlRat" then 255 else 0.

Lemma all_on_01 : flags_01 all_on.
Proof. unfold flags_01, all_on. apply Forall_forall. intros x Hx%repeat_spec. by right. Qed.

Lemma body_frame_decoded_witness :
  can_body_frame_read_cb all_on (Frame 0x840 8 (frame_of (pack CEMBodyFr02 some_vals))) (can_json_filler all_on).2
  = Ret (apply_rows all_on some_vals (body_rows 0x40) (can_json_filler all_on).2).
Proof.
  refine (body_frame_decoded all_on 0x840 8 0x40 CEMBodyFr02 some_vals (can_json_filler all_on).2
            eq_refl eq_refl _ all_on_01).
  apply (bool_decide_unpack _); vm_compute; exact I.
Defined.

Lemma chas_frame_decoded_witness :
  can_chas_frame_read_cb all_on (Frame 0x210 8 (frame_of (pack ECMChasFr10 some_vals))) (can_json_filler all_on).2
  = Ret (apply_rows all_on some_vals (chas_rows 0x210) (can_json_filler all_on).2).
Proof.
  refine (chas_frame_decoded all_on 0x210 8 0x210 ECMChasFr10 some_vals (can_json_filler all_on).2
            eq_refl eq_refl _).
  apply (bool_decide_unpack _); vm_compute; exact I.
Defined.

Lemma frames_publish_wanted_witness :
  exists o, receive all_on [(Body, Frame 0x40 8 (repeat 255 8), false); (Chassis, Frame 0x240 200 (repeat 7 8), true)]
              (can_json_filler all_on).2 = Ret o
    /\ forall s, match o !! s with
                 | None => wanted all_on s <> 1
                 | Some v => wanted all_on s = 1 /\ forall j, v = Some j -> value_ok s j
                 end.
Proof.
  refine (frames_publish_wanted all_on
            [(Body, Frame 0x40 8 (repeat 255 8), false); (Chassis, Frame 0x240 200 (repeat 7 8), true)] _).
  repeat constructor.
Defined.

(** A door frame reports what the sender packed. *)
Lemma closed_door_reported :
  (o ← can_body_frame_read_cb all_on (Frame 0x40 8 (frame_of (pack CEMBodyFr02 some_vals))) (can_json_filler all_on).2;
   Ret (o !! DoorDrvrSts))
  = Ret (Some (Some (JObject [(cstr "value", JString (cstr "Closed"))]))).
Proof. vm_compute. reflexivity. Qed.

(** A frame about the fuel level alone also sets the air temperature. *)
Lemma fuel_frame_sets_temperature :
  (o ← can_body_frame_read_cb all_on (Frame 0x270 8 (repeat 255 8)) (can_json_filler all_on).2;
   Ret (o !! AmbTIndcd))
  = Ret (Some (Some (temperature_value 4095 3))).
Proof. vm_compute. reflexivity. Qed.
End CanWitness.
