(* ===== verification/CanLinux.v ===== *)
(** * SocketCAN access (src/plugins/pip/can/can_linux.c, can_thread.c and their
      identical copies under src/plugins/pip/canopen/)

    Opening a raw CAN socket on an interface, sending, and the reader thread
    that hands every frame to a callback until it is stopped.  What the
    operating system answers is an argument; the messages to the console are
    not modelled.  The flag [end_loop] is shared by the reader and the thread
    that stops it, so their interleavings are a step relation. *)

From stdpp Require Import relations.
From S2P Require Import Prelude CStd CanText.

(** ** can_linux.h *)

Definition CAN_OPEN_NO_ERROR : Z := 0.
Definition CAN_OPEN_CONNECTION_ERROR : Z := -1.
Definition CAN_OPEN_SOCKET_ERROR : Z := -2.
Definition CAN_OPEN_IOCTL_ERROR : Z := -3.
Definition CAN_OPEN_BIND_ERROR : Z := -4.
Definition CAN_SEND_NO_ERROR : Z := 0.
Definition CAN_SEND_FRAME_DATA_ERROR : Z := -1.
Definition CAN_SEND_WRITE_ERROR : Z := -2.
Definition CAN_READ_NO_ERROR : Z := 0.
Definition CAN_READ_CONNECTION_ERROR : Z := -1.
Definition CAN_READ_RECEIVE_ERROR : Z := -2.
Definition CAN_READ_INCOMPLETE_ERROR : Z := -3.
Definition CAN_CLOSE_NO_ERROR : Z := 0.
Definition CAN_CLOSE_ERROR : Z := -1.

(** The socket, the name of the interface in the request structure, the index
    the address holds, and the flag. *)
Record can_t := Can { sock : Z; ifr_name : bytes; can_ifindex : Z; end_loop : Z }.

Definition IFNAMSIZ : nat := 16.
Definition CAN_DEVICE_NAME_LEN : nat := 5.
Definition SIZEOF_CAN_FRAME : Z := 16.

(** What the system calls of [can_open] return; an interface that exists has an
    index. *)
Record os := Os { os_socket : Z; os_ifindex : bytes -> option Z; os_bind : Z }.

(** ** can_linux.c *)

(** The request's name is zeroed, then overwritten by at most five bytes. *)
Definition device_name (can_device : option bytes) : out bytes :=
  let zeros := repeat 0 IFNAMSIZ in
  match can_device with
  | None => strncpy zeros (cstr "can0" ++ [0]) 4
  | Some dev => strncpy zeros dev CAN_DEVICE_NAME_LEN
  end.

Definition can_open (w : os) (can_connection : option can_t) (can_device : option bytes)
  : out (Z * option can_t) :=
  match can_connection with
  | None => Ret (CAN_OPEN_CONNECTION_ERROR, None)
  | Some c =>
      let c := Can (os_socket w) (ifr_name c) (can_ifindex c) (end_loop c) in
      if sock c <? 0 then Ret (CAN_OPEN_SOCKET_ERROR, Some c) else
      nm ← device_name can_device;
      let c := Can (sock c) nm (can_ifindex c) (end_loop c) in
      match os_ifindex w (before_nul nm) with
      | None => Ret (CAN_OPEN_IOCTL_ERROR, Some c)
      | Some i =>
          let c := Can (sock c) nm i (end_loop c) in
          if os_bind w <? 0 then Ret (CAN_OPEN_BIND_ERROR, Some c)
          else Ret (CAN_OPEN_NO_ERROR, Some (Can (sock c) nm i 0))
      end
  end.

(** [written]: what [write] returns for the 16 bytes of the structure. *)
Definition can_send_frame (written : Z) (can_connection : option can_t) (frame : option can_frame) : Z :=
  match can_connection, frame with
  | Some _, Some _ => if written =? SIZEOF_CAN_FRAME then CAN_SEND_NO_ERROR else CAN_SEND_WRITE_ERROR
  | _, _ => CAN_SEND_FRAME_DATA_ERROR
  end.

(** The result and the frame that was handed to [write]; unlike above the
    connection is not checked. *)
Definition can_send_frame_str (written : Z) (can_connection : option can_t) (frame_data : option bytes)
  : out (Z * option can_frame) :=
  match frame_data with
  | None => Ret (CAN_SEND_FRAME_DATA_ERROR, None)
  | Some text =>
      r ← parse_canframe text;
      if negb (r.1 =? 0) then Ret (CAN_SEND_FRAME_DATA_ERROR, None) else
      _ ← deref can_connection;
      Ret (if written =? SIZEOF_CAN_FRAME then CAN_SEND_NO_ERROR else CAN_SEND_WRITE_ERROR, Some r.2)
  end.

Definition can_end_loop (c : can_t) : can_t := Can (sock c) (ifr_name c) (can_ifindex c) 1.

(** The result and the descriptor that is closed. *)
Definition can_close (can_connection : option can_t) : Z * option Z :=
  match can_connection with
  | None => (CAN_CLOSE_ERROR, None)
  | Some c => (CAN_CLOSE_NO_ERROR, Some (sock c))
  end.

(** One round of the read loop as the system and the other thread decide it:
    the flag is found set; [select] fails, or times out; or [recvmsg] returns
    [nbytes] (negative: an error) with a frame. *)
Inductive round (A : Type) : Type :=
| Ended
| SelectFailed
| Idle
| Received (nbytes : Z) (frame : A).
Arguments Ended {A}.
Arguments SelectFailed {A}.
Arguments Idle {A}.
Arguments Received {A} nbytes frame.

Section ReadLoop.
Context {A St : Type} (frame_read_cb : option (A -> St -> out St)).

Definition call_back (f : A) (s : St) : out St :=
  match frame_read_cb with Some cb => cb f s | None => Ret s end.

(** [ret] is the result of the last [select]: that of a readable socket is 1,
    of a timeout 0.  The result is [None] while the loop has not ended. *)
Fixpoint read_rounds (rounds : list (round A)) (ret : Z) (s : St) : out (option Z * St) :=
  match rounds with
  | [] => Ret (None, s)
  | Ended :: _ => Ret (Some ret, s)
  | SelectFailed :: _ => Ret (Some (-1), s)
  | Idle :: rounds => read_rounds rounds 0 s
  | Received n f :: rounds =>
      if n <? 0 then Ret (Some CAN_READ_RECEIVE_ERROR, s)
      else if n <? SIZEOF_CAN_FRAME then Ret (Some CAN_READ_INCOMPLETE_ERROR, s)
      else s ← call_back f s; read_rounds rounds 1 s
  end.

(** [FD_SET] needs a descriptor between 0 and 1023, in the first round too; the
    flag is looked at before. *)
Definition can_read_loop (can_connection : option can_t) (rounds : list (round A)) (s : St)
  : out (option Z * St) :=
  match can_connection with
  | None => Ret (Some CAN_READ_CONNECTION_ERROR, s)
  | Some c =>
      match rounds with
      | [] | Ended :: _ => read_rounds rounds CAN_READ_NO_ERROR s
      | _ => _ ← ensure ((0 <=? sock c) && (sock c <? 1024)) OobWrite;
             read_rounds rounds CAN_READ_NO_ERROR s
      end
  end.
End ReadLoop.

(** ** can_thread.c *)

Definition CAN_BUS_NAME_LEN : nat := 5.
Definition CAN_BUS_LEN : nat := 64.

Record canthread_instance_t := CanThread { can_bus_name : bytes; can_connection : can_t }.

(** The callback is given to [can_thread] itself. *)
Definition canthread_init (inst : canthread_instance_t) (name : bytes) : out canthread_instance_t :=
  b ← strncpy (can_bus_name inst) name CAN_BUS_NAME_LEN; Ret (CanThread b (can_connection inst)).

(** The body of the thread: the results of [can_open] and of the loop are ignored,
    and when the loop has ended the socket is closed; the result is the
    descriptor of that socket, [None] while the loop has not ended. *)
Definition can_thread {A St} (cb : A -> St -> out St) (w : os) (inst : canthread_instance_t)
    (rounds : list (round A)) (s : St) : out (option Z * St) :=
  opened ← can_open w (Some (can_connection inst)) (Some (can_bus_name inst));
  r ← can_read_loop (Some cb) opened.2 rounds s;
  Ret (match r.1 with Some _ => (can_close opened.2).2 | None => None end, r.2).

(** ** Frames reach the callback in order *)

(** Rounds that neither end the loop nor lose a frame. *)
Definition quiet {A} (r : round A) : bool :=
  match r with Idle => true | Received n _ => SIZEOF_CAN_FRAME <=? n | _ => false end.

Definition frame_in {A} (r : round A) : list A :=
  match r with Received _ f => [f] | _ => [] end.

Definition frames_in {A} (rounds : list (round A)) : list A := mjoin (frame_in <$> rounds).

(** The callback on a list of frames. *)
Fixpoint deliver {A St} (cb : A -> St -> out St) (fs : list A) (s : St) : out St :=
  match fs with [] => Ret s | f :: fs => s ← cb f s; deliver cb fs s end.

(** The result of the last [select] of some rounds. *)
Definition last_ret {A} (rounds : list (round A)) (ret : Z) : Z :=
  fold_left (fun _ r => match r with Received _ _ => 1 | _ => 0 end) rounds ret.

(** Why the loop ends, and what it returns. *)
Definition ending {A} (r : round A) (ret : Z) : option Z :=
  match r with
  | Ended => Some ret
  | SelectFailed => Some (-1)
  | Idle => None
  | Received n _ => if n <? 0 then Some CAN_READ_RECEIVE_ERROR
                    else if n <? SIZEOF_CAN_FRAME then Some CAN_READ_INCOMPLETE_ERROR else None
  end.

Lemma read_rounds_quiet {A St} (cb : A -> St -> out St) rounds rest ret s :
  forallb quiet rounds = true ->
  read_rounds (Some cb) (rounds ++ rest) ret s
  = (s' ← deliver cb (frames_in rounds) s; read_rounds (Some cb) rest (last_ret rounds ret) s').
Proof.
  revert ret s; induction rounds as [|r rounds IH]; intros ret s; [done|].
  cbn [forallb]. rewrite andb_true_iff. intros [Hr Hq].
  destruct r as [| | |n f]; try done.
  - cbn [app read_rounds]. by rewrite IH.
  - cbn [app read_rounds]. cbn [quiet] in Hr. unfold SIZEOF_CAN_FRAME in *. apply Z.leb_le in Hr. zdec.
    change (frames_in (Received n f :: rounds)) with (f :: frames_in rounds).
    cbn [deliver call_back]. destruct (cb f s) as [s1|u]; [|done]. do 2 rewrite ret_bind. by rewrite IH.
Qed.

Lemma read_rounds_ending {A St} (cb : A -> St -> out St) r rest ret s code :
  ending r ret = Some code -> read_rounds (Some cb) (r :: rest) ret s = Ret (Some code, s).
Proof.
  destruct r as [| | |n f]; cbn; [by intros [= <-] | by intros [= <-] | done |].
  destruct (n <? 0); [by intros [= <-]|]. by destruct (n <? SIZEOF_CAN_FRAME); [intros [= <-]|].
Qed.

(** The name that is looked up: what fits in five bytes. *)
Lemma device_name_Ret dev :
  (5 <= length dev)%nat ->
  device_name (Some dev)
  = Ret (before_nul (take 5 dev) ++ repeat 0 (16 - length (before_nul (take 5 dev)))).
Proof.
  intros Hl. unfold device_name, strncpy, CAN_DEVICE_NAME_LEN, IFNAMSIZ. rewrite (proj2 (Nat.ltb_ge _ _)) by done.
  rewrite andb_false_r. set (b := before_nul (take 5 dev)).
  assert (length b <= 5)%nat as Hb.
  { unfold b. pose proof (length_before_nul (take 5 dev)) as H. rewrite length_take in H. lia. }
  rewrite blit_0 by (rewrite length_app, !repeat_length; lia). f_equal.
  rewrite length_app, repeat_length, drop_repeat, <- app_assoc, <- repeat_app.
  do 2 f_equal. lia.
Qed.

Lemma before_nul_zeros s n : no_nul s -> (0 < n)%nat -> before_nul (s ++ repeat 0 n) = s.
Proof. intros Hs Hn. destruct n; [lia|]. by apply before_nul_app. Qed.

Lemma device_name_looked_up dev :
  before_nul (before_nul (take 5 dev) ++ repeat 0 (16 - length (before_nul (take 5 dev))))
  = before_nul (take 5 dev).
Proof.
  apply before_nul_zeros; [apply before_nul_no_nul|].
  pose proof (length_before_nul (take 5 dev)) as H. rewrite length_take in H. lia.
Qed.

(** A connection that opens: the flag is cleared. *)
Lemma can_open_ok w c dev i :
  (5 <= length dev)%nat -> 0 <= os_socket w ->
  os_ifindex w (before_nul (take 5 dev)) = Some i -> 0 <= os_bind w ->
  exists nm, can_open w (Some c) (Some dev) = Ret (CAN_OPEN_NO_ERROR, Some (Can (os_socket w) nm i 0))
    /\ before_nul nm = before_nul (take 5 dev).
Proof.
  intros Hl Hs Hi Hb. unfold can_open. cbn [sock]. zdec. rewrite device_name_Ret by done. run_step.
  rewrite device_name_looked_up, Hi. zdec. eexists. split; [reflexivity|]. apply device_name_looked_up.
Qed.

(** C20: The reader thread delivers every frame, once and in the order of the
    bus, up to the round that ends it, and nothing after it, and closes its
    socket; the result of its loop, which the thread drops, says why it ended
    (after a stop it is the last result of [select]). *)
Theorem reader_delivers_in_order {A St} (cb : A -> St -> out St) w inst i before r rest s s' code :
  0 <= os_socket w < 1024 -> length (can_bus_name inst) = CAN_BUS_LEN ->
  os_ifindex w (before_nul (take 5 (can_bus_name inst))) = Some i -> 0 <= os_bind w ->
  forallb quiet before = true -> deliver cb (frames_in before) s = Ret s' ->
  ending r (last_ret before CAN_READ_NO_ERROR) = Some code ->
  exists c, can_open w (Some (can_connection inst)) (Some (can_bus_name inst)) = Ret (CAN_OPEN_NO_ERROR, Some c)
    /\ can_read_loop (Some cb) (Some c) (before ++ r :: rest) s = Ret (Some code, s')
    /\ can_thread cb w inst (before ++ r :: rest) s = Ret (Some (os_socket w), s').
Proof.
  intros Hs Hl Hi Hb Hq Hd He. unfold can_thread.
  destruct (can_open_ok w (can_connection inst) (can_bus_name inst) i) as (nm & -> & _);
    [rewrite Hl; unfold CAN_BUS_LEN; lia | lia | done | done |].
  set (c := Can (os_socket w) nm i 0).
  assert (can_read_loop (Some cb) (Some c) (before ++ r :: rest) s = Ret (Some code, s')) as E.
  { unfold can_read_loop. cbn [sock c].
    assert (read_rounds (Some cb) (before ++ r :: rest) CAN_READ_NO_ERROR s = Ret (Some code, s')) as E
      by (rewrite read_rounds_quiet, Hd by done; run_step; by apply read_rounds_ending).
    zdec. cbn [ensure]. rewrite ret_bind, E. by destruct (before ++ r :: rest) as [|[] ?]. }
  exists c. split; [done|]. split; [exact E|]. run_step. cbn [snd]. rewrite E. by run_step.
Qed.

(** ** The interface that is opened *)

Lemma canthread_init_Ret inst n junk :
  length (can_bus_name inst) = CAN_BUS_LEN -> no_nul n ->
  exists bus, canthread_init inst (n ++ 0 :: junk) = Ret (CanThread bus (can_connection inst))
    /\ (5 <= length bus)%nat /\ before_nul (take 5 bus) = take 5 n.
Proof.
  intros Hl Hn. set (b := take 5 n).
  assert (no_nul b) as Hnb by (intros H0; apply Hn; rewrite <- (take_drop 5 n); apply elem_of_app; by left).
  assert (length b <= 5)%nat as H5 by (unfold b; rewrite length_take; lia).
  assert (before_nul (take 5 (n ++ 0 :: junk)) = b /\
          (has_nul (take 5 (n ++ 0 :: junk)) = true \/ (5 <= length (n ++ 0%Z :: junk))%nat)) as [Eb Hc].
  { rewrite length_app. destruct (le_lt_dec 5 (length n)) as [H|H].
    - rewrite take_app_le by done. split; [by apply before_nul_id | right; lia].
    - unfold b. rewrite take_app_ge, (take_ge n) by lia. destruct (5 - length n)%nat eqn:E; [lia|].
      cbn [take]. split; [by apply before_nul_app|]. left. apply bool_decide_eq_true. set_solver. }
  exists ((b ++ repeat 0 (5 - length b)) ++ drop 5 (can_bus_name inst)).
  assert (length (b ++ repeat 0 (5 - length b)) = 5%nat) as Hl5 by (rewrite length_app, repeat_length; lia).
  split_and!.
  - unfold canthread_init, strncpy, CAN_BUS_NAME_LEN. rewrite Eb.
    assert (negb (has_nul (take 5 (n ++ 0 :: junk))) && (length (n ++ 0%Z :: junk) <? 5)%nat = false) as ->.
    { destruct Hc as [-> | Hc]; [done|]. rewrite (proj2 (Nat.ltb_ge _ _)) by done. apply andb_false_r. }
    rewrite blit_0 by (rewrite Hl5, Hl; unfold CAN_BUS_LEN; lia). by rewrite Hl5.
  - rewrite length_app, Hl5. lia.
  - rewrite take_app_length' by done. destruct (5 - length b)%nat eqn:E; [|by apply before_nul_app].
    rewrite app_nil_r. by apply before_nul_id.
Qed.

(** The reader opens the interface named by the first five bytes of the
    configured bus name, whatever the previous contents of the instance: a
    longer name silently designates another interface. *)
Lemma bus_name_truncated w inst n junk :
  length (can_bus_name inst) = CAN_BUS_LEN -> no_nul n -> 0 <= os_socket w ->
  exists inst' code c,
    canthread_init inst (n ++ 0 :: junk) = Ret inst'
    /\ can_open w (Some (can_connection inst')) (Some (can_bus_name inst')) = Ret (code, Some c)
    /\ before_nul (ifr_name c) = take 5 n
    /\ (code = CAN_OPEN_IOCTL_ERROR <-> os_ifindex w (take 5 n) = None).
Proof.
  intros Hl Hn Hs. destruct (canthread_init_Ret inst n junk Hl Hn) as (bus & E & Hlb & Hb).
  exists (CanThread bus (can_connection inst)). rewrite E. cbn [can_connection can_bus_name].
  unfold can_open. cbn [sock]. zdec. rewrite device_name_Ret by lia. run_step.
  pose proof (device_name_looked_up bus) as Hd. rewrite Hb in *. rewrite Hd.
  destruct (os_ifindex w (take 5 n)) as [i|]; [destruct (os_bind w <? 0)|];
    do 2 eexists; (split; [done|]; split; [reflexivity|]; split; [exact Hd | by split]).
Qed.

(** ** Stopping the reader *)

(** The reader's and the stopper's position. *)
Inductive reader_pc : Set := Starting | Looping | Finished.
Inductive stopper_pc : Set := Active | Joining | Joined.

Record threads := Threads { conn : can_t; reader : reader_pc; stopper : stopper_pc }.

(** One step of either thread; [faulty] allows the bus to fail.  A socket that
    cannot be created is left out: [can_read_loop] then has no valid
    descriptor. *)
Inductive step (w : os) (dev : option bytes) (faulty : bool) : threads -> threads -> Prop :=
| step_open c c' code m :
    can_open w (Some c) dev = Ret (code, Some c') -> code <> CAN_OPEN_SOCKET_ERROR ->
    step w dev faulty (Threads c Starting m) (Threads c' Looping m)
| step_round c m :
    end_loop c <> 1 -> step w dev faulty (Threads c Looping m) (Threads c Looping m)
| step_failed c m :
    end_loop c <> 1 -> faulty = true -> step w dev faulty (Threads c Looping m) (Threads c Finished m)
| step_ended c m :
    end_loop c = 1 -> step w dev faulty (Threads c Looping m) (Threads c Finished m)
| step_stop c r : step w dev faulty (Threads c r Active) (Threads (can_end_loop c) r Joining)
| step_join c : step w dev faulty (Threads c Finished Joining) (Threads c Finished Joined).

(** A stop that comes before the reader has opened its socket is lost:
    opening clears the flag, and as long as the bus does not fail the reader
    never ends and the stopping thread waits for it forever. *)
Lemma early_stop_of_reader_lost w dev c i :
  (5 <= length dev)%nat -> 0 <= os_socket w ->
  os_ifindex w (before_nul (take 5 dev)) = Some i -> 0 <= os_bind w ->
  exists s, rtc (step w (Some dev) false) (Threads c Starting Active) s
    /\ forall s', rtc (step w (Some dev) false) s s' -> reader s' = Looping /\ stopper s' = Joining.
Proof.
  intros Hl Hs Hi Hb. destruct (can_open_ok w (can_end_loop c) dev i Hl Hs Hi Hb) as (nm & Ho & _).
  exists (Threads (Can (os_socket w) nm i 0) Looping Joining). split.
  - eapply rtc_l; [apply step_stop|]. apply rtc_once. by eapply step_open.
  - assert (forall s s', rtc (step w (Some dev) false) s s' ->
      end_loop (conn s) = 0 /\ reader s = Looping /\ stopper s = Joining ->
      reader s' = Looping /\ stopper s' = Joining) as G; [|intros s' H; by apply (G _ _ H)].
    intros s s' H. induction H as [|s1 s2 s3 Hstep _ IH]; [by intros (_ & ? & ?)|].
    intros (He & Hr & Hst). apply IH. inversion Hstep; subst; cbn in *; try done. by rewrite He in *.
Qed.

(** Once the reader has opened its socket a stop is heeded: whatever the
    two threads do from then on takes at most two steps, and wherever they are
    the stopping thread can still complete its join. *)
Lemma stop_after_open_ends w dev c n s :
  nsteps (step w dev true) n (Threads (can_end_loop c) Looping Joining) s ->
  (n <= 2)%nat /\ exists s', rtc (step w dev false) s s' /\ reader s' = Finished /\ stopper s' = Joined.
Proof.
  intros H. set (e := can_end_loop c) in *.
  assert (end_loop e = 1) as He by done. clearbody e.
  inversion H as [|m a b ? Hs1 H1]; subst.
  { split; [lia|]. exists (Threads e Finished Joined). split; [|done].
    eapply rtc_l; [by apply step_ended | apply rtc_once, step_join]. }
  inversion Hs1; subst; try done. inversion H1 as [|m' a' b' ? Hs2 H2]; subst.
  { split; [lia|]. exists (Threads e Finished Joined). split; [apply rtc_once, step_join | done]. }
  inversion Hs2; subst. inversion H2 as [|m3 a3 b3 ? Hs3 H3]; subst; [|by inversion Hs3].
  split; [lia|]. exists (Threads e Finished Joined). by split; [apply rtc_refl|].
Qed.

(** ** Sending a frame by its text *)

(** The frame that is written is the one the text was printed from, in its
    canonical form, and the result is that of sending it directly. *)
Lemma sent_text_is_frame buf cf sep c written :
  frame_wf cf -> (33 <= length buf)%nat ->
  exists buf', sprint_canframe buf cf sep = Ret buf'
    /\ can_send_frame_str written (Some c) (Some buf')
       = Ret (can_send_frame written (Some c) (Some (canon cf)), Some (canon cf)).
Proof.
  intros Hw Hb. destruct (sprint_canframe_text buf cf sep Hw Hb) as [junk ->]. eexists. split; [done|].
  unfold can_send_frame_str. by rewrite parse_canframe_text.
Qed.

(** ** Instances *)

Module CanLinuxWitness.
Definition vcan_os : os :=
  Os 3 (fun n => if bool_decide (n = cstr "vcan0") then Some 7 else if bool_decide (n = cstr "slcan") then Some 8
                 else None) 0.
Definition no_conn : can_t := Can 0 [] 0 0.
Definition fresh_inst : canthread_instance_t := CanThread (repeat 0 64) no_conn.
Definition vcan_inst : canthread_instance_t := CanThread (cstr "vcan0" ++ repeat 0 59) no_conn.
Definition record_frame (f : Z) (s : list Z) : out (list Z) := Ret (s ++ [f]).

(** Two frames around a timeout, then a truncated one. *)
Lemma reader_delivers_in_order_witness :
  exists c, can_open vcan_os (Some (can_connection vcan_inst)) (Some (can_bus_name vcan_inst))
            = Ret (CAN_OPEN_NO_ERROR, Some c)
    /\ can_read_loop (Some record_frame) (Some c)
         ([Received 16 1; Idle; Received 16 2] ++ Received 4 3 :: [Received 16 4]) []
       = Ret (Some CAN_READ_INCOMPLETE_ERROR, [1; 2])
    /\ can_thread record_frame vcan_os vcan_inst
         ([Received 16 1; Idle; Received 16 2] ++ Received 4 3 :: [Received 16 4]) []
       = Ret (Some 3, [1; 2]).
Proof.
  refine (reader_delivers_in_order record_frame vcan_os vcan_inst 7 [Received 16 1; Idle; Received 16 2]
            (Received 4 3) [Received 16 4] [] [1; 2] CAN_READ_INCOMPLETE_ERROR _ _ _ _ _ _ _);
    try reflexivity; cbn; lia.
Defined.

Lemma bus_name_truncated_witness :
  exists inst' code c,
    canthread_init fresh_inst (cstr "slcan0" ++ 0 :: []) = Ret inst'
    /\ can_open vcan_os (Some (can_connection inst')) (Some (can_bus_name inst')) = Ret (code, Some c)
    /\ before_nul (ifr_name c) = take 5 (cstr "slcan0")
    /\ (code = CAN_OPEN_IOCTL_ERROR <-> os_ifindex vcan_os (take 5 (cstr "slcan0")) = None).
Proof.
  refine (bus_name_truncated vcan_os fresh_inst (cstr "slcan0") [] _ _ _);
    [reflexivity | apply (bool_decide_unpack _); vm_compute; exact I | cbn; lia].
Defined.

Lemma early_stop_of_reader_lost_witness :
  exists s, rtc (step vcan_os (Some (can_bus_name vcan_inst)) false) (Threads no_conn Starting Active) s
    /\ forall s', rtc (step vcan_os (Some (can_bus_name vcan_inst)) false) s s' ->
                  reader s' = Looping /\ stopper s' = Joining.
Proof.
  refine (early_stop_of_reader_lost vcan_os (can_bus_name vcan_inst) no_conn 7 _ _ _ _);
    [apply Nat.leb_le; reflexivity | cbn; lia | reflexivity | cbn; lia].
Defined.

Lemma stop_after_open_ends_witness :
  (0 <= 2)%nat /\ exists s', rtc (step vcan_os None false) (Threads (can_end_loop no_conn) Looping Joining) s'
    /\ reader s' = Finished /\ stopper s' = Joined.
Proof.
  refine (stop_after_open_ends vcan_os None no_conn 0 (Threads (can_end_loop no_conn) Looping Joining) _).
  apply nsteps_O.
Defined.

(** The name of a serial CAN adapter loses its digit. *)
Lemma slcan0_opens_slcan :
  (inst ← canthread_init fresh_inst (cstr "slcan0" ++ [0]);
   r ← can_open vcan_os (Some (can_connection inst)) (Some (can_bus_name inst)); Ret (option_map can_ifindex r.2))
  = Ret (Some 8).
Proof. vm_compute. reflexivity. Qed.
End CanLinuxWitness.
