(* ===== verification/CanOpenSdo.v ===== *)
(** * The CANopen object dictionary (src/plugins/pip/canopen/canopen_sdo.c, .h)

    The table of the service data objects the receiver knows, the search by
    index, and the conversion of a raw reading to a physical value, which is
    computed in single precision and clamped as a double. *)

From S2P Require Import Prelude CStd Floats.

(** ** canopen_sdo.h *)

Record canopensdo_sdo_object_t := SdoObject {
  index : Z;
  name : bytes;
  unit_ : bytes;
  factor : float;
  offset : float;
  min : Z;
  max : Z }.

(** The member [type] is never assigned or read. *)
Record canopensdo_parsed_data_t := ParsedData { p_value : double; p_unit : bytes; p_name : bytes }.

Definition CANOPEN_SDO_BMS_BAT_VOLTAGE_IDX : Z := 0x200136.
Definition CANOPEN_SDO_ANALOGUE_BRAKE_FULL_VOLTAGE_IDX : Z := 0x200318.
Definition CANOPEN_SDO_ANALOGUE_BRAKE_OFF_VOLTAGE_IDX : Z := 0x200318.
Definition CANOPEN_SDO_CONTROLLER_TEMPERATURE_IDX : Z := 0x200404.
Definition CANOPEN_SDO_VEHICLE_SPEED_IDX : Z := 0x200405.
Definition CANOPEN_SDO_MOTOR_RPM_IDX : Z := 0x200408.
Definition CANOPEN_SDO_MOTOR_SPEED_IDX : Z := 0x200409.
Definition CANOPEN_SDO_BATTERY_VOLTAGE_IDX : Z := 0x20040A.
Definition CANOPEN_SDO_BATTERY_CURRENT_IDX : Z := 0x20040B.
Definition CANOPEN_SDO_BATTERY_SOC_IDX : Z := 0x20040C.
Definition CANOPEN_SDO_THROTTLE_VOLTAGE_IDX : Z := 0x20040F.
Definition CANOPEN_SDO_BRAKE_1_VOLTAGE_IDX : Z := 0x200410.
Definition CANOPEN_SDO_BRAKE_2_VOLTAGE_IDX : Z := 0x200411.
Definition CANOPEN_SDO_BATTERY_POWER_PERCENT_IDX : Z := 0x200419.
Definition CANOPEN_SDO_RAW_BATTERY_VOLTAGE_IDX : Z := 0x200424.
Definition CANOPEN_SDO_WHEEL_RPM_SPEED_SENSOR_BASED_IDX : Z := 0x200438.
Definition CANOPEN_SDO_WHEEL_RPM_MOTOR_BASED_IDX : Z := 0x200439.
Definition CANOPEN_SDO_TRIP_METER_IDX : Z := 0x200619.
Definition CANOPEN_SDO_REMOTE_THROTTLE_VOLTAGE_IDX : Z := 0x200730.
Definition CANOPEN_SDO_TPDO0_MAPPING1_IDX : Z := 0x1a0001.
Definition CANOPEN_SDO_TPDO0_MAPPING2_IDX : Z := 0x1a0002.
Definition CANOPEN_SDO_TPDO0_MAPPING3_IDX : Z := 0x1a0003.
Definition CANOPEN_SDO_TPDO0_MAPPING4_IDX : Z := 0x1a0004.

(** ** canopen_sdo.c *)

(** A row whose factor is an integer; every offset is 0.0. *)
Definition sdo_row (i : Z) (n u : string) (f lo hi : Z) : canopensdo_sdo_object_t :=
  SdoObject i (cstr n) (cstr u) (float_of_Z f) (S754_zero false) lo hi.

(** The literal 40.96 is a double, converted to the member's type. *)
Definition motor_speed_row : canopensdo_sdo_object_t :=
  SdoObject CANOPEN_SDO_MOTOR_SPEED_IDX (cstr "motor speed") (cstr "% or rated rpm")
    (float_of_double (double_lit 4096 100)) (S754_zero false) (-32768) 32767.

Definition sdo_db : list canopensdo_sdo_object_t :=
  [ sdo_row CANOPEN_SDO_BMS_BAT_VOLTAGE_IDX "bms bat voltage" "" 32 (-32768) 32767;
    sdo_row CANOPEN_SDO_ANALOGUE_BRAKE_FULL_VOLTAGE_IDX
      "analogue brake full voltage" "Volts" 4096 (-32768) 32767;
    sdo_row CANOPEN_SDO_ANALOGUE_BRAKE_OFF_VOLTAGE_IDX
      "analogue brake off voltage" "Volts" 4096 (-32768) 32767;
    sdo_row CANOPEN_SDO_CONTROLLER_TEMPERATURE_IDX "controller temperature" "deg C" 1 (-32768) 32767;
    sdo_row CANOPEN_SDO_VEHICLE_SPEED_IDX "vehicle speed" "km/hr" 256 (-32768) 32767;
    sdo_row CANOPEN_SDO_MOTOR_RPM_IDX "motor rpm" "RPM" 1 (-32768) 32767;
    motor_speed_row;
    sdo_row CANOPEN_SDO_BATTERY_VOLTAGE_IDX "battery voltage" "Volts" 32 (-32768) 32767;
    sdo_row CANOPEN_SDO_BATTERY_CURRENT_IDX "battery current" "Amps" 1 (-32768) 32767;
    sdo_row CANOPEN_SDO_BATTERY_SOC_IDX "battery state of charge" "%" 1 (-32768) 100;
    sdo_row CANOPEN_SDO_THROTTLE_VOLTAGE_IDX "throttle voltage" "Volts" 4096 (-32768) 32767;
    sdo_row CANOPEN_SDO_BRAKE_1_VOLTAGE_IDX "brake 1 voltage" "Volts" 4096 (-32768) 32767;
    sdo_row CANOPEN_SDO_BRAKE_2_VOLTAGE_IDX "brake 2 voltage" "Volts" 4096 (-32768) 32767;
    sdo_row CANOPEN_SDO_BATTERY_POWER_PERCENT_IDX
      "battery power percent" "% of rated power" 1 (-32768) 100;
    sdo_row CANOPEN_SDO_RAW_BATTERY_VOLTAGE_IDX "raw battery voltage" "pu V" 4096 (-32768) 32767;
    sdo_row CANOPEN_SDO_WHEEL_RPM_SPEED_SENSOR_BASED_IDX
      "wheel rpm (speed sensor based)" "RPM" 16 (-32768) 32767;
    sdo_row CANOPEN_SDO_WHEEL_RPM_MOTOR_BASED_IDX "wheel rpm (motor based)" "RPM" 16 (-32768) 32767;
    sdo_row CANOPEN_SDO_TRIP_METER_IDX "trip meter" "km" 100 (-32768) 32767;
    sdo_row CANOPEN_SDO_REMOTE_THROTTLE_VOLTAGE_IDX
      "remote throttle voltage" "Volts" 4096 (-32768) 32767;
    sdo_row CANOPEN_SDO_TPDO0_MAPPING1_IDX "TPDO0 map1" "" 1 (-32768) 32767;
    sdo_row CANOPEN_SDO_TPDO0_MAPPING2_IDX "TPDO0 map2" "" 1 (-32768) 32767;
    sdo_row CANOPEN_SDO_TPDO0_MAPPING3_IDX "TPDO0 map3" "" 1 (-32768) 32767;
    sdo_row CANOPEN_SDO_TPDO0_MAPPING4_IDX "TPDO0 map4" "" 1 (-32768) 32767 ].

(** The first row with the index; [None] is the null pointer. *)
Fixpoint sdo_search (db : list canopensdo_sdo_object_t) (i : Z) : option canopensdo_sdo_object_t :=
  match db with
  | [] => None
  | o :: db => if index o =? i then Some o else sdo_search db i
  end.

Definition canopensdo_get (i : Z) : option canopensdo_sdo_object_t := sdo_search sdo_db i.

(** The value of a reading: [data] is a [uint64_t]. *)
Definition sdo_value (o : canopensdo_sdo_object_t) (data : Z) : double :=
  let v := double_of_float (float_add (float_div (float_of_Z data) (factor o)) (offset o)) in
  let v := if SFltb (double_of_Z (max o)) v then double_of_Z (max o) else v in
  if SFltb v (double_of_Z (min o)) then double_of_Z (min o) else v.

(** [None]: the caller's structure is not initialised.  The switch at the end
    of the function has no effect. *)
Definition canopensdo_parse (i data : Z) (p : option canopensdo_parsed_data_t)
  : option canopensdo_parsed_data_t :=
  match canopensdo_get i with
  | Some o => Some (ParsedData (sdo_value o data) (unit_ o) (name o))
  | None => p
  end.

(** ** The table *)

Lemma sdo_search_elem db i o : sdo_search db i = Some o -> o ∈ db /\ index o = i.
Proof.
  induction db as [|r db IH]; cbn; [done|]. destruct (Z.eqb_spec (index r) i) as [Hi|Hi].
  - intros [= ->]. split; [apply elem_of_cons; by left | done].
  - intros [H1 H2]%IH. split; [apply elem_of_cons; by right | done].
Qed.

(** What the conversion needs of a row: a normal positive factor, no offset and
    a range that contains zero. *)
Definition row_ok (o : canopensdo_sdo_object_t) : bool :=
  match factor o, offset o with
  | S754_finite false _ _, S754_zero false =>
      (min o =? -32768) && ((max o =? 32767) || (max o =? 100))
  | _, _ => false
  end.

Lemma sdo_db_ok o : o ∈ sdo_db -> row_ok o = true.
Proof.
  intros Ho. assert (Forall (fun o => row_ok o = true) sdo_db) as Hdb
    by (apply (bool_decide_unpack _); vm_compute; exact I).
  by apply (proj1 (list.Forall_forall _ _) Hdb).
Qed.

Lemma canopensdo_get_ok i o : canopensdo_get i = Some o -> row_ok o = true /\ index o = i.
Proof. intros [H1 H2]%sdo_search_elem. split; [by apply sdo_db_ok | done]. Qed.

Lemma row_ok_inv o :
  row_ok o = true ->
  (exists m e, factor o = S754_finite false m e) /\ offset o = S754_zero false
  /\ min o = -32768 /\ (max o = 32767 \/ max o = 100).
Proof.
  unfold row_ok. intros H. destruct (factor o) as [| | |[] m e]; try done.
  destruct (offset o) as [[]| | |]; try done. znorm H. split; [by exists m, e | naive_solver].
Qed.

(** ** Values *)

Lemma not_below_min x lo : nonneg x = true -> lo < 0 -> SFltb x (double_of_Z lo) = false.
Proof.
  intros Hx Hlo. destruct lo as [|p|p]; [lia | lia|].
  assert (forall y, (match y with S754_finite s _ _ | S754_zero s | S754_infinity s => s = true
                     | S754_nan => True end) -> SFltb x y = false) as Hneg.
  { intros [[]|[]| |[] m e]; try done; intros _; by destruct x as [[]|[]| |[] mx ex]. }
  apply Hneg. unfold double_of_Z, binary_normalize, binary_round.
  destruct (shl_align _ _ _) as [mz ez]. unfold binary_round_aux.
  destruct (shr_fexp _ _ _ _ _) as [r e]. destruct (shr_fexp _ _ _ _ _) as [r' e'].
  destruct (shr_m r') as [|q|q]; [done | by destruct (_ <=? _) | done].
Qed.

Lemma leb_of_not_lt x y :
  nonneg x = true -> nonneg y = true -> SFltb x y = false -> SFleb y x = true.
Proof.
  destruct x as [[]|[]| |[] m e], y as [[]|[]| |[] m' e']; try done; intros _ _.
  unfold SFltb, SFleb, SFcompare. rewrite (Z.compare_antisym e e').
  destruct (Z.compare e e') eqn:E; cbn [CompOpp]; try done.
  change (Pos.compare_cont Eq m m') with (Pos.compare m m').
  change (Pos.compare_cont Eq m' m) with (Pos.compare m' m).
  rewrite (Pos.compare_antisym m m'). by destruct (Pos.compare m m').
Qed.

Lemma SFleb_refl x : nonneg x = true -> SFleb x x = true.
Proof.
  destruct x as [[]|[]| |[] m e]; try done. intros _. unfold SFleb, SFcompare.
  rewrite Z.compare_refl. change (Pos.compare_cont Eq m m) with (Pos.compare m m).
  by rewrite Pos.compare_refl.
Qed.

(** A reading is never negative, never a NaN and never above the maximum. *)
Lemma sdo_value_bounds o data :
  row_ok o = true -> 0 <= data ->
  nonneg (sdo_value o data) = true /\ SFleb (sdo_value o data) (double_of_Z (max o)) = true.
Proof.
  intros ((m & e & Hf) & Ho & Hmin & Hmax)%row_ok_inv Hd. unfold sdo_value. rewrite Hf, Ho, Hmin.
  set (v := double_of_float _).
  assert (nonneg v = true) as Hv.
  { unfold v, float_add. rewrite add_zero_r; unfold float_div, float_of_Z, double_of_float; auto with floats. }
  assert (nonneg (double_of_Z (max o)) = true) as Hm by (apply normalize_nonneg; lia).
  destruct (SFltb (double_of_Z (max o)) v) eqn:E; rewrite not_below_min by (done || lia).
  - split; [done | by apply SFleb_refl].
  - split; [done | by apply leb_of_not_lt].
Qed.

(** ** Exact readings *)

(** The row's factor is [2 ^ k]. *)
Definition factor_pow2 (o : canopensdo_sdo_object_t) (k : Z) : Prop :=
  factor o = S754_finite false (shl_pos 1 23) (k - 23).

Lemma digits_le p k : Zpos p < 2 ^ k -> Zpos (digits2_pos p) <= k.
Proof.
  intros Hp. pose proof (digits_bound p) as [H _].
  destruct (Z.le_gt_cases k 0) as [Hk|Hk].
  - assert (2 ^ k <= 1); [|lia]. destruct (Z.eq_dec k 0) as [->|]; [done|].
    rewrite Z.pow_neg_r by lia. lia.
  - apply Z.lt_succ_r. assert (Zpos (digits2_pos p) - 1 < k); [|lia].
    apply (Z.pow_lt_mono_r_iff 2); lia.
Qed.

(** The double of an integer divided by a power of two. *)
Lemma scaled_double p k :
  Zpos p < 2 ^ 53 -> 0 <= k <= 100 ->
  binary_normalize 53 1024 (Zpos p) (- k) false
  = S754_finite false (shl_pos p (53 - Zpos (digits2_pos p))) (Zpos (digits2_pos p) - k - 53).
Proof.
  intros Hp Hk. pose proof (digits_le p 53 Hp). cbn [binary_normalize].
  rewrite round_exact by lia. f_equal; lia.
Qed.

(** A reading of at most three bytes divided in single precision. *)
Lemma reading_exact p k :
  Zpos p < 2 ^ 24 -> 0 <= k <= 100 ->
  double_of_float (float_add (float_div (float_of_Z (Zpos p)) (S754_finite false (shl_pos 1 23) (k - 23)))
                     (S754_zero false))
  = binary_normalize 53 1024 (Zpos p) (- k) false.
Proof.
  intros Hp Hk. pose proof (digits_le p 24 Hp) as Hd.
  rewrite scaled_double by lia. set (d := Zpos (digits2_pos p)) in *.
  unfold float_of_Z, float_div, float_add. cbn [binary_normalize].
  rewrite (round_exact 24 128) by (fold d; lia). fold d. rewrite Z.add_0_r.
  assert (Zpos (digits2_pos (shl_pos p (24 - d))) = 24) as Hd24 by (rewrite digits_shl by lia; fold d; lia).
  rewrite (div_exact 24 128) by (done || lia). cbn [SFadd].
  unfold double_of_float, convert. rewrite (round_exact 53 1024) by (rewrite Hd24; lia).
  rewrite Hd24. f_equal; [|lia]. apply Pos2Z.inj. rewrite !shl_pos_Z by lia.
  rewrite <- Z.mul_assoc, <- Z.pow_add_r by lia. do 2 f_equal. lia.
Qed.

Lemma double_of_pos p :
  Zpos p < 2 ^ 53 -> double_of_Z (Zpos p)
  = S754_finite false (shl_pos p (53 - Zpos (digits2_pos p))) (Zpos (digits2_pos p) - 53).
Proof.
  intros Hp. unfold double_of_Z. change 0 with (- 0) at 1. rewrite scaled_double by lia. f_equal; lia.
Qed.

(** Comparing an integer with such a quotient. *)
Lemma above_scaled hi p k :
  Zpos hi < 2 ^ 53 -> Zpos p < 2 ^ 53 -> 0 <= k <= 100 ->
  SFltb (double_of_Z (Zpos hi)) (binary_normalize 53 1024 (Zpos p) (- k) false)
  = (Zpos hi * 2 ^ k <? Zpos p).
Proof.
  intros Hh Hp Hk. rewrite double_of_pos, scaled_double by lia.
  pose proof (digits_le hi 53 Hh) as Dh. pose proof (digits_le p 53 Hp) as Dp.
  assert (forall q, Zpos (digits2_pos q) <= 53 ->
            Zpos (digits2_pos (shl_pos q (53 - Zpos (digits2_pos q)))) = 53) as D53
    by (intros q Hq; rewrite digits_shl by lia; lia).
  unfold SFltb. rewrite (compare_normal _ _ _ _ (- k - 53)).
  2:{ apply Pos2Z.inj. by rewrite !D53. }
  2,3: lia.
  rewrite !shl_pos_Z by lia. rewrite <- !Z.mul_assoc, <- !Z.pow_add_r by lia.
  replace (53 - Zpos (digits2_pos hi) + (Zpos (digits2_pos hi) - 53 - (- k - 53))) with (k + 53) by lia.
  replace (53 - Zpos (digits2_pos p) + (Zpos (digits2_pos p) - k - 53 - (- k - 53))) with 53 by lia.
  rewrite Z.pow_add_r, Z.mul_assoc by lia. rewrite <- Zmult_compare_compat_r by lia.
  rewrite Z.ltb_compare. by destruct (_ ?= _).
Qed.

Lemma scaled_nonneg p k : nonneg (binary_normalize 53 1024 (Zpos p) k false) = true.
Proof. by apply normalize_nonneg. Qed.

(** C13: A reading of up to three bytes of an object whose factor is a power of
    two is published exactly: the value is the reading divided by the factor,
    without rounding, and the object's maximum when it is larger. *)
Theorem sdo_value_exact i o k data :
  canopensdo_get i = Some o -> factor_pow2 o k -> 0 <= k <= 100 -> 0 <= data < 2 ^ 24 ->
  sdo_value o data
  = if max o * 2 ^ k <? data then double_of_Z (max o) else binary_normalize 53 1024 data (- k) false.
Proof.
  intros [Hok _]%canopensdo_get_ok Hf Hk Hd.
  destruct (row_ok_inv o Hok) as (_ & Ho & Hmin & Hmax).
  unfold factor_pow2 in Hf. unfold sdo_value. rewrite Hf, Ho, Hmin. destruct data as [|p|p]; [| |lia].
  { change (float_of_Z 0) with (S754_zero false). cbn [float_div SFdiv xorb float_add SFadd double_of_float convert].
    pose proof (Z.pow_pos_nonneg 2 k). destruct Hmax as [Hm | Hm]; rewrite Hm; zdec; reflexivity. }
  rewrite reading_exact by lia. destruct (max o) as [|hi|hi] eqn:Eh; [lia | |lia].
  rewrite above_scaled by lia. destruct (_ <? _).
  - by rewrite not_below_min by (try apply normalize_nonneg; lia).
  - by rewrite not_below_min by (try apply scaled_nonneg; lia).
Qed.

(** The battery voltage of 48.5 V is sent as 1552 and published as 48.5. *)
Lemma sdo_value_exact_witness :
  canopensdo_get CANOPEN_SDO_BATTERY_VOLTAGE_IDX
    = Some (sdo_row CANOPEN_SDO_BATTERY_VOLTAGE_IDX "battery voltage" "Volts" 32 (-32768) 32767)
  /\ sdo_value (sdo_row CANOPEN_SDO_BATTERY_VOLTAGE_IDX "battery voltage" "Volts" 32 (-32768) 32767) 1552
     = (if 32767 * 2 ^ 5 <? 1552 then double_of_Z 32767 else binary_normalize 53 1024 1552 (- 5) false).
Proof.
  split; [reflexivity|].
  refine (sdo_value_exact CANOPEN_SDO_BATTERY_VOLTAGE_IDX
            (sdo_row CANOPEN_SDO_BATTERY_VOLTAGE_IDX "battery voltage" "Volts" 32 (-32768) 32767)
            5 1552 _ _ _ _); [reflexivity | reflexivity | lia | lia].
Defined.

(** ** Known limits *)

(** The dictionary reads every object as unsigned: minus five degrees, sent as
    a 16-bit or as a 32-bit integer, are published as 32767. *)
Lemma negative_temperature_is_maximal :
  (fun d => p_value <$> canopensdo_parse CANOPEN_SDO_CONTROLLER_TEMPERATURE_IDX d None) <$>
    [2 ^ 16 - 5; 2 ^ 64 - 5]
  = [Some (double_of_Z 32767); Some (double_of_Z 32767)].
Proof. vm_compute. reflexivity. Qed.

(** The two brake objects share their index, so the second row is never found. *)
Lemma brake_off_row_hidden :
  name <$> canopensdo_get CANOPEN_SDO_ANALOGUE_BRAKE_OFF_VOLTAGE_IDX
  = Some (cstr "analogue brake full voltage").
Proof. reflexivity. Qed.
