(* ===== verification/CanOpen.v ===== *)
(** * The CANopen receiver (src/plugins/pip/canopen/pip_plugin_canopen.c)

    One thread hands over the frames of the bus, a second one sends a SYNC
    message and the read requests of the wanted signals at fixed periods.  The
    two share the node, the flags of the dataset and the socket; the JSON
    objects belong to the first alone, under the lock of the data dumper. *)

From S2P Require Import Prelude CStd CanText CanLinux Dataset Floats CanOpenSdo.

Inductive canopen_signal : Set :=
| bms_bat_voltage | analogue_brake_full_voltage | analogue_brake_off_voltage
| controller_temperature | vehicle_speed | motor_rpm | motor_speed | battery_voltage
| battery_current | battery_soc | throttle_voltage | brake_1_voltage | brake_2_voltage
| battery_power_percent | raw_battery_voltage | wheel_rpm_speed_sensor_based
| wheel_rpm_motor_based | trip_meter | remote_throttle_voltage.

#[export] Instance canopen_signal_eq_dec : EqDecision canopen_signal.
Proof. solve_decision. Defined.

(** The signals in the order of [can_json_filler] and of the cascade of
    [can_read_callback], each with its JSON name, which is also the name of its
    flag, and the index of its object. *)
Definition canopen_signals : list (canopen_signal * string * Z) :=
  [ (bms_bat_voltage, "bms_bat_voltage", CANOPEN_SDO_BMS_BAT_VOLTAGE_IDX);
    (analogue_brake_full_voltage, "analogue_brake_full_voltage",
      CANOPEN_SDO_ANALOGUE_BRAKE_FULL_VOLTAGE_IDX);
    (analogue_brake_off_voltage, "analogue_brake_off_voltage",
      CANOPEN_SDO_ANALOGUE_BRAKE_OFF_VOLTAGE_IDX);
    (controller_temperature, "controller_temperature", CANOPEN_SDO_CONTROLLER_TEMPERATURE_IDX);
    (vehicle_speed, "vehicle_speed", CANOPEN_SDO_VEHICLE_SPEED_IDX);
    (motor_rpm, "motor_rpm", CANOPEN_SDO_MOTOR_RPM_IDX);
    (motor_speed, "motor_speed", CANOPEN_SDO_MOTOR_SPEED_IDX);
    (battery_voltage, "battery_voltage", CANOPEN_SDO_BATTERY_VOLTAGE_IDX);
    (battery_current, "battery_current", CANOPEN_SDO_BATTERY_CURRENT_IDX);
    (battery_soc, "battery_soc", CANOPEN_SDO_BATTERY_SOC_IDX);
    (throttle_voltage, "throttle_voltage", CANOPEN_SDO_THROTTLE_VOLTAGE_IDX);
    (brake_1_voltage, "brake_1_voltage", CANOPEN_SDO_BRAKE_1_VOLTAGE_IDX);
    (brake_2_voltage, "brake_2_voltage", CANOPEN_SDO_BRAKE_2_VOLTAGE_IDX);
    (battery_power_percent, "battery_power_percent", CANOPEN_SDO_BATTERY_POWER_PERCENT_IDX);
    (raw_battery_voltage, "raw_battery_voltage", CANOPEN_SDO_RAW_BATTERY_VOLTAGE_IDX);
    (wheel_rpm_speed_sensor_based, "wheel_rpm_speed_sensor_based",
      CANOPEN_SDO_WHEEL_RPM_SPEED_SENSOR_BASED_IDX);
    (wheel_rpm_motor_based, "wheel_rpm_motor_based", CANOPEN_SDO_WHEEL_RPM_MOTOR_BASED_IDX);
    (trip_meter, "trip_meter", CANOPEN_SDO_TRIP_METER_IDX);
    (remote_throttle_voltage, "remote_throttle_voltage",
      CANOPEN_SDO_REMOTE_THROTTLE_VOLTAGE_IDX) ]%string.

Definition all_canopen_signals : list canopen_signal := (fun e => e.1.1) <$> canopen_signals.

#[export] Program Instance canopen_signal_countable : Countable canopen_signal := {
  encode := fun s => match list_find (s =.) all_canopen_signals with
                     | Some (i, _) => Pos.of_succ_nat i | None => 1%positive end;
  decode := fun p => all_canopen_signals !! Nat.pred (Pos.to_nat p)
}.
Next Obligation. by intros []. Qed.

Definition signal_name (s : canopen_signal) : bytes :=
  match list_find (fun e => e.1.1 = s) canopen_signals with Some (_, e) => cstr e.1.2 | None => [] end.
Definition signal_index (s : canopen_signal) : Z :=
  match list_find (fun e => e.1.1 = s) canopen_signals with Some (_, e) => e.2 | None => 0 end.

(** [wanted_signals->s]. *)
Definition flag (d : bytes) (s : canopen_signal) : Z :=
  field_byte canopen01_vehicle_dataset_t d (signal_name s).

(** ** Published values *)

(** The object with the members "value" and "unit". *)
Record sdo_json := SdoJson { j_value : double; j_unit : bytes }.

(** What a non-null pointer points to: an object that has a value or not yet. *)
Abbreviation canopen_objs := (gmap canopen_signal (option sdo_json)).

Definition canopen_json_filler (d : bytes) : list bytes * canopen_objs :=
  fill (flag d) ((fun e => (e.1.1, cstr e.1.2)) <$> canopen_signals) ([], ∅).

(** The cascade: the first signal with the index whose flag is set and whose
    pointer is not null gets the value; otherwise nothing is added. *)
Definition takes (d : bytes) (i : Z) (o : canopen_objs) (s : canopen_signal) (idx : Z) : bool :=
  (i =? idx) && (flag d s =? 1) && bool_decide (is_Some (o !! s)).

Fixpoint publish_sdo (d : bytes) (table : list (canopen_signal * string * Z)) (i : Z) (v : sdo_json)
    (o : canopen_objs) : canopen_objs :=
  match table with
  | [] => o
  | (s, _, idx) :: table =>
      if takes d i o s idx then <[s := Some v]> o
      else publish_sdo d table i v o
  end.

(** ** Frames *)

Definition services_nonodeid : list Z := [0; 0x80; 0x100; 0; 0; 0; 0; 0].
Definition services_nonodeid_names : list bytes :=
  [cstr "NMT"; cstr "SYNC"; cstr "TIME"; []; []; []; []; []].
Definition services : list Z :=
  [0x080; 0x180; 0x200; 0x280; 0x300; 0x380; 0x400; 0x480; 0x500; 0x580; 0x600; 0x700].

Definition CANOPEN_SERVICE_TPDO1 : Z := 0x180.
Definition CANOPEN_SERVICE_TSDO : Z := 0x580.
Definition CANOPEN_SERVICE_HEARTBEAT : Z := 0x700.

(** The search loops keep the last position that matches. *)
Fixpoint find_last (x : Z) (l : list Z) (i : Z) (found : Z) : Z :=
  match l with
  | [] => found
  | y :: l => find_last x l (i + 1) (if x =? y then i else found)
  end.

(** The state of the receiver: the objects, and the frames sent so far. *)
Record canopen_state := CanopenState { objs : canopen_objs; sent : list can_frame }.

Definition set_objs (o : canopen_objs) (s : canopen_state) : canopen_state :=
  CanopenState o (sent s).
Definition send (f : can_frame) (s : canopen_state) : canopen_state :=
  CanopenState (objs s) (sent s ++ [f]).

(** The member [data[i]] of a frame. *)
Definition byte_at (f : can_frame) (i : Z) : out Z := load (fdata f) i.

(** The two low bytes of an object's index are sent in front of its subindex. *)
Definition sdo_index (f : can_frame) : out Z :=
  b3 ← byte_at f 3; b1 ← byte_at f 1; b2 ← byte_at f 2;
  Ret (b3 + Z.shiftl b1 8 + Z.shiftl b2 16).

(** The local [data] is not initialised unless the command is one of the four;
    the top byte is shifted into the sign. *)
Definition sdo_data (f : can_frame) : out Z :=
  command ← byte_at f 0;
  if command =? 0x43 then
    b4 ← byte_at f 4; b5 ← byte_at f 5; b6 ← byte_at f 6; b7 ← byte_at f 7;
    Ret (s32 (b4 + Z.shiftl b5 8 + Z.shiftl b6 16 + Z.shiftl b7 24))
  else if command =? 0x47 then
    b4 ← byte_at f 4; b5 ← byte_at f 5; b6 ← byte_at f 6;
    Ret (b4 + Z.shiftl b5 8 + Z.shiftl b6 16)
  else if command =? 0x4b then
    b4 ← byte_at f 4; b5 ← byte_at f 5; Ret (b4 + Z.shiftl b5 8)
  else if command =? 0x4f then byte_at f 4
  else Undef Uninit.

(** Reading the structure [canopensdo_parse] was to fill. *)
Definition parsed_or_uninit (p : option canopensdo_parsed_data_t) : out canopensdo_parsed_data_t :=
  match p with Some p => Ret p | None => Undef Uninit end.

Section Receiver.
Context (node_id : Z) (d : bytes).

(** The answer to a node that is pre-operational; the frame's other bytes are
    not set and not part of the message. *)
Definition nmt_start : can_frame := Frame 0 2 [1; u8 node_id].

Definition heartbeat (f : can_frame) (s : canopen_state) : out canopen_state :=
  b0 ← byte_at f 0;
  Ret (if b0 =? 0x7f then send nmt_start s else s).

Definition tsdo (f : can_frame) (s : canopen_state) : out canopen_state :=
  i ← sdo_index f;
  data ← sdo_data f;
  parsed ← parsed_or_uninit (canopensdo_parse i (u64 data) None);
  Ret (set_objs (publish_sdo d canopen_signals i (SdoJson (p_value parsed) (p_unit parsed)) (objs s)) s).

(** The four words are computed and dropped. *)
Definition tpdo1 (f : can_frame) : out (Z * Z * Z * Z) :=
  b0 ← byte_at f 0; b1 ← byte_at f 1; b2 ← byte_at f 2; b3 ← byte_at f 3;
  b4 ← byte_at f 4; b5 ← byte_at f 5; b6 ← byte_at f 6; b7 ← byte_at f 7;
  Ret (b0 + Z.shiftl b1 8, b2 + Z.shiftl b3 8, b4 + Z.shiftl b5 8, b6 + Z.shiftl b7 8).

(** [dumped]: the data dumper wrote the objects and called the filler again. *)
Definition dump_if_needed (dumped : bool) (s : canopen_state) : canopen_state :=
  if dumped then set_objs (canopen_json_filler d).2 s else s.

(** A message without a node and one of another service are only printed. *)
Definition can_read_callback (f : can_frame) (dumped : bool) (s : canopen_state) : out canopen_state :=
  if 0 <=? find_last (can_id f) services_nonodeid 0 (-1) then
    _ ← slice 0 (can_dlc f) (fdata f); Ret s
  else
    let service := s32 (can_id f - node_id) in
    if 0 <=? find_last service services 0 (-1) then
      s ← (if service =? CANOPEN_SERVICE_HEARTBEAT then heartbeat f s
           else if service =? CANOPEN_SERVICE_TSDO then tsdo f s
           else if service =? CANOPEN_SERVICE_TPDO1 then _ ← tpdo1 f; Ret s
           else _ ← slice 0 (can_dlc f) (fdata f); Ret s);
      Ret (dump_if_needed dumped s)
    else Ret s.

(** The callback on every frame of a run. *)
Definition receive_all : list (can_frame * bool) -> canopen_state -> out canopen_state :=
  deliver (fun e s => can_read_callback e.1 e.2 s).

(** ** The sending thread *)

Definition CANOPEN_SYNC_COUNTER_PRESCALER : Z := 100000.
Definition CANOPEN_READ_COUNTER_PRESCALER : Z := 400000.

Definition sync_frame : can_frame := Frame 0x80 0 [].

(** [CANOPEN_FILL_FRAME_DATA]: the request for an object. *)
Definition read_frame (x : Z) : can_frame :=
  Frame (0x600 + node_id) 8
    [ 0x40; Z.shiftr (Z.land x 0x00ff00) 8; Z.shiftr (Z.land x 0xff0000) 16; Z.land x 0xff;
      0; 0; 0; 0 ].

(** The requests, in the order of the thread: there is none for the full brake
    voltage. *)
Definition requested : list canopen_signal :=
  [ bms_bat_voltage; analogue_brake_off_voltage; controller_temperature; vehicle_speed; motor_rpm;
    motor_speed; battery_voltage; battery_current; battery_soc; throttle_voltage; brake_1_voltage;
    brake_2_voltage; battery_power_percent; raw_battery_voltage; wheel_rpm_speed_sensor_based;
    wheel_rpm_motor_based; trip_meter; remote_throttle_voltage ].

(** What the thread does, as seen from outside. *)
Inductive action : Set :=
| Send (f : can_frame)
| Usleep (us : Z).

#[export] Instance action_eq_dec : EqDecision action.
Proof. solve_decision. Defined.

Definition read_requests (sleep : Z) : list action :=
  mjoin ((fun s => if flag d s =? 1 then [Send (read_frame (signal_index s)); Usleep sleep] else [])
           <$> requested).

(** [counter++ > prescaler / sleep || prescaler / sleep == 0]: whether the
    block runs, and the counter afterwards, which the block resets. *)
Definition prescale (prescaler sleep counter : Z) : out (bool * Z) :=
  if sleep =? 0 then Undef DivByZero else
  let p := Z.quot prescaler sleep in
  Ret (if (p <? counter) || (p =? 0) then (true, 0) else (false, counter + 1)).

(** One round of the loop. *)
Definition bg_round (sleep : Z) (counters : Z * Z) : out (list action * (Z * Z)) :=
  sync ← prescale CANOPEN_SYNC_COUNTER_PRESCALER sleep counters.1;
  read ← prescale CANOPEN_READ_COUNTER_PRESCALER sleep counters.2;
  Ret ((if (sync.1 : bool) then [Send sync_frame] else [])
       ++ (if (read.1 : bool) then read_requests sleep else []) ++ [Usleep sleep],
       (sync.2, read.2)).

(** [n] rounds before [end_loop] is seen. *)
Fixpoint bg_rounds (n : nat) (sleep : Z) (counters : Z * Z) : out (list (list action)) :=
  match n with
  | O => Ret []
  | S n => r ← bg_round sleep counters; rest ← bg_rounds n sleep r.2; Ret (r.1 :: rest)
  end.

Definition canopen_bg_thread_func (n : nat) (sleep : Z) : out (list (list action)) :=
  bg_rounds n sleep (0, 0).
End Receiver.

(** ** Getters *)

(** [memcpy] of the smaller of the two lengths; [None] is a null buffer. *)
Definition canopenreceiver_get_port_name (port_name : bytes) (buff : option bytes) (len : Z)
  : out (option bytes) :=
  match buff with
  | None => Ret None
  | Some b =>
      if 0 <? len then
        name ← slice 0 (if 256 <? len then 256 else len) port_name; b ← blit b 0 name; Ret (Some b)
      else Ret (Some b)
  end.

(** ** Requests and replies *)

(** A node that has the object answers with the command of the width of its
    value, the index bytes of the request and four bytes of value. *)
Definition sdo_reply (node_id : Z) (s : canopen_signal) (command : Z) (p0 p1 p2 p3 : Z) : can_frame :=
  Frame (0x580 + node_id) 8
    (command :: take 3 (drop 1 (fdata (read_frame node_id (signal_index s)))) ++ [p0; p1; p2; p3]).

(** The value a reply of each width carries. *)
Definition reply_value (command p0 p1 p2 p3 : Z) : option Z :=
  if command =? 0x43 then Some (s32 (from_le [p0; p1; p2; p3]))
  else if command =? 0x47 then Some (from_le [p0; p1; p2])
  else if command =? 0x4b then Some (from_le [p0; p1])
  else if command =? 0x4f then Some (from_le [p0])
  else None.

Lemma sdo_reply_index node_id s c p0 p1 p2 p3 :
  sdo_index (sdo_reply node_id s c p0 p1 p2 p3) = Ret (signal_index s).
Proof. by destruct s. Qed.

Lemma sdo_reply_data node_id s c p0 p1 p2 p3 v :
  reply_value c p0 p1 p2 p3 = Some v -> sdo_data (sdo_reply node_id s c p0 p1 p2 p3) = Ret v.
Proof.
  unfold reply_value, sdo_data. intros E.
  change (byte_at (sdo_reply node_id s c p0 p1 p2 p3) 0) with (Ret c : out Z).
  change (byte_at (sdo_reply node_id s c p0 p1 p2 p3) 4) with (Ret p0 : out Z).
  change (byte_at (sdo_reply node_id s c p0 p1 p2 p3) 5) with (Ret p1 : out Z).
  change (byte_at (sdo_reply node_id s c p0 p1 p2 p3) 6) with (Ret p2 : out Z).
  change (byte_at (sdo_reply node_id s c p0 p1 p2 p3) 7) with (Ret p3 : out Z).
  cbn [from_le] in E. run_step.
  repeat (destruct (c =? _);
    [injection E as <-; repeat run_step; rewrite ?Z.shiftl_mul_pow2 by lia;
     apply (f_equal Ret); first [ lia | apply (f_equal s32); lia ]|]).
  done.
Qed.

Lemma publish_first d l1 s n i l2 v o :
  Forall (fun e => takes d i o e.1.1 e.2 = false) l1 -> takes d i o s i = true ->
  publish_sdo d (l1 ++ (s, n, i) :: l2) i v o = <[s := Some v]> o.
Proof.
  intros H1 H2. induction H1 as [|[[t m] idx] l1 Ht H1 IH]; cbn [app publish_sdo].
  - by rewrite H2.
  - cbn [fst snd] in Ht. by rewrite Ht.
Qed.

(** The table around a signal: the only index that occurs before is that of the
    brake's full voltage, before its off voltage. *)
Lemma canopen_signals_split s :
  exists l1 n l2, canopen_signals = l1 ++ (s, n, signal_index s) :: l2
    /\ Forall (fun e => e.2 = signal_index s ->
                 s = analogue_brake_off_voltage /\ e.1.1 = analogue_brake_full_voltage) l1.
Proof.
  set (k := match list_find (s =.) all_canopen_signals with Some (k, _) => k | None => 0%nat end).
  exists (take k canopen_signals), (default ""%string ((fun e => e.1.2) <$> canopen_signals !! k)),
    (drop (Datatypes.S k) canopen_signals).
  unfold k. destruct s; (split; [reflexivity|]); apply (bool_decide_unpack _); vm_compute; exact I.
Qed.

Lemma publish_signal d s v o :
  flag d s = 1 -> is_Some (o !! s) ->
  (s = analogue_brake_off_voltage ->
     flag d analogue_brake_full_voltage <> 1 \/ o !! analogue_brake_full_voltage = None) ->
  publish_sdo d canopen_signals (signal_index s) v o = <[s := Some v]> o.
Proof.
  intros Hf Ho Hb. destruct (canopen_signals_split s) as (l1 & n & l2 & -> & Hl).
  apply publish_first; unfold takes.
  - eapply list.Forall_impl; [exact Hl|]. cbn beta. intros [[t m] idx] Hi. cbn [fst snd] in *.
    destruct (Z.eqb_spec (signal_index s) idx) as [He|]; [|done].
    destruct (Hi (eq_sym He)) as [Hs ->]. destruct (Hb Hs) as [H | H].
    + apply Z.eqb_neq in H. by rewrite H.
    + rewrite H, bool_decide_false by (by intros [x E]). by rewrite andb_false_r.
  - by rewrite Z.eqb_refl, Hf, bool_decide_true.
Qed.

Lemma nonode_of_reply x node_id :
  0x100 < x -> 0 <= node_id -> (0 <=? find_last (x + node_id) services_nonodeid 0 (-1)) = false.
Proof. intros Hx Hn. unfold services_nonodeid. cbn [find_last]. by zdec. Qed.

Lemma service_of_reply x node_id : 0 <= x < 2 ^ 31 -> s32 (x + node_id - node_id) = x.
Proof. intros Hx. replace (x + node_id - node_id) with x by lia. unfold s32. rewrite Z.mod_small; lia. Qed.

(** Every signal has a row of the dictionary. *)
Definition signal_row (s : canopen_signal) : canopensdo_sdo_object_t :=
  match canopensdo_get (signal_index s) with Some o => o | None => sdo_row 0 "" "" 1 0 0 end.

Lemma signal_row_get s : canopensdo_get (signal_index s) = Some (signal_row s).
Proof. by destruct s. Qed.

(** The signal whose flag asks for the object of [s]: both voltages of the brake
    have one index, and only the off voltage asks for it. *)
Definition asking (s : canopen_signal) : canopen_signal :=
  if decide (s = analogue_brake_full_voltage) then analogue_brake_off_voltage else s.

Lemma requested_frames s t :
  t ∈ requested -> fdata (read_frame 0 (signal_index s)) = fdata (read_frame 0 (signal_index t)) -> t = asking s.
Proof.
  assert (Forall (fun s => Forall (fun t =>
    fdata (read_frame 0 (signal_index s)) = fdata (read_frame 0 (signal_index t)) -> t = asking s) requested)
    all_canopen_signals) as H by (apply (bool_decide_unpack _); vm_compute; exact I).
  intros Ht E. assert (s ∈ all_canopen_signals) as Hs by (destruct s; apply (bool_decide_unpack _); vm_compute; exact I).
  rewrite list.Forall_forall in H. specialize (H s Hs). rewrite list.Forall_forall in H. by apply H.
Qed.

Lemma request_sent node_id d sleep s :
  Send (read_frame node_id (signal_index s)) ∈ read_requests node_id d sleep <-> flag d (asking s) = 1.
Proof.
  unfold read_requests. rewrite list_elem_of_join. setoid_rewrite list_elem_of_fmap. split.
  - intros (l & Hin & t & -> & Ht). destruct (Z.eqb_spec (flag d t) 1) as [Hf|]; [|by apply elem_of_nil in Hin].
    rewrite !elem_of_cons, elem_of_nil in Hin. destruct Hin as [E|[E|[]]]; [|done].
    apply (f_equal (fun a => match a with Send f => fdata f | _ => [] end)) in E.
    by rewrite <- (requested_frames s t Ht E).
  - intros Hf. exists [Send (read_frame node_id (signal_index s)); Usleep sleep].
    split; [apply elem_of_cons; by left|]. exists (asking s). rewrite Hf. split; [by destruct s|].
    destruct s; apply (bool_decide_unpack _); vm_compute; exact I.
Qed.

(** The signal that gets the reading of the object of [s]: the brake's full
    voltage takes that of the off voltage while it is published itself. *)
Definition taking (d : bytes) (o : canopen_objs) (s : canopen_signal) : canopen_signal :=
  if decide (s = analogue_brake_off_voltage /\ flag d analogue_brake_full_voltage = 1
             /\ is_Some (o !! analogue_brake_full_voltage))
  then analogue_brake_full_voltage else s.

Lemma publish_taking d s v o :
  flag d s = 1 -> is_Some (o !! s) ->
  publish_sdo d canopen_signals (signal_index s) v o = <[taking d o s := Some v]> o.
Proof.
  intros Hf Ho. unfold taking. destruct (decide _) as [(-> & Hf' & Ho')|Hn].
  - change (signal_index analogue_brake_off_voltage) with (signal_index analogue_brake_full_voltage).
    by apply publish_signal.
  - apply publish_signal; [done..|]. intros ->.
    destruct (decide (flag d analogue_brake_full_voltage = 1)) as [Hf'|]; [right | by left].
    apply eq_None_not_Some. intros Ho'. by apply Hn.
Qed.

(** C11: The read requests and their answers: the object of a signal is requested
    in a round exactly when its flag is set, but that of the brake's full
    voltage exactly when the off voltage is wanted, which has the same index;
    and when the node answers for a published signal with a value of one to four
    bytes, the reading becomes the value of exactly that signal, converted by
    its row of the dictionary, except that the full voltage takes the answer for
    the off voltage while both are published. *)
Theorem request_reply_published node_id d s sleep c p0 p1 p2 p3 v dumped st :
  0 <= node_id < 128 ->
  (Send (read_frame node_id (signal_index s)) ∈ read_requests node_id d sleep <-> flag d (asking s) = 1)
  /\ (flag d s = 1 -> is_Some (objs st !! s) -> reply_value c p0 p1 p2 p3 = Some v ->
      can_read_callback node_id d (sdo_reply node_id s c p0 p1 p2 p3) dumped st
      = Ret (dump_if_needed d dumped
               (set_objs (<[taking d (objs st) s :=
                             Some (SdoJson (sdo_value (signal_row s) (u64 v)) (unit_ (signal_row s)))]>
                  (objs st)) st))).
Proof.
  intros Hn. split; [apply request_sent|]. intros Hf Ho Hv. unfold can_read_callback.
  cbn [can_id sdo_reply]. rewrite nonode_of_reply, service_of_reply by lia.
  change (0 <=? find_last 0x580 services 0 (-1)) with true.
  change (0x580 =? CANOPEN_SERVICE_HEARTBEAT) with false.
  change (0x580 =? CANOPEN_SERVICE_TSDO) with true. cbn beta iota. cbv zeta.
  unfold tsdo. fold (sdo_reply node_id s c p0 p1 p2 p3).
  rewrite sdo_reply_index. run_step. rewrite (sdo_reply_data node_id s _ _ _ _ _ v Hv). run_step.
  unfold canopensdo_parse. rewrite signal_row_get. cbn [parsed_or_uninit]. run_step.
  cbn [p_value p_unit]. rewrite publish_taking by done. by run_step.
Qed.

(** ** What can be published *)

(** A value of a wanted signal: not negative, at most the object's maximum, and
    with the object's unit. *)
Definition json_ok (s : canopen_signal) (v : sdo_json) : Prop :=
  nonneg (j_value v) = true /\ SFleb (j_value v) (double_of_Z (max (signal_row s))) = true
  /\ j_unit v = unit_ (signal_row s).

Definition canopen_ok (d : bytes) (o : canopen_objs) : Prop :=
  forall s v, o !! s = Some v -> flag d s = 1 /\ forall j, v = Some j -> json_ok s j.

Lemma canopen_filler_ok d : canopen_ok d (canopen_json_filler d).2.
Proof.
  intros s v. unfold canopen_json_filler. rewrite fill_lookup, <- list_fmap_compose.
  change (compose fst _) with (fun e : canopen_signal * string * Z => e.1.1).
  rewrite bool_decide_true by (destruct s; apply (bool_decide_unpack _); vm_compute; exact I).
  destruct (Z.eqb_spec (flag d s) 1); [|done]. by intros [= <-].
Qed.

Lemma publish_ok d table i v o :
  canopen_ok d o -> (forall s n, (s, n, i) ∈ table -> json_ok s v) ->
  canopen_ok d (publish_sdo d table i v o).
Proof.
  intros Ho. induction table as [|[[t n] idx] table IH]; intros Hv; cbn [publish_sdo]; [done|].
  destruct (takes _ _ _ _ _) eqn:E.
  - unfold takes in E. rewrite !andb_true_iff, Z.eqb_eq, Z.eqb_eq in E. destruct E as [[-> Hf] _].
    intros s w. destruct (decide (s = t)) as [->|Hne].
    + rewrite lookup_insert_eq. intros [= <-]. split; [done|]. intros j [= <-].
      apply (Hv t n), elem_of_cons. by left.
    + rewrite lookup_insert_ne by done. apply Ho.
  - apply IH. intros s m Hs. apply (Hv s m), elem_of_cons. by right.
Qed.

(** The rows of the table are those of the dictionary. *)
Lemma canopen_signals_index s n i : (s, n, i) ∈ canopen_signals -> i = signal_index s.
Proof.
  intros Hs. assert (Forall (fun e => e.2 = signal_index e.1.1) canopen_signals) as H
    by (apply (bool_decide_unpack _); vm_compute; exact I).
  exact (proj1 (list.Forall_forall _ _) H (s, n, i) Hs).
Qed.

(** A frame as the socket delivers it. *)
Definition frame_ok (f : can_frame) : Prop :=
  length (fdata f) = 8%nat /\ Forall is_byte (fdata f) /\ 0 <= can_dlc f <= 8.

(** The commands and the objects the receiver has a case for. *)
Definition reply_known (f : can_frame) : bool :=
  match sdo_data f, sdo_index f with
  | Ret _, Ret i => bool_decide (is_Some (canopensdo_get i))
  | _, _ => false
  end.

Definition from_node (node_id : Z) (f : can_frame) : bool :=
  negb (0 <=? find_last (can_id f) services_nonodeid 0 (-1))
  && (s32 (can_id f - node_id) =? CANOPEN_SERVICE_TSDO).

Lemma byte_at_ok f i : frame_ok f -> 0 <= i < 8 -> exists b, byte_at f i = Ret b.
Proof. intros (Hl & _) Hi. apply load_defined. lia. Qed.

(** [read_byte i b] runs the step that reads [data[i]]. *)
Ltac read_byte f i :=
  let b := fresh "b" in let E := fresh in
  destruct (byte_at_ok f i) as [b E]; [assumption | lia |]; rewrite E; run_step.

Lemma sdo_index_ok f : frame_ok f -> exists i, sdo_index f = Ret i.
Proof.
  intros Hf. unfold sdo_index. read_byte f 3. read_byte f 1. read_byte f 2. by eexists.
Qed.

Lemma sdo_data_ok f : frame_ok f -> (exists v, sdo_data f = Ret v) \/ sdo_data f = Undef Uninit.
Proof.
  intros Hf. unfold sdo_data. read_byte f 0.
  destruct (_ =? _); [read_byte f 4; read_byte f 5; read_byte f 6; read_byte f 7; left; by eexists|].
  destruct (_ =? _); [read_byte f 4; read_byte f 5; read_byte f 6; left; by eexists|].
  destruct (_ =? _); [read_byte f 4; read_byte f 5; left; by eexists|].
  destruct (_ =? _); [|by right]. left. destruct (byte_at_ok f 4); [done | lia | by eexists].
Qed.

Lemma printed_ok f : frame_ok f -> exists b, slice 0 (can_dlc f) (fdata f) = Ret b.
Proof. intros (Hl & _ & Hd). unfold slice. zdec. by eexists. Qed.

(** The SDO case: reading a value, or reading what was never written. *)
Lemma tsdo_ok d f st :
  frame_ok f -> reply_known f = true -> canopen_ok d (objs st) ->
  exists st', tsdo d f st = Ret st' /\ canopen_ok d (objs st') /\ sent st' = sent st.
Proof.
  intros Hf Hk Ho. unfold reply_known in Hk. unfold tsdo.
  destruct (sdo_index_ok f Hf) as [i Hi]. destruct (sdo_data f) as [v|]; [|done].
  rewrite Hi in Hk |- *. apply bool_decide_eq_true in Hk as [o Hg]. do 2 run_step.
  unfold canopensdo_parse. rewrite Hg. cbn [parsed_or_uninit]. run_step.
  eexists. split; [reflexivity|]. split; [|done]. apply publish_ok; [done|].
  intros s n Hs. apply canopen_signals_index in Hs as ->.
  rewrite signal_row_get in Hg. injection Hg as <-.
  destruct (canopensdo_get_ok _ _ (signal_row_get s)) as [Hr _].
  destruct (sdo_value_bounds (signal_row s) (u64 v) Hr) as [H1 H2].
  - unfold u64. apply Z.mod_pos_bound. lia.
  - by split_and!.
Qed.

Lemma tsdo_unknown d f st : frame_ok f -> reply_known f = false -> tsdo d f st = Undef Uninit.
Proof.
  intros Hf Hk. unfold reply_known in Hk. unfold tsdo.
  destruct (sdo_index_ok f Hf) as [i Hi]. rewrite Hi in Hk |- *. run_step.
  destruct (sdo_data_ok f Hf) as [[v E] | E]; rewrite E in Hk |- *; [|done]. run_step.
  unfold canopensdo_parse. destruct (canopensdo_get i); [|done].
  by rewrite bool_decide_true in Hk.
Qed.

Lemma dump_ok d dumped st :
  canopen_ok d (objs st) -> canopen_ok d (objs (dump_if_needed d dumped st)).
Proof. destruct dumped; [intros _; apply canopen_filler_ok | done]. Qed.

Lemma sent_dump d dumped st : sent (dump_if_needed d dumped st) = sent st.
Proof. by destruct dumped. Qed.

Lemma can_read_callback_ok node_id d f dumped st :
  frame_ok f -> (from_node node_id f = true -> reply_known f = true) -> canopen_ok d (objs st) ->
  exists st', can_read_callback node_id d f dumped st = Ret st' /\ canopen_ok d (objs st')
    /\ (sent st' = sent st \/ sent st' = sent st ++ [nmt_start node_id]).
Proof.
  intros Hf Hk Ho. unfold can_read_callback. unfold from_node in Hk.
  destruct (printed_ok f Hf) as [b Hb].
  destruct (0 <=? find_last (can_id f) services_nonodeid 0 (-1)).
  { rewrite Hb. run_step. exists st. auto. }
  cbn [negb andb] in Hk. cbv zeta. set (service := s32 _) in *.
  destruct (0 <=? find_last service services 0 (-1)); [|exists st; by auto].
  destruct (Z.eqb_spec service CANOPEN_SERVICE_HEARTBEAT) as [_|_].
  { unfold heartbeat. read_byte f 0. run_step. eexists. split; [reflexivity|].
    rewrite sent_dump. destruct (_ =? 0x7f); (split; [apply dump_ok; exact Ho | auto]). }
  destruct (service =? CANOPEN_SERVICE_TSDO).
  { destruct (tsdo_ok d f st Hf (Hk eq_refl) Ho) as (st' & -> & Ho' & Hs). run_step.
    eexists. split; [reflexivity|]. rewrite sent_dump. split; [by apply dump_ok | auto]. }
  destruct (service =? CANOPEN_SERVICE_TPDO1).
  - unfold tpdo1. read_byte f 0. read_byte f 1. read_byte f 2. read_byte f 3. read_byte f 4.
    read_byte f 5. read_byte f 6. read_byte f 7. repeat run_step.
    eexists. split; [reflexivity|]. rewrite sent_dump. split; [by apply dump_ok | auto].
  - rewrite Hb. repeat run_step. eexists. split; [reflexivity|]. rewrite sent_dump.
    split; [by apply dump_ok | auto].
Qed.

(** C18: Types are kept over any run: whatever frames arrive from the program's
    start on, as long as the node's SDO replies are of the kinds the receiver
    has cases for, nothing undefined happens, the published objects are those of
    wanted signals, each value lies between zero and the maximum of its object
    and carries its unit, and the receiver itself sends nothing but NMT start
    commands. *)
Theorem canopen_values_typed node_id d fs :
  Forall (fun e => frame_ok e.1 /\ (from_node node_id e.1 = true -> reply_known e.1 = true)) fs ->
  exists st, receive_all node_id d fs (CanopenState ∅ []) = Ret st
    /\ (forall s v, objs st !! s = Some v -> flag d s = 1 /\ forall j, v = Some j -> json_ok s j)
    /\ Forall (fun f => f = nmt_start node_id) (sent st).
Proof.
  intros Hf.
  assert (forall st, canopen_ok d (objs st) -> Forall (fun f => f = nmt_start node_id) (sent st) ->
            exists st', receive_all node_id d fs st = Ret st' /\ canopen_ok d (objs st')
              /\ Forall (fun f => f = nmt_start node_id) (sent st')) as G.
  { induction Hf as [|[f dumped] fs [H1 H2] _ IH]; intros st Ho Hs;
      unfold receive_all; cbn [deliver fst snd]; [by exists st|].
    destruct (can_read_callback_ok node_id d f dumped st H1 H2 Ho) as (st1 & -> & Ho1 & Hs1). run_step.
    apply IH; [done|]. destruct Hs1 as [-> | ->]; [done|]. apply Forall_app. by repeat constructor. }
  by apply G; [|constructor].
Qed.

(** Any other SDO answer of the node is read although the receiver never
    decoded it: an abort, a segmented transfer, or an object missing from the
    dictionary leaves the local data or the parsed value without
    initialisation, and the JSON object is made of it. *)
Lemma sdo_abort_reads_uninitialised node_id d f dumped st :
  frame_ok f -> from_node node_id f = true -> reply_known f = false ->
  can_read_callback node_id d f dumped st = Undef Uninit.
Proof.
  intros Hf Hn Hk. unfold from_node in Hn. apply andb_true_iff in Hn as [Hn1 Hn2].
  apply negb_true_iff in Hn1. apply Z.eqb_eq in Hn2. unfold can_read_callback.
  rewrite Hn1. cbv zeta. rewrite Hn2.
  change (0 <=? find_last CANOPEN_SERVICE_TSDO services 0 (-1)) with true.
  change (CANOPEN_SERVICE_TSDO =? CANOPEN_SERVICE_HEARTBEAT) with false. rewrite Z.eqb_refl.
  by rewrite tsdo_unknown.
Qed.

(** A node that is pre-operational is started. *)
Lemma preoperational_node_started node_id d rest dumped st :
  0 <= node_id < 128 -> length rest = 7%nat ->
  can_read_callback node_id d (Frame (0x700 + node_id) 1 (0x7f :: rest)) dumped st
  = Ret (dump_if_needed d dumped (send (Frame 0 2 [1; node_id]) st)).
Proof.
  intros Hn Hr. unfold can_read_callback. cbn [can_id]. rewrite nonode_of_reply, service_of_reply by lia.
  change (0 <=? find_last 0x700 services 0 (-1)) with true.
  change (0x700 =? CANOPEN_SERVICE_HEARTBEAT) with true. cbv beta iota zeta.
  unfold heartbeat, byte_at. cbn [fdata]. change (0x7f :: rest) with ([] ++ 0x7f :: rest).
  rewrite load_app by done. repeat run_step.
  change (0x7f =? 0x7f) with true. unfold nmt_start, u8. by rewrite Z.mod_small by lia.
Qed.

(** ** The period of the sending thread *)

(** A block with prescaler [p] runs in every round when [p] is zero, and in
    every [p + 2]nd round otherwise: the counter has to pass [p]. *)
Definition due (prescaler sleep i : Z) : bool :=
  let p := Z.quot prescaler sleep in (p =? 0) || ((i + 1) mod (p + 2) =? 0).

(** The counter before round [i]. *)
Definition counter_at (prescaler sleep i : Z) : Z :=
  let p := Z.quot prescaler sleep in if p =? 0 then 0 else i mod (p + 2).

Lemma prescale_round prescaler sleep i :
  0 <= prescaler -> 0 < sleep -> 0 <= i ->
  prescale prescaler sleep (counter_at prescaler sleep i)
  = Ret (due prescaler sleep i, counter_at prescaler sleep (i + 1)).
Proof.
  intros Hp Hs Hi. unfold prescale, counter_at, due. zdec.
  pose proof (Z.quot_pos prescaler sleep Hp Hs) as Hq. set (p := Z.quot prescaler sleep) in *.
  destruct (Z.eqb_spec p 0) as [E|E]; [by rewrite orb_true_r|].
  rewrite orb_false_r. cbn [orb]. pose proof (Z.mod_pos_bound i (p + 2) ltac:(lia)) as Hm.
  pose proof (Z.div_mod i (p + 2) ltac:(lia)) as Hd.
  destruct (Z.eq_dec (i mod (p + 2)) (p + 1)) as [Hw|Hw].
  - assert ((i + 1) mod (p + 2) = 0) as ->; [|by zdec].
    symmetry. apply (Z.mod_unique _ _ (i / (p + 2) + 1)); lia.
  - assert ((i + 1) mod (p + 2) = i mod (p + 2) + 1) as ->; [|by zdec].
    symmetry. apply (Z.mod_unique _ _ (i / (p + 2))); lia.
Qed.

(** The sending thread keeps its periods: in every run, round [i] sends the
    SYNC message exactly when it is due, then one read request for each wanted
    signal, in order, exactly when these are due, and sleeps; the two periods
    are [100000 / sleep + 2] and [400000 / sleep + 2] rounds. *)
Lemma bg_thread_periodic node_id d n sleep :
  0 < sleep ->
  canopen_bg_thread_func node_id d n sleep
  = Ret ((fun i => (if due CANOPEN_SYNC_COUNTER_PRESCALER sleep (Z.of_nat i) then [Send sync_frame] else [])
                   ++ (if due CANOPEN_READ_COUNTER_PRESCALER sleep (Z.of_nat i)
                       then read_requests node_id d sleep else []) ++ [Usleep sleep]) <$> seq 0 n).
Proof.
  intros Hs. unfold canopen_bg_thread_func.
  assert (forall k, bg_rounds node_id d n sleep
            (counter_at CANOPEN_SYNC_COUNTER_PRESCALER sleep (Z.of_nat k),
             counter_at CANOPEN_READ_COUNTER_PRESCALER sleep (Z.of_nat k))
          = Ret ((fun i => (if due CANOPEN_SYNC_COUNTER_PRESCALER sleep (Z.of_nat i) then [Send sync_frame]
                            else [])
                   ++ (if due CANOPEN_READ_COUNTER_PRESCALER sleep (Z.of_nat i)
                       then read_requests node_id d sleep else []) ++ [Usleep sleep]) <$> seq k n)) as G.
  { induction n as [|n IH]; intros k; cbn [bg_rounds]; [done|]. unfold bg_round. cbn [fst snd].
    rewrite (prescale_round CANOPEN_SYNC_COUNTER_PRESCALER) by (unfold CANOPEN_SYNC_COUNTER_PRESCALER; lia).
    run_step.
    rewrite (prescale_round CANOPEN_READ_COUNTER_PRESCALER) by (unfold CANOPEN_READ_COUNTER_PRESCALER; lia).
    do 2 run_step. cbn [fst snd].
    replace (Z.of_nat k + 1) with (Z.of_nat (Datatypes.S k)) by lia. rewrite IH. by run_step. }
  rewrite <- (G 0%nat). unfold counter_at. change (Z.of_nat 0) with 0. f_equal.
  assert (forall p, 0 <= p -> (if p ÷ sleep =? 0 then 0 else 0 mod (p ÷ sleep + 2)) = 0) as Hz.
  { intros p Hp. destruct (_ =? 0); [done|]. apply Z.mod_0_l.
    pose proof (Z.quot_pos p sleep Hp Hs). lia. }
  by rewrite !Hz by (unfold CANOPEN_SYNC_COUNTER_PRESCALER, CANOPEN_READ_COUNTER_PRESCALER; lia).
Qed.

(** A sleep period of zero stops the thread with a division by zero. *)
Lemma bg_thread_division_by_zero node_id d n :
  canopen_bg_thread_func node_id d (Datatypes.S n) 0 = Undef DivByZero.
Proof. done. Qed.

(** ** Instances *)

Module CanOpenWitness.
(** All signals but the full brake voltage. *)
Definition wants : bytes := 1 :: 0 :: repeat 1 18.

(** Node 5 answers the request for the battery voltage with 1552, two bytes. *)
Lemma request_reply_published_witness :
  Send (read_frame 5 (signal_index battery_voltage)) ∈ read_requests 5 wants 7
  /\ can_read_callback 5 wants (sdo_reply 5 battery_voltage 0x4b 16 6 0 0) false
       (CanopenState (canopen_json_filler wants).2 [])
     = Ret (dump_if_needed wants false
              (set_objs (<[battery_voltage := Some (SdoJson (sdo_value (signal_row battery_voltage) (u64 1552))
                                                      (unit_ (signal_row battery_voltage)))]>
                 (canopen_json_filler wants).2) (CanopenState (canopen_json_filler wants).2 []))).
Proof.
  pose proof (request_reply_published 5 wants battery_voltage 7 0x4b 16 6 0 0 1552 false
            (CanopenState (canopen_json_filler wants).2 []) ltac:(lia)) as [H1 H2].
  split; [by apply H1|]. refine (H2 _ _ _);
    [reflexivity | apply (bool_decide_unpack _); vm_compute; exact I | reflexivity].
Defined.

#[local] Instance frame_ok_dec f : Decision (frame_ok f).
Proof. unfold frame_ok, is_byte. apply _. Defined.

Definition a_run : list (can_frame * bool) :=
  [ (Frame 0x705 1 [0x7f; 0; 0; 0; 0; 0; 0; 0], false);
    (Frame 0x185 8 [1; 2; 3; 4; 5; 6; 7; 8], true);
    (sdo_reply 5 controller_temperature 0x43 251 255 255 255, false) ].

Lemma canopen_values_typed_witness :
  exists st, receive_all 5 wants a_run (CanopenState ∅ []) = Ret st
    /\ (forall s v, objs st !! s = Some v -> flag wants s = 1 /\ forall j, v = Some j -> json_ok s j)
    /\ Forall (fun f => f = nmt_start 5) (sent st).
Proof.
  refine (canopen_values_typed 5 wants a_run _). apply (bool_decide_unpack _); vm_compute; exact I.
Defined.

(** The node aborts the transfer of the off voltage. *)
Lemma sdo_abort_reads_uninitialised_witness :
  can_read_callback 5 wants (Frame 0x585 8 [0x80; 0x03; 0x20; 0x18; 0; 0; 2; 6]) false
    (CanopenState (canopen_json_filler wants).2 [])
  = Undef Uninit.
Proof.
  refine (sdo_abort_reads_uninitialised 5 wants (Frame 0x585 8 [0x80; 0x03; 0x20; 0x18; 0; 0; 2; 6]) false
            (CanopenState (canopen_json_filler wants).2 []) _ _ _);
    [apply (bool_decide_unpack _); vm_compute; exact I | reflexivity | reflexivity].
Defined.

Lemma bg_thread_periodic_witness :
  0 < 100000 /\
  canopen_bg_thread_func 5 wants 4 100000
  = Ret ((fun i => (if due CANOPEN_SYNC_COUNTER_PRESCALER 100000 (Z.of_nat i) then [Send sync_frame] else [])
                   ++ (if due CANOPEN_READ_COUNTER_PRESCALER 100000 (Z.of_nat i)
                       then read_requests 5 wants 100000 else []) ++ [Usleep 100000]) <$> seq 0 4).
Proof. split; [lia | apply (bg_thread_periodic 5 wants 4 100000); lia]. Defined.

(** While both brake voltages are wanted, the answer about the off voltage
    becomes the full one. *)
Lemma brake_off_published_as_full :
  (st ← can_read_callback 5 (repeat 1 20) (sdo_reply 5 analogue_brake_off_voltage 0x4b 0 16 0 0) false
          (CanopenState (canopen_json_filler (repeat 1 20)).2 []);
   Ret (mjoin (objs st !! analogue_brake_full_voltage), mjoin (objs st !! analogue_brake_off_voltage)))
  = Ret (Some (SdoJson (double_of_Z 1) (cstr "Volts")), None).
Proof. vm_compute. reflexivity. Qed.

(** An NMT message, of identifier 0, is found at the last entry of the table,
    whose name is empty. *)
Lemma nmt_has_no_name :
  services_nonodeid_names !! Z.to_nat (find_last 0 services_nonodeid 0 (-1)) = Some [].
Proof. reflexivity. Qed.
End CanOpenWitness.
