(* ===== verification/VehiclePlugins.v ===== *)
(** * The plugins around the CAN and the CANopen receiver
      (the ends of src/plugins/pip/can/pip_plugin_can.c and
      src/plugins/pip/canopen/pip_plugin_canopen.c, [vehicledataset_deinit] of
      src/plugins/dataset/vehicle/vehicle_dataset.c)

    Creating, starting and destroying the plugins, the callbacks that select
    signals, and the composition of their parts: the dataset, the frame
    callbacks, the reader threads and the data dumper.  The two plugins share
    the string of options, whose contents are an argument of the initializers.
    A pointer is null, live or freed; the cells of a freed array cannot be
    accessed. *)

From S2P Require Import Prelude CStd Config Dataset CanMsgs CanText CanLinux CanReceiver DataDumper.

(** ** Pointers and the two threads *)

Inductive pointer : Set := NullPtr | Live | Freed.

Definition pfree (p : pointer) : out pointer :=
  match p with NullPtr => Ret NullPtr | Live => Ret Freed | Freed => Undef DoubleFree end.

(** The results of the two functions, the instance and the thread. *)
Definition canthread_start (created : bool) (t : thread) : Z * thread :=
  if created then (0, Running) else (1, t).

(** What becomes of a stop.  The reader heeds it when it has opened its socket
    before, or fails to open it; a reader that opens its socket afterwards clears
    the flag again, and then ends only if its bus fails some time. *)
Inductive stop_fate : Set := Heeded | Lost (bus_fails : bool).

Definition returns (f : stop_fate) : bool := match f with Lost false => false | _ => true end.

(** The flag as the reader leaves it. *)
Definition after_stop (f : stop_fate) (c : can_t) : can_t :=
  match f with
  | Heeded => can_end_loop c
  | Lost _ => Can (sock c) (ifr_name c) (can_ifindex c) 0
  end.

(** The result, the instance and the thread, or [None]: the call never returns. *)
Definition canthread_stop (f : stop_fate) (inst : canthread_instance_t) (t : thread)
    : out (option (Z * canthread_instance_t * thread)) :=
  t ← pthread_join t;
  Ret (if returns f then Some (0, CanThread (can_bus_name inst) (after_stop f (can_connection inst)), t) else None).

(** ** The dataset with the state of its two arrays *)

Record vehicle_dd := VehicleDd { ddstate : dataset_state_t; dataset_ptr : pointer; tokens_ptr : pointer }.

Definition dd0 : vehicle_dd := VehicleDd {| options := []; options_count := 0; tokens := []; dataset := [] |} NullPtr NullPtr.

(** What the operations see. *)
Definition accessible (v : vehicle_dd) : dataset_state_t :=
  {| options := options (ddstate v); options_count := options_count (ddstate v);
     tokens := (match tokens_ptr v with Live => tokens (ddstate v) | _ => [] end);
     dataset := (match dataset_ptr v with Live => dataset (ddstate v) | _ => [] end) |}.

(** An operation of the dataset allocates the tokens when it counts the options. *)
Definition on_dataset (f : dataset_state_t -> out dataset_state_t) (v : vehicle_dd) : out vehicle_dd :=
  s ← f (accessible v);
  Ret (VehicleDd s (dataset_ptr v)
         (if (options_count (ddstate v) =? 0) && negb (options_count s =? 0) then Live else tokens_ptr v)).

(** Neither pointer is set to null. *)
Definition vehicledataset_deinit (v : vehicle_dd) : out vehicle_dd :=
  d ← pfree (dataset_ptr v); t ← pfree (tokens_ptr v); Ret (VehicleDd (ddstate v) d t).

(** The first three lines of the initializers' second half. *)
Definition dd_new (opts mem : bytes) (v : vehicle_dd) : out vehicle_dd :=
  on_dataset vehicledataset_init
    (VehicleDd {| options := opts; options_count := options_count (ddstate v);
                  tokens := tokens (ddstate v); dataset := mem |} Live (tokens_ptr v)).

(** ** The CAN plugin *)

Definition MAX_STR_SIZE : Z := 256.
Definition CAN_JSON_NAME : bytes := cstr "can_data".

Record can_plugin := CanPlugin {
  can_dd : vehicle_dd;
  can_in_use : bool;
  body_chan : bytes;
  chas_chan : bytes;
  can_body_instance : canthread_instance_t;
  can_chas_instance : canthread_instance_t;
  body_thread : thread;
  chas_thread : thread;
  can_callbacks : pointer }.

Definition instance0 : canthread_instance_t := CanThread (repeat 0 CAN_BUS_LEN) (Can 0 (repeat 0 IFNAMSIZ) 0 0).

(** The static variables at the start of the program. *)
Definition can_plugin0 : can_plugin :=
  CanPlugin dd0 false (repeat 0 (Z.to_nat MAX_STR_SIZE)) (repeat 0 (Z.to_nat MAX_STR_SIZE)) instance0 instance0
    NotCreated NotCreated NullPtr.

Definition set_dd (v : vehicle_dd) (p : can_plugin) : can_plugin :=
  CanPlugin v (can_in_use p) (body_chan p) (chas_chan p) (can_body_instance p) (can_chas_instance p)
    (body_thread p) (chas_thread p) (can_callbacks p).

Section CanPlugin.
Context {V : Type} (cfg : config_manager_t) (filler node : nat).

(** The mutex of the data dumper is the only lock there is. *)
Definition canreceiver_init (v : vehicle_dd) (p : can_plugin) (dm : @dumper V) : out (can_plugin * @dumper V) :=
  dm ← datadumper_add_module_init_cb filler node (CAN_JSON_NAME ++ [0]) dm;
  b ← config_manager_get_option_string cfg (cstr "can_receiver") (cstr "can_body_channel") (body_chan p) MAX_STR_SIZE;
  c ← config_manager_get_option_string cfg (cstr "can_receiver") (cstr "can_chas_channel") (chas_chan p) MAX_STR_SIZE;
  bi ← canthread_init (can_body_instance p) b.2;
  ci ← canthread_init (can_chas_instance p) c.2;
  Ret (CanPlugin v true b.2 c.2 bi ci (body_thread p) (chas_thread p) (can_callbacks p), dm).

(** [opts]: the string of options; [mem]: what [malloc] returns for the flags. *)
Definition pip_plugin_can_initializer (opts mem : bytes) (p : can_plugin) (dm : @dumper V)
    : out (Z * can_plugin * @dumper V) :=
  v ← dd_new opts mem (can_dd p);
  let p := CanPlugin v (can_in_use p) (body_chan p) (chas_chan p) (can_body_instance p) (can_chas_instance p)
             (body_thread p) (chas_thread p) Live in
  r ← canreceiver_init v p dm;
  Ret (0, r.1, r.2).

(** [created]: whether the system creates the two threads. *)
Definition canreceiver_start (created : bool * bool) (p : can_plugin) : can_plugin :=
  CanPlugin (can_dd p) (can_in_use p) (body_chan p) (chas_chan p) (can_body_instance p) (can_chas_instance p)
    (canthread_start created.1 (body_thread p)).2 (canthread_start created.2 (chas_thread p)).2 (can_callbacks p).

(** [None]: waiting for a reader for ever.  [fates]: those of the stops of the
    body and of the chassis reader. *)
Definition canreceiver_deinit (fates : stop_fate * stop_fate) (p : can_plugin) : out (option (Z * can_plugin)) :=
  r ← canthread_stop fates.2 (can_chas_instance p) (chas_thread p);
  match r with
  | None => Ret None
  | Some (e, ci, ct) =>
      let p := CanPlugin (can_dd p) (can_in_use p) (body_chan p) (chas_chan p) (can_body_instance p) ci
                 (body_thread p) ct (can_callbacks p) in
      if negb (e =? 0) then Ret (Some (1, p)) else
      r ← canthread_stop fates.1 (can_body_instance p) (body_thread p);
      match r with
      | None => Ret None
      | Some (e, bi, bt) =>
          let p := CanPlugin (can_dd p) (can_in_use p) (body_chan p) (chas_chan p) bi (can_chas_instance p)
                     bt (chas_thread p) (can_callbacks p) in
          if negb (e =? 0) then Ret (Some (2, p)) else
          v ← (match dataset_ptr (can_dd p) with NullPtr => Ret (can_dd p) | _ => vehicledataset_deinit (can_dd p) end);
          Ret (Some (0, CanPlugin v false (body_chan p) (chas_chan p) (can_body_instance p) (can_chas_instance p)
                          (body_thread p) (chas_thread p) (can_callbacks p)))
      end
  end.

Definition can_destroy_cb (fates : stop_fate * stop_fate) (p : can_plugin) : out (option (Z * can_plugin)) :=
  r ← canreceiver_deinit fates p;
  match r with
  | None => Ret None
  | Some (_, p) =>
      cb ← pfree (can_callbacks p);
      Ret (Some (0, CanPlugin (can_dd p) (can_in_use p) (body_chan p) (chas_chan p) (can_body_instance p)
                      (can_chas_instance p) (body_thread p) (chas_thread p) cb))
  end.

Definition can_start_cb (created : bool * bool) (p : can_plugin) : Z * can_plugin := (0, canreceiver_start created p).

Definition can_set_dataset_cb `{Json} (json : bytes) (p : can_plugin) : out (Z * can_plugin) :=
  v ← on_dataset (fun s => vehicledataset_from_json s json) (can_dd p); Ret (0, set_dd v p).

(** [string]: the caller's buffer; the length goes to the argument. *)
Definition can_get_dataset_cb `{Json} (string : bytes) (p : can_plugin) : out (Z * Z * bytes) :=
  r ← vehicledataset_to_json (accessible (can_dd p)) string; Ret (0, r.1, r.2).

(** The filler reads the flags. *)
Definition can_filler (p : can_plugin) : out (list bytes * can_objs) :=
  match dataset_ptr (can_dd p) with
  | Live => Ret (can_json_filler (dataset (ddstate (can_dd p))))
  | _ => Undef OobRead
  end.
End CanPlugin.

Definition canreceiver_is_in_use (p : can_plugin) : bool := can_in_use p.

(** [memcpy] of at most 256 bytes of a name; nothing for a null buffer. *)
Definition copy_name (name : bytes) (channel_buff : option bytes) (channel_buff_len : Z) : out (option bytes) :=
  match channel_buff with
  | Some b => if 0 <? channel_buff_len
              then s ← slice 0 (if MAX_STR_SIZE <? channel_buff_len then MAX_STR_SIZE else channel_buff_len) name;
                   b ← blit b 0 s; Ret (Some b)
              else Ret (Some b)
  | None => Ret None
  end.

Definition canreceiver_get_body_channel (p : can_plugin) := copy_name (body_chan p).
Definition canreceiver_get_chas_channel (p : can_plugin) := copy_name (chas_chan p).

(** ** The CANopen plugin *)

Definition CANOPEN_MAX_STR_SIZE : Z := 256.
Definition CANOPEN_JSON_NAME : bytes := cstr "canopen_data".

Record canopen_plugin := CanopenPlugin {
  co_dd : vehicle_dd;
  co_in_use : bool;
  co_port_name : bytes;
  co_node_id : Z;
  co_instance : canthread_instance_t;
  co_read_thread : thread;
  co_bg_thread : thread;
  co_end_loop : Z;
  co_callbacks : pointer }.

Definition canopen_plugin0 : canopen_plugin :=
  CanopenPlugin dd0 false (repeat 0 (Z.to_nat CANOPEN_MAX_STR_SIZE)) 0 instance0 NotCreated NotCreated 0 NullPtr.

Section CanopenPlugin.
Context {V : Type} (cfg : config_manager_t) (filler node : nat).

Definition canopenreceiver_init (v : vehicle_dd) (cb : pointer) (p : canopen_plugin) (dm : @dumper V)
    : out (canopen_plugin * @dumper V) :=
  dm ← datadumper_add_module_init_cb filler node (CANOPEN_JSON_NAME ++ [0]) dm;
  b ← config_manager_get_option_string cfg (cstr "canopen") (cstr "port_name") (co_port_name p) CANOPEN_MAX_STR_SIZE;
  n ← config_manager_get_option_int cfg (cstr "canopen") (cstr "node_id") (co_node_id p);
  inst ← canthread_init (co_instance p) b.2;
  Ret (CanopenPlugin v true b.2 n.2 inst (co_read_thread p) (co_bg_thread p) (co_end_loop p) cb, dm).

Definition pip_plugin_canopen_initializer (opts mem : bytes) (p : canopen_plugin) (dm : @dumper V)
    : out (Z * canopen_plugin * @dumper V) :=
  v ← dd_new opts mem (co_dd p);
  r ← canopenreceiver_init v Live p dm;
  Ret (0, r.1, r.2).

(** [None]: the function ends without a value. *)
Definition canopenreceiver_start (created : bool * bool) (p : canopen_plugin) : option Z * canopen_plugin :=
  let r := canthread_start created.1 (co_read_thread p) in
  let p := CanopenPlugin (co_dd p) (co_in_use p) (co_port_name p) (co_node_id p) (co_instance p) r.2
             (co_bg_thread p) (co_end_loop p) (co_callbacks p) in
  if negb (r.1 =? 0) then (Some 1, p)
  else if negb created.2 then (Some 1, p)
  else (None, CanopenPlugin (co_dd p) (co_in_use p) (co_port_name p) (co_node_id p) (co_instance p)
                (co_read_thread p) Running (co_end_loop p) (co_callbacks p)).

(** The sending thread is told to end but not joined. *)
Definition canopenreceiver_deinit (f : stop_fate) (p : canopen_plugin) : out (option canopen_plugin) :=
  r ← canthread_stop f (co_instance p) (co_read_thread p);
  match r with
  | None => Ret None
  | Some (_, inst, t) =>
      v ← (match dataset_ptr (co_dd p) with NullPtr => Ret (co_dd p) | _ => vehicledataset_deinit (co_dd p) end);
      Ret (Some (CanopenPlugin v false (co_port_name p) (co_node_id p) inst t (co_bg_thread p) 1 (co_callbacks p)))
  end.

Definition canopen_destroy_cb (f : stop_fate) (p : canopen_plugin) : out (option (Z * canopen_plugin)) :=
  r ← canopenreceiver_deinit f p;
  match r with
  | None => Ret None
  | Some p =>
      cb ← pfree (co_callbacks p);
      Ret (Some (0, CanopenPlugin (co_dd p) (co_in_use p) (co_port_name p) (co_node_id p) (co_instance p)
                      (co_read_thread p) (co_bg_thread p) (co_end_loop p) cb))
  end.

Definition canopen_start_cb (created : bool * bool) (p : canopen_plugin) : Z * canopen_plugin :=
  (0, (canopenreceiver_start created p).2).

Definition canopen_set_dataset_cb `{Json} (json : bytes) (p : canopen_plugin) : out (Z * canopen_plugin) :=
  v ← on_dataset (fun s => vehicledataset_from_json s json) (co_dd p);
  Ret (0, CanopenPlugin v (co_in_use p) (co_port_name p) (co_node_id p) (co_instance p) (co_read_thread p)
            (co_bg_thread p) (co_end_loop p) (co_callbacks p)).

Definition canopen_get_dataset_cb `{Json} (string : bytes) (p : canopen_plugin) : out (Z * Z * bytes) :=
  r ← vehicledataset_to_json (accessible (co_dd p)) string; Ret (0, r.1, r.2).
End CanopenPlugin.

Definition canopenreceiver_is_in_use (p : canopen_plugin) : bool := co_in_use p.
Definition canopenreceiver_get_node_id (p : canopen_plugin) : Z := co_node_id p.

(** The flags the sending thread reads, as long as it has not ended. *)
Definition bg_reads_flags (p : canopen_plugin) : out bytes :=
  match co_bg_thread p, dataset_ptr (co_dd p) with
  | Running, Live => Ret (dataset (ddstate (co_dd p)))
  | Running, _ => Undef OobRead
  | _, _ => Ret []
  end.

(** ** The parts of the initializers *)

Lemma strncpy_literal dst s :
  no_nul s -> (length s < length dst)%nat ->
  strncpy dst (s ++ [0]) (length dst) = Ret (s ++ repeat 0 (length dst - length s)).
Proof.
  intros Hs Hl. unfold strncpy. rewrite take_ge by (rewrite length_app; cbn [length]; lia).
  rewrite before_nul_app by done. assert (has_nul (s ++ [0]) = true) as -> by (apply bool_decide_true; set_solver).
  cbn [negb andb]. rewrite blit_0 by (rewrite length_app, repeat_length; lia).
  rewrite drop_ge by (rewrite length_app, repeat_length; lia). by rewrite app_nil_r.
Qed.

Lemma canthread_init_defined inst name :
  length (can_bus_name inst) = CAN_BUS_LEN -> (5 <= length name)%nat ->
  exists b, canthread_init inst name = Ret (CanThread b (can_connection inst)) /\ length b = CAN_BUS_LEN.
Proof.
  intros Hb Hn. unfold canthread_init, strncpy, CAN_BUS_NAME_LEN. rewrite (proj2 (Nat.ltb_ge _ _)), andb_false_r by done.
  set (t := before_nul (take 5 name)).
  assert (length t <= 5)%nat as Ht.
  { unfold t. etransitivity; [apply length_before_nul|]. rewrite length_take. lia. }
  rewrite blit_0 by (rewrite length_app, repeat_length, Hb; unfold CAN_BUS_LEN; lia). rewrite ret_bind.
  eexists. split; [done|]. rewrite length_app, length_drop, !length_app, repeat_length, Hb. unfold CAN_BUS_LEN. lia.
Qed.

Lemma node_ok_new f n b : has_nul b = true -> node_ok (FillerNode (Some f) b (Some n)).
Proof. intros Hb. split; [by exists f|]. split; [by exists n | exact Hb]. Qed.

(** Registering a module with a name that fits. *)
Lemma add_module_ok {V} f n nm (dm : @dumper V) :
  no_nul nm -> (length nm < DATADUMPER_NAME_LEN)%nat -> length (name (first_node dm)) = DATADUMPER_NAME_LEN ->
  dumper_ok dm ->
  exists dm', datadumper_add_module_init_cb f n (nm ++ [0]) dm = Ret dm' /\ dumper_ok dm'
    /\ is_Some (json_filler (first_node dm')) /\ json_started dm' = json_started dm /\ fj_root dm' = fj_root dm.
Proof.
  intros Hn Hl Hname (H1 & H2 & H3 & H4 & H5). unfold datadumper_add_module_init_cb.
  assert (forall dst, length dst = DATADUMPER_NAME_LEN -> exists b,
    strncpy dst (nm ++ [0]) DATADUMPER_NAME_LEN = Ret b /\ has_nul b = true) as Hcpy.
  { intros dst Hd. rewrite <- Hd, strncpy_literal by (done || lia). eexists. split; [done|].
    apply bool_decide_true. destruct (length dst - length nm)%nat eqn:E; [lia|]. cbn [repeat]. set_solver. }
  destruct (json_filler (first_node dm)) as [g|] eqn:Eg.
  - destruct (Hcpy (repeat 0 DATADUMPER_NAME_LEN) (repeat_length _ _)) as (b & -> & Hb). rewrite ret_bind.
    eexists. split; [done|]. cbn. split; [|by rewrite Eg]. split_and!; [right; by destruct H1 | | done | done | done].
    apply list.Forall_app. split; [done|]. apply list.Forall_cons. split; [by apply node_ok_new | constructor].
  - destruct (Hcpy _ Hname) as (b & -> & Hb). rewrite ret_bind. eexists. split; [done|]. cbn.
    split; [|done]. split_and!; [right; by apply node_ok_new | done | done | done | done].
Qed.

(** The lookup of a channel's name succeeds or leaves the buffer. *)
Definition channel_readable (cfg : config_manager_t) (m o : bytes) : Prop :=
  forall buf, Z.of_nat (length buf) = MAX_STR_SIZE ->
  exists code b, config_manager_get_option_string cfg m o buf MAX_STR_SIZE = Ret (code, b)
    /\ Z.of_nat (length b) = MAX_STR_SIZE.

Lemma canreceiver_init_ok {V} cfg f n v p (dm : @dumper V) :
  channel_readable cfg (cstr "can_receiver") (cstr "can_body_channel") -> channel_readable cfg (cstr "can_receiver") (cstr "can_chas_channel") ->
  Z.of_nat (length (body_chan p)) = MAX_STR_SIZE -> Z.of_nat (length (chas_chan p)) = MAX_STR_SIZE ->
  length (can_bus_name (can_body_instance p)) = CAN_BUS_LEN ->
  length (can_bus_name (can_chas_instance p)) = CAN_BUS_LEN ->
  length (name (first_node dm)) = DATADUMPER_NAME_LEN -> dumper_ok dm ->
  exists p' dm', canreceiver_init cfg f n v p dm = Ret (p', dm') /\ can_dd p' = v /\ can_in_use p' = true
    /\ body_thread p' = body_thread p /\ chas_thread p' = chas_thread p /\ can_callbacks p' = can_callbacks p
    /\ dumper_ok dm' /\ is_Some (json_filler (first_node dm')) /\ json_started dm' = json_started dm.
Proof.
  intros Hb Hc Lb Lc Ib Ic Hname Hdm. unfold canreceiver_init.
  destruct (add_module_ok f n CAN_JSON_NAME dm) as (dm' & -> & Hok & Hf & Hs & _);
    [by apply (bool_decide_unpack _) | unfold DATADUMPER_NAME_LEN; vm_compute; lia | done | done |].
  rewrite ret_bind. destruct (Hb _ Lb) as (cb & bb & -> & Lbb). rewrite ret_bind.
  destruct (Hc _ Lc) as (cc & bc & -> & Lbc). rewrite ret_bind. cbn [snd].
  unfold MAX_STR_SIZE in *.
  destruct (canthread_init_defined (can_body_instance p) bb) as (b1 & -> & _); [done | lia |]. rewrite ret_bind.
  destruct (canthread_init_defined (can_chas_instance p) bc) as (b2 & -> & _); [done | lia |]. rewrite ret_bind.
  eexists _, _. split; [done|]. by split_and!.
Qed.

(** A plugin whose options have not been counted, with its blocks accessible. *)
Definition options_ready (names : list bytes) (v : vehicle_dd) : Prop :=
  holds_options names (ddstate v) /\ dataset_ptr v = Live /\ tokens_ptr v = Live.

Lemma dd_new_ready mem v :
  options_count (ddstate v) = 0 -> tokens (ddstate v) = [] -> tokens_ptr v = NullPtr ->
  length mem = length can01_vehicle_dataset_t ->
  exists v', dd_new vehicledatasetdemo01_options mem v = Ret v' /\ options_ready demo01_names v'
    /\ length (dataset (ddstate v')) = length mem
    /\ options (ddstate v') = cut_options false vehicledatasetdemo01_options.
Proof.
  intros Hc Ht Hp Hm. change (length can01_vehicle_dataset_t) with 34%nat in Hm.
  unfold dd_new, on_dataset, accessible. cbn [ddstate dataset_ptr tokens_ptr options options_count tokens dataset].
  rewrite Hc, Ht, Hp. fold (fresh_state vehicledatasetdemo01_options mem).
  destruct (demo01_init mem) as (s & E & Hs & Hd & Ho); [lia|]. rewrite E, ret_bind.
  pose proof Hs as (Hcnt & Hlen & _). change (length demo01_names) with 34%nat in *.
  rewrite Hcnt. cbn [Z.eqb andb negb]. eexists. split; [done|]. cbn [ddstate].
  split; [by split_and!|]. split; [|exact Ho]. apply (f_equal length) in Hd. rewrite !length_drop in Hd. lia.
Qed.

(** ** Which signals are published *)

Lemma field_byte_map (f : bytes -> Z) fields names nm :
  field_byte fields (map f names) nm
  = match list_find (.= nm) fields with
    | Some (i, _) => from_option f 0 (names !! i)
    | None => 0
    end.
Proof.
  revert names; induction fields as [|g fields IH]; intros names; [by destruct names|].
  cbn [field_byte list_find]. destruct names as [|m names].
  - cbn [map]. destruct (decide (g = nm)); [done|]. by destruct (list_find _ fields) as [[i x]|].
  - cbn [map]. rewrite IH. case_bool_decide as E; [by rewrite decide_True | rewrite decide_False by done].
    by destruct (list_find _ fields) as [[i x]|].
Qed.

(** The option behind the flag of a signal. *)
Lemma signal_option s :
  match list_find (.= flag_name s) can01_vehicle_dataset_t with
  | Some (i, _) => demo01_names !! i
  | None => None
  end = Some (swap_doors (flag_name s)).
Proof. by destruct s; vm_compute. Qed.

Lemma wanted_selected sel s :
  wanted (flags_of sel demo01_names) s = 1 <-> swap_doors (flag_name s) ∈ sel.
Proof.
  unfold wanted, flags_of. rewrite field_byte_map. pose proof (signal_option s) as E.
  destruct (list_find _ _) as [[i x]|]; [|done]. rewrite E. cbn [from_option].
  case_bool_decide; by split.
Qed.

Lemma flags_of_01 sel names : flags_01 (flags_of sel names).
Proof.
  unfold flags_01, flags_of. induction names as [|n names IH]; constructor; [|exact IH].
  case_bool_decide; [by right | by left].
Qed.

Lemma set_dataset_ready `{Json} json sel p :
  options_ready demo01_names (can_dd p) -> length (dataset (ddstate (can_dd p))) = 34%nat ->
  parses json sel -> Forall (exact demo01_names) sel ->
  exists p', can_set_dataset_cb json p = Ret (0, p') /\ dataset (ddstate (can_dd p')) = flags_of sel demo01_names
    /\ options_ready demo01_names (can_dd p') /\ p' = set_dd (can_dd p') p.
Proof.
  intros (Hh & Hd & Ht) Hl Hp He. unfold can_set_dataset_cb, on_dataset.
  assert (accessible (can_dd p) = ddstate (can_dd p)) as ->
    by (unfold accessible; rewrite Hd, Ht; by destruct (ddstate (can_dd p))).
  destruct (from_json_selects demo01_names (ddstate (can_dd p)) json sel) as (s' & -> & Hs & E);
    [by vm_compute | exact demo01_distinct | done | done | done |].
  rewrite !ret_bind. eexists. split; [done|]. cbn [can_dd set_dd ddstate].
  split; [|split; [|done]].
  - rewrite E. change (length demo01_names) with 34%nat. rewrite drop_ge by lia. apply app_nil_r.
  - split; [by eapply shows_holds|]. split; [exact Hd|]. cbn [tokens_ptr]. rewrite Ht. by destruct (_ && _).
Qed.

(** What the initializer leaves of a plugin that has never been used. *)
Definition can_ready (p : can_plugin) : Prop :=
  options_ready demo01_names (can_dd p) /\ length (dataset (ddstate (can_dd p))) = 34%nat
  /\ can_in_use p = true /\ can_callbacks p = Live
  /\ options (ddstate (can_dd p)) = cut_options false vehicledatasetdemo01_options.

Lemma can_initializer_ok {V} cfg f n mem (dm : @dumper V) :
  length mem = length can01_vehicle_dataset_t ->
  channel_readable cfg (cstr "can_receiver") (cstr "can_body_channel") -> channel_readable cfg (cstr "can_receiver") (cstr "can_chas_channel") ->
  length (name (first_node dm)) = DATADUMPER_NAME_LEN -> dumper_ok dm ->
  exists p dm', pip_plugin_can_initializer cfg f n vehicledatasetdemo01_options mem can_plugin0 dm = Ret (0, p, dm')
    /\ can_ready p /\ body_thread p = NotCreated /\ chas_thread p = NotCreated
    /\ dumper_ok dm' /\ is_Some (json_filler (first_node dm')) /\ json_started dm' = json_started dm.
Proof.
  intros Hm Hb Hc Hname Hdm. unfold pip_plugin_can_initializer.
  destruct (dd_new_ready mem dd0) as (v & E & Hv & Hl & Ho); [done | done | done | done |].
  change (can_dd can_plugin0) with dd0. rewrite E, ret_bind. cbv zeta.
  match goal with |- context [canreceiver_init cfg f n v ?q dm] =>
    destruct (canreceiver_init_ok cfg f n v q dm) as (p' & dm' & -> & Hdd & Hu & Hbt & Hct & Hcb & Hok & Hf & Hs); try done
  end.
  rewrite ret_bind. cbn [fst snd]. exists p', dm'. split; [done|]. unfold can_ready. rewrite Hdd.
  change (length can01_vehicle_dataset_t) with 34%nat in Hm. split_and!; done || (by rewrite Hl).
Qed.

(** C16: From the selection to the bus: a CAN plugin that was created and given
    a JSON array of option names publishes, whatever frames arrive on its two
    buses, an object for exactly the signals whose option was named; only the
    options of the two driver's doors select each the other door. *)
Theorem selected_signals_published `{Json} {V} cfg f n mem (dm : @dumper V) json sel fs :
  length mem = length can01_vehicle_dataset_t ->
  channel_readable cfg (cstr "can_receiver") (cstr "can_body_channel") -> channel_readable cfg (cstr "can_receiver") (cstr "can_chas_channel") ->
  length (name (first_node dm)) = DATADUMPER_NAME_LEN -> dumper_ok dm ->
  parses json sel -> Forall (exact demo01_names) sel ->
  Forall (fun fr => length (fdata fr.1.2) = 8%nat) fs ->
  exists p dm' p' names fresh o,
    pip_plugin_can_initializer cfg f n vehicledatasetdemo01_options mem can_plugin0 dm = Ret (0, p, dm')
    /\ can_set_dataset_cb json p = Ret (0, p')
    /\ can_filler p' = Ret (names, fresh)
    /\ receive (dataset (ddstate (can_dd p'))) fs fresh = Ret o
    /\ forall s, is_Some (o !! s) <->
         (if bool_decide (flag_name s = cstr "DoorDrvrSts") then cstr "DoorDrvrReSts"
          else if bool_decide (flag_name s = cstr "DoorDrvrReSts") then cstr "DoorDrvrSts"
          else flag_name s) ∈ sel.
Proof.
  intros Hm Hb Hc Hname Hdm Hp He Hfs.
  destruct (can_initializer_ok cfg f n mem dm Hm Hb Hc Hname Hdm) as (p & dm' & E & (Hr & Hl & _) & _).
  destruct (set_dataset_ready json sel p Hr Hl Hp He) as (p' & E' & Hd & (_ & Hlive & _) & _).
  set (d := flags_of sel demo01_names) in *.
  destruct (receive_ok d fs (can_json_filler d).2 Hfs (objs_ok_filler d)) as (o & Eo & Ho).
  exists p, dm', p', (can_json_filler d).1, (can_json_filler d).2, o. split_and!; [done | done | | by rewrite Hd |].
  - unfold can_filler. rewrite Hlive, Hd. by destruct (can_json_filler d).
  - intros s. change (is_Some (o !! s) <-> swap_doors (flag_name s) ∈ sel).
    rewrite <- (wanted_selected sel s). fold d. specialize (Ho s).
    destruct (o !! s) as [v|]; split.
    + intros _. apply Ho.
    + by eexists.
    + by intros [? ?].
    + intros Hw. by destruct (Ho Hw).
Qed.

(** ** The life of the plugin *)

Lemma dd_reinit_faults opts mem v :
  options_count (ddstate v) = 34 -> tokens_ptr v = Freed -> length mem = 34%nat -> dd_new opts mem v = Undef OobWrite.
Proof.
  intros Hc Ht Hm. unfold dd_new, on_dataset, accessible, vehicledataset_init.
  cbn [ddstate dataset_ptr tokens_ptr options options_count tokens dataset]. rewrite Hc, Ht.
  change (Z.to_nat 34) with 34%nat. cbn [Z.eqb negb].
  pose proof (clear_flags_spec 34 0 [] mem eq_refl ltac:(lia)) as E. cbn [app] in E. rewrite E. done.
Qed.

(** C34: One life only: a plugin that is ready and whose two threads start ends
    their loops and frees its memory when it is destroyed, unless a stop comes
    before its reader opens the socket on a bus that never fails: then the
    destruction never returns and frees nothing.  If a thread did not start,
    destroying the plugin is undefined; and after a destruction the filler
    that the data dumper still holds, a further initialization, and a further
    start and destruction all touch freed memory. *)
Theorem can_plugin_lives_once {V} p fates :
  can_ready p -> body_thread p = NotCreated -> chas_thread p = NotCreated ->
  (forall created, created <> (true, true) ->
     can_destroy_cb (Heeded, Heeded) (can_start_cb created p).2 = Undef Uninit)
  /\ if returns fates.1 && returns fates.2 then
       exists q, can_destroy_cb fates (can_start_cb (true, true) p).2 = Ret (Some (0, q))
         /\ can_in_use q = false
         /\ end_loop (can_connection (can_body_instance q)) = (match fates.1 with Heeded => 1 | Lost _ => 0 end)
         /\ end_loop (can_connection (can_chas_instance q)) = (match fates.2 with Heeded => 1 | Lost _ => 0 end)
         /\ can_filler q = Undef OobRead
         /\ (forall cfg f n opts mem (dm : @dumper V), length mem = 34%nat ->
               pip_plugin_can_initializer cfg f n opts mem q dm = Undef OobWrite)
         /\ can_destroy_cb (Heeded, Heeded) (can_start_cb (true, true) q).2 = Undef DoubleFree
     else can_destroy_cb fates (can_start_cb (true, true) p).2 = Ret None.
Proof.
  intros ((Hh & Hd & Ht) & Hl & Hu & Hcb & _) Hbt Hct. destruct p as [v u bc cc bi ci bt ct cb]; cbn in *.
  subst u cb bt ct. destruct v as [s dp tp]; cbn in *. subst dp tp. destruct Hh as (Hc & _ & _).
  split; [by intros [[] []] Hne|].
  destruct fates as [[|[]] [|[]]]; cbn [fst snd returns andb]; try reflexivity.
  all: eexists; split; [reflexivity|]; split_and!; try done.
  all: intros cfg f n opts mem dm Hm; unfold pip_plugin_can_initializer; cbn [can_dd];
    by rewrite (dd_reinit_faults opts mem).
Qed.

(** ** The CANopen plugin beside the CAN plugin *)

(** Alone it gives the options of the CAN plugin a block of its own, smaller
    structure, and overruns it. *)
Lemma canopen_alone_overruns {V} cfg f n mem p (dm : @dumper V) :
  co_dd p = dd0 -> length mem = length canopen01_vehicle_dataset_t ->
  pip_plugin_canopen_initializer cfg f n vehicledatasetdemo01_options mem p dm = Undef OobWrite.
Proof.
  intros Hd Hm. unfold pip_plugin_canopen_initializer, dd_new, on_dataset, accessible. rewrite Hd.
  change (vehicledataset_init _) with (vehicledataset_init (fresh_state vehicledatasetdemo01_options mem)).
  by rewrite canopen_block_overruns.
Qed.

(** After the CAN plugin the string of options has been cut. *)
Definition no_options (mem : bytes) (v : vehicle_dd) : Prop :=
  ddstate v = fresh_state (cut_options false vehicledatasetdemo01_options) mem /\ dataset_ptr v = Live /\ tokens_ptr v = NullPtr.

Lemma dd_new_second mem :
  exists v, dd_new (cut_options false vehicledatasetdemo01_options) mem dd0 = Ret v /\ no_options mem v.
Proof.
  unfold dd_new, on_dataset, accessible. cbn [dd0 ddstate dataset_ptr tokens_ptr options options_count tokens dataset].
  fold (fresh_state (cut_options false vehicledatasetdemo01_options) mem).
  rewrite second_receiver_gets_nothing, ret_bind. eexists. split; [done|]. by split_and!.
Qed.

(** Without options a selection changes nothing. *)
Lemma set_dataset_no_options `{Json} json sel mem v :
  no_options mem v -> parses json sel -> on_dataset (fun s => vehicledataset_from_json s json) v = Ret v.
Proof.
  destruct v as [s dp tp]. intros (Hs & Hd & Ht) (pre & arr & elems & more & Hc & Hmax & Hp & Hpre & Harr & Hsz & Hf).
  cbn [ddstate dataset_ptr tokens_ptr] in *. subst s dp tp. unfold on_dataset, accessible.
  cbn [ddstate dataset_ptr tokens_ptr fresh_state options options_count tokens dataset].
  fold (fresh_state (cut_options false vehicledatasetdemo01_options) mem). set (s := fresh_state _ mem).
  assert (vehicledataset_from_json s json = Ret s) as ->; [|done].
  unfold vehicledataset_from_json. rewrite Hp.
  rewrite (proj2 (Z.ltb_ge _ 1)) by (rewrite Hc, length_app; cbn [length]; lia).
  rewrite (proj2 (Z.leb_le _ _)) by lia. cbn [ensure]. run_step.
  rewrite Hc, Nat2Z.id, find_array_spec by (done || (rewrite length_app; cbn [length]; lia)). run_step.
  cbn [Nat.add]. rewrite list_lookup_middle by done. cbn [from_option]. run_step.
  unfold s at 1. rewrite second_receiver_gets_nothing. fold s. run_step. rewrite Hsz.
  destruct (Z.of_nat (length sel) =? 0); [done|]. rewrite Nat2Z.id.
  assert (drop (S (length pre)) (pre ++ arr :: elems ++ more) = elems ++ more) as ->.
  { change (arr :: elems ++ more) with ([arr] ++ elems ++ more).
    rewrite (app_assoc pre), drop_app_length'; [done|]. rewrite length_app. cbn. lia. }
  rewrite (select_all_spec json elems sel more s [] []); [done | done | constructor | | done | done].
  apply list.Forall_forall. intros x _. constructor.
Qed.

(** Next to the CAN plugin the CANopen plugin starts up but cannot be
    told what to publish: it has no options, a selection is accepted and changes
    nothing, and the flags its sending thread reads stay what the allocator left
    in the block; when the plugin is destroyed the thread may still be reading
    them. *)
Lemma canopen_plugin_keeps_garbage `{Json} {V} cfg f n mem (dm : @dumper V) json sel :
  channel_readable cfg (cstr "canopen") (cstr "port_name") ->
  defined (config_manager_get_option_int cfg (cstr "canopen") (cstr "node_id") 0) ->
  length (name (first_node dm)) = DATADUMPER_NAME_LEN -> dumper_ok dm -> parses json sel ->
  exists p dm' q,
    pip_plugin_canopen_initializer cfg f n (cut_options false vehicledatasetdemo01_options) mem canopen_plugin0 dm
      = Ret (0, p, dm')
    /\ canopen_set_dataset_cb json p = Ret (0, p)
    /\ bg_reads_flags (canopen_start_cb (true, true) p).2 = Ret mem
    /\ canopen_destroy_cb Heeded (canopen_start_cb (true, true) p).2 = Ret (Some (0, q))
    /\ co_in_use q = false /\ co_end_loop q = 1 /\ bg_reads_flags q = Undef OobRead.
Proof.
  intros Hport [node Hnode] Hname Hdm Hp. unfold pip_plugin_canopen_initializer.
  destruct (dd_new_second mem) as (v & E & Hv). change (co_dd canopen_plugin0) with dd0. rewrite E, ret_bind.
  unfold canopenreceiver_init.
  destruct (add_module_ok f n CANOPEN_JSON_NAME dm) as (dm' & -> & _);
    [by apply (bool_decide_unpack _) | unfold DATADUMPER_NAME_LEN; vm_compute; lia | done | done |].
  change CANOPEN_MAX_STR_SIZE with MAX_STR_SIZE. rewrite ret_bind.
  destruct (Hport (co_port_name canopen_plugin0) eq_refl) as (c & b & -> & Hb).
  change (co_node_id canopen_plugin0) with 0. rewrite ret_bind, Hnode, ret_bind. cbn [snd].
  unfold MAX_STR_SIZE in Hb. destruct (canthread_init_defined (co_instance canopen_plugin0) b) as (bus & -> & _); [done | lia |].
  rewrite !ret_bind. cbn [fst snd]. eexists _, dm', _. split; [done|]. split_and!.
  - unfold canopen_set_dataset_cb. cbn [co_dd].
    rewrite (set_dataset_no_options json sel mem v Hv Hp), ret_bind. reflexivity.
  - destruct Hv as (Hs & Hd & _). unfold bg_reads_flags, canopen_start_cb, canopenreceiver_start, canthread_start.
    cbn [fst snd negb Z.eqb co_dd co_bg_thread]. rewrite Hd, Hs. reflexivity.
  - destruct v as [s dp tp]. destruct Hv as (Hs & Hd & Ht). cbn [dataset_ptr tokens_ptr] in Hd, Ht. subst dp tp.
    clear. reflexivity.
  - reflexivity.
  - reflexivity.
  - reflexivity.
Qed.

(** ** What the files of the data dumper hold

    A module's object is its number in the tree and its contents are part of the
    state; [render] prints a tree with the contents the CAN module has at that
    time.  Other modules may dump as well, at any time and with any period. *)
Section Files.
Context (cfg : config_manager_t) (render : list (bytes * @dump_json nat) -> can_objs -> bytes) (d : bytes).

Definition JSON_DUMP_PERIOD_6S : Z := 6.

Inductive event : Type :=
| FrameAt (b : bus) (frame : can_frame) (now : Z) (locks : bool)
| OtherAt (now : Z) (locks : bool) (period : Z).

(** The CAN module's filler runs again when a file was written. *)
Definition dump_now (now : Z) (locks : bool) (period : Z) (st : can_objs * (@dumper nat * fsys))
  : out (can_objs * (@dumper nat * fsys)) :=
  r ← datadumper_dump_if_needed (fun f => f) (fun members => render members st.1) cfg now locks period st.2;
  Ret (if r.1 =? 1 then (can_json_filler d).2 else st.1, r.2).

(** The whole callback of a frame: its values, then the dump. *)
Definition on_event (ev : event) (st : can_objs * (@dumper nat * fsys)) : out (can_objs * (@dumper nat * fsys)) :=
  match ev with
  | FrameAt b frame now locks =>
      o ← on_frame d (b, frame, false) st.1; dump_now now locks JSON_DUMP_PERIOD_6S (o, st.2)
  | OtherAt now locks period => dump_now now locks period st
  end.

Fixpoint run_events (evs : list event) (st : can_objs * (@dumper nat * fsys)) : out (can_objs * (@dumper nat * fsys)) :=
  match evs with [] => Ret st | ev :: evs => st ← on_event ev st; run_events evs st end.

Definition event_time (ev : event) : Z := match ev with FrameAt _ _ now _ => now | OtherAt now _ _ => now end.
Definition event_locks (ev : event) : bool := match ev with FrameAt _ _ _ l => l | OtherAt _ l _ => l end.
Definition event_period (ev : event) : Z := match ev with FrameAt _ _ _ _ => JSON_DUMP_PERIOD_6S | OtherAt _ _ p => p end.

Definition event_frames (ev : event) : list (bus * can_frame * bool) :=
  match ev with FrameAt b frame _ _ => [(b, frame, false)] | OtherAt _ _ _ => [] end.
Definition frames_of (evs : list event) := mjoin (event_frames <$> evs).

(** Frames of eight bytes, times that can be printed, periods of a second or more. *)
Definition event_ok (ev : event) : Prop :=
  Forall (fun f => length (fdata f.1.2) = 8%nat) (event_frames ev) /\ event_time ev < 10 ^ 20 /\ 1 <= event_period ev.

Definition due (ev : event) (started : Z) : bool := (started + event_period ev - 1 <? event_time ev) && event_locks ev.

(** An event is its frame, then a dump. *)
Lemma on_event_split ev o st :
  event_ok ev -> objs_ok d o ->
  exists o', receive d (event_frames ev) o = Ret o' /\ objs_ok d o'
    /\ on_event ev (o, st) = dump_now (event_time ev) (event_locks ev) (event_period ev) (o', st).
Proof.
  intros (Hf & _) Ho. destruct (receive_ok d (event_frames ev) o Hf Ho) as (o' & E & Ho').
  exists o'. split; [done|]. split; [done|]. destruct ev as [b frame now l|now l p]; cbn [event_frames receive] in E.
  - cbn [on_event fst snd]. destruct (on_frame _ _ _) as [o1|]; [|done]. rewrite ret_bind in *. by injection E as ->.
  - by injection E as ->.
Qed.

Lemma receive_app fs fs' o : receive d (fs ++ fs') o = (o ← receive d fs o; receive d fs' o).
Proof.
  revert o; induction fs as [|f fs IH]; intros o; [done|]. cbn [app receive].
  destruct (on_frame d f o); [|done]. rewrite !ret_bind. apply IH.
Qed.

(** Before a dump is due the files and the tree stay, the objects follow the frames. *)
Lemma run_quiet evs o s fs :
  Forall event_ok evs -> Forall (fun ev => due ev (json_started s) = false) evs -> objs_ok d o ->
  exists o', receive d (frames_of evs) o = Ret o' /\ objs_ok d o' /\ run_events evs (o, (s, fs)) = Ret (o', (s, fs)).
Proof.
  intros Hev. revert o; induction Hev as [|ev evs H1 _ IH]; intros o Hd Ho; [by exists o|].
  apply list.Forall_cons in Hd as [Hd1 Hd]. destruct (on_event_split ev o (s, fs) H1 Ho) as (o1 & E1 & Ho1 & Eev).
  destruct (IH o1 Hd Ho1) as (o2 & E2 & Ho2 & Er). exists o2. split; [|split; [done|]].
  - unfold frames_of. rewrite fmap_cons, mjoin_cons, receive_app, E1. exact E2.
  - cbn [run_events]. rewrite Eev. unfold dump_now, datadumper_dump_if_needed. cbn [fst snd].
    change (period_over (event_time ev) (event_period ev) s && event_locks ev) with (due ev (json_started s)).
    rewrite Hd1. exact Er.
Qed.

(** Later events leave the files of earlier trees alone. *)
Lemma run_keeps_file evs o s fs t :
  options_readable cfg -> dumper_ok s -> Forall event_ok evs -> objs_ok d o ->
  0 <= t < json_started s -> json_started s < 10 ^ 20 ->
  exists o' s' fs', run_events evs (o, (s, fs)) = Ret (o', (s', fs')) /\ files fs' !! log_file t = files fs !! log_file t.
Proof.
  intros Hc Hs Hev Ho Ht Hb. revert o s fs Hs Ho Ht Hb. induction Hev as [|ev evs H1 _ IH]; intros o s fs Hs Ho Ht Hb.
  { exists o, s, fs. done. }
  destruct (on_event_split ev o (s, fs) H1 Ho) as (o1 & _ & Ho1 & Eev). cbn [run_events]. rewrite Eev.
  unfold dump_now. cbn [fst snd].
  destruct (dump_if_needed_ok (fun f => f) (fun members => render members o1) cfg (event_time ev) (event_locks ev)
              (event_period ev) s fs Hc Hs) as (s1 & -> & Hs1 & Hdue).
  rewrite !ret_bind. destruct (due_at _ _ _ s) eqn:Ed; cbn [fst snd Z.eqb Pos.eqb]; [|by apply IH].
  destruct (Hdue eq_refl) as [Hst _]. unfold due_at in Ed. apply andb_true_iff in Ed as [Ed _].
  apply Z.ltb_lt in Ed. destruct H1 as (_ & Hnow & Hp).
  edestruct (IH (can_json_filler d).2 s1) as (o' & s' & fs' & E & Hk); [done | apply objs_ok_filler | lia | lia |].
  exists o', s', fs'. split; [exact E|]. rewrite Hk, to_file_other.
  - destruct (dir_exists fs json_log); [done|]. by rewrite mkdir_keeps_files.
  - intros Hl. apply log_file_inj in Hl; lia.
Qed.

(** C17: From the buses to the file: the file of a period is the tree with
    exactly the objects that the frames of that period produce from fresh ones;
    it is written by the first event at which the period is over and the lock
    is free, the next period begins with fresh objects, and no later event
    touches the file. *)
Theorem period_file_holds_its_frames evs ev later s fs root :
  options_readable cfg -> dumper_ok s -> fj_root s = Some root -> 0 <= json_started s ->
  log_writable fs (json_started s) ->
  Forall event_ok evs -> event_ok ev -> Forall event_ok later ->
  Forall (fun e => due e (json_started s) = false) evs -> due ev (json_started s) = true ->
  let fresh := (can_json_filler d).2 in
  exists o s1 fs1 o2 s2 fs2,
    receive d (frames_of (evs ++ [ev])) fresh = Ret o
    /\ run_events (evs ++ [ev]) (fresh, (s, fs)) = Ret (fresh, (s1, fs1))
    /\ json_started s1 = event_time ev
    /\ files fs1 !! log_file (json_started s) = Some (render root o)
    /\ run_events later (fresh, (s1, fs1)) = Ret (o2, (s2, fs2))
    /\ files fs2 !! log_file (json_started s) = Some (render root o).
Proof.
  intros Hc Hs Hroot H0 Hw Hevs Hev Hlater Hquiet Hdue fresh.
  destruct (run_quiet evs fresh s fs Hevs Hquiet (objs_ok_filler d)) as (o1 & E1 & Ho1 & R1).
  destruct (on_event_split ev o1 (s, fs) Hev Ho1) as (o & E2 & Ho & R2).
  destruct (dump_if_needed_ok (fun f => f) (fun members => render members o) cfg (event_time ev) (event_locks ev)
              (event_period ev) s fs Hc Hs) as (s1 & Ed & Hs1 & Hst).
  assert (due_at (event_time ev) (event_locks ev) (event_period ev) s = true) as Hd by exact Hdue.
  rewrite Hd, Hroot in Ed. destruct (Hst Hd) as [Hs1t _].
  pose proof (to_file_written (fun members => render members o) fs (json_started s) root H0 Hw) as Hfile.
  set (fs1 := to_file _ _ _ _) in *.
  assert (json_started s < event_time ev) as Hlt.
  { unfold due in Hdue. apply andb_true_iff in Hdue as [Hdue _]. apply Z.ltb_lt in Hdue. destruct Hev as (_ & _ & Hp). lia. }
  destruct (run_keeps_file later fresh s1 fs1 (json_started s) Hc Hs1 Hlater (objs_ok_filler d))
    as (o2 & s2 & fs2 & R3 & Hk); [lia | rewrite Hs1t; apply Hev |].
  exists o, s1, fs1, o2, s2, fs2. split_and!; [| | done | exact Hfile | exact R3 | by rewrite Hk].
  - unfold frames_of. rewrite fmap_app, join_app, receive_app. fold (frames_of evs). rewrite E1, ret_bind.
    cbn. rewrite app_nil_r. exact E2.
  - assert (forall l st, run_events (l ++ [ev]) st = (st ← run_events l st; on_event ev st)) as Happ.
    { induction l as [|e l IH]; intros st; cbn [app run_events].
      - rewrite ret_bind. by destruct (on_event ev st).
      - destruct (on_event e st); [|done]. rewrite !ret_bind. apply IH. }
    rewrite Happ, R1, ret_bind, R2. unfold dump_now. cbn [fst snd]. by rewrite Ed.
Qed.
End Files.

(** ** Instances *)

Module VehicleWitness.
#[local] Existing Instance DatasetWitness.toy_json.

Definition trunk : bytes := cstr "TrSts".

Lemma trunk_option : trunk ∈ demo01_names.
Proof. apply (bool_decide_unpack _). vm_compute. exact I. Qed.

Lemma trunk_parses : parses (DatasetWitness.one_name trunk) [trunk].
Proof. apply DatasetWitness.one_name_parses; [by apply (bool_decide_unpack _) | unfold TOKNAME_LEN; vm_compute; lia]. Qed.

Lemma nothing_configured m o : channel_readable config0 m o.
Proof. intros buf Hl. by exists CONFIG_MANAGER_GROUP_NOT_FOUND, buf. Qed.

(** A dumper with two modules, the first of which is the CAN module. *)
Definition tree : list (bytes * @dump_json nat) := [(cstr "data", DObject [(CAN_JSON_NAME, DModule 1%nat)])].
Definition running : @dumper nat :=
  Dumper (DataDumperWitness.a_node "can_data" 1) [DataDumperWitness.a_node "gps_data" 2] (Some tree) 100
    (cstr "dev" ++ repeat 0 125) ∅ (repeat 0 128) 0.

Lemma running_ok : dumper_ok running.
Proof.
  split_and!; [right | | reflexivity | reflexivity | reflexivity]; [by split_and!; eexists |].
  apply list.Forall_cons. split; [by split_and!; eexists | constructor].
Qed.

Lemma selected_signals_published_witness :
  exists p dm' p' names fresh o,
    pip_plugin_can_initializer config0 1 1 vehicledatasetdemo01_options (repeat 9 34) can_plugin0 running = Ret (0, p, dm')
    /\ can_set_dataset_cb (DatasetWitness.one_name trunk) p = Ret (0, p')
    /\ can_filler p' = Ret (names, fresh)
    /\ receive (dataset (ddstate (can_dd p'))) [(Body, Frame 0xE0 8 (repeat 255 8), false); (Chassis, Frame 0x240 8 (repeat 7 8), false)] fresh
       = Ret o
    /\ forall s, is_Some (o !! s) <->
         (if bool_decide (flag_name s = cstr "DoorDrvrSts") then cstr "DoorDrvrReSts"
          else if bool_decide (flag_name s = cstr "DoorDrvrReSts") then cstr "DoorDrvrSts"
          else flag_name s) ∈ [trunk].
Proof.
  apply (selected_signals_published config0 1 1 (repeat 9 34) running (DatasetWitness.one_name trunk) [trunk]
           [(Body, Frame 0xE0 8 (repeat 255 8), false); (Chassis, Frame 0x240 8 (repeat 7 8), false)]);
    [ reflexivity | apply nothing_configured | apply nothing_configured | reflexivity | apply running_ok
    | apply trunk_parses | | repeat constructor ].
  constructor; [exact (proj1 (demo01_exact trunk trunk_option)) | constructor].
Defined.

(** The plugin as the initializer leaves it. *)
Definition ready_plugin : can_plugin :=
  CanPlugin (VehicleDd {| options := cut_options false vehicledatasetdemo01_options; options_count := 34;
                          tokens := toks_of demo01_names (repeat 0 34); dataset := repeat 0 34 |} Live Live)
    true (repeat 0 256) (repeat 0 256) instance0 instance0 NotCreated NotCreated Live.

Lemma ready_plugin_ready : can_ready ready_plugin.
Proof.
  split; [|by split_and!]. split; [|done]. split; [reflexivity|]. split; [apply Nat.leb_le; reflexivity|].
  exists (repeat 0 34). split; reflexivity.
Qed.

Lemma can_plugin_lives_once_witness :
  (exists q, can_destroy_cb (Heeded, Lost true) (can_start_cb (true, true) ready_plugin).2 = Ret (Some (0, q))
             /\ can_in_use q = false)
  /\ can_destroy_cb (Heeded, Lost false) (can_start_cb (true, true) ready_plugin).2 = Ret None.
Proof.
  split.
  - destruct (can_plugin_lives_once (V := Z) ready_plugin (Heeded, Lost true) ready_plugin_ready eq_refl eq_refl)
      as (_ & q & H1 & H2 & _).
    exists q. split; [exact H1 | exact H2].
  - exact (proj2 (can_plugin_lives_once (V := Z) ready_plugin (Heeded, Lost false) ready_plugin_ready eq_refl eq_refl)).
Defined.

Lemma canopen_plugin_keeps_garbage_witness :
  exists p dm' q,
    pip_plugin_canopen_initializer config0 2 2 (cut_options false vehicledatasetdemo01_options) (repeat 1 20)
      canopen_plugin0 running = Ret (0, p, dm')
    /\ canopen_set_dataset_cb (DatasetWitness.one_name trunk) p = Ret (0, p)
    /\ bg_reads_flags (canopen_start_cb (true, true) p).2 = Ret (repeat 1 20)
    /\ canopen_destroy_cb Heeded (canopen_start_cb (true, true) p).2 = Ret (Some (0, q))
    /\ co_in_use q = false /\ co_end_loop q = 1 /\ bg_reads_flags q = Undef OobRead.
Proof.
  apply (canopen_plugin_keeps_garbage config0 2 2 (repeat 1 20) running (DatasetWitness.one_name trunk) [trunk]);
    [ apply nothing_configured | by eexists | reflexivity | apply running_ok | apply trunk_parses ].
Defined.

(** A printer that shows the state of the driver's door. *)
Definition show_door (members : list (bytes * @dump_json nat)) (o : can_objs) : bytes :=
  match o !! DoorDrvrSts with Some (Some (JObject [(_, JString s)])) => s | _ => [] end.

(** The door is reported closed, another module cannot get the lock, then the
    period is over. *)
Definition door_frame : event :=
  FrameAt Body (Frame 0x40 8 (frame_of (pack CEMBodyFr02 CanWitness.some_vals))) 101 true.

Lemma period_file_holds_its_frames_witness :
  exists o s1 fs1 o2 s2 fs2,
    receive CanWitness.all_on (frames_of ([door_frame; OtherAt 120 false 1] ++ [FrameAt Chassis (Frame 0x210 8 (repeat 0 8)) 106 true]))
      (can_json_filler CanWitness.all_on).2 = Ret o
    /\ run_events config0 show_door CanWitness.all_on
         ([door_frame; OtherAt 120 false 1] ++ [FrameAt Chassis (Frame 0x210 8 (repeat 0 8)) 106 true])
         ((can_json_filler CanWitness.all_on).2, (running, DataDumperWitness.cwd))
       = Ret ((can_json_filler CanWitness.all_on).2, (s1, fs1))
    /\ json_started s1 = 106
    /\ files fs1 !! log_file 100 = Some (show_door tree o)
    /\ run_events config0 show_door CanWitness.all_on [OtherAt 200 true 6] ((can_json_filler CanWitness.all_on).2, (s1, fs1))
       = Ret (o2, (s2, fs2))
    /\ files fs2 !! log_file 100 = Some (show_door tree o).
Proof.
  assert (forall e, event_ok (FrameAt e (Frame 0x40 8 (frame_of (pack CEMBodyFr02 CanWitness.some_vals))) 101 true)) as He.
  { intros e. split; [by constructor|]. cbn. unfold JSON_DUMP_PERIOD_6S. lia. }
  refine (period_file_holds_its_frames config0 show_door CanWitness.all_on [door_frame; OtherAt 120 false 1]
            (FrameAt Chassis (Frame 0x210 8 (repeat 0 8)) 106 true) [OtherAt 200 true 6] running DataDumperWitness.cwd tree
            DataDumperWitness.nothing_readable running_ok eq_refl _ _ _ _ _ _ _).
  - cbn. lia.
  - split; [apply (bool_decide_unpack _); vm_compute; exact I|].
    right. split; apply (bool_decide_unpack _); vm_compute; exact I.
  - apply Forall_cons_2; [apply He|]. apply Forall_cons_2; [|constructor]. split; [constructor|]. cbn. lia.
  - split; [by constructor|]. cbn. unfold JSON_DUMP_PERIOD_6S. lia.
  - apply Forall_cons_2; [|constructor]. split; [constructor|]. cbn. lia.
  - by repeat constructor.
  - reflexivity.
Defined.

(** The file of that run. *)
Lemma door_reported_in_file :
  (st ← run_events config0 show_door CanWitness.all_on [door_frame; OtherAt 106 true 6]
          ((can_json_filler CanWitness.all_on).2, (running, DataDumperWitness.cwd));
   Ret (files st.2.2 !! log_file 100)) = Ret (Some (cstr "Closed")).
Proof. vm_compute. reflexivity. Qed.
End VehicleWitness.
