(* ===== verification/Minmea.v ===== *)
(** * The NMEA parser (src/plugins/pip/gps/minmea/minmea.c, minmea.h)

    Checking a sentence against its checksum, the scanner of its fields, the
    parsers of eight kinds of sentences and the conversions of coordinates.
    A sentence is the content of a C string, without the terminating NUL, so
    that a pointer into it is a suffix, and reading at its end gives 0. *)

From S2P Require Import Prelude CStd Floats.

(** ** Characters *)

(** The C locale. *)
Definition isprint (c : Z) : bool := (32 <=? c) && (c <=? 126).

(** [*p]. *)
Definition char_at (p : bytes) : Z := match p with c :: _ => c | [] => 0 end.

Definition hex2int (c : Z) : Z :=
  if (48 <=? c) && (c <=? 57) then c - 48
  else if (65 <=? c) && (c <=? 70) then c - 65 + 10
  else if (97 <=? c) && (c <=? 102) then c - 97 + 10
  else -1.

(** ** Checksums *)

Fixpoint checksum_loop (checksum : Z) (s : bytes) : Z :=
  match s with
  | c :: s => if c =? 42 then checksum else checksum_loop (Z.lxor checksum c) s
  | [] => checksum
  end.

(** With or without the leading dollar sign. *)
Definition minmea_checksum (sentence : bytes) : Z :=
  match sentence with
  | 36 :: s => checksum_loop 0 s
  | s => checksum_loop 0 s
  end.

Definition MINMEA_MAX_LENGTH : Z := 80.

(** The loop stops at a byte that is not printable, too. *)
Fixpoint check_loop (checksum : Z) (s : bytes) : Z * bytes :=
  match s with
  | c :: s' => if (c =? 42) || negb (isprint c) then (checksum, s) else check_loop (Z.lxor checksum c) s'
  | [] => (checksum, [])
  end.

(** The only stuff allowed at the end is a newline. *)
Definition at_end (s : bytes) : bool :=
  bool_decide (s = []) || bool_decide (s = [10]) || bool_decide (s = [13; 10]).

Definition minmea_check (sentence : bytes) (strict : bool) : bool :=
  if MINMEA_MAX_LENGTH + 3 <? Z.of_nat (length sentence) then false else
  match sentence with
  | 36 :: s =>
      let (checksum, rest) := check_loop 0 s in
      if char_at rest =? 42 then
        let upper := hex2int (char_at (drop 1 rest)) in
        if upper =? -1 then false else
        let lower := hex2int (char_at (drop 2 rest)) in
        if lower =? -1 then false else
        if negb (checksum =? Z.lor (Z.shiftl upper 4) lower) then false
        else at_end (drop 3 rest)
      else if strict then false else at_end rest
  | _ => false
  end.

(** ** Fields *)

Definition minmea_isfield (c : Z) : bool := isprint c && negb (c =? 44) && negb (c =? 42).

Record minmea_float := MinmeaFloat { value : Z; scale : Z }.
Record minmea_date := MinmeaDate { day : Z; month : Z; year : Z }.
Record minmea_time := MinmeaTime { hours : Z; minutes : Z; seconds : Z; microseconds : Z }.

(** What a field stores through its pointer. *)
Inductive nmea_value : Type :=
| VChar (c : Z)
| VDir (d : Z)
| VFloat (f : minmea_float)
| VInt (i : Z)
| VString (s : bytes)
| VType (t : bytes)
| VDate (d : minmea_date)
| VTime (t : minmea_time)
| VNone.

(** A result, a parse error ([None]), or undefined behaviour. *)
Abbreviation parsed A := (out (option A)).

Definition scan_char (field : option bytes) : parsed nmea_value :=
  Ret (Some (VChar (match field with
                    | Some (c :: _) => if minmea_isfield c then c else 0
                    | _ => 0 end))).

Definition scan_direction (field : option bytes) : parsed nmea_value :=
  let c := match field with Some p => char_at p | None => 0 end in
  if minmea_isfield c then
    if (c =? 78) || (c =? 69) then Ret (Some (VDir 1))
    else if (c =? 83) || (c =? 87) then Ret (Some (VDir (-1)))
    else Ret None
  else Ret (Some (VDir 0)).

(** The loop of case [f]: sign, value (-1 until a digit is seen) and scale.
    Multiplying the scale is not guarded. *)
Fixpoint scan_fraction (s : bytes) (sign v sc : Z) : parsed (Z * Z * Z) :=
  match s with
  | [] => Ret (Some (sign, v, sc))
  | c :: s =>
      if negb (minmea_isfield c) then Ret (Some (sign, v, sc))
      else if (c =? 43) && (sign =? 0) && (v =? -1) then scan_fraction s 1 v sc
      else if (c =? 45) && (sign =? 0) && (v =? -1) then scan_fraction s (-1) v sc
      else if is_digit c then
        let digit := c - 48 in
        let v := if v =? -1 then 0 else v in
        if Z.quot (int_max - digit) 10 <? v then
          (if negb (sc =? 0) then Ret (Some (sign, v, sc)) else Ret None)
        else if sc =? 0 then scan_fraction s sign (10 * v + digit) 0
        else if int_max <? sc * 10 then Undef IntOverflow
        else scan_fraction s sign (10 * v + digit) (sc * 10)
      else if (c =? 46) && (sc =? 0) then scan_fraction s sign v 1
      else if c =? 32 then
        (if negb (sign =? 0) || negb (v =? -1) || negb (sc =? 0) then Ret None
         else scan_fraction s sign v sc)
      else Ret None
  end.

Definition scan_float (field : option bytes) : parsed nmea_value :=
  r ← (match field with Some p => scan_fraction p 0 (-1) 0 | None => Ret (Some (0, -1, 0)) end);
  match r with
  | None => Ret None
  | Some (sign, v, sc) =>
      if (negb (sign =? 0) || negb (sc =? 0)) && (v =? -1) then Ret None else
      let (v, sc) := if v =? -1 then (0, 0) else if sc =? 0 then (v, 1) else (v, sc) in
      Ret (Some (VFloat (MinmeaFloat (if sign =? 0 then v else v * sign) sc)))
  end.

(** [strtol(p, &end, 10)] on a C string: the value, limited to [long], and the
    end, which is [p] when there is no number. *)
Definition strtol (p : bytes) : Z * bytes :=
  let s := skip_spaces p in
  let (sign, s) := match s with 45 :: s => (-1, s) | 43 :: s => (1, s) | _ => (1, s) end in
  if is_digit (char_at s) then
    let v := sign * digits_value 0 s in
    (Z.max (- 2 ^ 63) (Z.min v (2 ^ 63 - 1)),
     (fix skip_digits s := match s with c :: s' => if is_digit c then skip_digits s' else s | [] => [] end) s)
  else (0, p).

Definition scan_int (field : option bytes) : parsed nmea_value :=
  match field with
  | None => Ret (Some (VInt 0))
  | Some p =>
      let (v, endptr) := strtol p in
      if minmea_isfield (char_at endptr) then Ret None else Ret (Some (VInt (s32 v)))
  end.

Fixpoint field_prefix (s : bytes) : bytes :=
  match s with c :: s => if minmea_isfield c then c :: field_prefix s else [] | [] => [] end.

(** The caller's buffer is as long as the field; no format of this program uses
    the case. *)
Definition scan_string (field : option bytes) : parsed nmea_value :=
  Ret (Some (VString (match field with Some p => field_prefix p | None => [] end))).

(** The dollar sign and five field characters; the checks stop at the first one
    that fails. *)
Definition scan_type (field : option bytes) : parsed nmea_value :=
  match field with
  | Some (36 :: p) =>
      if (length (field_prefix (take 5 p)) =? 5)%nat then Ret (Some (VType (take 5 p))) else Ret None
  | _ => Ret None
  end.

(** Whether a string starts with [n] digits, and two of them as a number. *)
Definition starts_digits (n : nat) (p : bytes) : bool :=
  (length (take n p) =? n)%nat && forallb is_digit (take n p).
Definition two_digits (p : bytes) : Z := 10 * (char_at p - 48) + (char_at (drop 1 p) - 48).

Definition starts_field (field : option bytes) : bool :=
  match field with Some p => minmea_isfield (char_at p) | None => false end.

Definition scan_date (field : option bytes) : parsed nmea_value :=
  match field with
  | Some p =>
      if minmea_isfield (char_at p) then
        if starts_digits 6 p then
          Ret (Some (VDate (MinmeaDate (two_digits p) (two_digits (drop 2 p)) (two_digits (drop 4 p)))))
        else Ret None
      else Ret (Some (VDate (MinmeaDate (-1) (-1) (-1))))
  | None => Ret (Some (VDate (MinmeaDate (-1) (-1) (-1))))
  end.

(** At most six digits behind the point; unsigned 32-bit numbers. *)
Fixpoint scan_micros (n : nat) (s : bytes) (v sc : Z) : Z :=
  match n, s with
  | Datatypes.S n, c :: s =>
      if is_digit c && (1 <? sc) then scan_micros n s (u32 (v * 10 + (c - 48))) (sc / 10) else u32 (v * sc)
  | _, _ => u32 (v * sc)
  end.

Definition scan_time (field : option bytes) : parsed nmea_value :=
  match field with
  | Some p =>
      if minmea_isfield (char_at p) then
        if starts_digits 6 p then
          let u := if char_at (drop 6 p) =? 46 then s32 (scan_micros 6 (drop 7 p) 0 1000000) else 0 in
          Ret (Some (VTime (MinmeaTime (two_digits p) (two_digits (drop 2 p)) (two_digits (drop 4 p)) u)))
        else Ret None
      else Ret (Some (VTime (MinmeaTime (-1) (-1) (-1) (-1))))
  | None => Ret (Some (VTime (MinmeaTime (-1) (-1) (-1) (-1))))
  end.

(** The switch on the type character; [None] for an unknown one, too. *)
Definition scan_field (type : Z) (field : option bytes) : parsed nmea_value :=
  if type =? 99 then scan_char field                  (* c *)
  else if type =? 100 then scan_direction field       (* d *)
  else if type =? 102 then scan_float field           (* f *)
  else if type =? 105 then scan_int field             (* i *)
  else if type =? 115 then scan_string field          (* s *)
  else if type =? 116 then scan_type field            (* t *)
  else if type =? 68 then scan_date field             (* D *)
  else if type =? 84 then scan_time field             (* T *)
  else if type =? 95 then Ret (Some VNone)            (* _ *)
  else Ret None.

Fixpoint skip_field (s : bytes) : bytes :=
  match s with c :: s' => if minmea_isfield c then skip_field s' else s | [] => [] end.

(** [next_field]: the sentence behind the comma, and the field there. *)
Definition next_field (sentence : bytes) : bytes * option bytes :=
  match skip_field sentence with
  | 44 :: s => (s, Some s)
  | s => (s, None)
  end.

Fixpoint scan_loop (format sentence : bytes) (field : option bytes) (optional : bool)
  : parsed (list nmea_value) :=
  match format with
  | [] => Ret (Some [])
  | type :: format =>
      if type =? 59 then scan_loop format sentence field true      (* ; *)
      else if negb (bool_decide (is_Some field)) && negb optional then Ret None
      else
        v ← scan_field type field;
        match v with
        | None => Ret None
        | Some v =>
            let (sentence, field) := next_field sentence in
            vs ← scan_loop format sentence field optional;
            Ret (match vs with Some vs => Some (v :: vs) | None => None end)
        end
  end.

Definition minmea_scan (sentence : bytes) (format : bytes) : parsed (list nmea_value) :=
  scan_loop format sentence (Some sentence) false.

(** ** Kinds of sentences *)

Definition MINMEA_INVALID : Z := -1.
Definition MINMEA_UNKNOWN : Z := 0.
Definition MINMEA_SENTENCE_RMC : Z := 1.
Definition MINMEA_SENTENCE_GGA : Z := 2.
Definition MINMEA_SENTENCE_GSA : Z := 3.
Definition MINMEA_SENTENCE_GLL : Z := 4.
Definition MINMEA_SENTENCE_GST : Z := 5.
Definition MINMEA_SENTENCE_GSV : Z := 6.
Definition MINMEA_SENTENCE_VTG : Z := 7.
Definition MINMEA_SENTENCE_ZDA : Z := 8.

(** [type + 2] is the last three of the five characters. *)
Definition is_type (t : bytes) (s : string) : bool := bool_decide (drop 2 t = cstr s).

Definition minmea_talker_id (sentence : bytes) : parsed bytes :=
  r ← minmea_scan sentence (cstr "t");
  Ret (match r with Some [VType t] => Some (take 2 t) | _ => None end).

Definition minmea_sentence_id (sentence : bytes) (strict : bool) : out Z :=
  if negb (minmea_check sentence strict) then Ret MINMEA_INVALID else
  r ← minmea_scan sentence (cstr "t");
  Ret (match r with
       | Some [VType t] =>
           if is_type t "RMC" then MINMEA_SENTENCE_RMC
           else if is_type t "GGA" then MINMEA_SENTENCE_GGA
           else if is_type t "GSA" then MINMEA_SENTENCE_GSA
           else if is_type t "GLL" then MINMEA_SENTENCE_GLL
           else if is_type t "GST" then MINMEA_SENTENCE_GST
           else if is_type t "GSV" then MINMEA_SENTENCE_GSV
           else if is_type t "VTG" then MINMEA_SENTENCE_VTG
           else if is_type t "ZDA" then MINMEA_SENTENCE_ZDA
           else MINMEA_UNKNOWN
       | _ => MINMEA_INVALID
       end).

Record minmea_sentence_rmc := Rmc {
  rmc_time : minmea_time; rmc_valid : bool; rmc_latitude : minmea_float; rmc_longitude : minmea_float;
  rmc_speed : minmea_float; rmc_course : minmea_float; rmc_date : minmea_date;
  rmc_variation : minmea_float }.

Record minmea_sentence_gga := Gga {
  gga_time : minmea_time; gga_latitude : minmea_float; gga_longitude : minmea_float;
  gga_fix_quality : Z; gga_satellites_tracked : Z; gga_hdop : minmea_float; gga_altitude : minmea_float;
  gga_altitude_units : Z; gga_height : minmea_float; gga_height_units : Z; gga_dgps_age : minmea_float }.

Record minmea_sentence_gll := Gll {
  gll_latitude : minmea_float; gll_longitude : minmea_float; gll_time : minmea_time;
  gll_status : Z; gll_mode : Z }.

Record minmea_sentence_gst := Gst { gst_time : minmea_time; gst_values : list minmea_float }.
Record minmea_sentence_gsa := Gsa {
  gsa_mode : Z; gsa_fix_type : Z; gsa_sats : list Z; gsa_pdop : minmea_float; gsa_hdop : minmea_float;
  gsa_vdop : minmea_float }.
Record minmea_sentence_gsv := Gsv { gsv_total_msgs : Z; gsv_msg_nr : Z; gsv_total_sats : Z; gsv_sats : list Z }.
Record minmea_sentence_vtg := Vtg {
  vtg_true_track : minmea_float; vtg_magnetic_track : minmea_float; vtg_speed_knots : minmea_float;
  vtg_speed_kph : minmea_float; vtg_faa_mode : Z }.
Record minmea_sentence_zda := Zda {
  zda_time : minmea_time; zda_date : minmea_date; zda_hour_offset : Z; zda_minute_offset : Z }.

(** [f.value *= direction]. *)
Definition directed (f : minmea_float) (d : Z) : minmea_float := MinmeaFloat (value f * d) (scale f).

Definition minmea_parse_rmc (sentence : bytes) : parsed minmea_sentence_rmc :=
  r ← minmea_scan sentence (cstr "tTcfdfdffDfd");
  Ret (match r with
       | Some [VType t; VTime ti; VChar validity; VFloat la; VDir lad; VFloat lo; VDir lod; VFloat sp;
               VFloat co; VDate da; VFloat va; VDir vad] =>
           if is_type t "RMC"
           then Some (Rmc ti (validity =? 65) (directed la lad) (directed lo lod) sp co da (directed va vad))
           else None
       | _ => None
       end).

Definition minmea_parse_gga (sentence : bytes) : parsed minmea_sentence_gga :=
  r ← minmea_scan sentence (cstr "tTfdfdiiffcfcf_");
  Ret (match r with
       | Some [VType t; VTime ti; VFloat la; VDir lad; VFloat lo; VDir lod; VInt q; VInt sats; VFloat hdop;
               VFloat al; VChar alu; VFloat he; VChar heu; VFloat age; VNone] =>
           if is_type t "GGA"
           then Some (Gga ti (directed la lad) (directed lo lod) q sats hdop al alu he heu age)
           else None
       | _ => None
       end).

Definition minmea_parse_gsa (sentence : bytes) : parsed minmea_sentence_gsa :=
  r ← minmea_scan sentence (cstr "tciiiiiiiiiiiiifff");
  Ret (match r with
       | Some [VType t; VChar m; VInt fx; VInt s1; VInt s2; VInt s3; VInt s4; VInt s5; VInt s6; VInt s7;
               VInt s8; VInt s9; VInt s10; VInt s11; VInt s12; VFloat p; VFloat h; VFloat v] =>
           if is_type t "GSA"
           then Some (Gsa m fx [s1; s2; s3; s4; s5; s6; s7; s8; s9; s10; s11; s12] p h v) else None
       | _ => None
       end).

Definition minmea_parse_gll (sentence : bytes) : parsed minmea_sentence_gll :=
  r ← minmea_scan sentence (cstr "tfdfdTc;c");
  Ret (match r with
       | Some [VType t; VFloat la; VDir lad; VFloat lo; VDir lod; VTime ti; VChar status; VChar mode] =>
           if is_type t "GLL" then Some (Gll (directed la lad) (directed lo lod) ti status mode) else None
       | _ => None
       end).

Definition minmea_parse_gst (sentence : bytes) : parsed minmea_sentence_gst :=
  r ← minmea_scan sentence (cstr "tTfffffff");
  Ret (match r with
       | Some [VType t; VTime ti; VFloat f1; VFloat f2; VFloat f3; VFloat f4; VFloat f5; VFloat f6; VFloat f7] =>
           if is_type t "GST" then Some (Gst ti [f1; f2; f3; f4; f5; f6; f7]) else None
       | _ => None
       end).

(** Number, elevation, azimuth and signal of four satellites. *)
Definition minmea_parse_gsv (sentence : bytes) : parsed minmea_sentence_gsv :=
  r ← minmea_scan sentence (cstr "tiii;iiiiiiiiiiiiiiii");
  Ret (match r with
       | Some [VType t; VInt total; VInt nr; VInt sats; VInt a1; VInt a2; VInt a3; VInt a4; VInt b1; VInt b2;
               VInt b3; VInt b4; VInt c1; VInt c2; VInt c3; VInt c4; VInt d1; VInt d2; VInt d3; VInt d4] =>
           if is_type t "GSV"
           then Some (Gsv total nr sats [a1; a2; a3; a4; b1; b2; b3; b4; c1; c2; c3; c4; d1; d2; d3; d4])
           else None
       | _ => None
       end).

Definition minmea_parse_vtg (sentence : bytes) : parsed minmea_sentence_vtg :=
  r ← minmea_scan sentence (cstr "tfcfcfcfc;c");
  Ret (match r with
       | Some [VType t; VFloat tr; VChar c_true; VFloat mt; VChar c_magnetic; VFloat kn; VChar c_knots;
               VFloat kp; VChar c_kph; VChar c_faa_mode] =>
           if is_type t "VTG" && (c_true =? 84) && (c_magnetic =? 77) && (c_knots =? 78) && (c_kph =? 75)
           then Some (Vtg tr mt kn kp c_faa_mode) else None
       | _ => None
       end).

Definition minmea_parse_zda (sentence : bytes) : parsed minmea_sentence_zda :=
  r ← minmea_scan sentence (cstr "tTiiiii");
  Ret (match r with
       | Some [VType t; VTime ti; VInt d; VInt m; VInt y; VInt ho; VInt mo] =>
           if is_type t "ZDA" && negb ((13 <? Z.abs ho) || (59 <? mo) || (mo <? 0))
           then Some (Zda ti (MinmeaDate d m y) ho mo) else None
       | _ => None
       end).

(** The seconds and nanoseconds of a date; [timegm] is the C library's, [None]
    its error.  Its argument is year since 1900, month from 0, day, time. *)
Definition minmea_gettime (timegm : Z -> Z -> Z -> Z -> Z -> Z -> option Z) (d : minmea_date)
    (t : minmea_time) : option (Z * Z) :=
  if (year d =? -1) || (hours t =? -1) then None else
  let tm_year := if year d <? 80 then 2000 + year d - 1900
                 else if 1900 <=? year d then year d - 1900 else year d in
  match timegm tm_year (month d - 1) (day d) (hours t) (minutes t) (seconds t) with
  | Some timestamp => Some (timestamp, microseconds t * 1000)
  | None => None
  end.

(** ** Conversions (minmea.h) *)

(** [int] arithmetic; C divides towards zero. *)
Definition int_mul (a b : Z) : out Z :=
  if (int_min <=? a * b) && (a * b <=? int_max) then Ret (a * b) else Undef IntOverflow.

Definition minmea_rescale (f : minmea_float) (new_scale : Z) : out Z :=
  if scale f =? 0 then Ret 0
  else if scale f =? new_scale then Ret (value f)
  else if new_scale <? scale f then
    if new_scale =? 0 then Undef DivByZero else
    s ← int_mul (Z.sgn (value f)) (scale f);
    let n := value f + Z.quot (Z.quot s new_scale) 2 in
    if (n <? int_min) || (int_max <? n) then Undef IntOverflow
    else if Z.quot (scale f) new_scale =? 0 then Undef DivByZero
    else Ret (Z.quot n (Z.quot (scale f) new_scale))
  else int_mul (value f) (Z.quot new_scale (scale f)).

Definition minmea_tofloat (f : minmea_float) : float :=
  if scale f =? 0 then S754_nan else float_div (float_of_Z (value f)) (float_of_Z (scale f)).

(** A coordinate DDMM.mmm in degrees. *)
Definition minmea_tocoord (f : minmea_float) : out float :=
  if scale f =? 0 then Ret S754_nan else
  hundred ← int_mul (scale f) 100;
  sixty ← int_mul 60 (scale f);
  let degrees := Z.quot (value f) hundred in
  let minutes := Z.rem (value f) hundred in
  Ret (float_add (float_of_Z degrees) (float_div (float_of_Z minutes) (float_of_Z sixty))).

(** Some sentences of the comments in the source. *)
Lemma rmc_example :
  minmea_parse_rmc (cstr "$GPRMC,081836,A,3751.65,S,14507.36,E,000.0,360.0,130998,011.3,E*62")
  = Ret (Some (Rmc (MinmeaTime 8 18 36 0) true (MinmeaFloat (-375165) 100) (MinmeaFloat 1450736 100)
                 (MinmeaFloat 0 10) (MinmeaFloat 3600 10) (MinmeaDate 13 9 98) (MinmeaFloat 113 10))).
Proof. vm_compute. reflexivity. Qed.

Lemma gga_example :
  minmea_parse_gga (cstr "$GPGGA,123519,4807.038,N,01131.000,E,1,08,0.9,545.4,M,46.9,M,,*47")
  = Ret (Some (Gga (MinmeaTime 12 35 19 0) (MinmeaFloat 4807038 1000) (MinmeaFloat 1131000 1000) 1 8
                 (MinmeaFloat 9 10) (MinmeaFloat 5454 10) 77 (MinmeaFloat 469 10) 77 (MinmeaFloat 0 0))).
Proof. vm_compute. reflexivity. Qed.

Lemma examples_check :
  minmea_check (cstr "$GPRMC,081836,A,3751.65,S,14507.36,E,000.0,360.0,130998,011.3,E*62") true = true
  /\ minmea_check (cstr "$GPGGA,123519,4807.038,N,01131.000,E,1,08,0.9,545.4,M,46.9,M,,*47") true = true
  /\ minmea_check (cstr "$GPGSV,4,4,13*7B") true = true.
Proof. vm_compute. auto. Qed.

Lemma other_examples :
  (exists g, minmea_parse_gsa (cstr "$GPGSA,A,3,04,05,,09,12,,,24,,,,,2.5,1.3,2.1*39") = Ret (Some g))
  /\ (exists g, minmea_parse_gll (cstr "$GPGLL,3723.2475,N,12158.3416,W,161229.487,A,A*41$;") = Ret (Some g))
  /\ (exists g, minmea_parse_gst (cstr "$GPGST,024603.00,3.2,6.6,4.7,47.3,5.8,5.6,22.0*58") = Ret (Some g))
  /\ (exists g, minmea_parse_gsv (cstr "$GPGSV,4,4,13*7B") = Ret (Some g))
  /\ (exists g, minmea_parse_vtg (cstr "$GPVTG,156.1,T,140.9,M,0.0,N,0.0,K*41") = Ret (Some g))
  /\ (exists g, minmea_parse_zda (cstr "$GPZDA,201530.00,04,07,2002,00,00*60") = Ret (Some g)).
Proof. vm_compute. split_and!; by eexists. Qed.

(** ** The checksum guards a sentence *)

Definition xor_all (body : bytes) : Z := fold_left Z.lxor body 0.

(** What a receiver sends: the body between dollar sign and asterisk, its
    checksum in hexadecimal, and the end of the line. *)
Definition nmea_line (sent body tail : bytes) : bytes :=
  36 :: sent ++ 42 :: hex_digit (xor_all body / 16) :: hex_digit (xor_all body mod 16) :: tail.

Definition body_ok (body : bytes) : Prop := Forall (fun c => isprint c = true /\ c <> 42) body.

Lemma hex2int_digit n : 0 <= n < 16 -> hex2int (hex_digit n) = n.
Proof. intros Hn. unfold hex2int, hex_digit. destruct (Z.ltb_spec n 10); zdec; lia. Qed.

Lemma fold_lxor body k : fold_left Z.lxor body k = Z.lxor k (xor_all body).
Proof.
  unfold xor_all. revert k; induction body as [|c body IH]; intros k; cbn [fold_left].
  - by rewrite Z.lxor_0_r.
  - rewrite IH, (IH (Z.lxor 0 c)), Z.lxor_0_l. by rewrite Z.lxor_assoc.
Qed.

Lemma xor_all_app a b : xor_all (a ++ b) = Z.lxor (xor_all a) (xor_all b).
Proof. unfold xor_all. by rewrite fold_left_app, fold_lxor. Qed.

Lemma xor_all_cons c b : xor_all (c :: b) = Z.lxor c (xor_all b).
Proof. unfold xor_all at 1. cbn [fold_left]. by rewrite fold_lxor, Z.lxor_0_l. Qed.

Lemma xor_all_bound body : body_ok body -> 0 <= xor_all body < 256.
Proof.
  induction 1 as [|c body [Hc _] _ IH]; [done|]. rewrite xor_all_cons.
  apply (lxor_bound 8); [done | | exact IH]. unfold isprint in Hc. znorm Hc. lia.
Qed.

Lemma check_loop_body body k rest :
  body_ok body -> check_loop k (body ++ rest) = check_loop (Z.lxor k (xor_all body)) rest.
Proof.
  intros Hb. revert k; induction Hb as [|c body [Hc Hs] _ IH]; intros k; cbn [app check_loop].
  - by rewrite Z.lxor_0_r.
  - rewrite Hc, (proj2 (Z.eqb_neq c 42) Hs), IH, xor_all_cons. cbn [orb negb]. by rewrite Z.lxor_assoc.
Qed.

Lemma at_end_long a x y z tail : at_end (a ++ x :: y :: z :: tail) = false.
Proof. unfold at_end. rewrite !bool_decide_false; [done|..]; by destruct a as [|? [|? [|? a]]]. Qed.

(** The two digits are read back. *)
Lemma checksum_digits b :
  0 <= b < 256 ->
  hex2int (hex_digit (b / 16)) = b / 16 /\ hex2int (hex_digit (b mod 16)) = b mod 16
  /\ Z.lor (Z.shiftl (b / 16) 4) (b mod 16) = b /\ (b / 16 =? -1) = false /\ (b mod 16 =? -1) = false.
Proof.
  intros Hb. pose proof (Z.mod_pos_bound b 16 ltac:(lia)). pose proof (Z.div_mod b 16 ltac:(lia)).
  assert (0 <= b / 16 < 16) by (split; [apply Z.div_pos; lia | apply Z.div_lt_upper_bound; lia]).
  split_and!; [by apply hex2int_digit.. | | by apply Z.eqb_neq; lia | by apply Z.eqb_neq; lia].
  change 16 with (2 ^ 4). rewrite <- Z.shiftr_div_pow2, <- Z.land_ones by lia.
  apply Z.bits_inj'. intros i Hi. rewrite Z.lor_spec, Z.land_spec.
  destruct (Z.lt_ge_cases i 4).
  - by rewrite Z.shiftl_spec_low, Z.ones_spec_low, andb_true_r by lia.
  - rewrite Z.shiftl_spec_high, Z.shiftr_spec, Z.ones_spec_high, andb_false_r, orb_false_r by lia.
    f_equal. lia.
Qed.

(** A line whose body was received as [sent]. *)
Lemma check_line sent body tail strict :
  body_ok sent -> body_ok body -> (Z.of_nat (length sent) + Z.of_nat (length tail) <= 79) ->
  minmea_check (nmea_line sent body tail) strict = (xor_all sent =? xor_all body) && at_end tail.
Proof.
  intros Hs Hb Hl. unfold minmea_check, nmea_line. cbn [length]. rewrite length_app. cbn [length].
  unfold MINMEA_MAX_LENGTH. zdec.
  rewrite check_loop_body, Z.lxor_0_l by done. cbn [check_loop]. change (42 =? 42) with true. cbn [orb].
  cbn [char_at drop]. change (42 =? 42) with true. cbv iota.
  destruct (checksum_digits (xor_all body) (xor_all_bound body Hb)) as (H1 & H2 & H3 & H4 & H5).
  rewrite H1, H2, H3, H4, H5. by destruct (xor_all sent =? xor_all body).
Qed.

(** C27: The checksum does its work: a line as a receiver sends it is accepted,
    and the line with any one byte of its body exchanged for any other byte but
    NUL is rejected, with and without [strict]. *)
Theorem checksum_detects_byte a x b c tail strict :
  body_ok (a ++ x :: b) -> (Z.of_nat (length (a ++ x :: b)) <= 77) ->
  tail = [] \/ tail = [10] \/ tail = [13; 10] -> 1 <= c < 256 -> c <> x ->
  minmea_check (nmea_line (a ++ x :: b) (a ++ x :: b) tail) strict = true
  /\ minmea_check (nmea_line (a ++ c :: b) (a ++ x :: b) tail) strict = false.
Proof.
  intros Hb Hl Ht Hc Hx.
  assert (at_end tail = true /\ (length tail <= 2)%nat) as [He Ht2]
    by (destruct Ht as [-> | [-> | ->]]; split; done || (cbn; lia)).
  split; [rewrite check_line by (done || lia); by rewrite He, Z.eqb_refl|].
  apply list.Forall_app in Hb as Hb'. destruct Hb' as [Ha Hxb].
  apply list.Forall_cons in Hxb as [[Hpx Hsx] Hbb].
  destruct (isprint c) eqn:Hp; [destruct (Z.eq_dec c 42) as [->|Hs]|].
  - unfold minmea_check, nmea_line. destruct (_ <? _); [done|]. rewrite <- app_assoc.
    rewrite check_loop_body by done. cbn [app check_loop]. change (42 =? 42) with true. cbn [orb char_at].
    change (42 =? 42) with true. cbv iota. destruct b as [|y [|z b]]; cbn [app drop char_at].
    + done.
    + destruct (_ =? -1); [done|]. done.
    + destruct (_ =? -1); [done|]. destruct (_ =? -1); [done|]. destruct (negb _); [done|].
      apply at_end_long.
  - rewrite check_line; [| |done|].
    + rewrite !xor_all_app, !xor_all_cons. rewrite (proj2 (Z.eqb_neq _ _)); [done|]. intros E. apply Hx.
      apply (f_equal (Z.lxor (xor_all a))) in E. rewrite <- !Z.lxor_assoc, Z.lxor_nilpotent, !Z.lxor_0_l in E.
      apply (f_equal (fun z => Z.lxor z (xor_all b))) in E.
      by rewrite !Z.lxor_assoc, Z.lxor_nilpotent, !Z.lxor_0_r in E.
    + apply list.Forall_app. split; [done|]. by apply list.Forall_cons.
    + rewrite length_app in Hl |- *. cbn [length] in Hl |- *. lia.
  - unfold minmea_check, nmea_line. destruct (_ <? _); [done|]. rewrite <- app_assoc.
    rewrite check_loop_body by done. cbn [app check_loop]. rewrite Hp, orb_true_r. cbn [char_at].
    rewrite (proj2 (Z.eqb_neq c 42)) by (intros ->; done). destruct strict; [done|].
    apply (at_end_long (c :: b)).
Qed.

(** ** Scanning the fields of a sentence *)

Definition field_chars (f : bytes) : bool := forallb minmea_isfield f.

(** What may follow the last field. *)
Definition ends_field (e : bytes) : bool := negb (minmea_isfield (char_at e)).

Lemma skip_field_app f rest : field_chars f = true -> ends_field rest = true -> skip_field (f ++ rest) = rest.
Proof.
  intros Hf Hr. induction f as [|c f IH]; cbn [app skip_field].
  - destruct rest as [|c rest]; [done|]. unfold ends_field in Hr. cbn in Hr. apply negb_true_iff in Hr.
    cbn [skip_field]. by rewrite Hr.
  - unfold field_chars in Hf. cbn [forallb] in Hf. apply andb_true_iff in Hf as [Hc Hf]. rewrite Hc. by apply IH.
Qed.

Lemma scan_loop_step type format f rest optional v :
  type <> 59 -> field_chars f = true -> scan_field type (Some (f ++ 44 :: rest)) = Ret (Some v) ->
  scan_loop (type :: format) (f ++ 44 :: rest) (Some (f ++ 44 :: rest)) optional
  = (vs ← scan_loop format rest (Some rest) optional;
     Ret (match vs with Some vs => Some (v :: vs) | None => None end)).
Proof.
  intros Ht Hf Hv. cbn [scan_loop]. rewrite (proj2 (Z.eqb_neq type 59) Ht), Hv. cbn [bool_decide is_Some].
  rewrite (bool_decide_true (is_Some (Some _))) by by eexists. cbn [negb andb]. rewrite ret_bind.
  unfold next_field. by rewrite skip_field_app.
Qed.

Lemma scan_loop_end type f e optional v :
  type <> 59 -> field_chars f = true -> ends_field e = true ->
  scan_field type (Some (f ++ e)) = Ret (Some v) ->
  scan_loop [type] (f ++ e) (Some (f ++ e)) optional = Ret (Some [v]).
Proof.
  intros Ht Hf He Hv. cbn [scan_loop]. rewrite (proj2 (Z.eqb_neq type 59) Ht), Hv.
  rewrite (bool_decide_true (is_Some (Some _))) by by eexists. cbn [negb andb]. rewrite ret_bind.
  by destruct (next_field (f ++ e)) as [s field].
Qed.

(** *** Numbers *)

Definition digits (ds : bytes) : Prop := Forall (fun c => is_digit c = true) ds.

Lemma digit_is_field c : is_digit c = true -> minmea_isfield c = true.
Proof.
  unfold is_digit, minmea_isfield, isprint. intros H. znorm H. by zdec.
Qed.

Lemma digits_are_field ds : digits ds -> field_chars ds = true.
Proof.
  intros H. unfold field_chars. apply forallb_forall. intros c Hc. apply digit_is_field.
  exact (proj1 (List.Forall_forall _ _) H c Hc).
Qed.

Lemma digits_value_mono v ds : digits ds -> 0 <= v -> v <= digits_value v ds.
Proof.
  intros H. revert v; induction H as [|c ds Hc _ IH]; intros v Hv; cbn [digits_value]; [lia|].
  rewrite Hc. unfold is_digit in Hc. znorm Hc. etransitivity; [|apply IH; lia]. lia.
Qed.

Lemma digits_value_app v a b : digits a -> digits_value v (a ++ b) = digits_value (digits_value v a) b.
Proof.
  intros H. revert v; induction H as [|c a Hc _ IH]; intros v; cbn [app digits_value]; [done|].
  by rewrite Hc.
Qed.

(** The tests for a sign come before that for a digit. *)
Lemma scan_fraction_digit d s sign v sc :
  is_digit d = true -> -1 <= v ->
  let v' := if v =? -1 then 0 else v in
  10 * v' + (d - 48) <= int_max -> (sc = 0 \/ sc * 10 <= int_max) ->
  scan_fraction (d :: s) sign v sc = scan_fraction s sign (10 * v' + (d - 48)) (sc * 10).
Proof.
  intros Hd Hv v' Hm Hsc. cbn [scan_fraction]. rewrite (digit_is_field d Hd), Hd.
  unfold is_digit in Hd. znorm Hd. rewrite (proj2 (Z.eqb_neq d 43)), (proj2 (Z.eqb_neq d 45)) by lia.
  cbn [negb andb]. fold v'. assert (0 <= v') by (unfold v'; destruct (Z.eqb_spec v (-1)); lia).
  rewrite (proj2 (Z.ltb_ge _ _)) by (apply Z.quot_le_lower_bound; lia).
  destruct (Z.eqb_spec sc 0) as [->|Hs]; [done|]. by rewrite (proj2 (Z.ltb_ge _ _)) by lia.
Qed.

Lemma scan_fraction_digits ds rest sign v sc :
  digits ds -> 0 <= v -> digits_value v ds <= int_max ->
  (sc = 0 \/ (0 < sc /\ sc * 10 ^ Z.of_nat (length ds) <= int_max)) ->
  scan_fraction (ds ++ rest) sign v sc
  = scan_fraction rest sign (digits_value v ds) (sc * 10 ^ Z.of_nat (length ds)).
Proof.
  intros H. revert v sc; induction H as [|d ds Hd Hds IH]; intros v sc Hv Hm Hs.
  { cbn [app digits_value length]. change (10 ^ Z.of_nat 0) with 1. by rewrite Z.mul_1_r. }
  cbn [app digits_value length] in *. rewrite Hd in *.
  rewrite Nat2Z.inj_succ, Z.pow_succ_r in * by lia. pose proof (Z.pow_pos_nonneg 10 (Z.of_nat (length ds))).
  assert (10 * v + (d - 48) <= int_max) as Hle.
  { etransitivity; [|exact Hm]. apply digits_value_mono; [done|]. unfold is_digit in Hd. znorm Hd. lia. }
  rewrite scan_fraction_digit; [|done|lia| |].
  - rewrite (proj2 (Z.eqb_neq v (-1))) by lia. rewrite IH.
    + f_equal. lia.
    + unfold is_digit in Hd. znorm Hd. lia.
    + done.
    + destruct Hs as [-> | [Hs Hs']]; [by left | right]. split; [lia|]. nia.
  - rewrite (proj2 (Z.eqb_neq v (-1))) by lia. done.
  - destruct Hs as [-> | [Hs Hs']]; [by left | right]. nia.
Qed.

(** A decimal number [a.b]. *)
Definition fixed (a b : bytes) : bytes := a ++ 46 :: b.

Definition fixed_ok (a b : bytes) : Prop :=
  digits a /\ digits b /\ a <> [] /\ digits_value 0 (a ++ b) <= int_max
  /\ 10 ^ Z.of_nat (length b) <= int_max.

Definition fixed_value (a b : bytes) : minmea_float :=
  MinmeaFloat (digits_value 0 (a ++ b)) (10 ^ Z.of_nat (length b)).

Lemma fixed_chars a b : fixed_ok a b -> field_chars (fixed a b) = true.
Proof.
  intros (Ha & Hb & _). unfold field_chars, fixed. rewrite forallb_app. cbn [forallb].
  apply andb_true_iff. split; [by apply digits_are_field|]. apply andb_true_iff.
  split; [done | by apply digits_are_field].
Qed.

Lemma scan_fixed a b rest :
  fixed_ok a b -> ends_field rest = true ->
  scan_field 102 (Some (fixed a b ++ rest)) = Ret (Some (VFloat (fixed_value a b))).
Proof.
  intros (Ha & Hb & Hne & Hm & Hs) Hr. change (scan_field 102) with scan_float. unfold scan_float, fixed.
  rewrite digits_value_app in Hm by done.
  assert (scan_fraction ((a ++ 46 :: b) ++ rest) 0 (-1) 0
          = Ret (Some (0, digits_value 0 (a ++ b), 10 ^ Z.of_nat (length b)))) as E.
  { rewrite <- app_assoc. cbn [app]. destruct a as [|d a]; [done|]. apply list.Forall_cons in Ha as [Hd Ha].
    cbn [app]. cbn [digits_value] in Hm. rewrite Hd in Hm.
    assert (0 <= d - 48 <= int_max) as Hd0.
    { unfold is_digit in Hd. znorm Hd. pose proof (eq_refl : int_max = 2147483647). lia. }
    change (10 * 0 + (d - 48)) with (d - 48) in Hm.
    pose proof (digits_value_mono (d - 48) a Ha (proj1 Hd0)) as M1.
    pose proof (digits_value_mono _ b Hb (Z.le_trans _ _ _ (proj1 Hd0) M1)) as M2.
    rewrite scan_fraction_digit; [|done | lia | change (d - 48 <= int_max); lia | by left].
    change (-1 =? -1) with true. cbv iota. rewrite Z.mul_0_l, Z.mul_0_r, Z.add_0_l.
    rewrite scan_fraction_digits by (first [done | lia | by left]). rewrite Z.mul_0_l.
    change (scan_fraction (46 :: b ++ rest) 0 ?v 0) with (scan_fraction (b ++ rest) 0 v 1).
    rewrite scan_fraction_digits by (first [done | lia | right; lia]). cbn [digits_value]. rewrite Hd, digits_value_app by done.
    rewrite Z.mul_1_l. destruct rest as [|c rest]; [done|]. unfold ends_field in Hr. cbn [char_at] in Hr.
    cbn [scan_fraction]. by rewrite Hr. }
  rewrite E, ret_bind. pose proof (Z.pow_pos_nonneg 10 (Z.of_nat (length b))).
  assert (0 <= digits_value 0 (a ++ b)).
  { apply digits_value_mono; [|done]. by apply list.Forall_app. }
  change (0 =? 0) with true. rewrite (proj2 (Z.eqb_neq (digits_value 0 (a ++ b)) (-1))) by lia.
  rewrite andb_false_r. by rewrite (proj2 (Z.eqb_neq (10 ^ Z.of_nat (length b)) 0)) by lia.
Qed.

(** *** Times and dates *)

Definition two (n : Z) : bytes := [48 + n / 10; 48 + n mod 10].

Lemma two_ok n : 0 <= n < 100 -> digits (two n) /\ forall s, two_digits (two n ++ s) = n.
Proof.
  intros Hn. pose proof (Z.mod_pos_bound n 10 ltac:(lia)). pose proof (Z.div_mod n 10 ltac:(lia)).
  assert (0 <= n / 10 < 10) by (split; [apply Z.div_pos; lia | apply Z.div_lt_upper_bound; lia]).
  split.
  - unfold two. repeat (apply list.Forall_cons; split; [unfold is_digit; by zdec|]). constructor.
  - intros s. unfold two_digits, two. cbn [app char_at drop]. lia.
Qed.

Definition six (a b c : Z) : bytes := two a ++ two b ++ two c.

Lemma six_ok a b c :
  0 <= a < 100 -> 0 <= b < 100 -> 0 <= c < 100 ->
  digits (six a b c) /\ forall s,
    starts_digits 6 (six a b c ++ s) = true /\ minmea_isfield (char_at (six a b c ++ s)) = true
    /\ two_digits (six a b c ++ s) = a /\ two_digits (drop 2 (six a b c ++ s)) = b
    /\ two_digits (drop 4 (six a b c ++ s)) = c.
Proof.
  intros Ha Hb Hc. destruct (two_ok a Ha) as [Da Va], (two_ok b Hb) as [Db Vb], (two_ok c Hc) as [Dc Vc].
  assert (digits (six a b c)) as D by (unfold six; apply list.Forall_app; split; [done|]; by apply list.Forall_app).
  split; [done|]. intros s. split_and!.
  - unfold starts_digits. apply andb_true_iff. split; [done|].
    change (take 6 (six a b c ++ s)) with (six a b c). apply forallb_forall. intros x Hx.
    exact (proj1 (List.Forall_forall _ _) D x Hx).
  - apply digit_is_field. apply list.Forall_cons in Da as [Da _]. exact Da.
  - apply (Va (two b ++ two c ++ s)).
  - apply (Vb (two c ++ s)).
  - apply (Vc s).
Qed.

Lemma scan_time_six h m s rest :
  0 <= h < 100 -> 0 <= m < 100 -> 0 <= s < 100 -> char_at rest <> 46 ->
  scan_field 84 (Some (six h m s ++ rest)) = Ret (Some (VTime (MinmeaTime h m s 0))).
Proof.
  intros Hh Hm Hs Hr. change (scan_field 84) with scan_time. unfold scan_time.
  destruct (six_ok h m s Hh Hm Hs) as [_ V]. destruct (V rest) as (V1 & V2 & V3 & V4 & V5).
  rewrite V2, V1, V3, V4, V5. change (drop 6 (six h m s ++ rest)) with rest.
  by rewrite (proj2 (Z.eqb_neq _ _)).
Qed.

Lemma scan_date_six d m y rest :
  0 <= d < 100 -> 0 <= m < 100 -> 0 <= y < 100 ->
  scan_field 68 (Some (six d m y ++ rest)) = Ret (Some (VDate (MinmeaDate d m y))).
Proof.
  intros Hd Hm Hy. change (scan_field 68) with scan_date. unfold scan_date.
  destruct (six_ok d m y Hd Hm Hy) as [_ V]. destruct (V rest) as (V1 & V2 & V3 & V4 & V5).
  by rewrite V2, V1, V3, V4, V5.
Qed.

(** ** A position report *)

(** The compass letters with their sign. *)
Definition direction (c : Z) : option Z :=
  if (c =? 78) || (c =? 69) then Some 1 else if (c =? 83) || (c =? 87) then Some (-1) else None.

Lemma scan_direction_letter c d rest :
  direction c = Some d -> scan_field 100 (Some (c :: rest)) = Ret (Some (VDir d)).
Proof.
  change (scan_field 100) with scan_direction. unfold direction, scan_direction. intros H. cbn [char_at].
  assert (minmea_isfield c = true) as ->.
  { destruct ((c =? 78) || (c =? 69)) eqn:E1; [|destruct ((c =? 83) || (c =? 87)) eqn:E2; [|done]];
      unfold minmea_isfield, isprint; [znorm E1; destruct E1 as [-> | ->] | znorm E2; destruct E2 as [-> | ->]];
      done. }
  destruct (_ || _); [by injection H as <-|]. destruct (_ || _); [by injection H as <- | done].
Qed.

Lemma direction_is_field c d : direction c = Some d -> field_chars [c] = true.
Proof.
  unfold direction. destruct ((c =? 78) || (c =? 69)) eqn:E1;
    [|destruct ((c =? 83) || (c =? 87)) eqn:E2; [|done]]; intros _.
  - znorm E1. by destruct E1 as [-> | ->].
  - znorm E2. by destruct E2 as [-> | ->].
Qed.

(** What a receiver reports in an RMC sentence: the talker, the time, the status
    letter, position, speed and course as digits before and behind the point,
    the date and the magnetic variation. *)
Record rmc_report := RmcReport {
  r_talker : bytes;
  r_hour : Z; r_minute : Z; r_second : Z;
  r_status : Z;
  r_lat : bytes * bytes; r_ns : Z;
  r_lon : bytes * bytes; r_ew : Z;
  r_speed : bytes * bytes; r_course : bytes * bytes;
  r_day : Z; r_month : Z; r_year : Z;
  r_variation : bytes * bytes; r_var_ew : Z }.

Definition rmc_fields (r : rmc_report) : list bytes :=
  [ 36 :: r_talker r ++ cstr "RMC"; six (r_hour r) (r_minute r) (r_second r); [r_status r];
    fixed (r_lat r).1 (r_lat r).2; [r_ns r]; fixed (r_lon r).1 (r_lon r).2; [r_ew r];
    fixed (r_speed r).1 (r_speed r).2; fixed (r_course r).1 (r_course r).2;
    six (r_day r) (r_month r) (r_year r); fixed (r_variation r).1 (r_variation r).2 ].

(** The fields with a comma behind each, the last letter, and what follows. *)
Definition rmc_sentence (r : rmc_report) (e : bytes) : bytes :=
  foldr (fun f s => f ++ 44 :: s) (r_var_ew r :: e) (rmc_fields r).

Record rmc_ok (r : rmc_report) (ns ew vew : Z) : Prop := {
  ok_talker : length (r_talker r) = 2%nat /\ field_chars (r_talker r) = true;
  ok_time : 0 <= r_hour r < 100 /\ 0 <= r_minute r < 100 /\ 0 <= r_second r < 100;
  ok_status : minmea_isfield (r_status r) = true;
  ok_lat : fixed_ok (r_lat r).1 (r_lat r).2 /\ direction (r_ns r) = Some ns;
  ok_lon : fixed_ok (r_lon r).1 (r_lon r).2 /\ direction (r_ew r) = Some ew;
  ok_speed : fixed_ok (r_speed r).1 (r_speed r).2 /\ fixed_ok (r_course r).1 (r_course r).2;
  ok_date : 0 <= r_day r < 100 /\ 0 <= r_month r < 100 /\ 0 <= r_year r < 100;
  ok_variation : fixed_ok (r_variation r).1 (r_variation r).2 /\ direction (r_var_ew r) = Some vew }.

Definition rmc_value (r : rmc_report) (ns ew vew : Z) : minmea_sentence_rmc :=
  Rmc (MinmeaTime (r_hour r) (r_minute r) (r_second r) 0) (r_status r =? 65)
    (directed (fixed_value (r_lat r).1 (r_lat r).2) ns) (directed (fixed_value (r_lon r).1 (r_lon r).2) ew)
    (fixed_value (r_speed r).1 (r_speed r).2) (fixed_value (r_course r).1 (r_course r).2)
    (MinmeaDate (r_day r) (r_month r) (r_year r))
    (directed (fixed_value (r_variation r).1 (r_variation r).2) vew).

Lemma scan_type_field t rest :
  length t = 5%nat -> field_chars t = true ->
  scan_field 116 (Some ((36 :: t) ++ 44 :: rest)) = Ret (Some (VType t)).
Proof.
  intros Hl Hf. change (scan_field 116) with scan_type. unfold scan_type. cbn [app].
  rewrite take_app_length' by done. assert (field_prefix t = t) as ->; [|by rewrite Hl].
  clear Hl. induction t as [|c t IH]; [done|]. unfold field_chars in Hf. cbn [forallb] in Hf.
  apply andb_true_iff in Hf as [Hc Hf]. cbn [field_prefix]. rewrite Hc. f_equal. by apply IH.
Qed.

Lemma scan_char_field c rest :
  minmea_isfield c = true -> scan_field 99 (Some ([c] ++ rest)) = Ret (Some (VChar c)).
Proof. intros H. change (scan_field 99) with scan_char. unfold scan_char. cbn [app]. by rewrite H. Qed.

(** The scan of the whole sentence, a field at a time. *)
Lemma rmc_scan r e ns ew vew :
  rmc_ok r ns ew vew -> ends_field e = true ->
  minmea_scan (rmc_sentence r e) (cstr "tTcfdfdffDfd")
  = Ret (Some
      [ VType (r_talker r ++ cstr "RMC"); VTime (MinmeaTime (r_hour r) (r_minute r) (r_second r) 0);
        VChar (r_status r); VFloat (fixed_value (r_lat r).1 (r_lat r).2); VDir ns;
        VFloat (fixed_value (r_lon r).1 (r_lon r).2); VDir ew;
        VFloat (fixed_value (r_speed r).1 (r_speed r).2); VFloat (fixed_value (r_course r).1 (r_course r).2);
        VDate (MinmeaDate (r_day r) (r_month r) (r_year r));
        VFloat (fixed_value (r_variation r).1 (r_variation r).2); VDir vew ]).
Proof.
  intros [[T1 T2] (Ti1 & Ti2 & Ti3) S [La1 La2] [Lo1 Lo2] [Sp Co] (D1 & D2 & D3) [Va1 Va2]] He.
  unfold minmea_scan, rmc_sentence, rmc_fields. cbn [foldr].
  change (cstr "tTcfdfdffDfd") with [116; 84; 99; 102; 100; 102; 100; 102; 102; 68; 102; 100].
  assert (field_chars (r_talker r ++ cstr "RMC") = true) as T3
    by (unfold field_chars in *; by rewrite forallb_app, T2).
  assert (length (r_talker r ++ cstr "RMC") = 5%nat) as T4 by by rewrite length_app, T1.
  destruct (six_ok _ _ _ Ti1 Ti2 Ti3) as [F1 _]. destruct (six_ok _ _ _ D1 D2 D3) as [F2 _].
  apply digits_are_field in F1, F2.
  rewrite (scan_loop_step 116 _ (36 :: _) _ _ _ ltac:(done) T3 (scan_type_field _ _ T4 T3)).
  rewrite (scan_loop_step 84 _ _ _ _ _ ltac:(done) F1 (scan_time_six _ _ _ (44 :: _) Ti1 Ti2 Ti3 ltac:(discriminate))).
  rewrite (scan_loop_step 99 _ [r_status r] _ _ _ ltac:(done) ltac:(unfold field_chars; cbn; by rewrite S)
             (scan_char_field _ _ S)).
  rewrite (scan_loop_step 102 _ _ _ _ _ ltac:(done) (fixed_chars _ _ La1) (scan_fixed _ _ (44 :: _) La1 ltac:(done))).
  rewrite (scan_loop_step 100 _ [r_ns r] _ _ _ ltac:(done) (direction_is_field _ _ La2)
             (scan_direction_letter _ _ _ La2)).
  rewrite (scan_loop_step 102 _ _ _ _ _ ltac:(done) (fixed_chars _ _ Lo1) (scan_fixed _ _ (44 :: _) Lo1 ltac:(done))).
  rewrite (scan_loop_step 100 _ [r_ew r] _ _ _ ltac:(done) (direction_is_field _ _ Lo2)
             (scan_direction_letter _ _ _ Lo2)).
  rewrite (scan_loop_step 102 _ _ _ _ _ ltac:(done) (fixed_chars _ _ Sp) (scan_fixed _ _ (44 :: _) Sp ltac:(done))).
  rewrite (scan_loop_step 102 _ _ _ _ _ ltac:(done) (fixed_chars _ _ Co) (scan_fixed _ _ (44 :: _) Co ltac:(done))).
  rewrite (scan_loop_step 68 _ _ _ _ _ ltac:(done) F2 (scan_date_six _ _ _ _ D1 D2 D3)).
  rewrite (scan_loop_step 102 _ _ _ _ _ ltac:(done) (fixed_chars _ _ Va1) (scan_fixed _ _ (44 :: _) Va1 ltac:(done))).
  rewrite (scan_loop_end 100 [r_var_ew r] _ _ _ ltac:(done) (direction_is_field _ _ Va2) He
             (scan_direction_letter _ _ _ Va2)).
  done.
Qed.

Lemma parse_rmc_report r e ns ew vew :
  rmc_ok r ns ew vew -> ends_field e = true ->
  minmea_parse_rmc (rmc_sentence r e) = Ret (Some (rmc_value r ns ew vew)).
Proof.
  intros Hr He. unfold minmea_parse_rmc. rewrite (rmc_scan r e ns ew vew Hr He), ret_bind.
  destruct (ok_talker _ _ _ _ Hr) as [Hl _]. unfold is_type.
  assert (drop 2 (r_talker r ++ cstr "RMC") = cstr "RMC") as -> by (rewrite <- Hl; apply drop_app_length).
  by rewrite bool_decide_true.
Qed.

(** C28: What a receiver reports is what is parsed: the sentence that carries a
    time, a position, a speed, a course, a date and a variation, followed by a
    checksum or anything else that is no field, gives back exactly these, with
    south and west as negative values. *)
Theorem rmc_roundtrip r e ns ew vew :
  rmc_ok r ns ew vew -> ends_field e = true ->
  minmea_parse_rmc (rmc_sentence r e) = Ret (Some (rmc_value r ns ew vew)).
Proof. apply parse_rmc_report. Qed.

(** ** Known limits *)

(** Ten zeros behind the point: the scale is multiplied out of its type,
    although the value never runs out of bits. *)
Lemma long_fraction_overflows :
  minmea_parse_rmc (cstr "$GPRMC,081836,A,0.0000000000,S,14507.36,E,000.0,360.0,130998,011.3,E*62")
  = Undef IntOverflow.
Proof. vm_compute. reflexivity. Qed.

(** A coordinate with eight decimals of a small value: the conversion to degrees
    overflows. *)
Lemma fine_coordinate_overflows : minmea_tocoord (MinmeaFloat 1 100000000) = Undef IntOverflow.
Proof. reflexivity. Qed.

Module MinmeaWitness.
#[local] Instance body_ok_dec b : Decision (body_ok b).
Proof. unfold body_ok. apply _. Defined.

Lemma checksum_detects_byte_witness :
  minmea_check (nmea_line (cstr "GPGSV,4,4,13") (cstr "GPGSV,4,4,13") [13; 10]) true = true
  /\ minmea_check (nmea_line (cstr "GPGSV,4,4,73") (cstr "GPGSV,4,4,13") [13; 10]) true = false.
Proof.
  refine (checksum_detects_byte (cstr "GPGSV,4,4,") 49 (cstr "3") 55 [13; 10] true _ _ _ _ _).
  - apply (bool_decide_unpack _); vm_compute; exact I.
  - apply Z.leb_le. reflexivity.
  - auto.
  - lia.
  - done.
Defined.

(** The example of the source's comment, 37 degrees 51.65 minutes south. *)
Definition melbourne : rmc_report :=
  RmcReport (cstr "GP") 8 18 36 65 (cstr "3751", cstr "65") 83 (cstr "14507", cstr "36") 69
    (cstr "000", cstr "0") (cstr "360", cstr "0") 13 9 98 (cstr "011", cstr "3") 69.

Lemma melbourne_text :
  rmc_sentence melbourne (cstr "*62")
  = cstr "$GPRMC,081836,A,3751.65,S,14507.36,E,000.0,360.0,130998,011.3,E*62".
Proof. vm_compute. reflexivity. Qed.

#[local] Instance fixed_ok_dec a b : Decision (fixed_ok a b).
Proof. unfold fixed_ok, digits. apply _. Defined.

Lemma melbourne_ok : rmc_ok melbourne (-1) 1 1.
Proof. split; apply (bool_decide_unpack _); vm_compute; exact I. Qed.

Lemma rmc_roundtrip_witness :
  minmea_parse_rmc (rmc_sentence melbourne (cstr "*62")) = Ret (Some (rmc_value melbourne (-1) 1 1)).
Proof. exact (rmc_roundtrip melbourne (cstr "*62") (-1) 1 1 melbourne_ok eq_refl). Defined.
End MinmeaWitness.
