(* ===== verification/Gps.v ===== *)
(** * The GPS receiver (src/plugins/pip/gps/pip_plugin_gps.c)

    A thread reads the serial port in pieces of any size, puts the lines
    together again in a buffer, and when the next sentence starts publishes the
    position of the finished one.  What [read] returns and when the data dumper
    begins a fresh tree are arguments; the port and the start and end of the
    thread are in SerialPlugins.v. *)

From S2P Require Import Prelude CStd Floats Minmea.

Definition GPS_SENTENCE_BUFF_LEN : nat := 83.
Definition GPS_READ_BUFF_LEN : nat := 100.

(** The published value: two doubles. *)
Record gps_position := Position { latitude : double; longitude : double }.

(** The static variables of the thread.  The pointer to the JSON object is null
    until the filler runs for the first time. *)
Record gps_state := GpsState {
  nmea_sentence_buffer : bytes;
  nmea_sentence_next_idx : Z;
  fj_obj_location : option (option gps_position) }.

Definition gps0 : gps_state := GpsState (repeat 0 GPS_SENTENCE_BUFF_LEN) 0 None.

(** A fresh object has a name and no value. *)
Definition gps_json_filler (s : gps_state) : gps_state :=
  GpsState (nmea_sentence_buffer s) (nmea_sentence_next_idx s) (Some None).

(** [fjson_object_object_add(fj_obj_location, ...)]. *)
Definition publish_position (p : gps_position) (loc : option (option gps_position))
  : out (option (option gps_position)) :=
  _ ← deref loc; Ret (Some (Some p)).

Definition position_of (la lo : minmea_float) : out gps_position :=
  a ← minmea_tocoord la; o ← minmea_tocoord lo; Ret (Position (double_of_float a) (double_of_float o)).

Definition no_position : gps_position := Position (S754_zero false) (S754_zero false).

(** Three constructors of JSON records that nothing calls; the time of the second
    is an empty string. *)
Inductive gps_value : Set := GpsString (s : bytes) | GpsDouble (d : double).

Definition create_rmc_json_record (frame : minmea_sentence_rmc) : out (list (bytes * gps_value)) :=
  la ← minmea_tocoord (rmc_latitude frame);
  lo ← minmea_tocoord (rmc_longitude frame);
  Ret [(cstr "sentence_id", GpsString (cstr "rmc"));
       (cstr "latitude", GpsDouble (double_of_float la));
       (cstr "longitude", GpsDouble (double_of_float lo));
       (cstr "speed", GpsDouble (double_of_float (minmea_tofloat (rmc_speed frame))))].

Definition create_gga_json_record (frame : minmea_sentence_gga) : out (list (bytes * gps_value)) :=
  la ← minmea_tocoord (gga_latitude frame);
  lo ← minmea_tocoord (gga_longitude frame);
  Ret [(cstr "latitude", GpsDouble (double_of_float la));
       (cstr "longitude", GpsDouble (double_of_float lo));
       (cstr "time", GpsString [])].

Definition create_processed_gps_json_record (lat lon speed : double) : list (bytes * gps_value) :=
  [(cstr "latitude", GpsDouble lat); (cstr "longitude", GpsDouble lon)]
  ++ (if SFltb (S754_zero false) speed then [(cstr "speed", GpsDouble speed)] else []).

(** [pthread_mutex_lock(targs->json_mutex)]; [mutex] says whether the pointer is set. *)
Definition lock_json (mutex : bool) : out unit := ensure mutex NullDeref.

(** The finished sentence: a position that is missing is published as zero. *)
Definition process_sentence (mutex : bool) (sentence : bytes) (loc : option (option gps_position))
  : out (option (option gps_position)) :=
  sentence_id ← minmea_sentence_id sentence false;
  if sentence_id =? MINMEA_SENTENCE_GGA then
    frame ← minmea_parse_gga sentence;
    match frame with
    | None => Ret loc
    | Some f =>
        _ ← lock_json mutex;
        if negb (scale (gga_latitude f) =? 0) && negb (scale (gga_longitude f) =? 0)
        then p ← position_of (gga_latitude f) (gga_longitude f); publish_position p loc
        else publish_position no_position loc
    end
  else if sentence_id =? MINMEA_SENTENCE_RMC then
    frame ← minmea_parse_rmc sentence;
    match frame with
    | None => Ret loc
    | Some f =>
        _ ← lock_json mutex;
        if negb (scale (rmc_latitude f) =? 0) && negb (scale (rmc_longitude f) =? 0)
           && negb (scale (rmc_speed f) =? 0)
        then p ← position_of (rmc_latitude f) (rmc_longitude f); publish_position p loc
        else publish_position no_position loc
    end
  else Ret loc.

(** ** Putting lines together *)

Definition is_start (c : Z) : bool := (c =? 36) || (c =? 33).
Definition is_newline (c : Z) : bool := (c =? 10) || (c =? 13).

(** [strtok] with both ends of a line as delimiters. *)
Definition flush (cur : bytes) : list bytes := match cur with [] => [] | _ => [cur] end.
Fixpoint tokens_from (cur s : bytes) : list bytes :=
  match s with
  | [] => flush cur
  | c :: s => if is_newline c then flush cur ++ tokens_from [] s else tokens_from (cur ++ [c]) s
  end.

(** The buffer and its index after a token, and the sentence that the token
    finishes.  The copies are as long as the token. *)
Definition frame_token (token : bytes) (st : bytes * Z) : out (option bytes * (bytes * Z)) :=
  if is_start (char_at token) then
    previous ← c_str st.1;
    b ← blit (repeat 0 GPS_SENTENCE_BUFF_LEN) 0 token;
    Ret (Some previous, (b, Z.of_nat (length token)))
  else
    b ← blit st.1 st.2 token; Ret (None, (b, st.2 + Z.of_nat (length token))).

(** [dumped]: the dumper called the filler again after this token. *)
Definition on_token (mutex : bool) (token : bytes) (dumped : bool) (s : gps_state) : out gps_state :=
  r ← frame_token token (nmea_sentence_buffer s, nmea_sentence_next_idx s);
  loc ← (match r.1 with
         | Some sentence => process_sentence mutex sentence (fj_obj_location s)
         | None => Ret (fj_obj_location s) end);
  let s := GpsState r.2.1 r.2.2 loc in
  Ret (if dumped then gps_json_filler s else s).

Fixpoint on_tokens (mutex : bool) (tokens : list bytes) (dumps : list bool) (s : gps_state) : out gps_state :=
  match tokens with
  | [] => Ret s
  | t :: tokens => s ← on_token mutex t (default false (head dumps)) s; on_tokens mutex tokens (tail dumps) s
  end.

(** What [read] returns. *)
Inductive serial_read : Set :=
| ReadError
| ReadEnd
| ReadData (data : bytes) (dumps : list bool).

(** The terminator is stored behind the data, in the array of 100 bytes. *)
Definition chunk_tokens (data : bytes) : out (list bytes) :=
  b ← blit (repeat 0 GPS_READ_BUFF_LEN) 0 data;
  b ← store b (Z.of_nat (length data)) 0;
  s ← c_str b;
  Ret (tokens_from [] s).

(** The loop, until [end_thread] is set behind the last of the reads. *)
Fixpoint gps_thread_loop (mutex : bool) (reads : list serial_read) (s : gps_state) : out gps_state :=
  match reads with
  | [] | ReadError :: _ | ReadEnd :: _ => Ret s
  | ReadData data dumps :: reads =>
      tokens ← chunk_tokens data; s ← on_tokens mutex tokens dumps s; gps_thread_loop mutex reads s
  end.

(** ** Framing does not depend on the pieces *)

(** The sentences that are finished by some tokens, and the buffer behind. *)
Fixpoint frame_tokens (tokens : list bytes) (st : bytes * Z) : out (list bytes * (bytes * Z)) :=
  match tokens with
  | [] => Ret ([], st)
  | t :: tokens =>
      r ← frame_token t st; rest ← frame_tokens tokens r.2;
      Ret (option_list r.1 ++ rest.1, rest.2)
  end.

Fixpoint frame_chunks (chunks : list bytes) (st : bytes * Z) : out (list bytes * (bytes * Z)) :=
  match chunks with
  | [] => Ret ([], st)
  | c :: chunks =>
      tokens ← chunk_tokens c; r ← frame_tokens tokens st; rest ← frame_chunks chunks r.2;
      Ret (r.1 ++ rest.1, rest.2)
  end.

(** The same, byte by byte. *)
Definition frame_byte (c : Z) (st : bytes * Z) : out (option bytes * (bytes * Z)) :=
  if is_newline c then Ret (None, st) else frame_token [c] st.

Fixpoint frame_bytes (s : bytes) (st : bytes * Z) : out (list bytes * (bytes * Z)) :=
  match s with
  | [] => Ret ([], st)
  | c :: s =>
      r ← frame_byte c st; rest ← frame_bytes s r.2; Ret (option_list r.1 ++ rest.1, rest.2)
  end.

(** What the buffer holds when its contents are [cur]. *)
Definition padded (cur : bytes) : bytes := cur ++ repeat 0 (GPS_SENTENCE_BUFF_LEN - length cur).

Definition index_ok (st : bytes * Z) : Prop := 0 <= st.2 <= Z.of_nat (length st.1).

Lemma blit_cons b i c y : 0 <= i -> blit b i (c :: y) = (b' ← blit b i [c]; blit b' (i + 1) y).
Proof.
  intros Hi. destruct (Z.le_gt_cases (i + 1) (Z.of_nat (length b))) as [H1|H1].
  2:{ by rewrite !blit_oob by (cbn [length]; lia). }
  destruct (blit b i [c]) as [b'|] eqn:E; [|rewrite blit_Ret in E by (cbn [length]; lia); done].
  pose proof (length_blit _ _ _ _ E) as Hl. rewrite ret_bind.
  destruct (Z.le_gt_cases (i + 1 + Z.of_nat (length y)) (Z.of_nat (length b))) as [H2|H2].
  2:{ by rewrite !blit_oob by (cbn [length]; lia). }
  rewrite blit_Ret in E by (cbn [length]; lia). injection E as <-.
  rewrite !blit_Ret by (cbn [length]; lia). f_equal. cbn [length app].
  replace (Z.to_nat (i + 1)) with (Z.to_nat i + 1)%nat by lia.
  rewrite take_app, length_take, Nat.min_l by lia.
  rewrite (take_ge (take (Z.to_nat i) b)) by (rewrite length_take; lia).
  replace (Z.to_nat i + 1 - Z.to_nat i)%nat with 1%nat by lia. cbn [take].
  rewrite take_0, drop_app, length_take, Nat.min_l by lia.
  rewrite (drop_ge (take (Z.to_nat i) b)) by (rewrite length_take; lia).
  replace (Z.to_nat i + 1 + length y - Z.to_nat i)%nat with (Datatypes.S (length y)) by lia.
  cbn [app drop]. rewrite drop_drop, <- app_assoc. cbn [app]. do 4 f_equal. lia.
Qed.

Lemma blit_nil b i : 0 <= i <= Z.of_nat (length b) -> blit b i [] = Ret b.
Proof.
  intros Hi. unfold blit. cbn [length]. zdec. cbn [app]. by rewrite Nat.add_0_r, take_drop.
Qed.

Lemma frame_token_index t st r : index_ok st -> frame_token t st = Ret r -> index_ok r.2.
Proof.
  unfold index_ok, frame_token. intros Hi. destruct (is_start _).
  - rewrite bind_Ret. intros (p & _ & H). revert H. rewrite bind_Ret. intros (b & Hb & [= <-]). cbn [fst snd].
    pose proof (length_blit _ _ _ _ Hb) as Hl. unfold blit in Hb. destruct (_ && _) eqn:E; [|done].
    znorm E. rewrite Hl. lia.
  - rewrite bind_Ret. intros (b & Hb & [= <-]). cbn [fst snd].
    pose proof (length_blit _ _ _ _ Hb) as Hl. unfold blit in Hb. destruct (_ && _) eqn:E; [|done].
    znorm E. rewrite Hl. lia.
Qed.

Definition plain (c : Z) : bool := negb (is_newline c) && negb (is_start c).

Lemma frame_byte_plain c st :
  plain c = true -> frame_byte c st = (b ← blit st.1 st.2 [c]; Ret (None, (b, st.2 + 1))).
Proof.
  unfold plain, frame_byte, frame_token. intros H. apply andb_true_iff in H as [H1 H2].
  apply negb_true_iff in H1, H2. cbn [char_at length]. by rewrite H1, H2.
Qed.

Lemma frame_bytes_plain t st :
  forallb plain t = true -> index_ok st ->
  frame_bytes t st = (b ← blit st.1 st.2 t; Ret ([], (b, st.2 + Z.of_nat (length t)))).
Proof.
  revert st; induction t as [|c t IH]; intros [b i] Ht Hi; cbn [frame_bytes fst snd length] in *.
  { rewrite blit_nil by exact Hi. rewrite ret_bind. change (Z.of_nat 0) with 0. by rewrite Z.add_0_r. }
  cbn [forallb] in Ht. apply andb_true_iff in Ht as [Hc Ht].
  rewrite frame_byte_plain by done. cbn [fst snd]. rewrite (blit_cons b i c t) by apply Hi.
  destruct (blit b i [c]) as [b1|u] eqn:E; [|done]. run. cbn [fst snd].
  assert (index_ok (b1, i + 1)) as Hi1.
  { apply (frame_token_index [c] (b, i) (None, (b1, i + 1)) Hi). unfold frame_token. cbn [char_at fst snd length].
    unfold plain in Hc. apply andb_true_iff in Hc as [_ Hc]. apply negb_true_iff in Hc. rewrite Hc, E.
    by rewrite ret_bind. }
  rewrite IH by done. cbn [fst snd]. destruct (blit b1 (i + 1) t) as [b2|]; [|done].
  run. cbn [fst snd option_list app]. do 3 f_equal. lia.
Qed.

(** The shape of a token under way: only its first byte may start a sentence. *)
Definition token_shape (cur : bytes) : bool :=
  match cur with [] => true | c :: t => negb (is_newline c) && forallb plain t end.

Lemma frame_bytes_token t st :
  t <> [] -> token_shape t = true -> index_ok st ->
  frame_bytes t st = (r ← frame_token t st; Ret (option_list r.1, r.2)).
Proof.
  destruct t as [|c t]; [done|]. intros _ Hs Hi. cbn [token_shape] in Hs.
  apply andb_true_iff in Hs as [Hn Ht]. apply negb_true_iff in Hn.
  destruct (is_start c) eqn:Hc.
  - cbn [frame_bytes]. unfold frame_byte. rewrite Hn. unfold frame_token. cbn [char_at]. rewrite Hc.
    destruct (c_str st.1) as [p|]; [|done]. run.
    rewrite (blit_cons (repeat 0 GPS_SENTENCE_BUFF_LEN) 0 c t) by lia.
    destruct (blit (repeat 0 GPS_SENTENCE_BUFF_LEN) 0 [c]) as [b1|] eqn:E; [|done]. run.
    cbn [fst snd length]. rewrite frame_bytes_plain; [|done|].
    + cbn [fst snd]. change (0 + 1) with (Z.of_nat 1). destruct (blit b1 (Z.of_nat 1) t) as [b2|]; [|done].
      run. cbn [fst snd option_list app]. do 3 f_equal. lia.
    + apply length_blit in E. unfold index_ok. cbn [fst snd]. rewrite E, repeat_length. unfold GPS_SENTENCE_BUFF_LEN. cbn [length]. lia.
  - rewrite frame_bytes_plain; [|cbn [forallb]; unfold plain at 1; by rewrite Hn, Hc|done].
    unfold frame_token. cbn [char_at]. rewrite Hc. destruct (blit st.1 st.2 (c :: t)); [|done].
    by run.
Qed.

Lemma frame_bytes_app a b st :
  frame_bytes (a ++ b) st
  = (r ← frame_bytes a st; rest ← frame_bytes b r.2; Ret (r.1 ++ rest.1, rest.2)).
Proof.
  revert st; induction a as [|c a IH]; intros st; cbn [app frame_bytes].
  - rewrite ret_bind. cbn [fst snd app]. destruct (frame_bytes b st) as [[e s]|]; [|done]. by rewrite ret_bind.
  - destruct (frame_byte c st) as [[o s]|]; [|done]. run. cbn [fst snd]. rewrite IH.
    destruct (frame_bytes a s) as [[e1 s1]|]; [|done]. run. cbn [fst snd].
    destruct (frame_bytes b s1) as [[e2 s2]|]; [|done]. run. cbn [fst snd]. by rewrite app_assoc.
Qed.

Lemma frame_tokens_app a b st :
  frame_tokens (a ++ b) st
  = (r ← frame_tokens a st; rest ← frame_tokens b r.2; Ret (r.1 ++ rest.1, rest.2)).
Proof.
  revert st; induction a as [|t a IH]; intros st; cbn [app frame_tokens].
  - rewrite ret_bind. cbn [fst snd app]. destruct (frame_tokens b st) as [[e s]|]; [|done]. by rewrite ret_bind.
  - destruct (frame_token t st) as [[o s]|]; [|done]. run. cbn [fst snd]. rewrite IH.
    destruct (frame_tokens a s) as [[e1 s1]|]; [|done]. run. cbn [fst snd].
    destruct (frame_tokens b s1) as [[e2 s2]|]; [|done]. run. cbn [fst snd]. by rewrite app_assoc.
Qed.

Lemma frame_bytes_index s st r : index_ok st -> frame_bytes s st = Ret r -> index_ok r.2.
Proof.
  revert st r; induction s as [|c s IH]; intros st r Hi; cbn [frame_bytes]; [by intros [= <-]|].
  rewrite bind_Ret. intros (r1 & H1 & H). revert H. rewrite bind_Ret. intros (r2 & H2 & [= <-]).
  cbn [snd]. apply (IH r1.2); [|done]. unfold frame_byte in H1. destruct (is_newline c).
  - by injection H1 as <-.
  - by apply (frame_token_index [c] st).
Qed.

(** Sentences start behind a newline only. *)
Fixpoint starts_ok (behind_newline : bool) (s : bytes) : bool :=
  match s with
  | [] => true
  | c :: s => (behind_newline || negb (is_start c)) && starts_ok (is_newline c) s
  end.

Lemma starts_ok_true b s : starts_ok b s = true -> starts_ok true s = true.
Proof. destruct s as [|c s]; [done|]. cbn. rewrite !andb_true_iff. by intros [_ H]. Qed.

Lemma starts_ok_app b x y :
  starts_ok b (x ++ y) = true -> starts_ok b x = true /\ starts_ok true y = true.
Proof.
  revert b; induction x as [|c x IH]; intros b; cbn [app starts_ok].
  - intros H. split; [done | by eapply starts_ok_true].
  - rewrite andb_true_iff. intros [H1 H2]. destruct (IH _ H2) as [H3 H4]. by rewrite H1, H3.
Qed.

Lemma frame_tokens_bytes s cur st :
  token_shape cur = true -> starts_ok (bool_decide (cur = [])) s = true -> index_ok st ->
  frame_tokens (tokens_from cur s) st = frame_bytes (cur ++ s) st.
Proof.
  revert cur st; induction s as [|c s IH]; intros cur st Hc Hs Hi; cbn [tokens_from].
  - rewrite app_nil_r. destruct cur as [|c0 t]; [done|]. cbn [flush frame_tokens].
    rewrite frame_bytes_token by done. destruct (frame_token (c0 :: t) st) as [[o s]|]; [|done].
    run. cbn [fst snd]. by rewrite app_nil_r.
  - cbn [starts_ok] in Hs. apply andb_true_iff in Hs as [Hst Hs]. destruct (is_newline c) eqn:Hn.
    + rewrite frame_tokens_app, frame_bytes_app.
      assert (frame_tokens (flush cur) st = frame_bytes cur st) as E.
      { destruct cur as [|c0 t]; [done|]. cbn [flush frame_tokens]. rewrite frame_bytes_token by done.
        destruct (frame_token (c0 :: t) st) as [[o s0]|]; [|done]. run. cbn [fst snd].
        by rewrite app_nil_r. }
      rewrite E. destruct (frame_bytes cur st) as [[e1 s1]|] eqn:E1; [|done]. run. cbn [fst snd].
      pose proof (frame_bytes_index cur st _ Hi E1) as Hi1. cbn [snd] in Hi1.
      rewrite (IH [] s1); [|done | done | done]. cbn [app frame_bytes]. unfold frame_byte at 1. rewrite Hn.
      rewrite ret_bind. cbn [fst snd option_list app]. destruct (frame_bytes s s1) as [[e2 s2]|]; [|done].
      by run.
    + rewrite IH; [by rewrite <- app_assoc | | | done].
      * destruct cur as [|c0 t]; cbn [app token_shape] in *; [by rewrite Hn|].
        apply andb_true_iff in Hc as [Hc0 Ht]. rewrite Hc0, forallb_app, Ht. cbn [forallb andb].
        unfold plain. rewrite Hn. cbn in Hst. by rewrite Hst.
      * by destruct cur.
Qed.

(** A piece of up to 99 bytes without a NUL. *)
Definition chunk_ok (c : bytes) : Prop := (length c < GPS_READ_BUFF_LEN)%nat /\ no_nul c.

Lemma chunk_tokens_ok c : chunk_ok c -> chunk_tokens c = Ret (tokens_from [] c).
Proof.
  intros [Hl Hn]. unfold chunk_tokens. rewrite blit_0 by (rewrite repeat_length; lia). rewrite ret_bind.
  rewrite drop_repeat. unfold GPS_READ_BUFF_LEN in *.
  destruct (100 - length c)%nat as [|k] eqn:E; [lia|]. cbn [repeat].
  rewrite store_app by done. rewrite ret_bind. rewrite c_str_app by done. by rewrite ret_bind.
Qed.

Lemma frame_chunks_bytes chunks st :
  Forall chunk_ok chunks -> starts_ok true (mjoin chunks) = true -> index_ok st ->
  frame_chunks chunks st = frame_bytes (mjoin chunks) st.
Proof.
  intros Hc. revert st; induction Hc as [|c chunks Hc _ IH]; intros st Hs Hi; cbn [frame_chunks]; [done|].
  rewrite mjoin_cons in *. destruct (starts_ok_app _ _ _ Hs) as [H1 H2].
  rewrite chunk_tokens_ok, ret_bind by done. rewrite frame_tokens_bytes by done. cbn [app].
  rewrite frame_bytes_app. destruct (frame_bytes c st) as [[e s]|] eqn:E; [|done]. run.
  cbn [fst snd]. rewrite IH; [done | done |]. apply (frame_bytes_index c st _ Hi E).
Qed.

(** ** A stream of sentences *)

(** A sentence starts with the dollar sign, has no other start, end or NUL, and
    leaves room for the terminator in the buffer. *)
Definition sentence_ok (s : bytes) : Prop :=
  exists body, s = 36 :: body /\ forallb plain body = true /\ no_nul s /\ (length s < GPS_SENTENCE_BUFF_LEN)%nat.

Definition line (s : bytes) : bytes := s ++ [13; 10].

Lemma length_padded cur : (length cur <= GPS_SENTENCE_BUFF_LEN)%nat -> length (padded cur) = GPS_SENTENCE_BUFF_LEN.
Proof. intros H. unfold padded. rewrite length_app, repeat_length. lia. Qed.

Lemma c_str_padded cur :
  no_nul cur -> (length cur < GPS_SENTENCE_BUFF_LEN)%nat -> c_str (padded cur) = Ret cur.
Proof.
  intros Hn Hl. unfold padded. destruct (_ - _)%nat eqn:E; [lia|]. by apply c_str_app.
Qed.

(** A line finishes the sentence before it and is then in the buffer. *)
Lemma frame_line cur s :
  no_nul cur -> (length cur < GPS_SENTENCE_BUFF_LEN)%nat -> sentence_ok s ->
  frame_bytes (line s) (padded cur, Z.of_nat (length cur)) = Ret ([cur], (padded s, Z.of_nat (length s))).
Proof.
  intros Hn Hl (body & -> & Hp & Hs & Hls). unfold line. rewrite frame_bytes_app.
  rewrite frame_bytes_token; [|done|exact Hp|unfold index_ok; cbn [fst snd]; rewrite length_padded; lia].
  unfold frame_token. cbn [char_at fst snd]. change (is_start 36) with true. cbv iota.
  rewrite c_str_padded by done. rewrite ret_bind.
  rewrite blit_0 by (rewrite repeat_length; lia). run. cbn [fst snd option_list].
  rewrite drop_repeat. fold (padded (36 :: body)). done.
Qed.

Lemma frame_lines ss cur :
  no_nul cur -> (length cur < GPS_SENTENCE_BUFF_LEN)%nat -> Forall sentence_ok ss ->
  exists done_ss l, done_ss ++ [l] = cur :: ss
    /\ frame_bytes (mjoin (line <$> ss)) (padded cur, Z.of_nat (length cur))
       = Ret (done_ss, (padded l, Z.of_nat (length l))).
Proof.
  intros Hn Hl Hss. revert cur Hn Hl; induction Hss as [|s ss Hs _ IH]; intros cur Hn Hl.
  { by exists [], cur. }
  cbn [fmap list_fmap]. rewrite mjoin_cons, frame_bytes_app, frame_line, ret_bind by done. cbn [fst snd].
  destruct Hs as (body & -> & Hp & Hs & Hls). destruct (IH (36 :: body) Hs Hls) as (e & l & E & ->).
  exists (cur :: e), l. split; [cbn [app]; by rewrite E | done].
Qed.

Lemma starts_ok_lines ss : Forall sentence_ok ss -> starts_ok true (mjoin (line <$> ss)) = true.
Proof.
  induction 1 as [|s ss (body & -> & Hp & _) _ IH]; [done|].
  cbn [fmap list_fmap]. rewrite mjoin_cons. unfold line at 1. cbn [app starts_ok orb andb].
  change (is_newline 36) with false.
  induction body as [|c body IHb]; [exact IH|]. cbn [forallb] in Hp. apply andb_true_iff in Hp as [Hc Hp].
  cbn [app starts_ok]. unfold plain in Hc. apply andb_true_iff in Hc as [Hc1 Hc2]. rewrite Hc2.
  apply negb_true_iff in Hc1. rewrite Hc1. by apply IHb.
Qed.

(** ** The loop *)

(** What a token does to the published object: the sentence it finishes is
    processed, then the dumper may have the filler make a fresh object. *)
Definition gps_event : Type := option bytes * bool.

Definition sentences_of (es : list gps_event) : list bytes := omap fst es.

Fixpoint run_events (mutex : bool) (es : list gps_event) (loc : option (option gps_position))
  : out (option (option gps_position)) :=
  match es with
  | [] => Ret loc
  | (o, dumped) :: es =>
      loc ← (match o with Some p => process_sentence mutex p loc | None => Ret loc end);
      run_events mutex es (if (dumped : bool) then Some None else loc)
  end.

Lemma run_events_app mutex a b loc :
  run_events mutex (a ++ b) loc = (l ← run_events mutex a loc; run_events mutex b l).
Proof.
  revert loc; induction a as [|[o d] a IH]; intros loc; [done|]. cbn [app run_events].
  destruct (match o with Some _ => _ | None => _ end) as [l|]; [|done]. run. apply IH.
Qed.

Lemma sentences_app a b : sentences_of (a ++ b) = sentences_of a ++ sentences_of b.
Proof.
  induction a as [|[o d] a IH]; [done|]. unfold sentences_of in *. cbn. destruct o; cbn; by rewrite IH.
Qed.

(** Whether the filler ran behind each token of a piece, and of some pieces. *)
Definition dump_marks (c : bytes * list bool) : list bool := resize (length (tokens_from [] c.1)) false c.2.
Definition all_marks (reads : list (bytes * list bool)) : list bool := mjoin (dump_marks <$> reads).

Lemma resize_S (n : nat) (l : list bool) :
  resize (Datatypes.S n) false l = default false (head l) :: resize n false (tail l).
Proof. destruct l; [cbn; by rewrite resize_nil | done]. Qed.

(** The tokens are framed and the finished sentences processed in order,
    whatever the published object is. *)
Lemma on_tokens_events mutex tokens dumps b i e st :
  frame_tokens tokens (b, i) = Ret (e, st) ->
  exists es, sentences_of es = e /\ snd <$> es = resize (length tokens) false dumps
    /\ forall loc, on_tokens mutex tokens dumps (GpsState b i loc)
                  = (loc ← run_events mutex es loc; Ret (GpsState st.1 st.2 loc)).
Proof.
  revert dumps b i e; induction tokens as [|t tokens IH]; intros dumps b i e; cbn [frame_tokens on_tokens].
  { intros [= <- <-]. exists []. split_and!; [done | by rewrite resize_0 |]. intros loc. cbn [run_events]. by run. }
  rewrite bind_Ret. intros ([o [b1 i1]] & E1 & H). revert H. rewrite bind_Ret. intros ([e2 st2] & E2 & [= <- <-]).
  cbn [fst snd] in *. destruct (IH (tail dumps) b1 i1 e2 E2) as (es & <- & Hd & Hes).
  exists ((o, default false (head dumps)) :: es). split_and!.
  - unfold sentences_of. by destruct o.
  - cbn [length]. by rewrite resize_S, fmap_cons, Hd.
  - intros loc. unfold on_token. cbn [nmea_sentence_buffer nmea_sentence_next_idx fj_obj_location].
    rewrite E1, ret_bind. cbn [fst snd run_events].
    destruct (match o with Some _ => _ | None => _ end) as [l|]; [|done]. run.
    unfold gps_json_filler. cbn [nmea_sentence_buffer nmea_sentence_next_idx].
    destruct (default false (head dumps)); apply Hes.
Qed.

(** One piece and what the dumper does while it is handled. *)
Definition read_of (c : bytes * list bool) : serial_read := ReadData c.1 c.2.

Lemma gps_loop_events mutex reads b i e st rest :
  Forall chunk_ok (fst <$> reads) -> frame_chunks (fst <$> reads) (b, i) = Ret (e, st) ->
  exists es, sentences_of es = e /\ snd <$> es = all_marks reads
    /\ forall loc, gps_thread_loop mutex ((read_of <$> reads) ++ rest) (GpsState b i loc)
                  = (loc ← run_events mutex es loc; gps_thread_loop mutex rest (GpsState st.1 st.2 loc)).
Proof.
  revert b i e; induction reads as [|[c dumps] reads IH]; intros b i e;
    cbn [frame_chunks fmap list_fmap gps_thread_loop app read_of fst snd].
  { intros _ [= <- <-]. exists []. split_and!; [done | done |]. intros loc. cbn [run_events]. by run. }
  intros [Hc Hcs]%list.Forall_cons. rewrite chunk_tokens_ok, ret_bind by done. rewrite bind_Ret. intros ([e1 [b1 i1]] & E1 & H). revert H.
  rewrite bind_Ret. intros ([e2 st2] & E2 & [= <- <-]). cbn [fst snd] in *.
  destruct (on_tokens_events mutex (tokens_from [] c) dumps b i e1 (b1, i1) E1) as (es1 & <- & Hd1 & Hes1).
  destruct (IH b1 i1 e2 Hcs E2) as (es2 & <- & Hd2 & Hes2). exists (es1 ++ es2). split_and!.
  - apply sentences_app.
  - unfold all_marks. by rewrite fmap_app, Hd1, Hd2, fmap_cons, mjoin_cons.
  - intros loc. rewrite ret_bind, Hes1, run_events_app.
    destruct (run_events mutex es1 loc) as [l|]; [|done]. run. cbn [fst snd]. apply Hes2.
Qed.

(** [read] fills at most the array; a piece that fills it leaves no room for the
    terminator. *)
Definition short (c : bytes * list bool) : bool := (length c.1 <? GPS_READ_BUFF_LEN)%nat.

Lemma full_read mutex data dumps rest s :
  length data = GPS_READ_BUFF_LEN -> gps_thread_loop mutex (ReadData data dumps :: rest) s = Undef OobWrite.
Proof.
  intros Hl. cbn [gps_thread_loop]. unfold chunk_tokens.
  rewrite blit_0 by (rewrite repeat_length, Hl; unfold GPS_READ_BUFF_LEN; lia). rewrite ret_bind.
  rewrite store_oob; [done|]. rewrite length_app, length_drop, repeat_length, Hl. unfold GPS_READ_BUFF_LEN. lia.
Qed.

Lemma lines_no_nul ss : Forall sentence_ok ss -> no_nul (mjoin (line <$> ss)).
Proof.
  unfold no_nul. induction 1 as [|s ss (body & -> & _ & Hs & _) _ IH]; [apply not_elem_of_nil|].
  cbn [fmap list_fmap]. rewrite mjoin_cons, elem_of_app. unfold line. rewrite elem_of_app.
  intros [[H|H]|H]; [by apply Hs | by apply (bool_decide_unpack (0 ∉ _)) in H | by apply IH].
Qed.

(** The sentences the first pieces of a stream finish are the first of the
    stream; all of them finish all but the last. *)
Lemma stream_frames ss a b :
  Forall sentence_ok ss -> Forall chunk_ok a -> mjoin (a ++ b) = mjoin (line <$> ss) ->
  exists finished st, frame_chunks a (repeat 0 GPS_SENTENCE_BUFF_LEN, 0) = Ret (finished, st)
    /\ finished `prefix_of` removelast ([] :: ss)
    /\ (mjoin b = [] -> let l := List.last ([] :: ss) [] in
          finished ++ [l] = [] :: ss /\ st = (padded l, Z.of_nat (length l))).
Proof.
  intros Hss Hc E.
  destruct (frame_lines ss []) as (e & l & El & Hf); [by intros ?%elem_of_nil | cbn; unfold GPS_SENTENCE_BUFF_LEN; lia | done |].
  assert (index_ok (repeat 0 GPS_SENTENCE_BUFF_LEN, 0)) as Hi by (unfold index_ok; cbn [fst snd]; lia).
  change (padded []) with (repeat 0 GPS_SENTENCE_BUFF_LEN) in Hf. change (Z.of_nat (length [])) with 0 in Hf.
  pose proof (starts_ok_lines ss Hss) as Hst. rewrite <- E, join_app in Hst, Hf.
  rewrite frame_chunks_bytes; [|done | by apply starts_ok_app in Hst as [? _] | done].
  rewrite frame_bytes_app in Hf. destruct (frame_bytes (mjoin a) _) as [[e1 st1]|]; [|done].
  rewrite ret_bind in Hf. cbn [fst snd] in Hf. exists e1, st1. split; [done|].
  rewrite <- El, removelast_last, last_last.
  apply bind_Ret in Hf as ([e2 st2] & Hb & [= <- ->]). split; [by eexists|].
  intros Hnil. rewrite Hnil in Hb. cbn [frame_bytes] in Hb. injection Hb as <- ->. by rewrite app_nil_r.
Qed.

(** The first piece that fills the array, if any. *)
Lemma first_full reads :
  exists a b, reads = a ++ b /\ forallb short a = true
    /\ match b with [] => forallb short reads = true | c :: _ => short c = false /\ forallb short reads = false end.
Proof.
  induction reads as [|c reads IH]; [by exists [], []|]. destruct (short c) eqn:Hc.
  - destruct IH as (a & b & -> & Ha & Hb). exists (c :: a), b. cbn [app forallb]. rewrite Hc. by split_and!.
  - exists [], (c :: reads). cbn [app forallb]. rewrite Hc. by split_and!.
Qed.

(** The framing of a stream, with the pieces up to the first that fills the array. *)
Lemma reads_split mutex ss reads :
  Forall sentence_ok ss -> Forall (fun c => (length c.1 <= GPS_READ_BUFF_LEN)%nat) reads ->
  mjoin (fst <$> reads) = mjoin (line <$> ss) ->
  exists es, (sentences_of es `prefix_of` removelast ([] :: ss) /\ (snd <$> es) `prefix_of` all_marks reads)
    /\ (forall loc, gps_thread_loop mutex (read_of <$> reads) (GpsState (repeat 0 GPS_SENTENCE_BUFF_LEN) 0 loc)
          = (loc ← run_events mutex es loc;
             if forallb short reads
             then let l := List.last ([] :: ss) [] in Ret (GpsState (padded l) (Z.of_nat (length l)) loc)
             else Undef OobWrite))
    /\ (forallb short reads = true -> sentences_of es = removelast ([] :: ss) /\ snd <$> es = all_marks reads).
Proof.
  intros Hss Hlen E. destruct (first_full reads) as (a & b & -> & Ha & Hb).
  pose proof (lines_no_nul ss Hss) as Hn. rewrite <- E in Hn. rewrite fmap_app in E.
  assert (Forall chunk_ok (fst <$> a)) as Hc.
  { apply list.Forall_forall. intros x Hx. apply list_elem_of_fmap in Hx as (c & -> & Hx). split.
    - rewrite forallb_forall in Ha. apply Nat.ltb_lt, Ha. by apply list_elem_of_In.
    - intros H0. apply Hn. rewrite fmap_app, join_app, elem_of_app. left. apply list_elem_of_join.
      exists c.1. split; [done | by apply list_elem_of_fmap_2]. }
  destruct (stream_frames ss (fst <$> a) (fst <$> b) Hss Hc E) as (e & st & Hf & Hpre & Hall).
  destruct (gps_loop_events mutex a _ _ e st (read_of <$> b) Hc Hf) as (es & <- & Hd & Hes).
  exists es. rewrite fmap_app. split_and!; [done | | |].
  - unfold all_marks in *. rewrite Hd, fmap_app, join_app. by eexists.
  - intros loc. rewrite Hes. destruct (run_events mutex es loc) as [l|]; [|done]. rewrite !ret_bind.
    destruct b as [|c b].
    + rewrite Hb. destruct (Hall eq_refl) as [_ ->]. done.
    + destruct Hb as [Hc' ->]. apply list.Forall_app in Hlen as [_ Hlen]. apply list.Forall_cons in Hlen as [Hlen _].
      unfold short in Hc'. apply Nat.ltb_ge in Hc'. cbn [fmap list_fmap]. apply full_read. lia.
  - intros Hs. destruct b as [|c b]; [|by destruct Hb as [_ Hb]; rewrite Hb in Hs].
    destruct (Hall eq_refl) as [H _]. rewrite <- H. rewrite removelast_last, app_nil_r. done.
Qed.

(** C23: However the serial line cuts a stream of sentences into pieces, the
    thread puts them together again, as long as no piece fills the array of 100
    bytes: every sentence but the last is processed exactly once and in order,
    after the empty buffer of the start, with the filler run in between exactly
    where the dumper wants it, and the last one waits in the buffer.  A piece of
    100 bytes makes the thread write behind the array, after the sentences that
    the pieces before it have finished. *)
Theorem framing_independent_of_chunks mutex ss reads loc :
  Forall sentence_ok ss -> Forall (fun c => (length c.1 <= GPS_READ_BUFF_LEN)%nat) reads ->
  mjoin (fst <$> reads) = mjoin (line <$> ss) ->
  exists es, (sentences_of es `prefix_of` removelast ([] :: ss) /\ (snd <$> es) `prefix_of` all_marks reads)
    /\ gps_thread_loop mutex (read_of <$> reads) (GpsState (repeat 0 GPS_SENTENCE_BUFF_LEN) 0 loc)
       = (loc ← run_events mutex es loc;
          if forallb short reads
          then let l := List.last ([] :: ss) [] in Ret (GpsState (padded l) (Z.of_nat (length l)) loc)
          else Undef OobWrite)
    /\ (forallb short reads = true -> sentences_of es = removelast ([] :: ss) /\ snd <$> es = all_marks reads).
Proof.
  intros Hss Hlen E. destruct (reads_split mutex ss reads Hss Hlen E) as (es & H1 & H2 & H3). by exists es.
Qed.

(** ** From an RMC sentence to the published position *)

Definition rmc_body (r : rmc_report) : bytes := drop 1 (rmc_sentence r []).

(** The report with its checksum. *)
Definition rmc_line (r : rmc_report) : bytes := nmea_line (rmc_body r) (rmc_body r) [].

Lemma body_ok_field f : field_chars f = true -> body_ok f.
Proof.
  unfold field_chars, body_ok. rewrite forallb_forall. intros H. apply list.Forall_forall.
  intros c Hc. apply list_elem_of_In in Hc. specialize (H c Hc). unfold minmea_isfield in H. znorm H.
  split; [apply H | lia].
Qed.

Lemma rmc_sentence_app r e : rmc_sentence r e = rmc_sentence r [] ++ e.
Proof.
  unfold rmc_sentence, rmc_fields. cbn [foldr]. repeat (rewrite <- app_assoc; cbn [app]). done.
Qed.

Lemma rmc_sentence_body r : rmc_sentence r [] = 36 :: rmc_body r.
Proof. done. Qed.

Lemma rmc_line_sentence r :
  rmc_line r = rmc_sentence r (42 :: hex_digit (xor_all (rmc_body r) / 16)
                                 :: hex_digit (xor_all (rmc_body r) mod 16) :: []).
Proof. by rewrite rmc_sentence_app, rmc_sentence_body. Qed.

Lemma rmc_body_ok r ns ew vew : rmc_ok r ns ew vew -> body_ok (rmc_body r).
Proof.
  intros [[_ T] (Ti1 & Ti2 & Ti3) S [La1 La2] [Lo1 Lo2] [Sp Co] (D1 & D2 & D3) [Va1 Va2]].
  assert (forall f s, field_chars f = true -> body_ok s -> body_ok (f ++ 44 :: s)) as Hj.
  { intros f s Hf Hs. apply list.Forall_app. split; [by apply body_ok_field|]. by apply list.Forall_cons. }
  destruct (six_ok _ _ _ Ti1 Ti2 Ti3) as [F1 _]. destruct (six_ok _ _ _ D1 D2 D3) as [F2 _].
  apply digits_are_field in F1, F2.
  change (rmc_body r) with ((r_talker r ++ cstr "RMC") ++
    44 :: foldr (fun f s => f ++ 44 :: s) [r_var_ew r] (tail (rmc_fields r))).
  unfold rmc_fields. cbn [tail foldr].
  apply Hj; [unfold field_chars in *; by rewrite forallb_app, T|]. apply Hj; [done|].
  apply Hj; [by unfold field_chars; cbn; rewrite S|].
  repeat (apply Hj; [first [ by apply fixed_chars | by eapply direction_is_field | done ]|]).
  apply body_ok_field. by eapply direction_is_field.
Qed.

(** The kind of such a sentence is recognised. *)
Lemma rmc_line_id r ns ew vew :
  rmc_ok r ns ew vew -> (length (rmc_body r) <= 77)%nat ->
  minmea_sentence_id (rmc_line r) false = Ret MINMEA_SENTENCE_RMC.
Proof.
  intros Hr Hl. unfold minmea_sentence_id. pose proof (rmc_body_ok r ns ew vew Hr) as Hb.
  unfold rmc_line at 1. rewrite check_line by (done || (cbn [length]; lia)). rewrite Z.eqb_refl.
  cbn [andb negb]. destruct (ok_talker _ _ _ _ Hr) as [T1 T2].
  assert (field_chars (r_talker r ++ cstr "RMC") = true) as T3
    by (unfold field_chars in *; by rewrite forallb_app, T2).
  assert (length (r_talker r ++ cstr "RMC") = 5%nat) as T4 by by rewrite length_app, T1.
  assert (minmea_scan (rmc_line r) (cstr "t") = Ret (Some [VType (r_talker r ++ cstr "RMC")])) as ->.
  { unfold minmea_scan. rewrite rmc_line_sentence. unfold rmc_sentence, rmc_fields. cbn [foldr].
    change (cstr "t") with [116].
    rewrite (scan_loop_step 116 _ (36 :: _) _ _ _ ltac:(done) T3 (scan_type_field _ _ T4 T3)). done. }
  rewrite ret_bind. unfold is_type.
  assert (drop 2 (r_talker r ++ cstr "RMC") = cstr "RMC") as -> by (rewrite <- T1; apply drop_app_length).
  by rewrite bool_decide_true.
Qed.

(** A complete RMC sentence with a correct checksum publishes exactly its latitude
    and longitude in degrees. *)
Lemma rmc_line_processed r ns ew vew old la lo :
  rmc_ok r ns ew vew -> (length (rmc_body r) <= 77)%nat ->
  minmea_tocoord (directed (fixed_value (r_lat r).1 (r_lat r).2) ns) = Ret la ->
  minmea_tocoord (directed (fixed_value (r_lon r).1 (r_lon r).2) ew) = Ret lo ->
  process_sentence true (rmc_line r) (Some old)
  = Ret (Some (Some (Position (double_of_float la) (double_of_float lo)))).
Proof.
  intros Hr Hl Hla Hlo. unfold process_sentence. rewrite (rmc_line_id r ns ew vew Hr Hl), ret_bind.
  change (MINMEA_SENTENCE_RMC =? MINMEA_SENTENCE_GGA) with false.
  change (MINMEA_SENTENCE_RMC =? MINMEA_SENTENCE_RMC) with true. cbv iota.
  rewrite rmc_line_sentence, (parse_rmc_report r _ ns ew vew Hr), ret_bind by done.
  cbn [rmc_latitude rmc_longitude rmc_speed rmc_value directed fixed_value scale].
  assert (forall b : bytes, negb (10 ^ Z.of_nat (length b) =? 0) = true) as Hs.
  { intros b. pose proof (Z.pow_pos_nonneg 10 (Z.of_nat (length b))). by zdec. }
  rewrite !Hs. cbn [andb]. unfold position_of.
  rewrite Hla, ret_bind, Hlo, !ret_bind. done.
Qed.

(** Whether a sentence is processed without a fault does not depend on what is
    published already. *)
Lemma publish_some p old : publish_position p (Some old) = Ret (Some (Some p)).
Proof. done. Qed.

Lemma process_sentence_defined s o o' :
  defined (process_sentence true s (Some o)) ->
  exists new, process_sentence true s (Some o') = Ret (Some new).
Proof.
  unfold process_sentence, lock_json, defined. intros [x H]. revert H.
  destruct (minmea_sentence_id s false) as [id|]; [|done]. rewrite !ret_bind.
  destruct (id =? MINMEA_SENTENCE_GGA); [|destruct (id =? MINMEA_SENTENCE_RMC); [|by eexists]].
  - destruct (minmea_parse_gga s) as [[f|]|]; [|by eexists|done]. rewrite !ret_bind. cbn [ensure]. rewrite !ret_bind.
    destruct (_ && _); [|by eexists]. destruct (position_of _ _); [|done]. by eexists.
  - destruct (minmea_parse_rmc s) as [[f|]|]; [|by eexists|done]. rewrite !ret_bind. cbn [ensure]. rewrite !ret_bind.
    destruct (_ && _ && _); [|by eexists]. destruct (position_of _ _); [|done]. by eexists.
Qed.

Lemma run_events_defined es o :
  Forall (fun s => defined (process_sentence true s (Some None))) (sentences_of es) ->
  exists new, run_events true es (Some o) = Ret (Some new).
Proof.
  revert o; induction es as [|[[s|] d] es IH]; intros o Hs; cbn [run_events]; [by eexists| |].
  - apply list.Forall_cons in Hs as [H1 H2]. destruct (process_sentence_defined _ _ o H1) as [new ->].
    run. destruct d; by apply IH.
  - run. destruct d; by apply IH.
Qed.

(** The events split at the last sentence. *)
Lemma sentences_last es pre s :
  sentences_of es = pre ++ [s] ->
  exists a d b, es = a ++ (Some s, d) :: b /\ sentences_of a = pre /\ sentences_of b = [].
Proof.
  revert pre; induction es as [|[[x|] d] es IH]; intros pre; cbn [sentences_of omap list_omap fst].
  - by destruct pre.
  - change (omap fst es) with (sentences_of es). destruct pre as [|y pre]; cbn [app].
    + intros [= -> H]. exists [], d, es. by split_and!.
    + intros [= -> H]. destruct (IH _ H) as (a & d' & b & -> & <- & Hb).
      exists ((Some y, d) :: a), d', b. by split_and!.
  - change (omap fst es) with (sentences_of es). intros H. destruct (IH _ H) as (a & d' & b & -> & <- & Hb).
    exists ((None, d) :: a), d', b. by split_and!.
Qed.

Lemma run_dumps mutex es loc :
  sentences_of es = [] -> run_events mutex es loc = Ret (if existsb snd es then Some None else loc).
Proof.
  revert loc; induction es as [|[[x|] d] es IH]; intros loc; [done|done|]. cbn [run_events existsb snd]. intros H.
  rewrite ret_bind, IH by exact H. by destruct d, (existsb snd es).
Qed.

Lemma existsb_marks (es : list gps_event) : existsb snd es = existsb id (snd <$> es).
Proof. induction es as [|v es IH]; [done|]. cbn. by rewrite IH. Qed.

Lemma no_marks reads : Forall (fun c => Forall (.= false) c.2) reads -> existsb id (all_marks reads) = false.
Proof.
  unfold all_marks. induction 1 as [|[c dumps] reads Hd _ IH]; [done|]. cbn [fmap list_fmap].
  rewrite mjoin_cons, existsb_app, IH, orb_false_r. unfold dump_marks. cbn [fst snd] in *.
  generalize (length (tokens_from [] c)) as n. intros n. revert dumps Hd.
  induction n as [|n IHn]; intros dumps Hd; [by rewrite resize_0|]. rewrite resize_S. cbn [existsb].
  destruct Hd as [|d dumps -> Hd]; cbn [head tail default from_option id]; by rewrite IHn.
Qed.

(** A report that is the last sentence processed stays published, unless the
    filler has made a fresh object since. *)
Lemma report_stays r ns ew vew es before old la lo :
  rmc_ok r ns ew vew -> (length (rmc_body r) <= 77)%nat ->
  minmea_tocoord (directed (fixed_value (r_lat r).1 (r_lat r).2) ns) = Ret la ->
  minmea_tocoord (directed (fixed_value (r_lon r).1 (r_lon r).2) ew) = Ret lo ->
  Forall (fun s => defined (process_sentence true s (Some None))) before ->
  sentences_of es = before ++ [rmc_line r] ->
  exists wiped : bool, run_events true es (Some old)
      = Ret (Some (if wiped then None else Some (Position (double_of_float la) (double_of_float lo))))
    /\ (existsb id (snd <$> es) = false -> wiped = false).
Proof.
  intros Hr Hl Hla Hlo Hb Hes. destruct (sentences_last es before _ Hes) as (a & d & b & -> & <- & Hnil).
  destruct (run_events_defined a old Hb) as [o Ho]. exists (d || existsb snd b). split.
  - rewrite run_events_app, Ho, ret_bind. cbn [run_events].
    rewrite (rmc_line_processed r ns ew vew o la lo Hr Hl Hla Hlo), ret_bind, run_dumps by done.
    by destruct d, (existsb snd b).
  - rewrite <- existsb_marks, existsb_app. cbn [existsb snd]. intros Hf. by apply orb_false_iff in Hf as [_ Hf].
Qed.

(** ** Known limits *)

(** A line without a start longer than the buffer overruns it. *)
Lemma long_line_overruns :
  gps_thread_loop true [ReadData (repeat 65 84) []] gps0 = Undef OobWrite.
Proof. vm_compute. reflexivity. Qed.

Module GpsWitness.
Definition gsv_line : bytes := cstr "$GPGSV,4,4,13*7B".

Lemma gsv_ok : sentence_ok gsv_line.
Proof.
  exists (drop 1 gsv_line). split_and!; [reflexivity | reflexivity | | apply Nat.ltb_lt; reflexivity].
  apply (bool_decide_unpack _); vm_compute; exact I.
Qed.

Lemma melbourne_sentence_ok : sentence_ok (rmc_line MinmeaWitness.melbourne).
Proof.
  exists (drop 1 (rmc_line MinmeaWitness.melbourne)).
  split_and!; [reflexivity | vm_compute; reflexivity | | apply Nat.ltb_lt; vm_compute; reflexivity].
  apply (bool_decide_unpack _); vm_compute; exact I.
Qed.

Definition stream : bytes := mjoin (line <$> [gsv_line; rmc_line MinmeaWitness.melbourne; gsv_line]).

(** The stream in three pieces, cut inside two sentences; the dumper has a fresh
    object made during the second. *)
Definition pieces : list (bytes * list bool) :=
  [(take 7 stream, []); (take 60 (drop 7 stream), [true]); (drop 67 stream, [])].

Lemma framing_independent_of_chunks_witness :
  exists es, (sentences_of es `prefix_of` [[]; gsv_line; rmc_line MinmeaWitness.melbourne]
              /\ (snd <$> es) `prefix_of` [false; true; false; false; false])
    /\ gps_thread_loop true (read_of <$> pieces) (GpsState (repeat 0 GPS_SENTENCE_BUFF_LEN) 0 (Some None))
       = (loc ← run_events true es (Some None);
          Ret (GpsState (padded gsv_line) (Z.of_nat (length gsv_line)) loc))
    /\ (forallb short pieces = true -> sentences_of es = [[]; gsv_line; rmc_line MinmeaWitness.melbourne]
                                      /\ snd <$> es = [false; true; false; false; false]).
Proof.
  refine (framing_independent_of_chunks true [gsv_line; rmc_line MinmeaWitness.melbourne; gsv_line] pieces (Some None)
            _ _ _).
  - apply Forall_cons_2; [exact gsv_ok|]. apply Forall_cons_2; [exact melbourne_sentence_ok|].
    apply Forall_cons_2; [exact gsv_ok | constructor].
  - apply (bool_decide_unpack _); vm_compute; exact I.
  - vm_compute. reflexivity.
Defined.
End GpsWitness.
