(* ===== verification/SerialPlugins.v ===== *)
(** * The plugins around the two serial receivers
      (the ends of src/plugins/pip/gps/pip_plugin_gps.c and
      src/plugins/pip/modbus/pip_plugin_modbus.c)

    Initializing, starting and ending the threads of Gps.v and Modbus.v, with the
    ports they open.  What [open], [pthread_create] and the terminal answer are
    arguments; the set of open descriptors is part of the state. *)

From S2P Require Import Prelude CStd Serial Config DataDumper Floats Minmea Gps Modbus.

(** ** The GPS receiver *)

Definition GPS_JSON_NAME : bytes := cstr "gps_data".
Definition GPS_PORTNAME_LEN : nat := 64.
Definition GPS_NO_ERROR : Z := 0.
Definition GPS_ERROR_START : Z := -2.

(** The file's copies of the functions of Serial.v. *)
Definition gps_set_interface_attribs := set_interface_attribs.
Definition gps_set_blocking := set_blocking.

(** [json_mutex]: whether the pointer to the mutex is set. *)
Record gps_receiver := GpsReceiver {
  portname : bytes;
  json_mutex : bool;
  end_thread : bool;
  gps_thread : thread;
  gps_static : gps_state }.

Definition gps_receiver0 : gps_receiver :=
  GpsReceiver (repeat 0 GPS_PORTNAME_LEN) false false NotCreated gps0.

Section Receivers.
Context {V : Type} (cfg : config_manager_t) (filler node : nat).

Definition gpsreceiver_init (mutex : bool) (r : gps_receiver) (dm : @dumper V)
    : out (Z * gps_receiver * @dumper V) :=
  p ← config_manager_get_option_string cfg (cstr "gps_recv") (cstr "serialportname") (portname r)
        (Z.of_nat GPS_PORTNAME_LEN);
  dm ← datadumper_add_module_init_cb filler node (GPS_JSON_NAME ++ [0]) dm;
  Ret (GPS_NO_ERROR, GpsReceiver p.2 mutex (end_thread r) (gps_thread r) (gps_static r), dm).

Definition gpsreceiver_start (created : bool) (r : gps_receiver) : Z * gps_receiver :=
  if created
  then (GPS_NO_ERROR, GpsReceiver (portname r) (json_mutex r) (end_thread r) Running (gps_static r))
  else (GPS_ERROR_START, r).

Definition gpsreceiver_end (r : gps_receiver) : out (Z * gps_receiver) :=
  t ← pthread_join (gps_thread r);
  Ret (GPS_NO_ERROR, GpsReceiver (portname r) (json_mutex r) true t (gps_static r)).

(** The thread from its first line on: the port, which is never closed, the flag
    and the loop, which locks the mutex it was given, with the reads that happen
    before the flag is set. *)
Definition gps_thread_main (fd : Z) (set1 set2 : bool) (port : option termios) (reads : list serial_read)
    (fds : gset Z) (r : gps_receiver) : out (gps_receiver * option termios * gset Z) :=
  _ ← c_str (portname r);
  let failed := fd <? 0 in
  let fds := if failed then fds else {[fd]} ∪ fds in
  let ended := end_thread r || failed in
  let port := gps_set_blocking 1 set2 (gps_set_interface_attribs B4800 0 set1 (if failed then None else port)).2 in
  s ← (if ended then Ret (gps_static r) else gps_thread_loop (json_mutex r) reads (gps_static r));
  Ret (GpsReceiver (portname r) (json_mutex r) ended (gps_thread r) s, port, fds).

(** ** The Modbus receiver *)

Definition MODBUS_JSON_NAME : bytes := cstr "modbus_data".
Definition MODBUS_SERIAL_DEV_LEN : nat := 64.

Record modbus_receiver := ModbusReceiver {
  serial_device : bytes;
  mb_json_mutex : bool;
  modbus : modbus_t;
  wanted_signals : option wanted_signals_t;
  mb_end_thread : bool;
  mb_thread : thread }.

Definition modbus_receiver0 : modbus_receiver :=
  ModbusReceiver (repeat 0 MODBUS_SERIAL_DEV_LEN) false
    {| device_name := repeat 0 MODBUS_DEV_NAME_LEN; fd := 0 |} None false NotCreated.

Definition modbusreceiver_init (dataset : option wanted_signals_t) (mutex : bool) (open_fd : Z)
    (set1 set2 : bool) (port : option termios) (r : modbus_receiver) (fds : gset Z) (dm : @dumper V)
    : out (modbus_receiver * option termios * gset Z * @dumper V) :=
  p ← config_manager_get_option_string cfg (cstr "modbus") (cstr "serial_device") (serial_device r)
        (Z.of_nat MODBUS_SERIAL_DEV_LEN);
  dm ← datadumper_add_module_init_cb filler node (MODBUS_JSON_NAME ++ [0]) dm;
  m ← modbus_init (modbus r) p.2 open_fd set1 set2 port;
  Ret (ModbusReceiver p.2 mutex m.1.1 dataset (mb_end_thread r) (mb_thread r), m.2,
       (if open_fd <? 0 then fds else {[open_fd]} ∪ fds), dm).

Definition modbusreceiver_start (created : bool) (r : modbus_receiver) : Z * modbus_receiver :=
  if created
  then (0, ModbusReceiver (serial_device r) (mb_json_mutex r) (modbus r) (wanted_signals r)
             (mb_end_thread r) Running)
  else (-1, r).

Definition modbusreceiver_stop (r : modbus_receiver) (fds : gset Z) : out (modbus_receiver * gset Z) :=
  t ← pthread_join (mb_thread r);
  Ret (ModbusReceiver (serial_device r) (mb_json_mutex r) (modbus r) (wanted_signals r) true t,
       modbus_deinit (modbus r) fds).

(** The thread; [dumps] are the rounds until the flag is set. *)
Definition modbus_thread_main {Dev} (exchange : bytes -> Dev -> option bytes * Dev) (dumps : list bool)
    (r : modbus_receiver) (j : modbus_json) (d : Dev) : out (modbus_json * Dev) :=
  if mb_end_thread r then Ret (j, d) else
  match dumps with
  | [] => Ret (j, d)
  | _ => w ← deref (wanted_signals r); thread_loop exchange dumps w j d
  end.
End Receivers.

(** ** What the receivers do *)

(** The thread of an ended receiver, and one whose port does not open, reads
    nothing; since nothing clears the flag, so does every later thread. *)
Lemma gps_stays_ended fd set1 set2 port reads fds r created :
  end_thread r = true -> has_nul (portname r) = true ->
  exists r' port' fds', gps_thread_main fd set1 set2 port reads fds (gpsreceiver_start created r).2 = Ret (r', port', fds')
    /\ gps_static r' = gps_static r /\ end_thread r' = true
    /\ fds' = (if fd <? 0 then fds else ({[fd]} ∪ fds)).
Proof.
  intros He Hn. unfold gps_thread_main. destruct created; cbn [gpsreceiver_start snd portname end_thread gps_static].
  all: unfold c_str; rewrite Hn; run; rewrite He; cbn [orb]; run.
  all: do 3 eexists; by split_and!.
Qed.

(** The rounds of a Modbus receiver that has been stopped publish nothing. *)
Lemma modbus_stays_stopped {Dev} (exchange : bytes -> Dev -> option bytes * Dev) dumps r fds j d :
  mb_thread r = Running ->
  exists r' fds', modbusreceiver_stop r fds = Ret (r', fds') /\ (fd (modbus r) ∉ fds')
    /\ modbus_thread_main exchange dumps (modbusreceiver_start true r').2 j d = Ret (j, d).
Proof.
  intros Ht. unfold modbusreceiver_stop, modbus_deinit. rewrite Ht. eexists _, _. split; [done|]. split; [set_solver | done].
Qed.

(** The sentences in front of the report do no harm; the buffer starts empty. *)
Lemma empty_sentence_defined : defined (process_sentence true [] (Some None)).
Proof. eexists. vm_compute. reflexivity. Qed.

(** C29: From the serial port to the published position.  Take a receiver that
    was given a mutex, has not been ended and whose port opens, an object that
    the filler has made, and a stream whose last but one sentence is an RMC
    report with a correct checksum, behind sentences that can be processed.
    However the stream is cut into pieces of at most 99 bytes, the thread reads
    all of it and the report's position, exactly, is what remains published,
    unless a dump in between has the filler make a fresh object; without dumps
    it always is.  With a piece of 100 bytes the thread writes behind its array.
    When the kernel accepts both changes, the port has become a raw line of 4800
    baud. *)
Theorem gps_position_published r ns ew vew before next reads rx old la lo fd set1 set2 tty fds :
  end_thread rx = false -> json_mutex rx = true -> has_nul (portname rx) = true -> 0 <= fd ->
  gps_static rx = GpsState (repeat 0 GPS_SENTENCE_BUFF_LEN) 0 (Some old) ->
  Forall sentence_ok (before ++ [rmc_line r; next]) ->
  Forall (fun c => (length c.1 <= GPS_READ_BUFF_LEN)%nat) reads ->
  mjoin (fst <$> reads) = mjoin (line <$> before ++ [rmc_line r; next]) ->
  Forall (fun s => defined (process_sentence true s (Some None))) before ->
  rmc_ok r ns ew vew -> (length (rmc_body r) <= 77)%nat ->
  minmea_tocoord (directed (fixed_value (r_lat r).1 (r_lat r).2) ns) = Ret la ->
  minmea_tocoord (directed (fixed_value (r_lon r).1 (r_lon r).2) ew) = Ret lo ->
  let run := gps_thread_main fd set1 set2 (Some tty) (read_of <$> reads) fds rx in
  if forallb short reads
  then exists wiped rx' new, run = Ret (rx', Some new, {[fd]} ∪ fds)
    /\ (set1 = true -> set2 = true -> raw_line B4800 tty new)
    /\ gps_static rx' = GpsState (padded next) (Z.of_nat (length next))
         (Some (if (wiped : bool) then None else Some (Position (double_of_float la) (double_of_float lo))))
    /\ (existsb id (all_marks reads) = false -> wiped = false)
  else run = Undef OobWrite.
Proof.
  intros He Hm Hn Hfd Hst Hss Hlen E Hb Hr Hl Hla Hlo. cbv zeta.
  destruct (reads_split true _ reads Hss Hlen E) as (es & [Hpre _] & Hloop & Hall).
  destruct (serial_line_configured B4800 set1 set2 tty) as (new & Hnew & Hraw & _).
  unfold gps_thread_main, c_str. rewrite Hn. run. zdec. rewrite He, Hm, Hst. cbn [orb].
  change (gps_set_blocking 1 set2 (gps_set_interface_attribs B4800 0 set1 (Some tty)).2)
    with (configure_port B4800 set1 set2 (Some tty)). rewrite Hnew, Hloop.
  assert (removelast ([] :: before ++ [rmc_line r; next]) = ([] :: before) ++ [rmc_line r]) as Hrem.
  { change [rmc_line r; next] with ([rmc_line r] ++ [next]). rewrite app_assoc, app_comm_cons. apply removelast_last. }
  assert (Forall (fun s => defined (process_sentence true s (Some None))) ([] :: before)) as Hb'.
  { by constructor; [apply empty_sentence_defined|]. }
  destruct (forallb short reads).
  - destruct (Hall eq_refl) as [Hes Hmarks]. rewrite Hrem in Hes.
    destruct (report_stays r ns ew vew es _ old la lo Hr Hl Hla Hlo Hb' Hes) as (wiped & Hrun & Hw).
    rewrite Hrun. run. exists wiped. do 2 eexists. split_and!; [done | exact Hraw | | by rewrite <- Hmarks].
    cbn [gps_static]. change [rmc_line r; next] with ([rmc_line r] ++ [next]).
    by rewrite app_assoc, app_comm_cons, last_last.
  - rewrite Hrem in Hpre. destruct (run_events_defined es old) as [o Ho]; [|rewrite Ho; by run].
    destruct Hpre as [rest Hpre].
    assert (Forall (fun s => defined (process_sentence true s (Some None))) (sentences_of es ++ rest)) as H.
    { rewrite <- Hpre. apply list.Forall_app. split; [done|]. apply Forall_singleton. eexists.
      by apply (rmc_line_processed r ns ew vew None la lo). }
    by apply list.Forall_app in H as [H _].
Qed.

(** ** Witness *)

Module SerialPluginsWitness.
Import GpsWitness.

Definition receiver : gps_receiver :=
  GpsReceiver (cstr "/dev/ttyUSB0" ++ repeat 0 52) true false Running
    (GpsState (repeat 0 GPS_SENTENCE_BUFF_LEN) 0 (Some None)).

Definition degrees (field : bytes * bytes) (sign : Z) : spec_float :=
  match minmea_tocoord (directed (fixed_value field.1 field.2) sign) with Ret x => x | Undef _ => S754_nan end.
Definition latitude_m : spec_float := Eval vm_compute in degrees (r_lat MinmeaWitness.melbourne) (-1).
Definition longitude_m : spec_float := Eval vm_compute in degrees (r_lon MinmeaWitness.melbourne) 1.

(** The stream of Gps.v in three pieces, on a line the kernel has just opened. *)
Lemma gps_position_published_witness :
  exists wiped rx' new, gps_thread_main 3 true true (Some SerialWitness.std_line) (read_of <$> pieces) ∅ receiver
      = Ret (rx', Some new, {[3]} ∪ ∅)
    /\ (true = true -> true = true -> raw_line B4800 SerialWitness.std_line new)
    /\ gps_static rx' = GpsState (padded gsv_line) (Z.of_nat (length gsv_line))
         (Some (if (wiped : bool) then None
                else Some (Position (double_of_float latitude_m) (double_of_float longitude_m))))
    /\ (existsb id (all_marks pieces) = false -> wiped = false).
Proof.
  refine (gps_position_published MinmeaWitness.melbourne (-1) 1 1 [gsv_line] gsv_line pieces receiver
    None latitude_m longitude_m 3 true true SerialWitness.std_line ∅ _ _ _ _ _ _ _ _ _ _ _ _ _);
    [ done | done | done | lia | done
    | repeat apply Forall_cons_2; [apply gsv_ok | apply melbourne_sentence_ok | apply gsv_ok | constructor]
    | apply (bool_decide_unpack _); vm_compute; exact I
    | vm_compute; reflexivity
    | apply Forall_cons_2; [eexists; vm_compute; reflexivity | constructor] | apply MinmeaWitness.melbourne_ok
    | apply Nat.leb_le; vm_compute; reflexivity | vm_compute; reflexivity | vm_compute; reflexivity ].
Defined.
End SerialPluginsWitness.
