(* ===== verification/Obdii.v ===== *)
(** * OBD-II commands and their responses (src/plugins/pip/obdii/ejv_obdii/OBDII.c, OBDII.h)

    The predefined commands, the acceptance test of a response and the decoders
    of the readings, with the command set that a vehicle reports.  Allocation
    succeeds.  A left shift into or out of the sign bit of an [int] is computed
    in two's complement, as the compilers the server is built with do. *)

From S2P Require Import Prelude CStd Floats.

(** ** OBDII.h *)

Inductive OBDIIResponseType : Set :=
| OBDIIResponseTypeBitfield
| OBDIIResponseTypeNumeric
| OBDIIResponseTypeString
| OBDIIResponseTypeOther.

#[export] Instance OBDIIResponseType_eq_dec : EqDecision OBDIIResponseType.
Proof. solve_decision. Defined.

Definition VARIABLE_RESPONSE_LENGTH : Z := 0.

(** The commands live in three static tables; a pointer to one is its place. *)
Inductive cmd_ptr : Set :=
| Mode1 (pid : nat)
| Mode3
| Mode9 (pid : nat).

#[export] Instance cmd_ptr_eq_dec : EqDecision cmd_ptr.
Proof. solve_decision. Defined.

(** The anonymous union of a response: [Zeroed] after the initialiser [{0}],
    then the member the decoder assigned.  [voltage] and [current] share their
    storage, and so do [shortTermFuelTrim] and [fuelAirEquivalenceRatio]. *)
Inductive reading : Type :=
| Zeroed
| NumericValue (x : float)
| BitfieldValue (w : Z)
| StringValue (mem : bytes)
| DTCs (troubleCodes : list bytes)
| OxygenSensorValues (voltage_or_current trim_or_ratio : float).

Record OBDIIResponse := Response { success : Z; command : option cmd_ptr; value : reading }.

Definition set_value (v : reading) (r : OBDIIResponse) : OBDIIResponse :=
  Response (success r) (command r) v.
Definition set_success (s : Z) (r : OBDIIResponse) : OBDIIResponse :=
  Response s (command r) (value r).

Definition OBDIIResponseDecoder : Type := OBDIIResponse -> bytes -> Z -> out OBDIIResponse.

Record OBDIICommand := Command {
  cmd_name : bytes;
  cmd_mode : Z;
  cmd_pid : Z;
  responseType : OBDIIResponseType;
  expectedResponseLength : Z;
  responseDecoder : option OBDIIResponseDecoder }.

(** ** Decoders *)

(** [p[i] << 8 | p[i + 1]]. *)
Definition word_at (p : bytes) (i : Z) : out Z :=
  hi ← load p i; lo ← load p (i + 1); Ret (Z.lor (Z.shiftl hi 8) lo).

Definition numeric (r : OBDIIResponse) (x : double) : out OBDIIResponse :=
  Ret (set_value (NumericValue (float_of_double x)) r).

Definition OBDIIDecodeBitfield : OBDIIResponseDecoder := fun r p _ =>
  b2 ← load p 2; b3 ← load p 3; b4 ← load p 4; b5 ← load p 5;
  Ret (set_value (BitfieldValue
    (u32 (Z.lor (Z.lor (Z.lor (Z.shiftl b2 24) (Z.shiftl b3 16)) (Z.shiftl b4 8)) b5))) r).

Definition OBDIIDecodeEngineRPMs : OBDIIResponseDecoder := fun r p _ =>
  a ← load p 2; b ← load p 3;
  numeric r (double_div (double_add (double_mul (double_of_Z 256) (double_of_Z a)) (double_of_Z b))
                        (double_of_Z 4)).

Definition OBDIIDecodeTimingAdvance : OBDIIResponseDecoder := fun r p _ =>
  a ← load p 2;
  numeric r (double_sub (double_div (double_of_Z a) (double_of_Z 2)) (double_of_Z 64)).

Definition OBDIIDecodeTemperature : OBDIIResponseDecoder := fun r p _ =>
  a ← load p 2; Ret (set_value (NumericValue (float_of_Z (a - 40))) r).

Definition OBDIIDecodePercentage : OBDIIResponseDecoder := fun r p _ =>
  a ← load p 2; numeric r (double_div (double_of_Z a) (double_lit 255 100)).

Definition OBDIIDecodeFuelTrim : OBDIIResponseDecoder := fun r p _ =>
  a ← load p 2;
  numeric r (double_sub (double_div (double_of_Z a) (double_lit 128 100)) (double_of_Z 100)).

Definition OBDIIDecodeFuelPressure : OBDIIResponseDecoder := fun r p _ =>
  a ← load p 2; Ret (set_value (NumericValue (float_of_Z (3 * a))) r).

Definition RawToAscii (raw : Z) : Z := if 9 <? raw then 65 + raw - 10 else 48 + raw.

(** One trouble code: the six bytes of the array [DTC].  The last branch, in
    which [DTC[0]] stays unassigned, needs a first byte above 255. *)
Definition decode_dtc (a b : Z) : out bytes :=
  let rawFirstCharacter := Z.shiftr a 6 in
  c ← (if rawFirstCharacter =? 0 then Ret 80
       else if rawFirstCharacter =? 1 then Ret 67
       else if rawFirstCharacter =? 2 then Ret 66
       else if rawFirstCharacter =? 3 then Ret 85
       else Undef Uninit);
  Ret [ c;
        48 + Z.shiftr (Z.land a 0x30) 4;
        RawToAscii (Z.land a 0x0F);
        RawToAscii (Z.shiftr b 4);
        RawToAscii (Z.land b 0x0F);
        0 ].

Definition bytesPerDTC : Z := 2.

Definition OBDIIDecodeDTCs : OBDIIResponseDecoder := fun r p len =>
  let numBytes := len - 2 in
  if (numBytes <? 0) || negb (Z.rem numBytes bytesPerDTC =? 0) then Ret (set_success 0 r)
  else
    codes ← mapM (fun i => a ← load p (2 + i * bytesPerDTC);
                           b ← load p (2 + i * bytesPerDTC + 1);
                           decode_dtc a b)
                 (seqZ 0 (Z.quot numBytes bytesPerDTC));
    Ret (set_value (DTCs codes) r).

(** [malloc(len + 1)], [strncpy] of [len] bytes and the terminator. *)
Definition OBDIIDecodeVIN : OBDIIResponseDecoder := fun r p len =>
  let len := len - 2 in
  src ← tail_from p 2;
  buf ← strncpy (repeat 0 (Z.to_nat (len + 1))) src (Z.to_nat len);
  buf ← store buf len 0;
  Ret (set_value (StringValue buf) r).

Definition OBDIIDecodeOxygenSensorValues : OBDIIResponseDecoder := fun r p _ =>
  a ← load p 2; b ← load p 3;
  Ret (set_value (OxygenSensorValues
    (float_of_double (double_div (double_of_Z a) (double_of_Z 200)))
    (float_of_double (double_sub (double_mul (double_div (double_of_Z 100) (double_of_Z 128))
                                             (double_of_Z b)) (double_of_Z 100)))) r).

Definition OBDIIDecodeThrottlePosition : OBDIIResponseDecoder := fun r p _ =>
  a ← load p 2;
  numeric r (double_mul (double_div (double_of_Z 100) (double_of_Z 255)) (double_of_Z a)).

Definition OBDIIDecodeMAFAirFlowRate : OBDIIResponseDecoder := fun r p _ =>
  w ← word_at p 2; numeric r (double_div (double_of_Z w) (double_of_Z 100)).

Definition OBDIIDecodeSingleByteBitfield : OBDIIResponseDecoder := fun r p _ =>
  a ← load p 2; Ret (set_value (BitfieldValue a) r).

Definition OBDIIDecodeTwoByteBitfield : OBDIIResponseDecoder := fun r p _ =>
  w ← word_at p 2; Ret (set_value (BitfieldValue w) r).

Definition OBDIIDecodeUInt16 : OBDIIResponseDecoder := fun r p _ =>
  w ← word_at p 2; Ret (set_value (NumericValue (float_of_Z w)) r).

Definition OBDIIDecodeFuelRailPressure : OBDIIResponseDecoder := fun r p _ =>
  w ← word_at p 2; numeric r (double_mul (double_lit 79 1000) (double_of_Z w)).

Definition OBDIIDecodeFuelRailGaugePressure : OBDIIResponseDecoder := fun r p _ =>
  w ← word_at p 2; Ret (set_value (NumericValue (float_of_Z (10 * w))) r).

(** [2.0 / 65536.0 * word]. *)
Definition ratio (w : Z) : float :=
  float_of_double (double_mul (double_div (double_of_Z 2) (double_of_Z 65536)) (double_of_Z w)).

Definition OBDIIDecodeOxygenSensorValues2 : OBDIIResponseDecoder := fun r p _ =>
  v ← word_at p 4; w ← word_at p 2;
  Ret (set_value (OxygenSensorValues
    (float_of_double (double_mul (double_div (double_of_Z 8) (double_of_Z 65536)) (double_of_Z v)))
    (ratio w)) r).

Definition OBDIIDecodeUInt8 : OBDIIResponseDecoder := fun r p _ =>
  a ← load p 2; Ret (set_value (NumericValue (float_of_Z a)) r).

Definition OBDIIDecodeEGRError : OBDIIResponseDecoder := fun r p _ =>
  a ← load p 2;
  numeric r (double_sub (double_mul (double_div (double_of_Z 100) (double_of_Z 128)) (double_of_Z a))
                        (double_of_Z 100)).

(** The high byte is read as a [signed char]. *)
Definition s8 (z : Z) : Z := (z + 128) mod 256 - 128.

Definition OBDIIDecodeVaporPressure : OBDIIResponseDecoder := fun r p _ =>
  a ← load p 2; b ← load p 3;
  numeric r (double_div (double_of_Z (Z.lor (Z.shiftl (s8 a) 8) b)) (double_of_Z 4)).

Definition OBDIIDecodeOxygenSensorValues3 : OBDIIResponseDecoder := fun r p _ =>
  w ← word_at p 2; c ← word_at p 4;
  Ret (set_value (OxygenSensorValues
    (float_of_double (double_sub (double_div (double_of_Z c) (double_of_Z 256)) (double_of_Z 128)))
    (ratio w)) r).

Definition OBDIIDecodeCatalystTemperature : OBDIIResponseDecoder := fun r p _ =>
  w ← word_at p 2;
  numeric r (double_sub (double_div (double_of_Z w) (double_of_Z 10)) (double_of_Z 40)).

Definition OBDIIDecodeControlModuleVoltage : OBDIIResponseDecoder := fun r p _ =>
  w ← word_at p 2; numeric r (double_div (double_of_Z w) (double_of_Z 1000)).

Definition OBDIIDecodeAbsoluteLoadValue : OBDIIResponseDecoder := fun r p _ =>
  w ← word_at p 2;
  numeric r (double_mul (double_div (double_of_Z 100) (double_of_Z 255)) (double_of_Z w)).

Definition OBDIIDecodeFuelAirEquivalence : OBDIIResponseDecoder := fun r p _ =>
  w ← word_at p 2; Ret (set_value (NumericValue (ratio w)) r).

Definition OBDIIDecodeNop : OBDIIResponseDecoder := fun r _ _ => Ret r.

(** ** The command tables *)

Definition cmd (n : string) (mode pid : Z) (t : OBDIIResponseType) (len : Z)
    (d : OBDIIResponseDecoder) : OBDIICommand :=
  Command (cstr n) mode pid t len (Some d).
Arguments cmd n%_string.

Definition OBDIIMode1Commands : list OBDIICommand :=
  [
    cmd "Supported PIDs in the range 01 - 20" 0x01 0x00 OBDIIResponseTypeBitfield 6 OBDIIDecodeBitfield;
    cmd "Monitor status since DTCs cleared" 0x01 0x01 OBDIIResponseTypeBitfield 6 OBDIIDecodeBitfield;
    cmd "Freeze DTC" 0x01 0x02 OBDIIResponseTypeOther 4 OBDIIDecodeNop;
    cmd "Fuel system status" 0x01 0x03 OBDIIResponseTypeBitfield 4 OBDIIDecodeTwoByteBitfield;
    cmd "Calculated engine load" 0x01 0x04 OBDIIResponseTypeNumeric 3 OBDIIDecodePercentage;
    cmd "Engine coolant temperature" 0x01 0x05 OBDIIResponseTypeNumeric 3 OBDIIDecodeTemperature;
    cmd "Short term fuel trim—Bank 1" 0x01 0x06 OBDIIResponseTypeNumeric 3 OBDIIDecodeFuelTrim;
    cmd "Long term fuel trim—Bank 1" 0x01 0x07 OBDIIResponseTypeNumeric 3 OBDIIDecodeFuelTrim;
    cmd "Short term fuel trim—Bank 2" 0x01 0x08 OBDIIResponseTypeNumeric 3 OBDIIDecodeFuelTrim;
    cmd "Long term fuel trim—Bank 2" 0x01 0x09 OBDIIResponseTypeNumeric 3 OBDIIDecodeFuelTrim;
    cmd "Fuel pressure (gauge pressure)" 0x01 0x0A OBDIIResponseTypeNumeric 3 OBDIIDecodeFuelPressure;
    cmd "Intake manifold absolute pressure" 0x01 0x0B OBDIIResponseTypeNumeric 3 OBDIIDecodeUInt8;
    cmd "Engine RPM" 0x01 0x0C OBDIIResponseTypeNumeric 4 OBDIIDecodeEngineRPMs;
    cmd "Vehicle speed" 0x01 0x0D OBDIIResponseTypeNumeric 3 OBDIIDecodeUInt8;
    cmd "Timing advance" 0x01 0x0E OBDIIResponseTypeNumeric 3 OBDIIDecodeTimingAdvance;
    cmd "Intake air temperature" 0x01 0x0F OBDIIResponseTypeNumeric 3 OBDIIDecodeTemperature;
    cmd "MAF air flow rate" 0x01 0x10 OBDIIResponseTypeNumeric 4 OBDIIDecodeMAFAirFlowRate;
    cmd "Throttle position" 0x01 0x11 OBDIIResponseTypeNumeric 3 OBDIIDecodeThrottlePosition;
    cmd "Commanded secondary air status" 0x01 0x12 OBDIIResponseTypeBitfield 3 OBDIIDecodeSingleByteBitfield;
    cmd "Oxygen sensors present" 0x01 0x13 OBDIIResponseTypeBitfield 3 OBDIIDecodeSingleByteBitfield;
    cmd "Oxygen sensor 1" 0x01 0x14 OBDIIResponseTypeOther 4 OBDIIDecodeOxygenSensorValues;
    cmd "Oxygen sensor 2" 0x01 0x15 OBDIIResponseTypeOther 4 OBDIIDecodeOxygenSensorValues;
    cmd "Oxygen sensor 3" 0x01 0x16 OBDIIResponseTypeOther 4 OBDIIDecodeOxygenSensorValues;
    cmd "Oxygen sensor 4" 0x01 0x17 OBDIIResponseTypeOther 4 OBDIIDecodeOxygenSensorValues;
    cmd "Oxygen sensor 5" 0x01 0x18 OBDIIResponseTypeOther 4 OBDIIDecodeOxygenSensorValues;
    cmd "Oxygen sensor 6" 0x01 0x19 OBDIIResponseTypeOther 4 OBDIIDecodeOxygenSensorValues;
    cmd "Oxygen sensor 7" 0x01 0x1A OBDIIResponseTypeOther 4 OBDIIDecodeOxygenSensorValues;
    cmd "Oxygen sensor 8" 0x01 0x1B OBDIIResponseTypeOther 4 OBDIIDecodeOxygenSensorValues;
    cmd "OBD standards this vehicle conforms to" 0x01 0x1C OBDIIResponseTypeBitfield 3 OBDIIDecodeSingleByteBitfield;
    cmd "Oxygen sensors present in 4 banks" 0x01 0x1D OBDIIResponseTypeBitfield 3 OBDIIDecodeSingleByteBitfield;
    cmd "Auxiliary input status" 0x01 0x1E OBDIIResponseTypeBitfield 3 OBDIIDecodeSingleByteBitfield;
    cmd "Run time since engine start" 0x01 0x1F OBDIIResponseTypeNumeric 4 OBDIIDecodeUInt16;
    cmd "Supported PIDs in the range 21 - 40" 0x01 0x20 OBDIIResponseTypeBitfield 6 OBDIIDecodeBitfield;
    cmd "Distance traveled with malfunction indicator lamp on" 0x01 0x21 OBDIIResponseTypeNumeric 4 OBDIIDecodeUInt16;
    cmd "Fuel rail pressure (relative to mainfold vacuum" 0x01 0x22 OBDIIResponseTypeNumeric 4 OBDIIDecodeFuelRailPressure;
    cmd "Fuel rail gauge pressure (diesel, or gasoline direct injection" 0x01 0x23 OBDIIResponseTypeNumeric 4 OBDIIDecodeFuelRailGaugePressure;
    cmd "Oxygen sensor 1" 0x01 0x24 OBDIIResponseTypeOther 6 OBDIIDecodeOxygenSensorValues2;
    cmd "Oxygen sensor 2" 0x01 0x25 OBDIIResponseTypeOther 6 OBDIIDecodeOxygenSensorValues2;
    cmd "Oxygen sensor 3" 0x01 0x26 OBDIIResponseTypeOther 6 OBDIIDecodeOxygenSensorValues2;
    cmd "Oxygen sensor 4" 0x01 0x27 OBDIIResponseTypeOther 6 OBDIIDecodeOxygenSensorValues2;
    cmd "Oxygen sensor 5" 0x01 0x28 OBDIIResponseTypeOther 6 OBDIIDecodeOxygenSensorValues2;
    cmd "Oxygen sensor 6" 0x01 0x29 OBDIIResponseTypeOther 6 OBDIIDecodeOxygenSensorValues2;
    cmd "Oxygen sensor 7" 0x01 0x2A OBDIIResponseTypeOther 6 OBDIIDecodeOxygenSensorValues2;
    cmd "Oxygen sensor 8" 0x01 0x2B OBDIIResponseTypeOther 6 OBDIIDecodeOxygenSensorValues2;
    cmd "Commanded EGR" 0x01 0x2C OBDIIResponseTypeNumeric 3 OBDIIDecodePercentage;
    cmd "EGR error" 0x01 0x2D OBDIIResponseTypeNumeric 3 OBDIIDecodeEGRError;
    cmd "Commanded evaporative purge" 0x01 0x2E OBDIIResponseTypeNumeric 3 OBDIIDecodePercentage;
    cmd "Fuel tank level input" 0x01 0x2F OBDIIResponseTypeNumeric 3 OBDIIDecodePercentage;
    cmd "Warm-ups since codes cleared" 0x01 0x30 OBDIIResponseTypeNumeric 3 OBDIIDecodeUInt8;
    cmd "Distance traveled since codes cleared" 0x01 0x31 OBDIIResponseTypeNumeric 4 OBDIIDecodeUInt16;
    cmd "Evaporative system vapor pressure" 0x01 0x32 OBDIIResponseTypeNumeric 4 OBDIIDecodeVaporPressure;
    cmd "Absolute barometric pressure" 0x01 0x33 OBDIIResponseTypeNumeric 3 OBDIIDecodeUInt8;
    cmd "Oxygen sensor 1" 0x01 0x34 OBDIIResponseTypeOther 6 OBDIIDecodeOxygenSensorValues3;
    cmd "Oxygen sensor 2" 0x01 0x35 OBDIIResponseTypeOther 6 OBDIIDecodeOxygenSensorValues3;
    cmd "Oxygen sensor 3" 0x01 0x36 OBDIIResponseTypeOther 6 OBDIIDecodeOxygenSensorValues3;
    cmd "Oxygen sensor 4" 0x01 0x37 OBDIIResponseTypeOther 6 OBDIIDecodeOxygenSensorValues3;
    cmd "Oxygen sensor 5" 0x01 0x38 OBDIIResponseTypeOther 6 OBDIIDecodeOxygenSensorValues3;
    cmd "Oxygen sensor 6" 0x01 0x39 OBDIIResponseTypeOther 6 OBDIIDecodeOxygenSensorValues3;
    cmd "Oxygen sensor 7" 0x01 0x3A OBDIIResponseTypeOther 6 OBDIIDecodeOxygenSensorValues3;
    cmd "Oxygen sensor 8" 0x01 0x3B OBDIIResponseTypeOther 6 OBDIIDecodeOxygenSensorValues3;
    cmd "Catalyst temperature, bank 1, sensor 1" 0x01 0x3C OBDIIResponseTypeNumeric 4 OBDIIDecodeCatalystTemperature;
    cmd "Catalyst temperature, bank 2, sensor 1" 0x01 0x3D OBDIIResponseTypeNumeric 4 OBDIIDecodeCatalystTemperature;
    cmd "Catalyst temperature, bank 1, sensor 2" 0x01 0x3E OBDIIResponseTypeNumeric 4 OBDIIDecodeCatalystTemperature;
    cmd "Catalyst temperature, bank 2, sensor 2" 0x01 0x3F OBDIIResponseTypeNumeric 4 OBDIIDecodeCatalystTemperature;
    cmd "Supported PIDs in the range 41 - 60" 0x01 0x40 OBDIIResponseTypeBitfield 6 OBDIIDecodeBitfield;
    cmd "Monitor status this drive cycle" 0x01 0x41 OBDIIResponseTypeBitfield 6 OBDIIDecodeBitfield;
    cmd "Control module voltage" 0x01 0x42 OBDIIResponseTypeNumeric 4 OBDIIDecodeControlModuleVoltage;
    cmd "Absolute load value" 0x01 0x43 OBDIIResponseTypeNumeric 4 OBDIIDecodeAbsoluteLoadValue;
    cmd "Fuel–Air commanded equivalence ratio" 0x01 0x44 OBDIIResponseTypeNumeric 4 OBDIIDecodeFuelAirEquivalence;
    cmd "Relative throttle position" 0x01 0x45 OBDIIResponseTypeNumeric 3 OBDIIDecodePercentage;
    cmd "Ambient air temperature" 0x01 0x46 OBDIIResponseTypeNumeric 3 OBDIIDecodeTemperature;
    cmd "Absolute throttle position B" 0x01 0x47 OBDIIResponseTypeNumeric 3 OBDIIDecodePercentage;
    cmd "Absolute throttle position C" 0x01 0x48 OBDIIResponseTypeNumeric 3 OBDIIDecodePercentage;
    cmd "Accelerator pedal position D" 0x01 0x49 OBDIIResponseTypeNumeric 3 OBDIIDecodePercentage;
    cmd "Accelerator pedal position E" 0x01 0x4A OBDIIResponseTypeNumeric 3 OBDIIDecodePercentage;
    cmd "Accelerator pedal position F" 0x01 0x4B OBDIIResponseTypeNumeric 3 OBDIIDecodePercentage;
    cmd "Commanded throttle actuator" 0x01 0x4C OBDIIResponseTypeNumeric 3 OBDIIDecodePercentage;
    cmd "Time run with MIL on" 0x01 0x4D OBDIIResponseTypeNumeric 4 OBDIIDecodeUInt16;
    cmd "Time since trouble codes cleared" 0x01 0x4E OBDIIResponseTypeNumeric 4 OBDIIDecodeUInt16
  ].

(** The initialiser [{0x03}] leaves the second byte zero. *)
Definition OBDIIMode3Command : OBDIICommand :=
  cmd "Get DTCs" 0x03 0x00 OBDIIResponseTypeOther VARIABLE_RESPONSE_LENGTH OBDIIDecodeDTCs.

Definition vin_command : OBDIICommand :=
  cmd "Get VIN" 0x09 0x02 OBDIIResponseTypeString VARIABLE_RESPONSE_LENGTH OBDIIDecodeVIN.

Definition OBDIIMode9Commands : list OBDIICommand :=
  [ cmd "Supported PIDs" 0x09 0x00 OBDIIResponseTypeBitfield 6 OBDIIDecodeBitfield;
    Command (cstr "VIN message count") 0x09 0x01 OBDIIResponseTypeNumeric 3 None;
    vin_command ].

Definition command_at (c : cmd_ptr) : out OBDIICommand :=
  match c with
  | Mode1 n => match OBDIIMode1Commands !! n with Some k => Ret k | None => Undef OobRead end
  | Mode3 => Ret OBDIIMode3Command
  | Mode9 n => match OBDIIMode9Commands !! n with Some k => Ret k | None => Undef OobRead end
  end.

(** The members of the structure as the header declares them, with the type of
    the response that the comment behind each one names. *)
Definition OBDIICommands_members : list (string * option OBDIIResponseType) :=
  [
    ("mode1SupportedPIDs_1_to_20"%string, Some OBDIIResponseTypeBitfield);
    ("monitorStatus"%string, Some OBDIIResponseTypeBitfield);
    ("freezeDTC"%string, Some OBDIIResponseTypeOther);
    ("fuelSystemStatus"%string, Some OBDIIResponseTypeBitfield);
    ("calculatedEngineLoad"%string, Some OBDIIResponseTypeNumeric);
    ("engineCoolantTemperature"%string, Some OBDIIResponseTypeNumeric);
    ("bank1ShortTermFuelTrim"%string, Some OBDIIResponseTypeNumeric);
    ("bank1LongTermFueldTrim"%string, Some OBDIIResponseTypeNumeric);
    ("bank2ShortTermFuelTrim"%string, Some OBDIIResponseTypeNumeric);
    ("bank2LongTermFuelTrim"%string, Some OBDIIResponseTypeNumeric);
    ("fuelPressure"%string, Some OBDIIResponseTypeNumeric);
    ("intakeManifoldAbsolutePressure"%string, Some OBDIIResponseTypeNumeric);
    ("engineRPMs"%string, Some OBDIIResponseTypeNumeric);
    ("vehicleSpeed"%string, Some OBDIIResponseTypeNumeric);
    ("timingAdvance"%string, Some OBDIIResponseTypeNumeric);
    ("intakeAirTemperature"%string, Some OBDIIResponseTypeNumeric);
    ("mafAirFlowRate"%string, Some OBDIIResponseTypeNumeric);
    ("throttlePosition"%string, Some OBDIIResponseTypeNumeric);
    ("commandedSecondaryAirStatus"%string, Some OBDIIResponseTypeBitfield);
    ("oxygenSensorsPresentIn2Banks"%string, Some OBDIIResponseTypeBitfield);
    ("oxygenSensor1_fuelTrim"%string, Some OBDIIResponseTypeOther);
    ("oxygenSensor2_fuelTrim"%string, Some OBDIIResponseTypeOther);
    ("oxygenSensor3_fuelTrim"%string, Some OBDIIResponseTypeOther);
    ("oxygenSensor4_fuelTrim"%string, Some OBDIIResponseTypeOther);
    ("oxygenSensor5_fuelTrim"%string, Some OBDIIResponseTypeOther);
    ("oxygenSensor6_fuelTrim"%string, Some OBDIIResponseTypeOther);
    ("oxygenSensor7_fuelTrim"%string, Some OBDIIResponseTypeOther);
    ("oxygenSensor8_fuelTrim"%string, Some OBDIIResponseTypeOther);
    ("conformingStandards"%string, Some OBDIIResponseTypeBitfield);
    ("oxygenSensorsPresentIn4Banks"%string, Some OBDIIResponseTypeBitfield);
    ("auxiliaryInputStatus"%string, Some OBDIIResponseTypeBitfield);
    ("runtimeSinceEngineStart"%string, Some OBDIIResponseTypeNumeric);
    ("mode1SupportedPIDs_21_to_40"%string, Some OBDIIResponseTypeBitfield);
    ("distanceTraveledWithMalfunctionIndicatorLampOn"%string, Some OBDIIResponseTypeNumeric);
    ("fuelRailPressure"%string, Some OBDIIResponseTypeNumeric);
    ("fuelRailGaugePressure"%string, Some OBDIIResponseTypeNumeric);
    ("oxygenSensor1_fuelAirRatioVoltage"%string, Some OBDIIResponseTypeOther);
    ("oxygenSensor2_fuelAirRatioVoltage"%string, Some OBDIIResponseTypeOther);
    ("oxygenSensor3_fuelAirRatioVoltage"%string, Some OBDIIResponseTypeOther);
    ("oxygenSensor4_fuelAirRatioVoltage"%string, Some OBDIIResponseTypeOther);
    ("oxygenSensor5_fuelAirRatioVoltage"%string, Some OBDIIResponseTypeOther);
    ("oxygenSensor6_fuelAirRatioVoltage"%string, Some OBDIIResponseTypeOther);
    ("oxygenSensor7_fuelAirRatioVoltage"%string, Some OBDIIResponseTypeOther);
    ("oxygenSensor8_fuelAirRatioVoltage"%string, Some OBDIIResponseTypeOther);
    ("commandedEGR"%string, Some OBDIIResponseTypeNumeric);
    ("egrError"%string, Some OBDIIResponseTypeNumeric);
    ("commandedEvaporativePurge"%string, Some OBDIIResponseTypeNumeric);
    ("fuelTankLevelInput"%string, Some OBDIIResponseTypeNumeric);
    ("warmUpsSinceCodesCleared"%string, Some OBDIIResponseTypeNumeric);
    ("distanceTraveledSinceCodesCleared"%string, Some OBDIIResponseTypeNumeric);
    ("evaporativeSystemVaporPressure"%string, Some OBDIIResponseTypeNumeric);
    ("absoluteBarometricPressure"%string, Some OBDIIResponseTypeNumeric);
    ("oxygenSensor1_fuelAirRatioCurrent"%string, Some OBDIIResponseTypeOther);
    ("oxygenSensor2_fuelAirRatioCurrent"%string, Some OBDIIResponseTypeOther);
    ("oxygenSensor3_fuelAirRatioCurrent"%string, Some OBDIIResponseTypeOther);
    ("oxygenSensor4_fuelAirRatioCurrent"%string, Some OBDIIResponseTypeOther);
    ("oxygenSensor5_fuelAirRatioCurrent"%string, Some OBDIIResponseTypeOther);
    ("oxygenSensor6_fuelAirRatioCurrent"%string, Some OBDIIResponseTypeOther);
    ("oxygenSensor7_fuelAirRatioCurrent"%string, Some OBDIIResponseTypeOther);
    ("oxygenSensor8_fuelAirRatioCurrent"%string, Some OBDIIResponseTypeOther);
    ("catalystTemperatureBank1Sensor1"%string, Some OBDIIResponseTypeNumeric);
    ("catalystTemperatureBank2Sensor1"%string, Some OBDIIResponseTypeNumeric);
    ("catalystTemperatureBank1Sensor2"%string, Some OBDIIResponseTypeNumeric);
    ("catalystTemperatureBank2Sensor2"%string, Some OBDIIResponseTypeNumeric);
    ("mode1SupportedPIDs_41_to_60"%string, Some OBDIIResponseTypeBitfield);
    ("currentDriveCycleMonitorStatus"%string, Some OBDIIResponseTypeBitfield);
    ("controlModuleVoltage"%string, Some OBDIIResponseTypeNumeric);
    ("absoluteLoadValue"%string, Some OBDIIResponseTypeNumeric);
    ("fuelAirCommandEquivalenceRatio"%string, Some OBDIIResponseTypeNumeric);
    ("relativeThrottlePosition"%string, Some OBDIIResponseTypeNumeric);
    ("ambientAirTemperature"%string, Some OBDIIResponseTypeNumeric);
    ("absoluteThrottlePositionB"%string, Some OBDIIResponseTypeNumeric);
    ("absoluteThrottlePositionC"%string, Some OBDIIResponseTypeNumeric);
    ("acceleratorPedalPositionD"%string, Some OBDIIResponseTypeNumeric);
    ("acceleratorPedalPositionE"%string, Some OBDIIResponseTypeNumeric);
    ("acceleratorPedalPositionF"%string, Some OBDIIResponseTypeNumeric);
    ("commandedThrottleActuator"%string, Some OBDIIResponseTypeNumeric);
    ("timeRunWithMalfunctionIndicatorLampOn"%string, Some OBDIIResponseTypeNumeric);
    ("timeSinceTroubleCodesCleared"%string, Some OBDIIResponseTypeNumeric);
    ("DTCs"%string, Some OBDIIResponseTypeOther);
    ("mode9SupportedPIDs"%string, Some OBDIIResponseTypeBitfield);
    ("vinMessageCount"%string, Some OBDIIResponseTypeNumeric);
    ("VIN"%string, Some OBDIIResponseTypeString);
    ("ECUName"%string, None) ].

(** The members of [OBDIICommands] in order; the last one, [ECUName], has no
    initialiser. *)
Definition OBDIICommands : list (option cmd_ptr) :=
  map (Some ∘ Mode1) (seq 0 79) ++ [Some Mode3] ++ map (Some ∘ Mode9) (seq 0 3) ++ [None].

(** A member by its name. *)
Fixpoint member_at (nm : string) (l : list (string * option OBDIIResponseType)) (v : list (option cmd_ptr))
    : option cmd_ptr :=
  match l, v with
  | (n, _) :: l, p :: v => if bool_decide (n = nm) then p else member_at nm l v
  | _, _ => None
  end.
Definition OBDIICommands_member (nm : string) : option cmd_ptr := member_at nm OBDIICommands_members OBDIICommands.

(** ** Responses *)

Definition OBDIIResponseSuccessful (k : OBDIICommand) (payload : bytes) (len : Z) : out Z :=
  if len <=? 0 then Ret 0
  else if negb (expectedResponseLength k =? VARIABLE_RESPONSE_LENGTH)
          && negb (len =? expectedResponseLength k) then Ret 0
  else
    b0 ← load payload 0;
    if negb (b0 =? cmd_mode k + 0x40) then Ret 0
    else if (cmd_mode k =? 0x01) || (cmd_mode k =? 0x09) then
      if len <? 2 then Ret 0
      else b1 ← load payload 1; Ret (if b1 =? cmd_pid k then 1 else 0)
    else Ret 1.

Definition OBDIIDecodeResponseForCommand (c : option cmd_ptr) (payload : option bytes) (len : Z)
    : out OBDIIResponse :=
  let response := Response 0 c Zeroed in
  match c, payload with
  | Some c, Some payload =>
      if len <=? 0 then Ret response
      else
        k ← command_at c;
        s ← OBDIIResponseSuccessful k payload len;
        if s =? 0 then Ret response
        else d ← deref (responseDecoder k); d (set_success s response) payload len
  | _, _ => Ret response
  end.

(** The blocks that are released. *)
Definition OBDIIResponseFree (r : option OBDIIResponse) : out (list reading) :=
  match r with
  | None => Ret []
  | Some r =>
      let codes := match value r with
                   | DTCs _ => if bool_decide (command r = Some Mode3) then [value r] else []
                   | _ => []
                   end in
      c ← deref (command r);
      k ← command_at c;
      let text := match value r with
                  | StringValue _ =>
                      if bool_decide (responseType k = OBDIIResponseTypeString) then [value r] else []
                  | _ => []
                  end in
      Ret (codes ++ text)
  end.

(** ** Command sets *)

(** [_mode1SupportedPIDs] and [_mode9SupportedPIDs]; the list of commands is in
    the file of the queries. *)
Record supported_pids := SupportedPIDs {
  _1_to_20 : Z; _21_to_40 : Z; _41_to_60 : Z; _61_to_80 : Z; _mode9SupportedPIDs : Z }.

(** [!!(w & (1 << n))]. *)
Definition test_bit (w n : Z) : out Z :=
  if (0 <=? n) && (n <? 32)
  then Ret (if Z.land w (u32 (Z.shiftl 1 n)) =? 0 then 0 else 1)
  else Undef BadShift.

Definition OBDIICommandSetContainsCommand (s : option supported_pids) (c : option cmd_ptr) : out Z :=
  match s, c with
  | Some s, Some c =>
      k ← command_at c;
      let pid := cmd_pid k in
      if cmd_mode k =? 0x01 then
        if pid =? 0x00 then Ret 1
        else if pid <=? 0x20 then test_bit (_1_to_20 s) (0x20 - pid)
        else if pid <=? 0x40 then test_bit (_21_to_40 s) (0x40 - pid)
        else if pid <=? 0x60 then test_bit (_41_to_60 s) (0x60 - pid)
        else test_bit (_61_to_80 s) (0x80 - pid)
      else if cmd_mode k =? 0x09 then
        if pid =? 0x00 then Ret 1 else test_bit (_mode9SupportedPIDs s) (0x20 - pid)
      else Ret 0
  | _, _ => Ret 0
  end.

(** ** Every command decodes to a value of its type *)

Definition typed (t : OBDIIResponseType) (v : reading) : Prop :=
  match t, v with
  | OBDIIResponseTypeBitfield, BitfieldValue w => 0 <= w < 2 ^ 32
  | OBDIIResponseTypeNumeric, NumericValue _ => True
  | OBDIIResponseTypeString, StringValue mem => defined (c_str mem)
  | OBDIIResponseTypeOther, (Zeroed | OxygenSensorValues _ _) => True
  | _, _ => False
  end.

(** A decoder that reads within [n] bytes and produces a value of type [t]. *)
Definition reads_within (n : Z) (t : OBDIIResponseType) (d : OBDIIResponseDecoder) : Prop :=
  forall r p len, Forall is_byte p -> n <= Z.of_nat (length p) -> value r = Zeroed ->
  exists v, d r p len = Ret (set_value v r) /\ typed t v.

Ltac load_all :=
  repeat match goal with
  | |- context [load ?p ?i] =>
      let x := fresh "x" in let Hx := fresh "Hx" in
      destruct (load_defined p i) as [x Hx]; [lia|]; rewrite Hx; cbn [mbind out_bind]
  end.

(** A decoder that loads fixed bytes. *)
Ltac solve_reads :=
  intros r p len Hp Hn Hr;
  match goal with |- exists v, ?d r p len = _ /\ _ => unfold d end;
  unfold numeric, word_at; load_all; eexists; split; [reflexivity|]; cbn [typed];
  try exact I; try apply u32_range.

Lemma byte_bitfield_reads : reads_within 3 OBDIIResponseTypeBitfield OBDIIDecodeSingleByteBitfield.
Proof. solve_reads. pose proof (load_byte _ _ _ Hp Hx). unfold is_byte in *. lia. Qed.

Lemma word_bitfield_reads : reads_within 4 OBDIIResponseTypeBitfield OBDIIDecodeTwoByteBitfield.
Proof.
  solve_reads. pose proof (load_byte _ _ _ Hp Hx). pose proof (load_byte _ _ _ Hp Hx0).
  unfold is_byte in *. rewrite lor_shift_add; lia.
Qed.

Lemma nop_reads : reads_within 4 OBDIIResponseTypeOther OBDIIDecodeNop.
Proof. intros [s c v] p len _ _ Hr. cbn in Hr. subst v. by exists Zeroed. Qed.

Definition command_ok (k : OBDIICommand) : Prop :=
  0 < expectedResponseLength k
  /\ exists d, responseDecoder k = Some d
     /\ reads_within (expectedResponseLength k) (responseType k) d.

Create HintDb obdii.
#[export] Hint Resolve byte_bitfield_reads word_bitfield_reads nop_reads : obdii.

Ltac solve_command :=
  split; [cbn; lia | eexists; split; [reflexivity|]; cbn; first [solve [auto with obdii] | solve_reads]].

(** Every member points to a command whose responses have the documented type; the
    one without a comment is null.  The place of a mode 1 command is its
    identifier. *)
Definition documented (m : string * option OBDIIResponseType) (p : option cmd_ptr) : bool :=
  match p with
  | None => bool_decide (m.2 = None)
  | Some c =>
      match command_at c with
      | Ret k => bool_decide (m.2 = Some (responseType k))
                 && match c with
                    | Mode1 n => (cmd_mode k =? 1) && (cmd_pid k =? Z.of_nat n)
                    | Mode3 => cmd_mode k =? 3
                    | Mode9 n => (cmd_mode k =? 9) && (cmd_pid k =? Z.of_nat n)
                    end
      | Undef _ => false
      end
  end.

Lemma members_documented :
  length OBDIICommands_members = length OBDIICommands
  /\ forallb (fun e => documented e.1 e.2) (zip OBDIICommands_members OBDIICommands) = true.
Proof. split; vm_compute; reflexivity. Qed.

Example vehicle_speed_member : OBDIICommands_member "vehicleSpeed" = Some (Mode1 13).
Proof. vm_compute. reflexivity. Qed.

Lemma mode1_ok : Forall command_ok OBDIIMode1Commands.
Proof. unfold OBDIIMode1Commands. repeat apply Forall_cons_2; [solve_command ..|]. apply Forall_nil_2. Qed.

(** ** Trouble codes *)

(** A code: the system it belongs to and its four digits. *)
Record dtc := Dtc { system : Z; d1 : Z; d2 : Z; d3 : Z; d4 : Z }.

#[export] Instance dtc_eq_dec : EqDecision dtc.
Proof. solve_decision. Defined.

Definition dtc_ok (d : dtc) : Prop :=
  0 <= system d < 4 /\ 0 <= d1 d < 4 /\ 0 <= d2 d < 16 /\ 0 <= d3 d < 16 /\ 0 <= d4 d < 16.

Definition dtc_bytes (d : dtc) : bytes := [system d * 64 + d1 d * 16 + d2 d; d3 d * 16 + d4 d].

(** The text of a code, such as P0301, with its terminator. *)
Definition dtc_text (d : dtc) : bytes :=
  [ nth_char "PCBU" (system d); nth_char "0123" (d1 d);
    nth_char "0123456789ABCDEF" (d2 d); nth_char "0123456789ABCDEF" (d3 d);
    nth_char "0123456789ABCDEF" (d4 d); 0 ].

Definition dtc_of (a b : Z) : dtc := Dtc (a / 64) (a / 16 mod 4) (a mod 16) (b / 16) (b mod 16).

Lemma decode_dtc_of a b : is_byte a -> is_byte b -> decode_dtc a b = Ret (dtc_text (dtc_of a b)).
Proof.
  intros Ha Hb.
  assert (decode_dtc a 0 = Ret (dtc_text (dtc_of a 0))) as H0.
  { apply (byte_computes (fun a => decode_dtc a 0 = Ret (dtc_text (dtc_of a 0)))); [vm_compute; reflexivity | done]. }
  assert (RawToAscii (Z.shiftr b 4) = nth_char "0123456789ABCDEF" (b / 16)
          /\ RawToAscii (Z.land b 0x0F) = nth_char "0123456789ABCDEF" (b mod 16)) as [H1 H2].
  { apply (byte_computes (fun b =>
      RawToAscii (Z.shiftr b 4) = nth_char "0123456789ABCDEF" (b / 16)
      /\ RawToAscii (Z.land b 0x0F) = nth_char "0123456789ABCDEF" (b mod 16))); [vm_compute; reflexivity | done]. }
  unfold decode_dtc in *. rewrite H1, H2. apply bind_Ret in H0 as (c & Hc & [= -> E1 E2]).
  rewrite Hc. cbn [mbind out_bind]. unfold dtc_text, dtc_of. cbn [system d1 d2 d3 d4].
  by rewrite E1, E2.
Qed.

Lemma dtc_of_bytes d : dtc_ok d ->
  dtc_of (system d * 64 + d1 d * 16 + d2 d) (d3 d * 16 + d4 d) = d.
Proof.
  intros (H0 & H1 & H2 & H3 & H4). destruct d as [s e f g h]. cbn in *. unfold dtc_of.
  f_equal; Z.to_euclidean_division_equations; lia.
Qed.

Lemma dtc_of_ok a b : is_byte a -> is_byte b -> dtc_ok (dtc_of a b) /\ dtc_bytes (dtc_of a b) = [a; b].
Proof.
  unfold is_byte, dtc_ok, dtc_bytes, dtc_of. intros Ha Hb. cbn.
  split; [|do 2 f_equal]; Z.to_euclidean_division_equations; lia.
Qed.

Lemma dtc_text_inj d e : dtc_ok d -> dtc_ok e -> dtc_text d = dtc_text e -> d = e.
Proof.
  assert (forall s n m, NoDup (cstr s) -> 0 <= n < Z.of_nat (length (cstr s)) ->
            0 <= m < Z.of_nat (length (cstr s)) -> nth_char s n = nth_char s m -> n = m) as Hinj.
  { intros s n m Hs Hn Hm Heq. unfold nth_char in Heq.
    destruct (lookup_lt_is_Some_2 (cstr s) (Z.to_nat n)) as [x Hx]; [lia|].
    destruct (lookup_lt_is_Some_2 (cstr s) (Z.to_nat m)) as [y Hy]; [lia|].
    rewrite Hx, Hy in Heq. cbn in Heq. subst y. pose proof (NoDup_lookup _ _ _ _ Hs Hx Hy). lia. }
  assert (NoDup (cstr "PCBU") /\ NoDup (cstr "0123") /\ NoDup (cstr "0123456789ABCDEF")) as (N0 & N1 & N2)
    by (apply (bool_decide_unpack _); vm_compute; exact I).
  intros (A0 & A1 & A2 & A3 & A4) (B0 & B1 & B2 & B3 & B4) [= E0 E1 E2 E3 E4].
  destruct d as [s e1 e2 e3 e4], e as [s' f1 f2 f3 f4]. cbn [system d1 d2 d3 d4] in *.
  f_equal; [apply (Hinj "PCBU"%string) | apply (Hinj "0123"%string) | apply (Hinj "0123456789ABCDEF"%string) ..];
    done.
Qed.

(** Any even number of bytes is a list of codes. *)
Lemma bytes_are_dtcs n l :
  length l = (2 * n)%nat -> Forall is_byte l ->
  exists codes, l = flat_map dtc_bytes codes /\ Forall dtc_ok codes /\ length codes = n.
Proof.
  revert l; induction n as [|n IH]; intros l Hl Hb.
  - destruct l; [|done]. exists []. split; [done|]. by split; [apply Forall_nil_2|].
  - destruct l as [|a [|b l]]; cbn in Hl; [lia | lia |].
    apply list.Forall_cons in Hb as [Ha Hb]. apply list.Forall_cons in Hb as [Hb Hl'].
    destruct (IH l) as (codes & -> & Hok & Hlen); [lia | done|].
    destruct (dtc_of_ok a b Ha Hb) as [H1 H2]. exists (dtc_of a b :: codes).
    cbn [flat_map]. rewrite H2. split; [done|]. split; [by apply Forall_cons_2 | cbn; lia].
Qed.

Lemma dtc_bytes_are_bytes d : dtc_ok d -> Forall is_byte (dtc_bytes d).
Proof.
  intros (H0 & H1 & H2 & H3 & H4). unfold dtc_bytes, is_byte.
  repeat apply Forall_cons_2; [lia | lia | apply Forall_nil_2].
Qed.

Lemma length_dtc_bytes codes : length (flat_map dtc_bytes codes) = (2 * length codes)%nat.
Proof. induction codes as [|d codes IH]; cbn in *; lia. Qed.

Definition dtc_at (p : bytes) (i : Z) : out bytes :=
  a ← load p (2 + i * bytesPerDTC); b ← load p (2 + i * bytesPerDTC + 1); decode_dtc a b.

Lemma dtc_loop codes pre m :
  Z.of_nat (length pre) = 2 + 2 * m -> 0 <= m -> Forall dtc_ok codes ->
  mapM (dtc_at (pre ++ flat_map dtc_bytes codes)) (seqZ m (Z.of_nat (length codes)))
  = Ret (map dtc_text codes).
Proof.
  intros Hpre Hm Hok. apply mapM_Ret. revert pre m Hpre Hm.
  induction Hok as [|d codes Hd Hok IH]; intros pre m Hpre Hm; [apply Forall2_nil|].
  cbn [length map flat_map]. rewrite Nat2Z.inj_succ, seqZ_cons, Z.pred_succ by lia.
  constructor.
  - unfold dtc_at, dtc_bytes, bytesPerDTC.
    rewrite (load_at pre _ (2 + m * 2) 0 (system d * 64 + d1 d * 16 + d2 d)) by (done || lia).
    rewrite (load_at pre _ (2 + m * 2 + 1) 1 (d3 d * 16 + d4 d)) by (done || lia). rewrite !ret_bind.
    pose proof (dtc_bytes_are_bytes d Hd) as Hb. unfold dtc_bytes in Hb.
    apply list.Forall_cons in Hb as [Ha Hb]. apply list.Forall_cons in Hb as [Hb _].
    by rewrite decode_dtc_of, dtc_of_bytes by done.
  - rewrite app_assoc. apply IH; [|lia]. rewrite length_app. cbn. lia.
Qed.

Lemma decode_dtcs r b0 b1 codes :
  Forall dtc_ok codes ->
  let p := b0 :: b1 :: flat_map dtc_bytes codes in
  OBDIIDecodeDTCs r p (Z.of_nat (length p)) = Ret (set_value (DTCs (map dtc_text codes)) r).
Proof.
  intros Hok p. unfold OBDIIDecodeDTCs, bytesPerDTC.
  replace (Z.of_nat (length p) - 2) with (Z.of_nat (length codes) * 2)
    by (unfold p; cbn [length]; rewrite length_dtc_bytes; lia).
  rewrite Z.rem_mul, Z.quot_mul by lia. zdec.
  assert (mapM (dtc_at p) (seqZ 0 (Z.of_nat (length codes))) = Ret (map dtc_text codes)) as Hloop
    by (apply (dtc_loop codes [b0; b1] 0); done).
  change (mapM _ ?l) with (mapM (dtc_at p) l). by rewrite Hloop.
Qed.

(** ** Responses are accepted exactly when they answer the command *)

(** The payload echoes the mode, for a parameter its identifier, and has the
    command's length. *)
Definition echoes (k : OBDIICommand) (p : bytes) : bool :=
  match p with
  | [] => false
  | b0 :: q =>
      ((expectedResponseLength k =? VARIABLE_RESPONSE_LENGTH)
       || (Z.of_nat (length p) =? expectedResponseLength k))
      && (b0 =? cmd_mode k + 0x40)
      && (negb ((cmd_mode k =? 0x01) || (cmd_mode k =? 0x09))
          || match q with [] => false | b1 :: _ => b1 =? cmd_pid k end)
  end.

(** A list of trouble codes holds whole codes. *)
Definition answers (c : cmd_ptr) (k : OBDIICommand) (p : bytes) : bool :=
  echoes k p && match c with
                | Mode3 => (2 <=? length p)%nat && Nat.even (length p)
                | _ => true
                end.

Lemma successful_echoes k p :
  OBDIIResponseSuccessful k p (Z.of_nat (length p)) = Ret (if echoes k p then 1 else 0).
Proof.
  destruct p as [|b0 p]; [done|]. unfold OBDIIResponseSuccessful, echoes.
  rewrite (proj2 (Z.leb_gt _ 0)) by (cbn; lia).
  destruct (expectedResponseLength k =? VARIABLE_RESPONSE_LENGTH), (Z.of_nat _ =? expectedResponseLength k);
    cbn [negb andb orb]; try done.
  all: rewrite (load_lookup (b0 :: p) 0 b0) by done; rewrite ret_bind;
    destruct (b0 =? cmd_mode k + 0x40); [cbn [negb andb] | done];
    destruct ((cmd_mode k =? 1) || (cmd_mode k =? 9)); cbn [negb orb]; [|done];
    destruct p as [|b1 p]; [done|];
    rewrite (proj2 (Z.ltb_ge _ 2)), (load_lookup (b0 :: b1 :: p) 1 b1) by (done || cbn; lia);
    rewrite ret_bind; by destruct (b1 =? cmd_pid k).
Qed.

Definition typed_for (c : cmd_ptr) (k : OBDIICommand) (v : reading) : Prop :=
  match c with
  | Mode3 => exists codes, v = DTCs (map dtc_text codes) /\ Forall dtc_ok codes
  | _ => typed (responseType k) v
  end.

(** The blocks a response owns. *)
Definition blocks (v : reading) : list reading :=
  match v with DTCs _ | StringValue _ => [v] | _ => [] end.

(** What a caller learns from the response to a payload. *)
Definition decoded (c : cmd_ptr) (k : OBDIICommand) (p : bytes) (r : OBDIIResponse) : Prop :=
  command r = Some c
  /\ (if answers c k p then success r = 1 /\ typed_for c k (value r)
      else success r = 0 /\ value r = Zeroed).

(** Decoding comes down to the decoder's result on an echo. *)
Lemma decode_by c k d p :
  command_at c = Ret k -> responseDecoder k = Some d ->
  OBDIIDecodeResponseForCommand (Some c) (Some p) (Z.of_nat (length p))
  = if echoes k p then d (Response 1 (Some c) Zeroed) p (Z.of_nat (length p))
    else Ret (Response 0 (Some c) Zeroed).
Proof.
  intros Hc Hd. unfold OBDIIDecodeResponseForCommand.
  destruct p as [|b p]; [done|]. rewrite (proj2 (Z.leb_gt _ 0)) by (cbn; lia).
  rewrite Hc, ret_bind, successful_echoes, ret_bind.
  destruct (echoes k (b :: p)); [|done]. cbn [Z.eqb]. by rewrite Hd.
Qed.

Lemma echo_length k p :
  echoes k p = true -> expectedResponseLength k <> VARIABLE_RESPONSE_LENGTH ->
  Z.of_nat (length p) = expectedResponseLength k.
Proof.
  unfold echoes. destruct p as [|b p]; [done|]. rewrite !andb_true_iff, orb_true_iff, !Z.eqb_eq. tauto.
Qed.

Lemma echo_short k p :
  echoes k p = true -> (cmd_mode k =? 0x01) || (cmd_mode k =? 0x09) = true -> (2 <= length p)%nat.
Proof.
  unfold echoes. intros He Hm. rewrite Hm in He. destruct p as [|b [|b' p]]; [done | | cbn; lia].
  by rewrite andb_false_r in He.
Qed.

(** Commands with a fixed length. *)
Lemma fixed_decoded c k p :
  c <> Mode3 -> command_at c = Ret k -> command_ok k -> Forall is_byte p ->
  exists r, OBDIIDecodeResponseForCommand (Some c) (Some p) (Z.of_nat (length p)) = Ret r
            /\ decoded c k p r.
Proof.
  intros Hne Hc (Hlen & d & Hd & Hreads) Hp. rewrite (decode_by c k d) by done.
  assert (answers c k p = echoes k p) as Ha
    by (unfold answers; destruct c; [apply andb_true_r | done | apply andb_true_r]).
  unfold decoded. rewrite Ha. destruct (echoes k p) eqn:He; [|by eexists].
  destruct (Hreads (Response 1 (Some c) Zeroed) p (Z.of_nat (length p)) Hp) as (v & -> & Hv); [|done|].
  { rewrite (echo_length k p He); unfold VARIABLE_RESPONSE_LENGTH; lia. }
  eexists. split; [done|]. split; [done|]. split; [done|]. by destruct c.
Qed.

Lemma codes_decoded p :
  Forall is_byte p ->
  exists r, OBDIIDecodeResponseForCommand (Some Mode3) (Some p) (Z.of_nat (length p)) = Ret r
            /\ decoded Mode3 OBDIIMode3Command p r.
Proof.
  intros Hp. rewrite (decode_by Mode3 OBDIIMode3Command OBDIIDecodeDTCs) by done.
  unfold decoded, answers. destruct (echoes OBDIIMode3Command p) eqn:He; cbn [andb]; [|by eexists].
  destruct ((2 <=? length p)%nat && Nat.even (length p)) eqn:E.
  - apply andb_true_iff in E as [H2 [n Hn]%Nat.even_spec]. apply Nat.leb_le in H2.
    destruct p as [|b0 [|b1 p]]; [done | cbn in *; lia |].
    apply list.Forall_cons in Hp as [H0 Hp]. apply list.Forall_cons in Hp as [H1 Hp].
    destruct (bytes_are_dtcs (n - 1) p) as (codes & -> & Hok & _); [cbn in Hn; lia | done|].
    rewrite decode_dtcs by done. eexists. split; [done|]. split; [done|]. split; [done|]. by exists codes.
  - exists (Response 0 (Some Mode3) Zeroed). split; [|done]. unfold OBDIIDecodeDTCs, bytesPerDTC.
    rewrite (proj2 (orb_true_iff _ _)); [done|]. apply andb_false_iff in E as [E|E].
    + apply Nat.leb_gt in E. left. apply Z.ltb_lt. lia.
    + destruct (Z.ltb_spec (Z.of_nat (length p) - 2) 0) as [Hl|Hl]; [by left | right].
      apply negb_true_iff, Z.eqb_neq. intros Hr. apply Z.rem_divide in Hr as [q Hq]; [|done].
      assert (Nat.even (length p) = true); [|congruence].
      apply Nat.even_spec. exists (Z.to_nat (q + 1)). lia.
Qed.

(** The number is the text behind the header, up to a NUL. *)
Lemma decode_vin r b0 b1 s :
  let p := b0 :: b1 :: s in
  let n := before_nul s in
  OBDIIDecodeVIN r p (Z.of_nat (length p))
  = Ret (set_value (StringValue (n ++ repeat 0 (S (length s - length n)))) r).
Proof.
  intros p n. unfold OBDIIDecodeVIN.
  replace (Z.of_nat (length p) - 2) with (Z.of_nat (length s)) by (unfold p; cbn [length]; lia).
  change p with ([b0; b1] ++ s) at 1. rewrite tail_from_app, ret_bind by done. unfold strncpy.
  rewrite Nat2Z.id, firstn_all, Nat.ltb_irrefl, andb_false_r.
  pose proof (length_before_nul s) as Hle. fold n in Hle |- *.
  rewrite blit_0 by (rewrite length_app, !repeat_length; lia).
  rewrite ret_bind, drop_repeat, (store_at _ _ _ 0); [|rewrite length_app, !repeat_length; lia ..].
  rewrite ret_bind. do 3 f_equal. rewrite <- app_assoc. f_equal.
  rewrite length_app, !repeat_length.
  replace (Z.to_nat (Z.of_nat (length s) + 1) - _)%nat with 1%nat by lia.
  cbn. by rewrite <- repeat_cons.
Qed.

Lemma vin_decoded p :
  exists r, OBDIIDecodeResponseForCommand (Some (Mode9 2)) (Some p) (Z.of_nat (length p)) = Ret r
            /\ decoded (Mode9 2) vin_command p r.
Proof.
  rewrite (decode_by (Mode9 2) vin_command OBDIIDecodeVIN) by done.
  unfold decoded, answers. rewrite andb_true_r. destruct (echoes vin_command p) eqn:He; [|by eexists].
  pose proof (echo_short _ p He eq_refl) as H2. destruct p as [|b0 [|b1 s]]; [cbn in H2; lia ..|].
  rewrite decode_vin. eexists. split; [done|]. split; [done|]. split; [done|].
  eexists. apply c_str_app, before_nul_no_nul.
Qed.

Lemma mode1_command n k : command_at (Mode1 n) = Ret k -> command_ok k.
Proof.
  cbn [command_at]. destruct (OBDIIMode1Commands !! n) as [k'|] eqn:E; [|done]. intros [= <-].
  exact (proj1 (list.Forall_forall _ _) mode1_ok k' (list_elem_of_lookup_2 _ _ _ E)).
Qed.

Lemma mode9_pids_command k : command_at (Mode9 0) = Ret k -> command_ok k.
Proof. intros [= <-]. solve_command. Qed.

Lemma decoded_blocks c k p r :
  command_at c = Ret k -> decoded c k p r -> OBDIIResponseFree (Some r) = Ret (blocks (value r)).
Proof.
  intros Hc [Hr Hv]. unfold OBDIIResponseFree. rewrite Hr. cbn [deref]. rewrite ret_bind, Hc, ret_bind.
  destruct (answers c k p); destruct Hv as [_ Hv]; [|by rewrite Hv].
  destruct c as [n| |n]; cbn [typed_for] in Hv.
  2: { destruct Hv as (codes & -> & _). by rewrite bool_decide_true. }
  all: destruct (responseType k) eqn:Ht, (value r); try done.
  all: by rewrite bool_decide_true.
Qed.

(** Whatever bytes a vehicle sends, decoding the response to any command
    whose decoder exists stays inside the payload; the response names the
    command, succeeds exactly when the payload echoes mode and parameter with
    the command's length (whole codes for the trouble codes), then holds a value
    of the command's type, and [OBDIIResponseFree] releases exactly its blocks. *)
Lemma response_typed c k p :
  command_at c = Ret k -> responseDecoder k <> None -> Forall is_byte p ->
  exists r, OBDIIDecodeResponseForCommand (Some c) (Some p) (Z.of_nat (length p)) = Ret r
            /\ decoded c k p r /\ OBDIIResponseFree (Some r) = Ret (blocks (value r)).
Proof.
  intros Hc Hd Hp.
  assert (exists r, OBDIIDecodeResponseForCommand (Some c) (Some p) (Z.of_nat (length p)) = Ret r
                    /\ decoded c k p r) as (r & Hr & Hdec).
  { destruct c as [n | | n].
    - apply fixed_decoded; [done ..| | done]. by apply (mode1_command n).
    - injection Hc as <-. by apply codes_decoded.
    - destruct n as [|[|[|n]]].
      + apply fixed_decoded; [done ..| by apply mode9_pids_command | done].
      + by injection Hc as <-.
      + injection Hc as <-. apply vin_decoded.
      + done. }
  exists r. split; [done|]. split; [done|]. by apply (decoded_blocks c k p).
Qed.

(** C14: A list of trouble codes in a response to the third mode comes out as
    their texts, letter of the system and four digits each, and the texts
    determine the codes. *)
Theorem trouble_codes_roundtrip b1 codes :
  Forall dtc_ok codes ->
  let p := 0x43 :: b1 :: flat_map dtc_bytes codes in
  OBDIIDecodeResponseForCommand (Some Mode3) (Some p) (Z.of_nat (length p))
  = Ret (Response 1 (Some Mode3) (DTCs (map dtc_text codes)))
  /\ forall codes', Forall dtc_ok codes' -> map dtc_text codes' = map dtc_text codes -> codes' = codes.
Proof.
  intros Hok p. split.
  - rewrite (decode_by Mode3 OBDIIMode3Command OBDIIDecodeDTCs) by done.
    change (echoes OBDIIMode3Command p) with true. exact (decode_dtcs (Response 1 (Some Mode3) Zeroed) 0x43 b1 codes Hok).
  - induction Hok as [|d codes Hd _ IH]; intros [|d' codes'] Hok' Heq; try done.
    apply list.Forall_cons in Hok' as [Hd' Hok']. injection Heq as E0 E1 E2 E3 E4 Heq.
    f_equal; [|by apply IH]. apply dtc_text_inj; [done ..|]. unfold dtc_text. congruence.
Qed.

(** ** Numbers *)

(** The float nearest to [n / 2 ^ k], for the [n] below the number itself. *)
Definition fixed_point (n k : Z) : float := binary_normalize 24 128 n (- k) false.

(** The decoder reads [x] off the payload. *)
Definition reads_number (d : OBDIIResponseDecoder) (p : bytes) (x : float) : Prop :=
  forall r, d r p (Z.of_nat (length p)) = Ret (set_value (NumericValue x) r).

Lemma percent_rounded a : is_byte a ->
  float_of_double (double_div (double_of_Z a) (double_lit 255 100))
  = float_div (float_of_Z (100 * a)) (float_of_Z 255)
  /\ float_of_double (double_mul (double_div (double_of_Z 100) (double_of_Z 255)) (double_of_Z a))
     = float_div (float_of_Z (100 * a)) (float_of_Z 255).
Proof.
  apply (byte_computes (fun a => _ (double_div (double_of_Z a) _) = float_div (float_of_Z (100 * a)) _
                                 /\ _ (double_mul _ (double_of_Z a)) = float_div (float_of_Z (100 * a)) _)).
  vm_compute. reflexivity.
Qed.

Lemma trim_exact a : is_byte a ->
  float_of_double (double_sub (double_div (double_of_Z a) (double_lit 128 100)) (double_of_Z 100))
  = fixed_point (100 * (a - 128)) 7
  /\ float_of_double (double_sub (double_mul (double_div (double_of_Z 100) (double_of_Z 128))
                                             (double_of_Z a)) (double_of_Z 100))
     = fixed_point (100 * (a - 128)) 7.
Proof.
  apply (byte_computes (fun a => _ (double_sub (_ (double_of_Z a) _) _) = fixed_point (100 * (a - 128)) 7
                                 /\ _ (double_sub (_ (double_of_Z a)) _) = fixed_point (100 * (a - 128)) 7)).
  vm_compute. reflexivity.
Qed.

Lemma advance_exact a : is_byte a ->
  float_of_double (double_sub (double_div (double_of_Z a) (double_of_Z 2)) (double_of_Z 64))
  = fixed_point (a - 128) 1.
Proof.
  apply (byte_computes (fun a => _ (double_sub (_ (double_of_Z a) _) _) = fixed_point (a - 128) 1)).
  vm_compute. reflexivity.
Qed.

(** The readings of one byte are what their formulas say although they are
    computed with constants that no double holds: both percentages are the float
    nearest to 100 a / 255, the fuel trim by 1.28, the EGR error by 100 / 128 and
    the trim of an oxygen sensor are all exactly 100 (a - 128) / 128, and the
    timing advance is exactly (a - 128) / 2. *)
Lemma byte_readings_rounded b0 b1 a :
  is_byte a ->
  let percent := float_div (float_of_Z (100 * a)) (float_of_Z 255) in
  let trim := fixed_point (100 * (a - 128)) 7 in
  reads_number OBDIIDecodePercentage [b0; b1; a] percent
  /\ reads_number OBDIIDecodeThrottlePosition [b0; b1; a] percent
  /\ reads_number OBDIIDecodeFuelTrim [b0; b1; a] trim
  /\ reads_number OBDIIDecodeEGRError [b0; b1; a] trim
  /\ reads_number OBDIIDecodeTimingAdvance [b0; b1; a] (fixed_point (a - 128) 1)
  /\ forall v r, OBDIIDecodeOxygenSensorValues r [b0; b1; v; a] 4
       = Ret (set_value (OxygenSensorValues
                (float_of_double (double_div (double_of_Z v) (double_of_Z 200))) trim) r).
Proof.
  intros Ha percent trim. pose proof (percent_rounded a Ha) as [P1 P2].
  pose proof (trim_exact a Ha) as [T1 T2]. pose proof (advance_exact a Ha) as A1.
  split; [intros r; unfold percent; rewrite <- P1; reflexivity|].
  split; [intros r; unfold percent; rewrite <- P2; reflexivity|].
  split; [intros r; unfold trim; rewrite <- T1; reflexivity|].
  split; [intros r; unfold trim; rewrite <- T2; reflexivity|].
  split; [intros r; rewrite <- A1; reflexivity|].
  intros v r. unfold trim. rewrite <- T2. reflexivity.
Qed.

(** ** Consequences of the tables *)

(** The decoder of the VIN message count is a null pointer: the reply to a
    query for it, which a vehicle that supports the parameter sends, ends the
    program. *)
Lemma vin_count_crashes n :
  OBDIIDecodeResponseForCommand (Some (Mode9 1)) (Some [0x49; 0x01; n]) 3 = Undef NullDeref.
Proof. reflexivity. Qed.

(** The test for the trouble codes always fails, also on a set that lists them. *)
Lemma contains_no_dtcs s : OBDIICommandSetContainsCommand (Some s) (Some Mode3) = Ret 0.
Proof. reflexivity. Qed.

Module ObdiiWitness.

Definition p0301 : dtc := Dtc 0 0 3 0 1.
Definition u1234 : dtc := Dtc 3 1 2 3 4.

Lemma codes_ok : Forall dtc_ok [p0301; u1234].
Proof. unfold dtc_ok. repeat apply Forall_cons_2; [cbn; lia .. | apply Forall_nil_2]. Qed.

Lemma p0301_text : dtc_text p0301 = cstr "P0301" ++ [0].
Proof. reflexivity. Qed.

Lemma trouble_codes_roundtrip_witness :
  OBDIIDecodeResponseForCommand (Some Mode3) (Some [0x43; 2; 0x03; 0x01; 0xD2; 0x34]) 6
  = Ret (Response 1 (Some Mode3) (DTCs [cstr "P0301" ++ [0]; cstr "U1234" ++ [0]])).
Proof. exact (proj1 (trouble_codes_roundtrip 2 [p0301; u1234] codes_ok)). Defined.

Lemma byte_readings_rounded_witness :
  reads_number OBDIIDecodeFuelTrim [0x41; 0x06; 64] (fixed_point (-50) 0).
Proof.
  destruct (byte_readings_rounded 0x41 0x06 64) as (_ & _ & H & _); [unfold is_byte; lia|].
  intros r. rewrite (H r). vm_compute. reflexivity.
Defined.

End ObdiiWitness.
