(* ===== verification/ObdiiQuery.v ===== *)
(** * OBD-II queries (src/plugins/pip/obdii/ejv_obdii/OBDIICommunication.c)

    [OBDIIPerformQuery] over a socket, with the advisory lock of a shared one,
    and [OBDIIGetSupportedCommands], which asks a vehicle for the parameters it
    supports and lists the commands for them.  The kernel's part of a query is
    an exchange: the results of [write] and [select] and the datagram that is
    read.  Opening and closing sockets is in the file of the daemon. *)

From S2P Require Import Prelude CStd Floats Obdii.

(** ** Queries *)

(** [x_reply] is [None] when [read] fails. *)
Record exchange := Exchange { x_write : Z; x_select : Z; x_reply : option bytes }.

(** A vehicle that does not answer: the query times out. *)
Definition silence : exchange := Exchange 2 0 None.

(** The socket as a query sees it: whether it is shared, whether this process
    holds its lock, the exchanges to come and the payloads written so far. *)
Record link := Link {
  l_shared : bool; l_locked : bool; l_next : list exchange; l_sent : list bytes }.

Definition MAX_ISOTP_PAYLOAD : Z := 4095.

Definition LockIfNecessary (l : link) : link :=
  if l_shared l then Link (l_shared l) true (l_next l) (l_sent l) else l.

Definition UnlockIfNecessary (l : link) : link :=
  if l_shared l then Link (l_shared l) false (l_next l) (l_sent l) else l.

(** The payload goes out and the next exchange happens. *)
Definition transact (payload : bytes) (l : link) : exchange * link :=
  match l_next l with
  | [] => (silence, Link (l_shared l) (l_locked l) [] (l_sent l ++ [payload]))
  | x :: xs => (x, Link (l_shared l) (l_locked l) xs (l_sent l ++ [payload]))
  end.

(** A datagram longer than the buffer is cut. *)
Definition OBDIIPerformQuery (socket : option link) (c : option cmd_ptr)
    : out (OBDIIResponse * option link) :=
  let response := Response 0 c Zeroed in
  match socket with
  | None => Ret (response, None)
  | Some l =>
      let l := LockIfNecessary l in
      k ← (p ← deref c; command_at p);
      let '(x, l) := transact [cmd_mode k; cmd_pid k] l in
      let fail := Ret (response, Some (UnlockIfNecessary l)) in
      if (x_write x <? 0) || negb (x_write x =? 2) then fail
      else if x_select x <=? 0 then fail
      else
        let responseLength :=
          if expectedResponseLength k =? VARIABLE_RESPONSE_LENGTH
          then MAX_ISOTP_PAYLOAD else expectedResponseLength k in
        match take (Z.to_nat responseLength) <$> x_reply x with
        | None => fail
        | Some payload =>
            let retval := Z.of_nat (length payload) in
            if negb (expectedResponseLength k =? VARIABLE_RESPONSE_LENGTH)
               && negb (retval =? expectedResponseLength k) then fail
            else
              r ← OBDIIDecodeResponseForCommand c (Some payload) retval;
              Ret (r, Some (UnlockIfNecessary l))
        end
  end.

(** ** Supported commands *)

(** [while (word) word &= word - 1] with a bound on the rounds. *)
Fixpoint kernighan (fuel : nat) (word c : Z) : option Z :=
  if word =? 0 then Some c
  else match fuel with
       | O => None
       | S fuel => kernighan fuel (Z.land word (word - 1)) (c + 1)
       end.

(** A word of 32 bits needs at most 32 rounds. *)
Definition _BitsSet (word : Z) : option Z := kernighan 32 word 0.

(** The member [bitfieldValue] of the union. *)
Definition bitfieldValue (v : reading) : out Z :=
  match v with
  | Zeroed => Ret 0
  | BitfieldValue w => Ret w
  | _ => Undef Uninit
  end.

Definition query_bits (socket : option link) (c : cmd_ptr) : out (Z * option link) :=
  r ← OBDIIPerformQuery socket (Some c); w ← bitfieldValue (value r.1); Ret (w, r.2).

(** The words of the command set, up to the label [exit]. *)
Definition supported_words (socket : option link) : out (supported_pids * option link) :=
  let mode9 w1 w2 w3 socket :=
    r9 ← query_bits socket (Mode9 0);
    Ret (SupportedPIDs w1 w2 w3 0 (Z.land r9.1 0xE0000000), r9.2) in
  r1 ← query_bits socket (Mode1 0x00);
  if Z.land r1.1 0x01 =? 0 then mode9 r1.1 0 0 r1.2
  else
    r2 ← query_bits r1.2 (Mode1 0x20);
    if Z.land r2.1 0x01 =? 0 then mode9 r1.1 r2.1 0 r2.2
    else
      r3 ← query_bits r2.2 (Mode1 0x40);
      mode9 r1.1 r2.1 (Z.land r3.1 0xFFFC0000) r3.2.

(** [commands] is the null pointer or an array; [None] in it is a cell that was
    never written. *)
Record OBDIICommandSet := CommandSet {
  pids : supported_pids; numCommands : Z; commands : option (list (option cmd_ptr)) }.

(** An array and the place of the next write. *)
Definition cursor : Type := list (option cmd_ptr) * nat.

Definition push (c : cmd_ptr) (a : cursor) : out cursor :=
  if (a.2 <? length a.1)%nat then Ret (<[a.2 := Some c]> a.1, S a.2) else Undef OobWrite.

Fixpoint push_supported (s : supported_pids) (cs : list cmd_ptr) (a : cursor) : out cursor :=
  match cs with
  | [] => Ret a
  | c :: cs =>
      b ← OBDIICommandSetContainsCommand (Some s) (Some c);
      a ← (if b =? 0 then Ret a else push c a);
      push_supported s cs a
  end.

Definition mode1_ptrs : list cmd_ptr := map Mode1 (seq 0 (length OBDIIMode1Commands)).
Definition mode9_ptrs : list cmd_ptr := map Mode9 (seq 0 (length OBDIIMode9Commands)).

(** [numCommands] before the allocation; the sum is [None] when a count is. *)
Definition count_commands (s : supported_pids) : option Z :=
  a ← _BitsSet (_1_to_20 s); b ← _BitsSet (_21_to_40 s); c ← _BitsSet (_41_to_60 s);
  d ← _BitsSet (_61_to_80 s); e ← _BitsSet (_mode9SupportedPIDs s);
  Some (a + b + c + d + e + 2 + 1).

(** [mem] says whether [malloc] finds memory.  The outer [None] stands for a
    count that does not end. *)
Definition OBDIIGetSupportedCommands (mem : bool) (socket : option link)
    : out (option (OBDIICommandSet * option link)) :=
  w ← supported_words socket;
  match count_commands w.1 with
  | None => Ret None
  | Some n =>
      if mem then
        a ← push_supported w.1 mode1_ptrs (repeat None (Z.to_nat n), 0%nat);
        a ← push Mode3 a;
        a ← push_supported w.1 mode9_ptrs a;
        Ret (Some (CommandSet w.1 n (Some a.1), w.2))
      else Ret (Some (CommandSet w.1 0 None, w.2))
  end.

(** [true] when the array is freed. *)
Definition OBDIICommandSetFree (s : option OBDIICommandSet) : bool :=
  match s with Some s => bool_decide (is_Some (commands s)) | None => false end.

(** ** Counting bits *)

(** The number of elements that satisfy a test. *)
Definition count {A} (f : A -> bool) (l : list A) : Z :=
  Z.of_nat (length (List.filter f l)).

Lemma count_cons {A} (f : A -> bool) x l : count f (x :: l) = Z.b2z (f x) + count f l.
Proof. unfold count. cbn. destruct (f x); cbn; lia. Qed.

Lemma count_app {A} (f : A -> bool) l k : count f (l ++ k) = count f l + count f k.
Proof. unfold count. rewrite List.filter_app, length_app. lia. Qed.

Lemma count_map {A B} (f : B -> bool) (g : A -> B) l : count f (map g l) = count (fun x => f (g x)) l.
Proof. induction l as [|x l IH]; [done|]. cbn [map]. rewrite !count_cons, IH. done. Qed.

Lemma count_rev {A} (f : A -> bool) l : count f (rev l) = count f l.
Proof.
  induction l as [|x l IH]; [done|]. cbn [rev]. rewrite count_app, IH, !count_cons.
  change (count f []) with 0. lia.
Qed.

Lemma count_ext {A} (f g : A -> bool) l : (forall x, x ∈ l -> f x = g x) -> count f l = count g l.
Proof.
  induction l as [|x l IH]; intros Hfg; [done|].
  rewrite !count_cons, IH, (Hfg x); [done | set_solver | set_solver].
Qed.

(** The ones among the lowest [n] bits. *)
Definition ones (n : nat) (w : Z) : Z := count (fun i => Z.testbit w (Z.of_nat i)) (seq 0 n).

Lemma ones_succ n w : ones (S n) w = Z.b2z (Z.testbit w 0) + ones n (w / 2).
Proof.
  unfold ones. cbn [seq]. rewrite count_cons, <- seq_shift, count_map. f_equal.
  apply count_ext. intros i _. rewrite <- Z.div2_div, Z.div2_spec, Z.shiftr_spec by lia.
  f_equal. lia.
Qed.

Lemma ones_nonneg n w : 0 <= ones n w.
Proof. unfold ones, count. lia. Qed.

Lemma ones_0 n : ones n 0 = 0.
Proof.
  induction n as [|n IH]; [done|]. rewrite ones_succ, Z.bits_0. change (0 / 2) with 0. rewrite IH. done.
Qed.

Lemma ones_pos n w : 0 < w < 2 ^ Z.of_nat n -> 0 < ones n w.
Proof.
  revert w; induction n as [|n IH]; intros w; [change (2 ^ Z.of_nat 0) with 1; lia|].
  rewrite Nat2Z.inj_succ, Z.pow_succ_r by lia. intros Hw. rewrite ones_succ.
  pose proof (Z.div_mod w 2) as Hd. rewrite <- Z.bit0_mod in Hd. pose proof (ones_nonneg n (w / 2)).
  destruct (Z.testbit w 0); cbn [Z.b2z] in *; [lia|].
  enough (0 < ones n (w / 2)) by lia. apply IH. lia.
Qed.

(** One round clears the lowest one. *)
Lemma clear_lowest n w : 0 < w < 2 ^ Z.of_nat n -> ones n (Z.land w (w - 1)) = ones n w - 1.
Proof.
  revert w; induction n as [|n IH]; intros w; [change (2 ^ Z.of_nat 0) with 1; lia|].
  rewrite Nat2Z.inj_succ, Z.pow_succ_r by lia. intros Hw. rewrite !ones_succ.
  rewrite Z.land_spec.
  assert (Z.land w (w - 1) / 2 = Z.land (w / 2) ((w - 1) / 2)) as ->
    by (rewrite <- !Z.div2_div, !Z.div2_spec; apply Z.shiftr_land).
  pose proof (Z.div_mod w 2) as Hd. rewrite <- Z.bit0_mod in Hd.
  pose proof (Z.div_mod (w - 1) 2) as Hd'. rewrite <- Z.bit0_mod in Hd'.
  destruct (Z.testbit w 0), (Z.testbit (w - 1) 0); cbn [Z.b2z andb] in *; try lia.
  - replace ((w - 1) / 2) with (w / 2) by lia. rewrite Z.land_diag. lia.
  - replace ((w - 1) / 2) with (w / 2 - 1) by lia. rewrite IH by lia. lia.
Qed.

Lemma kernighan_ones fuel n w c :
  0 <= w < 2 ^ Z.of_nat n -> ones n w <= Z.of_nat fuel -> kernighan fuel w c = Some (c + ones n w).
Proof.
  revert w c; induction fuel as [|fuel IH]; intros w c Hw Hf; cbn [kernighan];
    (destruct (Z.eqb_spec w 0) as [->|Hz]; [rewrite ones_0; f_equal; lia|]).
  - pose proof (ones_pos n w). lia.
  - assert (0 < w < 2 ^ Z.of_nat n) as Hp by lia. pose proof (clear_lowest n w Hp) as Hc.
    rewrite IH; [f_equal; lia | apply land_bound; lia | lia].
Qed.

Lemma count_le {A} (f : A -> bool) l : count f l <= Z.of_nat (length l).
Proof. unfold count. induction l as [|x l IH]; cbn; [lia|]. destruct (f x); cbn; lia. Qed.

Lemma bits_set_ones w : 0 <= w < 2 ^ 32 -> _BitsSet w = Some (ones 32 w).
Proof.
  intros Hw. unfold _BitsSet. rewrite (kernighan_ones 32 32 w 0 Hw); [by rewrite Z.add_0_l|].
  unfold ones. pose proof (count_le (fun i => Z.testbit w (Z.of_nat i)) (seq 0 32)) as H.
  rewrite length_seq in H. exact H.
Qed.

(** ** The supported commands *)

Lemma test_bit_spec w n : 0 <= n < 32 -> test_bit w n = Ret (Z.b2z (Z.testbit w n)).
Proof.
  intros Hn. unfold test_bit. zdec. f_equal.
  assert (u32 (Z.shiftl 1 n) = 2 ^ n) as ->.
  { rewrite Z.shiftl_1_l. apply Z.mod_small. split; [apply Z.pow_nonneg; lia|].
    apply Z.pow_lt_mono_r; lia. }
  destruct (Z.testbit w n) eqn:E.
  - destruct (Z.eqb_spec (Z.land w (2 ^ n)) 0) as [H0|]; [|done].
    assert (Z.testbit (Z.land w (2 ^ n)) n = true) as H
      by (rewrite Z.land_spec, E, Z.pow2_bits_true by lia; done).
    by rewrite H0, Z.bits_0 in H.
  - rewrite (proj2 (Z.eqb_eq _ 0)); [done|]. apply Z.bits_inj'. intros i Hi.
    rewrite Z.land_spec, Z.pow2_bits_eqb, Z.bits_0 by lia.
    destruct (Z.eqb_spec n i) as [->|]; [by rewrite E | apply andb_false_r].
Qed.

(** The bit of the words that stands for a parameter. *)
Definition advertised (s : supported_pids) (c : cmd_ptr) : bool :=
  match c with
  | Mode1 n =>
      if (n =? 0)%nat then true
      else if (n <=? 32)%nat then Z.testbit (_1_to_20 s) (32 - Z.of_nat n)
      else if (n <=? 64)%nat then Z.testbit (_21_to_40 s) (64 - Z.of_nat n)
      else Z.testbit (_41_to_60 s) (96 - Z.of_nat n)
  | Mode3 => true
  | Mode9 n => if (n =? 0)%nat then true else Z.testbit (_mode9SupportedPIDs s) (32 - Z.of_nat n)
  end.

(** The parameters of the tables are their indexes. *)
Lemma mode1_entry n : (n < 79)%nat ->
  exists k, command_at (Mode1 n) = Ret k /\ cmd_mode k = 1 /\ cmd_pid k = Z.of_nat n.
Proof.
  intros Hn. assert (Forall (fun m => match command_at (Mode1 m) with
                                      | Ret k => cmd_mode k = 1 /\ cmd_pid k = Z.of_nat m
                                      | Undef _ => False end) (seq 0 79)) as Hall.
  { repeat apply Forall_cons_2; [by split ..| apply Forall_nil_2]. }
  pose proof (proj1 (list.Forall_forall _ _) Hall n) as Hk.
  cbv beta in Hk. rewrite elem_of_seq in Hk.
  destruct (command_at (Mode1 n)) as [k|u]; [exists k; split; [done|] | exfalso]; apply Hk; lia.
Qed.

Lemma contains_mode1 s n : (n < 79)%nat ->
  OBDIICommandSetContainsCommand (Some s) (Some (Mode1 n)) = Ret (Z.b2z (advertised s (Mode1 n))).
Proof.
  intros Hn. destruct (mode1_entry n Hn) as (k & Hk & Hm & Hp). unfold OBDIICommandSetContainsCommand.
  rewrite Hk, ret_bind, Hm, Hp. cbn [Z.eqb Pos.eqb advertised].
  destruct (Nat.eqb_spec n 0) as [->|H0]; [done|]. rewrite (proj2 (Z.eqb_neq _ 0)) by lia.
  destruct (Nat.leb_spec n 32); [zdec; apply test_bit_spec; lia|].
  destruct (Nat.leb_spec n 64); [zdec; apply test_bit_spec; lia|].
  zdec. apply test_bit_spec. lia.
Qed.

Lemma contains_mode9 s n : (n < 3)%nat ->
  OBDIICommandSetContainsCommand (Some s) (Some (Mode9 n)) = Ret (Z.b2z (advertised s (Mode9 n))).
Proof. intros Hn. destruct n as [|[|[|n]]]; [done | by apply test_bit_spec .. | lia]. Qed.

(** An array whose first cells hold [cs], with [m] cells left. *)
Definition cursor_at (cs : list cmd_ptr) (m : nat) : cursor :=
  (map Some cs ++ repeat None m, length cs).

Lemma push_cell cs m c : push c (cursor_at cs (S m)) = Ret (cursor_at (cs ++ [c]) m).
Proof.
  unfold push, cursor_at. cbn [fst snd]. rewrite !length_app, length_map. cbn [repeat length]. zdec.
  rewrite insert_app_r_alt by (rewrite length_map; lia).
  rewrite length_map, Nat.sub_diag, map_app, <- app_assoc, Nat.add_1_r. done.
Qed.

Lemma push_supported_all s l cs m :
  (forall c, c ∈ l -> OBDIICommandSetContainsCommand (Some s) (Some c) = Ret (Z.b2z (advertised s c))) ->
  push_supported s l (cursor_at cs (length (List.filter (advertised s) l) + m))
  = Ret (cursor_at (cs ++ List.filter (advertised s) l) m).
Proof.
  revert cs; induction l as [|c l IH]; intros cs Hl; cbn [push_supported List.filter].
  - by rewrite app_nil_r.
  - rewrite Hl by set_solver. rewrite ret_bind.
    destruct (advertised s c); cbn [Z.b2z Z.eqb length Nat.add].
    + rewrite push_cell, ret_bind, IH by set_solver. by rewrite <- app_assoc.
    + rewrite ret_bind. apply IH. set_solver.
Qed.

(** The commands of a set, in the order of the array. *)
Definition listed (s : supported_pids) : list cmd_ptr :=
  List.filter (advertised s) mode1_ptrs ++ [Mode3] ++ List.filter (advertised s) mode9_ptrs.

(** The words as the queries leave them: the parameters above 0x4E of mode 1
    and above 3 of mode 9 are masked. *)
Definition words_ok (s : supported_pids) : Prop :=
  0 <= _1_to_20 s < 2 ^ 32 /\ 0 <= _21_to_40 s < 2 ^ 32
  /\ (exists w, _41_to_60 s = Z.land w 0xFFFC0000 /\ 0 <= w < 2 ^ 32)
  /\ _61_to_80 s = 0
  /\ (exists w, _mode9SupportedPIDs s = Z.land w 0xE0000000 /\ 0 <= w < 2 ^ 32).

(** The parameters of one word count its bits from the highest one down. *)
Lemma count_segment w top lo m :
  seq lo m = map (fun i => top - i)%nat (rev (seq (32 - m) m)) -> (m <= 32 <= top)%nat ->
  count (fun n => Z.testbit w (Z.of_nat top - Z.of_nat n)) (seq lo m)
  = count (fun i => Z.testbit w (Z.of_nat i)) (seq (32 - m) m).
Proof.
  intros -> Hm. rewrite count_map, count_rev. apply count_ext.
  intros i Hi%elem_of_seq. f_equal. lia.
Qed.

Lemma count_none {A} (f : A -> bool) l : (forall x, x ∈ l -> f x = false) -> count f l = 0.
Proof. intros Hf. rewrite (count_ext f (fun _ => false)) by done. induction l; [done | set_solver]. Qed.

(** A mask of the highest [32 - k] bits. *)
Lemma ones_masked w mask k :
  (k <= 32)%nat -> (forall i, (i < k)%nat -> Z.testbit mask (Z.of_nat i) = false) ->
  ones 32 (Z.land w mask)
  = count (fun i => Z.testbit (Z.land w mask) (Z.of_nat i)) (seq k (32 - k)).
Proof.
  intros Hk Hmask. unfold ones. replace 32%nat with (k + (32 - k))%nat at 1 by lia.
  rewrite seq_app, count_app, count_none; [done|].
  intros i Hi%elem_of_seq. rewrite Z.land_spec, Hmask by lia. apply andb_false_r.
Qed.

Lemma count_mode1 s :
  words_ok s ->
  count (advertised s) mode1_ptrs = 1 + ones 32 (_1_to_20 s) + ones 32 (_21_to_40 s) + ones 32 (_41_to_60 s).
Proof.
  intros (_ & _ & (w & Hw & _) & _). change mode1_ptrs with (map Mode1 (seq 0 79)).
  change (seq 0 79) with ([0%nat] ++ seq 1 32 ++ seq 33 32 ++ seq 65 14).
  rewrite count_map, !count_app.
  rewrite (count_ext _ (fun n => Z.testbit (_1_to_20 s) (Z.of_nat 32 - Z.of_nat n)) (seq 1 32)).
  2: { intros n Hn%elem_of_seq. cbn [advertised]. zdec. done. }
  rewrite (count_ext _ (fun n => Z.testbit (_21_to_40 s) (Z.of_nat 64 - Z.of_nat n)) (seq 33 32)).
  2: { intros n Hn%elem_of_seq. cbn [advertised]. zdec. done. }
  rewrite (count_ext _ (fun n => Z.testbit (_41_to_60 s) (Z.of_nat 96 - Z.of_nat n)) (seq 65 14)).
  2: { intros n Hn%elem_of_seq. cbn [advertised]. zdec. done. }
  rewrite !count_segment by (lia || reflexivity). change (count _ [0%nat]) with 1.
  rewrite Hw, (ones_masked w _ 18); [unfold ones; cbn [Nat.sub]; lia | lia |].
  intros i Hi. do 18 (destruct i as [|i]; [done|]). lia.
Qed.

Lemma count_mode9 s :
  words_ok s ->
  count (advertised s) mode9_ptrs + Z.b2z (Z.testbit (_mode9SupportedPIDs s) 29)
  = 1 + ones 32 (_mode9SupportedPIDs s).
Proof.
  intros (_ & _ & _ & _ & (w & Hw & _)). change mode9_ptrs with [Mode9 0; Mode9 1; Mode9 2].
  rewrite !count_cons. change (count _ []) with 0. cbn [advertised Nat.eqb].
  rewrite Hw, (ones_masked w _ 29); [|lia|].
  - cbn [seq Nat.sub]. rewrite !count_cons. change (count _ []) with 0. change (Z.b2z true) with 1.
    change (32 - Z.of_nat 1) with (Z.of_nat 31). change (32 - Z.of_nat 2) with (Z.of_nat 30).
    change 29 with (Z.of_nat 29) at 1. lia.
  - intros i Hi. do 29 (destruct i as [|i]; [done|]). lia.
Qed.

(** The cells that the count reserves beyond the commands. *)
Definition spare (s : supported_pids) : nat := if Z.testbit (_mode9SupportedPIDs s) 29 then 1 else 0.

Lemma count_commands_sum s a b c d e :
  _BitsSet (_1_to_20 s) = Some a -> _BitsSet (_21_to_40 s) = Some b -> _BitsSet (_41_to_60 s) = Some c ->
  _BitsSet (_61_to_80 s) = Some d -> _BitsSet (_mode9SupportedPIDs s) = Some e ->
  count_commands s = Some (a + b + c + d + e + 2 + 1).
Proof. unfold count_commands. intros -> -> -> -> ->. reflexivity. Qed.

Lemma length_listed s :
  Z.of_nat (length (listed s)) = count (advertised s) mode1_ptrs + 1 + count (advertised s) mode9_ptrs.
Proof. unfold listed, count. rewrite !length_app. cbn [length]. lia. Qed.

Lemma spare_bit s : Z.of_nat (spare s) = Z.b2z (Z.testbit (_mode9SupportedPIDs s) 29).
Proof. unfold spare. by destruct (Z.testbit _ 29). Qed.

Lemma count_commands_listed s :
  words_ok s -> count_commands s = Some (Z.of_nat (length (listed s) + spare s)).
Proof.
  intros Hs. pose proof (count_mode1 s Hs) as H1. pose proof (count_mode9 s Hs) as H9.
  destruct Hs as (B1 & B2 & (w3 & E3 & B3) & E4 & (w9 & E9 & B9)).
  pose proof (land_bound 32 w3 0xFFFC0000 ltac:(lia) B3) as B3'. rewrite <- E3 in B3'.
  pose proof (land_bound 32 w9 0xE0000000 ltac:(lia) B9) as B9'. rewrite <- E9 in B9'.
  assert (_BitsSet (_61_to_80 s) = Some 0) as Hd by (rewrite E4; reflexivity).
  rewrite (count_commands_sum s _ _ _ _ _ (bits_set_ones _ B1) (bits_set_ones _ B2)
             (bits_set_ones _ B3') Hd (bits_set_ones _ B9')).
  rewrite Nat2Z.inj_add, length_listed, spare_bit. f_equal. lia.
Qed.

(** ** Queries to a vehicle *)

(** The datagrams to come are bytes. *)
Definition link_ok (l : link) : Prop :=
  Forall (fun x => match x_reply x with Some p => Forall is_byte p | None => True end) (l_next l).

(** A query leaves a shared socket unlocked and changes nothing else of it. *)
Definition after_query (l l' : link) : Prop :=
  l_shared l' = l_shared l /\ l_locked l' = (if l_shared l then false else l_locked l) /\ link_ok l'.

Lemma transact_ok p l x l' :
  link_ok l -> transact p (LockIfNecessary l) = (x, l') ->
  after_query l (UnlockIfNecessary l')
  /\ match x_reply x with Some p => Forall is_byte p | None => True end.
Proof.
  unfold link_ok, transact, after_query, LockIfNecessary, UnlockIfNecessary.
  destruct l as [[] lk [|y ys] st]; cbn; intros Hl [= <- <-]; cbn; (split; [split; [done|]; split; [done|] |]);
    cbn; try apply Forall_nil_2; try done; by apply list.Forall_cons in Hl as [? ?].
Qed.

(** The payload an exchange brings in answer to a command: it was sent whole,
    an answer came in time and could be read, and a command with a fixed length
    got that length, after the buffer has cut what was longer. *)
Definition arrived (k : OBDIICommand) (x : exchange) : option bytes :=
  if (x_write x =? 2) && (0 <? x_select x) then
    if expectedResponseLength k =? VARIABLE_RESPONSE_LENGTH
    then take (Z.to_nat MAX_ISOTP_PAYLOAD) <$> x_reply x
    else p ← take (Z.to_nat (expectedResponseLength k)) <$> x_reply x;
         if Z.of_nat (length p) =? expectedResponseLength k then Some p else None
  else None.

(** The response to a command: of the payload that arrived, or the empty one. *)
Definition outcome (c : cmd_ptr) (x : exchange) (r : OBDIIResponse) : Prop :=
  exists k, command_at c = Ret k
    /\ match arrived k x with Some p => decoded c k p r | None => r = Response 0 (Some c) Zeroed end.

Definition payload_of (c : cmd_ptr) : bytes :=
  match command_at c with Ret k => [cmd_mode k; cmd_pid k] | Undef _ => [] end.

(** The one command of the tables without a decoder, the count of messages of the
    vehicle's number: a correct reply to it calls a null pointer. *)
Definition crashes (c : cmd_ptr) (x : exchange) : bool :=
  bool_decide (c = Mode9 1)
  && match command_at c with
     | Ret k => match arrived k x with Some p => echoes k p | None => false end
     | Undef _ => false
     end.

Lemma command_decoder c k : c <> Mode9 1 -> command_at c = Ret k -> responseDecoder k <> None.
Proof.
  intros Hne Hc. destruct c as [n| |[|[|[|n]]]]; try done.
  - by destruct (mode1_command n k Hc) as (_ & d & -> & _).
  - by injection Hc as <-.
  - by destruct (mode9_pids_command k Hc) as (_ & d & -> & _).
  - by injection Hc as <-.
Qed.

Lemma decode_without_decoder k p :
  command_at (Mode9 1) = Ret k ->
  OBDIIDecodeResponseForCommand (Some (Mode9 1)) (Some p) (Z.of_nat (length p))
  = if echoes k p then Undef NullDeref else Ret (Response 0 (Some (Mode9 1)) Zeroed).
Proof.
  intros Hk. unfold OBDIIDecodeResponseForCommand.
  destruct p as [|b p]; [done|]. rewrite (proj2 (Z.leb_gt _ 0)) by (cbn; lia).
  rewrite Hk, ret_bind, successful_echoes, ret_bind. injection Hk as <-.
  by destruct (echoes _ (b :: p)).
Qed.

Definition link_after (n : nat) (cs : list cmd_ptr) (l : link) : link :=
  Link (l_shared l) (if l_shared l && bool_decide (cs <> []) then false else l_locked l) (drop n (l_next l))
    (l_sent l ++ map payload_of cs).

(** A query comes down to decoding what arrived. *)
Lemma query_decodes l c k :
  command_at c = Ret k ->
  let x := default silence (l_next l !! 0%nat) in
  OBDIIPerformQuery (Some l) (Some c)
  = match arrived k x with
    | Some p => r ← OBDIIDecodeResponseForCommand (Some c) (Some p) (Z.of_nat (length p));
                Ret (r, Some (link_after 1 [c] l))
    | None => Ret (Response 0 (Some c) Zeroed, Some (link_after 1 [c] l))
    end.
Proof.
  intros Hk x0. unfold OBDIIPerformQuery. cbn [deref]. rewrite ret_bind, Hk, ret_bind.
  destruct (transact _ _) as [x l'] eqn:Hx.
  assert (UnlockIfNecessary l' = link_after 1 [c] l /\ x0 = x) as [-> ->].
  { unfold x0, transact, LockIfNecessary, UnlockIfNecessary, link_after in *. cbn [map]. unfold payload_of. rewrite Hk.
    by destruct l as [[] lk [|y ys] st]; injection Hx as <- <-. }
  unfold arrived.
  replace (0 <? x_select x) with (negb (x_select x <=? 0)) by (symmetry; apply Z.ltb_antisym).
  destruct (Z.eqb_spec (x_write x) 2) as [->|]; [|by rewrite orb_true_r].
  cbn [Z.ltb Z.compare negb orb andb]. destruct (x_select x <=? 0); [done|]. cbn [negb].
  destruct (x_reply x) as [p|]; [|by destruct (_ =? _)].
  cbn [fmap option_fmap option_map mbind option_bind].
  destruct (expectedResponseLength k =? VARIABLE_RESPONSE_LENGTH); [done|].
  cbn [negb andb]. by destruct (Z.of_nat _ =? expectedResponseLength k).
Qed.

Lemma arrived_bytes k x p :
  match x_reply x with Some p => Forall is_byte p | None => True end -> arrived k x = Some p -> Forall is_byte p.
Proof.
  unfold arrived. intros Hp Ha. destruct (_ && _); [|done]. destruct (x_reply x) as [q|]; [|by destruct (_ =? _)].
  cbn [fmap option_fmap option_map mbind option_bind] in Ha.
  repeat case_match; try done; injection Ha as <-; by apply Forall_take.
Qed.

Lemma next_bytes l :
  link_ok l -> match x_reply (default silence (l_next l !! 0%nat)) with Some p => Forall is_byte p | None => True end.
Proof. unfold link_ok. by destruct 1. Qed.

Lemma query_typed l c :
  link_ok l -> defined (command_at c) ->
  if crashes c (default silence (l_next l !! 0%nat)) then OBDIIPerformQuery (Some l) (Some c) = Undef NullDeref
  else exists r, OBDIIPerformQuery (Some l) (Some c) = Ret (r, Some (link_after 1 [c] l))
    /\ outcome c (default silence (l_next l !! 0%nat)) r
    /\ OBDIIResponseFree (Some r) = Ret (blocks (value r)).
Proof.
  intros Hl [k Hk]. rewrite (query_decodes l c k Hk). pose proof (next_bytes l Hl) as Hx.
  set (x := default silence _) in *. unfold crashes, outcome. rewrite Hk.
  destruct (arrived k x) as [p|] eqn:Ha.
  2:{ rewrite andb_false_r. eexists. split; [done|]. split; [by exists k; rewrite Ha|].
      unfold OBDIIResponseFree. cbn [deref command value]. by rewrite ret_bind, Hk, ret_bind. }
  destruct (decide (c = Mode9 1)) as [->|Hne].
  - rewrite (decode_without_decoder k) by done.
    rewrite bool_decide_true by done. cbn [andb]. destruct (echoes k p) eqn:He; [done|].
    eexists. split; [done|]. assert (decoded (Mode9 1) k p (Response 0 (Some (Mode9 1)) Zeroed)) as Hd
      by (unfold decoded, answers; by rewrite He).
    split; [by exists k; rewrite Ha | by apply (decoded_blocks _ _ _ _ Hk Hd)].
  - rewrite bool_decide_false by done. cbn [andb].
    destruct (response_typed c k p Hk (command_decoder c k Hne Hk)) as (r & -> & Hd & Hf);
      [by eapply arrived_bytes|].
    exists r. split; [done|]. split; [by exists k; rewrite Ha | done].
Qed.

(** Queries one after the other. *)
Fixpoint perform_queries (cs : list cmd_ptr) (socket : option link) : out (list OBDIIResponse * option link) :=
  match cs with
  | [] => Ret ([], socket)
  | c :: cs =>
      r ← OBDIIPerformQuery socket (Some c);
      rs ← perform_queries cs r.2;
      Ret (r.1 :: rs.1, rs.2)
  end.

(** No query of the sequence crashes on the exchanges to come. *)
Fixpoint crash_free (cs : list cmd_ptr) (xs : list exchange) : bool :=
  match cs with
  | [] => true
  | c :: cs => negb (crashes c (default silence (xs !! 0%nat))) && crash_free cs (drop 1 xs)
  end.

(** C10: Whatever a vehicle answers, in time or not, to any sequence of commands
    of the tables: unless it answers the one command without a decoder
    correctly, which calls a null pointer, no query leaves a buffer; each sends
    its mode and parameter and nothing else and gives a shared socket's lock
    back; its response is the empty one when no payload of the command's length
    arrives, and otherwise succeeds exactly when the payload echoes mode and
    parameter (and holds whole codes, for the trouble codes), with a value of
    the command's type; and releasing it releases exactly its blocks. *)
Theorem queries_typed cs l :
  link_ok l -> Forall (fun c => defined (command_at c)) cs ->
  if crash_free cs (l_next l) then
    exists rs, perform_queries cs (Some l) = Ret (rs, Some (link_after (length cs) cs l))
      /\ length rs = length cs
      /\ forall i c r, cs !! i = Some c -> rs !! i = Some r ->
           outcome c (default silence (l_next l !! i)) r
           /\ OBDIIResponseFree (Some r) = Ret (blocks (value r))
  else perform_queries cs (Some l) = Undef NullDeref.
Proof.
  intros Hl Hcs. revert l Hl. induction Hcs as [|c cs Hc Hcs IH]; intros l Hl.
  { exists []. split_and!; [|done|done]. cbn. unfold link_after. cbn [map app bool_decide length].
    rewrite andb_false_r, drop_0, app_nil_r. by destruct l. }
  cbn [crash_free]. pose proof (query_typed l c Hl Hc) as Hq. cbn [perform_queries].
  destruct (crashes c _); cbn [negb andb]; [by rewrite Hq|].
  destruct Hq as (r & -> & Ho & Hf). rewrite ret_bind. cbn [fst snd].
  specialize (IH (link_after 1 [c] l)). cbn [l_next link_after] in IH.
  destruct (crash_free cs (drop 1 (l_next l))).
  2:{ rewrite IH; [done|]. unfold link_ok, link_after. cbn [l_next]. by apply Forall_drop. }
  destruct IH as (rs & -> & Hlen & Hrs).
  { unfold link_ok, link_after. cbn [l_next]. by apply Forall_drop. }
  rewrite ret_bind. cbn [fst snd]. exists (r :: rs). split_and!; [| by cbn; rewrite Hlen |].
  - do 3 f_equal. unfold link_after. cbn [l_shared l_locked l_next l_sent map length].
    rewrite drop_drop, <- app_assoc. f_equal. rewrite !(bool_decide_true (_ :: _ <> [])) by done.
    by destruct (l_shared l), (bool_decide (cs <> [])).
  - intros [|i] c' r' Hc' Hr'; cbn in Hc', Hr'.
    + injection Hc' as <-. injection Hr' as <-. by split.
    + destruct (Hrs i c' r' Hc' Hr') as [H1 H2]. split; [|done]. revert H1.
      unfold link_after. cbn [l_next]. by rewrite lookup_drop.
Qed.

(** A query of a command with a fixed length: the response is a value of its
    type, or nothing. *)
Lemma query_fixed l c k :
  link_ok l -> c <> Mode3 -> command_at c = Ret k -> command_ok k ->
  exists r l', OBDIIPerformQuery (Some l) (Some c) = Ret (r, Some l') /\ after_query l l'
    /\ (value r = Zeroed \/ typed (responseType k) (value r)).
Proof.
  intros Hl Hne Hc Hk.
  assert (c <> Mode9 1) as Hne9 by (intros ->; injection Hc as <-; by destruct Hk as (_ & d & Hd & _)).
  pose proof (query_typed l c Hl) as Hq. unfold crashes in Hq. rewrite bool_decide_false in Hq by done.
  destruct Hq as (r & Hq & (k' & Hk' & Ho) & _); [by exists k|]. rewrite Hc in Hk'. injection Hk' as <-.
  exists r, (link_after 1 [c] l). split; [done|]. split.
  - unfold after_query, link_after, link_ok. cbn [l_shared l_locked l_next].
    rewrite bool_decide_true, andb_true_r by done. split_and!; [done | done | by apply Forall_drop].
  - destruct (arrived k _) as [p|]; [|subst r; by left]. destruct Ho as [_ Hv].
    destruct (answers c k p); [right | left; apply Hv]. by destruct c, Hv.
Qed.

Lemma query_bits_ok l c k :
  link_ok l -> c <> Mode3 -> command_at c = Ret k -> command_ok k ->
  responseType k = OBDIIResponseTypeBitfield ->
  exists w l', query_bits (Some l) c = Ret (w, Some l') /\ after_query l l' /\ 0 <= w < 2 ^ 32.
Proof.
  intros Hl Hne Hc Hk Ht. destruct (query_fixed l c k Hl Hne Hc Hk) as (r & l' & Hq & Ha & Hv).
  unfold query_bits. rewrite Hq, ret_bind. cbn [fst snd]. rewrite Ht in Hv.
  destruct (value r) as [|x|w| | |]; destruct Hv as [Hv|Hv]; try done.
  - by exists 0, l'.
  - by exists w, l'.
Qed.

Lemma after_query_trans l l' l'' : after_query l l' -> after_query l' l'' -> after_query l l''.
Proof.
  unfold after_query. intros (H1 & H2 & _) (H3 & H4 & H5). rewrite H3, H4, H1, H2.
  destruct (l_shared l); tauto.
Qed.

(** The queries for words of bits. *)
Definition asks_bits (c : cmd_ptr) : Prop :=
  c <> Mode3 /\ exists k, command_at c = Ret k /\ command_ok k /\ responseType k = OBDIIResponseTypeBitfield.

Lemma word_queries : Forall asks_bits [Mode1 0x00; Mode1 0x20; Mode1 0x40; Mode9 0].
Proof.
  repeat apply Forall_cons_2; [split; [done|]; eexists; split; [reflexivity|] ..| apply Forall_nil_2];
    (split; [|reflexivity]).
  - by apply (mode1_command 0x00).
  - by apply (mode1_command 0x20).
  - by apply (mode1_command 0x40).
  - by apply mode9_pids_command.
Qed.

Lemma ask_word l c :
  link_ok l -> c ∈ [Mode1 0x00; Mode1 0x20; Mode1 0x40; Mode9 0] ->
  exists w l', query_bits (Some l) c = Ret (w, Some l') /\ after_query l l' /\ 0 <= w < 2 ^ 32.
Proof.
  intros Hl Hc. destruct (proj1 (list.Forall_forall _ _) word_queries c Hc) as (Hne & k & Hk & Hok & Ht).
  by apply (query_bits_ok l c k).
Qed.

Lemma after_query_ok l l' : after_query l l' -> link_ok l'.
Proof. by intros (_ & _ & H). Qed.

Lemma words_ok_masked w1 w2 w3 w9 :
  0 <= w1 < 2 ^ 32 -> 0 <= w2 < 2 ^ 32 -> 0 <= w3 < 2 ^ 32 -> 0 <= w9 < 2 ^ 32 ->
  words_ok (SupportedPIDs w1 w2 (Z.land w3 0xFFFC0000) 0 (Z.land w9 0xE0000000)).
Proof. intros. unfold words_ok. cbn. eauto 10. Qed.

Lemma supported_words_ok l :
  link_ok l ->
  exists s l', supported_words (Some l) = Ret (s, Some l') /\ words_ok s /\ after_query l l'.
Proof.
  intros Hl. destruct (ask_word l (Mode1 0x00)) as (w1 & l1 & Q1 & A1 & B1); [done | set_solver |].
  assert (forall w2 w3 l0, after_query l l0 -> 0 <= w2 < 2 ^ 32 -> 0 <= w3 < 2 ^ 32 ->
    exists s l', (r9 ← query_bits (Some l0) (Mode9 0);
                  Ret (SupportedPIDs w1 w2 (Z.land w3 0xFFFC0000) 0 (Z.land r9.1 0xE0000000), r9.2))
                 = Ret (s, Some l') /\ words_ok s /\ after_query l l') as Hend.
  { intros w2 w3 l0 A0 B2 B3.
    destruct (ask_word l0 (Mode9 0)) as (w9 & l9 & Q9 & A9 & B9); [by eapply after_query_ok | set_solver |].
    rewrite Q9, ret_bind. do 2 eexists. split; [done|]. split; [by apply words_ok_masked|].
    by eapply after_query_trans. }
  unfold supported_words. rewrite Q1, ret_bind. cbn [fst snd].
  destruct (Z.land w1 1 =? 0); [apply (Hend 0 0 l1 A1); lia|].
  destruct (ask_word l1 (Mode1 0x20)) as (w2 & l2 & Q2 & A2 & B2); [by eapply after_query_ok | set_solver |].
  pose proof (after_query_trans _ _ _ A1 A2) as A12. rewrite Q2, ret_bind. cbn [fst snd].
  destruct (Z.land w2 1 =? 0); [apply (Hend w2 0 l2 A12 B2); lia|].
  destruct (ask_word l2 (Mode1 0x40)) as (w3 & l3 & Q3 & A3 & B3); [by eapply after_query_ok | set_solver |].
  rewrite Q3, ret_bind. apply (Hend w2 w3 l3); [by eapply after_query_trans | done | done].
Qed.

(** ** The list of commands *)

Lemma elem_of_filter_list {A} (f : A -> bool) l x : x ∈ List.filter f l <-> x ∈ l /\ f x = true.
Proof. rewrite !list_elem_of_In. apply List.filter_In. Qed.

Lemma elem_of_listed s c :
  c ∈ listed s <-> c = Mode3 \/ OBDIICommandSetContainsCommand (Some s) (Some c) = Ret 1.
Proof.
  unfold listed. rewrite !elem_of_app, !elem_of_filter_list, list_elem_of_singleton.
  unfold mode1_ptrs, mode9_ptrs. rewrite !list_elem_of_In, !in_map_iff. split.
  - intros [[(n & <- & Hn) Ha] | [-> | [(n & <- & Hn) Ha]]]; [right | by left | right].
    + apply in_seq in Hn. rewrite (contains_mode1 s n (proj2 Hn)). by rewrite Ha.
    + apply in_seq in Hn. rewrite (contains_mode9 s n (proj2 Hn)). by rewrite Ha.
  - intros [->|Hc]; [tauto|]. destruct c as [n| |n]; [left | done | right; right].
    + destruct (Nat.lt_ge_cases n 79) as [Hn|Hn].
      * rewrite contains_mode1 in Hc by done. split; [exists n; split; [done | apply in_seq; exact (conj (Nat.le_0_l n) Hn)]|].
        by destruct (advertised s (Mode1 n)).
      * cbn [OBDIICommandSetContainsCommand command_at] in Hc. by rewrite lookup_ge_None_2 in Hc.
    + destruct (Nat.lt_ge_cases n 3) as [Hn|Hn].
      * rewrite contains_mode9 in Hc by done. split; [exists n; split; [done | apply in_seq; exact (conj (Nat.le_0_l n) Hn)]|].
        by destruct (advertised s (Mode9 n)).
      * cbn [OBDIICommandSetContainsCommand command_at] in Hc. by rewrite lookup_ge_None_2 in Hc.
Qed.

Lemma cursor_at_nil m : cursor_at [] m = (repeat None m, 0%nat).
Proof. reflexivity. Qed.

Lemma push_mode1 s cs m :
  push_supported s mode1_ptrs (cursor_at cs (length (List.filter (advertised s) mode1_ptrs) + m))
  = Ret (cursor_at (cs ++ List.filter (advertised s) mode1_ptrs) m).
Proof.
  apply push_supported_all. intros c Hc. apply list_elem_of_In, in_map_iff in Hc as (n & <- & Hn%in_seq).
  exact (contains_mode1 s n (proj2 Hn)).
Qed.

Lemma push_mode9 s cs m :
  push_supported s mode9_ptrs (cursor_at cs (length (List.filter (advertised s) mode9_ptrs) + m))
  = Ret (cursor_at (cs ++ List.filter (advertised s) mode9_ptrs) m).
Proof.
  apply push_supported_all. intros c Hc. apply list_elem_of_In, in_map_iff in Hc as (n & <- & Hn%in_seq).
  exact (contains_mode9 s n (proj2 Hn)).
Qed.

Lemma length_listed_parts s m :
  (length (listed s) + m
   = length (List.filter (advertised s) mode1_ptrs) + S (length (List.filter (advertised s) mode9_ptrs) + m))%nat.
Proof. unfold listed. rewrite !length_app. cbn [length]. lia. Qed.

Lemma fill_array s :
  (a ← push_supported s mode1_ptrs (repeat None (length (listed s) + spare s), 0%nat);
   a ← push Mode3 a; push_supported s mode9_ptrs a)
  = Ret (cursor_at (listed s) (spare s)).
Proof.
  rewrite <- cursor_at_nil, length_listed_parts, push_mode1, ret_bind, push_cell, ret_bind, push_mode9.
  unfold listed. rewrite app_nil_l, <- app_assoc. reflexivity.
Qed.

(** C12: Whatever the vehicle answers, asking it for its commands ends, stays
    inside the allocated array and releases the lock of a shared socket; the
    array lists the trouble codes and exactly the commands that
    [OBDIICommandSetContainsCommand] accepts, and [numCommands] exceeds their
    number by one cell, never written, when the vehicle supports parameter 3 of
    mode 9. *)
Theorem supported_commands_listed l :
  link_ok l ->
  exists s l',
    OBDIIGetSupportedCommands true (Some l)
    = Ret (Some (CommandSet s (Z.of_nat (length (listed s) + spare s))
                   (Some (map Some (listed s) ++ repeat None (spare s))), Some l'))
    /\ after_query l l'
    /\ (forall c, c ∈ listed s <-> c = Mode3 \/ OBDIICommandSetContainsCommand (Some s) (Some c) = Ret 1).
Proof.
  intros Hl. destruct (supported_words_ok l Hl) as (s & l' & Hw & Hs & Ha).
  exists s, l'. split; [|split; [done | apply elem_of_listed]].
  unfold OBDIIGetSupportedCommands. rewrite Hw, ret_bind. cbn [fst snd].
  rewrite (count_commands_listed s Hs), Nat2Z.id.
  pose proof (fill_array s) as Hf. apply bind_Ret in Hf as (a & -> & Hf). rewrite ret_bind.
  apply bind_Ret in Hf as (a' & -> & Hf). rewrite ret_bind, Hf, ret_bind. done.
Qed.

Lemma commands_allocated socket s l' :
  OBDIIGetSupportedCommands true socket = Ret (Some (s, l')) -> is_Some (commands s).
Proof.
  unfold OBDIIGetSupportedCommands. intros (w & _ & H)%bind_Ret.
  destruct (count_commands w.1) as [n|]; [|done]. apply bind_Ret in H as (a1 & _ & H).
  apply bind_Ret in H as (a2 & _ & H). apply bind_Ret in H as (a3 & _ & H).
  injection H as <- _. by eexists.
Qed.

Module QueryWitness.

(** A vehicle that supports parameters of the first range and, in mode 9, the
    parameters 1 to 3. *)
Definition vehicle (shared : bool) : link :=
  Link shared false
    [Exchange 2 1 (Some [0x41; 0x00; 0xBE; 0x3E; 0xB8; 0x10]);
     Exchange 2 1 (Some [0x49; 0x00; 0xE0; 0x00; 0x00; 0x00])] [].

Lemma vehicle_ok shared : link_ok (vehicle shared).
Proof.
  unfold link_ok, vehicle. cbn [l_next].
  repeat apply Forall_cons_2; cbn [x_reply]; [apply (bool_decide_unpack _); vm_compute; exact I ..|].
  apply Forall_nil_2.
Qed.

(** A speed of 50 km/h, no answer to the question for the engine speed, and two
    trouble codes. *)
Definition talkative : link :=
  Link true false
    [Exchange 2 1 (Some [0x41; 0x0D; 50]); silence; Exchange 2 1 (Some [0x43; 2; 0x03; 0x01; 0xD2; 0x34])] [].

Lemma queries_typed_witness :
  exists rs l', perform_queries [Mode1 0x0D; Mode1 0x0C; Mode3] (Some talkative) = Ret (rs, Some l')
    /\ map success rs = [1; 0; 1] /\ l_sent l' = [[1; 0x0D]; [1; 0x0C]; [3; 0]].
Proof.
  destruct (queries_typed [Mode1 0x0D; Mode1 0x0C; Mode3] talkative) as (rs & Hq & _).
  - unfold link_ok, talkative. cbn [l_next].
    repeat (apply Forall_cons_2 || apply Forall_nil_2); cbn [x_reply silence]; try exact I;
      repeat (apply Forall_cons_2 || apply Forall_nil_2); unfold is_byte; lia.
  - repeat apply Forall_cons_2; [by eexists ..| apply Forall_nil_2].
  - do 2 eexists. split; [exact Hq|]. vm_compute in Hq. injection Hq as <-. split; reflexivity.
Defined.

Lemma supported_commands_listed_witness :
  exists s l', OBDIIGetSupportedCommands true (Some (vehicle true)) = Ret (Some (s, Some l'))
               /\ l_locked l' = false /\ is_Some (commands s).
Proof.
  destruct (supported_commands_listed (vehicle true) (vehicle_ok true)) as (s & l' & H & (_ & Hl & _) & _).
  do 2 eexists. split; [exact H|]. split; [exact Hl | by eexists].
Defined.

(** The 22nd command of that vehicle is an uninitialised pointer. *)
Lemma last_command_uninitialised :
  match OBDIIGetSupportedCommands true (Some (vehicle false)) with
  | Ret (Some (s, _)) => numCommands s = 22 /\ commands s ≫= (.!! 21%nat) = Some None
  | _ => False
  end.
Proof. vm_compute. split; reflexivity. Qed.

(** A reply that is longer than the command's length passes the length test,
    because [read] has cut it. *)
Lemma long_reply_accepted :
  exists l', OBDIIPerformQuery (Some (Link false false [Exchange 2 1 (Some [0x41; 0x0D; 50; 99; 99])] []))
               (Some (Mode1 0x0D))
             = Ret (Response 1 (Some (Mode1 0x0D)) (NumericValue (float_of_Z 50)), Some l').
Proof. eexists. vm_compute. reflexivity. Qed.

End QueryWitness.
