(* ===== verification/ObdiiDaemon.v ===== *)
(** * The OBD-II socket daemon and its clients
      (src/plugins/pip/obdii/ejv_obdii/OBDIIDaemon.c, OBDIIDaemon.h, OBDIICommunication.c)

    The daemon opens one ISO-TP socket per interface and pair of CAN
    identifiers, counts the clients that use it and hands the descriptor out.
    Its connections form a doubly linked list in the heap, modelled as a map
    from addresses to nodes with their [prev] and [next] members.  The abstract
    specification is a map from keys to a descriptor and a count; the daemon is
    shown to refine it for every sequence of datagrams.

    The kernel's part is explicit: [new_fd] chooses a descriptor that is not
    open, and an event per datagram says whether [socket], [bind] and [malloc]
    succeed.  Sends succeed; their results are only logged.  A [char] is
    unsigned on the ARM boards of the project and signed on a PC, which matters
    for the hexadecimal dump of a request, so it is a parameter. *)

From S2P Require Import Prelude CStd Floats Obdii.

(** ** OBDIIDaemon.h *)

Definition OBDIIDaemonRequestOpenSocket : Z := 0.
Definition OBDIIDaemonRequestCloseSocket : Z := 1.
Definition OBDIIDaemonResponseCodeSuccess : Z := 0.
Definition OBDIIDaemonResponseCodeNoSuchSocket : Z := 1.
Definition OBDIIDaemonResponseCodeOpenSocketError : Z := 2.
Definition OBDII_DAEMON_REQUEST_MAX_SIZE : nat := 100.
Definition OBDII_DAEMON_REQUEST_HEADER_SIZE : Z := 4.
Definition OBDII_API_VERSION : Z := 1.

(** ** The state of the daemon *)

Record OBDIISocketConnection := Connection {
  ifindex : Z; tid : Z; rid : Z; s : Z; refcount : Z;
  prev : option positive; next : option positive }.

Definition set_refcount (n : Z) (c : OBDIISocketConnection) : OBDIISocketConnection :=
  Connection (ifindex c) (tid c) (rid c) (s c) n (prev c) (next c).
Definition set_prev (p : option positive) (c : OBDIISocketConnection) : OBDIISocketConnection :=
  Connection (ifindex c) (tid c) (rid c) (s c) (refcount c) p (next c).
Definition set_next (p : option positive) (c : OBDIISocketConnection) : OBDIISocketConnection :=
  Connection (ifindex c) (tid c) (rid c) (s c) (refcount c) (prev c) p.

(** What a client receives: a response code or a descriptor. *)
Inductive reply : Set :=
| Code (c : Z)
| Descriptor (fd : Z).

Record daemon := Daemon {
  heap : gmap positive OBDIISocketConnection;
  obdiiSockets : option positive;
  open_fds : gset Z;
  replies : list reply }.

Record event := Event { e_socket : bool; e_bind : bool; e_malloc : bool }.

Abbreviation key := (Z * Z * Z)%type (only parsing).

Definition set_heap (h : gmap positive OBDIISocketConnection) (d : daemon) : daemon :=
  Daemon h (obdiiSockets d) (open_fds d) (replies d).
Definition set_sockets (p : option positive) (d : daemon) : daemon :=
  Daemon (heap d) p (open_fds d) (replies d).
Definition set_fds (f : gset Z) (d : daemon) : daemon :=
  Daemon (heap d) (obdiiSockets d) f (replies d).
Definition reply_with (r : reply) (d : daemon) : daemon :=
  Daemon (heap d) (obdiiSockets d) (open_fds d) (replies d ++ [r]).

(** A node that is not in the heap was freed or never allocated. *)
Definition node_at (h : gmap positive OBDIISocketConnection) (a : positive) : out OBDIISocketConnection :=
  match h !! a with Some c => Ret c | None => Undef OobRead end.

Definition update_node (f : OBDIISocketConnection -> OBDIISocketConnection) (a : positive) (d : daemon)
    : out daemon :=
  c ← node_at (heap d) a; Ret (set_heap (<[a := f c]> (heap d)) d).

(** ** Connections *)

(** The search loop; [None] when [fuel] rounds do not reach the end. *)
Fixpoint search (fuel : nat) (h : gmap positive OBDIISocketConnection) (k : key) (found : option positive)
    : out (option (option positive)) :=
  match found with
  | None => Ret (Some None)
  | Some a =>
      match fuel with
      | O => Ret None
      | S fuel =>
          c ← node_at h a;
          if (tid c =? k.1.2) && (rid c =? k.2) && (ifindex c =? k.1.1) then Ret (Some (Some a))
          else search fuel h k (next c)
      end
  end.

(** A list visits each node of the heap at most once. *)
Definition socketConnectionMatchingParams (k : key) (d : daemon) : out (option (option positive)) :=
  search (size (heap d)) (heap d) k (obdiiSockets d).

Definition close_fd (fd : Z) (d : daemon) : daemon := set_fds (open_fds d ∖ {[fd]}) d.

Section Daemon.
Context (new_fd : gset Z -> Z).

Definition openSocketConnection (ev : event) (k : key) (d : daemon) : out (option positive * daemon) :=
  if negb (e_socket ev) then Ret (None, d)
  else
    let fd := new_fd (open_fds d) in
    let d := set_fds ({[fd]} ∪ open_fds d) d in
    if negb (e_bind ev) then Ret (None, close_fd fd d)
    else if e_malloc ev then
      let a := fresh (dom (heap d)) in
      let conn := Connection k.1.1 k.1.2 k.2 fd 1 None (obdiiSockets d) in
      let d' := set_heap (<[a := conn]> (heap d)) d in
      d' ← match obdiiSockets d with
           | Some b => update_node (set_prev (Some a)) b d'
           | None => Ret d'
           end;
      Ret (Some a, set_sockets (Some a) d')
    else Ret (None, close_fd fd d).

Definition closeSocketConnection (conn : option positive) (d : daemon) : out daemon :=
  match conn with
  | None => Ret d
  | Some a =>
      d ← update_node (fun c => set_refcount (refcount c - 1) c) a d;
      c ← node_at (heap d) a;
      if refcount c =? 0 then
        let d := close_fd (s c) d in
        d ← match prev c with
            | Some p => update_node (set_next (next c)) p d
            | None => Ret (set_sockets (next c) d)
            end;
        d ← match next c with
            | Some n => update_node (set_prev (prev c)) n d
            | None => Ret d
            end;
        Ret (set_heap (delete a (heap d)) d)
      else Ret d
  end.

(** ** Requests *)

Definition asuint32 (buf : bytes) (i : Z) : out Z :=
  b0 ← load buf i; b1 ← load buf (i + 1); b2 ← load buf (i + 2); b3 ← load buf (i + 3);
  Ret (u32 (Z.lor (Z.lor (Z.lor b0 (Z.shiftl b1 8)) (Z.shiftl b2 16)) (Z.shiftl b3 24))).

Definition sendResponseCode (c : Z) (d : daemon) : daemon := reply_with (Code c) d.
Definition sendFD (fd : Z) (d : daemon) : daemon := reply_with (Descriptor fd) d.

(** [handleSocketRequest] once the parameters are read; the outer result is
    [None] when the search does not end. *)
Definition request_for (ev : event) (k : key) (shouldOpen : bool) (d : daemon) : out (option daemon) :=
  found ← socketConnectionMatchingParams k d;
  match found with
  | None => Ret None
  | Some found =>
      if shouldOpen then
        opened ← match found with
                 | Some a =>
                     c ← node_at (heap d) a;
                     _ ← ensure (refcount c <? int_max) IntOverflow;
                     d ← update_node (set_refcount (refcount c + 1)) a d;
                     Ret (Some a, d)
                 | None => openSocketConnection ev k d
                 end;
        match opened.1 with
        | None => Ret (Some (sendResponseCode OBDIIDaemonResponseCodeOpenSocketError opened.2))
        | Some a =>
            let d := sendResponseCode OBDIIDaemonResponseCodeSuccess opened.2 in
            c ← node_at (heap d) a;
            Ret (Some (sendFD (s c) d))
        end
      else
        match found with
        | Some a =>
            d ← closeSocketConnection (Some a) d;
            Ret (Some (sendResponseCode OBDIIDaemonResponseCodeSuccess d))
        | None => Ret (Some (sendResponseCode OBDIIDaemonResponseCodeNoSuchSocket d))
        end
  end.

Definition handleSocketRequest (ev : event) (request : bytes) (requestLen : Z) (shouldOpen : bool)
    (d : daemon) : out (option daemon) :=
  if requestLen <? 12 then Ret (Some d)
  else
    i ← asuint32 request 0; t ← asuint32 request 4; r ← asuint32 request 8;
    request_for ev (i, t, r) shouldOpen d.

Definition handleMessage (ev : event) (request : bytes) (requestLen : Z) (d : daemon)
    : out (option daemon) :=
  if requestLen <? OBDII_DAEMON_REQUEST_HEADER_SIZE then Ret (Some d)
  else
    b0 ← load request 0; b1 ← load request 1; b2 ← load request 2; b3 ← load request 3;
    let apiVersion := u16 (Z.lor b0 (Z.shiftl b1 8)) in
    let requestType := u16 (Z.lor b2 (Z.shiftl b3 8)) in
    if apiVersion =? 1 then
      payload ← tail_from request OBDII_DAEMON_REQUEST_HEADER_SIZE;
      let payloadLen := requestLen - OBDII_DAEMON_REQUEST_HEADER_SIZE in
      if requestType =? OBDIIDaemonRequestOpenSocket then
        handleSocketRequest ev payload payloadLen true d
      else if requestType =? OBDIIDaemonRequestCloseSocket then
        handleSocketRequest ev payload payloadLen false d
      else Ret (Some d)
    else Ret (Some d).

(** ** The main loop *)

Definition hex_lower (n : Z) : Z := nth_char "0123456789abcdef" n.

(** [sprintf("%02x", src[i])]: a negative [char] is converted to a 32-bit
    unsigned number. *)
Definition print_02x (char_signed : bool) (b : Z) : bytes :=
  (if char_signed && (128 <=? b) then cstr "ffffff" else [])
  ++ [hex_lower (b / 16); hex_lower (b mod 16)].

Fixpoint dump (char_signed : bool) (dest : bytes) (off : Z) (src : bytes) : out bytes :=
  match src with
  | [] => Ret dest
  | b :: src =>
      dest ← blit dest off (print_02x char_signed b ++ [0]);
      dump char_signed dest (off + 2) src
  end.

(** One round: the datagram is cut to the buffer, dumped and handled. *)
Definition serve_datagram (char_signed : bool) (ev : event) (datagram : bytes) (d : daemon) : out (option daemon) :=
  let request := take OBDII_DAEMON_REQUEST_MAX_SIZE datagram in
  let requestLen := Z.of_nat (length request) in
  _ ← dump char_signed (repeat 0 (Z.to_nat (requestLen * 2 + 1))) 0 request;
  handleMessage ev request requestLen d.

Fixpoint serve_datagrams (char_signed : bool) (ms : list (event * bytes)) (d : daemon) : out (option daemon) :=
  match ms with
  | [] => Ret (Some d)
  | m :: ms =>
      d ← serve_datagram char_signed m.1 m.2 d;
      match d with None => Ret None | Some d => serve_datagrams char_signed ms d end
  end.

End Daemon.

Definition daemon0 : daemon := Daemon ∅ None ∅ [].

(** [main]: the server socket, the path it is bound to, and the loop until
    [recvfrom] fails; a path that does not exist is no failure of [unlink].  The
    result is the exit code and the daemon; [None]: a datagram never ends. *)
Definition EXIT_FAILURE : Z := 1.

Definition obdiid_main (new_fd : gset Z -> Z) (socket_ok unlink_ok no_entry bind_ok char_signed : bool)
    (ms : list (event * bytes)) : out (option (Z * daemon)) :=
  if negb socket_ok then Ret (Some (EXIT_FAILURE, daemon0)) else
  if negb unlink_ok && negb no_entry then Ret (Some (EXIT_FAILURE, daemon0)) else
  if negb bind_ok then Ret (Some (EXIT_FAILURE, daemon0)) else
  d ← serve_datagrams new_fd char_signed ms daemon0;
  Ret (match d with Some d => Some (EXIT_FAILURE, d) | None => None end).

(** The log, which is left out when its file cannot be opened: the time, a space,
    the message and a newline. *)
Definition Log (log_file : option bytes) (timestr message : bytes) : option bytes :=
  f ← log_file; Some (f ++ timestr ++ [32] ++ message ++ [10]).

(** ** The linked list *)

(** A connection as data: its key, its descriptor and the count of its clients. *)
Abbreviation entry := (key * (Z * Z))%type (only parsing).

Definition node (e : entry) (p n : option positive) : OBDIISocketConnection :=
  Connection e.1.1.1 e.1.1.2 e.1.2 e.2.1 e.2.2 p n.

(** The address of the first node of a segment, or what follows it. *)
Definition first_or (l : list (positive * entry)) (nx : option positive) : option positive :=
  match l with [] => nx | (a, _) :: _ => Some a end.

(** The address of the last node of a segment, or what precedes it. *)
Fixpoint last_or (pp : option positive) (l : list (positive * entry)) : option positive :=
  match l with [] => pp | (a, _) :: l => last_or (Some a) l end.

(** The heap holds the segment [l] between the nodes [pp] and [nx]. *)
Fixpoint links (h : gmap positive OBDIISocketConnection) (pp : option positive)
    (l : list (positive * entry)) (nx : option positive) : Prop :=
  match l with
  | [] => True
  | (a, e) :: l => h !! a = Some (node e pp (first_or l nx)) /\ links h (Some a) l nx
  end.

Lemma first_or_app l1 l2 nx : first_or (l1 ++ l2) nx = first_or l1 (first_or l2 nx).
Proof. by destruct l1 as [|[a e] l1]. Qed.

Lemma links_app h pp l1 l2 nx :
  links h pp (l1 ++ l2) nx <-> links h pp l1 (first_or l2 nx) /\ links h (last_or pp l1) l2 nx.
Proof.
  revert pp; induction l1 as [|[a e] l1 IH]; intros pp; cbn [app links last_or]; [tauto|].
  rewrite IH, first_or_app. tauto.
Qed.

Lemma links_frame h h' pp l nx :
  (forall a, a ∈ l.*1 -> h' !! a = h !! a) -> links h pp l nx -> links h' pp l nx.
Proof.
  revert pp; induction l as [|[a e] l IH]; intros pp Hh; cbn [links]; [done|].
  intros [Ha Hl]. split; [rewrite Hh; [done | cbn; set_solver]|].
  apply IH; [|done]. intros b Hb. apply Hh. cbn. set_solver.
Qed.

Lemma links_insert h a c pp l nx : a ∉ l.*1 -> links h pp l nx -> links (<[a := c]> h) pp l nx.
Proof. intros Ha. apply links_frame. intros b Hb. apply lookup_insert_ne. set_solver. Qed.

Lemma links_delete h a pp l nx : a ∉ l.*1 -> links h pp l nx -> links (delete a h) pp l nx.
Proof. intros Ha. apply links_frame. intros b Hb. apply lookup_delete_ne. set_solver. Qed.

(** [set_prev] on the first node. *)
Lemma links_set_prev h pp pp' b e l nx :
  b ∉ l.*1 -> links h pp ((b, e) :: l) nx ->
  links (<[b := node e pp' (first_or l nx)]> h) pp' ((b, e) :: l) nx.
Proof.
  cbn [links]. intros Hb [_ Hl]. split; [apply lookup_insert_eq | by apply links_insert].
Qed.

(** [set_next] on the last node. *)
Lemma links_set_next h pp l b e nx nx' :
  b ∉ l.*1 -> links h pp (l ++ [(b, e)]) nx ->
  links (<[b := node e (last_or pp l) nx']> h) pp (l ++ [(b, e)]) nx'.
Proof.
  rewrite !links_app. cbn [first_or links]. intros Hb (Hl & _ & _).
  split; [by apply links_insert|]. split; [apply lookup_insert_eq | done].
Qed.

Lemma links_lookup h pp l1 a e l2 nx :
  links h pp (l1 ++ (a, e) :: l2) nx -> h !! a = Some (node e (last_or pp l1) (first_or l2 nx)).
Proof. rewrite links_app. cbn [links]. tauto. Qed.

(** The data of a node changes in place. *)
Lemma links_data h pp l1 a e e' l2 nx :
  a ∉ l1.*1 -> a ∉ l2.*1 -> links h pp (l1 ++ (a, e) :: l2) nx ->
  links (<[a := node e' (last_or pp l1) (first_or l2 nx)]> h) pp (l1 ++ (a, e') :: l2) nx.
Proof.
  intros H1 H2. rewrite !links_app. cbn [links first_or]. intros (Hl1 & _ & Hl2).
  split; [by apply links_insert|]. split; [apply lookup_insert_eq | by apply links_insert].
Qed.

Lemma search_links fuel h pp l k :
  links h pp l None -> (length l <= fuel)%nat ->
  search fuel h k (first_or l None)
  = Ret (Some (fst <$> List.find (fun ae => bool_decide (ae.2.1 = k)) l)).
Proof.
  revert pp fuel; induction l as [|[a [[[i t] r] v]] l IH]; intros pp fuel; cbn [first_or links].
  { by destruct fuel. }
  intros [Ha Hl] Hf. cbn [length] in Hf. destruct fuel as [|fuel]; [lia|].
  cbn [search List.find fst snd]. unfold node_at. rewrite Ha, ret_bind. cbn [node tid rid ifindex next].
  destruct k as [[i' t'] r']. cbn [fst snd].
  case_bool_decide as Hk.
  - injection Hk as -> -> ->. by rewrite !Z.eqb_refl.
  - destruct (Z.eqb_spec t t'), (Z.eqb_spec r r'), (Z.eqb_spec i i'); cbn [andb];
      try (by apply (IH (Some a)); [|lia]). congruence.
Qed.

Lemma last_or_snoc pp l b e : last_or pp (l ++ [(b, e)]) = Some b.
Proof. revert pp; induction l as [|[a e'] l IH]; intros pp; cbn; auto. Qed.

(** [d'] differs from [d] in the links of the nodes [l] only. *)
Record relinked (l : list (positive * entry)) (d d' : daemon) : Prop := Relinked {
  rl_frame : forall b, b ∉ l.*1 -> heap d' !! b = heap d !! b;
  rl_dom : dom (heap d') = dom (heap d);
  rl_fds : open_fds d' = open_fds d;
  rl_replies : replies d' = replies d }.

Lemma update_relinked l f a d c :
  heap d !! a = Some c -> a ∈ l.*1 ->
  update_node f a d = Ret (set_heap (<[a := f c]> (heap d)) d)
  /\ relinked l d (set_heap (<[a := f c]> (heap d)) d).
Proof.
  intros Ha Hl. unfold update_node, node_at. rewrite Ha. split; [done|]. split; cbn; try done.
  - intros b Hb. apply lookup_insert_ne. set_solver.
  - rewrite dom_insert_lookup_L; [done | by eexists].
Qed.

(** [prev->next = nx], or the head of the list when there is no node before. *)
Lemma relink_prev d l nx nx0 :
  links (heap d) None l nx0 -> NoDup l.*1 ->
  exists d', match last_or None l with
             | Some p => update_node (set_next nx) p d
             | None => Ret (set_sockets nx d)
             end = Ret d'
    /\ relinked l d d' /\ links (heap d') None l nx
    /\ obdiiSockets d' = match l with [] => nx | _ => obdiiSockets d end.
Proof.
  destruct l as [|[b e] l _] using rev_ind.
  { intros _ _. exists (set_sockets nx d). by repeat split. }
  intros Hl Hnd. rewrite last_or_snoc. pose proof (links_lookup _ _ _ _ _ [] _ Hl) as Hb.
  rewrite fmap_app in Hnd. apply list.NoDup_app in Hnd as (_ & Hnb & _).
  destruct (update_relinked (l ++ [(b, e)]) (set_next nx) b d _ Hb) as [Hu Hr].
  { rewrite fmap_app. set_solver. }
  eexists. split; [exact Hu|]. split; [exact Hr|]. split.
  - apply (links_set_next _ _ _ _ _ nx0); [|done]. intros H. apply (Hnb b H). cbn. set_solver.
  - by destruct l as [|[? ?] l].
Qed.

(** [next->prev = pp]. *)
Lemma relink_next d l pp pp0 :
  links (heap d) pp0 l None -> NoDup l.*1 ->
  exists d', match first_or l None with
             | Some n => update_node (set_prev pp) n d
             | None => Ret d
             end = Ret d'
    /\ relinked l d d' /\ links (heap d') pp l None /\ obdiiSockets d' = obdiiSockets d.
Proof.
  destruct l as [|[b e] l]; intros Hl Hnd.
  { exists d. by repeat split. }
  cbn [fmap list_fmap] in Hnd. apply list.NoDup_cons in Hnd as [Hnb _].
  cbn [first_or]. pose proof (links_lookup _ _ [] _ _ l _ Hl) as Hb.
  destruct (update_relinked ((b, e) :: l) (set_prev pp) b d _ Hb) as [Hu Hr]; [cbn; set_solver|].
  eexists. split; [exact Hu|]. split; [exact Hr|]. split; [|done].
  by apply (links_set_prev _ pp0).
Qed.

(** The nodes of the heap are those of the list, its keys and descriptors are
    distinct, and the descriptors are the ones that are open. *)
Definition fd_of (ae : positive * entry) : Z := ae.2.2.1.

Record represents (d : daemon) (l : list (positive * entry)) : Prop := Represents {
  r_links : links (heap d) None l None;
  r_dom : dom (heap d) = list_to_set l.*1;
  r_head : obdiiSockets d = first_or l None;
  r_addresses : NoDup l.*1;
  r_keys : NoDup l.*2.*1;
  r_open : open_fds d = list_to_set (fd_of <$> l);
  r_fds : NoDup (fd_of <$> l) }.

Lemma represents_size d l : represents d l -> size (heap d) = length l.
Proof.
  intros Hd. rewrite <- size_dom, (r_dom d l Hd), size_list_to_set by apply Hd. apply length_fmap.
Qed.

Lemma find_key (l : list (positive * entry)) k :
  (exists l1 a v l2, l = l1 ++ (a, (k, v)) :: l2
     /\ List.find (fun ae => bool_decide (ae.2.1 = k)) l = Some (a, (k, v)))
  \/ (k ∉ l.*2.*1 /\ List.find (fun ae => bool_decide (ae.2.1 = k)) l = None).
Proof.
  induction l as [|[a [k' v]] l IH]; cbn; [right; set_solver|].
  case_bool_decide as Hk; cbn in Hk.
  - subst k'. left. by exists [], a, v, l.
  - destruct IH as [(l1 & b & w & l2 & -> & Hf) | [Hn Hf]]; [left | right; set_solver].
    by exists ((a, (k', v)) :: l1), b, w, l2.
Qed.

Lemma nodup_middle {A B} (f : A -> B) l1 x l2 :
  NoDup (f <$> l1 ++ x :: l2) ->
  NoDup (f <$> l1 ++ l2) /\ f x ∉ f <$> l1 /\ f x ∉ f <$> l2 /\ f x ∉ f <$> l1 ++ l2.
Proof.
  rewrite <- Permutation_middle. cbn. rewrite list.NoDup_cons, fmap_app, not_elem_of_app. tauto.
Qed.

(** ** The operations on the list *)

Lemma node_refcount k fd n m p nx :
  set_refcount m (node (k, (fd, n)) p nx) = node (k, (fd, m)) p nx.
Proof. done. Qed.

(** The count of one connection changes. *)
Lemma set_count d l1 a k fd n l2 f m :
  represents d (l1 ++ (a, (k, (fd, n))) :: l2) ->
  (forall p nx, f (node (k, (fd, n)) p nx) = node (k, (fd, m)) p nx) ->
  exists d', update_node f a d = Ret d' /\ represents d' (l1 ++ (a, (k, (fd, m))) :: l2)
             /\ replies d' = replies d.
Proof.
  intros [Hl Hdom Hh Ha Hk Ho Hf] Hfn. pose proof (links_lookup _ _ _ _ _ _ _ Hl) as Hn.
  pose proof (nodup_middle fst _ _ _ Ha) as (_ & H1 & H2 & _). cbn [fst] in H1, H2.
  unfold update_node, node_at. rewrite Hn, ret_bind, Hfn. eexists. split; [done|]. split; [|done].
  split; cbn [heap set_heap obdiiSockets open_fds].
  - by apply (links_data _ _ _ _ (k, (fd, n))).
  - rewrite dom_insert_lookup_L by (by eexists). rewrite Hdom. by rewrite !fmap_app.
  - rewrite Hh. by destruct l1 as [|[? ?] ?].
  - by rewrite fmap_app in *.
  - by rewrite !fmap_app in *.
  - rewrite Ho. by rewrite !fmap_app.
  - by rewrite fmap_app in *.
Qed.

Lemma search_represents d l k :
  represents d l ->
  socketConnectionMatchingParams k d
  = Ret (Some (fst <$> List.find (fun ae => bool_decide (ae.2.1 = k)) l)).
Proof.
  intros Hd. unfold socketConnectionMatchingParams. rewrite (r_head d l Hd).
  apply (search_links _ _ None); [apply Hd|]. by rewrite (represents_size d l Hd).
Qed.

Lemma links_ends h l1 a e l2 :
  links h None (l1 ++ (a, e) :: l2) None ->
  links h None l1 (Some a) /\ links h (Some a) l2 None.
Proof. rewrite links_app. cbn [links first_or]. tauto. Qed.

(** The last client of a connection leaves: the node is unlinked and freed and
    its descriptor closed. *)
Lemma close_last d l1 a k fd l2 :
  represents d (l1 ++ (a, (k, (fd, 1))) :: l2) ->
  exists d', closeSocketConnection (Some a) d = Ret d' /\ represents d' (l1 ++ l2)
             /\ replies d' = replies d.
Proof.
  intros Hd. unfold closeSocketConnection.
  destruct (set_count d l1 a k fd 1 l2 (fun c => set_refcount (refcount c - 1) c) 0 Hd) as (d1 & -> & H1 & R1);
    [done|].
  rewrite ret_bind. unfold node_at. rewrite (links_lookup _ _ _ _ _ _ _ (r_links _ _ H1)), ret_bind.
  cbn [node refcount s prev next fst snd]. rewrite Z.eqb_refl. destruct H1 as [Hl Hdom Hh Ha Hk Ho Hf].
  destruct (links_ends _ _ _ _ _ Hl) as [Hl1 Hl2].
  destruct (nodup_middle fst _ _ _ Ha) as (Ha' & Ha1 & Ha2 & Ha12). cbn [fst] in Ha1, Ha2, Ha12.
  pose proof Ha' as Hsplit. rewrite fmap_app in Hsplit. apply list.NoDup_app in Hsplit as (N1 & N12 & N2).
  destruct (relink_prev (close_fd fd d1) l1 (first_or l2 None) (Some a) Hl1 N1)
    as (d2 & E2 & [F2 D2 O2 P2] & L2 & S2).
  change (match last_or None l1 with Some p => _ | None => _ end)
    with (match last_or None l1 with
          | Some p => update_node (set_next (first_or l2 None)) p (close_fd fd d1)
          | None => Ret (set_sockets (first_or l2 None) (close_fd fd d1)) end).
  rewrite E2, ret_bind.
  assert (links (heap d2) (Some a) l2 None) as Hl2'.
  { apply (links_frame (heap d1)); [|done]. intros b Hb. apply F2. intros Hb'. exact (N12 b Hb' Hb). }
  destruct (relink_next d2 l2 (last_or None l1) (Some a) Hl2' N2) as (d3 & E3 & [F3 D3 O3 P3] & L3 & S3).
  rewrite E3, ret_bind. eexists. split; [done|]. split; [|cbn; by rewrite P3, P2].
  destruct (nodup_middle fd_of _ _ _ Hf) as (Hf' & _ & _ & Hfd). cbn in Hfd.
  split; cbn [heap set_heap obdiiSockets open_fds].
  - apply links_delete; [done|]. apply links_app. split; [|done].
    apply (links_frame (heap d2)); [|done]. intros b Hb. apply F3. exact (N12 b Hb).
  - rewrite dom_delete_L, D3, D2. cbn [close_fd heap set_fds]. rewrite Hdom, !fmap_app, fmap_cons.
    cbn [fst]. rewrite !list_to_set_app_L. rewrite fmap_app in Ha12. set_solver.
  - rewrite S3, S2, first_or_app. cbn. rewrite Hh. by destruct l1 as [|[? ?] l1].
  - done.
  - rewrite fmap_app, fmap_cons in Hk. by destruct (nodup_middle fst _ _ _ Hk) as (Hk' & _); rewrite fmap_app.
  - rewrite O3, O2. cbn [close_fd set_fds open_fds]. rewrite Ho, !fmap_app, fmap_cons. cbn [fd_of snd fst].
    rewrite !list_to_set_app_L. rewrite fmap_app in Hfd. set_solver.
  - done.
Qed.

Lemma close_shared d l1 a k fd n l2 :
  represents d (l1 ++ (a, (k, (fd, n))) :: l2) -> n <> 1 ->
  exists d', closeSocketConnection (Some a) d = Ret d'
             /\ represents d' (l1 ++ (a, (k, (fd, n - 1))) :: l2) /\ replies d' = replies d.
Proof.
  intros Hd Hn. unfold closeSocketConnection.
  destruct (set_count d l1 a k fd n l2 (fun c => set_refcount (refcount c - 1) c) (n - 1) Hd) as (d1 & -> & H1 & R1);
    [done|].
  rewrite ret_bind. unfold node_at. rewrite (links_lookup _ _ _ _ _ _ _ (r_links _ _ H1)), ret_bind.
  cbn [node refcount fst snd]. rewrite (proj2 (Z.eqb_neq _ 0)) by lia. by exists d1.
Qed.

(** ** The specification: counted descriptors by key *)

Abbreviation table := (gmap key (Z * Z)) (only parsing).

Definition table_of (l : list entry) : table := list_to_map l.

Definition fds_of (t : table) : gset Z := list_to_set ((fun kv => kv.2.1) <$> map_to_list t).

Section Refinement.
Context (new_fd : gset Z -> Z) (new_fd_fresh : forall F, new_fd F ∉ F).

(** The first client of a key opens a socket, the others share it. *)
Definition spec_open (ev : event) (k : key) (t : table) : table * list reply :=
  match t !! k with
  | Some (fd, n) => (<[k := (fd, n + 1)]> t, [Code OBDIIDaemonResponseCodeSuccess; Descriptor fd])
  | None =>
      if e_socket ev && e_bind ev && e_malloc ev
      then (<[k := (new_fd (fds_of t), 1)]> t,
            [Code OBDIIDaemonResponseCodeSuccess; Descriptor (new_fd (fds_of t))])
      else (t, [Code OBDIIDaemonResponseCodeOpenSocketError])
  end.

(** The last client of a key closes the socket. *)
Definition spec_close (k : key) (t : table) : table * list reply :=
  match t !! k with
  | Some (fd, n) => (if n =? 1 then delete k t else <[k := (fd, n - 1)]> t,
                     [Code OBDIIDaemonResponseCodeSuccess])
  | None => (t, [Code OBDIIDaemonResponseCodeNoSuchSocket])
  end.

(** A datagram is a request when it has the version, one of the two types and
    three 32-bit numbers; anything else is ignored. *)
Definition decode_request (p : bytes) : option (bool * key) :=
  if (16 <=? length p)%nat && (from_le (take 2 p) =? OBDII_API_VERSION) then
    let k := (from_le (take 4 (drop 4 p)), from_le (take 4 (drop 8 p)), from_le (take 4 (drop 12 p))) in
    let type := from_le (take 2 (drop 2 p)) in
    if type =? OBDIIDaemonRequestOpenSocket then Some (true, k)
    else if type =? OBDIIDaemonRequestCloseSocket then Some (false, k)
    else None
  else None.

Definition spec_serve (ev : event) (datagram : bytes) (t : table) : table * list reply :=
  match decode_request (take OBDII_DAEMON_REQUEST_MAX_SIZE datagram) with
  | Some (true, k) => spec_open ev k t
  | Some (false, k) => spec_close k t
  | None => (t, [])
  end.

Fixpoint spec_serve_all (ms : list (event * bytes)) (t : table) : table * list reply :=
  match ms with
  | [] => (t, [])
  | m :: ms =>
      let r := spec_serve m.1 m.2 t in
      let r' := spec_serve_all ms r.1 in (r'.1, r.2 ++ r'.2)
  end.

(** The state of the daemon stands for a table: its connections are the entries
    of the table and its open sockets are exactly their descriptors. *)
Definition refines (d : daemon) (t : table) : Prop :=
  exists l, represents d l /\ t = table_of l.*2.

Lemma fds_of_list (l : list (positive * entry)) :
  NoDup l.*2.*1 -> fds_of (table_of l.*2) = list_to_set (fd_of <$> l).
Proof.
  intros Hk. unfold fds_of, table_of. apply list_to_set_perm_L.
  etransitivity; [apply fmap_Permutation, map_to_list_to_map, Hk|].
  by rewrite <- list_fmap_compose.
Qed.

Lemma table_middle (l1 l2 : list entry) k v :
  NoDup (l1 ++ (k, v) :: l2).*1 ->
  table_of (l1 ++ (k, v) :: l2) = <[k := v]> (table_of (l1 ++ l2)) /\ table_of (l1 ++ l2) !! k = None.
Proof.
  intros Hk. split.
  - change (<[k := v]> (table_of (l1 ++ l2))) with (table_of ((k, v) :: l1 ++ l2)).
    apply list_to_map_proper; [done|]. symmetry. apply Permutation_middle.
  - apply not_elem_of_list_to_map_1. rewrite <- Permutation_middle in Hk. cbn in Hk.
    by apply list.NoDup_cons in Hk as [Hk _].
Qed.

(** What the search finds is what the table holds. *)
Lemma find_refines d l k :
  represents d l ->
  (exists l1 a fd n l2, l = l1 ++ (a, (k, (fd, n))) :: l2
     /\ socketConnectionMatchingParams k d = Ret (Some (Some a))
     /\ table_of l.*2 !! k = Some (fd, n)
     /\ (forall v, table_of (l1 ++ (a, (k, v)) :: l2).*2 = <[k := v]> (table_of l.*2))
     /\ table_of (l1 ++ l2).*2 = delete k (table_of l.*2))
  \/ (k ∉ l.*2.*1 /\ socketConnectionMatchingParams k d = Ret (Some None)
      /\ table_of l.*2 !! k = None).
Proof.
  intros Hd. rewrite (search_represents d l k Hd).
  destruct (find_key l k) as [(l1 & a & [fd n] & l2 & Hl & Hf) | [Hn Hf]]; rewrite Hf; [left | right].
  - exists l1, a, fd, n, l2. split; [done|]. split; [done|]. pose proof (r_keys d l Hd) as Hk.
    subst l. rewrite fmap_app, fmap_cons in *. cbn [snd] in *.
    assert (forall v, NoDup (l1.*2 ++ (k, v) :: l2.*2).*1) as Hk'.
    { intros v. rewrite fmap_app, fmap_cons in *. exact Hk. }
    rewrite (proj1 (table_middle _ _ k (fd, n) (Hk' _))). split; [apply lookup_insert_eq|]. split.
    + intros v. rewrite fmap_app, fmap_cons. cbn [snd].
      rewrite (proj1 (table_middle _ _ k v (Hk' v))). by rewrite insert_insert_eq.
    + rewrite fmap_app, delete_insert_id; [done|]. apply (table_middle _ _ k (fd, n) (Hk' _)).
  - split; [done|]. split; [done|]. by apply not_elem_of_list_to_map_1.
Qed.

Lemma open_new d l k ev :
  represents d l -> k ∉ l.*2.*1 ->
  let fd := new_fd (open_fds d) in
  if e_socket ev && e_bind ev && e_malloc ev
  then exists a d', openSocketConnection new_fd ev k d = Ret (Some a, d')
                    /\ represents d' ((a, (k, (fd, 1))) :: l) /\ replies d' = replies d
  else exists d', openSocketConnection new_fd ev k d = Ret (None, d')
                  /\ represents d' l /\ replies d' = replies d.
Proof.
  intros Hd Hk fd. pose proof (new_fd_fresh (open_fds d)) as Hfd. fold fd in Hfd.
  assert (represents (close_fd fd (set_fds ({[fd]} ∪ open_fds d) d)) l) as Hundo.
  { destruct Hd as [Hl Hdom Hh Ha Hks Ho Hf]. split; try done. cbn. rewrite <- Ho. set_solver. }
  unfold openSocketConnection. fold fd.
  destruct ev as [[] [] []]; cbn [e_socket e_bind e_malloc negb andb]; try (eexists; by split).
  destruct Hd as [Hl Hdom Hh Ha Hks Ho Hf]. cbn [set_fds heap obdiiSockets].
  pose proof (is_fresh (dom (heap d))) as Hna. set (a := fresh (dom (heap d))) in *.
  assert (a ∉ l.*1) as Hal by (rewrite Hdom in Hna; set_solver).
  set (d1 := set_heap _ _).
  assert (links (heap d1) None l None) as Hl1 by (by apply links_insert).
  destruct (relink_next d1 l (Some a) None Hl1 Ha) as (d2 & E2 & [F2 D2 O2 P2] & L2 & S2).
  rewrite Hh, E2, ret_bind. do 2 eexists. split; [done|]. split; [|cbn; by rewrite P2].
  split; cbn [heap set_sockets obdiiSockets open_fds links].
  - split; [|done]. rewrite F2 by done. cbn. rewrite lookup_insert_eq, Hh. by destruct k as [[? ?] ?].
  - rewrite D2. cbn. rewrite dom_insert_L, Hdom. done.
  - done.
  - cbn. by apply NoDup_cons_2.
  - cbn. by apply NoDup_cons_2.
  - rewrite O2. cbn. by rewrite <- Ho.
  - cbn. apply NoDup_cons_2; [|done]. rewrite Ho in Hfd. set_solver.
Qed.

(** Every connection has a client, and no more than [n]. *)
Definition counts_upto (n : Z) (t : table) : Prop :=
  forall k fd c, t !! k = Some (fd, c) -> 1 <= c <= n.

Lemma first_link d l1 a e l2 :
  represents d (l1 ++ (a, e) :: l2) -> exists p nx, node_at (heap d) a = Ret (node e p nx).
Proof.
  intros Hd. unfold node_at. rewrite (links_lookup _ _ _ _ _ _ _ (r_links _ _ Hd)). by do 2 eexists.
Qed.

Lemma open_refines ev k d t n :
  refines d t -> counts_upto n t -> n < int_max ->
  exists d', request_for new_fd ev k true d = Ret (Some d')
             /\ refines d' (spec_open ev k t).1 /\ replies d' = replies d ++ (spec_open ev k t).2.
Proof.
  intros (l & Hd & ->) Hn Hmax. unfold request_for, spec_open.
  destruct (find_refines d l k Hd) as [(l1 & a & fd & c & l2 & -> & -> & Ht & Hins & _) | (Hk & -> & Ht)];
    rewrite Ht, ret_bind.
  - destruct (first_link _ _ _ _ _ Hd) as (p & nx & ->). rewrite ret_bind. cbn [node refcount fst snd].
    pose proof (Hn _ _ _ Ht) as Hc. rewrite (proj2 (Z.ltb_lt c int_max)) by lia. cbn [ensure].
    rewrite ret_bind.
    destruct (set_count d l1 a k fd c l2 (set_refcount (c + 1)) (c + 1) Hd) as (d' & -> & Hd' & Hr); [done|].
    rewrite !ret_bind. cbn [fst snd]. destruct (first_link _ _ _ _ _ Hd') as (p' & nx' & Ha).
    cbn [sendResponseCode reply_with heap]. rewrite Ha, ret_bind.
    eexists. split; [done|]. split.
    + exists (l1 ++ (a, (k, (fd, c + 1))) :: l2). split; [|by rewrite (Hins (fd, c + 1))].
      destruct Hd'. by split.
    + cbn. by rewrite Hr, <- app_assoc.
  - pose proof (open_new d l k ev Hd Hk) as Hopen. rewrite fds_of_list, <- (r_open d l Hd) by apply Hd.
    destruct (e_socket ev && e_bind ev && e_malloc ev).
    + destruct Hopen as (a & d' & -> & Hd' & Hr). rewrite ret_bind. cbn [fst snd].
      destruct (first_link _ [] _ _ _ Hd') as (p' & nx' & Ha).
      cbn [sendResponseCode reply_with heap]. rewrite Ha, ret_bind. eexists. split; [done|]. split.
      * exists ((a, (k, (new_fd (open_fds d), 1))) :: l). split; [|done]. destruct Hd'. by split.
      * cbn. by rewrite Hr, <- app_assoc.
    + destruct Hopen as (d' & -> & Hd' & Hr). rewrite ret_bind. eexists. split; [done|]. split.
      * exists l. split; [|done]. destruct Hd'. by split.
      * cbn. by rewrite Hr.
Qed.

Lemma close_refines ev k d t :
  refines d t ->
  exists d', request_for new_fd ev k false d = Ret (Some d')
             /\ refines d' (spec_close k t).1 /\ replies d' = replies d ++ (spec_close k t).2.
Proof.
  intros (l & Hd & ->). unfold request_for, spec_close.
  destruct (find_refines d l k Hd) as [(l1 & a & fd & c & l2 & -> & -> & Ht & Hins & Hdel) | (Hk & -> & Ht)];
    rewrite Ht, ret_bind.
  - destruct (Z.eqb_spec c 1) as [->|Hc].
    + destruct (close_last d l1 a k fd l2 Hd) as (d' & -> & Hd' & Hr). rewrite ret_bind.
      eexists. split; [done|]. split; [|cbn; by rewrite Hr].
      exists (l1 ++ l2). split; [|by rewrite Hdel]. destruct Hd'. by split.
    + destruct (close_shared d l1 a k fd c l2 Hd Hc) as (d' & -> & Hd' & Hr). rewrite ret_bind.
      eexists. split; [done|]. split; [|cbn; by rewrite Hr].
      exists (l1 ++ (a, (k, (fd, c - 1))) :: l2). split; [|by rewrite (Hins (fd, c - 1))]. destruct Hd'. by split.
  - eexists. split; [done|]. split; [|done]. exists l. split; [|done]. destruct Hd. by split.
Qed.

(** ** Datagrams *)

Lemma from_le_bound p : Forall is_byte p -> 0 <= from_le p < 256 ^ Z.of_nat (length p).
Proof.
  induction 1 as [|b p Hb _ IH]; [cbn; lia|]. cbn [from_le length]. unfold is_byte in Hb.
  rewrite Nat2Z.inj_succ, Z.pow_succ_r by lia. nia.
Qed.

Lemma u16_le b0 b1 : is_byte b0 -> is_byte b1 -> u16 (Z.lor b0 (Z.shiftl b1 8)) = from_le [b0; b1].
Proof.
  unfold is_byte. intros. rewrite lor_shift_high by lia. cbn [from_le].
  unfold u16. rewrite Z.mod_small; lia.
Qed.

Lemma asuint32_le b0 b1 b2 b3 pre rest i :
  Forall is_byte [b0; b1; b2; b3] -> i = Z.of_nat (length pre) ->
  asuint32 (pre ++ b0 :: b1 :: b2 :: b3 :: rest) i = Ret (from_le [b0; b1; b2; b3]).
Proof.
  intros Hb Hi. unfold asuint32.
  rewrite (load_at pre _ i 0 b0), (load_at pre _ (i + 1) 1 b1), (load_at pre _ (i + 2) 2 b2),
    (load_at pre _ (i + 3) 3 b3) by (done || lia).
  rewrite !ret_bind. f_equal. repeat (apply list.Forall_cons in Hb as [? Hb]). unfold is_byte in *.
  rewrite (lor_shift_high 8) by lia. rewrite (lor_shift_high 16) by lia. rewrite (lor_shift_high 24) by lia.
  unfold u32. rewrite Z.mod_small by lia. cbn [from_le]. lia.
Qed.

Lemma handle_decode ev p d :
  Forall is_byte p ->
  handleMessage new_fd ev p (Z.of_nat (length p)) d
  = match decode_request p with
    | Some (b, k) => request_for new_fd ev k b d
    | None => Ret (Some d)
    end.
Proof.
  intros Hp. unfold handleMessage, decode_request.
  destruct p as [|b0 [|b1 [|b2 [|b3 p]]]]; try done.
  rewrite (proj2 (Z.ltb_ge _ OBDII_DAEMON_REQUEST_HEADER_SIZE)) by (cbn [length]; unfold OBDII_DAEMON_REQUEST_HEADER_SIZE; lia).
  rewrite (load_lookup _ 0 b0), (load_lookup _ 1 b1), (load_lookup _ 2 b2), (load_lookup _ 3 b3) by done.
  rewrite !ret_bind. repeat (apply list.Forall_cons in Hp as [? Hp]).
  rewrite !u16_le by done. change (take 2 (b0 :: b1 :: b2 :: b3 :: p)) with [b0; b1].
  change (take 2 (drop 2 (b0 :: b1 :: b2 :: b3 :: p))) with [b2; b3].
  change OBDII_API_VERSION with 1. destruct (from_le [b0; b1] =? 1); [|by rewrite andb_false_r].
  rewrite andb_true_r.
  assert (tail_from (b0 :: b1 :: b2 :: b3 :: p) OBDII_DAEMON_REQUEST_HEADER_SIZE = Ret p) as ->
    by (by apply (tail_from_app [b0; b1; b2; b3] p 4)).
  rewrite ret_bind.
  replace (Z.of_nat _ - OBDII_DAEMON_REQUEST_HEADER_SIZE) with (Z.of_nat (length p))
    by (cbn [length]; unfold OBDII_DAEMON_REQUEST_HEADER_SIZE; lia).
  unfold handleSocketRequest. destruct (Nat.leb_spec 16 (length (b0 :: b1 :: b2 :: b3 :: p))) as [Hl|Hl]; cbn [length] in Hl.
  2: { rewrite (proj2 (Z.ltb_lt _ 12)) by lia. by destruct (from_le [b2; b3] =? OBDIIDaemonRequestOpenSocket),
    (from_le [b2; b3] =? OBDIIDaemonRequestCloseSocket). }
  rewrite (proj2 (Z.ltb_ge _ 12)) by lia.
  destruct p as [|c0 [|c1 [|c2 [|c3 [|c4 [|c5 [|c6 [|c7 [|c8 [|c9 [|c10 [|c11 p]]]]]]]]]]]]; cbn [length] in Hl; try lia.
  repeat (apply list.Forall_cons in Hp as [? Hp]).
  pose proof (asuint32_le c0 c1 c2 c3 [] (c4 :: c5 :: c6 :: c7 :: c8 :: c9 :: c10 :: c11 :: p) 0) as A0.
  pose proof (asuint32_le c4 c5 c6 c7 [c0; c1; c2; c3] (c8 :: c9 :: c10 :: c11 :: p) 4) as A4.
  pose proof (asuint32_le c8 c9 c10 c11 [c0; c1; c2; c3; c4; c5; c6; c7] p 8) as A8.
  cbn [app] in A0, A4, A8.
  rewrite A0, A4, A8 by (done || by repeat apply Forall_cons_2).
  rewrite !ret_bind. by destruct (from_le [b2; b3] =? OBDIIDaemonRequestOpenSocket),
    (from_le [b2; b3] =? OBDIIDaemonRequestCloseSocket).
Qed.

(** ** The dump of a request *)

Definition hex_of (p : bytes) : bytes := flat_map (print_02x false) p.

Lemma dump_unsigned pre src :
  dump false (pre ++ repeat 0 (S (2 * length src))) (Z.of_nat (length pre)) src
  = Ret (pre ++ hex_of src ++ [0]).
Proof.
  revert pre; induction src as [|b src IH]; intros pre; [done|].
  cbn [dump length]. unfold print_02x. cbn [andb app].
  rewrite blit_Ret by (rewrite ?length_app, ?repeat_length; cbn [length]; lia).
  rewrite ret_bind, Nat2Z.id, take_app_length, drop_app_add.
  replace (2 * S (length src))%nat with (S (S (2 * length src))) by lia. cbn [repeat drop length].
  specialize (IH (pre ++ [hex_lower (b / 16); hex_lower (b mod 16)])).
  rewrite length_app, Nat2Z.inj_add in IH. rewrite <- !app_assoc in IH. exact IH.
Qed.

Lemma dump_signed dest off src b :
  0 <= off -> Z.of_nat (length dest) = off + 2 * Z.of_nat (length src) + 3 -> 128 <= b ->
  dump true dest off (src ++ [b]) = Undef OobWrite.
Proof.
  revert dest off; induction src as [|c src IH]; intros dest off Ho Hl Hb; cbn [app dump].
  - unfold print_02x. rewrite (proj2 (Z.leb_le 128 b)) by lia. by rewrite blit_oob by (cbn in *; lia).
  - destruct (blit dest off _) as [dest'|u] eqn:E.
    + rewrite ret_bind. apply IH; [lia | rewrite (length_blit _ _ _ _ E) | done]. cbn [length] in Hl. lia.
    + unfold blit in E. destruct (_ && _); [done|]. by injection E as <-.
Qed.

Lemma counts_upto_succ n t : counts_upto n t -> counts_upto (n + 1) t.
Proof. intros Ht k fd c Hk. pose proof (Ht k fd c Hk). lia. Qed.

Lemma counts_insert n t k fd c : counts_upto n t -> 1 <= c <= n -> counts_upto n (<[k := (fd, c)]> t).
Proof.
  intros Ht Hc k' fd' c' [[_ [= _ <-]]|[_ Hk]]%lookup_insert_Some; [done | by apply (Ht k' fd')].
Qed.

Lemma open_counts ev k t n : counts_upto n t -> 0 <= n -> counts_upto (n + 1) (spec_open ev k t).1.
Proof.
  intros Ht Hn. unfold spec_open. destruct (t !! k) as [[fd c]|] eqn:E.
  - pose proof (Ht _ _ _ E). apply counts_insert; [by apply counts_upto_succ | lia].
  - destruct (_ && _); [apply counts_insert; [by apply counts_upto_succ | lia] | by apply counts_upto_succ].
Qed.

Lemma close_counts k t n : counts_upto n t -> counts_upto n (spec_close k t).1.
Proof.
  intros Ht. unfold spec_close. destruct (t !! k) as [[fd c]|] eqn:E; [|done].
  pose proof (Ht _ _ _ E). cbn [fst]. destruct (Z.eqb_spec c 1).
  - intros k' fd' c' [_ Hk]%lookup_delete_Some. by apply (Ht k' fd').
  - apply counts_insert; [done | lia].
Qed.

Lemma spec_counts ev p t n :
  counts_upto n t -> 0 <= n -> counts_upto (n + 1) (spec_serve ev p t).1.
Proof.
  intros Ht Hn. unfold spec_serve. destruct (decode_request _) as [[[] k]|].
  - by apply open_counts.
  - by apply counts_upto_succ, close_counts.
  - by apply counts_upto_succ.
Qed.

Lemma serve_refines ev p d t n :
  Forall is_byte p -> refines d t -> counts_upto n t -> n < int_max ->
  exists d', serve_datagram new_fd false ev p d = Ret (Some d')
             /\ refines d' (spec_serve ev p t).1 /\ replies d' = replies d ++ (spec_serve ev p t).2.
Proof.
  intros Hp Hr Hn Hmax. unfold serve_datagram, spec_serve. set (req := take _ p).
  pose proof (dump_unsigned [] req) as Hd. cbn [app length] in Hd.
  replace (Z.to_nat (Z.of_nat (length req) * 2 + 1)) with (S (2 * length req)) by lia.
  change (Z.of_nat 0) with 0 in Hd. rewrite Hd, ret_bind, handle_decode by (by apply Forall_take).
  destruct (decode_request req) as [[[] k]|].
  - by apply (open_refines ev k d t n).
  - by apply close_refines.
  - exists d. split; [done|]. split; [done|]. by rewrite app_nil_r.
Qed.

Lemma serve_all_refines ms d t n :
  Forall (fun m => Forall is_byte m.2) ms -> refines d t -> counts_upto n t -> 0 <= n ->
  n + Z.of_nat (length ms) < int_max ->
  exists d', serve_datagrams new_fd false ms d = Ret (Some d')
             /\ refines d' (spec_serve_all ms t).1 /\ replies d' = replies d ++ (spec_serve_all ms t).2.
Proof.
  intros Hms. revert d t n; induction Hms as [|[ev p] ms Hp Hms IH]; intros d t n Hr Hn H0 Hmax.
  { exists d. split; [done|]. split; [done|]. by rewrite app_nil_r. }
  cbn [serve_datagrams spec_serve_all fst snd length] in *.
  destruct (serve_refines ev p d t n Hp Hr Hn) as (d1 & -> & Hr1 & Ho1); [lia|]. rewrite ret_bind.
  destruct (IH d1 _ (n + 1) Hr1 (spec_counts ev p t n Hn H0)) as (d2 & E2 & Hr2 & Ho2); [lia | lia |].
  exists d2. split; [done|]. split; [done|]. by rewrite Ho2, Ho1, app_assoc.
Qed.

Lemma refines_empty : refines daemon0 ∅.
Proof. exists []. split; [|done]. split; try done; try (apply NoDup_nil_2). Qed.

(** C3: For every sequence of datagrams, whatever they hold and whatever sockets
    the kernel grants, the daemon terminates each search, touches no freed node
    and sends the replies of the specification, in which the first client of a
    key opens a socket, later ones share it and the last one closes it; its list
    holds the entries of the specification's table and the sockets that are open
    are exactly their descriptors. *)
Theorem daemon_refines_table ms :
  Forall (fun m => Forall is_byte m.2) ms -> Z.of_nat (length ms) < int_max ->
  exists d, serve_datagrams new_fd false ms daemon0 = Ret (Some d)
            /\ refines d (spec_serve_all ms ∅).1
            /\ open_fds d = fds_of (spec_serve_all ms ∅).1
            /\ replies d = (spec_serve_all ms ∅).2.
Proof.
  intros Hms Hl. destruct (serve_all_refines ms daemon0 ∅ 0 Hms refines_empty) as (d & Hd & Hr & Ho); [done..|].
  exists d. split; [done|]. split; [done|]. split; [|done].
  destruct Hr as (l & Hrep & ->). rewrite fds_of_list by apply Hrep. apply Hrep.
Qed.

End Refinement.

(** Dumping a request for the log stays inside the buffer of two digits per
    byte where a [char] is unsigned; where it is signed, a request whose last
    byte is above 127 writes eight digits and overruns the stack. *)
Lemma request_dump_bounds p b :
  let size := Z.to_nat (Z.of_nat (length (p ++ [b])) * 2 + 1) in
  dump false (repeat 0 size) 0 (p ++ [b]) = Ret (hex_of (p ++ [b]) ++ [0])
  /\ (128 <= b -> dump true (repeat 0 size) 0 (p ++ [b]) = Undef OobWrite).
Proof.
  intros size. split.
  - pose proof (dump_unsigned [] (p ++ [b])) as Hd. cbn [app] in Hd.
    replace size with (S (2 * length (p ++ [b]))) by (unfold size; lia). exact Hd.
  - intros Hb. apply dump_signed; [lia | | done]. unfold size. rewrite repeat_length, length_app. cbn. lia.
Qed.

(** ** The client (OBDIICommunication.c) *)

(** The static [daemonSocket] of a process and the descriptors it has open. *)
Record client := Client { daemonSocket : Z; own_fds : gset Z }.

Record OBDIISocket := Socket {
  o_s : Z; o_shared : Z; o_ifindex : Z; o_tid : Z; o_rid : Z }.

Definition set_o_s (fd : Z) (o : OBDIISocket) : OBDIISocket :=
  Socket fd (o_shared o) (o_ifindex o) (o_tid o) (o_rid o).
Definition set_shared (z : Z) (o : OBDIISocket) : OBDIISocket :=
  Socket (o_s o) z (o_ifindex o) (o_tid o) (o_rid o).

Definition key_of (o : OBDIISocket) : key := (o_ifindex o, o_tid o, o_rid o).

(** The system calls that connect a process to the daemon. *)
Record setup := Setup { su_socket : bool; su_unlink : bool; su_bind : bool; su_connect : bool }.

(** [requestRemoteSocket] packs two 16-bit and three 32-bit members. *)
Definition remote_request (shouldOpen : bool) (k : key) : bytes :=
  le_bytes 2 OBDII_API_VERSION
  ++ le_bytes 2 (if shouldOpen then OBDIIDaemonRequestOpenSocket else OBDIIDaemonRequestCloseSocket)
  ++ le_bytes 4 k.1.1 ++ le_bytes 4 k.1.2 ++ le_bytes 4 k.2.

Section Client.
Context (new_fd : gset Z -> Z).

(** A socket whose set-up fails is not closed. *)
Definition setupDaemonCommunication (su : setup) (c : client) : Z * client :=
  if negb (daemonSocket c =? -1) then (0, c)
  else if negb (su_socket su) then (-1, c)
  else
    let fd := new_fd (own_fds c) in
    let own := {[fd]} ∪ own_fds c in
    if su_unlink su && su_bind su && su_connect su then (0, Client fd own) else (-1, Client (-1) own).

(** A message without a descriptor has no control header. *)
Definition receiveFD (rs : list reply) (o : OBDIISocket) (c : client) : out (Z * OBDIISocket * client) :=
  if daemonSocket c =? 0 then Ret (0, o, c)
  else
    match rs with
    | [] => Ret (-1, o, c)
    | Code _ :: _ => Undef NullDeref
    | Descriptor _ :: _ =>
        let fd := new_fd (own_fds c) in
        Ret (0, set_o_s fd o, Client (daemonSocket c) ({[fd]} ∪ own_fds c))
    end.

(** [talk] sends a datagram to the daemon: the result of [send] and the messages
    that come back. *)
Definition requestRemoteSocket (su : setup) (talk : bytes -> Z * list reply) (o : OBDIISocket)
    (shouldOpen : bool) (c : client) : out (Z * OBDIISocket * client) :=
  let '(r, c) := setupDaemonCommunication su c in
  if r <? 0 then Ret (-1, o, c)
  else
    let '(sent, rs) := talk (remote_request shouldOpen (key_of o)) in
    if negb (sent =? 16) then Ret (-1, o, c)
    else
      match rs with
      | Code responseCode :: rs =>
          if negb (responseCode =? OBDIIDaemonResponseCodeSuccess) then Ret (-1, o, c)
          else if shouldOpen then
            r ← receiveFD rs o c;
            Ret (if r.1.1 <? 0 then (-1, r.1.2, r.2) else (0, r.1.2, r.2))
          else Ret (0, o, c)
      | _ => Ret (-1, o, c)
      end.

(** [index] is the result of [if_nametoindex]; [ev] the outcome of [socket] and
    [bind] for a socket of one's own. *)
Definition OBDIIOpenSocket (su : setup) (talk : bytes -> Z * list reply) (ev : event)
    (o : OBDIISocket) (index tx_id rx_id shared : Z) (c : client) : out (Z * OBDIISocket * client) :=
  if index =? 0 then Ret (-1, o, c)
  else
    let o := Socket (o_s o) shared index tx_id rx_id in
    if negb (shared =? 0) then requestRemoteSocket su talk o true c
    else if negb (e_socket ev) then Ret (-1, set_o_s (-1) o, c)
    else
      let fd := new_fd (own_fds c) in
      if negb (e_bind ev) then Ret (-1, set_o_s fd o, c)
      else Ret (0, set_shared 0 (set_o_s fd o), Client (daemonSocket c) ({[fd]} ∪ own_fds c)).

Definition OBDIICloseSocket (su : setup) (talk : bytes -> Z * list reply)
    (o : option OBDIISocket) (c : client) : out (Z * client) :=
  match o with
  | None => Ret (0, c)
  | Some o =>
      if negb (o_shared o =? 0) then r ← requestRemoteSocket su talk o false c; Ret (r.1.1, r.2)
      else if bool_decide (o_s o ∈ own_fds c)
           then Ret (0, Client (daemonSocket c) (own_fds c ∖ {[o_s o]}))
           else Ret (-1, c)
  end.

End Client.

(** ** Clients and daemon together *)

Lemma length_le_bytes n z : length (le_bytes n z) = n.
Proof. revert z; induction n as [|n IH]; intros z; cbn; auto. Qed.

Definition key_ok (k : key) : Prop :=
  0 <= k.1.1 < 2 ^ 32 /\ 0 <= k.1.2 < 2 ^ 32 /\ 0 <= k.2 < 2 ^ 32.

Lemma request_decodes b k : key_ok k -> decode_request (remote_request b k) = Some (b, k).
Proof.
  destruct k as [[i t] r]. unfold key_ok, decode_request, remote_request. cbn [fst snd]. intros (Hi & Ht & Hr).
  pose proof (from_le_bytes 4 i Hi) as Ei. pose proof (from_le_bytes 4 t Ht) as Et.
  pose proof (from_le_bytes 4 r Hr) as Er. cbn [le_bytes] in Ei, Et, Er.
  cbn [le_bytes app length Nat.leb take drop]. rewrite Ei, Et, Er. by destruct b.
Qed.

Lemma request_bytes b k : Forall is_byte (remote_request b k) /\ length (remote_request b k) = 16%nat.
Proof.
  split; [|unfold remote_request; by rewrite !length_app, !length_le_bytes].
  assert (forall n z, Forall is_byte (le_bytes n z)) as Hle.
  { intros n. induction n as [|n IH]; intros z; [apply Forall_nil_2|]. cbn. apply Forall_cons_2; [|apply IH].
    apply Z.mod_pos_bound. lia. }
  unfold remote_request. rewrite !list.Forall_app. auto 10.
Qed.

Section Together.
Context (daemon_fd client_fd : gset Z -> Z) (daemon_fd_fresh : forall F, daemon_fd F ∉ F).

(** What a client receives for a datagram, and the daemon afterwards. *)
Definition daemon_talk (ev : event) (d : daemon) (p : bytes) : Z * list reply :=
  match serve_datagram daemon_fd false ev p d with
  | Ret (Some d') => (Z.of_nat (length p), drop (length (replies d)) (replies d'))
  | _ => (-1, [])
  end.

Definition daemon_after (ev : event) (d : daemon) (p : bytes) : daemon :=
  match serve_datagram daemon_fd false ev p d with Ret (Some d') => d' | _ => d end.

Definition request_effect (ev : event) (b : bool) (k : key) (t : table) : table * list reply :=
  if b then spec_open daemon_fd ev k t else spec_close k t.

Lemma serve_request ev b k t :
  key_ok k -> spec_serve daemon_fd ev (remote_request b k) t = request_effect ev b k t.
Proof.
  intros Hk. unfold spec_serve.
  assert (take OBDII_DAEMON_REQUEST_MAX_SIZE (remote_request b k) = remote_request b k) as ->.
  { apply firstn_all2. rewrite (proj2 (request_bytes b k)). apply Nat.leb_le. reflexivity. }
  rewrite request_decodes by done. by destruct b.
Qed.

Lemma daemon_serves ev d t n b k :
  key_ok k -> refines d t -> counts_upto n t -> n < int_max ->
  daemon_talk ev d (remote_request b k) = (16, (request_effect ev b k t).2)
  /\ refines (daemon_after ev d (remote_request b k)) (request_effect ev b k t).1.
Proof.
  intros Hk Hr Hn Hmax. destruct (request_bytes b k) as [Hb Hl].
  destruct (serve_refines daemon_fd daemon_fd_fresh ev (remote_request b k) d t n Hb Hr Hn Hmax) as (d' & E & Hr' & Ho).
  rewrite serve_request in Hr', Ho by done.
  unfold daemon_talk, daemon_after. rewrite E, Ho, drop_app_length, Hl. by split.
Qed.

(** Opening and closing again leaves the table as it was. *)
Lemma close_undoes_open ev k t n :
  counts_upto n t -> is_Some (t !! k) \/ e_socket ev && e_bind ev && e_malloc ev = true ->
  spec_close k (spec_open daemon_fd ev k t).1 = (t, [Code OBDIIDaemonResponseCodeSuccess])
  /\ exists fd, (spec_open daemon_fd ev k t).2 = [Code OBDIIDaemonResponseCodeSuccess; Descriptor fd].
Proof.
  intros Hn Hev. unfold spec_open, spec_close. destruct (t !! k) as [[fd c]|] eqn:E.
  - pose proof (Hn _ _ _ E). cbn [fst snd]. rewrite lookup_insert_eq, (proj2 (Z.eqb_neq _ 1)) by lia.
    split; [|by exists fd]. f_equal. rewrite insert_insert_eq, Z.add_simpl_r. by apply insert_id.
  - destruct Hev as [[? ?]| ->]; [done|]. cbn [fst snd]. rewrite lookup_insert_eq, Z.eqb_refl.
    split; [|by eexists]. f_equal. by apply delete_insert_id.
Qed.

(** A connected process talks to the daemon at once. *)
Lemma request_connected su talk o b c :
  daemonSocket c <> -1 ->
  requestRemoteSocket client_fd su talk o b c
  = let '(sent, rs) := talk (remote_request b (key_of o)) in
    if negb (sent =? 16) then Ret (-1, o, c)
    else
      match rs with
      | Code responseCode :: rs =>
          if negb (responseCode =? OBDIIDaemonResponseCodeSuccess) then Ret (-1, o, c)
          else if b then
            r ← receiveFD client_fd rs o c;
            Ret (if r.1.1 <? 0 then (-1, r.1.2, r.2) else (0, r.1.2, r.2))
          else Ret (0, o, c)
      | _ => Ret (-1, o, c)
      end.
Proof.
  intros Hc. unfold requestRemoteSocket, setupDaemonCommunication.
  by rewrite (proj2 (Z.eqb_neq _ (-1)) Hc).
Qed.

(** C30: A client that opens a shared socket and closes it again succeeds both
    times, the daemon counts it in and out so that its table is the same as
    before, and the descriptor that the client was handed stays open in the
    client. *)
Theorem shared_socket_stays_open su ev ev' ev0 d t n c o k :
  key_ok k -> k.1.1 <> 0 -> refines d t -> counts_upto n t -> 0 <= n -> n + 1 < int_max ->
  is_Some (t !! k) \/ e_socket ev && e_bind ev && e_malloc ev = true ->
  0 < daemonSocket c ->
  let d1 := daemon_after ev d (remote_request true k) in
  exists o' c',
    OBDIIOpenSocket client_fd su (daemon_talk ev d) ev0 o k.1.1 k.1.2 k.2 1 c = Ret (0, o', c')
    /\ refines d1 (spec_open daemon_fd ev k t).1
    /\ OBDIICloseSocket client_fd su (daemon_talk ev' d1) (Some o') c' = Ret (0, c')
    /\ refines (daemon_after ev' d1 (remote_request false k)) t
    /\ o_s o' ∈ own_fds c'.
Proof.
  intros Hk Hi Hr Hn H0 Hmax Hev Hc d1. destruct c as [sock own], k as [[i tx] rx].
  cbn [daemonSocket fst snd] in *.
  destruct (close_undoes_open ev _ t n Hn Hev) as [Hclose [fd Hopen]].
  destruct (daemon_serves ev d t n true _ Hk Hr Hn) as [T1 R1]; [lia|]. cbn [request_effect] in T1, R1.
  pose proof (open_counts daemon_fd ev (i, tx, rx) t n Hn H0) as Hn1.
  destruct (daemon_serves ev' d1 _ (n + 1) false _ Hk R1 Hn1 Hmax) as [T2 R2].
  cbn [request_effect] in T2, R2. rewrite Hclose in T2, R2. rewrite Hopen in T1. cbn [fst snd] in T2, R2.
  exists (Socket (client_fd own) 1 i tx rx), (Client sock ({[client_fd own]} ∪ own)).
  split; [|split; [exact R1|]; split; [|split; [exact R2 | by apply elem_of_union_l, elem_of_singleton]]].
  - unfold OBDIIOpenSocket. rewrite (proj2 (Z.eqb_neq i 0)) by done. cbn [Z.eqb negb].
    rewrite request_connected by (cbn [daemonSocket]; lia). unfold key_of. cbn [o_ifindex o_tid o_rid].
    rewrite T1. cbn [Z.eqb Pos.eqb negb]. unfold receiveFD. cbn [daemonSocket own_fds].
    by rewrite (proj2 (Z.eqb_neq sock 0)) by lia.
  - unfold OBDIICloseSocket. cbn [o_shared Z.eqb negb].
    rewrite request_connected by (cbn [daemonSocket]; lia). unfold key_of. cbn [o_ifindex o_tid o_rid].
    by rewrite T2.
Qed.

End Together.

Module DaemonWitness.

Definition all_ok : event := Event true true true.
Definition refused : event := Event true false true.
Definition engine : key := (3, 0x7E0, 0x7E8).
Definition body : key := (3, 0x7E1, 0x7E9).

Lemma fresh_fd : forall F : gset Z, fresh F ∉ F.
Proof. intros F. apply is_fresh. Qed.

Lemma engine_ok : key_ok engine.
Proof. unfold key_ok. cbn. lia. Qed.

(** Two clients share the engine's socket, another one is refused the body's;
    a datagram that is no request is ignored. *)
Definition datagrams : list (event * bytes) :=
  [(all_ok, remote_request true engine); (all_ok, remote_request true engine); (refused, remote_request true body);
   (all_ok, [1; 0; 7; 0]); (all_ok, remote_request false engine); (all_ok, remote_request false engine);
   (all_ok, remote_request false engine)].

Lemma datagrams_bytes : Forall (fun m => Forall is_byte m.2) datagrams.
Proof. apply (bool_decide_unpack _). vm_compute. exact I. Qed.

Lemma daemon_refines_table_witness :
  exists d, serve_datagrams fresh false datagrams daemon0 = Ret (Some d)
            /\ replies d = (spec_serve_all fresh datagrams ∅).2.
Proof.
  destruct (daemon_refines_table fresh fresh_fd datagrams datagrams_bytes) as (d & Hd & _ & _ & Ho); [vm_compute; reflexivity|].
  exists d. split; [exact Hd | exact Ho].
Defined.

(** The replies: both clients get the same descriptor, and the third close finds
    nothing. *)
Lemma datagrams_replies :
  (spec_serve_all fresh datagrams ∅).2
  = [Code 0; Descriptor 0; Code 0; Descriptor 0; Code 2; Code 0; Code 0; Code 1].
Proof. vm_compute. reflexivity. Qed.

Lemma request_dump_bounds_witness :
  dump true (repeat 0 33) 0 (remote_request true (3, 0x7E0, 0xFF0007E8)) = Undef OobWrite.
Proof. exact (proj2 (request_dump_bounds (take 15 (remote_request true (3, 0x7E0, 0xFF0007E8))) 0xFF) ltac:(lia)). Defined.

Lemma no_counts : counts_upto 0 ∅.
Proof. intros k fd c Hk. discriminate. Qed.

Lemma shared_socket_stays_open_witness :
  exists o' c', OBDIIOpenSocket fresh (Setup true true true true) (daemon_talk fresh all_ok daemon0) all_ok
                  (Socket 0 0 0 0 0) 3 0x7E0 0x7E8 1 (Client 5 {[5]}) = Ret (0, o', c')
                /\ o_s o' ∈ own_fds c'.
Proof.
  destruct (shared_socket_stays_open fresh fresh fresh_fd (Setup true true true true) all_ok all_ok all_ok
              daemon0 ∅ 0 (Client 5 {[5]}) (Socket 0 0 0 0 0) engine) as (o' & c' & Ho & _ & _ & _ & Hin).
  - exact engine_ok.
  - discriminate.
  - exact refines_empty.
  - exact no_counts.
  - lia.
  - unfold int_max. lia.
  - right. reflexivity.
  - cbn. lia.
  - exists o', c'. split; [exact Ho | exact Hin].
Defined.

End DaemonWitness.
