(* ===== verification/InfoPlugins.v ===== *)
(** * The GPIO and OBD-II information plugins
      (src/plugins/pip/gpio/pip_plugin_gpio.c, src/plugins/pip/obdii/pip_plugin_obdii.c)

    Two small plugins on top of Relay.v and of the OBD-II library.  The first
    reads an input into an attribute; the second opens a socket, asks the vehicle
    for its commands and registers a filler with the data dumper; its thread is
    an empty loop. *)

From S2P Require Import Prelude CStd Floats Relay DataDumper Obdii ObdiiQuery ObdiiDaemon.

(** ** pip_plugin_gpio.c *)

Section Gpio.
Context `{Pigpio}.

(** The buffers of a [pip_attribute_object_t]. *)
Record gpio_attribute := GpioAttribute { ga_type : bytes; ga_value : bytes }.

(** The callback copies the caller's attribute, writes to the copy and drops it:
    the result is the return code, the caller's attribute and the board. *)
Definition gpio_acquire_cb (plugin : bool) (args : option gpio_attribute) (b : board)
    : out (Z * option gpio_attribute * board) :=
  match plugin, args with
  | true, Some a =>
      let attribute_object := a in
      ty ← blit (ga_type attribute_object) 0 (cstr "boolean");
      r ← gpio_interface_read 0 b;
      let ret := if r.1 =? 0 then cstr "false" else cstr "true" in
      v ← blit (ga_value attribute_object) 0 ret;
      let attribute_object := GpioAttribute ty v in
      Ret (0, args, r.2)
  | _, _ => Ret (-1, args, b)
  end.

(** No call changes the attribute the policy decision reads. *)
Lemma gpio_attribute_unchanged plugin args b z args' b' :
  gpio_acquire_cb plugin args b = Ret (z, args', b') -> args' = args.
Proof.
  unfold gpio_acquire_cb. destruct plugin, args as [a|]; try (by intros [= _ <- _]).
  intros (ty & _ & H1)%bind_Ret. apply bind_Ret in H1 as (r & _ & H1).
  apply bind_Ret in H1 as (v & _ & H1). by injection H1 as _ <- _.
Qed.

(** Worse, the input is never read: checking the index 0 falls off the end of
    [check_idx]. *)
Lemma gpio_acquire_undefined `{!PigpioSpec} a b :
  (7 <= length (ga_type a))%nat -> gpio_acquire_cb true (Some a) b = Undef Uninit.
Proof.
  intros Hl. unfold gpio_acquire_cb. rewrite blit_0 by exact Hl. rewrite ret_bind.
  rewrite gpio_read_undefined. done.
Qed.
End Gpio.

(** ** pip_plugin_obdii.c *)

Definition OBDII_NO_ERROR : Z := 0.
Definition OBDII_ERROR : Z := -2.
Definition OBDII_PORTNAME_LEN : nat := 64.
Definition OBDII_TX_ID : Z := 0x7E0.
Definition OBDII_RX_ID : Z := 0x7E8.

(** The static variables; [supportedCommands] keeps its pointer when the array
    it points to is freed. *)
Record obdii_plugin := ObdiiPlugin {
  op_socket : OBDIISocket;
  op_commands : OBDIICommandSet;
  op_freed : bool;
  op_portname : bytes;
  op_end_thread : Z;
  op_thread : bool }.

Section ObdiiPlugin.
Context {V : Type} (new_fd : gset Z -> Z) (su : setup) (talk : bytes -> Z * list reply).

(** The numbers that stand for the filler and its node at the data dumper. *)
Context (filler node : nat).

(** [None]: the program exits or counting the commands does not end.  [index] is
    the interface's index and [answers] what the vehicle answers. *)
Definition obdiireceiver_init (portname : bytes) (index : Z) (ev : event) (mem : bool)
    (answers : list exchange) (p : obdii_plugin) (c : client) (d : @dumper V)
    : out (option (obdii_plugin * client * @dumper V)) :=
  r ← OBDIIOpenSocket new_fd su talk ev (op_socket p) index OBDII_TX_ID OBDII_RX_ID 0 c;
  if r.1.1 <? 0 then Ret None
  else
    g ← OBDIIGetSupportedCommands mem (Some (Link false false answers []));
    match g with
    | None => Ret None
    | Some (cmds, _) =>
        port ← strncpy (op_portname p) (portname ++ [0]) OBDII_PORTNAME_LEN;
        d ← datadumper_add_module_init_cb filler node (cstr "obdii_data" ++ [0]) d;
        Ret (Some (ObdiiPlugin r.1.2 cmds false port (op_end_thread p) (op_thread p), r.2, d))
    end.

(** The initializer of the plugin on the first CAN interface; the table of
    callbacks has the start callback only. *)
Definition pip_plugin_obdii_initializer (index : Z) (ev : event) (mem : bool) (answers : list exchange)
    (p : obdii_plugin) (c : client) (d : @dumper V) : out (option (Z * (obdii_plugin * client * @dumper V))) :=
  r ← obdiireceiver_init (cstr "can0") index ev mem answers p c d;
  Ret (match r with Some x => Some (0, x) | None => None end).

(** [created] says whether the thread starts. *)
Definition obdiireceiver_start (created : bool) (p : obdii_plugin) : Z * obdii_plugin :=
  if created
  then (OBDII_NO_ERROR,
        ObdiiPlugin (op_socket p) (op_commands p) (op_freed p) (op_portname p) (op_end_thread p) true)
  else (OBDII_ERROR, p).

Definition obdii_start_cb (created : bool) (p : obdii_plugin) : Z * obdii_plugin :=
  (0, (obdiireceiver_start created p).2).

Definition obdiireceiver_stop (p : obdii_plugin) (c : client) : out (obdii_plugin * client) :=
  let free := OBDIICommandSetFree (Some (op_commands p)) in
  if free && op_freed p then Undef DoubleFree
  else
    r ← OBDIICloseSocket new_fd su talk (Some (op_socket p)) c;
    Ret (ObdiiPlugin (op_socket p) (op_commands p) (op_freed p || free) (op_portname p) 1 (op_thread p), r.2).

Definition obdii_destroy_cb (p : obdii_plugin) (c : client) : out (Z * obdii_plugin * client) :=
  r ← obdiireceiver_stop p c; Ret (0, r.1, r.2).

(** A started plugin gives back its descriptor and its memory when it is
    destroyed, whether its thread started or not. *)
Lemma obdii_lifecycle portname index ev answers p c d p1 c1 d1 created :
  (forall F, new_fd F ∉ F) ->
  obdiireceiver_init portname index ev true answers p c d = Ret (Some (p1, c1, d1)) ->
  exists p2, obdii_destroy_cb (obdii_start_cb created p1).2 c1 = Ret (0, p2, c)
             /\ op_end_thread p2 = 1 /\ op_freed p2 = true.
Proof.
  intros Hfd Hinit. unfold obdiireceiver_init in Hinit.
  apply bind_Ret in Hinit as ([[z o] c'] & Hopen & Hinit). cbn [fst snd] in Hinit.
  unfold OBDIIOpenSocket in Hopen. cbn [Z.eqb negb] in Hopen.
  destruct (index =? 0); [by injection Hopen as <- <- <-|].
  destruct (e_socket ev); cbn [negb] in Hopen; [|by injection Hopen as <- <- <-].
  destruct (e_bind ev); cbn [negb] in Hopen; [|by injection Hopen as <- <- <-].
  injection Hopen as <- <- <-. cbn [Z.ltb Z.compare] in Hinit.
  apply bind_Ret in Hinit as ([[cmds l']|] & Hget & Hinit); [|done].
  apply bind_Ret in Hinit as (port & _ & Hinit). apply bind_Ret in Hinit as (d' & _ & Hinit).
  injection Hinit as <- <- <-.
  destruct (commands_allocated _ _ _ Hget) as [cells Hcells].
  set (p1 := ObdiiPlugin _ _ _ _ _ _).
  assert (op_commands (obdii_start_cb created p1).2 = cmds
          /\ op_freed (obdii_start_cb created p1).2 = false
          /\ op_socket (obdii_start_cb created p1).2 = op_socket p1) as (E1 & E2 & E3) by (by destruct created).
  unfold obdii_destroy_cb, obdiireceiver_stop, OBDIICommandSetFree, OBDIICloseSocket.
  rewrite E1, E2, E3, Hcells, andb_false_r.
  cbn [p1 op_socket set_shared set_o_s o_shared o_s Z.eqb negb own_fds].
  rewrite !bool_decide_true by (done || (by eexists) || set_solver). run.
  cbn [fst snd daemonSocket own_fds].
  assert (Client (daemonSocket c) (({[new_fd (own_fds c)]} ∪ own_fds c) ∖ {[new_fd (own_fds c)]}) = c) as ->.
  { pose proof (Hfd (own_fds c)). destruct c as [ds own]. cbn [own_fds daemonSocket] in *. f_equal. set_solver. }
  eexists. split; [reflexivity | by split].
Qed.
End ObdiiPlugin.
