(* ===== verification/Main.v ===== *)
(** * The start of the server (src/main.c)

    The options the program reads when it starts and the creation of the
    wallet from them.  Registering the plugins, starting the threads and the
    waiting loop are in [Server]. *)

From S2P Require Import Prelude CStd Config Wallet.

Definition MAX_CLIENT_NAME : Z := 32.
Definition MAX_STR_LEN : Z := 512.
Definition SEED_LEN : Z := 81 + 1.
Definition MAX_PEM_LEN : Z := 4 * 1024.

Section Main.
Context `{IotaClient}.

(** An integer option read through a pointer to an object of [width] bytes: the
    callee writes an [int] of four.  [None]: the object keeps no value. *)
Definition int_option (cfg : config_manager_t) (module_name option_name : bytes) (width : Z)
  : out (option Z) :=
  r ← config_manager_get_option_int cfg module_name option_name 0;
  if negb (r.1 =? CONFIG_MANAGER_OK) then Ret None
  else if width <? 4 then Undef OobWrite else Ret (Some r.2).

(** Passing an object that has no value. *)
Definition assigned (v : option Z) : out Z :=
  match v with Some v => Ret v | None => Undef Uninit end.

Definition string_option (cfg : config_manager_t) (module_name option_name : bytes) (len : Z) : out bytes :=
  r ← config_manager_get_option_string cfg module_name option_name (repeat 0 (Z.to_nat len)) len; Ret r.2.

(** The status and the global context; [fread] fills a block of zeros. *)
Definition wallet_init (alloc : bool) (cfg : config_manager_t) (fs : fsys) : out (Z * option wallet_ctx_t) :=
  node_url ← string_option cfg (cstr "wallet") (cstr "url") MAX_STR_LEN;
  seed ← string_option cfg (cstr "wallet") (cstr "seed") SEED_LEN;
  pem_file ← string_option cfg (cstr "wallet") (cstr "pem_file_path") MAX_STR_LEN;
  node_mwm ← int_option cfg (cstr "wallet") (cstr "mwm") 1;
  port ← int_option cfg (cstr "wallet") (cstr "port") 2;
  node_depth ← int_option cfg (cstr "wallet") (cstr "depth") 4;
  pem_name ← c_str pem_file;
  if (length pem_name =? 0)%nat then Ret (-1, None) else
  match fopen_r fs pem_name with
  | None => Ret (-1, None)
  | Some content =>
      let ca_pem := take (Z.to_nat MAX_PEM_LEN) content
                    ++ repeat 0 (Z.to_nat MAX_PEM_LEN - length content) in
      mwm ← assigned node_mwm; port ← assigned port; depth ← assigned node_depth;
      url ← c_str node_url; pem ← c_str ca_pem; seed ← c_str seed;
      match wallet_create alloc url (u16 port) pem (u32 depth) (u8 mwm) seed with
      | None => Ret (-1, None)
      | Some c => Ret (0, Some c)
      end
  end.

(** The sleep period of the loops, in microseconds although the comment says
    that its default is one second. *)
Definition g_task_sleep_time (cfg : config_manager_t) : out Z :=
  r ← config_manager_get_option_int cfg (cstr "config") (cstr "thread_sleep_period") 0;
  Ret (if negb (r.1 =? CONFIG_MANAGER_OK) then 1000 else r.2).

(** The name of the client: a static array. *)
Definition client_name (cfg : config_manager_t) : out bytes :=
  string_option cfg (cstr "config") (cstr "client") MAX_CLIENT_NAME.

(** A byte-sized or word-sized option is never read into its variable. *)
Lemma narrow_option cfg m o width v :
  width < 4 -> int_option cfg m o width = Ret v -> v = None.
Proof.
  intros Hw. unfold int_option. destruct (config_manager_get_option_int cfg m o 0) as [r|]; [|done].
  rewrite ret_bind. destruct (negb _); [by intros [= <-]|]. by zdec.
Qed.

(** The wallet is never created: the minimum weight magnitude and the port
    are read as four-byte integers into variables of one and two bytes, so
    initialisation either runs into undefined behaviour or gives up with -1,
    whatever the configuration and the files are. *)
Lemma wallet_init_never_succeeds alloc cfg fs r :
  wallet_init alloc cfg fs = Ret r -> r = (-1, None).
Proof.
  unfold wallet_init. rewrite bind_Ret. intros (url & _ & H1). revert H1. rewrite bind_Ret.
  intros (seed & _ & H1). revert H1. rewrite bind_Ret. intros (pem & _ & H1). revert H1. rewrite bind_Ret.
  intros (mwm & Hm & H1). apply narrow_option in Hm as ->; [|lia].
  revert H1. rewrite bind_Ret. intros (port & _ & H1). revert H1. rewrite bind_Ret.
  intros (depth & _ & H1). revert H1. rewrite bind_Ret. intros (name & _ & H1). revert H1.
  destruct (_ =? _)%nat; [by intros [= <-]|]. by destruct (fopen_r fs name); [|intros [= <-]].
Qed.
End Main.

Module MainWitness.
Definition no_client : IotaClient := {|
  client := unit; trits := unit; node := unit;
  is_seed := fun _ => true; is_address := fun _ => true;
  NUM_TRYTES_HASH := 81; NUM_TRYTES_ADDRESS := 81; NUM_TRYTES_BUNDLE := 81;
  flex_trits_from_trytes := fun _ => Some tt; flex_trits_to_trytes := fun _ => [];
  iota_client_core_init := fun _ _ _ => Some tt;
  get_balances_req_address_add := fun _ => true;
  iota_client_get_balances := fun _ _ _ _ => None;
  iota_client_get_new_address := fun _ _ _ _ _ _ => None;
  transfer_message := fun _ => tt;
  iota_client_send_transfer := fun _ _ _ _ _ _ _ _ _ n => (None, n);
  get_inclusion_states_req_hash_add := fun _ => true;
  iota_client_get_inclusion_states := fun _ _ _ => None |}.

(** Without a configuration the PEM file is missing. *)
Lemma wallet_init_never_succeeds_witness :
  wallet_init (H := no_client) true config0 (Fsys ∅ ∅ ∅) = Ret (-1, None)
  /\ (-1, None) = ((-1, None) : Z * option (wallet_ctx_t (H := no_client))).
Proof.
  assert (wallet_init (H := no_client) true config0 (Fsys ∅ ∅ ∅) = Ret (-1, None)) as E
    by (vm_compute; reflexivity).
  split; [exact E | exact (wallet_init_never_succeeds (H := no_client) true config0 (Fsys ∅ ∅ ∅) (-1, None) E)].
Defined.

(** The wallet section of src/config.ini: its seed of 81 trytes and terminator
    fill the array, and the getter writes one more byte behind it. *)
Definition wallet_section : list cgroup :=
  [ {| g_name := cstr "wallet";
       g_lines := [ COpt (cstr "url") (cstr "nodes.comnet.thetangle.org");
                    COpt (cstr "seed")
                      (cstr "DEJUXV9ZQMIEXTWJJHJPLAWMOEKGAYDNALKSMCLG9APR9LCKHMLNZVCRFNFEPMGOBOYYIKJNYWSAKVPAI");
                    COpt (cstr "pem_file_path") (cstr "wallet_pem.txt"); COpt (cstr "mwm") (cstr "10");
                    COpt (cstr "port") (cstr "443"); COpt (cstr "depth") (cstr "3") ] |} ].

Lemma shipped_seed_overruns :
  (r ← config_manager_init (Some (render_config wallet_section)) config0;
   string_option r.2 (cstr "wallet") (cstr "seed") SEED_LEN) = Undef OobWrite.
Proof. vm_compute. reflexivity. Qed.

(** With a shorter seed the next option overruns its variable. *)
Lemma mwm_overruns :
  (r ← config_manager_init (Some (render_config
         [ {| g_name := cstr "wallet"; g_lines := [ COpt (cstr "mwm") (cstr "10") ] |} ])) config0;
   int_option r.2 (cstr "wallet") (cstr "mwm") 1) = Undef OobWrite.
Proof. vm_compute. reflexivity. Qed.
End MainWitness.
