(* ===== verification/Server.v ===== *)
(** * The life of the server ([main] of src/main.c, src/access/access.c, the start
      and stop of src/network/network.c)

    What [main] does from its first line to its return: the options, the policy
    loader and its thread, the access-control core, the wallet, the plugins, the
    network context and its thread, and the end of all of them.  The core of the
    SDK is a parameter.  The two threads run in between; their work is in
    PolicyLoader.v and Network.v. *)

From S2P Require Import Prelude CStd Config Wallet PolicyUpdater PolicyLoader Network Main.

(** The initializers [main] hands to [plugin_init]. *)
Inductive initializer : Set := PepPluginPrint | PapPluginPosix.

Class AccessSdk := {
  access_state : Type;
  plugin_t : Type;
  pep_init : access_state -> access_state;
  pip_init : access_state -> access_state;
  pip_start : access_state -> access_state;
  pip_term : access_state -> access_state;
  pep_term : access_state -> access_state;
  (** the plugin if the result is 0; the flag: whether the argument is not null *)
  plugin_init : initializer -> bool -> option plugin_t;
  pep_register_plugin : plugin_t -> access_state -> access_state;
  pip_register_plugin : plugin_t -> access_state -> access_state;
  pap_register_plugin : plugin_t -> access_state -> access_state
}.

(** ** access.c

    The three functions that register a plugin fall off their ends; their
    results are not used. *)
Section Access.
Context `{AccessSdk}.

Definition access_init (a : access_state) : access_state := pip_init (pep_init a).
Definition access_start (a : access_state) : access_state := pip_start a.
Definition access_term (a : access_state) : access_state := pep_term (pip_term a).
Definition access_register_pep_plugin (p : plugin_t) (a : access_state) : access_state := pep_register_plugin p a.
Definition access_register_pip_plugin (p : plugin_t) (a : access_state) : access_state := pip_register_plugin p a.
Definition access_register_pap_plugin (p : plugin_t) (a : access_state) : access_state := pap_register_plugin p a.
End Access.

(** ** The network context

    The block behind the pointer, with the handle of its thread; every function
    that fails or stops frees it and leaves the pointer as it is. *)
Inductive context : Type :=
| NoContext
| Context (c : network_ctx_internal_t) (t : thread)
| FreedContext.

Definition start_network (bind_ok listen_ok thread_ok : bool) (n : context) : out (Z * context) :=
  match n with
  | NoContext => Undef NullDeref
  | FreedContext => Undef OobWrite
  | Context c t =>
      let r := network_start bind_ok listen_ok thread_ok c in
      Ret (r.1, if r.2 then FreedContext else Context c CStd.Running)
  end.

(** The first access to a freed context is the store to its flag. *)
Definition network_stop (n : context) : out context :=
  match n with
  | NoContext => Ret NoContext
  | FreedContext => Undef OobWrite
  | Context _ t => _ ← pthread_join t; Ret FreedContext
  end.

(** ** main *)

Section Life.
Context `{IotaClient} `{AccessSdk}.

(** What the system answers: the two files, allocations, the memory of the fresh
    context, and the calls that start the threads. *)
Record environment := {
  config_ini : option bytes;
  env_files : fsys;
  env_alloc : bool;
  env_fresh : bytes;
  env_loader_thread : bool;
  env_bind : bool;
  env_listen : bool;
  env_thread : bool
}.

Record program := Program {
  p_config : config_manager_t;
  p_network : context;
  p_loader : loader_life;
  p_wallet : option wallet_ctx_t;
  p_clients : list client;              (* the clients that were destroyed *)
  p_access : access_state;
  p_updater : updater
}.

Definition register_plugin (i : initializer) (arg : bool) (register : plugin_t -> access_state -> access_state)
    (a : access_state) : access_state :=
  match plugin_init i arg with Some p => register p a | None => a end.

(** The static variables of the updater. *)
Definition updater0 : updater :=
  {| g_policy_updater_address := repeat 0 POLICY_UPDATER_ADDRESS_SIZE; g_policy_updater_port := 6007;
     g_user_address := repeat 0 POLICY_UPDATER_ADDRESS_SIZE; g_user_port := 9998 |}.

(** Up to the point where the network is started. *)
Definition main_start (e : environment) (a : access_state) : out program :=
  c ← config_manager_init (config_ini e) config0;
  let cfg := c.2 in
  _ ← client_name cfg;
  _ ← g_task_sleep_time cfg;
  _ ← policyloader_start cfg (repeat 0 POLICY_LOADER_STR_LEN) (repeat 0 (POLICY_LOADER_PUBLIC_KEY_B64_LEN + 1)) (-1);
  let loader := policyloader_create (env_loader_thread e) (LoaderLife false NotCreated) in
  let a := access_init a in
  w ← wallet_init (env_alloc e) cfg (env_files e);
  let a := register_plugin PepPluginPrint (bool_decide (is_Some w.2)) access_register_pep_plugin a in
  let a := register_plugin PapPluginPosix false access_register_pap_plugin a in
  n ← network_init (config_ini e) cfg updater0 (env_fresh e);
  let '(ctx, cfg, u) := n in
  Ret (Program cfg (Context ctx NotCreated) loader w.2 [] (access_start a) u).

(** The loop waits until a signal or the failed start clears [running]. *)
Definition main (e : environment) (a : access_state) : out (Z * program) :=
  p ← main_start e a;
  s ← start_network (env_bind e) (env_listen e) (env_thread e) (p_network p);
  n ← network_stop s.2;
  let a := access_term (p_access p) in
  l ← policyloader_stop (p_loader p);
  let '(w, destroyed) := wallet_destroy (Some (p_wallet p)) in
  Ret (0, Program (p_config p) n l.2 (default None w) destroyed a (p_updater p)).

(** Whether the threads of both components come into being. *)
Definition network_starts (e : environment) : bool := env_bind e && env_listen e && env_thread e.

Lemma network_start_life e c t : end_flag c = 0 ->
  exists code, start_network (env_bind e) (env_listen e) (env_thread e) (Context c t)
    = Ret (code, if network_starts e then Context c CStd.Running else FreedContext)
    /\ (code = NO_ERROR <-> network_starts e = true).
Proof.
  intros He. unfold start_network, network_start, network_starts. rewrite He. cbn [Z.eqb negb andb].
  destruct (env_bind e), (env_listen e), (env_thread e); cbn; eexists; (split; [reflexivity|]); done.
Qed.

Lemma main_start_wallet e a p : main_start e a = Ret p ->
  p_wallet p = None /\ (exists c, p_network p = Context c NotCreated /\ end_flag c = 0)
  /\ p_loader p = LoaderLife false (if env_loader_thread e then CStd.Running else NotCreated)
  /\ p_access p = access_start (register_plugin PapPluginPosix false access_register_pap_plugin
                    (register_plugin PepPluginPrint false access_register_pep_plugin (access_init a))).
Proof.
  unfold main_start. rewrite bind_Ret. intros (c & _ & E). revert E. rewrite bind_Ret. intros (? & _ & E).
  revert E. rewrite bind_Ret. intros (? & _ & E). revert E. rewrite bind_Ret. intros (? & _ & E).
  revert E. rewrite bind_Ret. intros (w & Hw & E). apply wallet_init_never_succeeds in Hw as ->.
  revert E. rewrite bind_Ret. intros ([[ctx cfg] u] & Hn & [= <-]). cbn [p_wallet p_network p_loader p_access snd].
  split; [done|]. split; [exists ctx; split; [done|] | done].
  revert Hn. unfold network_init. rewrite bind_Ret. intros (? & _ & E). revert E. rewrite bind_Ret.
  intros (? & _ & E). revert E. rewrite bind_Ret. by intros (? & _ & [= <- _ _]).
Qed.

(** C9: The life of the server.  Once its options are read, the program ends
    without a fault exactly when both threads came into being: then the network
    context is freed once, both threads have been joined, and the access core
    has gone through initialisation, the registered plugins, start and end in
    this order, without a wallet.  When the network cannot be started the
    context is freed and then used by the stop; when the loader's thread cannot
    be created, it is joined all the same. *)
Theorem server_life e a p :
  main_start e a = Ret p ->
  match main e a with
  | Ret (code, q) =>
      code = 0 /\ network_starts e = true /\ env_loader_thread e = true
      /\ p_network q = FreedContext /\ p_loader q = LoaderLife true Joined
      /\ p_wallet q = None /\ p_clients q = []
      /\ p_access q = pep_term (pip_term (pip_start (register_plugin PapPluginPosix false pap_register_plugin
                        (register_plugin PepPluginPrint false pep_register_plugin (pip_init (pep_init a))))))
  | Undef u =>
      (network_starts e = false /\ u = OobWrite)
      \/ (network_starts e = true /\ env_loader_thread e = false /\ u = Uninit)
  end.
Proof.
  intros E. destruct (main_start_wallet e a p E) as (Hw & (c & Hn & Hc) & Hl & Ha).
  unfold main. rewrite E, ret_bind, Hn.
  destruct (network_start_life e c NotCreated Hc) as (code & -> & _). rewrite ret_bind. cbn [snd].
  destruct (network_starts e) eqn:En; cbn [network_stop]; [|by left].
  run. rewrite Hl. unfold policyloader_stop. cbn [g_thread].
  destruct (env_loader_thread e) eqn:El; [|by right].
  run. rewrite Hw. cbn [wallet_destroy]. split_and!; try done. cbn [p_access]. by rewrite Ha.
Qed.
End Life.

(** ** Witness *)

Module ServerWitness.
(** A core that writes down what it is asked to do. *)
#[export] Instance recorder : AccessSdk := {|
  access_state := list (list Z); plugin_t := list Z;
  pep_init a := a ++ [cstr "pep_init"]; pip_init a := a ++ [cstr "pip_init"];
  pip_start a := a ++ [cstr "pip_start"]; pip_term a := a ++ [cstr "pip_term"];
  pep_term a := a ++ [cstr "pep_term"];
  plugin_init i _ := Some (match i with PepPluginPrint => cstr "print" | PapPluginPosix => cstr "posix" end);
  pep_register_plugin p a := a ++ [cstr "pep " ++ p]; pip_register_plugin p a := a ++ [cstr "pip " ++ p];
  pap_register_plugin p a := a ++ [cstr "pap " ++ p] |}.

(** A configuration with a port and a sleep period, and a network that may be refused. *)
Definition settings : list cgroup :=
  [ {| g_name := cstr "network"; g_lines := [ COpt (cstr "tcp_port") (cstr "9998") ] |};
    {| g_name := cstr "config"; g_lines := [ COpt (cstr "thread_sleep_period") (cstr "10000") ] |} ].

Definition env (bind loader : bool) : environment :=
  {| config_ini := Some (render_config settings); env_files := Fsys ∅ ∅ ∅; env_alloc := true;
     env_fresh := repeat 0 SEND_BUFF_LEN; env_loader_thread := loader;
     env_bind := bind; env_listen := true; env_thread := true |}.

#[local] Existing Instance MainWitness.no_client.

Definition nothing : access_state := @nil (list Z).

(** What is seen of a run. *)
Definition ending (m : out (Z * program)) : out (list (list Z) * context) := (fun r => (p_access r.2, p_network r.2)) <$> m.

Lemma server_life_witness :
  exists p, main_start (env true true) nothing = Ret p /\
  match main (env true true) nothing with
  | Ret (code, q) =>
      code = 0 /\ network_starts (env true true) = true /\ env_loader_thread (env true true) = true
      /\ p_network q = FreedContext /\ p_loader q = LoaderLife true Joined
      /\ p_wallet q = None /\ p_clients q = []
      /\ p_access q = pep_term (pip_term (pip_start (register_plugin PapPluginPosix false pap_register_plugin
                        (register_plugin PepPluginPrint false pep_register_plugin (pip_init (pep_init nothing))))))
  | Undef u =>
      (network_starts (env true true) = false /\ u = OobWrite)
      \/ (network_starts (env true true) = true /\ env_loader_thread (env true true) = false /\ u = Uninit)
  end.
Proof.
  destruct (main_start (env true true) nothing) as [p|u] eqn:E;
    [exists p; split; [reflexivity | exact (server_life (env true true) nothing p E)]
    | exfalso; revert E; vm_compute; intros [=]].
Defined.

Example a_clean_run :
  ending (main (env true true) nothing)
  = Ret ([cstr "pep_init"; cstr "pip_init"; cstr "pep print"; cstr "pap posix"; cstr "pip_start";
          cstr "pip_term"; cstr "pep_term"], FreedContext).
Proof. vm_compute. reflexivity. Qed.

Example a_refused_port : ending (main (env false true) nothing) = Undef OobWrite.
Proof. vm_compute. reflexivity. Qed.

Example no_loader_thread : ending (main (env true false) nothing) = Undef Uninit.
Proof. vm_compute. reflexivity. Qed.
End ServerWitness.
