(* ===== verification/RepoTests.v ===== *)
(** * The repository's test programs

    src/config_manager/implementations/ini/test.c, the command line of
    src/tests/relay_interface/relay_interface_test.c, the creation tests of
    src/wallet/tests/test_wallet.c and the helper of
    src/plugins/pap/posix/test_internal.c, on the models of what they test: the
    models print and return what the authors expect of the code. *)

From S2P Require Import Prelude CStd Config Relay Wallet.

(** ** Configuration *)

Module ConfigTest.
Definition g_config_ini : bytes :=
  mjoin (map (fun l => l ++ [10])
    [ cstr "[module1]"; cstr "option1=va1ue"; cstr "option2=v4lue"; cstr "[module2]";
      cstr "option1=m2vlue"; cstr "option2=v8leu"; cstr "option3=third" ]).

(** One query: the line to print when the option is found, with the suffix that
    says whether it should have been, and the line when it is not. *)
Definition query (cfg : config_manager_t) (m o : string) (found : string) (missing : Z -> bytes)
    (cfg_option_value : bytes) : out (bytes * bytes) :=
  r ← config_manager_get_option_string cfg (cstr m) (cstr o) cfg_option_value 2048;
  let '(status, value) := r in
  if negb (status =? CONFIG_MANAGER_OK) then Ret (missing status, value)
  else v ← c_str value; Ret (cstr m ++ cstr "->" ++ cstr o ++ cstr ": " ++ v ++ cstr found, value).

Definition bad (m o : string) (status : Z) : bytes :=
  cstr "get " ++ cstr m ++ cstr "->" ++ cstr o ++ cstr " failed! - This is NOT ok!" ++ [10]
  ++ cstr "status = " ++ show_dec status.
Definition fine (m o : string) (_ : Z) : bytes :=
  cstr "get " ++ cstr m ++ cstr "->" ++ cstr o ++ cstr " failed! - This is ok!".

(** The lines the test prints, without that of the file descriptor. *)
Definition config_test (cfg_option_value : bytes) : out (list bytes) :=
  i ← config_manager_init (Some g_config_ini) config0;
  let cfg := i.2 in
  a ← query cfg "module1" "option2" " OK" (bad "module1" "option2") cfg_option_value;
  b ← query cfg "module2" "option3" " OK" (bad "module2" "option3") a.2;
  c ← query cfg "module2" "option1" " OK" (bad "module2" "option1") b.2;
  d ← query cfg "module1" "option3" " NOT ok" (fine "module1" "option3") c.2;
  e ← query cfg "module3" "option4" " NOT ok" (fine "module3" "option4") d.2;
  f ← query cfg "module3" "option1" " NOt ok" (fine "module3" "option1") e.2;
  Ret [a.1; b.1; c.1; d.1; e.1; f.1].

(** The six lines are those the author calls right. *)
Example config_test_passes :
  config_test (repeat 0 2048)
  = Ret [ cstr "module1->option2: v4lue OK"; cstr "module2->option3: third OK";
          cstr "module2->option1: m2vlue OK"; cstr "get module1->option3 failed! - This is ok!";
          cstr "get module3->option4 failed! - This is ok!";
          cstr "get module3->option1 failed! - This is ok!" ].
Proof. vm_compute. reflexivity. Qed.
End ConfigTest.

(** ** Relays *)

Module RelayTest.
Section Main.
Context `{Pigpio}.

(** The program's arguments behind its name; only the first two are read. *)
Definition relay_test (args : list bytes) (b : board) : out (Z * board) :=
  match args with
  | command :: idx :: _ =>
      let named name := strncmp_eq command (cstr name) (length (cstr name)) in
      let call (f : Z -> board -> out (Z * board)) := i ← atoi idx; r ← f i b; Ret (0, r.2) in
      if named "on"%string then call relayinterface_on
      else if named "off"%string then call relayinterface_off
      else if named "toggle"%string then call relayinterface_toggle
      else if named "pulse"%string then call relayinterface_pulse
      else Ret (0, b)
  | _ => Ret (-1, b)
  end.

Definition command_name (c : relay_cmd) : bytes :=
  match c with
  | On _ => cstr "on" | Off _ => cstr "off" | Toggle _ => cstr "toggle" | Pulse _ => cstr "pulse"
  end.

(** A command line with the name of a command and a relay number runs the
    command, whatever follows the name; the code of the relay function is
    dropped. *)
Lemma relay_test_runs c suffix more b :
  0 <= cmd_idx c <= int_max ->
  relay_test ((command_name c ++ suffix) :: show_dec (cmd_idx c) :: more) b
  = (r ← run_cmd c b; Ret (0, r.2)).
Proof.
  intros Hi. unfold relay_test. rewrite (atoi_show_dec _ Hi), ret_bind.
  by destruct c; cbn [command_name cmd_idx run_cmd]; unfold strncmp_eq; cbn; destruct suffix.
Qed.
End Main.
End RelayTest.

(** ** Wallet *)

Module WalletTest.
Section Create.
Context `{IotaClient}.

Definition TEST_NODE_MWM : Z := 3.
Definition TEST_NODE_DEPTH : Z := 14.

(** The assertions on the wallet the test creates, with the arguments in the
    order of the test: the depth is called MWM and the other way round. *)
Definition test_create_destory_wallet (url ca test_seed : bytes) : bool :=
  match wallet_create true url 443 ca TEST_NODE_MWM TEST_NODE_DEPTH test_seed with
  | Some w =>
      (depth w =? 3) && (mwm w =? 14)
      && match (wallet_destroy (Some (Some w))).1 with Some None => true | _ => false end
  | None => false
  end.

(** A seed that is not valid gives no wallet, and destroying none is harmless. *)
Definition test_create_invalid_seed (url ca short : bytes) : bool :=
  match wallet_create true url 443 ca TEST_NODE_MWM TEST_NODE_DEPTH short with
  | None => match wallet_destroy (Some None) with (Some None, []) => true | _ => false end
  | Some _ => false
  end.

Lemma wallet_tests_pass url ca test_seed short :
  is_seed short = false -> is_seed test_seed = true ->
  is_Some (flex_trits_from_trytes test_seed) -> is_Some (iota_client_core_init url 443 ca) ->
  test_create_invalid_seed url ca short = true /\ test_create_destory_wallet url ca test_seed = true.
Proof.
  intros Hs Ht [t Et] [c Ec]. unfold test_create_invalid_seed, test_create_destory_wallet, wallet_create.
  by rewrite Hs, Ht, Et, Ec.
Qed.
End Create.
End WalletTest.

(** ** Policies *)

Module PapTest.
Definition TEST_CHECK_WHITESPACE (x : Z) : bool :=
  (x =? 32) || (x =? 9) || (x =? 13) || (x =? 10).

(** The loop over the object: [temp] and the number of characters in it. *)
Fixpoint normalize_loop (object temp : bytes) (charCnt : Z) : out (bytes * Z) :=
  match object with
  | [] => Ret (temp, charCnt)
  | c :: object =>
      if negb (TEST_CHECK_WHITESPACE c)
      then temp ← store temp charCnt c; normalize_loop object temp (charCnt + 1)
      else normalize_loop object temp charCnt
  end.

(** The count and the new block; [None]: the object was a null pointer.  An
    array of length 0 is declared before the length is tested. *)
Definition normalize_object (object : option bytes) (object_len : Z) : out (Z * option bytes) :=
  if object_len <=? 0 then Undef OobWrite else
  match object with
  | None => Ret (0, None)
  | Some o =>
      o ← slice 0 object_len o;
      r ← normalize_loop o (repeat 0 (Z.to_nat object_len)) 0;
      b ← slice 0 r.2 r.1; Ret (r.2, Some b)
  end.

Lemma normalize_loop_spec o : forall pre k,
  (length o <= k)%nat -> exists rest,
    normalize_loop o (pre ++ repeat 0 k) (Z.of_nat (length pre))
    = Ret (pre ++ filter (fun c => TEST_CHECK_WHITESPACE c = false) o ++ rest,
           Z.of_nat (length pre + length (filter (fun c => TEST_CHECK_WHITESPACE c = false) o))).
Proof.
  induction o as [|c o IH]; intros pre k Hk; cbn [normalize_loop].
  - exists (repeat 0 k). cbn. by rewrite Nat.add_0_r.
  - cbn [length] in Hk. destruct k as [|k]; [lia|].
    rewrite filter_cons. destruct (TEST_CHECK_WHITESPACE c) eqn:E; cbn [negb].
    + rewrite decide_False by done. apply IH. lia.
    + rewrite decide_True by done. cbn [repeat]. rewrite store_app, ret_bind by done.
      replace (pre ++ c :: repeat 0 k) with ((pre ++ [c]) ++ repeat 0 k) by by rewrite <- app_assoc.
      replace (Z.of_nat (length pre) + 1) with (Z.of_nat (length (pre ++ [c])))
        by (rewrite length_app; cbn [length]; lia).
      destruct (IH (pre ++ [c]) k) as (rest & ->); [lia|]. exists rest.
      rewrite <- app_assoc. cbn [app length]. rewrite length_app. cbn [length]. do 2 f_equal. lia.
Qed.

(** The object without its white space, and its length. *)
Lemma normalize_object_strips o junk :
  o <> [] ->
  let stripped := filter (fun c => TEST_CHECK_WHITESPACE c = false) o in
  normalize_object (Some (o ++ junk)) (Z.of_nat (length o))
  = Ret (Z.of_nat (length stripped), Some stripped).
Proof.
  intros Hne stripped. unfold normalize_object.
  assert (0 < length o)%nat by (destruct o; [done | cbn; lia]). zdec.
  rewrite slice_0_app, ret_bind, Nat2Z.id by done.
  destruct (normalize_loop_spec o [] (length o)) as (rest & Hr); [lia|]. cbn [app length] in Hr.
  change (Z.of_nat 0) with 0 in Hr. rewrite Hr, ret_bind. cbn [fst snd Nat.add].
  by rewrite slice_0_app, ret_bind.
Qed.
End PapTest.
